(* ===== verification/_CoqProject ===== *)
-Q . S2P
Prelude.v
JsString.v
JsNumber.v
JsArith.v
Url.v
Http.v
Api.v
Resources.v
React.v
Runtime.v
Components.v
Rewrites.v
Clients.v
Forwarding.v
ZoneForms.v
Zones.v
ZoneDirectory.v
Policies.v
Webhooks.v
Blocklists.v
CachePage.v
QueryLog.v
Dhcp.v
UpdateCenter.v
Backup.v
Cluster.v
Support.v
Dashboard.v
Analytics.v
Preferences.v
Settings.v
Session.v
CommandPalette.v
ScrollRegions.v
Focus.v
App.v
I18nEn.v
I18nDe.v
I18nEs.v
I18nPtBR.v
I18nNl.v
I18nPl.v
I18nCs.v
I18nSv.v
I18nJa.v
I18nKo.v
Translations.v
PageTexts.v
