(* ===== verification/Prelude.v ===== *)
(** * Velora DNS web console: a verification library

    Velora DNS is a DNS and DHCP server with a management API and a web console.
    This library verifies the console: the TypeScript and React code under
    web/src. The server, written in Go, is the other end of the API; here it is
    an arbitrary source of answers, so every theorem holds whatever it replies,
    in whatever order and whenever.

    ** How the program is put together

    AuthGate.tsx decides whether a user is signed in and mounts App.tsx. App
    polls a snapshot of the server (useSnapshot.ts), renders the navigation and
    the command palette, and routes the location to one page, passing it props
    such as a read-only flag derived from the user's role. A page keeps React
    state, reads and changes the server through api.ts and api-*.ts, polls in
    effects, and disables its controls while a request is running. The texts
    come from ten catalogs through a translation function.

    ** Files

    The ground:
    - Prelude: record update, shared tactics, list lemmas, the hint database.
    - JsString, JsNumber, Url: the parts of JavaScript's strings, numbers
      (doubles, [Number], [String]), [encodeURIComponent] and
      [URLSearchParams] that the code uses, and how a browser resolves the path
      of a URL ([resource]), as the reference for encoded paths. JsArith: division, products,
      powers of ten and comparisons of doubles, with the bounds the charts need.
    - Http: thrown values, JSON, fetch and promises. An [api T] maps the
      environment to the requests a call puts on the wire and to what it makes
      of each possible raw answer.
    - React: the monad handlers are written in (state updates, awaits, timers,
      try/catch/finally), and views, trees whose elements carry the events they
      can fire. [offered] says which events a user can cause: a control inside
      a disabled fieldset, or disabled itself, causes none, and a form is
      submitted through an enabled submit button.
    - Runtime: a component is an initial state, a view, handlers and effects.
      [step] is one uninterrupted stretch of JavaScript: an offered event, a
      reply, a timer, an effect whose dependencies changed (which cancels the
      tasks of its last run), new props from the parent, or unmounting.
      [reachable] is the closure. The file proves the rules the pages use:
      [invariant_reachable] for invariants of state and outputs,
      [exclusive_reachable] for busy flags, [locked_reachable] for pages locked
      while open, [accounted_reachable] for relations between state and history,
      [exclusive_clears] for flags that are cleared again,
      [controlled_reachable] for where the tasks of a page can be waiting, and
      [stepwise_step] for what every single step does to the state and sends.

    The client of the API:
    - Api: api.ts, with [request] and every call; Resources: api-*.ts.

    The components, one Module each with the source's names: state as a record
    [State], [init], one definition per function, [handle] for the event
    handlers, [view] and its parts for the JSX, and [page]:
    - Components: components/tone.ts, Badge, EmptyState, Stat; the browser's
      locale data as a class [Locale] with its laws; the promises of a page to
      the shell as classes [ViewerSafe], [OneAtATime], [LockSafe] and [Unblocks].
    - Rewrites, Clients, Forwarding, Policies, Webhooks, Blocklists, CachePage,
      QueryLog, Dhcp, UpdateCenter, Settings, Cluster: pages/*.tsx.
    - Backup: pages/BackupAssistant.tsx and RestorePanel.tsx.
    - Support: pages/EventCenter, AuditLog, Diagnostics, AnswerExplainer.
    - ZoneForms, Zones: zones/*.ts, zones/*.tsx and pages/Zones.tsx.
      ZoneDirectory: the abstract directory of zones they refine.
    - Dashboard: pages/Dashboard.tsx and components/OnboardingChecklist.tsx.
      Analytics: pages/Analytics.tsx; a chart that throws is [None].
    - Preferences: i18n/index.ts, theme.ts, LanguageProvider.tsx.
    - Session: the session calls of api.ts, AuthGate.tsx, useSnapshot.ts.
    - CommandPalette: components/CommandPalette.tsx. ScrollRegions:
      scroll-regions.ts. Focus: the menus' focus in App.tsx. App: App.tsx.
    - I18nEn to I18nKo: the catalogs, entry by entry; Translations: the table of
      catalogs and its checks; PageTexts: which keys the views ask for.

    ** What the theorems show

    - Safety of roles: a viewer can send no mutating request on any page routed
      with a flag ([app_viewer_read_only]), a page that becomes read-only while
      open stops at once ([zones_locked]), the palette respects roles.
    - No double submits ([app_one_mutation]) and no lost updates: in every step
      of every run a zone mutation is what the open form or dialog stands for,
      conditional on the revision of the zone that form was opened with
      ([zones_conditional]), and a conflict is reported, not applied.
    - Secrets: the stored token of a webhook leaves a form only as the text of an
      open token field ([webhook_token_kept]).
    - Liveness: a page that is busy waits for an answer that ends it, whatever
      the answer is ([app_busy_cleared]). Termination: the wait for an update to
      start ends ([update_start_ends]); sixteen answers at the polling interval
      are more than the thirty seconds allowed.
    - Refinement: the zones page implements a map from ids to zones, which only
      successful answers change ([zones_refine_directory]).
    - Functional behaviour of the operations on every branch: saving records,
      rewrites, settings, cluster actions; polls of updates, restores and the
      snapshot; superseded replies; paging ([cache_paging], [querylog_older]);
      the texts and marks of field errors ([settings_field_errors]); what
      [request] and the two calls of fetch beside it put on the wire
      ([request_wire]).
    - Confirmation: restores, deletions and cluster changes happen only after
      the user agreed.
    - Round trips: form fields and what they were filled from, text in URLs
      ([encoded_paths]: what a path with free text in it addresses); bounds of TTLs, priorities and pages, and of what the charts draw
      ([dashboard_chart_box], [analytics_bars]).
    - Well-formedness of the charts' selection after every event
      ([analytics_events_render]), and what exactly makes a chart throw
      ([analytics_throws]).
    - Language and theme: what is stored is what is shown, and the document
      follows both ([preferences_settled]).
    - Completeness of the catalogs ([catalogs_complete]), and that no view asks
      for a key they lack, apart from four keys made of strings the server
      chooses ([pages_texts]).
    - Four defects are shown by a run each: [palette_spinner_stuck],
      [audit_stale_reply], [analytics_stale_bucket] and
      [preferences_overwritten]; a fifth is a missing text: for a source that is
      not one of five the analytics show a bare key ([analytics_source_texts]).

    ** Conventions and bounds

    - Integers of the API are [Z]; numbers that can be fractions are [jsnum].
      Strings hold code units below 256; literals of the source with other
      characters appear as their UTF-8 bytes, which no theorem inspects.
    - An ok response carries a value of the type the call declares, so defaults
      for members that are declared present ([??] in Settings.tsx) do not apply.
      The configuration also carries members beyond the declared ones, which the
      settings page has to send back.
    - Writing to localStorage does not throw. Keys of texts contain a dot, so they
      never name what JavaScript objects inherit.
    - HTML constraint validation (required, maxLength, type=url) is not used:
      what is proved also holds for inputs a browser would reject.
    - Timers fire at any time after they are set; [now] of each step is
      arbitrary. The time of a render is a prop [clock].
    - [t] and the language are fixed within a run. A child with state of its own
      is either part of its parent's state (forms) or a component beside it
      ([Mount]); callbacks of a mounted child are events of the parent.
    - The token of [request] is read from the environment; [SetCSRFToken]
      records what the session stored.
    - Fuel appears in the ground files only: [StringZ] prints with one unit per
      binary digit, [decodeURIComponent] with the length of its input, and
      [num_str] and [log10_floor] with 400 steps to scale (a double is above
      10^-324 and below 10^309; [scale_down_spec] and [scale_up_spec] show that
      they are enough) and 16 to lengthen (17 significant digits identify a
      double). [Math.log10] is taken as exact. The views' recursion
      is structural and the runs are relations, so nothing else needs any.

    ** Not modelled

    Scroll positions and which element has the focus (Focus.v says where keys
    move it), the measuring of widths (ScrollRegions.v takes them as inputs),
    CSS, the entry point main.tsx, contexts that only pass values down, the
    bytes of downloads, tests and the screenshot and audit scripts under
    web/scripts, and the Go server. *)
From stdpp Require Export base list strings.
From Stdlib Require Export ZArith Lia Ascii.

#[global] Arguments String.app !_ _ / : simpl nomatch.

(** ** Record update

    A state record declares its eta expansion once ([Eta]); [s <| f := v |>]
    and [s <| f ::= g |>] then update one field. *)

Class Eta (R : Type) := eta : R -> R.

Class Setter {R T : Type} (f : R -> T) := modify : (T -> T) -> R -> R.
Arguments modify {R T} f {_} _ _ /.

Ltac derive_setter f :=
  let R := match type of f with ?R -> _ => R end in
  let inst := constr:(ltac:(typeclasses eauto) : Eta R) in
  let expand := eval hnf in inst in
  let g := fresh "g" in
  let s := fresh "s" in
  unfold Setter; intros g s;
  let whole := eval cbv beta in (expand s) in
  match eval pattern (f s) in whole with
  | ?h _ => let r := eval cbv beta in (h (g (f s))) in exact r
  end.

#[global] Hint Extern 0 (Setter ?f) => derive_setter f : typeclass_instances.

Declare Scope velora_scope.
Delimit Scope velora_scope with velora.

Notation "s <| f := v |>" := (modify f (fun _ => v) s)
  (at level 1, f at next level, left associativity) : velora_scope.
Notation "s <| f ::= g |>" := (modify f g s)
  (at level 1, f at next level, left associativity) : velora_scope.

(** ** JavaScript values that several components share *)

(** [x ?? d]: the nullish default, [None] standing for [null]/[undefined]. *)
Notation "x ?? d" := (default d x) (at level 40, left associativity) : velora_scope.

(** A string is truthy when it is not empty. *)
Definition truthy (s : string) : bool :=
  match s with EmptyString => false | String _ _ => true end.

(** [a || b] on strings: the first truthy operand. *)
Definition str_or (a b : string) : string := if truthy a then a else b.

(** A number is truthy when it is not zero. *)
Definition num_truthy (n : Z) : bool := negb (Z.eqb n 0).

Definition opt_is_some {A} (o : option A) : bool :=
  match o with Some _ => true | None => false end.

(** [l.length] as a condition. *)
Definition nonempty {A} (l : list A) : bool := match l with [] => false | _ => true end.

(** [l.find(p)] *)
Fixpoint find_first {A} (p : A -> bool) (l : list A) : option A :=
  match l with
  | [] => None
  | x :: l' => if p x then Some x else find_first p l'
  end.

(** [l.filter(p)] and [l.some(p)] with a boolean test. *)
Definition filterb {A} (p : A -> bool) (l : list A) : list A := List.filter p l.
Definition someb {A} (p : A -> bool) (l : list A) : bool := existsb p l.

(** ** Automation *)

Create HintDb velora.

Lemma truthy_false (s : string) : truthy s = false <-> s = EmptyString.
Proof. destruct s; simpl; split; congruence. Qed.

Lemma truthy_true (s : string) : truthy s = true <-> s <> EmptyString.
Proof. destruct s; simpl; split; congruence. Qed.

(** Break the boolean connectives of every hypothesis. *)
Ltac destruct_bool_hyps :=
  repeat match goal with
  | H : andb _ _ = true |- _ =>
      let H' := fresh H in apply andb_prop in H; destruct H as [H H']
  | H : orb _ _ = false |- _ =>
      let H' := fresh H in apply orb_false_elim in H; destruct H as [H H']
  | H : negb _ = true |- _ => apply negb_true_iff in H
  | H : negb _ = false |- _ => apply negb_false_iff in H
  end.

(** Close a goal by case analysis on the first stuck match, repeatedly. *)
Ltac case_all :=
  repeat match goal with
  | |- context [match ?x with _ => _ end] => destruct x eqn:?
  end.

Section Lists.
Context {A : Type}.
Implicit Types (l : list A) (p : A -> bool).

Lemma find_first_Some p l x :
  find_first p l = Some x -> In x l /\ p x = true.
Proof.
  induction l as [|y l IH]; simpl; [done|].
  destruct (p y) eqn:E; intros H; [injection H as <-; auto|].
  destruct (IH H); auto.
Qed.

Lemma find_first_None p l :
  find_first p l = None <-> (forall x, In x l -> p x = false).
Proof.
  induction l as [|y l IH]; simpl; [naive_solver|].
  destruct (p y) eqn:E; [|naive_solver].
  split; [done|]. intros H. specialize (H y (or_introl eq_refl)). congruence.
Qed.

Lemma In_filterb p l x : In x (filterb p l) <-> In x l /\ p x = true.
Proof. apply filter_In. Qed.

Lemma NoDup_map_filterb {B} (f : A -> B) p l :
  List.NoDup (map f l) -> List.NoDup (map f (filterb p l)).
Proof.
  induction l as [|x l IH]; simpl; [done|].
  intros H. apply List.NoDup_cons_iff in H as [Hx Hl].
  destruct (p x); simpl; [|by apply IH].
  apply List.NoDup_cons_iff. split; [|by apply IH].
  intros Hin. apply Hx. apply in_map_iff in Hin as (y & Hy & Hin).
  apply in_map_iff. exists y. split; [done|]. by apply In_filterb in Hin as [? _].
Qed.

Lemma NoDup_app_snoc l x : List.NoDup l -> ~ In x l -> List.NoDup (l ++ [x]).
Proof.
  intros Hl Hx. eapply Permutation.Permutation_NoDup; [symmetry; apply Permutation_app_comm|].
  by constructor.
Qed.
End Lists.

Lemma lookup_snoc {A} (l : list A) x : (l ++ [x])%list !! length l = Some x.
Proof. by rewrite lookup_app_r, Nat.sub_diag by lia. Qed.

Lemma insert_snoc {A} (l : list A) x y : (<[length l := y]> (l ++ [x]) = l ++ [y])%list.
Proof. by rewrite insert_app_r_alt, Nat.sub_diag by lia. Qed.

Lemma In_imap {A B} (f : nat -> A -> B) l y : In y (imap f l) -> exists i x, In x l /\ y = f i x.
Proof.
  rewrite <- list_elem_of_In. intros H. apply elem_of_lookup_imap_1 in H as (i & x & -> & Hx).
  exists i, x. split; [|done]. by apply list_elem_of_In, list_elem_of_lookup_2 with i.
Qed.

#[export] Hint Resolve NoDup_map_filterb : velora.
