(* ===== verification/JsString.v ===== *)
(** * JavaScript strings

    The string operations the console uses, on [string]s read as sequences of
    code units below 256 (Latin-1): whitespace, case mapping and length are
    exactly JavaScript's on that range. *)
From S2P Require Import Prelude.
Local Open Scope velora_scope.
Local Open Scope string_scope.

(** ** Characters *)

Definition code (c : ascii) : nat := Ascii.nat_of_ascii c.

(** [\s]: TAB, LF, VT, FF, CR, SPACE and NO-BREAK SPACE. *)
Definition is_space (c : ascii) : bool :=
  let n := code c in
  (((9 <=? n) && (n <=? 13)) || (n =? 32) || (n =? 160))%nat.

Definition is_comma (c : ascii) : bool := (code c =? 44)%nat.

(** [/[\s,]/] *)
Definition is_list_sep (c : ascii) : bool := is_space c || is_comma c.

Definition to_lower_char (c : ascii) : ascii :=
  let n := code c in
  if (((65 <=? n) && (n <=? 90)) || ((192 <=? n) && (n <=? 222) && negb (n =? 215)))%nat
  then Ascii.ascii_of_nat (n + 32) else c.

(** ** Operations *)

Fixpoint toLowerCase (s : string) : string :=
  match s with
  | EmptyString => EmptyString
  | String c s' => String (to_lower_char c) (toLowerCase s')
  end.

Fixpoint trimStart (s : string) : string :=
  match s with
  | EmptyString => EmptyString
  | String c s' => if is_space c then trimStart s' else s
  end.

Fixpoint all_space (s : string) : bool :=
  match s with
  | EmptyString => true
  | String c s' => is_space c && all_space s'
  end.

Fixpoint trimEnd (s : string) : string :=
  match s with
  | EmptyString => EmptyString
  | String c s' => if is_space c && all_space s' then EmptyString else String c (trimEnd s')
  end.

Definition trim (s : string) : string := trimEnd (trimStart s).

Fixpoint startsWith (needle s : string) : bool :=
  match needle, s with
  | EmptyString, _ => true
  | String a n', String b s' => Ascii.eqb a b && startsWith n' s'
  | String _ _, EmptyString => false
  end.

Fixpoint includes (needle s : string) : bool :=
  startsWith needle s ||
  match s with EmptyString => false | String _ s' => includes needle s' end.

(** [s.endsWith(suffix)] and the prefix that is left: [s.slice(0, -n)]. *)
Definition endsWith (suffix s : string) : bool :=
  let n := String.length s in
  let k := String.length suffix in
  (k <=? n)%nat && String.eqb (String.substring (n - k) k s) suffix.

Definition slice_end (s : string) (k : nat) : string :=
  String.substring 0 (String.length s - k) s.

Fixpoint joinStrings (sep : string) (l : list string) : string :=
  match l with
  | [] => ""
  | [x] => x
  | x :: l' => x +:+ sep +:+ joinStrings sep l'
  end.

Definition starts_sep (p : ascii -> bool) (s : string) : bool :=
  match s with EmptyString => false | String c _ => p c end.

(** [s.split(/[p]+/)]: a run of separators is one cut, and a leading or a
    trailing run leaves an empty piece. *)
Fixpoint split_runs (p : ascii -> bool) (s : string) : list string :=
  match s with
  | EmptyString => [""]
  | String c s' =>
      let rest := split_runs p s' in
      if p c then (if starts_sep p s' then rest else "" :: rest)
      else match rest with
           | h :: tl => String c h :: tl
           | [] => [String c EmptyString]
           end
  end.

(** [s.split(",")]: every comma cuts. *)
Fixpoint split_each (p : ascii -> bool) (s : string) : list string :=
  match s with
  | EmptyString => [""]
  | String c s' =>
      let rest := split_each p s' in
      if p c then "" :: rest
      else match rest with
           | h :: tl => String c h :: tl
           | [] => [String c EmptyString]
           end
  end.

(** [s.split(/[\s,]+/).filter(Boolean)] *)
Definition split_list (s : string) : list string := filterb truthy (split_runs is_list_sep s).

(** [s.split(/\s+/).filter(Boolean)] *)
Definition split_words (s : string) : list string := filterb truthy (split_runs is_space s).

(** ** Laws *)

(** A word: not empty, and no separator inside. *)
Fixpoint no_sep (p : ascii -> bool) (s : string) : bool :=
  match s with
  | EmptyString => true
  | String c s' => negb (p c) && no_sep p s'
  end.

Definition is_word (p : ascii -> bool) (s : string) : bool := truthy s && no_sep p s.

Lemma append_nil_r (s : string) : s +:+ "" = s.
Proof. induction s as [|c s IH]; simpl; [done|]. by rewrite IH. Qed.

Lemma append_assoc (a b c : string) : (a +:+ b) +:+ c = a +:+ (b +:+ c).
Proof. induction a as [|x a IH]; simpl; [done|]. by rewrite IH. Qed.

Section SplitRuns.
Context (p : ascii -> bool).

Lemma split_runs_not_nil s : split_runs p s <> [].
Proof.
  induction s as [|c s IH]; simpl; [done|].
  case_all; congruence.
Qed.

Lemma split_runs_word s r :
  no_sep p s = true ->
  split_runs p (s +:+ r) =
    match split_runs p r with
    | h :: tl => (s +:+ h) :: tl
    | [] => [s]
    end.
Proof.
  induction s as [|c s IH]; simpl; intros H.
  - pose proof (split_runs_not_nil r).
    destruct (split_runs p r); done.
  - destruct_bool_hyps. rewrite IH by done. rewrite H.
    pose proof (split_runs_not_nil r). destruct (split_runs p r); done.
Qed.

Lemma no_sep_starts s r :
  is_word p s = true -> starts_sep p (s +:+ r) = false.
Proof.
  unfold is_word. destruct s as [|c s]; simpl; [done|].
  intros H. destruct_bool_hyps. done.
Qed.

(** A run of separators before anything else is one cut. *)
Lemma split_runs_seps sep r :
  no_sep (fun c => negb (p c)) sep = true -> sep <> "" -> starts_sep p r = false ->
  split_runs p (sep +:+ r) = "" :: split_runs p r.
Proof.
  intros Hs Hne Hr. induction sep as [|c sep IH]; [done|]. simpl in Hs. destruct_bool_hyps.
  simpl. rewrite Hs. destruct sep as [|c' sep]; [simpl; by rewrite Hr|].
  assert (starts_sep p (String c' sep +:+ r) = true) as ->.
  { simpl in Hs0 |- *. by destruct_bool_hyps. }
  by apply IH.
Qed.

(** Cutting a list of words joined by separators gives the words back. *)
Lemma split_runs_join sep l :
  no_sep (fun c => negb (p c)) sep = true -> sep <> "" ->
  Forall (fun s => is_word p s = true) l ->
  filterb truthy (split_runs p (joinStrings sep l)) = l.
Proof.
  intros Hsep Hne Hl. induction Hl as [|w l Hw Hl IH]; [done|].
  pose proof Hw as Hw'. unfold is_word in Hw'. apply andb_prop in Hw' as [Ht Hn].
  destruct l as [|w' l].
  - simpl joinStrings. rewrite <- (append_nil_r w) at 1.
    rewrite split_runs_word by done. simpl. rewrite append_nil_r.
    unfold filterb. simpl. by rewrite Ht.
  - change (joinStrings sep (w :: w' :: l)) with (w +:+ sep +:+ joinStrings sep (w' :: l)).
    rewrite split_runs_word by done.
    set (r := joinStrings sep (w' :: l)) in *.
    assert (starts_sep p r = false) as Hr.
    { apply Forall_inv in Hl. subst r. destruct l; simpl.
      - rewrite <- (append_nil_r w'). by apply no_sep_starts.
      - by apply no_sep_starts. }
    rewrite split_runs_seps by done. rewrite append_nil_r.
    unfold filterb in *. simpl List.filter. rewrite Ht. f_equal. exact IH.
Qed.
End SplitRuns.

(** The list editors of the console round-trip: [l.join(", ")] cut at
    [/[\s,]+/] gives [l] back, for words without separators. *)
Lemma split_list_join l :
  Forall (fun s => is_word is_list_sep s = true) l ->
  split_list (joinStrings ", " l) = l.
Proof. by apply split_runs_join. Qed.

(** Every piece that [split_list] returns is a word. *)
Lemma split_runs_no_sep p s : Forall (fun w => no_sep p w = true) (split_runs p s).
Proof.
  induction s as [|c s IH]; simpl; [by repeat constructor|].
  destruct (p c) eqn:E.
  - destruct (starts_sep p s); [done|]. by constructor.
  - destruct (split_runs p s); [by repeat constructor; simpl; rewrite E|].
    inversion_clear IH. constructor; [simpl; by rewrite E|done].
Qed.

Lemma split_list_words s : Forall (fun w => is_word is_list_sep w = true) (split_list s).
Proof.
  apply List.Forall_forall. intros w Hw. unfold split_list in Hw.
  apply In_filterb in Hw as [Hin Ht]. unfold is_word. rewrite Ht. simpl.
  pose proof (split_runs_no_sep is_list_sep s) as HF.
  rewrite List.Forall_forall in HF. by apply HF.
Qed.

(** *** Trimming *)

Lemma trimEnd_all_space s : all_space s = true -> trimEnd s = "".
Proof.
  destruct s as [|c s]; simpl; [done|]. intros H. by rewrite H.
Qed.

Lemma all_space_trimEnd s : all_space (trimEnd s) = all_space s.
Proof.
  induction s as [|c s IH]; simpl; [done|].
  destruct (is_space c && all_space s) eqn:E; [done|]. simpl. by rewrite IH.
Qed.

Lemma trimEnd_idemp s : trimEnd (trimEnd s) = trimEnd s.
Proof.
  induction s as [|c s IH]; simpl; [done|].
  destruct (is_space c && all_space s) eqn:E; [done|]. simpl.
  by rewrite all_space_trimEnd, E, IH.
Qed.

Lemma trimStart_idemp s : trimStart (trimStart s) = trimStart s.
Proof.
  induction s as [|c s IH]; simpl; [done|].
  destruct (is_space c) eqn:E; [done|]. simpl. by rewrite E.
Qed.

Lemma trimStart_trimEnd s : trimStart s = s -> trimStart (trimEnd s) = trimEnd s.
Proof.
  destruct s as [|c s]; simpl; [done|].
  destruct (is_space c) eqn:E; simpl.
  - intros H. exfalso.
    assert (forall x, String.length (trimStart x) <= String.length x) as Hlen.
    { induction x as [|d x IHx]; simpl; [lia|]. destruct (is_space d); simpl; lia. }
    specialize (Hlen s). rewrite H in Hlen. simpl in Hlen. lia.
  - intros _. by rewrite E.
Qed.

Lemma trim_idemp s : trim (trim s) = trim s.
Proof.
  unfold trim. rewrite trimStart_trimEnd by apply trimStart_idemp.
  by rewrite trimEnd_idemp.
Qed.
#[export] Hint Rewrite trim_idemp : velora.

Lemma no_sep_all_space s c : no_sep is_space (String c s) = true -> all_space (String c s) = false.
Proof. simpl. intros H. destruct_bool_hyps. by rewrite H. Qed.

Lemma trimEnd_no_space s : no_sep is_space s = true -> trimEnd s = s.
Proof.
  induction s as [|c s IH]; simpl; [done|]. intros H. destruct_bool_hyps.
  rewrite H. simpl. by rewrite IH.
Qed.

Lemma trim_no_space s : no_sep is_space s = true -> trim s = s.
Proof.
  intros H. unfold trim. destruct s as [|c s]; [done|].
  pose proof H as H'. simpl in H'. destruct_bool_hyps.
  cbn [trimStart]. rewrite H'. by apply trimEnd_no_space.
Qed.

(** *** Appending and cutting *)

Lemma length_append a b : String.length (a +:+ b) = String.length a + String.length b.
Proof. induction a as [|c a IH]; simpl; [done|]. by rewrite IH. Qed.

Lemma substring_full s : String.substring 0 (String.length s) s = s.
Proof. induction s as [|c s IH]; simpl; [done|]. by rewrite IH. Qed.

Lemma substring_append_l a b : String.substring 0 (String.length a) (a +:+ b) = a.
Proof. induction a as [|c a IH]; simpl; [by destruct b|]. by rewrite IH. Qed.

Lemma substring_append_r a b : String.substring (String.length a) (String.length b) (a +:+ b) = b.
Proof. induction a as [|c a IH]; simpl; [apply substring_full|done]. Qed.

Lemma endsWith_append a b : endsWith b (a +:+ b) = true.
Proof.
  unfold endsWith. rewrite length_append.
  replace (String.length a + String.length b - String.length b) with (String.length a) by lia.
  rewrite substring_append_r, String.eqb_refl, andb_true_r.
  apply Nat.leb_le. lia.
Qed.

Lemma slice_end_append a b : slice_end (a +:+ b) (String.length b) = a.
Proof.
  unfold slice_end. rewrite length_append.
  replace (String.length a + String.length b - String.length b) with (String.length a) by lia.
  apply substring_append_l.
Qed.

Lemma substring_split n s : (n <= String.length s)%nat ->
  s = String.substring 0 n s +:+ String.substring n (String.length s - n) s.
Proof.
  revert n. induction s as [|c s IH]; intros [|n] Hn; simpl in *; try done; try lia.
  - by rewrite substring_full.
  - by rewrite <- (IH n) by lia.
Qed.

Lemma endsWith_split b s : endsWith b s = true -> exists a, s = a +:+ b.
Proof.
  unfold endsWith. intros H. apply andb_prop in H as [Hl He].
  apply Nat.leb_le in Hl. apply String.eqb_eq in He.
  exists (String.substring 0 (String.length s - String.length b) s).
  rewrite <- He at 2.
  rewrite (substring_split (String.length s - String.length b) s) at 1 by lia. f_equal. f_equal. lia.
Qed.

(** The comma lists of the forms: [s.split(",").map(trim).filter(Boolean)]. *)
Definition comma_list (s : string) : list string := filterb truthy (map trim (split_each is_comma s)).

(** An entry that survives: trimmed, not empty, without commas. *)
Definition is_entry (s : string) : bool :=
  truthy s && no_sep is_comma s && String.eqb (trim s) s.

Lemma split_each_not_nil p s : split_each p s <> [].
Proof. destruct s; simpl; case_all; congruence. Qed.

Lemma split_each_word p s r :
  no_sep p s = true ->
  split_each p (s +:+ r) = match split_each p r with h :: tl => (s +:+ h) :: tl | [] => [s] end.
Proof.
  induction s as [|c s IH]; simpl; intros H.
  - pose proof (split_each_not_nil p r). destruct (split_each p r); done.
  - destruct_bool_hyps. rewrite IH by done. rewrite H.
    pose proof (split_each_not_nil p r). destruct (split_each p r); done.
Qed.

Lemma trim_space s : trim (String " " s) = trim s.
Proof. reflexivity. Qed.

(** Joined with a comma and a blank, the entries come back. *)
Lemma comma_list_join l :
  Forall (fun s => is_entry s = true) l -> comma_list (joinStrings ", " l) = l.
Proof.
  unfold comma_list. intros Hl. induction Hl as [|w l Hw Hl IH]; [done|].
  unfold is_entry in Hw. apply andb_prop in Hw as [Hw Ht]. apply andb_prop in Hw as [Hn Hc].
  apply String.eqb_eq in Ht. destruct l as [|w' l].
  - simpl joinStrings. rewrite <- (append_nil_r w) at 1. rewrite split_each_word by done.
    simpl. rewrite append_nil_r, Ht. unfold filterb. simpl. by rewrite Hn.
  - change (joinStrings ", " (w :: w' :: l)) with (w +:+ String "," (String " " (joinStrings ", " (w' :: l)))).
    rewrite split_each_word by done. set (r := joinStrings ", " (w' :: l)) in *.
    cbn [split_each]. change (is_comma ",") with true. change (is_comma " ") with false. cbn iota.
    pose proof (split_each_not_nil is_comma r) as Hr. destruct (split_each is_comma r) as [|h tl]; [done|].
    rewrite append_nil_r. unfold filterb in *. cbn [map List.filter]. rewrite trim_space, Ht, Hn.
    f_equal. exact IH.
Qed.
