(* ===== verification/JsNumber.v ===== *)
(** * JavaScript numbers

    [Number(s)], [String(n)] and the tests the forms apply to them. A number
    is a double: [NaN], an infinity, or [m * 2^e]. [Number] parses the whole
    StringNumericLiteral grammar and rounds to 53 significant bits, ties to
    even. *)
From S2P Require Import Prelude JsString.
Local Open Scope velora_scope.
Local Open Scope Z_scope.

Inductive jsnum :=
| NaN
| Infinity (negative : bool)
| Fin (m e : Z).

#[export] Instance jsnum_eq_dec : EqDecision jsnum.
Proof. solve_decision. Defined.

Definition num (n : Z) : jsnum := Fin n 0.

(** ** Rounding to a double *)

(** [a / b] rounded to the nearest integer, ties to even, for [b > 0]. *)
Definition div_half_even (a b : Z) : Z :=
  let q := a / b in
  let r := a mod b in
  match Z.compare (2 * r) b with
  | Lt => q
  | Gt => q + 1
  | Eq => if Z.even q then q else q + 1
  end.

(** The double nearest to [n / d], for [n, d > 0]. *)
Definition round_ratio (n d : Z) : jsnum :=
  let e0 := Z.log2 n - Z.log2 d in
  let below := if 0 <=? e0 then n <? d * 2 ^ e0 else n * 2 ^ (- e0) <? d in
  let e := Z.max (-1074) ((if below then e0 - 1 else e0) - 52) in
  let m := if 0 <=? e then div_half_even n (d * 2 ^ e) else div_half_even (n * 2 ^ (- e)) d in
  if (0 <=? e) && (2 ^ 1024 <=? m * 2 ^ e) then Infinity false else Fin m e.

Definition negate (x : jsnum) : jsnum :=
  match x with
  | NaN => NaN
  | Infinity b => Infinity (negb b)
  | Fin m e => Fin (- m) e
  end.

(** The double nearest to [m * 10^e], for [m >= 0]. *)
Definition decimal_double (m e : Z) : jsnum :=
  if m =? 0 then num 0
  else if 0 <=? e then round_ratio (m * 10 ^ e) 1 else round_ratio m (10 ^ (- e)).

(** ** Parsing *)

Definition digit_value (c : ascii) : option Z :=
  let n := Z.of_nat (code c) in
  if (48 <=? n) && (n <=? 57) then Some (n - 48)
  else if (97 <=? n) && (n <=? 122) then Some (n - 87)
  else if (65 <=? n) && (n <=? 90) then Some (n - 55)
  else None.

(** The longest prefix of digits of base [b]: its value over [acc], how many
    digits it has, and what follows. *)
Fixpoint take_digits (b : Z) (acc : Z) (s : string) : Z * Z * string :=
  match s with
  | EmptyString => (acc, 0, s)
  | String c s' =>
      match digit_value c with
      | Some d =>
          if d <? b
          then let '(v, k, r) := take_digits b (acc * b + d) s' in (v, k + 1, r)
          else (acc, 0, s)
      | None => (acc, 0, s)
      end
  end.

(** An optional [e] or [E] exponent that ends the literal. *)
Definition parse_exponent (s : string) : option Z :=
  match s with
  | EmptyString => Some 0
  | String c s' =>
      if Ascii.eqb (to_lower_char c) "e"%char then
        let '(neg, s'') :=
          match s' with
          | String "-"%char r => (true, r)
          | String "+"%char r => (false, r)
          | _ => (false, s')
          end in
        let '(v, k, r) := take_digits 10 0 s'' in
        if (0 <? k) && negb (truthy r) then Some (if neg then - v else v) else None
      else None
  end.

(** StrUnsignedDecimalLiteral *)
Definition parse_unsigned (s : string) : jsnum :=
  if String.eqb s "Infinity"%string then Infinity false
  else
    let '(ip, ik, r) := take_digits 10 0 s in
    let '(m, fk, r') :=
      match r with
      | String "."%char r1 => let '(v, k, r2) := take_digits 10 ip r1 in (v, k, r2)
      | _ => (ip, 0, r)
      end in
    if ik + fk =? 0 then NaN
    else match parse_exponent r' with
         | Some x => decimal_double m (x - fk)
         | None => NaN
         end.

Definition parse_radix (b : Z) (s : string) : jsnum :=
  let '(v, k, r) := take_digits b 0 s in
  if (0 <? k) && negb (truthy r) then decimal_double v 0 else NaN.

(** The prefixes [0x], [0o] and [0b], in either case. *)
Definition radix_prefix (c : ascii) (r : string) : option (Z * string) :=
  if Ascii.eqb c "0"%char then
    match r with
    | String d r' =>
        let l := to_lower_char d in
        if Ascii.eqb l "x"%char then Some (16, r')
        else if Ascii.eqb l "o"%char then Some (8, r')
        else if Ascii.eqb l "b"%char then Some (2, r')
        else None
    | EmptyString => None
    end
  else None.

(** [Number(s)] *)
Definition Number (s : string) : jsnum :=
  match trim s with
  | EmptyString => num 0
  | String c r =>
      if Ascii.eqb c "-"%char then negate (parse_unsigned r)
      else if Ascii.eqb c "+"%char then parse_unsigned r
      else match radix_prefix c r with
           | Some (b, r') => parse_radix b r'
           | None => parse_unsigned (String c r)
           end
  end.

(** ** Tests *)

(** The integer a double denotes, when [Number.isInteger] holds of it. *)
Definition to_integer (x : jsnum) : option Z :=
  match x with
  | Fin m e =>
      if 0 <=? e then Some (m * 2 ^ e)
      else if m mod 2 ^ (- e) =? 0 then Some (m / 2 ^ (- e)) else None
  | _ => None
  end.

Definition isInteger (x : jsnum) : bool := opt_is_some (to_integer x).

(** [x < n] and [x > n] against an integer constant; both false on [NaN]. *)
Definition num_ltb (x : jsnum) (n : Z) : bool :=
  match x with
  | NaN => false
  | Infinity neg => neg
  | Fin m e => if 0 <=? e then m * 2 ^ e <? n else m <? n * 2 ^ (- e)
  end.

Definition num_gtb (x : jsnum) (n : Z) : bool :=
  match x with
  | NaN => false
  | Infinity neg => negb neg
  | Fin m e => if 0 <=? e then n <? m * 2 ^ e else n * 2 ^ (- e) <? m
  end.

(** [x === n] for an integer, and a number as a condition. *)
Definition num_is (x : jsnum) (n : Z) : bool :=
  match to_integer x with Some m => m =? n | None => false end.

Definition jsnum_truthy (x : jsnum) : bool :=
  match x with NaN => false | Infinity _ => true | Fin m _ => negb (m =? 0) end.

(** [x + 1] for a natural number. *)
Definition num_succ (x : jsnum) : jsnum :=
  match to_integer x with Some n => round_ratio (n + 1) 1 | None => x end.

(** [x || 1] *)
Definition num_or_one (x : jsnum) : jsnum := if jsnum_truthy x then x else num 1.

(** ** Printing: [String(n)] for an integer *)

Definition digit_char (d : Z) : ascii := Ascii.ascii_of_nat (Z.to_nat (48 + d)).

Fixpoint print_digits (fuel : nat) (n : Z) : string :=
  match fuel with
  | O => EmptyString
  | S f =>
      if n <? 10 then String (digit_char n) EmptyString
      else print_digits f (n / 10) +:+ String (digit_char (n mod 10)) EmptyString
  end.

Definition StringZ (n : Z) : string :=
  if n <? 0 then String "-"%char (print_digits (S (Z.to_nat (Z.log2 (- n)))) (- n))
  else print_digits (S (Z.to_nat (Z.log2 n))) n.

(** ** Formatting *)

Fixpoint zeros (n : nat) : string :=
  match n with O => EmptyString | S n' => String "0"%char (zeros n') end.

(** [n / 10^d] written with [d] decimals, for [n >= 0]. *)
Definition decimals (d : nat) (n : Z) : string :=
  let s := StringZ n in
  let s := zeros (S d - String.length s) +:+ s in
  match d with
  | O => s
  | _ => slice_end s d +:+ "." +:+ String.substring (String.length s - d) d s
  end.

(** [x.toFixed(d)]: the nearest multiple of [10^-d], the larger one on a tie. *)
Definition toFixed (d : nat) (x : jsnum) : string :=
  match x with
  | NaN => "NaN"
  | Infinity neg => if neg then "-Infinity" else "Infinity"
  | Fin m e =>
      let abs := Z.abs m * 10 ^ Z.of_nat d in
      let n := if 0 <=? e then abs * 2 ^ e
               else (2 * abs + 2 ^ (- e)) / (2 * 2 ^ (- e)) in
      (if m <? 0 then "-" else "") +:+ decimals d n
  end.

(** [Math.round(x)] as text. *)
Definition round_str (x : jsnum) : string :=
  match x with
  | NaN => "NaN"
  | Infinity neg => if neg then "-Infinity" else "Infinity"
  | Fin m e =>
      StringZ (if 0 <=? e then m * 2 ^ e else (2 * m + 2 ^ (- e)) / (2 * 2 ^ (- e)))
  end.

(** ** Arithmetic and [String(x)] for any double *)

(** The double of a quotient of integers, [b > 0]. *)
Definition ratio (a b : Z) : jsnum :=
  if a =? 0 then num 0
  else if a <? 0 then negate (round_ratio (- a) b) else round_ratio a b.

(** [x * n] for an integer [n >= 0]. *)
Definition mul_int (x : jsnum) (n : Z) : jsnum :=
  match x with
  | Fin m e => if 0 <=? e then ratio (m * 2 ^ e * n) 1 else ratio (m * n) (2 ^ (- e))
  | _ => x
  end.

(** [Math.max(0, Math.min(1, x))] *)
Definition clamp01 (x : jsnum) : jsnum :=
  match x with
  | NaN => NaN
  | _ => if num_ltb x 0 then num 0 else if num_gtb x 1 then num 1 else x
  end.

(** How often [v / d] has to be multiplied by ten to reach one. *)
Fixpoint scale_up (fuel : nat) (v d : Z) : Z :=
  match fuel with
  | O => 0
  | S f => if d <=? v then 0 else 1 + scale_up f (v * 10) d
  end.

(** The shortest digits [s], [k] of them, that read back as [v / d]; [n] is
    the position of the decimal point. *)
Fixpoint shortest (fuel : nat) (k n v d : Z) : Z * Z :=
  let s := if n <=? k then div_half_even (v * 10 ^ (k - n)) d else div_half_even v (d * 10 ^ (n - k)) in
  match fuel with
  | O => (s, k)
  | S f => if bool_decide (decimal_double s (n - k) = round_ratio v d) then (s, k)
           else shortest f (k + 1) n v d
  end.

Definition positive_str (v d : Z) : string :=
  let n := if d <=? v then Z.of_nat (String.length (StringZ (v / d))) else 1 - scale_up 400 v d in
  let '(s, k) := shortest 16 1 n v d in
  let digits := StringZ s in
  let nat z := Z.to_nat z in
  if (k <=? n) && (n <=? 21) then digits +:+ zeros (nat (n - k))
  else if (0 <? n) && (n <=? 21) then
    String.substring 0 (nat n) digits +:+ "." +:+ String.substring (nat n) (nat (k - n)) digits
  else if (-6 <? n) && (n <=? 0) then "0." +:+ zeros (nat (- n)) +:+ digits
  else
    let exp := (if 0 <? n then "e+" else "e-") +:+ StringZ (Z.abs (n - 1)) in
    if k =? 1 then digits +:+ exp
    else String.substring 0 1 digits +:+ "." +:+ String.substring 1 (nat (k - 1)) digits +:+ exp.

(** [String(x)] *)
Definition num_str (x : jsnum) : string :=
  match x with
  | NaN => "NaN"
  | Infinity neg => if neg then "-Infinity" else "Infinity"
  | Fin m e =>
      if m =? 0 then "0"
      else (if m <? 0 then "-" else "") +:+
           (if 0 <=? e then positive_str (Z.abs m * 2 ^ e) 1 else positive_str (Z.abs m) (2 ^ (- e)))
  end.

(** ** Dates: the day of [toISOString()] *)

(** Year, month and day of a count of days from 1970-01-01, by 400-year eras
    that start in March. *)
Definition civil (days : Z) : Z * Z * Z :=
  let z := days + 719468 in
  let era := z / 146097 in
  let doe := z mod 146097 in
  let yoe := (doe - doe / 1460 + doe / 36524 - doe / 146096) / 365 in
  let doy := doe - (365 * yoe + yoe / 4 - yoe / 100) in
  let mp := (5 * doy + 2) / 153 in
  let d := doy - (153 * mp + 2) / 5 + 1 in
  let m := if mp <? 10 then mp + 3 else mp - 9 in
  (yoe + era * 400 + (if m <=? 2 then 1 else 0), m, d).

Definition pad (n : nat) (s : string) : string := zeros (n - String.length s) +:+ s.

Definition year_str (y : Z) : string :=
  if (0 <=? y) && (y <=? 9999) then pad 4 (StringZ y)
  else (if y <? 0 then "-" else "+") +:+ pad 6 (StringZ (Z.abs y)).

(** [new Date(ms).toISOString().slice(0, 10)] *)
Definition iso_day (ms : Z) : string :=
  let '(y, m, d) := civil (ms / 86400000) in
  String.substring 0 10 (year_str y +:+ "-" +:+ pad 2 (StringZ m) +:+ "-" +:+ pad 2 (StringZ d)).

Example iso_day_epoch : iso_day 0 = "1970-01-01"%string.
Proof. reflexivity. Qed.
Example iso_day_leap : iso_day 1709210096123 = "2024-02-29"%string.
Proof. reflexivity. Qed.

(** ** Laws *)

Fixpoint is_dec (s : string) : bool :=
  match s with
  | EmptyString => true
  | String c s' => (48 <=? Z.of_nat (code c)) && (Z.of_nat (code c) <=? 57) && is_dec s'
  end.

Lemma is_dec_app a b : is_dec (a +:+ b) = is_dec a && is_dec b.
Proof. induction a as [|c a IH]; simpl; [done|]. rewrite IH. by rewrite andb_assoc. Qed.

Lemma digit_char_code d : 0 <= d < 10 -> Z.of_nat (code (digit_char d)) = 48 + d.
Proof.
  intros H. unfold code, digit_char.
  rewrite Ascii.nat_ascii_embedding; lia.
Qed.

Lemma digit_char_value d : 0 <= d < 10 -> digit_value (digit_char d) = Some d.
Proof.
  intros H. unfold digit_value. rewrite digit_char_code by done.
  replace (48 <=? 48 + d) with true by lia. replace (48 + d <=? 57) with true by lia.
  simpl. f_equal. lia.
Qed.

Lemma print_digits_dec f n : 0 <= n -> is_dec (print_digits f n) = true.
Proof.
  revert n. induction f as [|f IH]; intros n Hn; cbn [print_digits]; [done|].
  destruct (n <? 10) eqn:E.
  - simpl. rewrite digit_char_code by lia. rewrite andb_true_r. lia.
  - assert (0 <= n mod 10 < 10) by (apply Z.mod_pos_bound; lia).
    rewrite is_dec_app, IH by (apply Z.div_pos; lia).
    simpl. rewrite digit_char_code by done. lia.
Qed.

(** Reading [s] in front of anything continues from the value [v]. *)
Definition reads (s : string) (v k : Z) : Prop :=
  forall r, take_digits 10 0 (s +:+ r) =
    let '(v', k', r') := take_digits 10 v r in (v', k + k', r').

Lemma print_digits_reads f n :
  0 <= n < 10 ^ Z.of_nat f -> (0 < f)%nat ->
  exists k, 0 < k /\ reads (print_digits f n) n k.
Proof.
  revert n. induction f as [|f IH]; intros n Hn Hf; [lia|]. cbn [print_digits].
  destruct (n <? 10) eqn:E.
  - exists 1. split; [lia|]. intros r. cbn [String.app take_digits].
    rewrite digit_char_value by lia. replace (n <? 10) with true by lia.
    replace (0 * 10 + n) with n by lia.
    destruct (take_digits 10 n r) as [[v' k'] r']. f_equal. f_equal. lia.
  - assert (0 <= n mod 10 < 10) by (apply Z.mod_pos_bound; lia).
    rewrite Nat2Z.inj_succ, Z.pow_succ_r in Hn by lia.
    assert (0 <= n / 10 < 10 ^ Z.of_nat f).
    { split; [apply Z.div_pos; lia|]. apply Z.div_lt_upper_bound; lia. }
    destruct f as [|f]; [simpl in Hn; lia|].
    destruct (IH (n / 10)) as (k & Hk & Hr); [done|lia|].
    exists (k + 1). split; [lia|]. intros r.
    rewrite append_assoc, (Hr _). cbn [String.app take_digits]. rewrite digit_char_value by done.
    replace (n mod 10 <? 10) with true by lia.
    replace (n / 10 * 10 + n mod 10) with n by (pose proof (Z.div_mod n 10); lia).
    destruct (take_digits 10 n r) as [[v' k'] r']. f_equal. f_equal. lia.
Qed.

Lemma is_dec_no_space s : is_dec s = true -> no_sep is_space s = true.
Proof.
  induction s as [|c s IH]; simpl; [done|]. intros H. destruct_bool_hyps.
  rewrite IH by done. rewrite andb_true_r. unfold is_space.
  assert (48 <= code c <= 57)%nat by lia.
  apply negb_true_iff. rewrite !orb_false_iff, andb_false_iff, !Nat.leb_gt, !Nat.eqb_neq. lia.
Qed.

(** A character whose code is not [d]'s is not [d]. *)
Lemma eqb_code_ne c d : code c <> code d -> Ascii.eqb c d = false.
Proof. intros H. apply Ascii.eqb_neq. congruence. Qed.

Lemma radix_prefix_dec c s : is_dec (String c s) = true -> radix_prefix c s = None.
Proof.
  simpl. intros H. destruct_bool_hyps. unfold radix_prefix.
  destruct (Ascii.eqb c "0"); [|done]. destruct s as [|d s]; [done|].
  simpl in H0. destruct_bool_hyps.
  assert (48 <= code d <= 57)%nat by lia.
  assert (to_lower_char d = d) as ->.
  { unfold to_lower_char. by replace (_ || _) with false by
      (symmetry; rewrite !orb_false_iff, !andb_false_iff, !Nat.leb_gt; lia). }
  by rewrite !eqb_code_ne by (vm_compute code at 2; lia).
Qed.

(** A decimal literal goes straight to the decimal parser. *)
Lemma Number_dec c s : is_dec (String c s) = true -> Number (String c s) = parse_unsigned (String c s).
Proof.
  intros H. unfold Number. rewrite trim_no_space by (by apply is_dec_no_space).
  rewrite radix_prefix_dec by done. simpl in H. destruct_bool_hyps.
  by rewrite !eqb_code_ne by (vm_compute code at 2; lia).
Qed.

Lemma round_ratio_integer n : 0 < n < 2 ^ 53 -> to_integer (round_ratio n 1) = Some n.
Proof.
  intros Hn. unfold round_ratio.
  change (Z.log2 1) with 0. rewrite Z.sub_0_r, Z.mul_1_l, Z.div_1_r || rewrite Z.sub_0_r.
  assert (0 <= Z.log2 n <= 52) as Hl.
  { split; [apply Z.log2_nonneg|]. assert (Z.log2 n < 53); [|lia].
    apply Z.log2_lt_pow2; lia. }
  pose proof (Z.log2_spec n) as Hs.
  replace (0 <=? Z.log2 n) with true by lia.
  replace (n <? 1 * 2 ^ Z.log2 n) with false by lia.
  rewrite Z.max_r by lia.
  assert (forall x, div_half_even x 1 = x) as Hd1.
  { intros x. unfold div_half_even. by rewrite Z.mod_1_r, Z.div_1_r. }
  destruct (0 <=? Z.log2 n - 52) eqn:E.
  - assert (Z.log2 n - 52 = 0) as -> by lia.
    rewrite Z.mul_1_l, Z.pow_0_r, Hd1.
    assert (2 ^ 53 < 2 ^ 1024) by (apply Z.pow_lt_mono_r; lia).
    replace (2 ^ 1024 <=? n * 1) with false by lia.
    simpl. f_equal. lia.
  - simpl andb. rewrite Hd1. unfold to_integer. rewrite E.
    assert (0 < 2 ^ - (Z.log2 n - 52)) by (apply Z.pow_pos_nonneg; lia).
    rewrite Z.mod_mul by lia. simpl. rewrite Z.div_mul by lia. done.
Qed.

Lemma log2_fuel n : 0 < n -> n < 10 ^ Z.of_nat (S (Z.to_nat (Z.log2 n))).
Proof.
  intros Hn. pose proof (Z.log2_spec n Hn). pose proof (Z.log2_nonneg n).
  rewrite Nat2Z.inj_succ, Z2Nat.id by done.
  assert (2 ^ Z.succ (Z.log2 n) <= 10 ^ Z.succ (Z.log2 n)); [|lia].
  apply Z.pow_le_mono_l. lia.
Qed.

(** [Number(String(n))] is [n] for every safe natural number. *)
Lemma Number_StringZ n : 0 <= n < 2 ^ 53 -> to_integer (Number (StringZ n)) = Some n.
Proof.
  intros Hn. unfold StringZ. replace (n <? 0) with false by lia.
  destruct (Z.eq_dec n 0) as [->|Hz]; [reflexivity|].
  set (f := S (Z.to_nat (Z.log2 n))).
  destruct (print_digits_reads f n) as (k & Hk & Hr).
  { split; [lia|]. apply log2_fuel. lia. } { lia. }
  pose proof (print_digits_dec f n ltac:(lia)) as Hdec.
  specialize (Hr EmptyString). rewrite append_nil_r in Hr.
  cbn [take_digits] in Hr.
  destruct (print_digits f n) as [|c s]; [cbn in Hr; injection Hr; lia|].
  rewrite Number_dec by done. unfold parse_unsigned. rewrite Hr.
  assert (String.eqb (String c s) "Infinity" = false) as ->.
  { apply String.eqb_neq. intros Heq. rewrite Heq in Hdec. done. }
  replace (k + 0 + 0 =? 0) with false by lia. cbn [parse_exponent].
  unfold decimal_double. replace (n =? 0) with false by lia.
  change (0 <=? 0 - 0) with true. cbv iota.
  change (10 ^ (0 - 0)) with 1. rewrite Z.mul_1_r.
  apply round_ratio_integer. lia.
Qed.

(** Comparing a number that is an integer. *)
Lemma to_integer_Fin m e n :
  to_integer (Fin m e) = Some n -> if 0 <=? e then n = m * 2 ^ e else m = n * 2 ^ (- e) /\ 0 < 2 ^ (- e).
Proof.
  cbn. destruct (0 <=? e) eqn:E; [by intros [= <-]|].
  assert (0 < 2 ^ (- e)) as Hp by (apply Z.pow_pos_nonneg; lia).
  destruct (m mod 2 ^ (- e) =? 0) eqn:Em; [|done]. intros [= <-]. split; [|done].
  pose proof (Z_div_mod_eq_full m (2 ^ (- e))). lia.
Qed.

Lemma num_ltb_int x n k : to_integer x = Some n -> num_ltb x k = (n <? k).
Proof.
  destruct x as [| |m e]; [done|done|]. intros H. pose proof (to_integer_Fin m e n H) as Hn.
  cbn. destruct (0 <=? e); [by subst|]. destruct Hn as [-> Hp].
  destruct (n <? k) eqn:E; [apply Z.ltb_lt in E; apply Z.ltb_lt; nia|].
  apply Z.ltb_ge in E. apply Z.ltb_ge. nia.
Qed.

Lemma num_gtb_int x n k : to_integer x = Some n -> num_gtb x k = (k <? n).
Proof.
  destruct x as [| |m e]; [done|done|]. intros H. pose proof (to_integer_Fin m e n H) as Hn.
  cbn. destruct (0 <=? e); [by subst|]. destruct Hn as [-> Hp].
  destruct (k <? n) eqn:E; [apply Z.ltb_lt in E; apply Z.ltb_lt; nia|].
  apply Z.ltb_ge in E. apply Z.ltb_ge. nia.
Qed.

(** The printed form of a natural number has no blanks and is not empty. *)
Lemma StringZ_trim n : 0 <= n < 2 ^ 53 -> trim (StringZ n) = StringZ n /\ truthy (StringZ n) = true.
Proof.
  intros Hn. split.
  - apply trim_no_space, is_dec_no_space. unfold StringZ. replace (n <? 0) with false by lia.
    apply print_digits_dec. lia.
  - destruct (StringZ n) eqn:E; [|done]. exfalso.
    pose proof (Number_StringZ n Hn) as Hr. rewrite E in Hr. injection Hr as <-. done.
Qed.

Lemma StringZ_dec n : 0 <= n -> is_dec (StringZ n) = true.
Proof. intros Hn. unfold StringZ. replace (n <? 0) with false by lia. by apply print_digits_dec. Qed.

(** ** [String(x)] of an integer *)

Lemma div_half_even_scale a b c : 0 < b -> 0 < c -> div_half_even (a * c) (b * c) = div_half_even a b.
Proof.
  intros Hb Hc. unfold div_half_even. rewrite Z.div_mul_cancel_r, Z.mul_mod_distr_r by lia.
  rewrite Z.mul_assoc. by rewrite <- Zmult_compare_compat_r by lia.
Qed.

Lemma div_half_even_1 a : div_half_even a 1 = a.
Proof. unfold div_half_even. by rewrite Z.mod_1_r, Z.div_1_r. Qed.

Lemma div_half_even_upper a b : 0 <= a -> 0 < b -> 0 <= div_half_even a b /\ div_half_even a b * b <= a + b.
Proof.
  intros Ha Hb. unfold div_half_even. pose proof (Z.div_mod a b ltac:(lia)). pose proof (Z.mod_pos_bound a b Hb).
  pose proof (Z.div_pos a b Ha Hb). destruct (_ ?= b), (Z.even (a / b)); nia.
Qed.

(** A ratio over a power of two rounds like the integer it denotes. *)
Lemma round_ratio_scale n j : 0 < n -> 0 <= j -> round_ratio (n * 2 ^ j) (2 ^ j) = round_ratio n 1.
Proof.
  intros Hn Hj. unfold round_ratio. pose proof (Z.log2_nonneg n).
  assert (0 < 2 ^ j) by (apply Z.pow_pos_nonneg; lia).
  rewrite Z.log2_mul_pow2, Z.log2_pow2 by lia. change (Z.log2 1) with 0.
  replace (j + Z.log2 n - j) with (Z.log2 n) by lia. rewrite Z.sub_0_r.
  replace (0 <=? Z.log2 n) with true by lia.
  assert ((n * 2 ^ j <? 2 ^ j * 2 ^ Z.log2 n) = (n <? 1 * 2 ^ Z.log2 n)) as ->.
  { apply eq_true_iff_eq. rewrite !Z.ltb_lt. nia. }
  set (e := Z.max _ _). destruct (0 <=? e) eqn:Ee.
  - assert (0 < 2 ^ e) by (apply Z.pow_pos_nonneg; lia).
    rewrite (Z.mul_comm (2 ^ j)), Z.mul_1_l, div_half_even_scale by lia. done.
  - assert (0 < 2 ^ (- e)) by (apply Z.pow_pos_nonneg; lia).
    replace (n * 2 ^ j * 2 ^ (- e)) with (n * 2 ^ (- e) * 2 ^ j) by lia.
    rewrite <- (div_half_even_scale (n * 2 ^ (- e)) 1 (2 ^ j)) by lia. by rewrite Z.mul_1_l.
Qed.

(** How many digits a number has. *)
Lemma print_digits_length f n :
  0 < n < 10 ^ Z.of_nat f -> let k := Z.of_nat (String.length (print_digits f n)) in 10 ^ (k - 1) <= n < 10 ^ k.
Proof.
  revert n. induction f as [|f IH]; intros n Hn; [simpl in Hn; lia|]. cbn [print_digits]. cbv zeta.
  destruct (n <? 10) eqn:E; [change (Z.of_nat _) with 1; lia|].
  rewrite Nat2Z.inj_succ, Z.pow_succ_r in Hn by lia.
  assert (0 < n / 10 < 10 ^ Z.of_nat f) as Hd by (split; [apply Z.div_str_pos|apply Z.div_lt_upper_bound]; lia).
  specialize (IH _ Hd). cbv zeta in IH. rewrite length_append. cbn [String.length].
  set (l := String.length _) in *. rewrite Nat2Z.inj_add. change (Z.of_nat 1) with 1.
  pose proof (Z.div_mod n 10 ltac:(lia)). pose proof (Z.mod_pos_bound n 10 ltac:(lia)).
  destruct l as [|l]; [cbn in IH; lia|]. replace (Z.of_nat (S l) + 1 - 1) with (Z.succ (Z.of_nat (S l) - 1)) by lia.
  replace (Z.of_nat (S l) + 1) with (Z.succ (Z.of_nat (S l))) by lia. rewrite !Z.pow_succ_r by lia. lia.
Qed.

Lemma print_digits_fuel f f' n :
  (0 < f)%nat -> (0 < f')%nat -> 0 <= n < 10 ^ Z.of_nat f -> n < 10 ^ Z.of_nat f' -> print_digits f n = print_digits f' n.
Proof.
  revert f' n. induction f as [|f IH]; intros [|f'] n ? ? Hn Hn'; [lia..|]. cbn [print_digits].
  destruct (n <? 10) eqn:E; [done|]. f_equal. rewrite !Nat2Z.inj_succ, !Z.pow_succ_r in * by lia.
  destruct f as [|f]; [simpl in Hn; lia|]. destruct f' as [|f']; [simpl in Hn'; lia|].
  apply IH; [lia|lia| |apply Z.div_lt_upper_bound; lia].
  split; [apply Z.div_pos; lia|apply Z.div_lt_upper_bound; lia].
Qed.

Lemma StringZ_zero_digit n : 0 < n -> StringZ (n * 10) = StringZ n +:+ "0".
Proof.
  intros Hn. unfold StringZ. replace (n * 10 <? 0) with false by lia. replace (n <? 0) with false by lia.
  set (g := S (Z.to_nat (Z.log2 n))). pose proof (log2_fuel n Hn) as Hf. fold g in Hf.
  rewrite (print_digits_fuel _ (S g)).
  - cbn [print_digits]. replace (n * 10 <? 10) with false by lia. by rewrite Z.div_mul, Z.mod_mul by lia.
  - lia.
  - lia.
  - split; [lia|]. apply log2_fuel. lia.
  - rewrite Nat2Z.inj_succ, Z.pow_succ_r by lia. lia.
Qed.

Lemma zeros_snoc j : zeros j +:+ "0" = zeros (S j).
Proof. induction j as [|j IH]; [done|]. cbn [zeros String.append] in *. by rewrite IH. Qed.

Lemma StringZ_zeros n j : 0 < n -> StringZ (n * 10 ^ Z.of_nat j) = StringZ n +:+ zeros j.
Proof.
  intros Hn. induction j as [|j IH]; [by rewrite Z.mul_1_r, append_nil_r|].
  rewrite Nat2Z.inj_succ, Z.pow_succ_r, (Z.mul_comm 10), Z.mul_assoc by lia.
  assert (0 < 10 ^ Z.of_nat j) by (apply Z.pow_pos_nonneg; lia).
  rewrite StringZ_zero_digit, IH, append_assoc by lia. by rewrite zeros_snoc.
Qed.

(** The digits the search finds denote the integer. *)
Lemma shortest_integer f k n N j :
  0 < N < 2 ^ 52 -> 0 <= j -> 10 ^ (n - 1) <= N -> 1 <= k <= n -> n <= k + Z.of_nat f ->
  exists s k', shortest f k n (N * 2 ^ j) (2 ^ j) = (s, k') /\ k' <= n /\ s * 10 ^ (n - k') = N.
Proof.
  intros HN Hj Hlow. revert k. induction f as [|f IH]; intros k Hk Hf; cbn [shortest].
  all: assert (0 < 2 ^ j) by (apply Z.pow_pos_nonneg; lia).
  all: assert (0 < 10 ^ (n - k)) by (apply Z.pow_pos_nonneg; lia).
  all: set (s := if n <=? k then _ else _).
  all: assert (s = div_half_even N (10 ^ (n - k))) as Hs.
  all: try (unfold s; destruct (n <=? k) eqn:E;
    [ replace (n - k) with 0 by lia; replace (k - n) with 0 by lia; rewrite Z.pow_0_r, Z.mul_1_r;
      rewrite <- (div_half_even_scale N 1 (2 ^ j)) by lia; by rewrite Z.mul_1_l
    | by rewrite (Z.mul_comm (2 ^ j)), div_half_even_scale by lia ]).
  - exists s, k. split; [done|]. split; [lia|]. rewrite Hs. replace (n - k) with 0 by lia.
    by rewrite Z.pow_0_r, div_half_even_1, Z.mul_1_r.
  - case_bool_decide as Hd.
    + exists s, k. split; [done|]. split; [lia|]. rewrite round_ratio_scale in Hd by lia.
      pose proof (round_ratio_integer N ltac:(lia)) as Hi. rewrite <- Hd in Hi.
      unfold decimal_double in Hi. destruct (s =? 0) eqn:E0; [cbn in Hi; injection Hi; lia|].
      replace (0 <=? n - k) with true in Hi by lia.
      destruct (div_half_even_upper N (10 ^ (n - k))) as [Hs0 Hs1]; [lia|lia|]. rewrite <- Hs in Hs0, Hs1.
      assert (10 ^ (n - k) <= 10 ^ (n - 1)) by (apply Z.pow_le_mono_r; lia).
      rewrite round_ratio_integer in Hi by nia. by injection Hi.
    + destruct (Z.eq_dec k n) as [->|]; [|apply IH; lia]. exfalso. apply Hd.
      rewrite round_ratio_scale by lia. rewrite Hs, Z.sub_diag, Z.pow_0_r, div_half_even_1. unfold decimal_double.
      replace (N =? 0) with false by lia. by rewrite Z.mul_1_r.
Qed.

(** [String(x)] is exact on safe natural numbers. *)
Lemma num_str_integer x N : to_integer x = Some N -> 0 <= N < 2 ^ 52 -> num_str x = StringZ N.
Proof.
  intros Hx HN. destruct x as [| |m e]; [done..|]. pose proof (to_integer_Fin m e N Hx) as Hm.
  assert (exists j, 0 <= j /\ (if 0 <=? e then positive_str (Z.abs m * 2 ^ e) 1
             else positive_str (Z.abs m) (2 ^ (- e))) = positive_str (N * 2 ^ j) (2 ^ j) /\ (m = 0 <-> N = 0) /\ 0 <= m)
    as (j & Hj & Hp & H0 & Hpos).
  { destruct (0 <=? e) eqn:E.
    - assert (0 < 2 ^ e) by (apply Z.pow_pos_nonneg; lia). assert (0 <= m) by nia. exists 0.
      rewrite Z.pow_0_r, Z.mul_1_r, Z.abs_eq, Hm by lia. split_and!; [lia|done|nia|lia].
    - destruct Hm as [-> Hp]. exists (- e). rewrite Z.abs_eq by nia. split_and!; [lia|done|nia|nia]. }
  unfold num_str. destruct (m =? 0) eqn:Em; [replace N with 0 by lia; reflexivity|].
  replace (m <? 0) with false by lia. cbn [String.append]. rewrite Hp. unfold positive_str.
  assert (0 < 2 ^ j) by (apply Z.pow_pos_nonneg; lia).
  replace (2 ^ j <=? N * 2 ^ j) with true by nia. rewrite Z.div_mul by lia.
  set (n := Z.of_nat (String.length (StringZ N))).
  assert (10 ^ (n - 1) <= N < 10 ^ n) as Hn.
  { unfold n, StringZ. replace (N <? 0) with false by lia. apply print_digits_length.
    split; [lia|]. apply log2_fuel. lia. }
  assert (1 <= n <= 16) as Hn16.
  { split; [destruct (Z.eq_dec n 0) as [Hz|]; [rewrite Hz in Hn; cbn in Hn; lia|unfold n in *; lia]|].
    destruct (Z_lt_ge_dec 16 n) as [Hlt|]; [|lia].
    assert (10 ^ 16 <= 10 ^ (n - 1)) by (apply Z.pow_le_mono_r; lia). lia. }
  destruct (shortest_integer 16 1 n N j) as (s & k & -> & Hk & Hsk); [lia..|].
  replace (k <=? n) with true by lia. replace (n <=? 21) with true by lia. cbn [andb].
  rewrite <- Hsk. rewrite <- (Z2Nat.id (n - k)) at 2 by lia. rewrite StringZ_zeros; [done|].
  assert (0 < 10 ^ (n - k)) by (apply Z.pow_pos_nonneg; lia). nia.
Qed.

Lemma num_succ_StringZ n : 0 <= n < 2 ^ 52 - 1 -> num_str (num_succ (Number (StringZ n))) = StringZ (n + 1).
Proof.
  intros Hn. apply num_str_integer; [|lia]. unfold num_succ. rewrite Number_StringZ by lia.
  apply round_ratio_integer. lia.
Qed.
