(* ===== verification/JsArith.v ===== *)
(** * Arithmetic on JavaScript numbers

    Quotients, products and differences of doubles, each rounded to the nearest
    double, and the decimal logarithm the charts scale their axes with. Zeros
    carry no sign: nothing here divides by a zero that could be negative.
    [Math.log10] is taken as exact before [Math.floor]. *)
From S2P Require Import Prelude JsString JsNumber.
Local Open Scope velora_scope.
Local Open Scope Z_scope.

(** A finite double as a fraction with a positive denominator. *)
Definition frac (m e : Z) : Z * Z := if 0 <=? e then (m * 2 ^ e, 1) else (m, 2 ^ (- e)).

Definition num_div (x y : jsnum) : jsnum :=
  match x, y with
  | NaN, _ | _, NaN | Infinity _, Infinity _ => NaN
  | Infinity neg, Fin m _ => Infinity (xorb neg (m <? 0))
  | Fin _ _, Infinity _ => num 0
  | Fin m e, Fin m' e' =>
      let '(a, b) := frac m e in
      let '(c, d) := frac m' e' in
      if c =? 0 then if a =? 0 then NaN else Infinity (a <? 0)
      else ratio (Z.sgn c * a * d) (b * Z.abs c)
  end.

Definition num_mul (x y : jsnum) : jsnum :=
  match x, y with
  | NaN, _ | _, NaN => NaN
  | Infinity neg, Infinity neg' => Infinity (xorb neg neg')
  | Infinity neg, Fin m _ | Fin m _, Infinity neg =>
      if m =? 0 then NaN else Infinity (xorb neg (m <? 0))
  | Fin m e, Fin m' e' =>
      let '(a, b) := frac m e in
      let '(c, d) := frac m' e' in ratio (a * c) (b * d)
  end.

Definition num_sub (x y : jsnum) : jsnum :=
  match x, y with
  | NaN, _ | _, NaN => NaN
  | Infinity neg, Infinity neg' => if Bool.eqb neg neg' then NaN else x
  | Infinity _, _ => x
  | _, Infinity neg' => Infinity (negb neg')
  | Fin m e, Fin m' e' =>
      let '(a, b) := frac m e in
      let '(c, d) := frac m' e' in ratio (a * d - c * b) (b * d)
  end.

(** [x <= y] *)
Definition num_leb (x y : jsnum) : bool :=
  match x, y with
  | NaN, _ | _, NaN => false
  | Infinity neg, Infinity neg' => neg || negb neg'
  | Infinity neg, Fin _ _ => neg
  | Fin _ _, Infinity neg' => negb neg'
  | Fin m e, Fin m' e' =>
      let '(a, b) := frac m e in
      let '(c, d) := frac m' e' in a * d <=? c * b
  end.

(** [Math.max(x, y)] *)
Definition num_max (x y : jsnum) : jsnum :=
  match x, y with
  | NaN, _ | _, NaN => NaN
  | _, _ => if num_leb x y then y else x
  end.

(** [Math.floor(x)] of a finite number. *)
Definition floor_num (x : jsnum) : option Z :=
  match x with Fin m e => let '(a, b) := frac m e in Some (a / b) | _ => None end.

(** How often [d] can be multiplied by ten and stay at most [v]. *)
Fixpoint scale_down (fuel : nat) (v d : Z) : Z :=
  match fuel with
  | O => 0
  | S f => if v <? 10 * d then 0 else 1 + scale_down f v (10 * d)
  end.

(** [Math.floor(Math.log10(a / b))]; a double lies between [10^-324] and
    [10^309]. *)
Definition log10_floor (a b : Z) : Z :=
  if b <=? a then scale_down 400 a b else - scale_up 400 a b.

(** [10 ** k] *)
Definition pow10 (k : Z) : jsnum := decimal_double 1 k.

(** ** Laws *)

(** [x] is finite and lies between two integers. *)
Definition between (lo hi : Z) (x : jsnum) : Prop :=
  match x with
  | Fin m e => let '(n, d) := frac m e in lo * d <= n <= hi * d
  | _ => False
  end.

Lemma frac_pos m e n d : frac m e = (n, d) -> 0 < d.
Proof. unfold frac. destruct (0 <=? e) eqn:E; intros [= <- <-]; [lia|]. apply Z.leb_gt in E. lia. Qed.

Lemma div_half_even_le a b c : 0 < b -> a <= c * b -> div_half_even a b <= c.
Proof.
  intros Hb Ha. unfold div_half_even.
  pose proof (Z.div_mod a b ltac:(lia)) as Hd. pose proof (Z.mod_pos_bound a b Hb) as Hm.
  assert (a / b <= c) as Hq by (apply Z.div_le_upper_bound; nia).
  destruct (Z.eq_dec (a / b) c) as [E|E].
  - assert (a mod b = 0) as -> by nia. by replace (2 * 0 ?= b) with Lt by (symmetry; apply Z.compare_lt_iff; lia).
  - destruct (2 * (a mod b) ?= b); [destruct (Z.even (a / b))|..]; lia.
Qed.

Lemma div_half_even_nonneg a b : 0 < b -> 0 <= a -> 0 <= div_half_even a b.
Proof.
  intros Hb Ha. unfold div_half_even. pose proof (Z.div_pos a b Ha Hb).
  destruct (2 * (a mod b) ?= b); [destruct (Z.even (a / b))|..]; lia.
Qed.

(** The binary exponent [round_ratio] starts from is not too large. *)
Lemma exponent_below n d :
  0 < n -> 0 < d ->
  let e0 := Z.log2 n - Z.log2 d in
  let below := if 0 <=? e0 then n <? d * 2 ^ e0 else n * 2 ^ (- e0) <? d in
  let e1 := if below then e0 - 1 else e0 in
  0 <= e1 -> d * 2 ^ e1 <= n.
Proof.
  intros Hn Hd e0 below e1 He1.
  destruct (Z.log2_spec n Hn) as [Hn1 _]. destruct (Z.log2_spec d Hd) as [_ Hd2].
  subst e1. destruct below eqn:Eb.
  - assert (2 ^ Z.log2 n = 2 ^ Z.succ (Z.log2 d) * 2 ^ (e0 - 1)) as E.
    { pose proof (Z.log2_nonneg d). rewrite <- Z.pow_add_r by lia. f_equal. lia. }
    pose proof (Z.pow_pos_nonneg 2 (e0 - 1)). nia.
  - subst below. destruct (Z.leb_spec 0 e0); [|lia]. by apply Z.ltb_ge in Eb.
Qed.

(** Rounding does not leave an interval with integer ends below [2^53]. *)
Lemma ratio_between a b hi : 0 < b -> 0 <= a <= hi * b -> 0 < hi < 2 ^ 53 -> between 0 hi (ratio a b).
Proof.
  intros Hb [H0 Ha] Hhi. unfold ratio. destruct (Z.eqb_spec a 0) as [->|Hne].
  { cbn. lia. }
  destruct (Z.ltb_spec a 0); [lia|]. unfold round_ratio.
  pose proof (exponent_below a b ltac:(lia) Hb) as Hexp. cbv zeta in Hexp |- *.
  set (e1 := if _ : bool then _ - 1 else _) in *. clearbody e1.
  remember (Z.max (-1074) (e1 - 52)) as e eqn:Hdef. destruct (Z.leb_spec 0 e) as [He|He].
  - assert (e = 0) as E.
    { destruct (Z.eq_dec e 0) as [|Hn]; [done|]. exfalso.
      assert (53 <= e1) as H53 by lia. specialize (Hexp ltac:(lia)).
      pose proof (Z.pow_le_mono_r 2 53 e1 ltac:(lia) H53). nia. }
    clear Hdef He. subst e. change (2 ^ 0) with 1. rewrite !Z.mul_1_r.
    pose proof (div_half_even_le a b hi Hb Ha) as Hle. pose proof (div_half_even_nonneg a b Hb H0).
    assert (2 ^ 53 <= 2 ^ 1024) by (apply Z.pow_le_mono_r; lia).
    destruct (Z.leb_spec (2 ^ 1024) (div_half_even a b)) as [|_]; [lia|]. cbn [andb between frac Z.leb Z.compare].
    change (2 ^ 0) with 1. lia.
  - cbn [andb]. unfold between, frac. destruct (Z.leb_spec 0 e); [lia|].
    assert (0 < 2 ^ (- e)) as Hp by (apply Z.pow_pos_nonneg; lia).
    split; [apply div_half_even_nonneg; nia|]. apply div_half_even_le; [done|]. nia.
Qed.

Lemma frac_nonneg m e n d : frac m e = (n, d) -> 0 <= m <-> 0 <= n.
Proof.
  unfold frac. destruct (Z.leb_spec 0 e); intros [= <- <-]; [|done].
  pose proof (Z.pow_pos_nonneg 2 e). nia.
Qed.

Lemma frac_positive m e n d : frac m e = (n, d) -> 0 < m <-> 0 < n.
Proof.
  unfold frac. destruct (Z.leb_spec 0 e); intros [= <- <-]; [|done].
  pose proof (Z.pow_pos_nonneg 2 e). nia.
Qed.

Lemma num_div_between m e m' e' :
  0 <= m -> 0 < m' -> num_leb (Fin m e) (Fin m' e') = true -> between 0 1 (num_div (Fin m e) (Fin m' e')).
Proof.
  intros Hm Hm' Hle. unfold num_leb, num_div in *.
  destruct (frac m e) as [a b] eqn:E, (frac m' e') as [c d] eqn:E'.
  pose proof (frac_pos _ _ _ _ E). pose proof (frac_pos _ _ _ _ E').
  apply (frac_nonneg _ _ _ _ E) in Hm. apply (frac_positive _ _ _ _ E') in Hm'.
  apply Z.leb_le in Hle. destruct (Z.eqb_spec c 0); [lia|].
  rewrite Z.sgn_pos, Z.abs_eq by lia. apply ratio_between; [nia|nia|lia].
Qed.

Lemma num_mul_between x hi : 0 < hi < 2 ^ 53 -> between 0 1 x -> between 0 hi (num_mul x (num hi)).
Proof.
  intros Hhi Hx. destruct x as [| |m e]; [done|done|]. unfold num_mul, between in Hx |- *. cbn [num].
  destruct (frac m e) as [a b] eqn:E. pose proof (frac_pos _ _ _ _ E).
  change (frac hi 0) with (hi * 2 ^ 0, 1). cbv iota beta.
  apply (ratio_between (a * (hi * 2 ^ 0)) (b * 1) hi); [lia|change (2 ^ 0) with 1; nia|done].
Qed.

Lemma num_sub_between x hi : 0 < hi < 2 ^ 53 -> between 0 hi x -> between 0 hi (num_sub (num hi) x).
Proof.
  intros Hhi Hx. destruct x as [| |m e]; [done|done|]. unfold num_sub, between in Hx |- *. cbn [num].
  destruct (frac m e) as [a b] eqn:E. pose proof (frac_pos _ _ _ _ E).
  change (frac hi 0) with (hi * 2 ^ 0, 1). cbv iota beta.
  apply (ratio_between (hi * 2 ^ 0 * b - a * 1) (1 * b) hi); [lia|change (2 ^ 0) with 1; nia|done].
Qed.

(** *** Order *)

Lemma num_leb_trans x m e z :
  num_leb x (Fin m e) = true -> num_leb (Fin m e) z = true -> num_leb x z = true.
Proof.
  destruct x as [|[]|mx ex], z as [|[]|mz ez]; cbn; try done.
  destruct (frac mx ex) as [a b] eqn:E, (frac m e) as [c d] eqn:E', (frac mz ez) as [f g] eqn:E''.
  pose proof (frac_pos _ _ _ _ E). pose proof (frac_pos _ _ _ _ E'). pose proof (frac_pos _ _ _ _ E'').
  rewrite !Z.leb_le. nia.
Qed.

Lemma num_leb_total m e m' e' :
  num_leb (Fin m e) (Fin m' e') = false -> num_leb (Fin m' e') (Fin m e) = true.
Proof.
  cbn. destruct (frac m e) as [a b], (frac m' e') as [c d]. rewrite Z.leb_gt, Z.leb_le. lia.
Qed.

Lemma num_leb_refl m e : num_leb (Fin m e) (Fin m e) = true.
Proof. cbn. destruct (frac m e). apply Z.leb_refl. Qed.

(** *** Decimal magnitude *)

(** [10^k <= a / b] *)
Definition ge10 (a b k : Z) : bool := if 0 <=? k then b * 10 ^ k <=? a else b <=? a * 10 ^ (- k).

Lemma scale_down_spec fuel v d :
  0 < d <= v -> v < d * 10 ^ Z.of_nat fuel ->
  let r := scale_down fuel v d in 0 <= r /\ d * 10 ^ r <= v < d * 10 ^ (r + 1).
Proof.
  revert d. induction fuel as [|f IH]; intros d Hd Hv; [cbn in Hv; lia|].
  cbn [scale_down]. destruct (Z.ltb_spec v (10 * d)) as [Hlt|Hge]; cbv zeta.
  { split; [lia|]. change (10 ^ 0) with 1. change (10 ^ (0 + 1)) with 10. lia. }
  rewrite Nat2Z.inj_succ, Z.pow_succ_r in Hv by lia.
  destruct (IH (10 * d)) as (H0 & H1 & H2); [lia|lia|].
  set (r := scale_down f v (10 * d)) in *. replace (1 + r + 1) with (Z.succ (r + 1)) by lia.
  replace (1 + r) with (Z.succ r) by lia. rewrite !Z.pow_succ_r by lia. lia.
Qed.

Lemma scale_up_spec fuel v d :
  0 < v < d -> d <= v * 10 ^ Z.of_nat fuel ->
  let r := scale_up fuel v d in 0 < r /\ v * 10 ^ (r - 1) < d <= v * 10 ^ r.
Proof.
  revert v. induction fuel as [|f IH]; intros v Hv Hd; [cbn in Hd; lia|].
  cbn [scale_up]. destruct (Z.leb_spec d v); [lia|]. cbv zeta.
  rewrite Nat2Z.inj_succ, Z.pow_succ_r in Hd by lia. destruct (Z.lt_ge_cases (v * 10) d) as [Hlt|Hge].
  - destruct (IH (v * 10)) as (H0 & H1 & H2); [lia|lia|]. set (r := scale_up f (v * 10) d) in *.
    replace (1 + r - 1) with (Z.succ (r - 1)) by lia. replace (1 + r) with (Z.succ r) by lia.
    rewrite !Z.pow_succ_r by lia. lia.
  - assert (scale_up f (v * 10) d = 0) as ->.
    { destruct f; [done|]. cbn [scale_up]. destruct (Z.leb_spec d (v * 10)); [done|lia]. }
    change (10 ^ (1 + 0 - 1)) with 1. change (10 ^ (1 + 0)) with 10. lia.
Qed.

Lemma log10_floor_spec a b :
  0 < a -> 0 < b -> a < b * 10 ^ 400 -> b <= a * 10 ^ 400 ->
  ge10 a b (log10_floor a b) = true /\ ge10 a b (log10_floor a b + 1) = false.
Proof.
  intros Ha Hb Hab Hba. unfold log10_floor, ge10. destruct (Z.leb_spec b a).
  - destruct (scale_down_spec 400 a b) as (H0 & H1 & H2); [lia|exact Hab|].
    set (r := scale_down 400 a b) in *. destruct (Z.leb_spec 0 r), (Z.leb_spec 0 (r + 1)); try lia.
  - destruct (scale_up_spec 400 a b) as (H0 & H1 & H2); [lia|exact Hba|].
    set (r := scale_up 400 a b) in *. destruct (Z.leb_spec 0 (- r)); [lia|].
    rewrite Z.opp_involutive. split; [by apply Z.leb_le|].
    destruct (Z.leb_spec 0 (- r + 1)).
    + assert (r = 1) as E by lia. rewrite E in *. change (10 ^ (1 - 1)) with 1 in *.
      change (10 ^ (- (1) + 1)) with 1. lia.
    + replace (- (- r + 1)) with (r - 1) by lia. apply Z.leb_gt. lia.
Qed.

Lemma frac_scale m e s n d : frac m e = (n, d) -> s <= e -> s <= 0 -> n * 2 ^ (- s) = m * 2 ^ (e - s) * d.
Proof.
  unfold frac. intros H Hs Hs0. destruct (Z.leb_spec 0 e); injection H as <- <-.
  - rewrite <- Z.mul_assoc, <- Z.pow_add_r by lia. rewrite Z.mul_1_r. done.
  - rewrite <- Z.mul_assoc, <- Z.pow_add_r by lia. do 2 f_equal. lia.
Qed.

(** Ten times a power of ten, as doubles, covers every double below the next
    power: it is above that power, or the last double before it. *)
Definition tight (k : Z) : bool :=
  match num_mul (num 10) (pow10 k) with
  | Fin m e => let '(n, d) := frac (m + 1) e in (2 ^ 52 <=? m) && ge10 n d (k + 1)
  | _ => false
  end.

Lemma tight_range k : -70 <= k <= 130 -> tight k = true.
Proof.
  intros Hk. assert (forallb tight (map (fun i => Z.of_nat i - 70) (seq 0 201)) = true) as H
    by (vm_compute; reflexivity).
  rewrite forallb_forall in H. apply H, in_map_iff. exists (Z.to_nat (k + 70)). split; [lia|].
  apply in_seq. lia.
Qed.

Lemma ge10_mono a b c d k : 0 < b -> 0 < d -> c * b <= a * d -> ge10 c d k = true -> ge10 a b k = true.
Proof.
  intros Hb Hd Hle. unfold ge10. destruct (Z.leb_spec 0 k); rewrite !Z.leb_le; intros H1.
  - pose proof (Z.pow_pos_nonneg 10 k). nia.
  - pose proof (Z.pow_pos_nonneg 10 (- k)). nia.
Qed.

(** The order of two doubles, and the step to the next one above [2^52]. *)
Lemma next_double m e M E :
  0 < m < 2 ^ 53 -> 2 ^ 52 <= M -> num_leb (Fin m e) (Fin M E) = false ->
  num_leb (Fin (M + 1) E) (Fin m e) = true.
Proof.
  intros Hm HM. cbn. destruct (frac m e) as [a b] eqn:F1, (frac M E) as [c d] eqn:F2,
    (frac (M + 1) E) as [c' d'] eqn:F3. rewrite Z.leb_gt, Z.leb_le. intros Hlt.
  pose proof (frac_pos _ _ _ _ F1). pose proof (frac_pos _ _ _ _ F2). pose proof (frac_pos _ _ _ _ F3).
  set (s := Z.min 0 (Z.min e E)).
  pose proof (frac_scale _ _ s _ _ F1 ltac:(lia) ltac:(lia)) as S1.
  pose proof (frac_scale _ _ s _ _ F2 ltac:(lia) ltac:(lia)) as S2.
  pose proof (frac_scale _ _ s _ _ F3 ltac:(lia) ltac:(lia)) as S3.
  assert (0 < 2 ^ (- s)) as HP by (apply Z.pow_pos_nonneg; lia).
  assert (0 < 2 ^ (e - s)) as Hx by (apply Z.pow_pos_nonneg; lia).
  assert (0 < 2 ^ (E - s)) as Hy by (apply Z.pow_pos_nonneg; lia).
  assert (M * 2 ^ (E - s) < m * 2 ^ (e - s)) as Hcmp.
  { apply (Zmult_lt_reg_r _ _ (b * d)); [nia|].
    replace (M * 2 ^ (E - s) * (b * d)) with (c * 2 ^ (- s) * b) by (rewrite S2; ring).
    replace (m * 2 ^ (e - s) * (b * d)) with (a * 2 ^ (- s) * d) by (rewrite S1; ring).
    replace (c * 2 ^ (- s) * b) with (c * b * 2 ^ (- s)) by ring.
    replace (a * 2 ^ (- s) * d) with (a * d * 2 ^ (- s)) by ring. by apply Zmult_lt_compat_r. }
  assert (E <= e) as He.
  { destruct (Z.le_gt_cases E e); [done|]. exfalso.
    assert (2 ^ (E - s) = 2 * 2 ^ (E - 1 - s)) as E1 by (rewrite <- Z.pow_succ_r by lia; f_equal; lia).
    assert (2 ^ (e - s) <= 2 ^ (E - 1 - s)) as E2 by (apply Z.pow_le_mono_r; lia).
    change (2 ^ 53) with (2 * 2 ^ 52) in Hm. nia. }
  assert ((M + 1) * 2 ^ (E - s) <= m * 2 ^ (e - s)) as Hnext.
  { assert (2 ^ (e - s) = 2 ^ (e - E) * 2 ^ (E - s)) as E3 by (rewrite <- Z.pow_add_r by lia; f_equal; lia).
    rewrite E3, Z.mul_assoc in *. apply Zmult_le_compat_r; [|lia].
    apply Zmult_lt_reg_r in Hcmp; [lia|done]. }
  apply (Zmult_le_reg_r _ _ (2 ^ (- s))); [lia|].
  replace (c' * b * 2 ^ (- s)) with (c' * 2 ^ (- s) * b) by ring.
  replace (a * d' * 2 ^ (- s)) with (a * 2 ^ (- s) * d') by ring. rewrite S1, S3.
  replace ((M + 1) * 2 ^ (E - s) * d' * b) with ((M + 1) * 2 ^ (E - s) * (d' * b)) by ring.
  replace (m * 2 ^ (e - s) * b * d') with (m * 2 ^ (e - s) * (d' * b)) by ring.
  apply Zmult_le_compat_r; [done|nia].
Qed.

(** A positive double whose decimal magnitude is in the range the checks
    cover. *)
Definition scalable (x : jsnum) : Prop :=
  match x with
  | Fin m e => 0 < m < 2 ^ 53 /\
      let '(a, b) := frac m e in
      a < b * 10 ^ 400 /\ b <= a * 10 ^ 400 /\ -70 <= log10_floor a b <= 130
  | _ => False
  end.

Lemma ten_magnitudes m e a b :
  scalable (Fin m e) -> frac m e = (a, b) ->
  num_leb (Fin m e) (num_mul (num 10) (pow10 (log10_floor a b))) = true.
Proof.
  intros (Hm & Hs) F. rewrite F in Hs. destruct Hs as (Hab & Hba & Hk).
  pose proof (frac_pos _ _ _ _ F) as Hb. pose proof (proj1 (frac_positive _ _ _ _ F) ltac:(lia)) as Ha.
  destruct (log10_floor_spec a b Ha Hb Hab Hba) as [_ Hno].
  pose proof (tight_range _ Hk) as Ht. unfold tight in Ht.
  destruct (num_mul _ _) as [| |M E]; [done|done|]. destruct (frac (M + 1) E) as [n d] eqn:F2.
  destruct_bool_hyps. destruct (num_leb (Fin m e) (Fin M E)) eqn:Hc; [done|]. exfalso.
  apply next_double in Hc; [|done|by apply Z.leb_le]. cbn in Hc. rewrite F2, F in Hc. apply Z.leb_le in Hc.
  rewrite (ge10_mono a b n d) in Hno; [done|done|by apply (frac_pos _ _ _ _ F2)|done|done].
Qed.

(** *** Axis maxima: 1, 2, 5 or 10 times the magnitude of a number *)

Definition finite_steps (k : Z) : bool :=
  forallb (fun j => match num_mul (num j) (pow10 k) with Fin m _ => 0 <? m | _ => false end) [1; 2; 5; 10].

Lemma finite_steps_range k : -70 <= k <= 130 -> finite_steps k = true.
Proof.
  intros Hk. assert (forallb finite_steps (map (fun i => Z.of_nat i - 70) (seq 0 201)) = true) as H
    by (vm_compute; reflexivity).
  rewrite forallb_forall in H. apply H, in_map_iff. exists (Z.to_nat (k + 70)). split; [lia|].
  apply in_seq. lia.
Qed.

(** The first multiple that reaches the number is finite and positive, and it
    does reach it. *)
Lemma nice_step m e a b :
  scalable (Fin m e) -> frac m e = (a, b) ->
  let magnitude := pow10 (log10_floor a b) in
  let step := find_first (fun k => num_leb (Fin m e) (num_mul (num k) magnitude)) [1; 2; 5; 10] ?? 10 in
  exists m' e', num_mul (num step) magnitude = Fin m' e' /\ 0 < m' /\ num_leb (Fin m e) (Fin m' e') = true.
Proof.
  intros Hs F magnitude step. pose proof (ten_magnitudes m e a b Hs F) as Hten.
  assert (-70 <= log10_floor a b <= 130) as Hk by (destruct Hs as (_ & Hs); rewrite F in Hs; tauto).
  assert (In step [1; 2; 5; 10] /\ num_leb (Fin m e) (num_mul (num step) magnitude) = true) as [Hin Hle].
  { subst step. destruct (find_first _ _) as [k|] eqn:Ef; cbn [default].
    - apply find_first_Some in Ef. exact Ef.
    - split; [cbn; tauto|exact Hten]. }
  pose proof (finite_steps_range _ Hk) as Hf. unfold finite_steps in Hf. rewrite forallb_forall in Hf.
  specialize (Hf step Hin). fold magnitude in Hf. destruct (num_mul (num step) magnitude) as [| |m' e']; [done|done|].
  exists m', e'. split; [done|]. split; [by apply Z.ltb_lt|done].
Qed.

(** Rates the charts are proved for: zero, or a positive double between
    [10^-70] and [10^131]. *)
Definition is_rate (x : jsnum) : Prop :=
  match x with Fin m e => m = 0 \/ scalable x | _ => False end.

Lemma is_rate_nonneg m e : is_rate (Fin m e) -> 0 <= m.
Proof. intros [->|[Hm _]]; lia. Qed.

Lemma num_leb_zero m e : 0 <= m -> num_leb (Fin 0 0) (Fin m e) = true.
Proof.
  intros Hm. unfold num_leb. change (frac 0 0) with (0 * 2 ^ 0, 1). destruct (frac m e) as [n d] eqn:E.
  apply (frac_nonneg _ _ _ _ E) in Hm. apply Z.leb_le. lia.
Qed.

Lemma num_leb_not_zero m e : num_leb (Fin m e) (num 0) = false <-> 0 < m.
Proof.
  unfold num_leb, num. change (frac 0 0) with (0 * 2 ^ 0, 1). destruct (frac m e) as [n d] eqn:E.
  rewrite Z.leb_gt, (frac_positive _ _ _ _ E). lia.
Qed.

(** The larger of a rate and the largest of others. *)
Lemma num_max_rates x M l :
  is_rate x -> is_rate M -> Forall (fun v => num_leb v M = true) l ->
  is_rate (num_max x M) /\ Forall (fun v => num_leb v (num_max x M) = true) (x :: l).
Proof.
  intros Hx HM Hl. destruct x as [| |m e]; [done|done|]. destruct M as [| |m' e']; [done|done|].
  unfold num_max. destruct (num_leb (Fin m e) (Fin m' e')) eqn:Hle.
  - split; [done|]. by constructor.
  - split; [done|]. constructor; [apply num_leb_refl|]. apply num_leb_total in Hle.
    eapply Forall_impl; [exact Hl|]. intros v Hv. exact (num_leb_trans _ _ _ _ Hv Hle).
Qed.

(** The largest of a list of rates, from zero up. *)
Lemma fold_max_rates l :
  Forall is_rate l ->
  is_rate (fold_right num_max (num 0) l) /\
  Forall (fun v => num_leb v (fold_right num_max (num 0) l) = true) l.
Proof.
  induction 1 as [|x l Hx _ [IHr IHl]]; [split; [by left|constructor]|]. by apply num_max_rates.
Qed.

(** Counts are rates. *)
Lemma count_rate n : 0 <= n < 2 ^ 53 -> is_rate (num n).
Proof.
  intros Hn. destruct (Z.eq_dec n 0) as [->|Hne]; [by left|]. right. split; [lia|].
  change (frac n 0) with (n * 2 ^ 0, 1). change (2 ^ 0) with 1. cbv beta iota. rewrite Z.mul_1_r.
  assert (10 ^ 16 <= 10 ^ 400) as H16 by (apply Z.pow_le_mono_r; lia).
  assert (2 ^ 53 < 10 ^ 16) as H53 by reflexivity.
  split; [lia|]. split; [nia|]. unfold log10_floor. destruct (Z.leb_spec 1 n); [|lia].
  destruct (scale_down_spec 400 n 1) as (H0 & H1 & _); [lia|change (Z.of_nat 400) with 400; lia|].
  set (k := scale_down 400 n 1) in *. clearbody k. split; [lia|].
  destruct (Z.le_gt_cases k 130) as [|Hbig]; [done|]. exfalso.
  pose proof (Z.pow_le_mono_r 10 16 k ltac:(lia) ltac:(lia)). lia.
Qed.

(** The largest of a non-empty list of rates. *)
Lemma fold_max_nonempty l :
  l <> [] -> Forall is_rate l ->
  is_rate (fold_right num_max (Infinity true) l) /\
  Forall (fun v => num_leb v (fold_right num_max (Infinity true) l) = true) l.
Proof.
  intros Hne Hl. induction Hl as [|x l Hx Hl IH]; [done|]. destruct l as [|y l].
  - destruct x as [| |m e]; [done|done|]. cbn [fold_right num_max num_leb negb].
    split; [done|]. constructor; [apply num_leb_refl|constructor].
  - destruct (IH ltac:(done)) as [IHr IHl]. by apply num_max_rates.
Qed.
