(* ===== verification/Url.v ===== *)
(** * URL encoding

    [encodeURIComponent] and the serialisation of [URLSearchParams], on code
    units below 256 (a unit from 128 up is two UTF-8 bytes). *)
From S2P Require Import Prelude JsString JsNumber.
Local Open Scope velora_scope.
Local Open Scope string_scope.

Definition is_alnum (c : ascii) : bool :=
  let n := code c in
  (((48 <=? n) && (n <=? 57)) || ((65 <=? n) && (n <=? 90)) || ((97 <=? n) && (n <=? 122)))%nat.

Fixpoint mem_char (c : ascii) (s : string) : bool :=
  match s with EmptyString => false | String d s' => Ascii.eqb c d || mem_char c s' end.

(** The unreserved marks: [- _ . ! ~ * ' ( )]. *)
Definition uri_unescaped (c : ascii) : bool := is_alnum c || mem_char c "-_.!~*'()".

Definition hex_char (n : nat) : ascii :=
  Ascii.ascii_of_nat (if n <? 10 then 48 + n else 55 + n)%nat.

(** [%XY] for one byte. *)
Definition percent (n : nat) : string :=
  String "%" (String (hex_char (n / 16)) (String (hex_char (n mod 16)) EmptyString)).

(** The UTF-8 bytes of a code unit below 256, percent-encoded. *)
Definition percent_utf8 (c : ascii) : string :=
  let n := code c in
  if (n <? 128)%nat then percent n else percent (192 + n / 64) +:+ percent (128 + n mod 64).

Definition encode_char (c : ascii) : string :=
  if uri_unescaped c then String c EmptyString else percent_utf8 c.

Fixpoint encodeURIComponent (s : string) : string :=
  match s with
  | EmptyString => EmptyString
  | String c s' => encode_char c +:+ encodeURIComponent s'
  end.

(** application/x-www-form-urlencoded *)
Definition form_char (c : ascii) : string :=
  if Ascii.eqb c " "%char then "+"
  else if is_alnum c || mem_char c "*-._" then String c EmptyString
  else percent_utf8 c.

Fixpoint form_encode (s : string) : string :=
  match s with
  | EmptyString => EmptyString
  | String c s' => form_char c +:+ form_encode s'
  end.

(** [`${new URLSearchParams(params)}`] *)
Definition search_params (l : list (string * string)) : string :=
  joinStrings "&" (map (fun '(k, v) => form_encode k +:+ "=" +:+ form_encode v) l).

(** ** Decoding, as the reference for the encoder *)

Definition hex_value (c : ascii) : option nat :=
  let n := code c in
  (if (48 <=? n) && (n <=? 57) then Some (n - 48)
   else if (65 <=? n) && (n <=? 70) then Some (n - 55)
   else if (97 <=? n) && (n <=? 102) then Some (n - 87)
   else None)%nat.

Definition hex_byte (a b : ascii) : option nat :=
  match hex_value a, hex_value b with
  | Some x, Some y => Some (16 * x + y)%nat
  | _, _ => None
  end.

(** [fuel] bounds the number of characters read. *)
Fixpoint decode (fuel : nat) (s : string) : option string :=
  match fuel, s with
  | _, EmptyString => Some EmptyString
  | O, _ => None
  | S f, String c r =>
      if Ascii.eqb c "%"%char then
        match r with
        | String a (String b r1) =>
            match hex_byte a b with
            | Some n =>
                if (n <? 128)%nat then
                  match decode f r1 with Some d => Some (String (Ascii.ascii_of_nat n) d) | None => None end
                else
                  match r1 with
                  | String _ (String a2 (String b2 r2)) =>
                      match hex_byte a2 b2, decode f r2 with
                      | Some m, Some d =>
                          Some (String (Ascii.ascii_of_nat (64 * (n - 192) + (m - 128))%nat) d)
                      | _, _ => None
                      end
                  | _ => None
                  end
            | None => None
            end
        | _ => None
        end
      else match decode f r with Some d => Some (String c d) | None => None end
  end.

Definition decodeURIComponent (s : string) : option string := decode (String.length s) s.

(** ** Laws *)

(** A finite check over the 256 code units. *)
Fixpoint below (n : nat) (p : nat -> bool) : bool :=
  match n with O => true | S m => p m && below m p end.

Lemma below_spec n p : below n p = true -> forall i, (i < n)%nat -> p i = true.
Proof.
  induction n as [|n IH]; simpl; intros H i Hi; [lia|].
  destruct_bool_hyps. destruct (decide (i = n)) as [->|]; [done|]. apply IH; [done|lia].
Qed.

Lemma all_chars (p : ascii -> bool) :
  below 256 (fun n => p (Ascii.ascii_of_nat n)) = true -> forall c, p c = true.
Proof.
  intros H c. rewrite <- (Ascii.ascii_nat_embedding c).
  apply (below_spec 256 (fun n => p (Ascii.ascii_of_nat n)) H).
  apply Ascii.nat_ascii_bounded.
Qed.

(** Whether decoding [encode_char c] gives [c] back, with no fuel to spare. *)
Definition decodes_char (c : ascii) : bool :=
  match encode_char c with
  | String x EmptyString => Ascii.eqb x c && negb (Ascii.eqb x "%"%char)
  | String p (String a (String b EmptyString)) =>
      Ascii.eqb p "%"%char &&
      match hex_byte a b with
      | Some n => (n <? 128)%nat && Ascii.eqb (Ascii.ascii_of_nat n) c
      | None => false
      end
  | String p (String a (String b (String q (String a2 (String b2 EmptyString))))) =>
      Ascii.eqb p "%"%char &&
      match hex_byte a b, hex_byte a2 b2 with
      | Some n, Some m => negb (n <? 128)%nat &&
          Ascii.eqb (Ascii.ascii_of_nat (64 * (n - 192) + (m - 128))%nat) c
      | _, _ => false
      end
  | _ => false
  end.

Lemma decodes_all c : decodes_char c = true.
Proof. revert c. apply all_chars. vm_compute. reflexivity. Qed.

Lemma decode_more f f' s d : (f <= f')%nat -> decode f s = Some d -> decode f' s = Some d.
Proof.
  revert f' s d. induction f as [|f IH]; intros f' s d Hf H.
  - destruct s; [by destruct f'|done].
  - destruct s as [|c r]; [by destruct f'|]. destruct f' as [|f']; [lia|].
    assert (forall x y, decode f x = Some y -> decode f' x = Some y) as IH' by (intros; apply (IH f'); [lia|done]).
    cbn [decode] in H |- *. destruct (Ascii.eqb c "%").
    + destruct r as [|a [|b r1]]; try done. destruct (hex_byte a b) as [n|]; [|done].
      destruct (n <? 128)%nat.
      * destruct (decode f r1) as [y|] eqn:E; [|done]. by rewrite (IH' _ _ E).
      * destruct r1 as [|q [|a2 [|b2 r2]]]; try done.
        destruct (hex_byte a2 b2); [|done].
        destruct (decode f r2) as [y|] eqn:E; [|done]. by rewrite (IH' _ _ E).
    + destruct (decode f r) as [y|] eqn:E; [|done]. by rewrite (IH' _ _ E).
Qed.

Lemma decode_encode_char f c r d :
  decode f r = Some d -> decode (S f) (encode_char c +:+ r) = Some (String c d).
Proof.
  intros H. pose proof (decodes_all c) as Hc. unfold decodes_char in Hc.
  destruct (encode_char c) as [|p [|a [|b [|q [|a2 [|b2 [|? ?]]]]]]]; try done; destruct_bool_hyps.
  - apply Ascii.eqb_eq in Hc as ->. cbn [String.app decode]. by rewrite Hc0, H.
  - cbn [String.app decode]. rewrite Hc. destruct (hex_byte a b) as [n|]; [|done]. destruct_bool_hyps.
    apply Ascii.eqb_eq in Hc1 as <-. by rewrite Hc0, H.
  - cbn [String.app decode]. rewrite Hc. destruct (hex_byte a b) as [n|]; [|done]. destruct (hex_byte a2 b2) as [m|] eqn:E; [|done].
    destruct_bool_hyps. apply Ascii.eqb_eq in Hc1 as <-. by rewrite Hc0, H.
Qed.

Lemma decode_encode f s :
  (String.length s <= f)%nat -> decode f (encodeURIComponent s) = Some s.
Proof.
  revert f. induction s as [|c s IH]; intros f Hf; [by destruct f|].
  simpl in Hf. destruct f as [|f]; [lia|]. cbn [encodeURIComponent].
  apply decode_encode_char, IH. lia.
Qed.

Lemma length_encode s : (String.length s <= String.length (encodeURIComponent s))%nat.
Proof.
  induction s as [|c s IH]; simpl; [lia|]. rewrite length_append.
  assert (1 <= String.length (encode_char c))%nat; [|lia].
  unfold encode_char, percent_utf8. destruct (uri_unescaped c), (code c <? 128)%nat; simpl; lia.
Qed.

(** Decoding an encoded component gives the text back. *)
Lemma decode_encodeURIComponent s : decodeURIComponent (encodeURIComponent s) = Some s.
Proof. apply decode_encode, length_encode. Qed.

(** Characters that would end or split a path segment or a query. *)
Definition is_delimiter (c : ascii) : bool := mem_char c "/\?#&=+ ".

Lemma encode_char_no_delimiter c : no_sep is_delimiter (encode_char c) = true.
Proof. revert c. apply (all_chars (fun c => no_sep is_delimiter (encode_char c))). vm_compute. reflexivity. Qed.

Lemma no_sep_app p a b : no_sep p (a +:+ b) = no_sep p a && no_sep p b.
Proof. induction a as [|c a IH]; simpl; [done|]. by rewrite IH, andb_assoc. Qed.

Lemma encode_no_delimiter s : no_sep is_delimiter (encodeURIComponent s) = true.
Proof. induction s as [|c s IH]; simpl; [done|]. by rewrite no_sep_app, encode_char_no_delimiter. Qed.

(** ** What a URL addresses

    A URL that starts with a slash, as a browser resolves it: the path ends at a
    [?] or [#], both slashes separate its segments, and the segments [.] and [..],
    also when percent-encoded, are taken out. *)

Fixpoint until (p : ascii -> bool) (s : string) : string :=
  match s with
  | EmptyString => EmptyString
  | String c s' => if p c then EmptyString else String c (until p s')
  end.

Fixpoint after (p : ascii -> bool) (s : string) : option string :=
  match s with
  | EmptyString => None
  | String c s' => if p c then Some s' else after p s'
  end.

Definition is_slash (c : ascii) : bool := mem_char c "/\".
Definition spells (seg dots : string) : bool := bool_decide (decodeURIComponent seg = Some dots).

Fixpoint remove_dots (done_ segs : list string) : list string :=
  match segs with
  | [] => rev done_
  | seg :: rest =>
      let last_ := match rest with [] => [""] | _ => [] end in
      if spells seg "." then remove_dots (last_ ++ done_) rest
      else if spells seg ".." then remove_dots (last_ ++ tl done_) rest
      else remove_dots (seg :: done_) rest
  end.

Definition resource (url : string) : list string :=
  remove_dots [] (tl (split_each is_slash (until (fun c => mem_char c "?#") url))).
Definition query_of (url : string) : option string :=
  option_map (until (fun c => mem_char c "#")) (after (fun c => mem_char c "?") (until (fun c => mem_char c "#") url)).

Lemma until_no_sep p s : no_sep p s = true -> until p s = s.
Proof.
  induction s as [|c s IH]; cbn; [done|]. intros H. apply andb_prop in H as [Hc Hs].
  apply negb_true_iff in Hc. by rewrite Hc, IH.
Qed.

Lemma after_no_sep p s : no_sep p s = true -> after p s = None.
Proof.
  induction s as [|c s IH]; cbn; [done|]. intros H. apply andb_prop in H as [Hc Hs].
  apply negb_true_iff in Hc. by rewrite Hc, IH.
Qed.

Lemma split_each_no_sep p s : no_sep p s = true -> split_each p s = [s].
Proof.
  induction s as [|c s IH]; cbn; [done|]. intros H. apply andb_prop in H as [Hc Hs].
  apply negb_true_iff in Hc. by rewrite Hc, IH.
Qed.

Lemma no_sep_weaken (p q : ascii -> bool) s :
  (forall c, q c = true -> p c = true) -> no_sep p s = true -> no_sep q s = true.
Proof.
  intros Hpq. induction s as [|c s IH]; cbn; [done|]. intros H. apply andb_prop in H as [Hc Hs].
  rewrite IH by done. rewrite andb_true_r. destruct (q c) eqn:Eq; [|done]. by rewrite (Hpq c Eq) in Hc.
Qed.

(** Text without delimiters stays in its segment or its query. *)
Lemma encode_no_sep (p : ascii -> bool) s :
  below 256 (fun n => negb (p (Ascii.ascii_of_nat n)) || is_delimiter (Ascii.ascii_of_nat n)) = true ->
  no_sep p (encodeURIComponent s) = true.
Proof.
  intros Hp. eapply no_sep_weaken; [|apply encode_no_delimiter]. intros c Hc.
  pose proof (all_chars (fun c => negb (p c) || is_delimiter c) Hp c) as Hd. cbn in Hd. by rewrite Hc in Hd.
Qed.

Lemma spells_encode text dots : spells (encodeURIComponent text) dots = bool_decide (text = dots).
Proof. unfold spells. rewrite decode_encodeURIComponent. apply bool_decide_ext. split; congruence. Qed.

(** Decimal digits are written as they are. *)
Lemma form_encode_dec s : is_dec s = true -> form_encode s = s.
Proof.
  induction s as [|c s IH]; cbn [is_dec form_encode]; [done|]. intros Hd. destruct_bool_hyps. rewrite IH by done.
  assert (form_char c = String c EmptyString) as ->; [|done].
  unfold form_char. replace (Ascii.eqb c " "%char) with false.
  - replace (is_alnum c) with true; [done|]. symmetry. unfold is_alnum.
    rewrite !orb_true_iff, andb_true_iff, !Nat.leb_le. lia.
  - symmetry. apply Ascii.eqb_neq. intros ->. by cbn in *.
Qed.

Lemma form_encode_StringZ n : (0 <= n)%Z -> form_encode (StringZ n) = StringZ n.
Proof. intros Hn. by apply form_encode_dec, StringZ_dec. Qed.
