(* ===== verification/Http.v ===== *)
(** * The browser's HTTP interface

    Thrown values, JSON bodies, [fetch] requests and their outcomes, and
    promises. A [promise T] records the requests it put on the wire, the raw
    outcomes the environment may answer with, and how those settle to a [T]
    or a rejection. *)
From S2P Require Import Prelude JsString JsNumber.
Local Open Scope velora_scope.
Local Open Scope string_scope.

(** ** Thrown values *)

Record FieldError : Set := mkFieldError { field : string; message : string }.

(** [APIError] is the client's own class (a subclass of [Error]); everything
    else [fetch] and [json] throw is some other [Error]; and a [catch] clause
    must also expect a value that is no [Error] at all. *)
Inductive exn : Set :=
| APIError (status : Z) (msg : string) (fields : list FieldError) (code : string)
| OtherError (msg : string)
| NotAnError.

(** [e instanceof Error ? e.message : fallback] *)
Definition error_message (e : exn) (fallback : string) : string :=
  match e with
  | APIError _ msg _ _ => msg
  | OtherError msg => msg
  | NotAnError => fallback
  end.

(** ** JSON request bodies *)

Inductive json : Set :=
| JNull
| JBool (b : bool)
| JNum (n : jsnum)
| JStr (s : string)
| JArr (l : list json)
| JObj (fields : list (string * json)).

Definition JInt (n : Z) : json := JNum (num n).
Definition JStrs (l : list string) : json := JArr (map JStr l).
Definition JInts (l : list Z) : json := JArr (map JInt l).

(** The value of a field of an object body. *)
Fixpoint assoc {A} (k : string) (l : list (string * A)) : option A :=
  match l with
  | [] => None
  | (k', v) :: l' => if String.eqb k k' then Some v else assoc k l'
  end.

Definition json_field (k : string) (j : json) : option json :=
  match j with JObj l => assoc k l | _ => None end.

(** ** Requests *)

Record fetch_init : Set := Fetch {
  f_path : string;
  f_method : string;
  f_headers : list (string * string);
  f_body : option json;
  f_signal : bool; (* whether an AbortSignal was passed *)
}.

(** A request that may change what the server stores. *)
Definition mutating (q : fetch_init) : bool :=
  negb (String.eqb (f_method q) "GET" || String.eqb (f_method q) "HEAD").

(** ** Outcomes of a [fetch] *)

(** What the error envelope of a failed response held, after the [typeof] and
    [Array.isArray] tests. *)
Record error_body : Set := mkErrorBody {
  eb_message : option string;
  eb_code : option string;
  eb_fields : option (list FieldError);
}.

Inductive fetch_outcome (T : Set) : Set :=
| Rejected (e : exn)                                  (* network failure or abort *)
| OkResponse (status : Z) (data : T + exn)            (* [ok]; reading the body may throw *)
| ErrResponse (status : Z) (body : option error_body) (* not [ok]; [None]: not JSON *).
Arguments Rejected {T} _.
Arguments OkResponse {T} _ _.
Arguments ErrResponse {T} _ _.

(** ** What a synchronous stretch of code can read from the browser *)

Record env : Type := mkEnv {
  aborted : bool;              (* of the signal the running code was given *)
  now : Z;                     (* Date.now() *)
  confirm : string -> bool;    (* window.confirm *)
  csrfToken : string;          (* the client's module variable *)
}.

(** ** Promises *)

Record promise (T : Set) : Type := Promise {
  raw : Set;
  sent : list fetch_init;
  settle : raw -> T + exn;
}.
Arguments Promise {T} _ _ _.
Arguments raw {T} _.
Arguments sent {T} _.
Arguments settle {T} _ _.

(** A call of the API: the requests depend on the environment it runs in. *)
Definition api (T : Set) : Type := env -> promise T.

(** [p.then(f)] for a function that does not throw. *)
Definition then_map {T U : Set} (f : T -> U) (a : api T) : api U := fun e =>
  Promise (raw (a e)) (sent (a e))
    (fun u => match settle (a e) u with inl v => inl (f v) | inr x => inr x end).

(** [p.catch(() => d)]: a rejection becomes the value [d]. *)
Definition or_else {T : Set} (d : T) (a : api T) : api T := fun e =>
  Promise (raw (a e)) (sent (a e))
    (fun u => match settle (a e) u with inl v => inl v | inr _ => inl d end).

(** [Promise.all([a, b])]: both requests go out at once; the first rejection
    in time ([left_first] when both reject) is the result. *)
Definition all2 {T U : Set} (a : api T) (b : api U) : api (T * U) := fun e =>
  Promise (raw (a e) * raw (b e) * bool) (sent (a e) ++ sent (b e))
    (fun '(u, v, left_first) =>
       match settle (a e) u, settle (b e) v with
       | inl x, inl y => inl (x, y)
       | inr x, inl _ => inr x
       | inl _, inr y => inr y
       | inr x, inr y => inr (if left_first : bool then x else y)
       end).

Definition all3 {T U V : Set} (a : api T) (b : api U) (c : api V) : api (T * U * V) :=
  all2 (all2 a b) c.

Definition all4 {T U V W : Set} (a : api T) (b : api U) (c : api V) (d : api W)
    : api (T * U * V * W) :=
  all2 (all3 a b c) d.

(** Every request a call can put on the wire satisfies [Q]. *)
Definition api_sends {T : Set} (Q : fetch_init -> Prop) (a : api T) : Prop :=
  forall e, Forall Q (sent (a e)).

Section Sends.
Context (Q : fetch_init -> Prop).

Lemma api_sends_map {T U : Set} (f : T -> U) a : api_sends Q a -> api_sends Q (then_map f a).
Proof. intros H e. apply H. Qed.

Lemma api_sends_or_else {T : Set} (d : T) a : api_sends Q a -> api_sends Q (or_else d a).
Proof. intros H e. apply H. Qed.

Lemma api_sends_all2 {T U : Set} (a : api T) (b : api U) :
  api_sends Q a -> api_sends Q b -> api_sends Q (all2 a b).
Proof. intros Ha Hb e. apply Forall_app. split; [apply Ha|apply Hb]. Qed.
End Sends.
#[export] Hint Resolve api_sends_map api_sends_or_else api_sends_all2 : velora.
