(* ===== verification/Api.v ===== *)
(** * The management API client: web/src/api.ts

    The wire types, the one function every call goes through ([request]), and
    the calls of [api.ts]. *)
From S2P Require Import Prelude JsString JsNumber Http.
Local Open Scope velora_scope.
Local Open Scope string_scope.

(** ** Wire types *)

Inductive cluster_role : Set := standalone | primary | replica.

Record Version : Set := mkVersion { ver_version : string; ver_commit : string; ver_built : string }.

Record Status : Set := mkStatus {
  ready : bool;
  uptime_seconds : Z;
  dns_listen : list string;
  version : Version;
  capabilities : list string;
  cluster_role_of : option cluster_role;
}.

Record Stats : Set := mkStats {
  queries_total : Z;
  blocked_queries : Z;
  queries_per_second : jsnum;
  cache_hit_rate : jsnum;
}.

Record Cache : Set := mkCache { entries : Z; capacity : Z; hits : Z; misses : Z }.

Record CacheEntry : Set := mkCacheEntry {
  ce_name : string;
  ce_type : string;
  ce_rcode : string;
  ce_answers : list string;
  ce_remaining_ttl : Z;
}.

Record CacheEntryPage : Set := mkCacheEntryPage { cep_entries : list CacheEntry; cep_total : Z }.

Inductive severity : Set := sev_info | sev_warning | sev_critical.

Record SystemEvent : Set := mkSystemEvent {
  se_id : Z;
  se_severity : severity;
  se_title : string;
  se_message : string;
  se_link : string;
  se_occurred_at : string;
  se_repeat_count : Z;
  se_read : bool;
}.

Record SystemEventPage : Set := mkSystemEventPage { sep_events : list SystemEvent; unread_count : Z }.

(** [*_rest] are the members of the object beyond the declared ones, which an
    object spread carries over. *)
Record QueryLogConfig : Set := mkQueryLogConfig {
  ql_enabled : bool; ql_retention : Z; ql_max_rows : Z; ql_queue_size : Z; ql_rest : list (string * json) }.
Record DnsConfig : Set := mkDnsConfig {
  dns_cfg_listen : list string;
  upstreams : list string;
  allowed_clients : list string;
  dns_timeout : Z;
  dns_retries : Z;
  dns_max_concurrent : Z;
  dns_rest : list (string * json);
}.
Record CacheConfig : Set := mkCacheConfig { max_entries : Z; upstream_ttl : Z; cache_rest : list (string * json) }.
Record HttpConfig : Set := mkHttpConfig {
  http_listen : string; http_web_dir : string; http_allowed_hosts : list string; http_rest : list (string * json) }.

Record Config : Set := mkConfig {
  cfg_query_log : QueryLogConfig;
  cfg_dns : DnsConfig;
  cfg_cache : CacheConfig;
  cfg_http : HttpConfig;
  cfg_log_level : string;
  cfg_rest : list (string * json);
}.

Record Snapshot : Set := mkSnapshot {
  snap_status : Status;
  snap_stats : Stats;
  snap_cache : Cache;
  snap_config : Config;
  checked : Z; (* the Date at which the snapshot was taken *)
}.

Record QueryLogEntry : Set := mkQueryLogEntry {
  qle_id : Z;
  qle_upstream : string;
  qle_cache_hit : bool;
  qle_occurred_at : string;
  qle_client_ip : string;
  qle_domain : string;
  qle_type : string;
  qle_rcode : string;
  qle_duration : Z;
  qle_source : string;
  qle_client_name : option string;
}.

Record BlocklistSource : Set := mkBlocklistSource {
  bs_id : Z;
  bs_name : string;
  bs_url : string;
  bs_enabled : bool;
  bs_last_updated_at : option string;
  bs_last_error : string;
  bs_domains : option (list string);
  bs_domain_count : option Z;
  bs_update_interval : option Z;
  bs_last_attempt_at : option string;
  bs_consecutive_failures : option Z;
  bs_next_update_at : option string;
}.

Inductive role : Set := admin | operator | viewer.

Record AuthUser : Set := mkAuthUser {
  username : string;
  user_role : role;
  csrf_token : string;
  user_language : option string;
  user_theme : option string;
}.

Record Preferences : Set := mkPreferences { pref_language : string; pref_theme : string }.

Record RateLimitSettings : Set := mkRateLimitSettings {
  rl_enabled : bool; global_qps : jsnum; client_qps : jsnum; rate_limit_burst : jsnum }.

Record RateLimitStatus : Set := mkRateLimitStatus {
  rls_enabled : bool; rejected_total : jsnum; last_rejected_at : option string }.

Record BackupMetadata : Set := mkBackupMetadata {
  format_version : Z;
  velora_version : string;
  created_at : string;
  schema_version : Z;
  components : list string;
}.

Record BackupSummary : Set := mkBackupSummary {
  sum_zones : Z; sum_records : Z; sum_blocklists : Z; sum_clients : Z; sum_rewrites : Z;
  sum_forward_rules : Z; sum_users : Z;
  sum_dns_listen : list string;
  sum_upstreams : list string;
  sum_http_listen : string;
  current_version : string;
  current_schema : Z;
  warnings : list string;
}.

Record BackupInspection : Set := mkBackupInspection {
  insp_token : string;
  insp_expires_at : string;
  insp_metadata : BackupMetadata;
  insp_summary : BackupSummary;
}.

Inductive restore_phase : Set := rs_pending | rs_applied | rs_completed | rs_rolled_back | rs_failed.

Record RestoreState : Set := mkRestoreState {
  rst_state : restore_phase;
  rst_metadata : option BackupMetadata;
  safety_copy : option string;
  rst_error : option string;
  rst_updated_at : string;
}.

Record UpdateStatus : Set := mkUpdateStatus {
  us_state : string;
  us_installed : string;
  us_from_version : option string;
  us_to_version : option string;
  us_channel : option string;
  us_started_at : option string;
  us_last_completed : option string;
  us_updating : bool;
  us_error : option string;
  us_rollback_used : option bool;
  us_readiness_ok : option bool;
}.

Record UpdateCheck : Set := mkUpdateCheck {
  uc_installed_version : string;
  uc_latest_version : string;
  update_available : bool;
  uc_channel : string;
  uc_release_date : option string;
  uc_release_notes : option string;
  uc_architecture : string;
  uc_download_size : option Z;
}.

Record UpdateEntry : Set := mkUpdateEntry {
  ue_id : string;
  ue_started_at : string;
  ue_completed_at : option string;
  ue_from_version : string;
  ue_to_version : string;
  ue_channel : option string;
  ue_state : string;
  ue_error : option string;
  ue_readiness_ok : bool;
  ue_rollback_used : bool;
  ue_deployment_mode : string;
}.

Record ConfigCheck : Set := mkConfigCheck {
  cc_valid : bool; cc_errors : list FieldError; cc_restart_required : list string }.

(** ** [request] *)

Record options := mkOptions { opt_body : option json; opt_revision : option Z }.
Definition no_options : options := mkOptions None None.
Definition with_body (j : json) : options := mkOptions (Some j) None.

Definition is_safe_method (method : string) : bool :=
  String.eqb method "GET" || String.eqb method "HEAD".

(** A double quote, which the If-Match entity tag is wrapped in. *)
Definition dquote : string := String (Ascii.ascii_of_nat 34) EmptyString.

Definition request_headers (csrf method : string) (o : options) : list (string * string) :=
  [("Content-Type", "application/json")]
  ++ match opt_revision o with
     | None => []
     | Some r => [("If-Match", dquote +:+ StringZ r +:+ dquote)]
     end
  ++ (if is_safe_method method || negb (truthy csrf) then []
      else [("X-CSRF-Token", csrf)]).

Definition request_init (csrf path : string) (signal : bool) (method : string) (o : options)
    : fetch_init :=
  Fetch path method (request_headers csrf method o) (opt_body o) signal.

(** The [APIError] a failed response becomes. *)
Definition response_error (status : Z) (body : option error_body) : exn :=
  let fallback := "Management API returned HTTP " +:+ StringZ status in
  match body with
  | None => APIError status fallback [] ""
  | Some b => APIError status (eb_message b ?? fallback) (eb_fields b ?? []) (eb_code b ?? "")
  end.

Definition settle_response {T : Set} (o : fetch_outcome T) : T + exn :=
  match o with
  | Rejected e => inr e
  | ErrResponse status body => inr (response_error status body)
  | OkResponse _ data => data
  end.

Definition request (T : Set) (path : string) (signal : bool) (method : string) (o : options)
    : api T := fun e =>
  Promise (fetch_outcome T) [request_init (csrfToken e) path signal method o] settle_response.

(** [request<T>(path, signal)] with the default method and options. *)
Definition get (T : Set) (path : string) (signal : bool) : api T :=
  request T path signal "GET" no_options.

(** ** Backup transfers, which call [fetch] themselves *)

Definition blob : Set := string.

(** The only body field these two read is [error.message]. *)
Definition plain_error (what : string) (status : Z) (body : option error_body) : exn :=
  APIError status
    (match body with Some b => eb_message b | None => None end
       ?? (what +:+ " failed (" +:+ StringZ status +:+ ")")) [] "".

Definition downloadEncryptedBackup (passphrase : string) : api blob := fun e =>
  Promise (fetch_outcome blob)
    [Fetch "/api/v1/backup/create" "POST"
       [("Content-Type", "application/json"); ("X-CSRF-Token", csrfToken e)]
       (Some (JObj [("passphrase", JStr passphrase)])) false]
    (fun o => match o with
              | Rejected x => inr x
              | ErrResponse status body => inr (plain_error "Backup" status body)
              | OkResponse _ data => data
              end).

(** The multipart form is an object body, its parts in order. The body is read
    before the status is looked at: a successful response may lack [data], with
    or without an error message, and one whose body is not JSON reads as [{}]. *)
Definition inspectBackup (file : blob) (passphrase : string) : api BackupInspection := fun e =>
  Promise (fetch_outcome (BackupInspection + option error_body))
    [Fetch "/api/v1/backup/inspect" "POST" [("X-CSRF-Token", csrfToken e)]
       (Some (JObj [("passphrase", JStr passphrase); ("bundle", JStr file)])) false]
    (fun o => match o with
              | Rejected x => inr x
              | OkResponse _ (inl (inl data)) => inl data
              | OkResponse status (inl (inr body)) => inr (plain_error "Backup inspection" status body)
              | OkResponse status (inr _) => inr (plain_error "Backup inspection" status None)
              | ErrResponse status body => inr (plain_error "Backup inspection" status body)
              end).

(** ** The calls of api.ts *)

Definition loadRateLimitStatus (signal : bool) : api RateLimitStatus :=
  get _ "/api/v1/settings/rate-limit/status" signal.
Definition loadRateLimitSettings (signal : bool) : api RateLimitSettings :=
  get _ "/api/v1/settings/rate-limit" signal.

Definition rate_limit_json (s : RateLimitSettings) : json :=
  JObj [("enabled", JBool (rl_enabled s)); ("global_qps", JNum (global_qps s));
        ("client_qps", JNum (client_qps s)); ("rate_limit_burst", JNum (rate_limit_burst s))].
Definition saveRateLimitSettings (s : RateLimitSettings) : api RateLimitSettings :=
  request _ "/api/v1/settings/rate-limit" false "PUT" (with_body (rate_limit_json s)).

Definition loadPreferences (signal : bool) : api Preferences :=
  get _ "/api/v1/preferences" signal.
Definition savePreferences (p : Preferences) : api Preferences :=
  request _ "/api/v1/preferences" false "PUT"
    (with_body (JObj [("language", JStr (pref_language p)); ("theme", JStr (pref_theme p))])).

Record Scheduled : Set := mkScheduled { sch_state : string; sch_metadata : BackupMetadata }.
Definition scheduleRestore (token : string) : api Scheduled :=
  request _ "/api/v1/backup/restore" false "POST"
    (with_body (JObj [("token", JStr token); ("confirm", JBool true)])).
Definition loadRestoreState (signal : bool) : api (option RestoreState) :=
  get _ "/api/v1/backup/restore" signal.

(** The four requests of [loadSnapshot], sent together. *)
Definition snapshot_requests (signal : bool) : api (Status * Stats * Cache * Config) :=
  all4 (get Status "/api/v1/status" signal)
       (get Stats "/api/v1/stats" signal)
       (get Cache "/api/v1/cache" signal)
       (get Config "/api/v1/config" signal).

Definition loadUpdateStatus (signal : bool) : api UpdateStatus :=
  get _ "/api/v1/update/status" signal.
Definition loadUpdateHistory (signal : bool) : api (list UpdateEntry) :=
  get _ "/api/v1/update/history" signal.
Definition checkForUpdates (signal : bool) : api UpdateCheck :=
  get _ "/api/v1/update/check" signal.

Record Ack : Set := mkAck { ack_status : string; ack_message : string }.
Definition requestUpdate (signal : bool) : api Ack :=
  request _ "/api/v1/update/request" signal "POST" (with_body (JObj [("action", JStr "update")])).

Definition config_json (c : Config) : json :=
  JObj ([
    ("query_log", JObj ([("enabled", JBool (ql_enabled (cfg_query_log c)));
                         ("retention", JInt (ql_retention (cfg_query_log c)));
                         ("max_rows", JInt (ql_max_rows (cfg_query_log c)));
                         ("queue_size", JInt (ql_queue_size (cfg_query_log c)))] ++ ql_rest (cfg_query_log c)));
    ("dns", JObj ([("listen", JStrs (dns_cfg_listen (cfg_dns c)));
                  ("upstreams", JStrs (upstreams (cfg_dns c)));
                  ("allowed_clients", JStrs (allowed_clients (cfg_dns c)));
                  ("timeout", JInt (dns_timeout (cfg_dns c)));
                  ("retries", JInt (dns_retries (cfg_dns c)));
                  ("max_concurrent", JInt (dns_max_concurrent (cfg_dns c)))] ++ dns_rest (cfg_dns c)));
    ("cache", JObj ([("max_entries", JInt (max_entries (cfg_cache c)));
                    ("upstream_ttl", JInt (upstream_ttl (cfg_cache c)))] ++ cache_rest (cfg_cache c)));
    ("http", JObj ([("listen", JStr (http_listen (cfg_http c)));
                   ("web_dir", JStr (http_web_dir (cfg_http c)));
                   ("allowed_hosts", JStrs (http_allowed_hosts (cfg_http c)))] ++ http_rest (cfg_http c)));
    ("log_level", JStr (cfg_log_level c))] ++ cfg_rest c).
Definition validateConfig (c : Config) : api ConfigCheck :=
  request _ "/api/v1/config/validate" false "POST" (with_body (config_json c)).
Definition saveConfig (c : Config) (signal : bool) : api Ack :=
  request _ "/api/v1/config" signal "PUT" (with_body (config_json c)).

(** A small server's snapshot, for the concrete instances. *)
Definition small_config : Config :=
  mkConfig (mkQueryLogConfig true 7 1000 10 [])
    (mkDnsConfig ["127.0.0.1:53"] ["1.1.1.1:53"; "9.9.9.9:53"] ["10.0.0.0/8"] 5 2 100 [("doh", JBool false)])
    (mkCacheConfig 10000 300 []) (mkHttpConfig "127.0.0.1:8080" "/web" ["localhost"] []) "info" [].
Definition small_snapshot : Snapshot :=
  mkSnapshot (mkStatus true 60 ["127.0.0.1:53"] (mkVersion "1.0.0" "abc" "today") [] None)
    (mkStats 10 1 (num 2) (num 0)) (mkCache 3 10000 5 5) small_config 0.

(** * Theorems *)

(** C8: what the client puts on the wire. A call that goes through [request] is
    one request to its path, with its method, body and signal, JSON as content
    type, an If-Match header exactly when a revision was given, and the CSRF token
    exactly on methods that may change something while a token is known; a
    response that is not ok always becomes an [APIError] with its status. The two
    backup transfers call [fetch] themselves: each is one POST whose CSRF header
    is there even while the token is empty; creating a backup sends the passphrase
    as JSON, inspecting one sends passphrase and bundle, in this order, as a form
    whose content type the browser sets; a response that is not ok becomes an
    [APIError] with its status, and so does an inspection without data. *)
Theorem request_wire (T : Set) path signal method o e :
  (exists q, sent (request T path signal method o e) = [q] /\
    f_path q = path /\ f_method q = method /\ f_body q = opt_body o /\ f_signal q = signal /\
    assoc "Content-Type" (f_headers q) = Some "application/json" /\
    assoc "If-Match" (f_headers q) = option_map (fun r => dquote +:+ StringZ r +:+ dquote) (opt_revision o) /\
    assoc "X-CSRF-Token" (f_headers q)
      = (if mutating q && truthy (csrfToken e) then Some (csrfToken e) else None) /\
    forall status b, exists msg fields code,
      settle (request T path signal method o e) (ErrResponse status b) = inr (APIError status msg fields code)) /\
  (forall passphrase, exists q, sent (downloadEncryptedBackup passphrase e) = [q] /\
    f_path q = "/api/v1/backup/create" /\ f_method q = "POST" /\
    f_body q = Some (JObj [("passphrase", JStr passphrase)]) /\
    assoc "Content-Type" (f_headers q) = Some "application/json" /\
    assoc "X-CSRF-Token" (f_headers q) = Some (csrfToken e) /\
    forall status b, exists msg,
      settle (downloadEncryptedBackup passphrase e) (ErrResponse status b) = inr (APIError status msg [] "")) /\
  (forall file passphrase, exists q, sent (inspectBackup file passphrase e) = [q] /\
    f_path q = "/api/v1/backup/inspect" /\ f_method q = "POST" /\
    f_body q = Some (JObj [("passphrase", JStr passphrase); ("bundle", JStr file)]) /\
    assoc "Content-Type" (f_headers q) = None /\
    assoc "X-CSRF-Token" (f_headers q) = Some (csrfToken e) /\
    forall status b, exists msg msg',
      settle (inspectBackup file passphrase e) (ErrResponse status b) = inr (APIError status msg [] "") /\
      settle (inspectBackup file passphrase e) (OkResponse status (inl (inr b))) = inr (APIError status msg' [] "")).
Proof.
  split; [|split].
  - eexists. split; [reflexivity|]. cbn. unfold request_headers, mutating. cbn.
    fold (is_safe_method method).
    split_and!; try done.
    + by destruct (opt_revision o), (is_safe_method method || negb (truthy (csrfToken e))).
    + by destruct (opt_revision o), (is_safe_method method), (truthy (csrfToken e)).
    + intros status [b|]; by eexists _, _, _.
  - intros passphrase. eexists. split; [reflexivity|]. split_and!; try done. intros status b. by eexists.
  - intros file passphrase. eexists. split; [reflexivity|]. split_and!; try done. intros status b. by eexists _, _.
Qed.
