(* ===== verification/Resources.v ===== *)
(** * The resource clients: web/src/api-*.ts

    Wire types, JSON bodies and calls for clients, cluster, DHCP, answer
    explanations, forwarding, policies, rewrites, search and webhooks. *)
From S2P Require Import Prelude JsString JsNumber Url Http Api.
Local Open Scope velora_scope.
Local Open Scope string_scope.

(** [{ deleted: number }] *)
Record Deleted : Set := mkDeleted { deleted : Z }.

Definition post (T : Set) (path : string) (j : json) : api T := request T path false "POST" (with_body j).
Definition put (T : Set) (path : string) (j : json) : api T := request T path false "PUT" (with_body j).
Definition post_empty (T : Set) (path : string) : api T := request T path false "POST" no_options.
Definition del (T : Set) (path : string) : api T := request T path false "DELETE" no_options.

(** ** api-clients.ts *)

Record Client : Set := mkClient {
  cl_id : Z; cl_name : string; cl_addresses : list string; cl_group : string;
  cl_description : string; cl_enabled : bool }.

Record Activity : Set := mkActivity { act_queries : Z; act_last_seen : option string }.
Record ClientView : Set := mkClientView { cv_client : Client; cv_activity : option Activity }.
Record ClientActivity : Set := mkClientActivity {
  ca_client_ip : string; ca_queries : Z; ca_last_seen : string }.
Record ClientList : Set := mkClientList { clients : list ClientView; unnamed : list ClientActivity }.

Record ClientInput : Set := mkClientInput {
  ci_name : string; ci_addresses : list string; ci_group : string;
  ci_description : string; ci_enabled : bool }.

Definition client_json (i : ClientInput) : json :=
  JObj [("name", JStr (ci_name i)); ("addresses", JStrs (ci_addresses i));
        ("group", JStr (ci_group i)); ("description", JStr (ci_description i));
        ("enabled", JBool (ci_enabled i))].

Definition loadClients (signal : bool) : api ClientList := get _ "/api/v1/clients" signal.
Definition createClient (i : ClientInput) : api Client := post _ "/api/v1/clients" (client_json i).
Definition updateClient (id : Z) (i : ClientInput) : api Client :=
  put _ ("/api/v1/clients/" +:+ StringZ id) (client_json i).
Definition deleteClient (id : Z) : api Deleted := del _ ("/api/v1/clients/" +:+ StringZ id).

(** ** api-cluster.ts *)

Record ClusterNode : Set := mkClusterNode {
  cn_id : string; cn_name : string; cn_address : string; cn_capabilities : list string;
  cn_version : string; cn_status : string; cn_last_seen_at : string }.
Record ConfigVersion : Set := mkConfigVersion {
  cv_version : Z; cv_config_hash : string; cv_applied_by : string; cv_applied_at : string }.

Definition loadClusterNodes (signal : bool) : api (list ClusterNode) :=
  then_map (fun r => r ?? []) (get (option (list ClusterNode)) "/api/v1/cluster/nodes" signal).
Definition deleteClusterNode (id : string) : api unit := del _ ("/api/v1/cluster/nodes/" +:+ id).
Definition loadConfigVersions (limit : Z) (signal : bool) : api (list ConfigVersion) :=
  then_map (fun r => r ?? [])
    (get (option (list ConfigVersion)) ("/api/v1/cluster/config-versions?limit=" +:+ StringZ limit) signal).

Inductive MemberStatus : Set := in_sync | behind | stale | member_error | never_synced.

Record ClusterState : Set := mkClusterState {
  cs_role : cluster_role; cs_cluster_id : string; cs_node_id : string; cs_node_name : string;
  cs_advertised_url : string; cs_primary_url : string; cs_allow_insecure : bool;
  cs_created_at : option string; cs_last_sync_at : option string; cs_last_sync_error : string;
  cs_applied_revision : string }.
Record ClusterMember : Set := mkClusterMember {
  cm_node_id : string; cm_name : string; cm_address : string; cm_version : string;
  cm_joined_at : string; cm_last_seen_at : option string; cm_applied_revision : string;
  cm_last_error : string; cm_status : MemberStatus }.
Record ClusterOverview : Set := mkClusterOverview {
  co_state : ClusterState; co_revision : string; co_members : list ClusterMember;
  co_zones_read_only : bool; co_protocol : Z; co_version : string; co_replicated_zones : Z }.
Record JoinToken : Set := mkJoinToken { jt_token : string; jt_expires_at : string }.

Definition loadClusterOverview (signal : bool) : api ClusterOverview :=
  get _ "/api/v1/cluster/overview" signal.
Definition createCluster (name advertised_url : string) (allow_insecure skip_check : bool)
    : api ClusterOverview :=
  post _ "/api/v1/cluster/create"
    (JObj [("name", JStr name); ("advertised_url", JStr advertised_url);
           ("allow_insecure", JBool allow_insecure); ("skip_check", JBool skip_check)]).
Definition issueJoinToken : api JoinToken := post_empty _ "/api/v1/cluster/join-tokens".
Definition joinCluster (primary_url token name : string) (allow_insecure : bool) : api ClusterOverview :=
  post _ "/api/v1/cluster/connect"
    (JObj [("primary_url", JStr primary_url); ("token", JStr token); ("name", JStr name);
           ("allow_insecure", JBool allow_insecure)]).
Definition syncCluster : api ClusterOverview := post_empty _ "/api/v1/cluster/sync".
Definition removeClusterMember (id : string) : api ClusterOverview :=
  del _ ("/api/v1/cluster/members/" +:+ encodeURIComponent id).
Definition leaveCluster : api ClusterOverview := post_empty _ "/api/v1/cluster/leave".
Definition dissolveCluster : api ClusterOverview := post_empty _ "/api/v1/cluster/dissolve".

(** ** api-dhcp.ts *)

Record DHCPPool : Set := mkDHCPPool {
  dp_id : Z; dp_name : string; dp_interface : string; dp_subnet : string; dp_gateway : string;
  dp_dns_servers : list string; dp_lease_seconds : jsnum; dp_enabled : bool;
  dp_created_at : string; dp_updated_at : string }.
Record DHCPReservation : Set := mkDHCPReservation {
  dr_id : Z; dr_pool_id : Z; dr_mac_address : string; dr_ip_address : string; dr_hostname : string }.
Record DHCPLease : Set := mkDHCPLease {
  dl_id : Z; dl_pool_id : Z; dl_mac_address : string; dl_ip_address : string; dl_hostname : string;
  dl_client_id : string; dl_expires_at : string; dl_status : string; dl_created_at : string }.

(** A pool without its id and its timestamps. *)
Record PoolInput : Set := mkPoolInput {
  pi_name : string; pi_interface : string; pi_subnet : string; pi_gateway : string;
  pi_dns_servers : list string; pi_lease_seconds : jsnum; pi_enabled : bool }.
Record ReservationInput : Set := mkReservationInput {
  ri_mac_address : string; ri_ip_address : string; ri_hostname : string }.

Definition loadPools (signal : bool) : api (list DHCPPool) :=
  then_map (fun r => r ?? []) (get (option (list DHCPPool)) "/api/v1/dhcp/pools" signal).
Definition createPool (p : PoolInput) : api DHCPPool :=
  post _ "/api/v1/dhcp/pools"
    (JObj [("name", JStr (pi_name p)); ("interface", JStr (pi_interface p));
           ("subnet", JStr (pi_subnet p)); ("gateway", JStr (pi_gateway p));
           ("dns_servers", JStrs (pi_dns_servers p)); ("lease_seconds", JNum (pi_lease_seconds p));
           ("enabled", JBool (pi_enabled p))]).
Definition deletePool (id : Z) : api unit := del _ ("/api/v1/dhcp/pools/" +:+ StringZ id).
Definition loadReservations (poolId : Z) (signal : bool) : api (list DHCPReservation) :=
  then_map (fun r => r ?? [])
    (get (option (list DHCPReservation)) ("/api/v1/dhcp/pools/" +:+ StringZ poolId +:+ "/reservations") signal).
Definition createReservation (poolId : Z) (r : ReservationInput) : api DHCPReservation :=
  post _ ("/api/v1/dhcp/pools/" +:+ StringZ poolId +:+ "/reservations")
    (JObj [("mac_address", JStr (ri_mac_address r)); ("ip_address", JStr (ri_ip_address r));
           ("hostname", JStr (ri_hostname r))]).
Definition deleteReservation (id : Z) : api unit := del _ ("/api/v1/dhcp/reservations/" +:+ StringZ id).
Definition loadLeases (signal : bool) : api (list DHCPLease) :=
  then_map (fun r => r ?? []) (get (option (list DHCPLease)) "/api/v1/dhcp/leases" signal).
Definition deleteLease (id : Z) : api unit := del _ ("/api/v1/dhcp/leases/" +:+ StringZ id).

(** ** api-explain.ts *)

Definition EXPLAIN_TYPES : list string := ["A"; "AAAA"; "CNAME"; "TXT"; "MX"; "NS"; "PTR"; "SOA"].

Record ExplainRule : Set := mkExplainRule {
  er_id : option Z; er_name : string; er_detail : option string }.
Inductive explain_scope : Set := scope_global | scope_client_policy.
Record ExplainFilter : Set := mkExplainFilter {
  ef_scope : explain_scope; ef_client : option string; ef_mode : option string;
  ef_matches : option (list ExplainRule); ef_allowed_by : option (list ExplainRule) }.
Inductive explain_stage : Set :=
  st_filter | st_rewrite | st_zone | st_cache | st_forwarding | st_upstream | st_refused.
Record ExplainStep : Set := mkExplainStep {
  es_stage : explain_stage; es_result : string; es_rules : option (list ExplainRule);
  es_filter : option ExplainFilter; es_remaining_ttl : option Z; es_depth : Z }.
Inductive answer_source : Set := src_local | src_cache | src_blocked | src_upstream | src_refused.
Record AnswerExplanation : Set := mkAnswerExplanation {
  ae_name : string; ae_type : string; ae_client : option string; ae_source : answer_source;
  ae_winner : ExplainStep; ae_rcode : option string; ae_answers : list string;
  ae_steps : list ExplainStep }.

(** An absent [client] is left out of the body. *)
Definition explainAnswer (name type : string) (client : option string) (signal : bool)
    : api AnswerExplanation :=
  request _ "/api/v1/diagnostics/explain" signal "POST"
    (with_body (JObj ([("name", JStr name); ("type", JStr type)]
       ++ match client with Some c => [("client", JStr c)] | None => [] end))).

(** ** api-forwarding.ts *)

Inductive upstream_state : Set := up_unknown | up_healthy | up_degraded | up_unavailable.
Record UpstreamStatus : Set := mkUpstreamStatus {
  up_address : string; up_state : upstream_state; up_consecutive_failures : Z;
  up_latency_milliseconds : jsnum }.
Record ForwardRule : Set := mkForwardRule {
  fr_id : Z; fr_domain : string; fr_upstreams : list string; fr_enabled : bool; fr_description : string }.
Record ForwardRuleStatus : Set := mkForwardRuleStatus {
  frs_rule : ForwardRule; frs_health : list UpstreamStatus }.
Record ForwardRuleInput : Set := mkForwardRuleInput {
  fi_domain : string; fi_upstreams : list string; fi_enabled : bool; fi_description : string }.
Record ForwardTestResult : Set := mkForwardTestResult {
  ft_name : string; ft_type : string; ft_rcode : option string; ft_answers : list string;
  ft_upstream : option string; ft_duration_ms : jsnum; ft_error : option string }.

Definition forward_json (i : ForwardRuleInput) : json :=
  JObj [("domain", JStr (fi_domain i)); ("upstreams", JStrs (fi_upstreams i));
        ("enabled", JBool (fi_enabled i)); ("description", JStr (fi_description i))].

Definition loadForwardRules (signal : bool) : api (list ForwardRuleStatus) :=
  get _ "/api/v1/forwarding" signal.
Definition createForwardRule (i : ForwardRuleInput) : api ForwardRule :=
  post _ "/api/v1/forwarding" (forward_json i).
Definition updateForwardRule (id : Z) (i : ForwardRuleInput) : api ForwardRule :=
  put _ ("/api/v1/forwarding/" +:+ StringZ id) (forward_json i).
Definition deleteForwardRule (id : Z) : api Deleted := del _ ("/api/v1/forwarding/" +:+ StringZ id).
Definition testForwardRule (id : Z) (name type : string) : api ForwardTestResult :=
  post _ ("/api/v1/forwarding/" +:+ StringZ id +:+ "/test")
    (JObj [("name", JStr name); ("type", JStr type)]).

(** ** api-policies.ts *)

Inductive PolicyMode : Set := mode_default | mode_disabled | mode_custom.
Definition mode_str (m : PolicyMode) : string :=
  match m with mode_default => "default" | mode_disabled => "disabled" | mode_custom => "custom" end.

Record Policy : Set := mkPolicy {
  po_id : Z; po_client_id : Z; po_mode : PolicyMode; po_blocklists : list Z;
  po_allow : list string; po_block : list string; po_enabled : bool }.
Record PolicyInput : Set := mkPolicyInput {
  pin_client_id : jsnum; pin_mode : PolicyMode; pin_blocklists : list Z;
  pin_allow : list string; pin_block : list string; pin_enabled : bool }.
Record EffectivePolicy : Set := mkEffectivePolicy {
  ep_client : option Client; ep_policy : option Policy; ep_mode : PolicyMode }.

Definition policy_json (i : PolicyInput) : json :=
  JObj [("client_id", JNum (pin_client_id i)); ("mode", JStr (mode_str (pin_mode i)));
        ("blocklists", JInts (pin_blocklists i)); ("allow", JStrs (pin_allow i));
        ("block", JStrs (pin_block i)); ("enabled", JBool (pin_enabled i))].

Definition loadPolicies (signal : bool) : api (list Policy) := get _ "/api/v1/policies" signal.
Definition createPolicy (i : PolicyInput) : api Policy := post _ "/api/v1/policies" (policy_json i).
Definition updatePolicy (id : Z) (i : PolicyInput) : api Policy :=
  put _ ("/api/v1/policies/" +:+ StringZ id) (policy_json i).
Definition deletePolicy (id : Z) : api Deleted := del _ ("/api/v1/policies/" +:+ StringZ id).
Definition effectivePolicy (ip : string) : api EffectivePolicy :=
  get _ ("/api/v1/policies/effective?ip=" +:+ encodeURIComponent ip) false.

(** ** api-rewrites.ts *)

Inductive RewriteType : Set := rw_A | rw_AAAA | rw_CNAME.
Definition rewrite_type_str (t : RewriteType) : string :=
  match t with rw_A => "A" | rw_AAAA => "AAAA" | rw_CNAME => "CNAME" end.

Record Rewrite : Set := mkRewrite {
  rw_id : Z; rw_name : string; rw_type : RewriteType; rw_value : string; rw_enabled : bool;
  rw_description : string }.
Record RewriteStatus : Set := mkRewriteStatus {
  rws_rewrite : Rewrite; rws_blocked_by : option string; rws_overrides_zone : option string }.
Record RewriteInput : Set := mkRewriteInput {
  rwi_name : string; rwi_type : RewriteType; rwi_value : string; rwi_enabled : bool;
  rwi_description : string }.

Definition rewrite_json (i : RewriteInput) : json :=
  JObj [("name", JStr (rwi_name i)); ("type", JStr (rewrite_type_str (rwi_type i)));
        ("value", JStr (rwi_value i)); ("enabled", JBool (rwi_enabled i));
        ("description", JStr (rwi_description i))].

Definition loadRewrites (signal : bool) : api (list RewriteStatus) := get _ "/api/v1/rewrites" signal.
Definition createRewrite (i : RewriteInput) : api Rewrite := post _ "/api/v1/rewrites" (rewrite_json i).
Definition updateRewrite (id : Z) (i : RewriteInput) : api Rewrite :=
  put _ ("/api/v1/rewrites/" +:+ StringZ id) (rewrite_json i).
Definition deleteRewrite (id : Z) : api Deleted := del _ ("/api/v1/rewrites/" +:+ StringZ id).

(** ** api-search.ts *)

Inductive SearchKind : Set := k_zone | k_record | k_client | k_rewrite | k_forwarding | k_blocklist.
Definition kind_str (k : SearchKind) : string :=
  match k with
  | k_zone => "zone" | k_record => "record" | k_client => "client"
  | k_rewrite => "rewrite" | k_forwarding => "forwarding" | k_blocklist => "blocklist"
  end.
Record SearchResult : Set := mkSearchResult {
  sr_kind : SearchKind; sr_title : string; sr_subtitle : option string; sr_link : string }.

Definition searchResources (query : string) (signal : bool) : api (list SearchResult) :=
  get _ ("/api/v1/search?q=" +:+ encodeURIComponent query) signal.

(** ** api-webhooks.ts *)

Definition severity_str (s : severity) : string :=
  match s with sev_info => "info" | sev_warning => "warning" | sev_critical => "critical" end.

Record Webhook : Set := mkWebhook {
  wh_id : Z; wh_name : string; wh_url : string; wh_events : list string; wh_min_severity : severity;
  wh_allow_private : bool; wh_enabled : bool; wh_has_token : bool; wh_last_delivery_at : option string;
  wh_last_status : string; wh_last_error : string; wh_consecutive_failures : Z }.
(** [wi_token]: [None] leaves the stored token alone, [Some ""] removes it. *)
Record WebhookInput : Set := mkWebhookInput {
  wi_name : string; wi_url : string; wi_events : list string; wi_min_severity : severity;
  wi_allow_private : bool; wi_enabled : bool; wi_token : option string }.
Record WebhookTestResult : Set := mkWebhookTestResult {
  wt_ok : bool; wt_error : string; wt_webhook : Webhook }.

Definition webhook_json (i : WebhookInput) : json :=
  JObj ([("name", JStr (wi_name i)); ("url", JStr (wi_url i)); ("events", JStrs (wi_events i));
         ("min_severity", JStr (severity_str (wi_min_severity i)));
         ("allow_private", JBool (wi_allow_private i)); ("enabled", JBool (wi_enabled i))]
        ++ match wi_token i with Some tok => [("token", JStr tok)] | None => [] end).

Definition loadWebhooks (signal : bool) : api (list Webhook) := get _ "/api/v1/webhooks" signal.
Definition loadEventTypes (signal : bool) : api (list string) := get _ "/api/v1/webhooks/event-types" signal.
Definition createWebhook (i : WebhookInput) : api Webhook := post _ "/api/v1/webhooks" (webhook_json i).
Definition updateWebhook (id : Z) (i : WebhookInput) : api Webhook :=
  put _ ("/api/v1/webhooks/" +:+ StringZ id) (webhook_json i).
Definition deleteWebhook (id : Z) : api Deleted := del _ ("/api/v1/webhooks/" +:+ StringZ id).
Definition testWebhook (id : Z) : api WebhookTestResult :=
  post_empty _ ("/api/v1/webhooks/" +:+ StringZ id +:+ "/test").

(** ** api-analytics.ts *)

Record QueryRanking : Set := mkQueryRanking { qr_value : string; qr_count : Z; qr_name : option string }.
Record QuerySummary : Set := mkQuerySummary {
  qs_window_start : string; qs_window_end : string; qs_total : Z; qs_blocked : Z;
  qs_top_domains : list QueryRanking; qs_top_clients : list QueryRanking }.
Inductive AnalyticsRange : Set := r_1h | r_24h | r_7d | r_30d.
Definition range_str (r : AnalyticsRange) : string :=
  match r with r_1h => "1h" | r_24h => "24h" | r_7d => "7d" | r_30d => "30d" end.
Record AnalyticsBucket : Set := mkAnalyticsBucket {
  ab_start : string; ab_total : Z; ab_blocked : Z; ab_cached : Z; ab_failed : Z; ab_average_ms : jsnum }.
Record UpstreamUsage : Set := mkUpstreamUsage {
  uu_address : string; uu_queries : Z; uu_failed : Z; uu_average_ms : jsnum }.
Record Analytics : Set := mkAnalytics {
  an_range : AnalyticsRange; an_window_start : string; an_window_end : string; an_bucket_seconds : Z;
  an_history_start : option string; an_totals : AnalyticsBucket; an_series : list AnalyticsBucket;
  an_query_types : list QueryRanking; an_response_codes : list QueryRanking;
  an_sources : list QueryRanking; an_upstreams : list UpstreamUsage; an_top_blocked : list QueryRanking }.

Definition loadAnalytics (range : AnalyticsRange) (signal : bool) : api Analytics :=
  get _ ("/api/v1/analytics?range=" +:+ range_str range) signal.

(** * Theorems *)

(** A free text in a query: the browser takes the whole text for the value of the
    one parameter, which decodes to it. *)
Definition asks (path : list string) (name text : string) (q : fetch_init) : Prop :=
  resource (f_path q) = path /\
  exists enc, query_of (f_path q) = Some (name +:+ "=" +:+ enc) /\ no_sep is_delimiter enc = true /\
    decodeURIComponent enc = Some text.

Lemma resource_segment text :
  resource ("/api/v1/cluster/members/" +:+ encodeURIComponent text)
    = remove_dots ["members"; "cluster"; "v1"; "api"] [encodeURIComponent text].
Proof.
  unfold resource. cbn -[encodeURIComponent remove_dots].
  rewrite until_no_sep, split_each_no_sep by (by apply encode_no_sep; vm_compute). reflexivity.
Qed.

Lemma asks_search e text :
  exists q, sent (searchResources text true e) = [q] /\ asks ["api"; "v1"; "search"] "q" text q.
Proof.
  eexists. split; [reflexivity|]. split; [reflexivity|]. exists (encodeURIComponent text).
  split; [|split; [apply encode_no_delimiter|apply decode_encodeURIComponent]].
  unfold query_of. cbn -[encodeURIComponent].
  by do 2 (rewrite (until_no_sep _ (encodeURIComponent text)) by (by apply encode_no_sep; vm_compute)).
Qed.

Lemma asks_effective e text :
  exists q, sent (effectivePolicy text e) = [q] /\ asks ["api"; "v1"; "policies"; "effective"] "ip" text q.
Proof.
  eexists. split; [reflexivity|]. split; [reflexivity|]. exists (encodeURIComponent text).
  split; [|split; [apply encode_no_delimiter|apply decode_encodeURIComponent]].
  unfold query_of. cbn -[encodeURIComponent].
  by do 2 (rewrite (until_no_sep _ (encodeURIComponent text)) by (by apply encode_no_sep; vm_compute)).
Qed.

(** C28: free text in a URL. Each of the three calls is one request. A member id
    addresses exactly the member of that id, whatever characters it has, unless
    it is [.] or [..]: these two stay as they are and are resolved as dot
    segments, to the list of members and to the cluster. A searched text and an IP
    address leave the resource alone and are the value of one parameter, which
    decodes to exactly that text. ([deleteClusterNode], which no page calls,
    interpolates its id as it is.) *)
Theorem encoded_paths e text :
  (exists q, sent (removeClusterMember text e) = [q] /\ f_method q = "DELETE" /\ query_of (f_path q) = None /\
    resource (f_path q)
      = (if bool_decide (text = ".") then ["api"; "v1"; "cluster"; "members"; ""]
         else if bool_decide (text = "..") then ["api"; "v1"; "cluster"; ""]
         else ["api"; "v1"; "cluster"; "members"; encodeURIComponent text]) /\
    decodeURIComponent (encodeURIComponent text) = Some text) /\
  (exists q, sent (searchResources text true e) = [q] /\ asks ["api"; "v1"; "search"] "q" text q) /\
  (exists q, sent (effectivePolicy text e) = [q] /\ asks ["api"; "v1"; "policies"; "effective"] "ip" text q).
Proof.
  split; [|split; [apply asks_search|apply asks_effective]].
  eexists. split; [reflexivity|]. split; [reflexivity|]. split; [|split; [|apply decode_encodeURIComponent]].
  - unfold query_of. cbn -[encodeURIComponent]. rewrite until_no_sep by (by apply encode_no_sep; vm_compute).
    by rewrite after_no_sep by (by apply encode_no_sep; vm_compute).
  - cbn [f_path request_init sent removeClusterMember del request]. rewrite resource_segment. cbn [remove_dots].
    rewrite !spells_encode. by destruct (bool_decide (text = ".")), (bool_decide (text = "..")).
Qed.
