(* ===== verification/React.v ===== *)
(** * Components, programs and views

    A component is a state record, a view (the JSX it renders, a tree whose
    elements carry the events they fire) and handlers. A handler or an effect
    is a program: state updates, calls of the API, timers. Programs run to
    their next suspension in one step, in the closure of the render that
    created them; between steps anything may happen: a reply, a timer, another
    user event, a change of props. *)
From S2P Require Import Prelude JsString JsNumber Http.
Local Open Scope velora_scope.

(** ** Programs *)

(** What a program does to the outside world. *)
Inductive output : Set :=
| Sent (q : fetch_init)
| SetCSRFToken (token : string)
| Navigate (link : string)
| Reload
| ScrollTop
| ScrollIntoView (id : string)
| CallProp (name : string)
| Download (filename : string)
| Clipboard (text : string).

Inductive prog (S : Type) : Type :=
| Done
| Update (f : S -> S) (k : prog S)
| Read (k : S -> prog S)
| Ask (k : env -> prog S)
| Emit (o : output) (k : prog S)
| Spawn (p k : prog S)
| Call {T : Set} (a : api T) (k : T + exn -> prog S)
| Wait {T : Set} (p : promise T) (k : T + exn -> prog S)
| Sleep (ms : Z) (k : prog S)
| Again (ms : Z).
Arguments Done {S}.
Arguments Update {S} _ _.
Arguments Read {S} _.
Arguments Ask {S} _.
Arguments Emit {S} _ _.
Arguments Spawn {S} _ _.
Arguments Call {S T} _ _.
Arguments Wait {S T} _ _.
Arguments Sleep {S} _ _.
Arguments Again {S} _.

(** *** The monad the handlers are written in

    A computation takes what to do with its result and what to do with a
    thrown value, so [try], [catch] and [finally] are ordinary functions. *)

Definition M (S A : Type) : Type := (A -> prog S) -> (exn -> prog S) -> prog S.

Section Monad.
Context {S : Type}.

Definition ret {A} (a : A) : M S A := fun k _ => k a.
Definition throw {A} (e : exn) : M S A := fun _ x => x e.
Definition bind {A B} (m : M S A) (f : A -> M S B) : M S B :=
  fun k x => m (fun a => f a k x) x.
(** [setState]: [f] is the updater; a plain value is a constant one. *)
Definition update (f : S -> S) : M S unit := fun k _ => Update f (k tt).
Definition read : M S S := fun k _ => Read k.
Definition ask : M S env := fun k _ => Ask k.
Definition emit (o : output) : M S unit := fun k _ => Emit o (k tt).
Definition sleep (ms : Z) : M S unit := fun k _ => Sleep ms (k tt).
(** Stop here and run the effect's loop again after [ms]. *)
Definition again (ms : Z) : M S unit := fun _ _ => Again ms.
(** [await call] *)
Definition await {T : Set} (a : api T) : M S T :=
  fun k x => Call a (fun r => match r with inl v => k v | inr e => x e end).
Definition try_catch {A} (m : M S A) (h : exn -> M S A) : M S A :=
  fun k x => m k (fun e => h e k x).
Definition try_finally {A} (m : M S A) (f : M S unit) : M S A :=
  fun k x => m (fun a => f (fun _ => k a) x) (fun e => f (fun _ => x e) x).
(** [if (c) m] *)
Definition when_do (c : bool) (m : M S unit) : M S unit := if c then m else ret tt.
(** Start a computation and drop its promise: [void m]. *)
Definition run_top (m : M S unit) : prog S := m (fun _ => Done) (fun _ => Done).
Definition spawn (m : M S unit) : M S unit := fun k _ => Spawn (run_top m) (k tt).
End Monad.

Declare Scope prog_scope.
Delimit Scope prog_scope with prog.
Notation "x <- m ;; f" := (bind m (fun x => f))
  (at level 100, m at next level, f at level 200, right associativity) : prog_scope.
Notation "m ;; f" := (bind m (fun _ => f))
  (at level 100, f at level 200, right associativity) : prog_scope.
(** *** Running to the next suspension *)

Record segment (S : Type) : Type := Seg {
  seg_todo : prog S;
  seg_state : S;
  seg_out : list output;
  seg_forks : list (prog S);
}.
Arguments Seg {S} _ _ _ _.
Arguments seg_todo {S} _.
Arguments seg_state {S} _.
Arguments seg_out {S} _.
Arguments seg_forks {S} _.

Fixpoint advance {S : Type} (e : env) (p : prog S) (s : S) : segment S :=
  match p with
  | Done => Seg Done s [] []
  | Update f k => advance e k (f s)
  | Read k => advance e (k s) s
  | Ask k => advance e (k e) s
  | Emit o k =>
      let r := advance e k s in
      Seg (seg_todo r) (seg_state r) (o :: seg_out r) (seg_forks r)
  | Spawn p k =>
      let r := advance e p s in
      let r' := advance e k (seg_state r) in
      Seg (seg_todo r') (seg_state r') (seg_out r ++ seg_out r')
          (seg_todo r :: seg_forks r ++ seg_forks r')
  | Call a k => Seg (Wait (a e) k) s (map Sent (sent (a e))) []
  | Wait _ _ | Sleep _ _ | Again _ => Seg p s [] []
  end.

(** ** Views *)

Inductive tag : Set :=
| a_ | article | button | caption | circle | code_ | dd | details | div | dl | dt | fieldset | footer
| form | g_ | h1 | h2 | h3 | header | i_ | img | input | kbd | label | legend | li | line_ | main_
| nav | ol | option_ | p_ | path_ | polyline | pre | rect | section | select | small | span | strong
| summary | svg | table | tbody | td | textarea | th | thead | tr | ul | icon.

(** What the attributes of an element say; [Disabled] and the handlers are the
    ones behaviour depends on. *)
Inductive attr (E : Type) : Type :=
| Attr (name value : string)
| Disabled (b : bool)
| OnClick (e : E)
| OnChange (f : string -> E)   (* the new value of an input, select or textarea *)
| OnSelect (l : list E)        (* the choices of a select, one event each *)
| OnCheck (f : bool -> E)      (* the new state of a checkbox *)
| OnFile (f : option string -> E)
| OnToggle (f : bool -> E)
| OnKey (f : string -> E)
| OnMouse (e : E)
| OnMove (f : jsnum -> jsnum -> E)  (* the offset of the pointer, and the width of the element *)
| OnSubmit (e : E).
Arguments Attr {E} _ _.
Arguments Disabled {E} _.
Arguments OnClick {E} _.
Arguments OnChange {E} _.
Arguments OnSelect {E} _.
Arguments OnCheck {E} _.
Arguments OnFile {E} _.
Arguments OnToggle {E} _.
Arguments OnKey {E} _.
Arguments OnMouse {E} _.
Arguments OnMove {E} _.
Arguments OnSubmit {E} _.

Inductive node (E : Type) : Type :=
| Txt (s : string)
| El (t : tag) (attrs : list (attr E)) (kids : list (node E)).
Arguments Txt {E} _.
Arguments El {E} _ _ _.

Notation "n =: v" := (Attr n v) (at level 60, only parsing) : prog_scope.
(** A boolean attribute that is present, such as [required]. *)
Definition flag {E} (n : string) : attr E := Attr n "".
Definition bool_str (b : bool) : string := if b then "true" else "false".
Definition Icon {E} (name : string) (size : Z) : node E :=
  El icon [Attr "name" name; Attr "size" (StringZ size)] [].
(** A child component with state of its own: it is a component of its own too,
    and runs beside its parent. *)
Definition Mount {E} (name : string) : node E := El section [Attr "component" name] [].
(** [{c && <>..</>}] and [{c ? <>..</> : <>..</>}] *)
Definition when {E} (c : bool) (l : list (node E)) : list (node E) := if c then l else [].
Definition cond {E} (c : bool) (a b : list (node E)) : list (node E) := if c then a else b.
(** [{o && f(o)}] for an optional value, and [{l.map(f)}]. *)
Definition when_some {A E} (o : option A) (f : A -> list (node E)) : list (node E) :=
  match o with Some x => f x | None => [] end.
Definition each {A E} (l : list A) (f : A -> list (node E)) : list (node E) := flat_map f l.

(** *** Which events a view offers

    A control takes no events when it or an enclosing fieldset is disabled; a
    form is submitted through an enabled submit button. *)

Inductive fires {E : Type} : attr E -> E -> Prop :=
| fires_click e : fires (OnClick e) e
| fires_change f v : fires (OnChange f) (f v)
| fires_select l e : In e l -> fires (OnSelect l) e
| fires_check f b : fires (OnCheck f) (f b)
| fires_file f v : fires (OnFile f) (f v)
| fires_toggle f b : fires (OnToggle f) (f b)
| fires_key f k : fires (OnKey f) (f k)
| fires_mouse e : fires (OnMouse e) e
| fires_move f x w : fires (OnMove f) (f x w)
| fires_submit e : fires (OnSubmit e) e.

Definition is_control (t : tag) : bool :=
  match t with button | input | select | textarea | fieldset => true | _ => false end.

Fixpoint attr_disabled {E} (l : list (attr E)) : bool :=
  match l with
  | [] => false
  | Disabled b :: l' => b || attr_disabled l'
  | _ :: l' => attr_disabled l'
  end.

Fixpoint attr_value {E} (n : string) (l : list (attr E)) : option string :=
  match l with
  | [] => None
  | Attr m v :: l' => if String.eqb n m then Some v else attr_value n l'
  | _ :: l' => attr_value n l'
  end.

(** A [button] submits its form unless its type says otherwise. *)
Definition is_submit {E} (t : tag) (l : list (attr E)) : bool :=
  match t with
  | button => match attr_value "type" l with
              | Some v => String.eqb v "submit"
              | None => true
              end
  | _ => false
  end.

(** Whether [n], under [dis], holds an enabled submit button. *)
Fixpoint can_submit {E} (dis : bool) (n : node E) : bool :=
  match n with
  | Txt _ => false
  | El t l kids =>
      let d := dis || (is_control t && attr_disabled l) in
      (is_submit t l && negb d) || existsb (can_submit d) kids
  end.

Definition is_submit_attr {E} (a : attr E) : bool :=
  match a with OnSubmit _ => true | _ => false end.

(** [offers dis n e]: the user can fire [e] on [n]; [dis] tells whether an
    enclosing fieldset is disabled. *)
Fixpoint offers {E} (dis : bool) (n : node E) (e : E) : Prop :=
  match n with
  | Txt _ => False
  | El t l kids =>
      let d := dis || (is_control t && attr_disabled l) in
      (exists a, In a l /\ fires a e /\
         (if is_submit_attr a then existsb (can_submit d) kids = true
          else is_control t && d = false))
      \/ (fix any (ks : list (node E)) : Prop :=
            match ks with [] => False | k :: ks' => offers d k e \/ any ks' end) kids
  end.

Definition offered {E} (l : list (node E)) (e : E) : Prop :=
  exists n, In n l /\ offers false n e.

(** *** Finding an element

    The element of a tree under a path of child numbers, with the disabled flag
    that holds there; it shows an event to be offered by computation. *)

Fixpoint node_at {E} (dis : bool) (path : list nat) (n : node E)
    : option (bool * tag * list (attr E) * list (node E)) :=
  match n with
  | Txt _ => None
  | El t l kids =>
      let d := dis || (is_control t && attr_disabled l) in
      match path with
      | [] => Some (d, t, l, kids)
      | i :: path' => match kids !! i with Some k => node_at d path' k | None => None end
      end
  end.

Definition enabled_at {E} (d : bool) (t : tag) (kids : list (node E)) (a : attr E) : bool :=
  if is_submit_attr a then existsb (can_submit d) kids else negb (is_control t && d).

Lemma node_at_offers {E} path dis (n : node E) d t l kids a e :
  node_at dis path n = Some (d, t, l, kids) -> In a l -> fires a e -> enabled_at d t kids a = true ->
  offers dis n e.
Proof.
  revert dis n. induction path as [|i path IH]; intros dis [x|t' l' kids'] Hn Ha Hf He; try done; cbn in Hn.
  - injection Hn as <- <- <- <-. left. exists a. split_and!; [done|done|].
    unfold enabled_at in He. destruct (is_submit_attr a); [done|by apply negb_true_iff].
  - destruct (kids' !! i) as [k|] eqn:Hk; [|done]. right.
    specialize (IH _ _ Hn Ha Hf He). revert i Hk.
    induction kids' as [|k' kids' IHk]; intros [|i] Hk; try done; cbn in Hk.
    + injection Hk as ->. by left.
    + right. by apply (IHk i).
Qed.

Lemma offered_at {E} i path j (v : list (node E)) n d t l kids a e :
  v !! i = Some n -> node_at false path n = Some (d, t, l, kids) -> l !! j = Some a -> fires a e ->
  enabled_at d t kids a = true -> offered v e.
Proof.
  intros Hi Hn Hj Hf He. exists n.
  split; [by apply list_elem_of_In, list_elem_of_lookup_2 with i|].
  eapply node_at_offers; [done| |done|done]. by apply list_elem_of_In, list_elem_of_lookup_2 with j.
Qed.

(** Renaming the events of a child's view into its parent's. *)
Definition map_attr {E F} (f : E -> F) (a : attr E) : attr F :=
  match a with
  | Attr n v => Attr n v
  | Disabled b => Disabled b
  | OnClick e => OnClick (f e)
  | OnChange g => OnChange (fun v => f (g v))
  | OnSelect l => OnSelect (map f l)
  | OnCheck g => OnCheck (fun v => f (g v))
  | OnFile g => OnFile (fun v => f (g v))
  | OnToggle g => OnToggle (fun v => f (g v))
  | OnKey g => OnKey (fun v => f (g v))
  | OnMouse e => OnMouse (f e)
  | OnMove g => OnMove (fun x w => f (g x w))
  | OnSubmit e => OnSubmit (f e)
  end.

Fixpoint map_node {E F} (f : E -> F) (n : node E) : node F :=
  match n with
  | Txt s => Txt s
  | El t l kids => El t (map (map_attr f) l) (map (map_node f) kids)
  end.

(** *** Reasoning about views *)

Section ViewLogic.
Context {E : Type} (P : E -> Prop).

(** [ctl]: the element is a disabled control; [sub]: its form can be
    submitted. *)
Definition attr_all (ctl sub : bool) (a : attr E) : Prop :=
  match a with
  | Attr _ _ | Disabled _ => True
  | OnClick e | OnMouse e => ctl = false -> P e
  | OnMove f => ctl = false -> forall x w, P (f x w)
  | OnChange f | OnKey f => ctl = false -> forall v, P (f v)
  | OnCheck f | OnToggle f => ctl = false -> forall b, P (f b)
  | OnFile f => ctl = false -> forall v, P (f v)
  | OnSelect l => ctl = false -> forall e, In e l -> P e
  | OnSubmit e => sub = true -> P e
  end.

Fixpoint attrs_all (ctl sub : bool) (l : list (attr E)) : Prop :=
  match l with [] => True | a :: l' => attr_all ctl sub a /\ attrs_all ctl sub l' end.

Fixpoint node_all (dis : bool) (n : node E) : Prop :=
  match n with
  | Txt _ => True
  | El t l kids =>
      let d := dis || (is_control t && attr_disabled l) in
      attrs_all (is_control t && d) (existsb (can_submit d) kids) l /\
      (fix all (ks : list (node E)) : Prop :=
         match ks with [] => True | k :: ks' => node_all d k /\ all ks' end) kids
  end.

Fixpoint nodes_all (dis : bool) (l : list (node E)) : Prop :=
  match l with [] => True | n :: l' => node_all dis n /\ nodes_all dis l' end.

Lemma node_all_El dis t l kids :
  let d := dis || (is_control t && attr_disabled l) in
  attrs_all (is_control t && d) (existsb (can_submit d) kids) l ->
  nodes_all d kids -> node_all dis (El t l kids).
Proof.
  intros d Hl Hk. split; [exact Hl|]. fold d. clear Hl.
  induction kids as [|k kids IH]; [done|]. destruct Hk as [Hk Hks].
  split; [exact Hk|exact (IH Hks)].
Qed.

Lemma attrs_all_fires ctl sub l a e :
  attrs_all ctl sub l -> In a l -> fires a e ->
  (if is_submit_attr a then sub = true else ctl = false) -> P e.
Proof.
  induction l as [|b l IH]; [done|]. intros [Hb Hl] [->|Hin] Hf Hc; [|by apply IH].
  destruct Hf; simpl in *; auto.
Qed.

Lemma attrs_all_app ctl sub a b :
  attrs_all ctl sub a -> attrs_all ctl sub b -> attrs_all ctl sub (a ++ b).
Proof. induction a as [|x a IH]; [done|]. intros [Hx Ha] Hb. split; [done|auto]. Qed.

Lemma node_all_offers dis n e : node_all dis n -> offers dis n e -> P e.
Proof.
  revert dis n. fix IH 2. intros dis [s|t l kids]; [done|].
  intros [Hl Hk] [(a & Hin & Hf & Hc)|Hany].
  - eapply attrs_all_fires; [exact Hl|exact Hin|exact Hf|]. exact Hc.
  - clear Hl. revert Hk Hany. generalize (dis || (is_control t && attr_disabled l)). intros d.
    induction kids as [|k kids IHk]; [done|]. intros [Hk Hks] [Ho|Ho].
    + exact (IH d k Hk Ho).
    + exact (IHk Hks Ho).
Qed.

Lemma nodes_all_offered l e : nodes_all false l -> offered l e -> P e.
Proof.
  intros Hl (n & Hin & Ho). induction l as [|m l IH]; [done|].
  destruct Hl as [Hm Hl]. destruct Hin as [->|Hin]; [|by apply IH].
  by eapply node_all_offers.
Qed.

Lemma nodes_all_app d a b : nodes_all d a -> nodes_all d b -> nodes_all d (a ++ b).
Proof. intros Ha Hb. induction a as [|n a IH]; [done|]. destruct Ha. split; auto. Qed.

Lemma nodes_all_when d c l : (c = true -> nodes_all d l) -> nodes_all d (when c l).
Proof. destruct c; [auto|done]. Qed.

Lemma nodes_all_cond d c a b :
  (c = true -> nodes_all d a) -> (c = false -> nodes_all d b) -> nodes_all d (cond c a b).
Proof. destruct c; auto. Qed.

Lemma nodes_all_some {A} d (o : option A) f :
  (forall x, o = Some x -> nodes_all d (f x)) -> nodes_all d (when_some o f).
Proof. destruct o; simpl; [auto|done]. Qed.

Lemma nodes_all_each {A} d (l : list A) f :
  (forall x, In x l -> nodes_all d (f x)) -> nodes_all d (each l f).
Proof.
  induction l as [|x l IH]; [done|]. intros H. simpl. apply nodes_all_app.
  - apply H. by left.
  - apply IH. intros y Hy. apply H. by right.
Qed.

Lemma nodes_all_forall d l : (forall n, In n l -> node_all d n) -> nodes_all d l.
Proof. induction l as [|n l IH]; [done|]. intros H. split; [apply H; by left|]. apply IH. intros; apply H; by right. Qed.

Lemma nodes_all_imap {A} d (l : list A) f :
  (forall i x, In x l -> node_all d (f i x)) -> nodes_all d (imap f l).
Proof. intros H. apply nodes_all_forall. intros n (i & x & Hx & ->)%In_imap. by apply H. Qed.
End ViewLogic.

(** Nothing can be submitted under a disabled fieldset. *)
Lemma can_submit_disabled {E} (n : node E) : can_submit true n = false.
Proof.
  revert n. fix IH 1. intros [s|t l kids]; [done|]. simpl.
  rewrite andb_false_r. simpl.
  induction kids as [|k kids IHk]; [done|]. simpl. by rewrite IH.
Qed.

Lemma can_submit_disabled_list {E} (l : list (node E)) : existsb (can_submit true) l = false.
Proof. induction l as [|n l IH]; [done|]. simpl. by rewrite can_submit_disabled. Qed.
#[export] Hint Rewrite @can_submit_disabled @can_submit_disabled_list : velora.

(** No enabled submit button among the nodes [l]. *)
Definition silent {E} (d : bool) (l : list (node E)) : Prop := existsb (can_submit d) l = false.

Section Silent.
Context {E : Type}.
Implicit Types (l a b : list (node E)).

Lemma silent_cons d n l : can_submit d n = false -> silent d l -> silent d (n :: l).
Proof. unfold silent. simpl. intros -> ->. done. Qed.

Lemma silent_app d a b : silent d a -> silent d b -> silent d (a ++ b).
Proof. unfold silent. rewrite existsb_app. intros -> ->. done. Qed.

Lemma silent_when d c l : silent d l -> silent d (when c l).
Proof. by destruct c. Qed.

Lemma silent_cond d c a b : silent d a -> silent d b -> silent d (cond c a b).
Proof. by destruct c. Qed.

Lemma silent_some {A} d (o : option A) (f : A -> list (node E)) :
  (forall x, silent d (f x)) -> silent d (when_some o f).
Proof. destruct o; [intros H; apply H|done]. Qed.

Lemma silent_each {A} d (xs : list A) (f : A -> list (node E)) :
  (forall x, silent d (f x)) -> silent d (each xs f).
Proof. intros H. induction xs as [|x xs IH]; [done|]. simpl. by apply silent_app. Qed.

Lemma can_submit_El d t (l : list (attr E)) kids :
  is_submit t l && negb (d || (is_control t && attr_disabled l)) = false ->
  silent (d || (is_control t && attr_disabled l)) kids ->
  can_submit d (El t l kids) = false.
Proof. unfold silent. simpl. intros -> ->. done. Qed.

Lemma silent_submit d l (P : Prop) : silent d l -> existsb (can_submit d) l = true -> P.
Proof. unfold silent. congruence. Qed.
End Silent.

Section MapNode.
Context {E F : Type} (f : E -> F).

Lemma attr_disabled_map l : attr_disabled (map (map_attr f) l) = attr_disabled l.
Proof. induction l as [|a l IH]; [done|]. destruct a; simpl; rewrite ?IH; done. Qed.

Lemma attr_value_map n l : attr_value n (map (map_attr f) l) = attr_value n l.
Proof. induction l as [|a l IH]; [done|]. destruct a; simpl; rewrite ?IH; done. Qed.

Lemma can_submit_map d n : can_submit d (map_node f n) = can_submit d n.
Proof.
  revert d n. fix IH 2. intros d [s|t l kids]; [done|]. simpl.
  rewrite attr_disabled_map. f_equal.
  - f_equal. destruct t; try done. simpl. by rewrite attr_value_map.
  - generalize (d || (is_control t && attr_disabled l)). intros d'.
    induction kids as [|k kids IHk]; [done|]. simpl. by rewrite IH, IHk.
Qed.

(** A child's view is fine in its parent when it is fine on its own, for the
    property of the renamed events. *)
Lemma node_all_map (P : F -> Prop) d n :
  node_all (fun e => P (f e)) d n -> node_all P d (map_node f n).
Proof.
  revert d n. fix IH 2. intros d [s|t l kids]; [done|]. intros [Hl Hk].
  apply node_all_El; rewrite attr_disabled_map.
  - assert (forall d', existsb (can_submit d') (map (map_node f) kids) = existsb (can_submit d') kids) as ->.
    { intros d'. clear. induction kids as [|k kids IHk]; [done|]. simpl. by rewrite can_submit_map, IHk. }
    revert Hl. clear. generalize (existsb (can_submit (d || (is_control t && attr_disabled l))) kids) as sub.
    generalize (is_control t && (d || (is_control t && attr_disabled l))) as c. intros c sub.
    induction l as [|a l IHl]; [done|]. intros [Ha Hl]. split; [|auto].
    destruct a; try done. cbn in Ha |- *. intros Hc e Hin. apply in_map_iff in Hin as (x & <- & Hx). auto.
  - clear Hl. revert Hk. generalize (d || (is_control t && attr_disabled l)). intros d'.
    induction kids as [|k kids IHk]; [done|]. intros [Hk Hks].
    split; [exact (IH d' k Hk)|exact (IHk Hks)].
Qed.

Lemma nodes_all_map (P : F -> Prop) d l :
  nodes_all (fun e => P (f e)) d l -> nodes_all P d (map (map_node f) l).
Proof. induction l as [|n l IH]; [done|]. intros [Hn Hl]. split; [by apply node_all_map|auto]. Qed.
End MapNode.
