(* ===== verification/Runtime.v ===== *)
(** * The runtime: how a component runs, and how to reason about every run

    A configuration is the component's props and state, the tasks that are
    suspended on a reply or a timer, and everything sent so far. [step] is one
    uninterrupted stretch of JavaScript. [wp] proves invariants of all runs;
    [exclusive] proves that a busy flag keeps mutations one at a time. *)
From S2P Require Import Prelude JsString JsNumber Http React.
Local Open Scope velora_scope.

(** ** Components *)

Record effect (P S : Type) : Type := mkEffect {
  ef_changed : P * S -> P * S -> bool;  (* a dependency differs between two renders *)
  ef_body : P -> S -> option (prog S);  (* [None]: the effect returns at once *)
  ef_loop : P -> S -> prog S;           (* what its timer runs again *)
}.
Arguments mkEffect {P S} _ _ _.
Arguments ef_changed {P S} _ _ _.
Arguments ef_body {P S} _ _ _.
Arguments ef_loop {P S} _ _ _.

(** An effect without a loop. *)
Definition effect_once {P S} (changed : P * S -> P * S -> bool) (body : P -> S -> option (prog S))
    : effect P S := mkEffect changed body (fun _ _ => Done).

Record component (P S E : Type) : Type := mkComponent {
  c_init : P -> S;
  c_view : P -> S -> list (node E);
  c_handle : P -> S -> E -> prog S;
  c_effects : list (effect P S);
  c_unmount : S -> S;
}.
Arguments mkComponent {P S E} _ _ _ _ _.
Arguments c_init {P S E} _ _.
Arguments c_view {P S E} _ _ _.
Arguments c_handle {P S E} _ _ _ _.
Arguments c_effects {P S E} _.
Arguments c_unmount {P S E} _ _.

(** ** Configurations *)

Record task (S : Type) : Type := Task {
  t_owner : option nat;  (* the effect that started it *)
  t_live : bool;         (* its effect has not been cleaned up *)
  t_todo : prog S;
  t_loop : prog S;
}.
Arguments Task {S} _ _ _ _.
Arguments t_owner {S} _.
Arguments t_live {S} _.
Arguments t_todo {S} _.
Arguments t_loop {S} _.

Record config (P S : Type) : Type := Config {
  props : P;
  state : S;
  mounted : bool;
  tasks : list (task S);
  runs : list (option (P * S));  (* the render each effect last ran in *)
  out : list output;
}.
Arguments Config {P S} _ _ _ _ _ _.
Arguments props {P S} _.
Arguments state {P S} _.
Arguments mounted {P S} _.
Arguments tasks {P S} _.
Arguments runs {P S} _.
Arguments out {P S} _.

Section Step.
Context {P S E : Type} (C : component P S E).
(** How the parent may change the props between steps. *)
Context (moves : P -> P -> Prop).

Definition keep (tk : task S) (p : prog S) : task S :=
  Task (t_owner tk) (t_live tk) p (t_loop tk).

(** Run [p] for the task [tk]; [place] puts what is left among the tasks. *)
Definition run_segment (e : env) (tk : task S) (p : prog S)
    (place : task S -> list (task S) -> list (task S)) (c : config P S) : config P S :=
  let r := advance e p (state c) in
  Config (props c) (seg_state r) (mounted c)
    (place (keep tk (seg_todo r)) (tasks c) ++ map (keep tk) (seg_forks r))
    (runs c) (out c ++ seg_out r).

Definition launch (e : env) (tk : task S) (p : prog S) : config P S -> config P S :=
  run_segment e tk p (fun t l => l ++ [t]).
Definition resume (e : env) (i : nat) (tk : task S) (p : prog S) : config P S -> config P S :=
  run_segment e tk p (fun t l => <[i := t]> l).

(** Cleaning up effect [i]: its signal is aborted and its timers cleared. *)
Definition cancel_task (i : nat) (tk : task S) : task S :=
  match t_owner tk with
  | Some j =>
      if Nat.eqb i j
      then Task (t_owner tk) false
             (match t_todo tk with Sleep _ _ | Again _ => Done | p => p end) (t_loop tk)
      else tk
  | None => tk
  end.

Definition start (p0 : P) : config P S :=
  Config p0 (c_init C p0) true [] (map (fun _ => None) (c_effects C)) [].

Definition due (ef : effect P S) (prev : option (P * S)) (cur : P * S) : bool :=
  match prev with None => true | Some r => ef_changed ef r cur end.

Definition rerun (e : env) (i : nat) (ef : effect P S) (c : config P S) : config P S :=
  let c' := Config (props c) (state c) (mounted c) (map (cancel_task i) (tasks c))
              (<[i := Some (props c, state c)]> (runs c)) (out c) in
  match ef_body ef (props c) (state c) with
  | None => c'
  | Some p => launch e (Task (Some i) true Done (ef_loop ef (props c) (state c))) p c'
  end.

Definition unmount (c : config P S) : config P S :=
  Config (props c) (c_unmount C (state c)) false
    (map (fun tk => match t_owner tk with Some i => cancel_task i tk | None => tk end) (tasks c))
    (runs c) (out c).

Inductive step : config P S -> config P S -> Prop :=
| step_event c ev e :
    mounted c = true -> offered (c_view C (props c) (state c)) ev ->
    aborted e = false ->
    step c (launch e (Task None true Done Done) (c_handle C (props c) (state c) ev) c)
| step_reply c i tk (T : Set) (p : promise T) k (u : raw p) e :
    tasks c !! i = Some tk -> t_todo tk = Wait p k -> aborted e = negb (t_live tk) ->
    step c (resume e i tk (k (settle p u)) c)
| step_timer c i tk ms k e :
    tasks c !! i = Some tk -> t_todo tk = Sleep ms k -> aborted e = negb (t_live tk) ->
    step c (resume e i tk k c)
| step_again c i tk ms e :
    tasks c !! i = Some tk -> t_todo tk = Again ms -> aborted e = negb (t_live tk) ->
    step c (resume e i tk (t_loop tk) c)
| step_effect c i ef prev e :
    mounted c = true -> c_effects C !! i = Some ef -> runs c !! i = Some prev ->
    due ef prev (props c, state c) = true -> aborted e = false ->
    step c (rerun e i ef c)
| step_props c p' :
    moves (props c) p' ->
    step c (Config p' (state c) (mounted c) (tasks c) (runs c) (out c))
| step_unmount c : mounted c = true -> step c (unmount c).

Inductive reachable (p0 : P) : config P S -> Prop :=
| reach_start : reachable p0 (start p0)
| reach_step c c' : reachable p0 c -> step c c' -> reachable p0 c'.
End Step.

(** *** Building runs, one step at a time *)

(** The user fires [ev]. *)
Definition fire {P S E} (C : component P S E) (e : env) (ev : E) (c : config P S) : config P S :=
  launch e (Task None true Done Done) (c_handle C (props c) (state c) ev) c.

(** Nothing is left to run by itself: every task is finished and no effect is
    due. *)
Definition at_rest {P S E} (C : component P S E) (c : config P S) : Prop :=
  Forall (fun tk => t_todo tk = Done) (tasks c) /\
  forall i ef prev, c_effects C !! i = Some ef -> runs c !! i = Some prev ->
    due ef prev (props c, state c) = false.

(** An environment at time 0 in which every confirmation is refused. *)
Definition calm_env (is_aborted : bool) : env := mkEnv is_aborted 0 (fun _ => false) "".

Section Runs.
Context {P S E : Type} (C : component P S E) (moves : P -> P -> Prop) (p0 : P).
Context (c : config P S) (e : env) (Hc : reachable C moves p0 c).

Lemma reach_event ev :
  mounted c = true -> offered (c_view C (props c) (state c)) ev -> aborted e = false ->
  reachable C moves p0 (fire C e ev c).
Proof using Hc. intros. eapply reach_step; [exact Hc|]. by apply step_event. Qed.

Lemma reach_props p' :
  moves (props c) p' ->
  reachable C moves p0 (Config p' (state c) (mounted c) (tasks c) (runs c) (out c)).
Proof using Hc. intros. eapply reach_step; [exact Hc|]. by apply step_props. Qed.

Lemma reach_effect i ef prev :
  mounted c = true -> c_effects C !! i = Some ef -> runs c !! i = Some prev ->
  due ef prev (props c, state c) = true -> aborted e = false ->
  reachable C moves p0 (rerun e i ef c).
Proof using Hc. intros. eapply reach_step; [exact Hc|]. by eapply step_effect. Qed.

Lemma reach_timer i tk ms k :
  tasks c !! i = Some tk -> t_todo tk = Sleep ms k -> aborted e = negb (t_live tk) ->
  reachable C moves p0 (resume e i tk k c).
Proof using Hc. intros. eapply reach_step; [exact Hc|]. by eapply step_timer. Qed.

Lemma reach_again i tk ms :
  tasks c !! i = Some tk -> t_todo tk = Again ms -> aborted e = negb (t_live tk) ->
  reachable C moves p0 (resume e i tk (t_loop tk) c).
Proof using Hc. intros. eapply reach_step; [exact Hc|]. by eapply step_again. Qed.

Lemma reach_reply i tk (T : Set) (p : promise T) k :
  tasks c !! i = Some tk -> t_todo tk = Wait p k -> aborted e = negb (t_live tk) ->
  forall u : raw p, reachable C moves p0 (resume e i tk (k (settle p u)) c).
Proof using Hc. intros. eapply reach_step; [exact Hc|]. by eapply step_reply. Qed.
End Runs.

(** ** Invariants of every run *)

Section Invariant.
Context {P S E : Type} (C : component P S E) (moves : P -> P -> Prop).
Context (I : P -> S -> Prop) (Q : output -> Prop).

(** [wp p s Phi]: run from [s], [p] sends only what [Q] allows, reaches its
    next suspension in a state that satisfies [Phi], and goes on like that
    from any state of the invariant. *)
Fixpoint wp (p : prog S) (s : S) (Phi : S -> Prop) : Prop :=
  match p with
  | Done => Phi s
  | Update f k => wp k (f s) Phi
  | Read k => wp (k s) s Phi
  | Ask k => forall e, wp (k e) s Phi
  | Emit o k => Q o /\ wp k s Phi
  | Spawn p k => wp p s (fun s' => wp k s' Phi)
  | Call a k =>
      Phi s /\ api_sends (fun q => Q (Sent q)) a /\
      forall r p' s', I p' s' -> wp (k r) s' (I p')
  | Wait _ k => Phi s /\ forall r p' s', I p' s' -> wp (k r) s' (I p')
  | Sleep _ k => Phi s /\ forall p' s', I p' s' -> wp k s' (I p')
  | Again _ => Phi s
  end.

Definition stays (p : prog S) : Prop :=
  match p with
  | Done | Again _ => True
  | Wait _ k => forall r p' s', I p' s' -> wp (k r) s' (I p')
  | Sleep _ k => forall p' s', I p' s' -> wp k s' (I p')
  | _ => False
  end.

Lemma wp_advance e p s Phi :
  wp p s Phi ->
  let r := advance e p s in
  Phi (seg_state r) /\ Forall Q (seg_out r) /\ stays (seg_todo r) /\ Forall stays (seg_forks r).
Proof.
  revert s Phi. induction p as [|f k IH|k IH|k IH|o k IH|p IHp k IHk|T a k IH|T p k IH|ms k IH|ms];
    intros s Phi H; cbn in H |- *.
  - auto.
  - by apply IH.
  - by apply IH.
  - by apply IH.
  - destruct H as [Ho Hk]. destruct (IH s Phi Hk) as (? & ? & ? & ?). auto.
  - destruct (IHp s _ H) as (Hs & Ho & Ht & Hf).
    destruct (IHk _ Phi Hs) as (Hs' & Ho' & Ht' & Hf').
    repeat split; [done|by apply Forall_app|done|].
    constructor; [done|by apply Forall_app].
  - destruct H as (Hs & Hq & Hk). repeat split; auto.
    apply Forall_map. apply (Hq e).
  - destruct H as [Hs Hk]. auto.
  - destruct H as [Hs Hk]. auto.
  - auto.
Qed.

Definition loop_ok (p : prog S) : Prop := forall p' s', I p' s' -> wp p s' (I p').
Definition task_ok (tk : task S) : Prop := stays (t_todo tk) /\ loop_ok (t_loop tk).

(** What a component has to show for [I] and [Q]. *)
Record verified (p0 : P) : Prop := {
  v_init : I p0 (c_init C p0);
  v_event : forall p s ev, I p s -> offered (c_view C p s) ev ->
              wp (c_handle C p s ev) s (I p);
  v_body : forall ef p s q, In ef (c_effects C) -> I p s -> ef_body ef p s = Some q ->
              wp q s (I p);
  v_loop : forall ef p s, In ef (c_effects C) -> I p s -> loop_ok (ef_loop ef p s);
  v_moves : forall p p' s, I p s -> moves p p' -> I p' s;
  v_unmount : forall p s, I p s -> I p (c_unmount C s);
}.

Definition good (c : config P S) : Prop :=
  I (props c) (state c) /\ Forall Q (out c) /\ Forall task_ok (tasks c).

Lemma good_segment e tk p place c :
  good c -> loop_ok (t_loop tk) -> wp p (state c) (I (props c)) ->
  (forall t l, task_ok t -> Forall task_ok l -> Forall task_ok (place t l)) ->
  good (run_segment e tk p place c).
Proof.
  intros (Hi & Ho & Ht) Hl Hp Hplace.
  destruct (wp_advance e p _ _ Hp) as (Hs & Hout & Htodo & Hforks).
  unfold good, run_segment. cbn. repeat split; [done|by apply Forall_app|].
  apply Forall_app. split; [apply Hplace; [by split|done]|].
  apply Forall_map. eapply Forall_impl; [exact Hforks|]. intros q Hq. by split.
Qed.

Lemma cancel_ok i tk : task_ok tk -> task_ok (cancel_task i tk).
Proof.
  intros [Ht Hl]. unfold cancel_task. destruct (t_owner tk) as [j|]; [|by split].
  destruct (Nat.eqb i j); [|by split]. split; [|done]. cbn.
  by destruct (t_todo tk).
Qed.

Lemma insert_ok i t l : task_ok t -> Forall task_ok l -> Forall task_ok (<[i := t]> l).
Proof. intros Ht Hl. by apply Forall_insert. Qed.

Lemma snoc_ok t l : task_ok t -> Forall task_ok l -> Forall task_ok (l ++ [t]).
Proof. intros Ht Hl. apply Forall_app. split; [done|]. by apply Forall_singleton. Qed.

Lemma task_at_ok (c : config P S) i tk :
  good c -> tasks c !! i = Some tk -> task_ok tk.
Proof. intros (_ & _ & Ht) Hi. by eapply Forall_lookup_1. Qed.

Lemma good_step p0 c c' : verified p0 -> good c -> step C moves c c' -> good c'.
Proof.
  intros V G Hstep. pose proof G as (Hi & Ho & Ht).
  destruct Hstep as [c ev e _ Hev _|c i tk T p k u e Hi' Htd _|c i tk ms k e Hi' Htd _
    |c i tk ms e Hi' Htd _|c i ef prev e _ Hef _ _ _|c p' Hmv|c _].
  - apply good_segment; [done|by intros ? ? ?|by eapply v_event|].
    intros. by apply snoc_ok.
  - destruct (task_at_ok _ _ _ G Hi') as [Hst Hl]. rewrite Htd in Hst.
    apply good_segment; [done|done|by apply Hst|]. intros. by apply insert_ok.
  - destruct (task_at_ok _ _ _ G Hi') as [Hst Hl]. rewrite Htd in Hst.
    apply good_segment; [done|done|by apply Hst|]. intros. by apply insert_ok.
  - destruct (task_at_ok _ _ _ G Hi') as [Hst Hl].
    apply good_segment; [done|done|by apply Hl|]. intros. by apply insert_ok.
  - apply list_elem_of_lookup_2, list_elem_of_In in Hef. unfold rerun.
    assert (good (Config (props c) (state c) (mounted c) (map (cancel_task i) (tasks c))
                    (<[i := Some (props c, state c)]> (runs c)) (out c))) as G'.
    { repeat split; [done|done|]. apply Forall_map.
      eapply Forall_impl; [exact Ht|]. intros. by apply cancel_ok. }
    destruct (ef_body ef (props c) (state c)) as [q|] eqn:Eb; [|done].
    apply good_segment; [done|by eapply v_loop|by eapply v_body|].
    intros. by apply snoc_ok.
  - repeat split; [by eapply v_moves|done|done].
  - repeat split; [by eapply v_unmount|done|]. cbn. apply Forall_map.
    eapply Forall_impl; [exact Ht|]. intros tk Htk.
    destruct (t_owner tk) as [j|] eqn:Et; [by apply cancel_ok|done].
Qed.

(** A verified component keeps its invariant and its output discipline in
    every reachable configuration. *)
Theorem invariant_reachable p0 c :
  verified p0 -> reachable C moves p0 c -> good c.
Proof.
  intros V H. induction H as [|c c' _ IH Hstep].
  - repeat split; cbn; [by apply v_init|constructor|constructor].
  - by eapply good_step.
Qed.
End Invariant.

(** ** Where tasks can be suspended

    [controlled T]: whatever a handler, an effect or a resumed task runs to,
    what is left of it satisfies [T]; then the tasks of every reachable
    configuration do. *)

Section Control.
Context {P S E : Type} (C : component P S E) (moves : P -> P -> Prop) (T : prog S -> Prop).

Definition leaves (p : prog S) (s : S) : Prop :=
  forall e, T (seg_todo (advance e p s)) /\ Forall T (seg_forks (advance e p s)).

Record controlled : Prop := {
  ctl_done : T Done;
  ctl_handle : forall p s ev, offered (c_view C p s) ev -> leaves (c_handle C p s ev) s;
  ctl_effect : forall ef p s q, In ef (c_effects C) -> ef_body ef p s = Some q -> leaves q s;
  ctl_wait : forall (A : Set) (p : promise A) k u s, T (Wait p k) -> leaves (k (settle p u)) s;
  ctl_sleep : forall ms k s, T (Sleep ms k) -> leaves k s;
  ctl_again : forall ms q s, T (Again ms) -> leaves q s;
}.

Let ok (tk : task S) : Prop := T (t_todo tk).

Lemma control_segment e tk p place (c : config P S) :
  (forall t l, ok t -> Forall ok l -> Forall ok (place t l)) -> leaves p (state c) ->
  Forall ok (tasks c) -> Forall ok (tasks (run_segment e tk p place c)).
Proof.
  intros Hplace Hp Hd. destruct (Hp e) as [Ht Hf]. unfold run_segment. cbn. apply Forall_app.
  split; [by apply Hplace|]. by apply Forall_map.
Qed.

Lemma control_cancel i tk : controlled -> ok tk -> ok (cancel_task i tk).
Proof.
  intros K. unfold ok, cancel_task. destruct (t_owner tk) as [j|]; [|done]. destruct (Nat.eqb i j); [|done]. cbn.
  destruct (t_todo tk); try done; intros _; apply (ctl_done K).
Qed.

Theorem controlled_reachable p0 c :
  controlled -> reachable C moves p0 c -> Forall (fun tk => T (t_todo tk)) (tasks c).
Proof.
  intros K. induction 1 as [|c c' _ IH Hstep]; [constructor|]. change (Forall ok (tasks c)) in IH.
  assert (forall i, Forall ok (map (cancel_task i) (tasks c))) as Hcancel.
  { intros i. apply Forall_map. eapply Forall_impl; [exact IH|]. intros tk. by apply control_cancel. }
  assert (forall i tk, tasks c !! i = Some tk -> ok tk) as Hi.
  { intros i tk. by apply Forall_lookup_1. }
  assert (forall (t : task S) l, ok t -> Forall ok l -> Forall ok (l ++ [t])) as Hsnoc.
  { intros t l Ht Hl. apply Forall_app. split; [done|by apply Forall_singleton]. }
  destruct Hstep as [c ev e _ Hev _|c i tk A p k u e Ht Hw _|c i tk ms k e Ht Hw _|c i tk ms e Ht Hw _
                    |c i ef prev e _ Hef _ _ _| |c _].
  1: apply control_segment; [done|by apply (ctl_handle K)|done].
  1-3: specialize (Hi _ _ Ht); unfold ok in Hi; rewrite Hw in Hi;
    apply control_segment; [intros; by apply Forall_insert| |done].
  - by apply (ctl_wait K).
  - by apply (ctl_sleep K _ _ _ Hi).
  - by apply (ctl_again K _ _ _ Hi).
  - unfold rerun. destruct (ef_body ef _ _) as [q|] eqn:Eb; [|by apply Hcancel].
    apply control_segment; [done| |by apply Hcancel].
    apply (ctl_effect K ef (props c) (state c)); [by apply list_elem_of_In, list_elem_of_lookup_2 with i|done].
  - done.
  - cbn. apply Forall_map. eapply Forall_impl; [exact IH|]. intros tk Htk.
    destruct (t_owner tk); [by apply control_cancel|done].
Qed.
End Control.

(** ** What single steps do

    [stepwise R]: every uninterrupted stretch of the component's code takes a
    state [s] to a state [s'] and sends [l] with [R s s' l]; then every step of
    every run does. [tread p s Phi] walks the stretches of [p]: the first one
    ends with [Phi], the later ones, from whatever state they find, with [R]. *)

Section Stepwise.
Context {P S E : Type} (C : component P S E) (moves : P -> P -> Prop).
Context (R : S -> S -> list output -> Prop).

Fixpoint tread (p : prog S) (s : S) (Phi : S -> list output -> Prop) : Prop :=
  match p with
  | Done => Phi s []
  | Update f k => tread k (f s) Phi
  | Read k => tread (k s) s Phi
  | Ask k => forall e, tread (k e) s Phi
  | Emit o k => tread k s (fun s' l => Phi s' (o :: l))
  | Spawn p k => tread p s (fun s' l => tread k s' (fun s'' l' => Phi s'' (l ++ l')%list))
  | Call a k => (forall e, Phi s (map Sent (sent (a e)))) /\ forall r s', tread (k r) s' (R s')
  | Wait _ k => Phi s [] /\ forall r s', tread (k r) s' (R s')
  | Sleep _ k => Phi s [] /\ forall s', tread k s' (R s')
  | Again _ => False
  end.

(** Where a task may stop. *)
Definition paused (p : prog S) : Prop :=
  match p with
  | Done => True
  | Wait _ k => forall r s, tread (k r) s (R s)
  | Sleep _ k => forall s, tread k s (R s)
  | _ => False
  end.

Lemma tread_advance e p s Phi :
  tread p s Phi ->
  let r := advance e p s in
  Phi (seg_state r) (seg_out r) /\ paused (seg_todo r) /\ Forall paused (seg_forks r).
Proof.
  revert s Phi. induction p as [|f k IH|k IH|k IH|o k IH|p IHp k IHk|T a k IH|T p k IH|ms k IH|ms];
    intros s Phi Hp; cbn in Hp |- *.
  - auto.
  - by apply IH.
  - by apply IH.
  - by apply IH.
  - exact (IH s _ Hp).
  - destruct (IHp s _ Hp) as (Hk & Ht & Hf). destruct (IHk _ _ Hk) as (HPhi & Ht' & Hf').
    split; [done|]. split; [done|]. constructor; [done|by apply Forall_app].
  - destruct Hp as [Hs Hk]. auto.
  - destruct Hp as [Hs Hk]. auto.
  - destruct Hp as [Hs Hk]. auto.
  - done.
Qed.

Lemma tread_leaves p s Phi : tread p s Phi -> leaves paused p s.
Proof. intros Hp e. apply (tread_advance e p s Phi Hp). Qed.

Record stepwise : Prop := {
  sw_stay : forall s, R s s [];
  sw_unmount : forall s, R s (c_unmount C s) [];
  sw_handle : forall p s ev, offered (c_view C p s) ev -> tread (c_handle C p s ev) s (R s);
  sw_effect : forall ef p s q, In ef (c_effects C) -> ef_body ef p s = Some q -> tread q s (R s);
}.

Lemma stepwise_controlled : stepwise -> controlled C paused.
Proof using All.
  intros K. constructor.
  - constructor.
  - intros p s ev Hev. eapply tread_leaves, (sw_handle K p s ev Hev).
  - intros ef p s q Hin Hb. eapply tread_leaves, (sw_effect K ef p s q Hin Hb).
  - intros A p k u s Ht. eapply tread_leaves, Ht.
  - intros ms k s Ht. eapply tread_leaves, Ht.
  - done.
Qed.

Theorem stepwise_step p0 c c' :
  stepwise -> reachable C moves p0 c -> step C moves c c' ->
  exists l, out c' = (out c ++ l)%list /\ R (state c) (state c') l.
Proof using All.
  intros K Hc Hstep. pose proof (controlled_reachable C moves paused p0 c (stepwise_controlled K) Hc) as Ht.
  assert (forall i tk, tasks c !! i = Some tk -> paused (t_todo tk)) as Hi by (intros i tk; apply (Forall_lookup_1 _ _ _ _ Ht)).
  destruct Hstep as [c ev e _ Hev _|c i tk A p k u e Hl Hw _|c i tk ms k e Hl Hw _|c i tk ms e Hl Hw _
                    |c i ef prev e _ Hef _ _ _|c p' _|c _].
  - eexists. split; [reflexivity|]. apply (tread_advance e _ _ _ (sw_handle K _ _ _ Hev)).
  - eexists. split; [reflexivity|]. specialize (Hi _ _ Hl). rewrite Hw in Hi. apply (tread_advance e _ _ _ (Hi _ _)).
  - eexists. split; [reflexivity|]. specialize (Hi _ _ Hl). rewrite Hw in Hi. apply (tread_advance e _ _ _ (Hi _)).
  - specialize (Hi _ _ Hl). rewrite Hw in Hi. destruct Hi.
  - unfold rerun. destruct (ef_body ef (props c) (state c)) as [q|] eqn:Eb.
    + eexists. split; [reflexivity|]. apply (tread_advance e q (state c) (R (state c))), (sw_effect K ef (props c) (state c) q); [|done].
      by apply list_elem_of_In, list_elem_of_lookup_2 with i.
    + exists []. split; [by rewrite app_nil_r|apply (sw_stay K)].
  - exists []. split; [by rewrite app_nil_r|apply (sw_stay K)].
  - exists []. split; [by rewrite app_nil_r|apply (sw_unmount K)].
Qed.
End Stepwise.

(** ** Where tasks stop *)

Section Suspended.
Context {P S E : Type} (C : component P S E) (moves : P -> P -> Prop).

Definition suspended (p : prog S) : Prop :=
  match p with Done | Wait _ _ | Sleep _ _ | Again _ => True | _ => False end.

Lemma advance_suspended e (p : prog S) s :
  suspended (seg_todo (advance e p s)) /\ Forall suspended (seg_forks (advance e p s)).
Proof.
  revert s. induction p as [|f k IH|k IH|k IH|o k IH|p IHp k IHk|T a k IH|T p k IH|ms k IH|ms];
    intros s; cbn; auto.
  destruct (IHp s), (IHk (seg_state (advance e p s))). split; [done|].
  constructor; [done|by apply Forall_app].
Qed.

Lemma suspended_reachable p0 c tk :
  reachable C moves p0 c -> In tk (tasks c) -> suspended (t_todo tk).
Proof.
  intros Hc Hin. assert (controlled C suspended) as K by (constructor; intros; done || (intros e; apply advance_suspended)).
  pose proof (controlled_reachable C moves suspended p0 c K Hc) as H. rewrite List.Forall_forall in H. by apply H.
Qed.
End Suspended.

(** ** Mutual exclusion by a busy flag *)

(** A task whose awaited promise put a mutating request on the wire. *)
Definition in_flight {S} (tk : task S) : bool :=
  match t_todo tk with
  | Wait p _ => existsb mutating (sent p)
  | _ => false
  end.

Section Exclusive.
Context {P S E : Type} (C : component P S E) (moves : P -> P -> Prop).
Context (lock : S -> bool).
(** Whether a task that holds the flag has to clear it before it ends. *)
Context (strict : bool).

Definition reads_only {T : Set} (a : api T) : Prop := api_sends (fun q => mutating q = false) a.
Definition keeps (f : S -> S) : Prop := forall s, lock (f s) = lock s.

(** Programs that mutate nothing and leave the flag alone. *)
Fixpoint plain (p : prog S) : Prop :=
  match p with
  | Done | Again _ => True
  | Update f k => keeps f /\ plain k
  | Read k => forall s, plain (k s)
  | Ask k => forall e, plain (k e)
  | Emit _ k => plain k
  | Spawn p k => plain p /\ plain k
  | Call a k => reads_only a /\ forall r, plain (k r)
  | Wait p k => Forall (fun q => mutating q = false) (sent p) /\ forall r, plain (k r)
  | Sleep _ k => plain k
  end.

(** Programs that run with the flag set: once they clear it they are plain. *)
Fixpoint held (p : prog S) : Prop :=
  match p with
  | Update f k => (keeps f /\ held k) \/ ((forall s, lock (f s) = false) /\ plain k)
  | Read k => forall s, held (k s)
  | Ask k => forall e, held (k e)
  | Emit _ k => held k
  | Spawn p k => plain p /\ held k
  | Call _ k | Wait _ k => forall r, held (k r)
  | Done => strict = false
  | Again _ | Sleep _ _ => False
  end.

(** Programs that start with the flag clear: they set it before they mutate. *)
Fixpoint free (p : prog S) : Prop :=
  match p with
  | Update f k => (keeps f /\ free k) \/ ((forall s, lock (f s) = true) /\ held k)
  | Read k => forall s, free (k s)
  | Ask k => forall e, free (k e)
  | Emit _ k => free k
  | Spawn p k => plain p /\ free k
  | _ => plain p
  end.

Lemma advance_plain e p s :
  plain p ->
  let r := advance e p s in
  lock (seg_state r) = lock s /\ plain (seg_todo r) /\ Forall plain (seg_forks r).
Proof.
  revert s. induction p as [|f k IH|k IH|k IH|o k IH|p IHp k IHk|T a k IH|T p k IH|ms k IH|ms];
    intros s H; cbn in H |- *; auto.
  - destruct H as [Hf Hk]. destruct (IH (f s) Hk) as (Hl & ? & ?). by rewrite Hl, Hf.
  - destruct H as [Hp Hk]. destruct (IHp s Hp) as (Hl & Ht & Hf).
    destruct (IHk (seg_state (advance e p s)) Hk) as (Hl' & Ht' & Hf').
    repeat split; [congruence|done|]. constructor; [done|by apply Forall_app].
  - destruct H as [Ha Hk]. repeat split; auto.
Qed.

Definition outcome (r : segment S) : Prop :=
  Forall plain (seg_forks r) /\
  ((lock (seg_state r) = true /\ held (seg_todo r)) \/
   (lock (seg_state r) = false /\ plain (seg_todo r))).

Lemma outcome_plain e p s : plain p -> lock s = false -> outcome (advance e p s).
Proof. intros Hp Hs. destruct (advance_plain e p s Hp) as (Hl & ? & ?). split; [done|]. right. by rewrite Hl. Qed.

Lemma outcome_spawn e p k s :
  plain p -> outcome (advance e k (seg_state (advance e p s))) ->
  outcome (advance e (Spawn p k) s).
Proof.
  intros Hp [Hf Ho]. destruct (advance_plain e p s Hp) as (_ & Ht & Hfp).
  split; [|exact Ho]. cbn. constructor; [done|by apply Forall_app].
Qed.

Lemma advance_held e p s : held p -> lock s = true -> outcome (advance e p s).
Proof.
  revert s. induction p as [|f k IH|k IH|k IH|o k IH|p IHp k IHk|T a k IH|T p k IH|ms k IH|ms];
    intros s H Hs; cbn in H; try (by destruct H).
  - split; [constructor|]. by left.
  - destruct H as [[Hf Hk]|[Hf Hk]].
    + apply (IH (f s)); [done|]. by rewrite Hf.
    + by apply (outcome_plain e k (f s)).
  - exact (IH s s (H s) Hs).
  - exact (IH e s (H e) Hs).
  - exact (IH s H Hs).
  - destruct H as [Hp Hk]. apply outcome_spawn; [done|]. apply IHk; [done|].
    destruct (advance_plain e p s Hp) as (Hl & _). by rewrite Hl.
  - split; [constructor|]. by left.
  - split; [constructor|]. by left.
Qed.

Lemma advance_free e p s : free p -> lock s = false -> outcome (advance e p s).
Proof.
  revert s. induction p as [|f k IH|k IH|k IH|o k IH|p IHp k IHk|T a k IH|T p k IH|ms k IH|ms];
    intros s H Hs; cbn in H; try (by apply outcome_plain).
  - destruct H as [[Hf Hk]|[Hf Hk]].
    + apply (IH (f s)); [done|]. by rewrite Hf.
    + by apply (advance_held e k (f s)).
  - exact (IH s s (H s) Hs).
  - exact (IH e s (H e) Hs).
  - exact (IH s H Hs).
  - destruct H as [Hp Hk]. apply outcome_spawn; [done|]. apply IHk; [done|].
    destruct (advance_plain e p s Hp) as (Hl & _). by rewrite Hl.
Qed.

Definition plain_task (tk : task S) : Prop := plain (t_todo tk) /\ plain (t_loop tk).
Definition held_task (tk : task S) : Prop := held (t_todo tk) /\ plain (t_loop tk).

(** With the flag clear every task is plain; with it set, exactly one task
    holds it. *)
Definition excl (s : S) (l : list (task S)) : Prop :=
  (lock s = false /\ Forall plain_task l) \/
  (lock s = true /\ exists h rest, l ≡ₚ h :: rest /\ held_task h /\ Forall plain_task rest).

#[local] Instance excl_perm s : Proper ((≡ₚ) ==> iff) (excl s).
Proof. intros l l' Hl. unfold excl. by setoid_rewrite Hl. Qed.

Lemma excl_cons s tk l : plain_task tk -> excl s l -> excl s (tk :: l).
Proof.
  intros Ht [[Hs Hl]|(Hs & h & rest & Hl & Hh & Hr)].
  - left. split; [done|]. by constructor.
  - right. split; [done|]. exists h, (tk :: rest). split; [|split; [done|by constructor]].
    rewrite Hl. apply Permutation_swap.
Qed.

Lemma excl_app s l l' : Forall plain_task l' -> excl s l -> excl s (l ++ l').
Proof.
  intros Hl' Hl. rewrite Permutation_app_comm. induction Hl'; [done|]. by apply excl_cons.
Qed.

(** Taking one task out: it is plain, or it is the holder. *)
Lemma excl_split s tk d :
  excl s (tk :: d) ->
  (plain_task tk /\ excl s d) \/ (lock s = true /\ held_task tk /\ Forall plain_task d).
Proof.
  intros [[Hs Hl]|(Hs & h & rest & Hp & Hh & Hr)].
  - inversion_clear Hl. left. split; [done|]. by left.
  - assert (In tk (h :: rest)) as [->|Hin].
    { eapply Permutation_in; [exact Hp|]. by left. }
    + right. apply Permutation_cons_inv in Hp. split; [done|]. split; [done|]. by rewrite Hp.
    + left. apply in_split in Hin as (r1 & r2 & ->).
      assert (d ≡ₚ h :: r1 ++ r2) as Hd.
      { apply (Permutation_cons_inv (a := tk)). rewrite Hp, <- Permutation_middle.
        apply Permutation_swap. }
      rewrite <- Permutation_middle in Hr. inversion_clear Hr. split; [done|].
      right. split; [done|]. by exists h, (r1 ++ r2).
Qed.

Lemma excl_segment e tk p s d l :
  plain (t_loop tk) ->
  (plain p /\ excl s d) \/
  (Forall plain_task d /\ (if lock s then held p else free p)) ->
  let r := advance e p s in
  l ≡ₚ (keep tk (seg_todo r) :: d) ->
  excl (seg_state r) (l ++ map (keep tk) (seg_forks r)).
Proof.
  intros Hl Hp r Hperm.
  assert (Forall plain (seg_forks r) /\ excl (seg_state r) (keep tk (seg_todo r) :: d)) as [Hf Hx].
  { destruct Hp as [[Hp Hx]|[Hd Hp]].
    - destruct (advance_plain e p s Hp) as (Hs & Ht & Hf). fold r in Hs, Ht, Hf.
      split; [done|]. apply excl_cons; [by split|]. unfold excl. by rewrite Hs.
    - assert (outcome r) as [Hf [[Hs Ht]|[Hs Ht]]].
      { destruct (lock s) eqn:Es; [by apply advance_held|by apply advance_free]. }
      + split; [done|]. right. split; [done|]. by exists (keep tk (seg_todo r)), d.
      + split; [done|]. left. split; [done|]. by constructor. }
  apply excl_app.
  - apply Forall_map. eapply Forall_impl; [exact Hf|]. by intros q Hq.
  - by rewrite Hperm.
Qed.

Lemma excl_map s f l :
  (forall tk, plain_task tk -> plain_task (f tk)) -> (forall tk, held_task tk -> held_task (f tk)) ->
  excl s l -> excl s (map f l).
Proof.
  intros Hp Hh [[Hs Hl]|(Hs & h & rest & Hl & Hht & Hr)].
  - left. split; [done|]. apply Forall_map. eapply Forall_impl; [exact Hl|auto].
  - right. split; [done|]. exists (f h), (map f rest). split; [by rewrite Hl|]. split; [auto|].
    apply Forall_map. eapply Forall_impl; [exact Hr|auto].
Qed.

Lemma cancel_plain i tk : plain_task tk -> plain_task (cancel_task i tk).
Proof.
  intros [Ht Hl]. unfold cancel_task. destruct (t_owner tk) as [j|]; [|by split].
  destruct (Nat.eqb i j); [|by split]. split; [|done]. cbn. by destruct (t_todo tk).
Qed.

Lemma cancel_held i tk : held_task tk -> held_task (cancel_task i tk).
Proof.
  intros [Ht Hl]. unfold cancel_task. destruct (t_owner tk) as [j|]; [|by split].
  destruct (Nat.eqb i j); [|by split]. split; [|done]. cbn.
  destruct (t_todo tk); done.
Qed.

(** What a component has to show, given an invariant [I] of its runs. *)
Record exclusive (I : P -> S -> Prop) : Prop := {
  x_init : forall p, lock (c_init C p) = false;
  x_event : forall p s ev, I p s -> offered (c_view C p s) ev ->
              if lock s then plain (c_handle C p s ev) else free (c_handle C p s ev);
  x_body : forall ef p s q, In ef (c_effects C) -> ef_body ef p s = Some q -> plain q;
  x_loop : forall ef p s, In ef (c_effects C) -> plain (ef_loop ef p s);
  x_unmount : keeps (c_unmount C);
}.

Lemma excl_resume e i tk p c :
  tasks c !! i = Some tk -> excl (state c) (tasks c) ->
  (plain_task tk -> plain p) -> (held_task tk -> held p) ->
  excl (state (resume (P := P) e i tk p c)) (tasks (resume e i tk p c)).
Proof.
  intros Hi Hx Hpl Hhd.
  pose proof (delete_Permutation _ _ _ Hi) as Hperm. rewrite Hperm in Hx.
  assert (forall t, <[i := t]> (tasks c) ≡ₚ t :: delete i (tasks c)) as Hins.
  { intros t. apply lookup_lt_Some in Hi as Hlt.
    rewrite insert_take_drop by done. rewrite delete_take_drop.
    symmetry. apply Permutation_middle. }
  apply (excl_segment e tk p (state c) (delete i (tasks c))); [| |by rewrite Hins].
  - by destruct (excl_split _ _ _ Hx) as [[[_ ?] _]|(_ & [_ ?] & _)].
  - destruct (excl_split _ _ _ Hx) as [[? ?]|(Hs & ? & ?)]; [left; auto|].
    right. rewrite Hs. auto.
Qed.

Lemma excl_launch e tk p c :
  plain (t_loop tk) -> excl (state c) (tasks c) ->
  (if lock (state c) then plain p else free p) ->
  excl (state (launch (P := P) e tk p c)) (tasks (launch e tk p c)).
Proof.
  intros Hl Hx Hp.
  apply (excl_segment e tk p (state c) (tasks c)); [done| |by rewrite Permutation_app_comm].
  destruct Hx as [[Hs Hall]|Hx]; [right|left].
  - rewrite Hs in Hp |- *. auto.
  - destruct Hx as [Hs Hx]. rewrite Hs in Hp. split; [done|]. by right.
Qed.

Lemma plain_free p : plain p -> free p.
Proof.
  induction p as [|f k IH|k IH|k IH|o k IH|p IHp k IHk|T a k IH|T p k IH|ms k IH|ms]; cbn; auto.
  - intros [Hf Hk]. left. auto.
  - intros [Hp Hk]. auto.
Qed.

Lemma excl_step I c c' :
  exclusive I -> I (props c) (state c) -> step C moves c c' ->
  excl (state c) (tasks c) -> excl (state c') (tasks c').
Proof.
  intros X Hinv Hstep Hx.
  destruct Hstep as [c ev e _ Hev _|c i tk T p k u e Hi' Htd _|c i tk ms k e Hi' Htd _
    |c i tk ms e Hi' Htd _|c i ef prev e _ Hef _ _ _|c p' Hmv|c _].
  - apply excl_launch; [done|done|]. by eapply x_event.
  - apply excl_resume; [done|done| |]; intros [Ht _]; rewrite Htd in Ht; cbn in Ht;
      [by destruct Ht as [_ Ht]|done].
  - apply excl_resume; [done|done| |]; intros [Ht _]; rewrite Htd in Ht; done.
  - apply excl_resume; [done|done| |]; intros [Ht Hl]; rewrite Htd in Ht; done.
  - apply list_elem_of_lookup_2, list_elem_of_In in Hef. unfold rerun.
    assert (excl (state c) (map (cancel_task i) (tasks c))) as Hx'.
    { apply excl_map; [apply cancel_plain|apply cancel_held|done]. }
    destruct (ef_body ef (props c) (state c)) as [q|] eqn:Eb; [|exact Hx'].
    pose proof (x_body _ X _ _ _ _ Hef Eb) as Hq.
    apply excl_launch; [by eapply x_loop|exact Hx'|]. cbn.
    destruct (lock (state c)); [done|by apply plain_free].
  - exact Hx.
  - unfold unmount. cbn. unfold excl. rewrite (x_unmount _ X).
    change (excl (state c) (map (fun tk => match t_owner tk with
              Some i => cancel_task i tk | None => tk end) (tasks c))).
    apply excl_map; [| |done]; intros tk Ht; destruct (t_owner tk);
      auto using cancel_plain, cancel_held.
Qed.

Lemma excl_in_flight s l :
  excl s l -> length (filterb in_flight l) <= 1 /\
              (lock s = false -> filterb in_flight l = []).
Proof.
  assert (forall l, Forall plain_task l -> filterb in_flight l = []) as Hnil.
  { intros l' Hl'. induction Hl' as [|tk l' [Ht _] _ IH]; [done|]. unfold filterb in *. simpl.
    assert (in_flight tk = false) as ->; [|done].
    unfold in_flight. destruct (t_todo tk); try done. destruct Ht as [Ht _].
    apply not_true_is_false. intros Hex. apply existsb_exists in Hex as (q & Hin & Hq).
    rewrite List.Forall_forall in Ht. rewrite (Ht q Hin) in Hq. done. }
  intros [[Hs Hl]|(Hs & h & rest & Hp & _ & Hr)].
  - rewrite (Hnil l Hl). simpl. split; [lia|done].
  - split; [|congruence].
    assert (filterb in_flight l ≡ₚ filterb in_flight (h :: rest)) as ->.
    { clear -Hp. induction Hp; simpl; unfold filterb in *; simpl in *; repeat case_match; try done.
      - by constructor. - apply Permutation_swap. - by etrans. }
    pose proof (Hnil rest Hr) as Hn. unfold filterb in Hn |- *. simpl. rewrite Hn.
    destruct (in_flight h); simpl; lia.
Qed.

Lemma excl_reachable I p0 c :
  exclusive I -> (forall c, reachable C moves p0 c -> I (props c) (state c)) ->
  reachable C moves p0 c -> excl (state c) (tasks c).
Proof.
  intros X Hinv H. induction H as [|c c' Hc IH Hstep].
  - left. split; [by apply (x_init _ X)|constructor].
  - eapply excl_step; [exact X|by apply Hinv|exact Hstep|exact IH].
Qed.

(** At every moment at most one mutating request is unanswered, and none
    while the flag is clear. *)
Theorem exclusive_reachable I p0 c :
  exclusive I -> (forall c, reachable C moves p0 c -> I (props c) (state c)) ->
  reachable C moves p0 c ->
  length (filterb in_flight (tasks c)) <= 1 /\
  (lock (state c) = false -> filterb in_flight (tasks c) = []).
Proof. intros X Hinv H. apply excl_in_flight. by apply (excl_reachable I p0). Qed.

(** *** The flag is cleared

    [clears s p]: in state [s] the flag is clear, or [p] waits for an answer
    and, whatever the answer and whatever happened to the state in between,
    goes on to clear the flag. The definition is inductive, so finitely many
    answers are enough. *)
Inductive clears : S -> prog S -> Prop :=
| clears_now s p : lock s = false -> clears s p
| clears_later s (T : Set) (p : promise T) k :
    (forall e u s', lock s' = true ->
       clears (seg_state (advance e (k (settle p u)) s')) (seg_todo (advance e (k (settle p u)) s'))) ->
    clears s (Wait p k).

Lemma held_clears e p s :
  strict = true -> held p -> lock s = true -> clears (seg_state (advance e p s)) (seg_todo (advance e p s)).
Proof.
  intros Hst. revert e s.
  induction p as [|f k IH|k IH|k IH|o k IH|p IHp k IHk|T a k IH|T p k IH|ms k IH|ms];
    intros e s H Hs; cbn in H |- *; try done; auto.
  - congruence.
  - destruct H as [[Hf Hk]|[Hf Hk]]; [apply IH; [done|by rewrite Hf]|].
    apply clears_now. destruct (advance_plain e k (f s) Hk) as [-> _]. apply Hf.
  - destruct H as [Hp Hk]. apply IHk; [done|]. by destruct (advance_plain e p s Hp) as [-> _].
  - apply clears_later. intros e' u s' Hs'. by apply IH.
  - apply clears_later. intros e' u s' Hs'. by apply IH.
Qed.

(** While the flag is set, some task is waiting for the answer that leads to
    its being cleared. *)
Theorem exclusive_clears I p0 c :
  strict = true -> exclusive I -> (forall c, reachable C moves p0 c -> I (props c) (state c)) ->
  reachable C moves p0 c -> lock (state c) = true ->
  exists tk, In tk (tasks c) /\ clears (state c) (t_todo tk) /\
    match t_todo tk with Wait _ _ => True | _ => False end.
Proof.
  intros Hst X Hinv H Hl. destruct (excl_reachable I p0 c X Hinv H) as [[Hf _]|(_ & h & rest & Hp & [Hh _] & _)];
    [congruence|].
  assert (suspended (t_todo h)) as Hsus.
  { eapply suspended_reachable; [exact H|]. rewrite Hp. by left. }
  exists h. split; [rewrite Hp; by left|]. destruct (t_todo h) as [| | | | | | |T q k| |]; try done; try congruence.
  split; [|done]. apply clears_later. intros e u s' Hs'. by apply held_clears.
Qed.
End Exclusive.

(** ** Locking a page while it is open

    When props can turn a page read-only under the user, what matters is that
    no step taken from then on sends a mutation. *)

Section Locked.
Context {P S E : Type} (C : component P S E) (moves : P -> P -> Prop).
Context (locked : P -> bool).

(** Programs that send no mutating request. *)
Fixpoint quiet (p : prog S) : Prop :=
  match p with
  | Done | Again _ => True
  | Update _ k | Sleep _ k => quiet k
  | Emit o k => match o with Sent q => mutating q = false | _ => True end /\ quiet k
  | Read k => forall s, quiet (k s)
  | Ask k => forall e, quiet (k e)
  | Spawn p k => quiet p /\ quiet k
  | Call a k => reads_only a /\ forall r, quiet (k r)
  | Wait _ k => forall r, quiet (k r)
  end.

(** Programs that may mutate in their first segment only. *)
Fixpoint quiet_later (p : prog S) : Prop :=
  match p with
  | Done | Again _ => True
  | Update _ k | Emit _ k => quiet_later k
  | Read k => forall s, quiet_later (k s)
  | Ask k => forall e, quiet_later (k e)
  | Spawn p k => quiet_later p /\ quiet_later k
  | Call _ k | Wait _ k => forall r, quiet (k r)
  | Sleep _ k => quiet k
  end.

Definition reads_out (o : output) : Prop :=
  match o with Sent q => mutating q = false | _ => True end.

Lemma quiet_is_later p : quiet p -> quiet_later p.
Proof.
  induction p as [|f k IH|k IH|k IH|o k IH|p IHp k IHk|T a k IH|T p k IH|ms k IH|ms]; cbn; auto;
    intros [? ?]; auto.
Qed.

Lemma advance_later e p s :
  quiet_later p ->
  let r := advance e p s in quiet (seg_todo r) /\ Forall quiet (seg_forks r).
Proof.
  revert s. induction p as [|f k IH|k IH|k IH|o k IH|p IHp k IHk|T a k IH|T p k IH|ms k IH|ms];
    intros s H; cbn in H |- *; auto.
  destruct H as [Hp Hk]. destruct (IHp s Hp). destruct (IHk (seg_state (advance e p s)) Hk).
  split; [done|]. constructor; [done|by apply Forall_app].
Qed.

Lemma advance_quiet e p s : quiet p -> Forall reads_out (seg_out (advance e p s)).
Proof.
  revert s. induction p as [|f k IH|k IH|k IH|o k IH|p IHp k IHk|T a k IH|T p k IH|ms k IH|ms];
    intros s H; cbn in H |- *; auto.
  - destruct H. constructor; auto.
  - destruct H. apply Forall_app; auto.
  - destruct H as [Ha _]. apply Forall_map. apply (Ha e).
Qed.

Record lockable : Prop := {
  l_event : forall p s ev, offered (c_view C p s) ev -> quiet_later (c_handle C p s ev);
  l_locked : forall p s ev, locked p = true -> offered (c_view C p s) ev -> quiet (c_handle C p s ev);
  l_body : forall ef p s q, In ef (c_effects C) -> ef_body ef p s = Some q -> quiet q;
  l_loop : forall ef p s, In ef (c_effects C) -> quiet (ef_loop ef p s);
}.

Definition quiet_task (tk : task S) : Prop := quiet (t_todo tk) /\ quiet (t_loop tk).

Lemma segment_quiet_tasks e tk p place (c : config P S) :
  quiet (t_loop tk) -> quiet_later p -> Forall quiet_task (tasks c) ->
  (forall t l, quiet_task t -> Forall quiet_task l -> Forall quiet_task (place t l)) ->
  Forall quiet_task (tasks (run_segment e tk p place c)).
Proof.
  intros Hl Hp Ht Hplace. destruct (advance_later e p (state c) Hp) as [Htd Hf].
  unfold run_segment. cbn. apply Forall_app. split; [by apply Hplace|].
  apply Forall_map. eapply Forall_impl; [exact Hf|]. by intros q Hq.
Qed.

Lemma cancel_quiet i tk : quiet_task tk -> quiet_task (cancel_task i tk).
Proof.
  intros [Ht Hl]. unfold cancel_task. destruct (t_owner tk) as [j|]; [|by split].
  destruct (Nat.eqb i j); [|by split]. split; [|done]. cbn. by destruct (t_todo tk).
Qed.

Lemma snoc_quiet t l : quiet_task t -> Forall quiet_task l -> Forall quiet_task (l ++ [t]).
Proof. intros. apply Forall_app. split; [done|]. by apply Forall_singleton. Qed.

(** One step keeps every suspended task quiet, and sends only reads when it
    starts from locked props. *)
Lemma lockable_step c c' :
  lockable -> step C moves c c' -> Forall quiet_task (tasks c) ->
  Forall quiet_task (tasks c') /\
  (locked (props c) = true -> exists sent, out c' = out c ++ sent /\ Forall reads_out sent).
Proof.
  intros K Hstep Ht.
  assert (forall e tk p place, quiet p -> locked (props c) = true ->
    exists sent, out (run_segment e tk p place c) = out c ++ sent /\ Forall reads_out sent) as Hq.
  { intros. eexists. split; [done|]. by apply advance_quiet. }
  assert (forall i tk p e, tasks c !! i = Some tk -> quiet p ->
    Forall quiet_task (tasks (resume e i tk p c)) /\
    (locked (props c) = true ->
       exists sent, out (resume e i tk p c) = out c ++ sent /\ Forall reads_out sent)) as Hres.
  { intros i tk p e Hi Hp. pose proof (Forall_lookup_1 _ _ _ _ Ht Hi) as [_ Hl]. split; [|by apply Hq].
    apply segment_quiet_tasks; [done|by apply quiet_is_later|done|]. intros. by apply Forall_insert. }
  destruct Hstep as [c ev e _ Hev _|c i tk T p k u e Hi Htd _|c i tk ms k e Hi Htd _
    |c i tk ms e Hi Htd _|c i ef prev e _ Hef _ _ _|c p' Hmv|c _].
  - split.
    + apply segment_quiet_tasks; [done|by apply (l_event K)|done|]. intros. by apply snoc_quiet.
    + intros Hlk. apply Hq; [|done]. by apply (l_locked K).
  - pose proof (Forall_lookup_1 _ _ _ _ Ht Hi) as [Hk _]. rewrite Htd in Hk. by apply Hres.
  - pose proof (Forall_lookup_1 _ _ _ _ Ht Hi) as [Hk _]. rewrite Htd in Hk. by apply Hres.
  - pose proof (Forall_lookup_1 _ _ _ _ Ht Hi) as [_ Hl]. by apply Hres.
  - apply list_elem_of_lookup_2, list_elem_of_In in Hef. unfold rerun.
    assert (Forall quiet_task (map (cancel_task i) (tasks c))) as Ht'.
    { apply Forall_map. eapply Forall_impl; [exact Ht|]. intros. by apply cancel_quiet. }
    destruct (ef_body ef (props c) (state c)) as [q|] eqn:Eb.
    + pose proof (l_body K _ _ _ _ Hef Eb) as Hqq. split.
      * apply segment_quiet_tasks; [by eapply l_loop|by apply quiet_is_later|done|].
        intros. by apply snoc_quiet.
      * intros _. eexists. split; [done|]. by apply advance_quiet.
    + split; [done|]. intros _. exists []. by rewrite app_nil_r.
  - split; [done|]. intros _. exists []. by rewrite app_nil_r.
  - split; [|intros _; exists []; by rewrite app_nil_r]. cbn. apply Forall_map.
    eapply Forall_impl; [exact Ht|]. intros tk Htk. destruct (t_owner tk); [by apply cancel_quiet|done].
Qed.

(** From any reachable configuration whose props are locked, the next step
    sends nothing that mutates. *)
Theorem locked_reachable p0 c c' :
  lockable -> reachable C moves p0 c -> locked (props c) = true -> step C moves c c' ->
  exists sent, out c' = out c ++ sent /\ Forall reads_out sent.
Proof.
  intros K H Hlk Hstep.
  assert (Forall quiet_task (tasks c)) as Ht.
  { clear Hlk Hstep c'. induction H as [|c c' _ IH Hstep]; [constructor|].
    by apply (lockable_step c c' K Hstep). }
  by apply (lockable_step c c' K Hstep Ht).
Qed.
End Locked.

(** ** Invariants over the history

    [J p s o]: a relation between the state and everything sent so far. *)

Section History.
Context {P S E : Type} (C : component P S E) (moves : P -> P -> Prop).
Context (J : P -> S -> list output -> Prop).

(** [hist p s o Phi]: run from [s] with the history [o], [p] reaches its next
    suspension in a state and history that satisfy [Phi], and goes on like that
    from any state and history of the invariant. *)
Fixpoint hist (p : prog S) (s : S) (o : list output) (Phi : S -> list output -> Prop) : Prop :=
  match p with
  | Done | Again _ => Phi s o
  | Update f k => hist k (f s) o Phi
  | Read k => hist (k s) s o Phi
  | Ask k => forall e, hist (k e) s o Phi
  | Emit x k => hist k s (o ++ [x]) Phi
  | Spawn p k => hist p s o (fun s' o' => hist k s' o' Phi)
  | Call a k =>
      (forall e, Phi s (o ++ map Sent (sent (a e)))) /\
      forall r p' s' o', J p' s' o' -> hist (k r) s' o' (J p')
  | Wait _ k => Phi s o /\ forall r p' s' o', J p' s' o' -> hist (k r) s' o' (J p')
  | Sleep _ k => Phi s o /\ forall p' s' o', J p' s' o' -> hist k s' o' (J p')
  end.

Definition later (p : prog S) : Prop :=
  match p with
  | Done | Again _ => True
  | Wait _ k => forall r p' s' o', J p' s' o' -> hist (k r) s' o' (J p')
  | Sleep _ k => forall p' s' o', J p' s' o' -> hist k s' o' (J p')
  | _ => False
  end.

Lemma hist_advance e p s o Phi :
  hist p s o Phi ->
  let r := advance e p s in
  Phi (seg_state r) (o ++ seg_out r) /\ later (seg_todo r) /\ Forall later (seg_forks r).
Proof.
  revert s o Phi. induction p as [|f k IH|k IH|k IH|x k IH|p IHp k IHk|T a k IH|T p k IH|ms k IH|ms];
    intros s o Phi H; cbn in H |- *; rewrite ?app_nil_r; auto.
  - destruct (IH s (o ++ [x]) Phi H) as (Hs & ? & ?). by rewrite <- app_assoc in Hs.
  - destruct (IHp s o _ H) as (Hs & Ht & Hf). destruct (IHk _ _ Phi Hs) as (Hs' & Ht' & Hf').
    rewrite <- app_assoc in Hs'. split; [done|]. split; [done|].
    constructor; [done|by apply Forall_app].
  - destruct H as [Hs Hk]. split; [apply Hs|]. auto.
  - destruct H as [Hs Hk]. auto.
  - destruct H as [Hs Hk]. auto.
Qed.

Definition hist_loop (p : prog S) : Prop := forall p' s' o', J p' s' o' -> hist p s' o' (J p').
Definition hist_task (tk : task S) : Prop := later (t_todo tk) /\ hist_loop (t_loop tk).

Record accounted (p0 : P) : Prop := {
  h_init : J p0 (c_init C p0) [];
  h_event : forall p s o ev, J p s o -> offered (c_view C p s) ev -> hist (c_handle C p s ev) s o (J p);
  h_body : forall ef p s o q, In ef (c_effects C) -> J p s o -> ef_body ef p s = Some q ->
             hist q s o (J p);
  h_loop : forall ef p s, In ef (c_effects C) -> hist_loop (ef_loop ef p s);
  h_moves : forall p p' s o, J p s o -> moves p p' -> J p' s o;
  h_unmount : forall p s o, J p s o -> J p (c_unmount C s) o;
}.

Definition balanced (c : config P S) : Prop :=
  J (props c) (state c) (out c) /\ Forall hist_task (tasks c).

Lemma balanced_segment e tk p place c :
  balanced c -> hist_loop (t_loop tk) -> hist p (state c) (out c) (J (props c)) ->
  (forall t l, hist_task t -> Forall hist_task l -> Forall hist_task (place t l)) ->
  balanced (run_segment e tk p place c).
Proof.
  intros [Hi Ht] Hl Hp Hplace.
  destruct (hist_advance e p _ _ _ Hp) as (Hs & Htodo & Hforks).
  unfold balanced, run_segment. cbn. split; [done|].
  apply Forall_app. split; [apply Hplace; [by split|done]|].
  apply Forall_map. eapply Forall_impl; [exact Hforks|]. intros q Hq. by split.
Qed.

Lemma cancel_hist i tk : hist_task tk -> hist_task (cancel_task i tk).
Proof.
  intros [Ht Hl]. unfold cancel_task. destruct (t_owner tk) as [j|]; [|by split].
  destruct (Nat.eqb i j); [|by split]. split; [|done]. cbn. by destruct (t_todo tk).
Qed.

Lemma balanced_resume e i tk p c :
  balanced c -> tasks c !! i = Some tk -> hist p (state c) (out c) (J (props c)) ->
  balanced (resume e i tk p c).
Proof.
  intros G Hi Hp. pose proof G as [_ Ht]. pose proof (Forall_lookup_1 _ _ _ _ Ht Hi) as [_ Hl].
  apply balanced_segment; [done|done|done|]. intros. by apply Forall_insert.
Qed.

Lemma snoc_hist t l : hist_task t -> Forall hist_task l -> Forall hist_task (l ++ [t]).
Proof. intros. apply Forall_app. split; [done|]. by apply Forall_singleton. Qed.

Lemma balanced_step p0 c c' : accounted p0 -> balanced c -> step C moves c c' -> balanced c'.
Proof.
  intros V G Hstep. pose proof G as [Hi Ht].
  destruct Hstep as [c ev e _ Hev _|c i tk T p k u e Hi' Htd _|c i tk ms k e Hi' Htd _
    |c i tk ms e Hi' Htd _|c i ef prev e _ Hef _ _ _|c p' Hmv|c _].
  - apply balanced_segment; [done|by intros ? ? ?|by eapply h_event|]. intros. by apply snoc_hist.
  - pose proof (Forall_lookup_1 _ _ _ _ Ht Hi') as [Hst _]. rewrite Htd in Hst.
    apply balanced_resume; [done|done|by apply Hst].
  - pose proof (Forall_lookup_1 _ _ _ _ Ht Hi') as [Hst _]. rewrite Htd in Hst.
    apply balanced_resume; [done|done|by apply Hst].
  - pose proof (Forall_lookup_1 _ _ _ _ Ht Hi') as [_ Hl].
    apply balanced_resume; [done|done|by apply Hl].
  - apply list_elem_of_lookup_2, list_elem_of_In in Hef. unfold rerun.
    assert (balanced (Config (props c) (state c) (mounted c) (map (cancel_task i) (tasks c))
                        (<[i := Some (props c, state c)]> (runs c)) (out c))) as G'.
    { split; [done|]. apply Forall_map. eapply Forall_impl; [exact Ht|]. intros. by apply cancel_hist. }
    destruct (ef_body ef (props c) (state c)) as [q|] eqn:Eb; [|done].
    apply balanced_segment; [done|by eapply h_loop|by eapply h_body|]. intros. by apply snoc_hist.
  - split; [by eapply h_moves|done].
  - split; [by eapply h_unmount|]. cbn. apply Forall_map. eapply Forall_impl; [exact Ht|].
    intros tk Htk. destruct (t_owner tk); [by apply cancel_hist|done].
Qed.

(** The relation between state and history holds in every reachable
    configuration. *)
Theorem accounted_reachable p0 c :
  accounted p0 -> reachable C moves p0 c -> J (props c) (state c) (out c).
Proof.
  intros V H. cut (balanced c); [by intros []|].
  induction H as [|c c' _ IH Hstep]; [split; [by apply h_init|constructor]|].
  by eapply balanced_step.
Qed.
End History.
