(* ===== verification/Components.v ===== *)
(** * Shared components: web/src/components, and the formatting environment

    The badges, empty states and statistics every page is built from, the
    locale functions of the browser as an interface, and the automation the
    pages' proofs share. *)
From S2P Require Import Prelude JsString JsNumber Http Api React Runtime.
Local Open Scope velora_scope.
Local Open Scope prog_scope.
Local Open Scope string_scope.

(** ** What the browser's Intl data decides *)

Class Locale := {
  num_locale : string -> Z -> string;            (* n.toLocaleString(language) *)
  jsnum_locale : string -> jsnum -> string;      (* the same for a number that may be no integer *)
  date_locale : string -> string -> string;      (* new Date(s).toLocaleString(language) *)
  date_locale_default : string -> string;        (* new Date(s).toLocaleString() *)
  date_day : string -> string -> string;         (* new Date(s).toLocaleDateString(language) *)
  date_time : string -> option Z;                (* new Date(s).getTime(); [None]: NaN *)
  localeCompare : string -> string -> comparison;
  time_locale : Z -> string;                     (* d.toLocaleTimeString() *)
  clock_locale : string -> string -> string;     (* new Date(s).toLocaleTimeString(language) *)
  short_day : string -> string -> string;        (* toLocaleDateString(language, month and day) *)
  weekday_time : string -> string -> string;     (* toLocaleString(language, weekday, hour, minute) *)
  hour_minute : string -> string -> string;      (* toLocaleTimeString(language, hour, minute) *)
}.

(** What [localeCompare] promises: a total preorder. *)
Class LocaleLaws (L : Locale) : Prop := {
  locale_refl : forall a, localeCompare a a = Eq;
  locale_flip : forall a b, localeCompare b a = CompOpp (localeCompare a b);
  locale_trans : forall a b c,
    localeCompare a b <> Gt -> localeCompare b c <> Gt -> localeCompare a c <> Gt;
}.

(** A concrete locale, comparing by code unit, for the concrete instances. *)
Definition plain_locale : Locale :=
  Build_Locale (fun _ n => StringZ n) (fun _ x => num_str x) (fun _ s => s) (fun s => s) (fun _ s => s) (fun _ => None)
    String.compare (fun ms => StringZ ms) (fun _ s => s) (fun _ s => s) (fun _ s => s) (fun _ s => s).

(** A catalog without entries shows the keys. *)
Definition plain_text (k : string) : string := k.

Lemma compare_trans a b c :
  String.compare a b <> Gt -> String.compare b c <> Gt -> String.compare a c <> Gt.
Proof.
  revert b c. induction a as [|x a IH]; intros [|y b] [|z c]; simpl; try done.
  unfold Ascii.compare.
  destruct (N.compare_spec (N_of_ascii x) (N_of_ascii y)), (N.compare_spec (N_of_ascii y) (N_of_ascii z)),
    (N.compare_spec (N_of_ascii x) (N_of_ascii z)); try done; try lia; apply IH.
Qed.

#[export] Instance plain_locale_laws : LocaleLaws plain_locale.
Proof.
  split; cbn.
  - intros a. induction a as [|x a IH]; [done|]. simpl. unfold Ascii.compare. by rewrite N.compare_refl.
  - intros a b. apply String.compare_antisym.
  - intros a b c. apply compare_trans.
Qed.

(** ** tone.ts *)

Inductive BadgeTone : Set := neutral | success | warning | danger | info | brand.

Definition tone_str (t : BadgeTone) : string :=
  match t with
  | neutral => "neutral" | success => "success" | warning => "warning"
  | danger => "danger" | info => "info" | brand => "brand"
  end.

Definition one_of (s : string) (l : list string) : bool := existsb (String.eqb s) l.

Definition toneFor (state : option string) : BadgeTone :=
  match state with
  | None => neutral
  | Some s =>
      if one_of s ["healthy"; "completed"; "success"; "active"; "verified"; "valid"] then success
      else if one_of s ["degraded"; "rolled_back"; "warning"; "stale"] then warning
      else if one_of s ["failed"; "failure"; "unavailable"; "unreachable"; "critical"; "error"] then danger
      else if one_of s ["info"] then info
      else neutral
  end.

(** ** Badge.tsx, EmptyState.tsx, Stat.tsx *)

Section Widgets.
Context {E : Type}.

Definition Badge (tone : BadgeTone) (plain_ : bool) (children : list (node E)) : node E :=
  El span ["className" =: ("badge " +:+ tone_str tone +:+ (if plain_ then " plain" else ""))] children.

Definition EmptyState (icon_ : option (node E)) (title : string) (children action : list (node E))
    (compact : bool) : node E :=
  El div ["className" =: ("empty-state" +:+ (if compact then " compact" else ""))]
    (when_some icon_ (fun i => [El span ["className" =: "empty-icon"; "aria-hidden" =: "true"] [i]])
     ++ [El h3 [] [Txt title]]
     ++ when (nonempty children) [El p_ [] children]
     ++ action).

Definition Loading (children : list (node E)) : node E :=
  El div ["className" =: "loading-state"; "role" =: "status"]
    (El span ["className" =: "spinner"; "aria-hidden" =: "true"] [] :: children).

Definition Stat (label_ value : string) (note aside : option string)
    (progress : option jsnum) (tone : BadgeTone) : node E :=
  El article ["className" =: ("stat tone-" +:+ tone_str tone)]
    ([El div ["className" =: "stat-heading"]
        (El span [] [Txt label_]
         :: when (truthy (aside ?? "")) [El span ["className" =: "stat-aside"] [Txt (aside ?? "")]]);
      El strong [] [Txt value]]
     ++ when (truthy (note ?? "")) [El small [] [Txt (note ?? "")]]
     ++ when_some progress (fun x =>
          [El div ["className" =: "stat-bar"; "aria-hidden" =: "true"]
             [El span ["style.width" =: (num_str (mul_int (clamp01 x) 100) +:+ "%")] []]])).

(** The error and status banners several pages render. *)
Definition error_notice (error : string) : list (node E) :=
  when (truthy error) [El div ["className" =: "notice error"; "role" =: "alert"] [Txt error]].
Definition success_notice (notice : string) : list (node E) :=
  when (truthy notice) [El div ["className" =: "notice success"; "role" =: "status"] [Txt notice]].
End Widgets.

(** ** Automation for the pages *)

Lemma reads_only_get (T : Set) path signal : reads_only (get T path signal).
Proof. intros e. repeat constructor. Qed.
#[export] Hint Resolve reads_only_get : velora.

Lemma reads_only_all2 (T U : Set) (a : api T) (b : api U) :
  reads_only a -> reads_only b -> reads_only (all2 a b).
Proof. apply api_sends_all2. Qed.

Lemma reads_only_or_else (T : Set) (d : T) (a : api T) : reads_only a -> reads_only (or_else d a).
Proof. apply api_sends_or_else. Qed.

Lemma reads_only_map (T U : Set) (f : T -> U) (a : api T) : reads_only a -> reads_only (then_map f a).
Proof. apply api_sends_map. Qed.
#[export] Hint Resolve reads_only_all2 reads_only_or_else reads_only_map : velora.

(** The output discipline of a read-only page: nothing that mutates is sent. *)
Definition read_only_output (o : output) : Prop :=
  match o with Sent q => mutating q = false | _ => True end.

(** Props that may change as long as [viewer] holds of them, and props that
    may change freely. *)
Definition still {P : Type} (viewer : P -> Prop) (_ p' : P) : Prop := viewer p'.
Definition any_props {P : Type} (p p' : P) : Prop := True.

(** Take a view apart into one goal per handler. [view_cbn] keeps the
    disabled flags computed; a sub-view is unfolded by its name. *)
Ltac view_cbn := cbn [is_control attr_disabled orb andb flag].
Ltac view_head n := match n with ?f _ => view_head f | _ => n end.
Ltac view_step :=
  match goal with
  | |- True => exact I
  | |- _ /\ _ => split
  | |- nodes_all _ _ [] => exact I
  | |- nodes_all _ _ (_ :: _) => split
  | |- nodes_all _ _ (_ ++ _) => apply nodes_all_app
  | |- nodes_all _ _ (when _ _) => apply nodes_all_when; intros ?
  | |- nodes_all _ _ (cond _ _ _) => apply nodes_all_cond; intros ?
  | |- nodes_all _ _ (when_some (Some _) _) => cbn [when_some]
  | |- nodes_all _ _ (when_some None _) => exact I
  | |- nodes_all _ _ (when_some (if ?b then _ else _) _) => destruct b eqn:?
  | |- nodes_all _ _ (when_some _ _) => apply nodes_all_some; intros ? ?
  | |- nodes_all _ _ (each _ _) => apply nodes_all_each; intros ? ?
  | |- nodes_all _ _ (imap _ _) => apply nodes_all_imap; intros ? ? ?
  | |- nodes_all _ _ (map (map_node _) _) => apply nodes_all_map
  | |- nodes_all _ _ (match ?x with _ => _ end) => destruct x eqn:?
  | |- nodes_all _ _ ?l => let h := view_head l in unfold h
  | |- node_all _ _ (Txt _) => exact I
  | |- node_all _ _ (Icon _ _) => exact (conj (conj I (conj I I)) I)
  | |- node_all _ _ (map_node _ _) => apply node_all_map
  | |- node_all _ _ (El _ _ _) => apply node_all_El; cbv zeta; view_cbn
  | |- node_all _ _ (match ?x with _ => _ end) => destruct x eqn:?
  | |- node_all _ _ ?n => let h := view_head n in unfold h
  | |- attrs_all _ _ _ (_ ++ _) => apply attrs_all_app
  | |- attrs_all _ _ _ (if ?b then _ else _) => destruct b eqn:?
  | |- attrs_all _ _ _ _ => cbn [attrs_all attr_all flag]
  end.
Ltac view_split := repeat view_step.

(** Unfold the program combinators, keeping state updates folded. *)
Ltac prog_cbv :=
  cbv beta iota zeta delta [run_top try_catch try_finally bind await update read ask emit sleep ret
    throw spawn when_do again].

(** Walk a program symbolically: [prog_split] works for [wp], [plain], [held]
    and [free] alike and leaves the facts about states and requests. *)
Ltac prog_case :=
  match goal with
  | |- context [match ?x with inl _ => _ | inr _ => _ end] => is_var x; destruct x
  | |- context [if ?b then _ else _] => destruct b eqn:?
  | |- context [match ?x with Some _ => _ | None => _ end] => destruct x eqn:?
  end.

Ltac wp_step :=
  match goal with
  | |- _ /\ _ => split
  | |- forall _, _ => intros ?
  | |- wp _ _ _ _ _ => first [ progress cbn [wp] | prog_case ]
  end.
Ltac wp_split := prog_cbv; repeat wp_step.

(** The same walk over state and history. *)
Ltac hist_step :=
  match goal with
  | |- _ /\ _ => split
  | |- forall _, _ => intros ?
  | |- hist _ _ _ _ _ => first [ progress cbn [hist] | prog_case ]
  end.
Ltac hist_split := prog_cbv; repeat hist_step.

(** The same walk over single steps. *)
Ltac tread_step :=
  match goal with
  | |- _ /\ _ => split
  | |- forall _, _ => intros ?
  | |- tread _ _ _ _ => first [ progress cbn [tread] | prog_case ]
  end.
Ltac tread_split := prog_cbv; repeat tread_step.

(** How many outputs of a history satisfy a test. *)
Definition count (f : output -> bool) (o : list output) : nat := length (filterb f o).

Lemma count_app f a b : count f (a ++ b) = count f a + count f b.
Proof. unfold count, filterb. by rewrite List.filter_app, List.length_app. Qed.

(** The same walk for the busy-flag predicates. *)
Ltac flag_solve := solve [intros ?; reflexivity | eauto with velora].
Ltac excl_step :=
  match goal with
  | |- forall _, _ => intros ?
  | |- True => exact I
  | |- false = false => reflexivity
  | |- (keeps _ _ /\ _) \/ _ =>
      first [ left; split; [flag_solve|] | right; split; [flag_solve|] ]
  | |- keeps _ _ /\ _ => split; [flag_solve|]
  | |- _ /\ _ => split
  | |- reads_only _ => solve [eauto with velora]
  | |- plain _ _ => first [ progress cbn [plain] | prog_case ]
  | |- held _ _ _ => first [ progress cbn [held] | prog_case ]
  | |- free _ _ _ => first [ progress cbn [free] | prog_case ]
  end.
Ltac excl_walk := prog_cbv; repeat excl_step.

Lemma get_reads_only (T : Set) path signal (Q : output -> Prop) :
  (forall q, mutating q = false -> Q (Sent q)) -> api_sends (fun q => Q (Sent q)) (get T path signal).
Proof. intros H e. repeat constructor. by apply H. Qed.

(** Close what is left of a [wp] walk of a read-only page. *)
Ltac wp_close := first [ apply reads_only_get | solve [eauto with velora] | by destruct_and? | done ].

(** Show that a form has no enabled submit button. *)
Ltac silent_step :=
  match goal with
  | |- silent true _ => apply can_submit_disabled_list
  | |- silent _ [] => reflexivity
  | |- silent _ (_ :: _) => apply silent_cons
  | |- silent _ (_ ++ _) => apply silent_app
  | |- silent _ (when _ _) => apply silent_when
  | |- silent _ (cond _ _ _) => apply silent_cond
  | |- silent _ (when_some _ _) => apply silent_some; intros ?
  | |- silent _ (each _ _) => apply silent_each; intros ?
  | |- silent _ (match ?x with _ => _ end) => destruct x
  | |- silent _ ?l => let h := view_head l in unfold h
  | |- can_submit true _ = false => apply can_submit_disabled
  | |- can_submit _ (Txt _) = false => reflexivity
  | |- can_submit _ (El _ _ _) = false => apply can_submit_El; view_cbn; [solve [cbn; rewrite ?andb_false_r; reflexivity]|]
  | |- can_submit _ (match ?x with _ => _ end) = false => destruct x
  | |- can_submit _ ?n = false => let h := view_head n in unfold h
  end.
Ltac silent_solve := solve [repeat silent_step].

(** Close the handlers that a disabled flag makes unreachable. *)
Ltac view_close :=
  first
    [ solve [apply silent_submit; silent_solve]
    | solve [let Hin := fresh in intros _ ? Hin; apply in_map_iff in Hin as (? & <- & _); done]
    | solve [rewrite ?orb_true_r; cbn; rewrite ?orb_false_r, ?orb_true_r; done] ].

(** Show by computation that a view offers an event: attribute [j] of the
    element under [path] in its [i]-th tree fires it. *)
Ltac fire_step :=
  first [ apply fires_click | apply fires_change | apply fires_check | apply fires_submit | apply fires_toggle
        | apply fires_key | apply fires_mouse | apply fires_file
        | apply fires_select; cbn; repeat first [left; reflexivity | right] ].
Ltac offer_at i path j :=
  eapply (offered_at i path j);
  [vm_compute; reflexivity | vm_compute; reflexivity | vm_compute; reflexivity | fire_step | vm_compute; reflexivity].

(** ** What a page promises to the shell

    [ViewerSafe C viewer]: for a user whose props satisfy [viewer], whatever
    else changes in them, the page never sends a mutating request. [OneAtATime C]: the page never has two mutating
    requests in flight, whatever the user and the server do. *)

Class ViewerSafe {P S E : Type} (C : component P S E) (viewer : P -> Prop) : Prop :=
  viewer_safe : forall p c, viewer p -> reachable C (still viewer) p c -> Forall read_only_output (out c).

Class OneAtATime {P S E : Type} (C : component P S E) : Prop :=
  one_at_a_time : forall p c, reachable C any_props p c -> length (filterb in_flight (tasks c)) <= 1.

Lemma verified_viewer_safe {P S E} (C : component P S E) (I : P -> S -> Prop) viewer :
  (forall p, viewer p -> verified C (still viewer) I read_only_output p) -> ViewerSafe C viewer.
Proof. intros H p c Hp Hc. by apply (invariant_reachable _ _ _ _ _ _ (H p Hp) Hc). Qed.

Lemma exclusive_one_at_a_time {P S E} (C : component P S E) (lock : S -> bool) :
  forall strict, exclusive C lock strict (fun _ _ => True) -> OneAtATime C.
Proof. intros strict X p c Hc. by apply (exclusive_reachable _ _ _ _ _ _ _ X (fun _ _ => I) Hc). Qed.

(** [Unblocks C lock]: the page is never left busy: while its flag is set, a
    task waits for an answer after which, perhaps with further answers, the
    flag is cleared, whatever these answers are. *)
Class Unblocks {P S E : Type} (C : component P S E) (lock : S -> bool) : Prop :=
  unblocks : forall p c, reachable C any_props p c -> lock (state c) = true ->
    exists tk, In tk (tasks c) /\ clears lock (state c) (t_todo tk) /\
      match t_todo tk with Wait _ _ => True | _ => False end.

Lemma exclusive_unblocks {P S E} (C : component P S E) (lock : S -> bool) :
  exclusive C lock true (fun _ _ => True) -> Unblocks C lock.
Proof. intros X p c Hc. by apply (exclusive_clears _ _ _ _ _ p c eq_refl X (fun _ _ => I) Hc). Qed.

(** [LockSafe C locked]: as soon as its props are locked, the page sends no
    further mutation, even when it was opened unlocked. *)
Class LockSafe {P S E : Type} (C : component P S E) (locked : P -> bool) : Prop :=
  lock_safe : forall p c c', reachable C any_props p c -> locked (props c) = true ->
    step C any_props c c' -> exists l, out c' = (out c ++ l)%list /\ Forall read_only_output l.

Lemma lockable_lock_safe {P S E} (C : component P S E) locked : lockable C locked -> LockSafe C locked.
Proof. intros K p c c' Hc Hl Hs. by apply (locked_reachable _ _ _ _ _ _ K Hc Hl Hs). Qed.

Section Moves.
Context {P S E : Type} (C : component P S E).

Lemma step_still viewer c c' :
  step C (still viewer) c c' -> viewer (props c) -> step C any_props c c' /\ viewer (props c').
Proof.
  intros H Hv. destruct H.
  all: try (split; [by econstructor|exact Hv]).
  - split; [by eapply step_effect|]. unfold rerun. by case_match.
  - split; [by constructor|]. exact H.
Qed.

Lemma reachable_still viewer p c :
  viewer p -> reachable C (still viewer) p c -> reachable C any_props p c /\ viewer (props c).
Proof.
  intros Hp. induction 1 as [|c c' _ [IH Hv] Hs]; [split; [constructor|done]|].
  destruct (step_still _ _ _ Hs Hv) as [Hs' Hv']. split; [by eapply reach_step|done].
Qed.

(** A page that can be locked while open is safe when opened locked. *)
Lemma lock_safe_viewer_safe locked : LockSafe C locked -> ViewerSafe C (fun p => locked p = true).
Proof.
  intros K p c Hp Hc. induction Hc as [|c c' Hc IH Hs]; [constructor|].
  destruct (reachable_still _ _ _ Hp Hc) as [Hc' Hpc]. destruct (step_still _ _ _ Hs Hpc) as [Hs' _].
  destruct (K p c c' Hc') as (l & -> & Hl); [done|done|]. by apply Forall_app.
Qed.
End Moves.

(** Walk a program for [quiet] and [quiet_later]. *)
Ltac quiet_step :=
  match goal with
  | |- forall _, _ => intros ?
  | |- True => exact I
  | |- _ /\ _ => split
  | |- reads_only _ => solve [eauto with velora]
  | |- quiet _ => first [ progress cbn [quiet] | prog_case ]
  | |- quiet_later _ => first [ progress cbn [quiet_later] | prog_case ]
  end.
Ltac quiet_walk := prog_cbv; repeat quiet_step.
