(* ===== verification/Rewrites.v ===== *)
(** * The DNS rewrites page: web/src/pages/Rewrites.tsx *)
From S2P Require Import Prelude JsString JsNumber Url Http Api Resources React Runtime Components.
Local Open Scope velora_scope.
Local Open Scope prog_scope.
Local Open Scope string_scope.

Module Rewrites.

Definition TYPES : list RewriteType := [rw_A; rw_AAAA; rw_CNAME].
Definition PLACEHOLDERS (ty : RewriteType) : string :=
  match ty with rw_A => "192.168.1.20" | rw_AAAA => "2001:db8::20" | rw_CNAME => "nas.home" end.

Record Editor : Set := mkEditor {
  ed_id : option Z; ed_name : string; ed_type : RewriteType; ed_value : string;
  ed_enabled : bool; ed_description : string }.
#[export] Instance eta_Editor : Eta Editor := fun s =>
  mkEditor (ed_id s) (ed_name s) (ed_type s) (ed_value s) (ed_enabled s) (ed_description s).

Record Props : Set := mkProps { readOnly : bool; q_param : option string }.

Record State : Set := mkState {
  rules : option (list RewriteStatus);
  error : string;
  notice : string;
  busy : bool;
  editor : option Editor;
  filter : string }.
#[export] Instance eta_State : Eta State := fun s =>
  mkState (rules s) (error s) (notice s) (busy s) (editor s) (filter s).

Definition init (p : Props) : State := mkState None "" "" false None (q_param p ?? "").

Inductive Event : Set :=
| ClickReload
| ClickAdd
| SetEditor (e : option Editor)
| Submit
| SetFilter (v : string)
| ClickToggle (rule : RewriteStatus)
| ClickEdit (rule : RewriteStatus)
| ClickDelete (rule : RewriteStatus).

Section Page.
Context (t : string -> string).

(** [load]: a page that was left in the meantime ([signal.aborted]) is not
    updated. *)
Definition load (signal : bool) : M State unit :=
  try_catch
    (next <- await (loadRewrites signal) ;;
     e <- ask ;;
     when_do (negb (signal && aborted e))
       (update (fun s => s <| rules := Some next |>) ;;
        update (fun s => s <| error := "" |>)))
    (fun x => e <- ask ;;
       when_do (negb (signal && aborted e))
         (update (fun s => s <| error := error_message x (t "rewrites.load_failed") |>))).

(** [visible]: the rules whose name or value contains the trimmed filter. *)
Definition visible (s : State) : option (list RewriteStatus) :=
  let needle := toLowerCase (trim (filter s)) in
  match rules s with
  | None => None
  | Some l =>
      if negb (truthy needle) then Some l
      else Some (filterb (fun r => includes needle (rw_name (rws_rewrite r))
                                || includes needle (toLowerCase (rw_value (rws_rewrite r)))) l)
  end.

Definition run {T : Set} (action : api T) (ok_notice : string) : M State bool :=
  update (fun s => s <| busy := true |>) ;;
  update (fun s => s <| error := "" |>) ;;
  update (fun s => s <| notice := "" |>) ;;
  try_finally
    (try_catch
       (_ <- await action ;;
        update (fun s => s <| notice := ok_notice |>) ;;
        load false ;;
        ret true)
       (fun x =>
          update (fun s => s <| error := error_message x (t "rewrites.save_failed") |>) ;;
          ret false))
    (update (fun s => s <| busy := false |>)).

(** The request body of the editor: its text fields trimmed. *)
Definition body (ed : Editor) : RewriteInput :=
  mkRewriteInput (trim (ed_name ed)) (ed_type ed) (trim (ed_value ed)) (ed_enabled ed)
    (trim (ed_description ed)).

Definition save (c : State) : M State unit :=
  match editor c with
  | None => ret tt
  | Some ed =>
      ok <- (match ed_id ed with
             | None => run (createRewrite (body ed)) (t "rewrites.saved")
             | Some id => run (updateRewrite id (body ed)) (t "rewrites.saved")
             end) ;;
      when_do ok (update (fun s => s <| editor := None |>))
  end.

Definition fromRule (r : RewriteStatus) : RewriteInput :=
  let w := rws_rewrite r in
  mkRewriteInput (rw_name w) (rw_type w) (rw_value w) (rw_enabled w) (rw_description w).

Definition editor_of (r : RewriteStatus) : Editor :=
  let i := fromRule r in
  mkEditor (Some (rw_id (rws_rewrite r))) (rwi_name i) (rwi_type i) (rwi_value i) (rwi_enabled i)
    (rwi_description i).

Definition toggled (i : RewriteInput) : RewriteInput :=
  mkRewriteInput (rwi_name i) (rwi_type i) (rwi_value i) (negb (rwi_enabled i)) (rwi_description i).

Definition drop {A} (m : M State A) : M State unit := _ <- m ;; ret tt.

Definition handle (p : Props) (c : State) (ev : Event) : prog State :=
  run_top
    match ev with
    | ClickReload => load false
    | ClickAdd =>
        update (fun s => s <| editor := Some (mkEditor None "" rw_A "" true "") |>) ;;
        update (fun s => s <| notice := "" |>)
    | SetEditor e => update (fun s => s <| editor := e |>)
    | Submit => save c
    | SetFilter v => update (fun s => s <| filter := v |>)
    | ClickToggle r => drop (run (updateRewrite (rw_id (rws_rewrite r)) (toggled (fromRule r))) "")
    | ClickEdit r =>
        update (fun s => s <| editor := Some (editor_of r) |>) ;;
        update (fun s => s <| notice := "" |>)
    | ClickDelete r =>
        let w := rws_rewrite r in
        e <- ask ;;
        when_do (confirm e (t "rewrites.delete_confirm" +:+ String "010" (rw_name w +:+ " "
                   +:+ rewrite_type_str (rw_type w) +:+ " " +:+ rw_value w)))
          (drop (run (deleteRewrite (rw_id w)) ""))
    end.

(** ** The view *)

Definition toolbar (p : Props) (s : State) : node Event :=
  El div ["className" =: "zones-toolbar"]
    [El span ["className" =: "zone-count"]
       (when_some (rules s) (fun l => [Txt (StringZ (Z.of_nat (length l)) +:+ " " +:+ t "rewrites.count")]));
     El div []
       [El button ["className" =: "button"; Disabled (busy s); OnClick ClickReload]
          [Icon "RefreshCw" 15; Txt (t "blocklists.reload")];
        El button ["className" =: "button primary";
                   Disabled (busy s || readOnly p || opt_is_some (editor s)); OnClick ClickAdd]
          [Icon "Plus" 15; Txt (t "rewrites.add")]]].

Definition editor_title (ed : Editor) : string :=
  if opt_is_some (ed_id ed) then t "rewrites.edit_title" else t "rewrites.add_title".

Definition editor_fields (ed : Editor) : list (node Event) :=
  [El div ["className" =: "form-grid rewrite-grid"]
     [El label []
        [Txt (t "rewrites.name");
         El input ["value" =: ed_name ed; OnChange (fun v => SetEditor (Some (ed <| ed_name := v |>)));
                   "placeholder" =: "nas.home"; "maxLength" =: "255"; "autoComplete" =: "off";
                   flag "required"; flag "autoFocus"] []];
      El label []
        [Txt (t "rewrites.type");
         El select ["value" =: rewrite_type_str (ed_type ed);
                    OnSelect (map (fun ty => SetEditor (Some (ed <| ed_type := ty |>))) TYPES)]
           (each TYPES (fun ty => [El option_ [] [Txt (rewrite_type_str ty)]]))];
      El label []
        [Txt (t "rewrites.value");
         El input ["value" =: ed_value ed; OnChange (fun v => SetEditor (Some (ed <| ed_value := v |>)));
                   "placeholder" =: PLACEHOLDERS (ed_type ed); "maxLength" =: "253";
                   "autoComplete" =: "off"; "spellCheck" =: "false"; flag "required"] [];
         El small [] [Txt (t ("rewrites.value_hint_" +:+ rewrite_type_str (ed_type ed)))]];
      El label []
        [Txt (t "rewrites.description");
         El input ["value" =: ed_description ed;
                   OnChange (fun v => SetEditor (Some (ed <| ed_description := v |>)));
                   "maxLength" =: "200"] []]];
   El label ["className" =: "check-field"]
     [El input ["type" =: "checkbox"; "checked" =: bool_str (ed_enabled ed);
                OnCheck (fun b => SetEditor (Some (ed <| ed_enabled := b |>)))] [];
      Txt (t "rewrites.enabled")];
   El div ["className" =: "form-actions"]
     [El button ["className" =: "button primary"; "type" =: "submit"] [Txt (t "rewrites.save")];
      El button ["className" =: "button"; "type" =: "button"; OnClick (SetEditor None)]
        [Txt (t "forwarding.cancel")]]].

Definition editor_panel (s : State) (ed : Editor) : node Event :=
  El section ["className" =: "panel form-panel"]
    [El form ["className" =: "zone-form"; "aria-label" =: editor_title ed; OnSubmit Submit]
       [El div [] [El h3 [] [Txt (editor_title ed)]; El p_ [] [Txt (t "rewrites.form_hint")]];
        El fieldset [Disabled (busy s)] (editor_fields ed)]].

Definition rule_row (p : Props) (s : State) (rule : RewriteStatus) : node Event :=
  let w := rws_rewrite rule in
  let ty := rewrite_type_str (rw_type w) in
  El tr []
    [El td []
       [El span ["className" =: "endpoint"]
          [El button ["className" =: "switch"; "role" =: "switch"; "aria-checked" =: bool_str (rw_enabled w);
                      "aria-label" =: (t "rewrites.toggle" +:+ " " +:+ rw_name w +:+ " " +:+ ty);
                      Disabled (busy s || readOnly p); OnClick (ClickToggle rule)] [];
           El code_ [] [Txt (rw_name w)]]];
     El td [] [El span ["className" =: "record-type"] [Txt ty]];
     El td ["className" =: "record-value"] [El code_ [] [Txt (rw_value w)]];
     El td ["className" =: "wrap"]
       (when (truthy (rws_blocked_by rule ?? ""))
          [Badge danger false [Txt (t "rewrites.blocked_hint")]]
        ++ when (truthy (rws_overrides_zone rule ?? ""))
             [Badge info false [Txt (t "rewrites.overrides_hint" +:+ ": " +:+ (rws_overrides_zone rule ?? ""))]]
        ++ when (truthy (rw_description w)) [El small ["className" =: "cell-muted"] [Txt (rw_description w)]]);
     El td []
       [El div ["className" =: "table-actions"]
          [El button ["className" =: "icon-button";
                      Disabled (busy s || readOnly p || opt_is_some (editor s));
                      "title" =: t "rewrites.edit";
                      "aria-label" =: (t "rewrites.edit" +:+ " " +:+ rw_name w +:+ " " +:+ ty);
                      OnClick (ClickEdit rule)] [Icon "Pencil" 15];
           El button ["className" =: "icon-button danger-icon"; Disabled (busy s || readOnly p);
                      "title" =: t "rewrites.delete";
                      "aria-label" =: (t "rewrites.delete" +:+ " " +:+ rw_name w +:+ " " +:+ ty);
                      OnClick (ClickDelete rule)] [Icon "Trash2" 15]]]].

Definition rules_panel (p : Props) (s : State) : node Event :=
  El section ["className" =: "panel"]
    [El div ["className" =: "zone-form"; "role" =: "search"]
       [El label ["className" =: "zone-search rewrite-search"]
          [Icon "Search" 15; El span ["className" =: "sr-only"] [Txt (t "rewrites.search")];
           El input ["type" =: "search"; "value" =: filter s; OnChange SetFilter;
                     "placeholder" =: t "rewrites.search"; "autoComplete" =: "off"] []]];
     El div ["className" =: "table-wrap"]
       [El table ["className" =: "records-table"]
          [El caption ["className" =: "sr-only"] [Txt (t "app.title.rewrites")];
           El thead []
             [El tr [] [El th [] [Txt (t "rewrites.name")]; El th [] [Txt (t "rewrites.type")];
                        El th [] [Txt (t "rewrites.value")]; El th [] [Txt (t "rewrites.col_notes")];
                        El th [] [El span ["className" =: "sr-only"] [Txt (t "zones.col_actions")]]]];
           El tbody [] (each (visible s ?? []) (fun rule => [rule_row p s rule]))]]].

Definition view (p : Props) (s : State) : list (node Event) :=
  [toolbar p s]
  ++ error_notice (error s)
  ++ success_notice (notice s)
  ++ when_some (editor s) (fun ed => [editor_panel s ed])
  ++ when (negb (opt_is_some (rules s)) && negb (truthy (error s)))
       [El section ["className" =: "panel"] [Loading [Txt (t "app.connecting_panel")]]]
  ++ match rules s with
     | Some [] => [El section ["className" =: "panel"]
                     [EmptyState (Some (Icon "Replace" 22)) (t "rewrites.empty_title")
                        [Txt (t "rewrites.empty_text")] [] false]]
     | Some (_ :: _) => [rules_panel p s]
     | None => []
     end.

Definition page : component Props State Event :=
  mkComponent init view handle
    [effect_once (fun _ _ => false) (fun _ _ => Some (run_top (sleep 0 ;; load true)))]
    (fun s => s).
End Page.
End Rewrites.

(** * Theorems *)

Module RewritesFacts.
Import Rewrites.
Section Facts.
Context (t : string -> string).

(** What a viewer can do on this page: reload and filter. *)
Definition viewer_event (ev : Event) : Prop :=
  match ev with ClickReload | SetFilter _ => True | _ => False end.

Lemma rewrites_view_viewer p s :
  readOnly p = true -> editor s = None -> nodes_all viewer_event false (view t p s).
Proof.
  intros Hr He. unfold view. rewrite He. view_split; rewrite ?Hr; first [view_close | done].
Qed.

(** What the page offers while a mutation is running. *)
Definition busy_event (ev : Event) : Prop := match ev with SetFilter _ => True | _ => False end.

Lemma rewrites_view_busy p s : busy s = true -> nodes_all busy_event false (view t p s).
Proof. intros Hb. unfold view. view_split; rewrite ?Hb; first [view_close | done]. Qed.

Definition viewer_inv (p : Props) (s : State) : Prop := readOnly p = true /\ editor s = None.

Lemma rewrites_verified_viewer p :
  readOnly p = true -> verified (page t) (still (fun p => readOnly p = true)) viewer_inv read_only_output p.
Proof.
  intros Hp. constructor; cbn [c_init c_view c_handle c_effects c_unmount page].
  - done.
  - intros p' s ev [Hr He] Hev.
    pose proof (nodes_all_offered _ _ _ (rewrites_view_viewer p' s Hr He) Hev) as H.
    destruct ev; try done; unfold handle, load; wp_split; wp_close.
  - intros ef p' s q [<-|[]] [Hr He] [= <-]. unfold load. wp_split; wp_close.
  - intros ef p' s [<-|[]] _ p'' s' H. exact H.
  - intros p1 p2 s [_ He] Hp2. by split.
  - done.
Qed.

#[export] Instance rewrites_viewer_safe : ViewerSafe (page t) (fun p => readOnly p = true).
Proof. apply (verified_viewer_safe _ viewer_inv). apply rewrites_verified_viewer. Qed.

Lemma rewrites_exclusive_page : exclusive (page t) busy true (fun _ _ => True).
Proof.
  constructor; cbn [c_init c_view c_handle c_effects c_unmount page].
  - done.
  - intros p s ev _ Hev. destruct (busy s) eqn:Hb.
    + pose proof (nodes_all_offered _ _ _ (rewrites_view_busy p s Hb) Hev) as H. by destruct ev.
    + destruct ev; unfold handle, save, drop, run, load; excl_walk.
  - intros ef p s q [<-|[]] [= <-]. unfold load. excl_walk.
  - by intros ef p s [<-|[]].
  - done.
Qed.

#[export] Instance rewrites_one_at_a_time : OneAtATime (page t).
Proof. apply (exclusive_one_at_a_time _ busy true), rewrites_exclusive_page. Qed.

#[export] Instance rewrites_unblocks : Unblocks (page t) busy.
Proof. apply exclusive_unblocks, rewrites_exclusive_page. Qed.

(** Saving a rewrite rule: the form sends one create or update with trimmed
    texts and marks the page busy. A refusal shows its message, keeps the form
    and ends the busy state. On success the list is read again, and only after
    that answer, good or bad, the form closes and the page is free; a failed
    reload shows its error and keeps the old list. *)
Theorem rewrites_save e p s ed :
  editor s = Some ed ->
  let call := match ed_id ed with
              | None => createRewrite (body ed)
              | Some id => updateRewrite id (body ed)
              end in
  exists k s1,
    advance e (handle t p s Submit) s = Seg (Wait (call e) k) s1 (map Sent (sent (call e))) [] /\
    busy s1 = true /\ error s1 = "" /\ editor s1 = Some ed /\
    (forall e1 s' x, advance e1 (k (inr x)) s'
       = Seg Done (s' <| error := error_message x (t "rewrites.save_failed") |> <| busy := false |>) [] []) /\
    forall e1 s' v, exists k2,
      advance e1 (k (inl v)) s' = Seg (Wait (loadRewrites false e1) k2) (s' <| notice := t "rewrites.saved" |>)
                                    (map Sent (sent (loadRewrites false e1))) [] /\
      forall e2 s2 reply, advance e2 (k2 reply) s2
        = Seg Done (match reply with
                    | inl l => s2 <| rules := Some l |> <| error := "" |>
                    | inr x => s2 <| error := error_message x (t "rewrites.load_failed") |>
                    end <| busy := false |> <| editor := None |>) [] [].
Proof.
  intros He call. subst call. unfold handle, save. rewrite He.
  destruct (ed_id ed); unfold run, load; prog_cbv; eexists _, _; (split; [reflexivity|]);
    (do 3 (split; [first [reflexivity | exact He]|])); (split; [reflexivity|]);
    intros e1 s' v; eexists; (split; [reflexivity|]); by intros e2 s2 [l|x].
Qed.
End Facts.

(** ** Concrete instances *)

Definition editing : State :=
  (init (mkProps false None)) <| editor := Some (mkEditor None " nas.home " rw_A "192.168.1.20" true "") |>.

Lemma rewrites_save_witness :
  exists k s1, advance (calm_env false) (handle plain_text (mkProps false None) editing Submit) editing
    = Seg (Wait (createRewrite (mkRewriteInput "nas.home" rw_A "192.168.1.20" true "") (calm_env false)) k) s1
        (map Sent (sent (createRewrite (mkRewriteInput "nas.home" rw_A "192.168.1.20" true "") (calm_env false)))) [] /\
    busy s1 = true.
Proof.
  destruct (rewrites_save plain_text (calm_env false) (mkProps false None) editing
    (mkEditor None " nas.home " rw_A "192.168.1.20" true "") eq_refl) as (k & s1 & H & Hb & _).
  exists k, s1. split; [exact H|exact Hb].
Defined.
End RewritesFacts.
