(* ===== verification/Clients.v ===== *)
(** * The clients page: web/src/pages/Clients.tsx *)
From S2P Require Import Prelude JsString JsNumber Url Http Api Resources React Runtime Components.
Local Open Scope velora_scope.
Local Open Scope prog_scope.
Local Open Scope string_scope.

Module Clients.

Record Editor : Set := mkEditor {
  ed_id : option Z; ed_name : string; ed_addresses : string; ed_group : string;
  ed_description : string; ed_enabled : bool }.
#[export] Instance eta_Editor : Eta Editor := fun s =>
  mkEditor (ed_id s) (ed_name s) (ed_addresses s) (ed_group s) (ed_description s) (ed_enabled s).

Definition blank : Editor := mkEditor None "" "" "" "" true.

Record Props : Set := mkProps {
  readOnly : bool; queryLogging : bool; name_param : option string; new_param : option string }.

Record State : Set := mkState {
  data : option ClientList; error : string; notice : string; busy : bool; editor : option Editor }.
#[export] Instance eta_State : Eta State := fun s =>
  mkState (data s) (error s) (notice s) (busy s) (editor s).

(** [?new=1] opens the add form, except for viewers. *)
Definition init (p : Props) : State :=
  mkState None "" "" false
    (if String.eqb (new_param p ?? "") "1" && negb (readOnly p) then Some blank else None).

Inductive Event : Set :=
| ClickReload
| ClickAdd
| SetEditor (e : option Editor)
| Submit
| ClickToggle (client : ClientView)
| ClickEdit (client : ClientView)
| ClickDelete (client : ClientView)
| ClickName (item : ClientActivity).

Section Page.
Context {L : Locale} (t : string -> string) (language : string).

Definition highlight (p : Props) : string := name_param p ?? "".

Definition load (signal : bool) : M State unit :=
  try_catch
    (next <- await (loadClients signal) ;;
     e <- ask ;;
     when_do (negb (signal && aborted e))
       (update (fun s => s <| data := Some next |>) ;;
        update (fun s => s <| error := "" |>)))
    (fun x => e <- ask ;;
       when_do (negb (signal && aborted e))
         (update (fun s => s <| error := error_message x (t "clients.load_failed") |>))).

Definition toInput (form : Editor) : ClientInput :=
  mkClientInput (trim (ed_name form)) (split_list (ed_addresses form)) (trim (ed_group form))
    (trim (ed_description form)) (ed_enabled form).

Definition run {T : Set} (action : api T) (ok_notice : string) : M State bool :=
  update (fun s => s <| busy := true |>) ;;
  update (fun s => s <| error := "" |>) ;;
  update (fun s => s <| notice := "" |>) ;;
  try_finally
    (try_catch
       (_ <- await action ;;
        update (fun s => s <| notice := ok_notice |>) ;;
        load false ;;
        ret true)
       (fun x =>
          update (fun s => s <| error := error_message x (t "clients.save_failed") |>) ;;
          ret false))
    (update (fun s => s <| busy := false |>)).

Definition save (c : State) : M State unit :=
  match editor c with
  | None => ret tt
  | Some ed =>
      ok <- (match ed_id ed with
             | None => run (createClient (toInput ed)) (t "clients.saved")
             | Some id => run (updateClient id (toInput ed)) (t "clients.saved")
             end) ;;
      when_do ok (update (fun s => s <| editor := None |>))
  end.

Definition editor_of (v : ClientView) : Editor :=
  let c := cv_client v in
  mkEditor (Some (cl_id c)) (cl_name c) (joinStrings ", " (cl_addresses c)) (cl_group c)
    (cl_description c) (cl_enabled c).

Definition edit (v : ClientView) : M State unit :=
  update (fun s => s <| editor := Some (editor_of v) |>) ;;
  update (fun s => s <| notice := "" |>) ;;
  emit ScrollTop.

Definition inputOf (v : ClientView) : ClientInput :=
  let c := cv_client v in
  mkClientInput (cl_name c) (cl_addresses c) (cl_group c) (cl_description c) (cl_enabled c).

Definition toggled (i : ClientInput) : ClientInput :=
  mkClientInput (ci_name i) (ci_addresses i) (ci_group i) (ci_description i) (negb (ci_enabled i)).

Definition drop {A} (m : M State A) : M State unit := _ <- m ;; ret tt.

Definition handle (p : Props) (c : State) (ev : Event) : prog State :=
  run_top
    match ev with
    | ClickReload => load false
    | ClickAdd =>
        update (fun s => s <| editor := Some blank |>) ;; update (fun s => s <| notice := "" |>)
    | SetEditor e => update (fun s => s <| editor := e |>)
    | Submit => save c
    | ClickToggle v => drop (run (updateClient (cl_id (cv_client v)) (toggled (inputOf v))) "")
    | ClickEdit v => edit v
    | ClickDelete v =>
        e <- ask ;;
        when_do (confirm e (t "clients.delete_confirm" +:+ " " +:+ cl_name (cv_client v) +:+ "?"))
          (drop (run (deleteClient (cl_id (cv_client v))) ""))
    | ClickName item =>
        update (fun s => s <| editor := Some (blank <| ed_addresses := ca_client_ip item |>) |>) ;;
        emit ScrollTop
    end.

(** ** The view *)

Definition toolbar (p : Props) (s : State) : node Event :=
  El div ["className" =: "zones-toolbar"]
    [El span ["className" =: "zone-count"]
       (when_some (data s) (fun d =>
          [Txt (StringZ (Z.of_nat (length (clients d))) +:+ " " +:+ t "clients.count")]));
     El div []
       [El button ["className" =: "button"; Disabled (busy s); OnClick ClickReload]
          [Icon "RefreshCw" 15; Txt (t "blocklists.reload")];
        El button ["className" =: "button primary";
                   Disabled (busy s || readOnly p || opt_is_some (editor s)); OnClick ClickAdd]
          [Icon "Plus" 15; Txt (t "clients.add")]]].

Definition editor_title (ed : Editor) : string :=
  if opt_is_some (ed_id ed) then t "clients.edit_title" else t "clients.add_title".

Definition editor_fields (ed : Editor) : list (node Event) :=
  [El div ["className" =: "form-grid client-grid"]
     [El label []
        [Txt (t "clients.name");
         El input ["value" =: ed_name ed; OnChange (fun v => SetEditor (Some (ed <| ed_name := v |>)));
                   "placeholder" =: "Living Room TV"; "maxLength" =: "80"; flag "required"; flag "autoFocus"] []];
      El label []
        [Txt (t "clients.addresses");
         El input ["value" =: ed_addresses ed; OnChange (fun v => SetEditor (Some (ed <| ed_addresses := v |>)));
                   "placeholder" =: "192.168.1.20, 2001:db8::20"; "spellCheck" =: "false";
                   "autoComplete" =: "off"; flag "required"] [];
         El small [] [Txt (t "clients.addresses_hint")]];
      El label []
        [Txt (t "clients.group");
         El input ["value" =: ed_group ed; OnChange (fun v => SetEditor (Some (ed <| ed_group := v |>)));
                   "placeholder" =: "Media"; "maxLength" =: "60"] []];
      El label []
        [Txt (t "clients.description");
         El input ["value" =: ed_description ed;
                   OnChange (fun v => SetEditor (Some (ed <| ed_description := v |>)));
                   "maxLength" =: "200"] []]];
   El label ["className" =: "check-field"]
     [El input ["type" =: "checkbox"; "checked" =: bool_str (ed_enabled ed);
                OnCheck (fun b => SetEditor (Some (ed <| ed_enabled := b |>)))] [];
      Txt (t "clients.enabled")];
   El div ["className" =: "form-actions"]
     [El button ["className" =: "button primary"; "type" =: "submit"] [Txt (t "clients.save")];
      El button ["className" =: "button"; "type" =: "button"; OnClick (SetEditor None)]
        [Txt (t "forwarding.cancel")]]].

Definition editor_panel (s : State) (ed : Editor) : node Event :=
  El section ["className" =: "panel form-panel"]
    [El form ["className" =: "zone-form"; "aria-label" =: editor_title ed; OnSubmit Submit]
       [El div [] [El h3 [] [Txt (editor_title ed)]; El p_ [] [Txt (t "clients.form_hint")]];
        El fieldset [Disabled (busy s)] (editor_fields ed)]].

(** The one address of a client, when it has one and it is no network. *)
Definition single (c : Client) : string :=
  match cl_addresses c with
  | [a] => if includes "/" a then "" else a
  | _ => ""
  end.

Definition activity_cell (v : ClientView) : list (node Event) :=
  match cv_activity v with
  | None => [Txt "—"]
  | Some a =>
      if Z.eqb (act_queries a) 0 then [Txt (t "clients.no_activity")]
      else
        [El span ["className" =: "num"] [Txt (num_locale language (act_queries a))];
         Txt (" " +:+ t "clients.queries")]
        ++ when (truthy (act_last_seen a ?? ""))
             [El small [] [Txt (t "clients.last_seen" +:+ ": " +:+ date_locale language (act_last_seen a ?? ""))]]
        ++ when (truthy (single (cv_client v)))
             [El small [] [El a_ ["to" =: ("/queries?client=" +:+ encodeURIComponent (single (cv_client v)))]
                             [Txt (t "clients.view_queries")]]]
  end.

Definition client_row (p : Props) (s : State) (v : ClientView) : node Event :=
  let c := cv_client v in
  El tr (["id" =: ("client-" +:+ encodeURIComponent (cl_name c))]
         ++ (if String.eqb (cl_name c) (highlight p) then ["className" =: "selected"] else []))
    [El td []
       [El span ["className" =: "endpoint"]
          [El button ["className" =: "switch"; "role" =: "switch"; "aria-checked" =: bool_str (cl_enabled c);
                      "aria-label" =: (t "clients.toggle" +:+ ": " +:+ cl_name c);
                      Disabled (busy s || readOnly p); OnClick (ClickToggle v)] [];
           El span []
             (El strong [] [Txt (cl_name c)]
              :: when (truthy (cl_group c)) [El small [] [Icon "Tag" 11; Txt (" " +:+ cl_group c)]])]];
     El td ["className" =: "wrap"] (each (cl_addresses c) (fun a => [El div [] [El code_ [] [Txt a]]]));
     El td ["className" =: "cell-muted"] (activity_cell v);
     El td ["className" =: "wrap cell-muted"] [Txt (str_or (cl_description c) "—")];
     El td []
       [El div ["className" =: "table-actions"]
          [El button ["className" =: "icon-button";
                      Disabled (busy s || readOnly p || opt_is_some (editor s));
                      "title" =: t "clients.edit"; "aria-label" =: (t "clients.edit" +:+ " " +:+ cl_name c);
                      OnClick (ClickEdit v)] [Icon "Pencil" 15];
           El button ["className" =: "icon-button danger-icon"; Disabled (busy s || readOnly p);
                      "title" =: t "clients.delete"; "aria-label" =: (t "clients.delete" +:+ " " +:+ cl_name c);
                      OnClick (ClickDelete v)] [Icon "Trash2" 15]]]].

Definition clients_panel (p : Props) (s : State) (l : list ClientView) : node Event :=
  El section ["className" =: "panel"]
    [El div ["className" =: "table-wrap"]
       [El table []
          [El caption ["className" =: "sr-only"] [Txt (t "app.title.clients")];
           El thead []
             [El tr [] [El th [] [Txt (t "clients.name")]; El th [] [Txt (t "clients.addresses")];
                        El th [] [Txt (t "clients.activity")]; El th [] [Txt (t "clients.description")];
                        El th [] [El span ["className" =: "sr-only"] [Txt (t "zones.col_actions")]]]];
           El tbody [] (each l (fun v => [client_row p s v]))]]].

Definition unnamed_panel (p : Props) (s : State) (l : list ClientActivity) : node Event :=
  El section ["className" =: "panel"]
    [El div ["className" =: "panel-heading"]
       [El div [] [El h2 [] [Txt (t "clients.unnamed_title")]; El p_ [] [Txt (t "clients.unnamed_text")]]];
     El div ["className" =: "table-wrap"]
       [El table []
          [El thead []
             [El tr [] [El th [] [Txt (t "querylog.col_client")];
                        El th ["className" =: "num"] [Txt (t "clients.queries")];
                        El th [] [Txt (t "clients.last_seen")];
                        El th [] [El span ["className" =: "sr-only"] [Txt (t "zones.col_actions")]]]];
           El tbody []
             (each l (fun item =>
                [El tr []
                   [El td [] [El code_ [] [Txt (ca_client_ip item)]];
                    El td ["className" =: "num mono"] [Txt (num_locale language (ca_queries item))];
                    El td ["className" =: "cell-muted"] [Txt (date_locale language (ca_last_seen item))];
                    El td []
                      [El div ["className" =: "table-actions"]
                         [El button ["className" =: "button small";
                                     Disabled (busy s || readOnly p || opt_is_some (editor s));
                                     OnClick (ClickName item)]
                            [Icon "Plus" 14; Txt (t "clients.name_it")]]]]]))]]].

Definition view (p : Props) (s : State) : list (node Event) :=
  [toolbar p s]
  ++ error_notice (error s)
  ++ success_notice (notice s)
  ++ when_some (editor s) (fun ed => [editor_panel s ed])
  ++ when (negb (queryLogging p))
       [El div ["className" =: "notice info"; "role" =: "status"] [Txt (t "clients.logging_off")]]
  ++ [El div ["className" =: "stack"]
        (when (negb (opt_is_some (data s)) && negb (truthy (error s)))
           [El section ["className" =: "panel"] [Loading [Txt (t "app.connecting_panel")]]]
         ++ when_some (data s) (fun d =>
              match clients d with
              | [] => [El section ["className" =: "panel"]
                         [EmptyState (Some (Icon "MonitorSmartphone" 22)) (t "clients.empty_title")
                            [Txt (t "clients.empty_text")] [] false]]
              | l => [clients_panel p s l]
              end)
         ++ when_some (data s) (fun d =>
              match unnamed d with [] => [] | l => [unnamed_panel p s l] end))].

(** The second effect scrolls to the highlighted client; it may run again
    whenever the list was replaced. *)
Definition page : component Props State Event :=
  mkComponent init view handle
    [effect_once (fun _ _ => false) (fun _ _ => Some (run_top (sleep 0 ;; load true)));
     effect_once (fun _ _ => true)
       (fun p s => if truthy (highlight p) && opt_is_some (data s)
                   then Some (run_top (emit (ScrollIntoView ("client-" +:+ encodeURIComponent (highlight p)))))
                   else None)]
    (fun s => s).
End Page.
End Clients.

(** * Theorems *)

Module ClientsFacts.
Import Clients.
Section Facts.
Context {L : Locale} (t : string -> string) (language : string).

Definition viewer_event (ev : Event) : Prop := match ev with ClickReload => True | _ => False end.

Lemma clients_view_viewer p s :
  readOnly p = true -> editor s = None -> nodes_all viewer_event false (view t language p s).
Proof.
  intros Hr He. unfold view. rewrite He. view_split; rewrite ?Hr; first [view_close | done].
Qed.

Lemma clients_view_busy p s : busy s = true -> nodes_all (fun _ => False) false (view t language p s).
Proof. intros Hb. unfold view. view_split; rewrite ?Hb; first [view_close | done]. Qed.

Definition viewer_inv (p : Props) (s : State) : Prop := readOnly p = true /\ editor s = None.

Lemma clients_verified_viewer p :
  readOnly p = true -> verified (page t language) (still (fun p => readOnly p = true)) viewer_inv read_only_output p.
Proof.
  intros Hp. constructor; cbn [c_init c_view c_handle c_effects c_unmount page].
  - split; [done|]. cbn. by rewrite Hp, andb_false_r.
  - intros p' s ev [Hr He] Hev.
    pose proof (nodes_all_offered _ _ _ (clients_view_viewer p' s Hr He) Hev) as H.
    destruct ev; try done; unfold handle, load; wp_split; wp_close.
  - intros ef p' s q [<-|[<-|[]]] [Hr He]; cbn.
    + intros [= <-]. unfold load. wp_split; wp_close.
    + destruct (truthy (highlight p') && opt_is_some (data s)); [|done].
      intros [= <-]. wp_split; wp_close.
  - intros ef p' s [<-|[<-|[]]] _ p'' s' H; exact H.
  - intros p1 p2 s [_ He] Hp2. by split.
  - done.
Qed.

#[export] Instance clients_viewer_safe : ViewerSafe (page t language) (fun p => readOnly p = true).
Proof. apply (verified_viewer_safe _ viewer_inv). apply clients_verified_viewer. Qed.

Lemma clients_exclusive_page : exclusive (page t language) busy true (fun _ _ => True).
Proof.
  constructor; cbn [c_init c_view c_handle c_effects c_unmount page].
  - done.
  - intros p s ev _ Hev. destruct (busy s) eqn:Hb.
    + by pose proof (nodes_all_offered _ _ _ (clients_view_busy p s Hb) Hev).
    + destruct ev; unfold handle, save, edit, drop, run, load; excl_walk.
  - intros ef p s q [<-|[<-|[]]]; cbn.
    + intros [= <-]. unfold load. excl_walk.
    + destruct (truthy (highlight p) && opt_is_some (data s)); [|done]. intros [= <-]. done.
  - by intros ef p s [<-|[<-|[]]].
  - done.
Qed.

#[export] Instance clients_one_at_a_time : OneAtATime (page t language).
Proof. apply (exclusive_one_at_a_time _ busy true), clients_exclusive_page. Qed.

#[export] Instance clients_unblocks : Unblocks (page t language) busy.
Proof. apply exclusive_unblocks, clients_exclusive_page. Qed.

(** Opening a client and saving it unchanged sends it back. *)
Lemma clients_unchanged v :
  let c := cv_client v in
  trim (cl_name c) = cl_name c -> trim (cl_group c) = cl_group c ->
  trim (cl_description c) = cl_description c ->
  Forall (fun a => is_word is_list_sep a = true) (cl_addresses c) ->
  toInput (editor_of v) = inputOf v.
Proof.
  cbv zeta. intros Hn Hg Hd Ha. unfold toInput, editor_of, inputOf.
  cbn [ed_name ed_addresses ed_group ed_description ed_enabled].
  by rewrite Hn, Hg, Hd, split_list_join.
Qed.
End Facts.
End ClientsFacts.
