(* ===== verification/Forwarding.v ===== *)
(** * The conditional forwarding page: web/src/pages/Forwarding.tsx *)
From S2P Require Import Prelude JsString JsNumber Url Http Api Resources React Runtime Components.
Local Open Scope velora_scope.
Local Open Scope prog_scope.
Local Open Scope string_scope.

Module Forwarding.

Definition TEST_TYPES : list string := ["A"; "AAAA"; "CNAME"; "MX"; "NS"; "PTR"; "SOA"; "TXT"].

Record Editor : Set := mkEditor {
  ed_id : option Z; ed_domain : string; ed_upstreams : string; ed_description : string;
  ed_enabled : bool }.
#[export] Instance eta_Editor : Eta Editor := fun s =>
  mkEditor (ed_id s) (ed_domain s) (ed_upstreams s) (ed_description s) (ed_enabled s).

Definition emptyForm : Editor := mkEditor None "" "" "" true.

Record Testing : Set := mkTesting { te_rule : ForwardRuleStatus; te_name : string; te_type : string }.
#[export] Instance eta_Testing : Eta Testing := fun s => mkTesting (te_rule s) (te_name s) (te_type s).

Record Props : Set := mkProps { readOnly : bool }.

Record State : Set := mkState {
  rules : option (list ForwardRuleStatus); error : string; notice : string; busy : bool;
  editor : option Editor; testing : option Testing; testResult : option ForwardTestResult }.
#[export] Instance eta_State : Eta State := fun s =>
  mkState (rules s) (error s) (notice s) (busy s) (editor s) (testing s) (testResult s).

Definition init (p : Props) : State := mkState None "" "" false None None None.

Inductive Event : Set :=
| ClickReload
| ClickAdd
| SetEditor (e : option Editor)
| Submit
| SetTesting (x : option Testing)
| SubmitTest
| ClickToggle (rule : ForwardRuleStatus)
| ClickTest (rule : ForwardRuleStatus)
| ClickEdit (rule : ForwardRuleStatus)
| ClickDelete (rule : ForwardRuleStatus).

Section Page.
Context (t : string -> string).

Definition load (signal : bool) : M State unit :=
  try_catch
    (next <- await (loadForwardRules signal) ;;
     e <- ask ;;
     when_do (negb (signal && aborted e))
       (update (fun s => s <| rules := Some next |>) ;;
        update (fun s => s <| error := "" |>)))
    (fun x => e <- ask ;;
       when_do (negb (signal && aborted e))
         (update (fun s => s <| error := error_message x (t "forwarding.load_failed") |>))).

Definition input_of_form (form : Editor) : ForwardRuleInput :=
  mkForwardRuleInput (trim (ed_domain form)) (split_list (ed_upstreams form)) (ed_enabled form)
    (trim (ed_description form)).

(** The [catch] and [finally] clauses that [save], [toggle], [remove] and
    [runTest] end with. *)
Definition guarded (m : M State unit) : M State unit :=
  try_finally
    (try_catch m (fun x => update (fun s => s <| error := error_message x (t "forwarding.save_failed") |>)))
    (update (fun s => s <| busy := false |>)).

Definition save (c : State) : M State unit :=
  match editor c with
  | None => ret tt
  | Some ed =>
      update (fun s => s <| busy := true |>) ;;
      update (fun s => s <| error := "" |>) ;;
      update (fun s => s <| notice := "" |>) ;;
      guarded
        (_ <- (match ed_id ed with
               | None => await (createForwardRule (input_of_form ed))
               | Some id => await (updateForwardRule id (input_of_form ed))
               end) ;;
         update (fun s => s <| editor := None |>) ;;
         update (fun s => s <| notice := t "forwarding.saved" |>) ;;
         load false)
  end.

Definition toggle (rule : ForwardRuleStatus) : M State unit :=
  let r := frs_rule rule in
  update (fun s => s <| busy := true |>) ;;
  update (fun s => s <| error := "" |>) ;;
  guarded
    (_ <- await (updateForwardRule (fr_id r)
            (mkForwardRuleInput (fr_domain r) (fr_upstreams r) (negb (fr_enabled r)) (fr_description r))) ;;
     load false).

Definition remove (c : State) (rule : ForwardRuleStatus) : M State unit :=
  let r := frs_rule rule in
  e <- ask ;;
  when_do (confirm e (t "forwarding.delete_confirm" +:+ " " +:+ fr_domain r +:+ "?"))
    (update (fun s => s <| busy := true |>) ;;
     update (fun s => s <| error := "" |>) ;;
     guarded
       (_ <- await (deleteForwardRule (fr_id r)) ;;
        when_do (match testing c with
                 | Some te => Z.eqb (fr_id (frs_rule (te_rule te))) (fr_id r)
                 | None => false
                 end)
          (update (fun s => s <| testing := None |>)) ;;
        load false)).

Definition runTest (c : State) : M State unit :=
  match testing c with
  | None => ret tt
  | Some te =>
      update (fun s => s <| busy := true |>) ;;
      update (fun s => s <| testResult := None |>) ;;
      update (fun s => s <| error := "" |>) ;;
      guarded
        (r <- await (testForwardRule (fr_id (frs_rule (te_rule te))) (trim (te_name te)) (te_type te)) ;;
         update (fun s => s <| testResult := Some r |>))
  end.

Definition editor_of (rule : ForwardRuleStatus) : Editor :=
  let r := frs_rule rule in
  mkEditor (Some (fr_id r)) (fr_domain r) (joinStrings ", " (fr_upstreams r)) (fr_description r)
    (fr_enabled r).

Definition handle (p : Props) (c : State) (ev : Event) : prog State :=
  run_top
    match ev with
    | ClickReload => load false
    | ClickAdd =>
        update (fun s => s <| editor := Some emptyForm |>) ;; update (fun s => s <| notice := "" |>)
    | SetEditor e => update (fun s => s <| editor := e |>)
    | Submit => save c
    | SetTesting x => update (fun s => s <| testing := x |>)
    | SubmitTest => runTest c
    | ClickToggle r => toggle r
    | ClickTest r =>
        update (fun s => s <| testing := Some (mkTesting r (fr_domain (frs_rule r)) "A") |>) ;;
        update (fun s => s <| testResult := None |>)
    | ClickEdit r =>
        update (fun s => s <| editor := Some (editor_of r) |>) ;; update (fun s => s <| notice := "" |>)
    | ClickDelete r => remove c r
    end.

(** ** The view *)

Definition toolbar (p : Props) (s : State) : node Event :=
  El div ["className" =: "zones-toolbar"]
    [El span ["className" =: "zone-count"]
       (when_some (rules s) (fun l => [Txt (StringZ (Z.of_nat (length l)) +:+ " " +:+ t "forwarding.count")]));
     El div []
       [El button ["className" =: "button"; Disabled (busy s); OnClick ClickReload]
          [Icon "RefreshCw" 15; Txt (t "blocklists.reload")];
        El button ["className" =: "button primary";
                   Disabled (busy s || readOnly p || opt_is_some (editor s)); OnClick ClickAdd]
          [Icon "Plus" 15; Txt (t "forwarding.add")]]].

Definition editor_title (ed : Editor) : string :=
  if opt_is_some (ed_id ed) then t "forwarding.edit_title" else t "forwarding.add_title".

Definition editor_fields (ed : Editor) : list (node Event) :=
  [El div ["className" =: "form-grid forward-grid"]
     [El label []
        [Txt (t "forwarding.domain");
         El input ["value" =: ed_domain ed; OnChange (fun v => SetEditor (Some (ed <| ed_domain := v |>)));
                   "placeholder" =: "corp.example"; "maxLength" =: "253"; "autoComplete" =: "off";
                   flag "required"; flag "autoFocus"] []];
      El label []
        [Txt (t "forwarding.upstreams");
         El input ["value" =: ed_upstreams ed; OnChange (fun v => SetEditor (Some (ed <| ed_upstreams := v |>)));
                   "placeholder" =: "10.0.0.10, 10.0.0.11:53"; "autoComplete" =: "off";
                   "spellCheck" =: "false"; flag "required"] [];
         El small [] [Txt (t "forwarding.upstreams_hint")]];
      El label []
        [Txt (t "forwarding.description");
         El input ["value" =: ed_description ed;
                   OnChange (fun v => SetEditor (Some (ed <| ed_description := v |>)));
                   "maxLength" =: "200"] []]];
   El label ["className" =: "check-field"]
     [El input ["type" =: "checkbox"; "checked" =: bool_str (ed_enabled ed);
                OnCheck (fun b => SetEditor (Some (ed <| ed_enabled := b |>)))] [];
      Txt (t "forwarding.enabled")];
   El div ["className" =: "form-actions"]
     [El button ["className" =: "button primary"; "type" =: "submit"] [Txt (t "forwarding.save")];
      El button ["className" =: "button"; "type" =: "button"; OnClick (SetEditor None)]
        [Txt (t "forwarding.cancel")]]].

Definition editor_panel (s : State) (ed : Editor) : node Event :=
  El section ["className" =: "panel form-panel"]
    [El form ["className" =: "zone-form"; "aria-label" =: editor_title ed; OnSubmit Submit]
       [El div [] [El h3 [] [Txt (editor_title ed)]; El p_ [] [Txt (t "forwarding.form_hint")]];
        El fieldset [Disabled (busy s)] (editor_fields ed)]].

Definition test_result (r : ForwardTestResult) : node Event :=
  let failed := truthy (ft_error r ?? "") in
  El div ["className" =: ("notice " +:+ if failed then "error" else "success"); "role" =: "status"]
    [El div []
       ([El strong []
           [Txt (ft_name r +:+ " " +:+ ft_type r); Txt " → ";
            Txt (if failed then ft_error r ?? "" else ft_rcode r ?? "")]]
        ++ when (negb failed)
             [El div [] [Txt (t "forwarding.test_via" +:+ " "); El code_ [] [Txt (ft_upstream r ?? "")];
                         Txt (" · " +:+ toFixed 1 (ft_duration_ms r) +:+ " ms")]]
        ++ when (negb failed)
             (match ft_answers r with
              | [] => [El div [] [Txt (t "forwarding.no_answers")]]
              | l => each l (fun answer => [El div [] [El code_ [] [Txt answer]]])
              end))].

Definition test_panel (s : State) (te : Testing) : node Event :=
  El section ["className" =: "panel form-panel"]
    [El form ["className" =: "zone-form"; "aria-label" =: t "forwarding.test_title"; OnSubmit SubmitTest]
       ([El div []
           [El h3 [] [Txt (t "forwarding.test_title" +:+ ": ");
                      El code_ [] [Txt (fr_domain (frs_rule (te_rule te)))]];
            El p_ [] [Txt (t "forwarding.test_hint")]];
         El fieldset [Disabled (busy s)]
           [El div ["className" =: "form-grid cache-filters"]
              [El label []
                 [Txt (t "forwarding.test_name");
                  El input ["value" =: te_name te;
                            OnChange (fun v => SetTesting (Some (te <| te_name := v |>)));
                            "maxLength" =: "253"; "autoComplete" =: "off"] []];
               El label []
                 [Txt (t "forwarding.test_type");
                  El select ["value" =: te_type te;
                             OnSelect (map (fun ty => SetTesting (Some (te <| te_type := ty |>))) TEST_TYPES)]
                    (each TEST_TYPES (fun ty => [El option_ [] [Txt ty]]))]];
            El div ["className" =: "form-actions"]
              [El button ["className" =: "button primary"; "type" =: "submit"]
                 [Icon "FlaskConical" 15; Txt (t "forwarding.run_test")];
               El button ["className" =: "button"; "type" =: "button"; OnClick (SetTesting None)]
                 [Txt (t "forwarding.cancel")]]]]
        ++ when_some (testResult s) (fun r => [test_result r]))].

Definition state_str (h : upstream_state) : string :=
  match h with
  | up_unknown => "unknown" | up_healthy => "healthy" | up_degraded => "degraded"
  | up_unavailable => "unavailable"
  end.

Definition health_line (h : UpstreamStatus) : node Event :=
  El div []
    (El span ["className" =: ("status-text " +:+ tone_str (toneFor (Some (state_str (up_state h)))))]
       [Txt (t ("dashboard.upstream_" +:+ state_str (up_state h)))]
     :: match up_state h with
        | up_healthy => [El span ["className" =: "latency"] [Txt (round_str (up_latency_milliseconds h) +:+ " ms")]]
        | _ => []
        end).

Definition rule_row (p : Props) (s : State) (rule : ForwardRuleStatus) : node Event :=
  let r := frs_rule rule in
  El tr []
    [El td []
       [El span ["className" =: "endpoint"]
          [El button ["className" =: "switch"; "role" =: "switch"; "aria-checked" =: bool_str (fr_enabled r);
                      "aria-label" =: (t "forwarding.toggle" +:+ " " +:+ fr_domain r);
                      Disabled (busy s || readOnly p); OnClick (ClickToggle rule)] [];
           El code_ [] [Txt (fr_domain r)]]];
     El td ["className" =: "wrap"] (each (fr_upstreams r) (fun u => [El div [] [El code_ [] [Txt u]]]));
     El td ["className" =: "wrap"]
       (cond (negb (fr_enabled r))
          [El span ["className" =: "status-text neutral"] [Txt (t "forwarding.disabled")]]
          (each (frs_health rule) (fun h => [health_line h])));
     El td ["className" =: "wrap cell-muted"] [Txt (str_or (fr_description r) "—")];
     El td []
       [El div ["className" =: "table-actions"]
          [El button ["className" =: "icon-button"; Disabled (busy s || readOnly p);
                      "title" =: t "forwarding.test"; "aria-label" =: (t "forwarding.test" +:+ " " +:+ fr_domain r);
                      OnClick (ClickTest rule)] [Icon "FlaskConical" 15];
           El button ["className" =: "icon-button";
                      Disabled (busy s || readOnly p || opt_is_some (editor s));
                      "title" =: t "forwarding.edit"; "aria-label" =: (t "forwarding.edit" +:+ " " +:+ fr_domain r);
                      OnClick (ClickEdit rule)] [Icon "Pencil" 15];
           El button ["className" =: "icon-button danger-icon"; Disabled (busy s || readOnly p);
                      "title" =: t "forwarding.delete";
                      "aria-label" =: (t "forwarding.delete" +:+ " " +:+ fr_domain r);
                      OnClick (ClickDelete rule)] [Icon "Trash2" 15]]]].

Definition rules_panel (p : Props) (s : State) (l : list ForwardRuleStatus) : node Event :=
  El section ["className" =: "panel"]
    [El div ["className" =: "table-wrap"]
       [El table []
          [El caption ["className" =: "sr-only"] [Txt (t "app.title.forwarding")];
           El thead []
             [El tr [] [El th [] [Txt (t "forwarding.domain")]; El th [] [Txt (t "forwarding.upstreams")];
                        El th [] [Txt (t "forwarding.col_status")]; El th [] [Txt (t "forwarding.description")];
                        El th [] [El span ["className" =: "sr-only"] [Txt (t "zones.col_actions")]]]];
           El tbody [] (each l (fun rule => [rule_row p s rule]))]]].

Definition view (p : Props) (s : State) : list (node Event) :=
  [toolbar p s]
  ++ error_notice (error s)
  ++ success_notice (notice s)
  ++ when_some (editor s) (fun ed => [editor_panel s ed])
  ++ when_some (testing s) (fun te => [test_panel s te])
  ++ when (negb (opt_is_some (rules s)) && negb (truthy (error s)))
       [El section ["className" =: "panel"] [Loading [Txt (t "app.connecting_panel")]]]
  ++ match rules s with
     | Some [] => [El section ["className" =: "panel"]
                     [EmptyState (Some (Icon "Route" 22)) (t "forwarding.empty_title")
                        [Txt (t "forwarding.empty_text")] [] false]]
     | Some l => [rules_panel p s l]
     | None => []
     end.

(** One load at once and one every fifteen seconds, until the page is left. *)
Definition page : component Props State Event :=
  mkComponent init view handle
    [mkEffect (fun _ _ => false)
       (fun _ _ => Some (run_top (spawn (sleep 0 ;; load true) ;; again 15000)))
       (fun _ _ => run_top (spawn (load true) ;; again 15000))]
    (fun s => s).
End Page.
End Forwarding.

(** * Theorems *)

Module ForwardingFacts.
Import Forwarding.
Section Facts.
Context (t : string -> string).

Definition viewer_event (ev : Event) : Prop := match ev with ClickReload => True | _ => False end.

Lemma forwarding_view_viewer p s :
  readOnly p = true -> editor s = None -> testing s = None ->
  nodes_all viewer_event false (view t p s).
Proof.
  intros Hr He Ht. unfold view. rewrite He, Ht. view_split; rewrite ?Hr; first [view_close | done].
Qed.

Lemma forwarding_view_busy p s : busy s = true -> nodes_all (fun _ => False) false (view t p s).
Proof. intros Hb. unfold view. view_split; rewrite ?Hb; first [view_close | done]. Qed.

Definition viewer_inv (p : Props) (s : State) : Prop :=
  readOnly p = true /\ editor s = None /\ testing s = None.

Lemma forwarding_verified_viewer p :
  readOnly p = true -> verified (page t) (still (fun p => readOnly p = true)) viewer_inv read_only_output p.
Proof.
  intros Hp. constructor; cbn [c_init c_view c_handle c_effects c_unmount page].
  - done.
  - intros p' s ev (Hr & He & Ht) Hev.
    pose proof (nodes_all_offered _ _ _ (forwarding_view_viewer p' s Hr He Ht) Hev) as H.
    destruct ev; try done; unfold handle, load; wp_split; wp_close.
  - intros ef p' s q [<-|[]] Hinv [= <-]. unfold load. wp_split; wp_close.
  - intros ef p' s [<-|[]] _ p'' s' H. cbn. unfold load. wp_split; wp_close.
  - intros p1 p2 s [_ He] Hp2. by split.
  - done.
Qed.

#[export] Instance forwarding_viewer_safe : ViewerSafe (page t) (fun p => readOnly p = true).
Proof. apply (verified_viewer_safe _ viewer_inv). apply forwarding_verified_viewer. Qed.

Lemma forwarding_exclusive_page : exclusive (page t) busy true (fun _ _ => True).
Proof.
  constructor; cbn [c_init c_view c_handle c_effects c_unmount page].
  - done.
  - intros p s ev _ Hev. destruct (busy s) eqn:Hb.
    + by pose proof (nodes_all_offered _ _ _ (forwarding_view_busy p s Hb) Hev).
    + destruct ev; unfold handle, save, toggle, remove, runTest, guarded, load; excl_walk.
  - intros ef p s q [<-|[]] [= <-]. unfold load. excl_walk.
  - intros ef p s [<-|[]]. cbn. unfold load. excl_walk.
  - done.
Qed.

#[export] Instance forwarding_one_at_a_time : OneAtATime (page t).
Proof. apply (exclusive_one_at_a_time _ busy true), forwarding_exclusive_page. Qed.

#[export] Instance forwarding_unblocks : Unblocks (page t) busy.
Proof. apply exclusive_unblocks, forwarding_exclusive_page. Qed.

(** What toggling a rule sends apart from the flag, which is the rule itself. *)
Definition rule_input (rule : ForwardRuleStatus) : ForwardRuleInput :=
  let r := frs_rule rule in mkForwardRuleInput (fr_domain r) (fr_upstreams r) (fr_enabled r) (fr_description r).

(** Opening a rule and saving it unchanged sends it back. *)
Lemma forwarding_unchanged rule :
  let r := frs_rule rule in
  trim (fr_domain r) = fr_domain r -> trim (fr_description r) = fr_description r ->
  Forall (fun a => is_word is_list_sep a = true) (fr_upstreams r) ->
  input_of_form (editor_of rule) = rule_input rule.
Proof.
  cbv zeta. intros Hn Hd Ha. unfold input_of_form, editor_of, rule_input.
  cbn [ed_domain ed_upstreams ed_description ed_enabled].
  by rewrite Hn, Hd, split_list_join.
Qed.
End Facts.
End ForwardingFacts.
