(* ===== verification/ZoneForms.v ===== *)
(** * Zones: the data and the forms of web/src/zones

    [types.ts], the hook [useZones], [RecordForm], [ZoneForm] and
    [RecordTable]. The hook and the forms keep their own state; the page that
    mounts them holds it, so their operations are written over any state that
    embeds it. *)
From Stdlib Require Import Sorting.Sorted.
From S2P Require Import Prelude JsString JsNumber Url Http Api Resources React Runtime Components.
Local Open Scope velora_scope.
Local Open Scope prog_scope.
Local Open Scope string_scope.

(** ** types.ts *)

Inductive RecordType : Set := rt_A | rt_AAAA | rt_CNAME | rt_TXT | rt_MX | rt_NS | rt_PTR.
#[export] Instance RecordType_eq_dec : EqDecision RecordType.
Proof. solve_decision. Defined.

Definition recordTypes : list RecordType := [rt_A; rt_AAAA; rt_CNAME; rt_TXT; rt_MX; rt_NS; rt_PTR].
Definition record_type_str (ty : RecordType) : string :=
  match ty with
  | rt_A => "A" | rt_AAAA => "AAAA" | rt_CNAME => "CNAME" | rt_TXT => "TXT"
  | rt_MX => "MX" | rt_NS => "NS" | rt_PTR => "PTR"
  end.

Record ZoneRecord : Set := mkZoneRecord {
  zr_id : Z; zr_name : string; zr_type : RecordType; zr_ttl : Z; zr_value : string; zr_priority : Z }.
Record Zone : Set := mkZone {
  z_id : Z; z_name : string; z_primary_ns : string; z_contact : string; z_revision : Z;
  z_records : list ZoneRecord }.
Record RecordInput : Set := mkRecordInput {
  rin_name : string; rin_type : RecordType; rin_ttl : jsnum; rin_value : string; rin_priority : jsnum }.
Record ZoneInput : Set := mkZoneInput {
  zin_name : string; zin_primary_ns : option string; zin_contact : option string }.

(** The name of a record relative to its zone. *)
Definition ownerName (name zone : string) : string :=
  if String.eqb name zone then "@"
  else if endsWith ("." +:+ zone) name then slice_end name (String.length zone + 1)
  else name.

Definition record_json (i : RecordInput) : json :=
  JObj [("name", JStr (rin_name i)); ("type", JStr (record_type_str (rin_type i)));
        ("ttl", JNum (rin_ttl i)); ("value", JStr (rin_value i)); ("priority", JNum (rin_priority i))].

(** Absent members are left out of the body. *)
Definition zone_json (i : ZoneInput) : json :=
  JObj ([("name", JStr (zin_name i))]
        ++ match zin_primary_ns i with Some v => [("primary_ns", JStr v)] | None => [] end
        ++ match zin_contact i with Some v => [("contact", JStr v)] | None => [] end).

(** ** useZones.ts *)

Module UseZones.

Record Hook : Set := mkHook {
  zones : option (list Zone);
  error : string;
  loading : bool;
  busy : bool;
  revision : Z;
  active : bool;
}.
#[export] Instance eta_Hook : Eta Hook := fun s =>
  mkHook (zones s) (error s) (loading s) (busy s) (revision s) (active s).

Definition init : Hook := mkHook None "" false false 0 true.

(** The cleanup of the effect that tracks whether the page is mounted. *)
Definition retire (h : Hook) : Hook := h <| active := false |>.

(** The stable sort of [Array.prototype.sort] by name. *)
Section Sort.
Context `{Locale}.

Fixpoint insert_by_name (z : Zone) (l : list Zone) : list Zone :=
  match l with
  | [] => [z]
  | y :: l' => match localeCompare (z_name z) (z_name y) with
               | Gt => y :: insert_by_name z l'
               | _ => z :: l
               end
  end.

Fixpoint sort_by_name (l : list Zone) : list Zone :=
  match l with
  | [] => []
  | z :: l' => insert_by_name z (sort_by_name l')
  end.

(** The list [publish] shows: the zone replaces its older version. *)
Definition published (zone : Zone) (current : option (list Zone)) : list Zone :=
  sort_by_name (filterb (fun z => negb (Z.eqb (z_id z) (z_id zone))) (current ?? []) ++ [zone]).
End Sort.

Definition without (id : Z) (current : option (list Zone)) : list Zone :=
  filterb (fun z => negb (Z.eqb (z_id z) id)) (current ?? []).

Section Hook.
Context `{Locale} (t : string -> string).
Context {S : Type} (hook : S -> Hook) (set_hook : (Hook -> Hook) -> S -> S).

Definition set (f : Hook -> Hook) : M S unit := update (set_hook f).

(** The effect that loads the zones. *)
Definition load : M S unit :=
  sleep 0 ;;
  e <- ask ;;
  if aborted e then ret tt else
  set (fun h => h <| loading := true |>) ;;
  try_finally
    (try_catch
       (data <- await (get (list Zone) "/api/v1/zones" true) ;;
        e <- ask ;;
        when_do (negb (aborted e))
          (set (fun h => h <| zones := Some data |>) ;; set (fun h => h <| error := "" |>)))
       (fun x => e <- ask ;;
          when_do (negb (aborted e))
            (set (fun h => h <| error := error_message x (t "zones.load_failed") |>))))
    (e <- ask ;; when_do (negb (aborted e)) (set (fun h => h <| loading := false |>))).

(** [mutate]: the flag covers the whole operation and is cleared however it
    ends, unless the page is gone. *)
Definition mutate {A} (operation : M S A) : M S A :=
  set (fun h => h <| busy := true |>) ;;
  try_finally operation
    (s <- read ;; when_do (active (hook s)) (set (fun h => h <| busy := false |>))).

Definition publish (zone : Zone) : M S unit :=
  s <- read ;;
  when_do (active (hook s))
    (set (fun h => h <| zones := Some (published zone (zones h)) |>)).

Definition create_request (i : ZoneInput) : api Zone :=
  request Zone "/api/v1/zones" false "POST" (mkOptions (Some (zone_json i)) None).
Definition create (i : ZoneInput) : M S Zone :=
  mutate (zone <- await (create_request i) ;; publish zone ;; ret zone).

Definition save_request (zone : Zone) (i : RecordInput) (record : option ZoneRecord) : api Zone :=
  request Zone
    ("/api/v1/zones/" +:+ StringZ (z_id zone) +:+ "/records"
       +:+ match record with Some r => "/" +:+ StringZ (zr_id r) | None => "" end)
    false (if opt_is_some record then "PUT" else "POST")
    (mkOptions (Some (record_json i)) (Some (z_revision zone))).
Definition saveRecord (zone : Zone) (i : RecordInput) (record : option ZoneRecord) : M S Zone :=
  mutate (updated <- await (save_request zone i record) ;; publish updated ;; ret updated).

Definition remove_request (zone : Zone) (record : option ZoneRecord) : api Zone :=
  request Zone
    ("/api/v1/zones/" +:+ StringZ (z_id zone)
       +:+ match record with Some r => "/records/" +:+ StringZ (zr_id r) | None => "" end)
    false "DELETE" (mkOptions None (Some (z_revision zone))).
Definition remove (zone : Zone) (record : option ZoneRecord) : M S unit :=
  mutate
    (result <- await (remove_request zone record) ;;
     match record with
     | Some _ => publish result
     | None =>
         s <- read ;;
         when_do (active (hook s))
           (set (fun h => h <| zones := Some (without (z_id zone) (zones h)) |>))
     end).

Definition reload : M S unit :=
  set (fun h => h <| loading := true |>) ;; set (fun h => h <| revision ::= Z.add 1 |>).
End Hook.
End UseZones.

(** ** RecordForm.tsx *)

Module RecordForm.

Record Form : Set := mkForm {
  name : string; type : RecordType; ttl : string; value : string; priority : string; error : string }.
#[export] Instance eta_Form : Eta Form := fun s =>
  mkForm (name s) (type s) (ttl s) (value s) (priority s) (error s).

Definition init (zone : Zone) (record : option ZoneRecord) : Form :=
  mkForm (match record with Some r => ownerName (zr_name r) (z_name zone) | None => "" end)
    (match record with Some r => zr_type r | None => rt_A end)
    (StringZ (match record with Some r => zr_ttl r | None => 300 end))
    (match record with Some r => zr_value r | None => "" end)
    (StringZ (match record with Some r => zr_priority r | None => 10 end))
    "".

Definition is_MX (ty : RecordType) : bool := match ty with rt_MX => true | _ => false end.
Definition is_TXT (ty : RecordType) : bool := match ty with rt_TXT => true | _ => false end.

(** What [submit] checks before it saves. *)
Definition lifetime (f : Form) : jsnum := Number (ttl f).
Definition preference (f : Form) : jsnum := if is_MX (type f) then Number (priority f) else num 0.
Definition invalid (f : Form) : bool :=
  negb (truthy (trim (ttl f)))
  || (is_MX (type f) && negb (truthy (trim (priority f))))
  || negb (isInteger (lifetime f))
  || num_ltb (lifetime f) 0
  || num_gtb (lifetime f) 86400
  || negb (isInteger (preference f))
  || num_ltb (preference f) 0
  || num_gtb (preference f) 65535.

Definition input_of (f : Form) : RecordInput :=
  mkRecordInput (str_or (name f) "@") (type f) (lifetime f) (value f) (preference f).

Inductive Event : Set :=
| SetName (v : string) | SetType (v : RecordType) | SetTTL (v : string) | SetValue (v : string)
| SetPriority (v : string) | Submit | Cancel.

Section Form.
Context (t : string -> string).
Context {S : Type} (set_form : (Form -> Form) -> S -> S).

Definition save_error (x : exn) : string :=
  match x with
  | APIError 412 _ _ _ => t "zones.record_conflict"
  | _ => error_message x (t "zones.save_failed")
  end.

Definition submit (save : RecordInput -> M S unit) (f : Form) : M S unit :=
  update (set_form (fun f => f <| error := "" |>)) ;;
  if invalid f then update (set_form (fun f => f <| error := t "zones.invalid_ttl" |>))
  else try_catch (save (input_of f))
         (fun x => update (set_form (fun f => f <| error := save_error x |>))).

Definition handle (save : RecordInput -> M S unit) (cancel : M S unit) (f : Form) (ev : Event)
    : M S unit :=
  match ev with
  | SetName v => update (set_form (fun f => f <| name := v |>))
  | SetType v => update (set_form (fun f => f <| type := v |>))
  | SetTTL v => update (set_form (fun f => f <| ttl := v |>))
  | SetValue v => update (set_form (fun f => f <| value := v |>))
  | SetPriority v => update (set_form (fun f => f <| priority := v |>))
  | Submit => submit save f
  | Cancel => cancel
  end.

Definition valueLabel (ty : RecordType) : string :=
  match ty with
  | rt_A => t "zones.ipv4_address"
  | rt_AAAA => t "zones.ipv6_address"
  | rt_TXT => t "zones.text_value"
  | _ => t "zones.target_hostname"
  end.

Definition fields (f : Form) : list (node Event) :=
  [El div ["className" =: "form-grid"]
     ([El label []
         [Txt (t "zones.record_name");
          El input ["value" =: name f; OnChange SetName; "placeholder" =: t "zones.router_or_at";
                    flag "autoFocus"; "maxLength" =: "253"; "autoComplete" =: "off"] [];
          El small [] [Txt (t "zones.relative_name_hint")]];
       El label []
         [Txt (t "zones.record_type");
          El select ["value" =: record_type_str (type f); OnSelect (map SetType recordTypes)]
            (each recordTypes (fun ty => [El option_ [] [Txt (record_type_str ty)]]))];
       El label []
         [Txt (t "zones.ttl_seconds");
          El input ["type" =: "number"; "min" =: "0"; "max" =: "86400"; flag "required";
                    "value" =: ttl f; OnChange SetTTL] []]]
      ++ when (is_MX (type f))
           [El label []
              [Txt (t "zones.priority");
               El input ["type" =: "number"; "min" =: "0"; "max" =: "65535"; flag "required";
                         "value" =: priority f; OnChange SetPriority] []]]);
   El label []
     (Txt (valueLabel (type f))
      :: cond (is_TXT (type f))
           [El textarea ["value" =: value f; OnChange SetValue; "maxLength" =: "2048"; "rows" =: "3"] []]
           [El input [flag "required"; "value" =: value f; OnChange SetValue; "maxLength" =: "253";
                      "autoComplete" =: "off";
                      "placeholder" =: match type f with
                                       | rt_A => "192.168.1.1"
                                       | rt_AAAA => "2001:db8::1"
                                       | _ => "host.home.arpa"
                                       end] []])].

Definition view (zone : Zone) (record : option ZoneRecord) (busy : bool) (f : Form)
    : list (node Event) :=
  [El form ["className" =: "zone-form"; OnSubmit Submit;
            "aria-label" =: (if opt_is_some record then t "zones.record_form_edit_aria"
                             else t "zones.record_form_add_aria")]
     [El div ["className" =: "form-heading"]
        [El div []
           [El h3 [] [Txt (if opt_is_some record then t "zones.edit_record" else t "zones.add_record_form")];
            El p_ [] [Txt (t "zones.changes_apply" +:+ " " +:+ z_name zone +:+ ".")]]];
      El fieldset [Disabled busy]
        (fields f
         ++ when (truthy (error f))
              [El p_ ["className" =: "notice error"; "role" =: "alert"] [Txt (error f)]]
         ++ [El div ["className" =: "form-actions"]
               [El button ["className" =: "button primary"; "type" =: "submit"]
                  [Txt (if busy then t "zones.saving" else t "zones.save_record")];
                El button ["className" =: "button"; "type" =: "button"; OnClick Cancel]
                  [Txt (t "zones.cancel")]]])]].
End Form.
End RecordForm.

(** ** ZoneForm.tsx *)

Module ZoneForm.

Record Form : Set := mkForm { name : string; primary : string; contact : string; error : string }.
#[export] Instance eta_Form : Eta Form := fun s => mkForm (name s) (primary s) (contact s) (error s).

Definition init : Form := mkForm "" "" "" "".

Definition some_truthy (s : string) : option string := if truthy s then Some s else None.
Definition input_of (f : Form) : ZoneInput :=
  mkZoneInput (name f) (some_truthy (primary f)) (some_truthy (contact f)).

Inductive Event : Set :=
| SetName (v : string) | SetPrimary (v : string) | SetContact (v : string) | Submit | Cancel.

Section Form.
Context (t : string -> string).
Context {S : Type} (set_form : (Form -> Form) -> S -> S).

Definition submit (save : ZoneInput -> M S unit) (f : Form) : M S unit :=
  update (set_form (fun f => f <| error := "" |>)) ;;
  try_catch (save (input_of f))
    (fun x => update (set_form (fun f => f <| error := error_message x (t "zones.create_failed") |>))).

Definition handle (save : ZoneInput -> M S unit) (cancel : M S unit) (f : Form) (ev : Event)
    : M S unit :=
  match ev with
  | SetName v => update (set_form (fun f => f <| name := v |>))
  | SetPrimary v => update (set_form (fun f => f <| primary := v |>))
  | SetContact v => update (set_form (fun f => f <| contact := v |>))
  | Submit => submit save f
  | Cancel => cancel
  end.

Definition view (busy : bool) (f : Form) : list (node Event) :=
  [El form ["className" =: "zone-form"; "aria-label" =: t "zones.create_zone_aria"; OnSubmit Submit]
     [El h3 [] [Txt (t "zones.create_title")];
      El p_ [] [Txt (t "zones.create_text")];
      El fieldset [Disabled busy]
        ([El label []
            [Txt (t "zones.zone_name");
             El input ["value" =: name f; OnChange SetName; flag "required"; flag "autoFocus";
                       "maxLength" =: "253"; "placeholder" =: "home.arpa"; "autoComplete" =: "off"] []];
          El details []
            [El summary [] [Txt (t "zones.authority_settings")];
             El div ["className" =: "form-grid"]
               [El label []
                  [Txt (t "zones.primary_nameserver");
                   El input ["value" =: primary f; OnChange SetPrimary; "placeholder" =: "ns.home.arpa";
                             "maxLength" =: "253"] []];
                El label []
                  [Txt (t "zones.contact_mailbox");
                   El input ["value" =: contact f; OnChange SetContact;
                             "placeholder" =: "hostmaster.home.arpa"; "maxLength" =: "253"] []]]]]
         ++ when (truthy (error f))
              [El p_ ["className" =: "notice error"; "role" =: "alert"] [Txt (error f)]]
         ++ [El div ["className" =: "form-actions"]
               [El button ["className" =: "button primary"; "type" =: "submit"]
                  [Txt (if busy then t "zones.creating" else t "zones.create_zone")];
                El button ["className" =: "button"; "type" =: "button"; OnClick Cancel]
                  [Txt (t "zones.cancel")]]])]].
End Form.
End ZoneForm.

(** ** RecordTable.tsx *)

Module RecordTable.

Inductive Event : Set := Edit (record : ZoneRecord) | Remove (record : ZoneRecord).

Section Table.
Context (t : string -> string).

Definition row_label (verb : string) (zone : Zone) (r : ZoneRecord) : string :=
  t verb +:+ " " +:+ ownerName (zr_name r) (z_name zone) +:+ " " +:+ record_type_str (zr_type r)
    +:+ " " +:+ t "zones.record_word".

Definition row (zone : Zone) (disabled : bool) (r : ZoneRecord) : node Event :=
  let ty := record_type_str (zr_type r) in
  El tr []
    [El td [] [El code_ [] [Txt (ownerName (zr_name r) (z_name zone))]];
     El td [] [El span ["className" =: ("record-type type-" +:+ ty)] [Txt ty]];
     El td ["className" =: "record-value"]
       [El code_ [] [Txt (if RecordForm.is_MX (zr_type r) then StringZ (zr_priority r) +:+ " " else "");
                     Txt (str_or (zr_value r) (dquote +:+ dquote))]];
     El td [] [Txt (StringZ (zr_ttl r) +:+ "s")];
     El td []
       [El div ["className" =: "record-actions"]
          [El button ["className" =: "icon-button"; Disabled disabled; OnClick (Edit r);
                      "aria-label" =: row_label "zones.edit_aria" zone r] [Icon "Pencil" 14];
           El button ["className" =: "icon-button danger-icon"; Disabled disabled; OnClick (Remove r);
                      "aria-label" =: row_label "zones.delete_aria" zone r] [Icon "Trash2" 14]]]].

Definition view (zone : Zone) (disabled : bool) : list (node Event) :=
  match z_records zone with
  | [] => [El div ["className" =: "zone-empty"]
             [El h3 [] [Txt (t "zones.no_records_title")]; El p_ [] [Txt (t "zones.no_records_text")]]]
  | _ :: _ =>
      [El div ["className" =: "table-wrap"]
         [El table ["className" =: "records-table"]
            [El caption ["className" =: "sr-only"] [Txt (t "zones.records_aria" +:+ " " +:+ z_name zone)];
             El thead []
               [El tr [] [El th [] [Txt (t "zones.col_name")]; El th [] [Txt (t "zones.col_type")];
                          El th [] [Txt (t "zones.col_value")]; El th [] [Txt (t "zones.col_ttl")];
                          El th [] [El span ["className" =: "sr-only"] [Txt (t "zones.col_actions")]]]];
             El tbody [] (each (z_records zone) (fun r => [row zone disabled r]))]]]
  end.
End Table.
End RecordTable.

(** * Theorems *)

Module ZoneFormsFacts.

(** ** Owner names *)

(** [ownerName] shortens exactly the names under the zone: the zone itself
    is the at sign, a name ending in a dot and the zone loses that suffix, and
    any other name is left alone. *)
Theorem ownerName_cases name zone :
  (name = zone /\ ownerName name zone = "@")
  \/ (name <> zone /\ name = ownerName name zone +:+ "." +:+ zone)
  \/ (ownerName name zone = name /\ forall label, name <> label +:+ "." +:+ zone).
Proof.
  unfold ownerName. destruct (String.eqb_spec name zone) as [->|Hne]; [by left|]. right.
  destruct (endsWith ("." +:+ zone) name) eqn:E.
  - left. split; [done|]. apply endsWith_split in E as (a & ->).
    replace (String.length zone + 1) with (String.length ("." +:+ zone)) by (cbn; lia).
    by rewrite slice_end_append.
  - right. split; [done|]. intros label ->. by rewrite endsWith_append in E.
Qed.

(** ** The published list *)

Section Published.
Context `{L : Locale} `{!LocaleLaws L}.

Definition name_le (a b : Zone) : Prop := localeCompare (z_name a) (z_name b) <> Gt.

Lemma insert_perm z l : UseZones.insert_by_name z l ≡ₚ z :: l.
Proof.
  induction l as [|y l IH]; [done|]. simpl. destruct (localeCompare _ _); [done|done|].
  rewrite IH. apply Permutation_swap.
Qed.

Lemma sort_perm l : UseZones.sort_by_name l ≡ₚ l.
Proof. induction l as [|z l IH]; [done|]. simpl. by rewrite insert_perm, IH. Qed.

Lemma insert_sorted z l : StronglySorted name_le l -> StronglySorted name_le (UseZones.insert_by_name z l).
Proof.
  induction l as [|y l IH]; intros Hs; [repeat constructor|]. simpl.
  inversion_clear Hs as [|? ? Hl Hy].
  destruct (localeCompare (z_name z) (z_name y)) eqn:E.
  1,2: constructor; [by constructor|]; constructor; [by unfold name_le; rewrite E|];
    eapply Forall_impl; [exact Hy|]; intros x Hx; eapply locale_trans; [|exact Hx]; by rewrite E.
  constructor; [by apply IH|]. rewrite insert_perm. constructor; [|done].
  unfold name_le. rewrite locale_flip, E. done.
Qed.

Lemma sort_sorted l : StronglySorted name_le (UseZones.sort_by_name l).
Proof. induction l as [|z l IH]; [constructor|]. by apply insert_sorted. Qed.

Definition ids (l : list Zone) : list Z := map z_id l.

(** Publishing a zone after a mutation keeps the list a sorted map by id:
    the zone is in it once, in its new version, every other zone is untouched,
    and the names are in the locale's order. *)
Theorem published_spec zone current :
  List.NoDup (ids (current ?? [])) ->
  let l := UseZones.published zone current in
  List.NoDup (ids l) /\ StronglySorted name_le l /\
  forall z, In z l <-> z = zone \/ (In z (current ?? []) /\ z_id z <> z_id zone).
Proof.
  intros Hnd l. unfold l, UseZones.published. clear l.
  set (rest := filterb _ (current ?? [])).
  assert (forall z, In z rest <-> In z (current ?? []) /\ z_id z <> z_id zone) as Hrest.
  { intros z. unfold rest. rewrite In_filterb, negb_true_iff, Z.eqb_neq. done. }
  split; [|split; [apply sort_sorted|]].
  - assert (List.NoDup (ids (rest ++ [zone]))) as Hn.
    { unfold ids. rewrite map_app. apply NoDup_app_snoc; [by apply NoDup_map_filterb|].
      intros Hin. apply in_map_iff in Hin as (z & Hz & Hin). by apply Hrest in Hin as [_ ?]. }
    eapply Permutation.Permutation_NoDup; [|exact Hn]. apply Permutation_map. symmetry. apply sort_perm.
  - intros z. rewrite <- Hrest. split.
    + intros Hin. eapply Permutation_in in Hin; [|apply sort_perm].
      apply in_app_iff in Hin as [Hin|[<-|[]]]; auto.
    + intros Hin. eapply Permutation_in; [symmetry; apply sort_perm|].
      apply in_app_iff. destruct Hin as [->|Hin]; [right; by left|by left].
Qed.
End Published.

(** ** The record form *)

(** A numeric field holding an integer between 0 and [hi]. *)
Definition field_in (v : string) (hi n : Z) : Prop :=
  truthy (trim v) = true /\ to_integer (Number v) = Some n /\ (0 <= n <= hi)%Z.


Lemma range_test_conv x hi n :
  to_integer x = Some n -> (0 <= n <= hi)%Z ->
  isInteger x = true /\ num_ltb x 0 = false /\ num_gtb x hi = false.
Proof.
  intros E Hn. unfold isInteger. rewrite E, (num_ltb_int _ _ _ E), (num_gtb_int _ _ _ E), !Z.ltb_ge.
  repeat split; lia.
Qed.

Lemma field_in_StringZ n hi : (0 <= n <= hi)%Z -> (hi < 2 ^ 53)%Z -> field_in (StringZ n) hi n.
Proof.
  intros Hn Hhi. destruct (StringZ_trim n) as [Ht Htr]; [lia|].
  split; [by rewrite Ht|]. split; [apply Number_StringZ; lia|lia].
Qed.

Lemma ownerName_label label zone : ownerName (label +:+ "." +:+ zone) zone = label.
Proof.
  unfold ownerName. destruct (String.eqb_spec (label +:+ "." +:+ zone) zone) as [He|_].
  { apply (f_equal String.length) in He. rewrite !length_append in He. cbn in He. lia. }
  rewrite endsWith_append. replace (String.length zone + 1) with (String.length ("." +:+ zone)) by (cbn; lia).
  by rewrite slice_end_append.
Qed.

Lemma record_form_accepts f :
  (exists n, field_in (RecordForm.ttl f) 86400 n) ->
  (RecordForm.type f = rt_MX -> exists n, field_in (RecordForm.priority f) 65535 n) ->
  RecordForm.invalid f = false.
Proof.
  intros (n & Hb & Hn & Hr) Hmx.
  unfold RecordForm.invalid, RecordForm.lifetime, RecordForm.preference.
  destruct (range_test_conv _ _ _ Hn Hr) as (-> & -> & ->). rewrite Hb. simpl.
  destruct (decide (RecordForm.type f = rt_MX)) as [Ht|Ht].
  - destruct (Hmx Ht) as (m & Hbm & Hm & Hrm). rewrite Ht. cbn [RecordForm.is_MX].
    destruct (range_test_conv _ _ _ Hm Hrm) as (-> & -> & ->). by rewrite Hbm.
  - by destruct (RecordForm.type f).
Qed.


(** The name of a record as the form shows it and sends it: [@] for the zone's own
    name, the part before the zone inside it, and the name itself elsewhere. *)
Inductive relative (zone : string) : string -> string -> Prop :=
| rel_apex : relative zone zone "@"
| rel_inside label : label <> "" -> relative zone (label +:+ "." +:+ zone) label
| rel_outside name :
    name <> "" -> name <> zone -> (forall label, name <> label +:+ "." +:+ zone) -> relative zone name name.

Lemma ownerName_relative zone name shown :
  relative zone name shown -> ownerName name zone = shown /\ shown <> "".
Proof.
  destruct 1 as [|label Hl|name Hn Hz Hi].
  - unfold ownerName. by rewrite String.eqb_refl.
  - by rewrite ownerName_label.
  - unfold ownerName. apply String.eqb_neq in Hz. rewrite Hz.
    destruct (endsWith ("." +:+ zone) name) eqn:Ee; [|done].
    apply endsWith_split in Ee as [label ->]. by destruct (Hi label).
Qed.

(** C22: opening a record and saving it unchanged sends the record back, for any
    record whose TTL (0 to 86400) and priority (0 to 65535) the form accepts: its
    name relative to the zone ([@] for a record of the zone's own name, the label
    for one inside it, the full name for one outside), type, value and TTL, and
    the priority (0 unless it is an MX record) survive the trip through the text
    fields. *)
Theorem record_form_unchanged zone r shown :
  relative (z_name zone) (zr_name r) shown ->
  (0 <= zr_ttl r <= 86400)%Z -> (0 <= zr_priority r <= 65535)%Z ->
  let f := RecordForm.init zone (Some r) in
  let i := RecordForm.input_of f in
  RecordForm.invalid f = false /\
  rin_name i = shown /\ rin_type i = zr_type r /\ rin_value i = zr_value r /\
  to_integer (rin_ttl i) = Some (zr_ttl r) /\
  to_integer (rin_priority i) = Some (if RecordForm.is_MX (zr_type r) then zr_priority r else 0%Z).
Proof.
  intros Hname Httl Hprio f i.
  assert (field_in (StringZ (zr_ttl r)) 86400 (zr_ttl r)) as Ht by (apply field_in_StringZ; lia).
  assert (field_in (StringZ (zr_priority r)) 65535 (zr_priority r)) as Hp by (apply field_in_StringZ; lia).
  split; [by apply record_form_accepts; eauto|].
  split; [|split; [done|split; [done|split; [by apply Ht|]]]].
  - destruct (ownerName_relative _ _ _ Hname) as [Ho Hs]. cbn. rewrite Ho. unfold str_or.
    apply truthy_true in Hs. by rewrite Hs.
  - cbn. unfold RecordForm.preference. cbn. destruct (zr_type r); try done. apply Hp.
Qed.

(** ** Concrete instances *)

Definition home_zone : Zone :=
  mkZone 1 "home.arpa" "ns.home.arpa" "hostmaster.home.arpa" 7
    [mkZoneRecord 3 "mail.home.arpa" rt_MX 300 "mx.home.arpa" 10].

Lemma published_spec_witness :
  let other := mkZone 2 "corp.example" "ns" "contact" 1 [] in
  let l := @UseZones.published plain_locale (mkZone 1 "home.arpa" "ns" "contact" 8 []) (Some [home_zone; other]) in
  map z_id l = [2; 1]%Z /\ List.NoDup (ids l).
Proof.
  split; [reflexivity|].
  apply (@published_spec plain_locale plain_locale_laws (mkZone 1 "home.arpa" "ns" "contact" 8 [])
           (Some [home_zone; mkZone 2 "corp.example" "ns" "contact" 1 []])).
  by apply NoDup_ListNoDup, (bool_decide_unpack (NoDup [1; 2]%Z)).
Defined.

(** An MX record of the zone itself, and one inside it. *)
Lemma record_form_unchanged_witness :
  let f name := RecordForm.init home_zone (Some (mkZoneRecord 3 name rt_MX 300 "mx.home.arpa" 10)) in
  rin_name (RecordForm.input_of (f "home.arpa")) = "@" /\ rin_name (RecordForm.input_of (f "mail.home.arpa")) = "mail".
Proof.
  split.
  - destruct (record_form_unchanged home_zone (mkZoneRecord 3 "home.arpa" rt_MX 300 "mx.home.arpa" 10) "@")
      as (_ & Hn & _); [apply (rel_apex "home.arpa")|cbn; lia|cbn; lia|exact Hn].
  - destruct (record_form_unchanged home_zone (mkZoneRecord 3 "mail.home.arpa" rt_MX 300 "mx.home.arpa" 10) "mail")
      as (_ & Hn & _); [by apply (rel_inside "home.arpa" "mail")|cbn; lia|cbn; lia|exact Hn].
Defined.
End ZoneFormsFacts.
