(* ===== verification/Zones.v ===== *)
(** * The zones page: web/src/pages/Zones.tsx over the hook and forms of web/src/zones *)
From S2P Require Import Prelude JsString JsNumber Url Http Api Resources React Runtime Components ZoneForms.
Local Open Scope velora_scope.
Local Open Scope prog_scope.
Local Open Scope string_scope.

Module Zones.

(** [{ zone, record? }] *)
Record Target : Set := mkTarget { tg_zone : Zone; tg_record : option ZoneRecord }.

Record Props : Set := mkProps { readOnly : bool; zone_param : option string }.

Record State : Set := mkState {
  hook : UseZones.Hook;
  selectedID : option jsnum;
  creating : bool;
  editor : option Target;
  deleting : option Target;
  query : string;
  message : string;
  actionError : string;
  record_form : RecordForm.Form;  (* of the mounted RecordForm *)
  zone_form : ZoneForm.Form;      (* of the mounted ZoneForm *)
}.
#[export] Instance eta_State : Eta State := fun s =>
  mkState (hook s) (selectedID s) (creating s) (editor s) (deleting s) (query s) (message s)
    (actionError s) (record_form s) (zone_form s).

(** [Number(params.get("zone")) || null] *)
Definition zone_id_param (o : option string) : option jsnum :=
  match o with
  | None => None
  | Some v => if jsnum_truthy (Number v) then Some (Number v) else None
  end.

Definition init (p : Props) : State :=
  mkState UseZones.init (zone_id_param (zone_param p)) false None None "" "" ""
    (RecordForm.mkForm "" rt_A "" "" "" "") ZoneForm.init.

Definition set_hook (f : UseZones.Hook -> UseZones.Hook) (s : State) : State := s <| hook ::= f |>.
Definition set_record_form (f : RecordForm.Form -> RecordForm.Form) (s : State) : State :=
  s <| record_form ::= f |>.
Definition set_zone_form (f : ZoneForm.Form -> ZoneForm.Form) (s : State) : State :=
  s <| zone_form ::= f |>.

(** [setEditor({zone, record})] mounts a fresh form: the editor was closed. *)
Definition open_editor (tg : Target) (s : State) : State :=
  s <| editor := Some tg |> <| record_form := RecordForm.init (tg_zone tg) (tg_record tg) |>.

(** [setCreating(true)] mounts a form unless one is already there. *)
Definition open_creating (s : State) : State :=
  if creating s then s else s <| creating := true |> <| zone_form := ZoneForm.init |>.

(** [z.id === selectedID] *)
Definition is_id (sel : option jsnum) (z : Zone) : bool :=
  match sel with Some x => num_is x (z_id z) | None => false end.

Definition filteredZones (s : State) : option (list Zone) :=
  match UseZones.zones (hook s) with
  | None => None
  | Some l => Some (filterb (fun z => includes (toLowerCase (trim (query s))) (toLowerCase (z_name z))) l)
  end.

Definition selected (s : State) : option Zone :=
  match filteredZones s with
  | None => None
  | Some l => match find_first (is_id (selectedID s)) l with
              | Some z => Some z
              | None => head l
              end
  end.

Definition disabled (p : Props) (s : State) : bool :=
  readOnly p || UseZones.busy (hook s) || UseZones.loading (hook s) || truthy (UseZones.error (hook s)).

Inductive Event : Set :=
| ClickReload
| ClickAddZone
| ClickCreateFirst
| ZoneFormEvent (e : ZoneForm.Event)
| SetQuery (v : string)
| Select (z : Zone)
| ClickAddRecord (z : Zone)
| ClickDeleteZone (z : Zone)
| ConfirmDelete
| CancelDelete
| RecordFormEvent (e : RecordForm.Event)
| TableEvent (z : Zone) (e : RecordTable.Event).

Section Page.
Context `{Locale} (t : string -> string).

Definition select (z : Zone) : M State unit :=
  update (fun s => s <| selectedID := Some (num (z_id z)) |>) ;;
  update (fun s => s <| editor := None |>) ;;
  update (fun s => s <| deleting := None |>) ;;
  update (fun s => s <| message := "" |>) ;;
  update (fun s => s <| actionError := "" |>).

Definition remove (c : State) : M State unit :=
  match deleting c with
  | None => ret tt
  | Some d =>
      update (fun s => s <| actionError := "" |>) ;;
      try_catch
        (UseZones.remove hook set_hook (tg_zone d) (tg_record d) ;;
         update (fun s => s <| message := if opt_is_some (tg_record d) then t "zones.record_deleted"
                                          else t "zones.zone_deleted" |>) ;;
         update (fun s => s <| deleting := None |>))
        (fun x => update (fun s => s <| actionError := error_message x (t "zones.delete_failed") |>))
  end.

(** The [save] props of the two forms. *)
Definition save_zone (i : ZoneInput) : M State unit :=
  z <- UseZones.create hook set_hook i ;;
  update (fun s => s <| selectedID := Some (num (z_id z)) |>) ;;
  update (fun s => s <| creating := false |>) ;;
  update (fun s => s <| message := t "zones.zone_created" |>).

Definition save_record (tg : Target) (i : RecordInput) : M State unit :=
  UseZones.saveRecord hook set_hook (tg_zone tg) i (tg_record tg) ;;
  update (fun s => s <| editor := None |>) ;;
  update (fun s => s <| message := t "zones.record_saved" |>).

Definition handle (p : Props) (c : State) (ev : Event) : prog State :=
  run_top
    match ev with
    | ClickReload =>
        UseZones.reload set_hook ;;
        update (fun s => s <| deleting := None |>) ;;
        update (fun s => s <| actionError := "" |>) ;;
        update (fun s => s <| message := "" |>)
    | ClickAddZone =>
        update open_creating ;;
        update (fun s => s <| editor := None |>) ;;
        update (fun s => s <| deleting := None |>)
    | ClickCreateFirst => update open_creating
    | ZoneFormEvent e =>
        ZoneForm.handle t set_zone_form save_zone (update (fun s => s <| creating := false |>))
          (zone_form c) e
    | SetQuery v =>
        update (fun s => s <| query := v |>) ;;
        update (fun s => s <| editor := None |>) ;;
        update (fun s => s <| deleting := None |>)
    | Select z => select z
    | ClickAddRecord z =>
        update (open_editor (mkTarget z None)) ;;
        update (fun s => s <| deleting := None |>) ;;
        update (fun s => s <| actionError := "" |>)
    | ClickDeleteZone z =>
        update (fun s => s <| deleting := Some (mkTarget z None) |>) ;;
        update (fun s => s <| actionError := "" |>)
    | ConfirmDelete => remove c
    | CancelDelete => update (fun s => s <| deleting := None |>)
    | RecordFormEvent e =>
        match editor c with
        | None => ret tt
        | Some tg =>
            RecordForm.handle t set_record_form (save_record tg)
              (update (fun s => s <| editor := None |>)) (record_form c) e
        end
    | TableEvent z (RecordTable.Edit r) =>
        update (open_editor (mkTarget z (Some r))) ;;
        update (fun s => s <| deleting := None |>) ;;
        update (fun s => s <| actionError := "" |>)
    | TableEvent z (RecordTable.Remove r) =>
        update (fun s => s <| deleting := Some (mkTarget z (Some r)) |>) ;;
        update (fun s => s <| actionError := "" |>)
    end.

(** ** The view *)

Definition count_text (l : list Zone) : string :=
  StringZ (Z.of_nat (length l)) +:+ " "
    +:+ t (if Nat.eqb (length l) 1 then "zones.count_one" else "zones.count").

Definition toolbar (p : Props) (s : State) : node Event :=
  El div ["className" =: "zones-toolbar"]
    [El span ["className" =: "zone-count"]
       [Txt (match UseZones.zones (hook s) with
             | Some l => count_text l
             | None => t "zones.local_authority"
             end)];
     El div []
       [El button ["className" =: "button";
                   Disabled (UseZones.busy (hook s) || UseZones.loading (hook s)
                             || opt_is_some (editor s) || creating s);
                   OnClick ClickReload] [Icon "RefreshCw" 15; Txt (t "zones.reload")];
        El button ["className" =: "button primary"; Disabled (disabled p s); OnClick ClickAddZone]
          [Icon "Plus" 15; Txt (t "zones.add_zone")]]].

Definition notices (s : State) : list (node Event) :=
  when (truthy (UseZones.error (hook s)))
    [El div ["className" =: "notice error"; "role" =: "alert"]
       [Txt (UseZones.error (hook s) +:+ ". ");
        Txt (if opt_is_some (UseZones.zones (hook s)) then t "zones.error_stale" else t "zones.error_retry")]]
  ++ success_notice (message s)
  ++ when (truthy (actionError s))
       [El div ["className" =: "notice error"; "role" =: "alert"]
          [Txt (actionError s +:+ ". " +:+ t "zones.reload_before_retry")]].

Definition zone_entry (s : State) (z : Zone) : node Event :=
  El button ([Disabled (UseZones.busy (hook s))]
             ++ (if match selected s with Some y => Z.eqb (z_id y) (z_id z) | None => false end
                 then ["aria-current" =: "true"] else [])
             ++ [OnClick (Select z)])
    [Icon "Globe2" 17;
     El span []
       [El strong [] [Txt (z_name z)];
        El small [] [Txt (StringZ (Z.of_nat (length (z_records z))) +:+ " " +:+ t "zones.records_custom")]]].

Definition zone_list (s : State) : node Event :=
  El section ["className" =: "panel zone-list"]
    ([El label ["className" =: "zone-search"]
        [Icon "Search" 15; El span ["className" =: "sr-only"] [Txt (t "zones.filter_aria")];
         El input ["value" =: query s; OnChange SetQuery; "placeholder" =: t "zones.filter_placeholder"] []];
      El nav ["aria-label" =: t "zones.nav_aria"]
        (each (filteredZones s ?? []) (fun z => [zone_entry s z]))]
     ++ match filteredZones s with
        | Some [] => [El p_ ["className" =: "padded"] [Txt (t "zones.no_matching")]]
        | _ => []
        end).

Definition confirm_panel (p : Props) (s : State) (d : Target) : node Event :=
  El div ["className" =: "notice zone-confirm"; "role" =: "alert"]
    [El p_ []
       (match tg_record d with
        | Some r => [Txt (t "zones.delete_record_confirm" +:+ " "); El strong [] [Txt (zr_name r)];
                     Txt (" (" +:+ record_type_str (zr_type r) +:+ ")?")]
        | None => [Txt (t "zones.delete_zone_confirm" +:+ " "); El strong [] [Txt (z_name (tg_zone d))];
                   Txt (" " +:+ StringZ (Z.of_nat (length (z_records (tg_zone d)))) +:+ " "
                          +:+ t "zones.delete_zone_confirm2")]
        end);
     El div ["className" =: "form-actions"]
       [El button ["className" =: "button danger"; Disabled (disabled p s); OnClick ConfirmDelete]
          [Txt (if UseZones.busy (hook s) then t "zones.deleting"
                else if opt_is_some (tg_record d) then t "zones.delete_record_perm"
                else t "zones.delete_zone_perm")];
        El button ["className" =: "button"; Disabled (UseZones.busy (hook s)); OnClick CancelDelete]
          [Txt (t "zones.cancel_deletion")]]].

Definition zone_detail (p : Props) (s : State) (z : Zone) : node Event :=
  let locked := disabled p s || opt_is_some (editor s) in
  El section ["className" =: "panel zone-detail"]
    ([El div ["className" =: "panel-heading"]
        [El div []
           [El span ["className" =: "eyebrow"] [Txt (t "zones.authoritative_eyebrow")];
            El h2 [] [Txt (z_name z)];
            El p_ [] [Txt (t "zones.revision" +:+ " " +:+ StringZ (z_revision z) +:+ " · "
                           +:+ StringZ (Z.of_nat (length (z_records z))) +:+ " ");
                      Txt (t "zones.records_custom")]];
         El div ["className" =: "zone-detail-actions"]
           [El button ["className" =: "button"; Disabled locked; OnClick (ClickAddRecord z)]
              [Icon "Plus" 14; Txt (t "zones.add_record")];
            El button ["className" =: "icon-button danger-icon"; Disabled locked;
                       "aria-label" =: t "zones.delete_zone_aria"; OnClick (ClickDeleteZone z)]
              [Icon "Trash2" 17]]];
      El div ["className" =: "zone-authority"]
        [El span [] [Txt (t "zones.primary_ns" +:+ " "); El code_ [] [Txt (z_primary_ns z)]];
         El span [] [Txt (t "zones.contact" +:+ " "); El code_ [] [Txt (z_contact z)]]]]
     ++ when_some (deleting s) (fun d => [confirm_panel p s d])
     ++ when_some (editor s) (fun tg =>
          map (map_node RecordFormEvent)
            (RecordForm.view t (tg_zone tg) (tg_record tg) (disabled p s) (record_form s)))
     ++ map (map_node (TableEvent z)) (RecordTable.view t z locked)
     ++ [El p_ ["className" =: "panel-footnote"] [Txt (t "zones.footnote")]]).

Definition empty_panel (p : Props) (s : State) : node Event :=
  El section ["className" =: "panel zone-empty large"]
    [Icon "Globe2" 32; El h2 [] [Txt (t "zones.empty_title")]; El p_ [] [Txt (t "zones.empty_text")];
     El button ["className" =: "button primary"; Disabled (disabled p s); OnClick ClickCreateFirst]
       [Icon "Plus" 15; Txt (t "zones.create_first")]].

Definition view (p : Props) (s : State) : list (node Event) :=
  [toolbar p s]
  ++ notices s
  ++ when (creating s)
       [El section ["className" =: "panel form-panel"]
          (map (map_node ZoneFormEvent) (ZoneForm.view t (disabled p s) (zone_form s)))]
  ++ when (negb (opt_is_some (UseZones.zones (hook s))) && negb (truthy (UseZones.error (hook s))))
       [El section ["className" =: "panel"] [Loading [Txt (t "zones.loading")]]]
  ++ match UseZones.zones (hook s) with
     | None => []
     | Some [] => when (negb (creating s)) [empty_panel p s]
     | Some (_ :: _) =>
         [El div ["className" =: "zones-layout"]
            (zone_list s :: when_some (selected s) (fun z => [zone_detail p s z]))]
     end.

(** The two effects of the hook: [active] follows the mount, and the zones are
    loaded on every new revision. *)
Definition page : component Props State Event :=
  mkComponent init view handle
    [effect_once (fun r r' => negb (Z.eqb (UseZones.revision (hook (snd r))) (UseZones.revision (hook (snd r')))))
       (fun _ _ => Some (run_top (UseZones.load t set_hook)))]
    (set_hook UseZones.retire).
End Page.
End Zones.

(** * Theorems *)

Module ZonesFacts.
Import Zones.
Section Facts.
Context `{Locale} (t : string -> string).

(** What the page offers when it is read-only: nothing that reaches a save or
    a deletion. *)
Definition locked_event (ev : Event) : Prop :=
  match ev with
  | ZoneFormEvent _ | ConfirmDelete | RecordFormEvent _ => False
  | _ => True
  end.

Lemma disabled_locked p s : readOnly p = true -> disabled p s = true.
Proof. unfold disabled. by intros ->. Qed.

Lemma disabled_busy p s : UseZones.busy (hook s) = true -> disabled p s = true.
Proof. unfold disabled. intros ->. by rewrite orb_true_r. Qed.

Lemma view_locked p s : readOnly p = true -> nodes_all locked_event false (view t p s).
Proof.
  intros Hr. unfold view. view_split; rewrite ?(disabled_locked p s Hr); first [view_close | done].
Qed.

(** What it offers while a mutation runs. *)
Definition busy_event (ev : Event) : Prop := match ev with SetQuery _ => True | _ => False end.

Lemma zones_view_busy p s : UseZones.busy (hook s) = true -> nodes_all busy_event false (view t p s).
Proof.
  intros Hb. unfold view.
  view_split; rewrite ?(disabled_busy p s Hb), ?Hb; first [view_close | done].
Qed.

(** Unfold a handler down to the calls of the client. *)
Ltac zones_unfold :=
  unfold handle, remove, select, save_zone, save_record, ZoneForm.handle, ZoneForm.submit,
    RecordForm.handle, RecordForm.submit, UseZones.reload, UseZones.create, UseZones.saveRecord,
    UseZones.remove, UseZones.mutate, UseZones.publish, UseZones.load, UseZones.set.

Lemma zones_lockable_page : lockable (page t) readOnly.
Proof.
  constructor; cbn [c_init c_view c_handle c_effects c_unmount page].
  - intros p s ev _. destruct ev as [| | |e| | | | | | |e|z e]; try destruct e; zones_unfold; quiet_walk.
  - intros p s ev Hr Hev.
    pose proof (nodes_all_offered _ _ _ (view_locked p s Hr) Hev) as Hok.
    destruct ev as [| | |e| | | | | | |e|z e]; try destruct e; try done; zones_unfold; quiet_walk.
  - intros ef p s q [<-|[]] [= <-]. zones_unfold. quiet_walk.
  - by intros ef p s [<-|[]].
Qed.

#[export] Instance zones_lock_safe : LockSafe (page t) readOnly.
Proof. apply lockable_lock_safe, zones_lockable_page. Qed.

#[export] Instance zones_viewer_safe : ViewerSafe (page t) (fun p => readOnly p = true).
Proof. apply lock_safe_viewer_safe, zones_lock_safe. Qed.

Definition busy (s : State) : bool := UseZones.busy (hook s).

Lemma open_creating_keeps : keeps busy open_creating.
Proof. intros s. unfold open_creating. by destruct (creating s). Qed.
#[local] Hint Resolve open_creating_keeps : velora.

Lemma zones_exclusive_page : exclusive (page t) busy false (fun _ _ => True).
Proof.
  constructor; cbn [c_init c_view c_handle c_effects c_unmount page].
  - done.
  - intros p s ev _ Hev. destruct (busy s) eqn:Hb.
    + pose proof (nodes_all_offered _ _ _ (zones_view_busy p s Hb) Hev) as Hok.
      by destruct ev.
    + destruct ev as [| | |e| | | | | | |e|z e]; try destruct e; zones_unfold; excl_walk.
  - intros ef p s q [<-|[]] [= <-]. zones_unfold. excl_walk.
  - by intros ef p s [<-|[]].
  - done.
Qed.

#[export] Instance zones_one_at_a_time : OneAtATime (page t).
Proof. apply (exclusive_one_at_a_time _ busy false), zones_exclusive_page. Qed.

(** ** Lost updates *)


(** The values of the If-Match headers of a request, and the one that names the
    revision of a zone. *)
Definition if_match (q : fetch_init) : list string :=
  map snd (filterb (fun h => String.eqb (fst h) "If-Match") (f_headers q)).
Definition etag (z : Zone) : string := dquote +:+ StringZ (z_revision z) +:+ dquote.

(** What a mutation sent in state [s] may be: what the open form or dialog
    stands for, conditional on the revision of the zone it was opened with. *)
Inductive justified (s : State) (q : fetch_init) : Prop :=
| creates_zone :
    creating s = true -> f_method q = "POST" -> f_path q = "/api/v1/zones" -> if_match q = [] ->
    justified s q
| adds_record z :
    editor s = Some (mkTarget z None) -> f_method q = "POST" ->
    f_path q = "/api/v1/zones/" +:+ StringZ (z_id z) +:+ "/records" -> if_match q = [etag z] ->
    justified s q
| edits_record z r :
    editor s = Some (mkTarget z (Some r)) -> f_method q = "PUT" ->
    f_path q = "/api/v1/zones/" +:+ StringZ (z_id z) +:+ "/records/" +:+ StringZ (zr_id r) ->
    if_match q = [etag z] -> justified s q
| deletes_zone z :
    deleting s = Some (mkTarget z None) -> f_method q = "DELETE" ->
    f_path q = "/api/v1/zones/" +:+ StringZ (z_id z) -> if_match q = [etag z] -> justified s q
| deletes_record z r :
    deleting s = Some (mkTarget z (Some r)) -> f_method q = "DELETE" ->
    f_path q = "/api/v1/zones/" +:+ StringZ (z_id z) +:+ "/records/" +:+ StringZ (zr_id r) ->
    if_match q = [etag z] -> justified s q.

Definition justified_output (s : State) (o : output) : Prop :=
  match o with Sent q => mutating q = true -> justified s q | _ => True end.

(** A form or dialog is about a zone, and a record of it, as the page lists them. *)
Definition on_screen (s : State) (tg : Target) : Prop :=
  (exists l, UseZones.zones (hook s) = Some l /\ In (tg_zone tg) l) /\
  match tg_record tg with Some r => In r (z_records (tg_zone tg)) | None => True end.

(** What becomes of the open form: it stays, it is closed, or one is opened
    where there was none, about what is on screen. *)
Definition editor_move (s s' : State) : Prop :=
  editor s' = editor s \/ editor s' = None \/
  (editor s = None /\ exists tg, editor s' = Some tg /\ on_screen s tg).
Definition deleting_move (s s' : State) : Prop :=
  deleting s' = deleting s \/ deleting s' = None \/ exists tg, deleting s' = Some tg /\ on_screen s tg.

Definition zone_step (s s' : State) (l : list output) : Prop :=
  Forall (justified_output s) l /\ editor_move s s' /\ deleting_move s s'.

(** What the page offers: the form for a zone only while it is open, the buttons
    of a zone only for what is on screen, and no second form. *)
Definition zone_event (s : State) (ev : Event) : Prop :=
  match ev with
  | ZoneFormEvent _ => creating s = true
  | ClickAddRecord z => editor s = None /\ on_screen s (mkTarget z None)
  | ClickDeleteZone z => on_screen s (mkTarget z None)
  | TableEvent z (RecordTable.Edit r) => editor s = None /\ on_screen s (mkTarget z (Some r))
  | TableEvent z (RecordTable.Remove r) => on_screen s (mkTarget z (Some r))
  | _ => True
  end.

Lemma selected_listed s z : selected s = Some z -> exists l, UseZones.zones (hook s) = Some l /\ In z l.
Proof.
  unfold selected, filteredZones. destruct (UseZones.zones (hook s)) as [l|]; [|done]. intros Hz.
  exists l. split; [done|].
  assert (In z (filterb (fun z => includes (toLowerCase (trim (query s))) (toLowerCase (z_name z))) l)) as Hin.
  { destruct (find_first _ _) as [y|] eqn:Ef.
    - injection Hz as <-. by apply find_first_Some in Ef as [? _].
    - destruct (filterb _ l); [done|]. injection Hz as <-. by left. }
  by apply In_filterb in Hin as [? _].
Qed.

Lemma zones_view_listed p s : nodes_all (zone_event s) false (view t p s).
Proof.
  unfold view. view_split; try done; try first [view_close | done].
  all: try match goal with Hz : selected _ = Some _ |- _ => apply selected_listed in Hz end.
  all: intros Hd; rewrite ?orb_false_r in Hd; cbn in Hd; repeat (apply orb_false_iff in Hd as [? Hd]).
  all: unfold zone_event, on_screen; cbn.
  all: split_and?; first [done | by destruct (editor s) | match goal with Er : z_records _ = _ |- _ => by rewrite Er end].
Qed.

(** The mutations of the hook, each justified by what it stands for. *)
Lemma request_if_match csrf path signal method o :
  if_match (request_init csrf path signal method o)
    = match opt_revision o with Some r => [dquote +:+ StringZ r +:+ dquote] | None => [] end.
Proof.
  unfold if_match, request_init, request_headers. cbn [f_headers].
  by destruct (opt_revision o), (is_safe_method method || negb (truthy csrf)).
Qed.

Lemma create_justified s e i :
  creating s = true -> Forall (justified_output s) (map Sent (sent (UseZones.create_request i e))).
Proof. intros Hc. constructor; [|constructor]. intros _. apply creates_zone; [done..|apply request_if_match]. Qed.

Lemma save_justified s e i tg :
  editor s = Some tg ->
  Forall (justified_output s) (map Sent (sent (UseZones.save_request (tg_zone tg) i (tg_record tg) e))).
Proof.
  destruct tg as [z [r|]]; intros Hs; (constructor; [intros _|constructor]).
  - apply (edits_record _ _ z r); [done..|apply request_if_match].
  - apply (adds_record _ _ z); [done..|apply request_if_match].
Qed.

Lemma remove_justified s e tg :
  deleting s = Some tg ->
  Forall (justified_output s) (map Sent (sent (UseZones.remove_request (tg_zone tg) (tg_record tg) e))).
Proof.
  destruct tg as [z [r|]]; intros Hs; (constructor; [intros _|constructor]).
  - apply (deletes_record _ _ z r); [done..|apply request_if_match].
  - apply (deletes_zone _ _ z); [done|done|cbn; by rewrite append_nil_r|apply request_if_match].
Qed.

Lemma load_justified s e path b : Forall (justified_output s) (map Sent (sent (get (list Zone) path b e))).
Proof. constructor; [intros [=]|constructor]. Qed.
#[local] Hint Resolve create_justified save_justified remove_justified load_justified : velora.

Lemma open_creating_targets s :
  editor (open_creating s) = editor s /\ deleting (open_creating s) = deleting s.
Proof. unfold open_creating. by destruct (creating s). Qed.

Ltac target_close :=
  solve
    [ left; first [reflexivity | apply open_creating_targets]
    | right; left; reflexivity
    | right; right; split_and?; try (eexists; split; [reflexivity|]); by destruct_and? ].
Ltac zone_step_close := (split; [by eauto with velora|split; target_close]).

Lemma zones_stepwise : stepwise (page t) zone_step.
Proof.
  constructor; cbn [c_init c_view c_handle c_effects c_unmount page].
  - intros s. zone_step_close.
  - intros s. zone_step_close.
  - intros p s ev Hev. pose proof (nodes_all_offered _ _ _ (zones_view_listed p s) Hev) as Hok.
    destruct ev as [| | |e| | | | | | |e|z e]; try destruct e; cbn in Hok; zones_unfold; tread_split;
      zone_step_close.
  - intros ef p s q [<-|[]] [= <-]. zones_unfold. tread_split; zone_step_close.
Qed.

(** C2: no lost updates. In every step of every run of the zones page, with every
    interleaving of clicks and replies, a mutation it sends is what the open form
    or dialog stands for, to that zone and record: a new zone, or an edit or a
    deletion whose one If-Match header carries the revision of the zone the form
    or dialog was opened with. A form or dialog is opened on a zone and a record
    as the page lists them at that moment, a form only when no other is open, and
    is never rebased: it keeps that zone until it is closed (or, for the dialog,
    replaced by another), whatever is reloaded meanwhile. *)
Theorem zones_conditional p c c' :
  reachable (page t) any_props p c -> step (page t) any_props c c' ->
  exists l, out c' = (out c ++ l)%list /\ Forall (justified_output (state c)) l /\
    editor_move (state c) (state c') /\ deleting_move (state c) (state c').
Proof. intros Hc Hs. exact (stepwise_step _ _ _ _ _ _ zones_stepwise Hc Hs). Qed.


(** C9: losing the right to edit takes effect at once: from the moment the page
    is read-only (a viewer, or a server that became a replica while the page was
    open), no step of it sends a mutation, even with a form already filled in. *)
Theorem zones_locked p c c' :
  reachable (page t) any_props p c -> readOnly (props c) = true -> step (page t) any_props c c' ->
  exists l, out c' = (out c ++ l)%list /\ Forall read_only_output l.
Proof. intros Hc Hr Hs. exact (lock_safe p c c' Hc Hr Hs). Qed.

End Facts.

(** ** Concrete instances *)

Definition open_props : Props := mkProps false None.
Definition home_zone' : Zone := mkZone 1 "home.arpa" "ns.home.arpa" "hostmaster.home.arpa" 7 [].


Definition plain_page : component Props State Event := @page plain_locale plain_text.

(** A run that opens the form for a new zone and submits it. *)
Definition submitted : config Props State :=
  fire plain_page (calm_env false) (ZoneFormEvent ZoneForm.Submit)
    (fire plain_page (calm_env false) ClickAddZone (start plain_page open_props)).

Lemma submitted_reachable : reachable plain_page any_props open_props submitted.
Proof.
  apply reach_event; [|done| |done]; [apply reach_event; [constructor|done| |done]|].
  - offer_at 0 [1; 1] 2.
  - offer_at 1 [0] 2.
Qed.

(** A run that loads one zone and asks to delete it. *)
Definition loaded : config Props State :=
  let c1 := rerun (calm_env false) 0 (effect_once
              (fun r r' => negb (Z.eqb (UseZones.revision (hook (snd r))) (UseZones.revision (hook (snd r')))))
              (fun _ _ => Some (run_top (UseZones.load plain_text set_hook)))) (start plain_page open_props) in
  Config open_props ((init open_props) <| hook := UseZones.mkHook (Some [home_zone']) "" false false 0 true |>)
    true [Task (Some 0) true Done Done] (runs c1)
    [Sent (request_init "" "/api/v1/zones" true "GET" no_options)].

Lemma loaded_reachable : reachable plain_page any_props open_props loaded.
Proof.
  pose proof (reach_effect plain_page any_props open_props (start plain_page open_props) (calm_env false)
    (reach_start _ _ _) 0 _ _ eq_refl eq_refl eq_refl eq_refl eq_refl) as H1.
  pose proof (reach_timer _ _ _ _ (calm_env false) H1 0 _ _ _ eq_refl eq_refl eq_refl) as H2.
  exact (reach_reply _ _ _ _ (calm_env false) H2 0 _ _ _ _ eq_refl eq_refl eq_refl (OkResponse 200 (inl [home_zone']))).
Qed.

Definition asked : config Props State := fire plain_page (calm_env false) (ClickDeleteZone home_zone') loaded.

Lemma asked_reachable : reachable plain_page any_props open_props asked.
Proof. apply reach_event; [apply loaded_reachable|done| |done]. offer_at 1 [1; 0; 1; 1] 3. Qed.

Lemma zones_conditional_witness :
  exists (c' : config Props State) q, out c' = (out asked ++ [Sent q])%list /\ mutating q = true /\
    deleting (state asked) = Some (mkTarget home_zone' None) /\ justified (state asked) q.
Proof.
  assert (step plain_page any_props asked (fire plain_page (calm_env false) ConfirmDelete asked)) as Hs.
  { apply step_event; [done| |done]. offer_at 1 [1; 2; 1; 0] 2. }
  destruct (@zones_conditional plain_locale plain_text open_props asked _ asked_reachable Hs) as (l & Hl & Hj & _).
  apply app_inv_head in Hl. eexists (fire plain_page (calm_env false) ConfirmDelete asked), _. split; [reflexivity|]. split; [reflexivity|]. split; [reflexivity|].
  rewrite <- Hl in Hj. inversion Hj as [|o l' Ho _]. by apply Ho.
Defined.



(** The same run after the server became a replica, and its next step. *)
Definition locked_config : config Props State :=
  Config (mkProps true None) (state submitted) (mounted submitted) (tasks submitted) (runs submitted) (out submitted).

Lemma zones_locked_witness :
  exists c', step plain_page any_props locked_config c' /\
    exists l, out c' = (out locked_config ++ l)%list /\ Forall read_only_output l.
Proof.
  assert (step plain_page any_props locked_config
            (rerun (calm_env false) 0 (effect_once
               (fun r r' => negb (Z.eqb (UseZones.revision (hook (snd r))) (UseZones.revision (hook (snd r')))))
               (fun _ _ => Some (run_top (UseZones.load plain_text set_hook)))) locked_config)) as Hs
    by (eapply step_effect; reflexivity).
  eexists. split; [exact Hs|].
  refine (@zones_locked plain_locale plain_text open_props locked_config _ _ eq_refl Hs).
  apply reach_props; [apply submitted_reachable|done].
Defined.
End ZonesFacts.
