(* ===== verification/ZoneDirectory.v ===== *)
(** * What the zones page promises: a directory of zones

    The abstract side of web/src/zones/useZones.ts: the zones shown are a finite
    map from ids to zones, and the only moves of the map are those of a
    successful answer: a listing replaces it, a created or updated zone is
    inserted, a deleted one taken out. The page's list, its sorting and its
    filters refine this map. *)
From stdpp Require Import gmap.
From S2P Require Import Prelude JsString JsNumber Url Http Api Resources React Runtime Components ZoneForms Zones.
Local Open Scope velora_scope.
Local Open Scope string_scope.

Module ZoneDirectory.
Import Zones.

(** ** The specification *)

Definition directory : Type := option (gmap Z Zone).

(** The operations of the hook, each a call with an answer. *)
Inductive op : Set :=
| OLoad
| OCreate (i : ZoneInput)
| OSave (z : Zone) (i : RecordInput) (r : option ZoneRecord)
| ORemove (z : Zone) (r : option ZoneRecord).

Definition answer (o : op) : Set := match o with OLoad => list Zone | _ => Zone end.

Definition call (o : op) : api (answer o) :=
  match o return api (answer o) with
  | OLoad => get (list Zone) "/api/v1/zones" true
  | OCreate i => UseZones.create_request i
  | OSave z i r => UseZones.save_request z i r
  | ORemove z r => UseZones.remove_request z r
  end.

Definition keyed (l : list Zone) : list (Z * Zone) := map (fun z => (z_id z, z)) l.

(** What a successful answer does to the map. *)
Definition apply_op (o : op) : answer o -> gmap Z Zone -> gmap Z Zone :=
  match o return answer o -> gmap Z Zone -> gmap Z Zone with
  | OLoad => fun l _ => list_to_map (keyed l)
  | OCreate _ | OSave _ _ _ | ORemove _ (Some _) => fun z m => <[z_id z := z]> m
  | ORemove z None => fun _ m => delete (z_id z) m
  end.

(** The answers that have an effect: a listing whose effect was not superseded,
    and any mutation while the page is there. *)
Definition applies (o : op) (e : env) (s : State) : bool :=
  match o with OLoad => negb (aborted e) | _ => UseZones.active (hook s) end.

(** The server lists each id once. *)
Definition sound_answer (o : op) : answer o -> Prop :=
  match o return answer o -> Prop with
  | OLoad => fun l => List.NoDup (ZoneFormsFacts.ids l)
  | _ => fun _ => True
  end.

(** ** The refinement relation *)

Definition represents (l : list Zone) (m : gmap Z Zone) : Prop :=
  List.NoDup (ZoneFormsFacts.ids l) /\ forall k z, m !! k = Some z <-> In z l /\ z_id z = k.

Definition shows (s : State) (d : directory) : Prop :=
  match UseZones.zones (hook s), d with
  | Some l, Some m => represents l m
  | None, None => True
  | _, _ => False
  end.
End ZoneDirectory.

(** * Theorems *)

Module ZoneDirectoryFacts.
Import Zones ZoneDirectory ZoneFormsFacts ZonesFacts.

(** ** Lists and maps *)

Lemma represents_load l : List.NoDup (ids l) -> represents l (list_to_map (keyed l)).
Proof.
  intros Hn. split; [done|]. intros k z. unfold keyed. rewrite <- elem_of_list_to_map.
  - rewrite list_elem_of_In, in_map_iff. split; [intros (y & [= <- <-] & Hy); by split|intros [Hz <-]; by exists z].
  - rewrite <- list_fmap_compose. by apply NoDup_ListNoDup.
Qed.

Lemma represents_without id l m : represents l m -> represents (UseZones.without id (Some l)) (delete id m).
Proof.
  intros [Hn Hm]. unfold UseZones.without. split; [by apply NoDup_map_filterb|].
  intros k z. rewrite lookup_delete_Some, Hm, In_filterb, negb_true_iff, Z.eqb_neq. naive_solver.
Qed.

Section Laws.
Context `{L : Locale} `{!LocaleLaws L}.

Lemma represents_published zone l m :
  represents l m -> represents (UseZones.published zone (Some l)) (<[z_id zone := zone]> m).
Proof.
  intros [Hn Hm]. destruct (published_spec zone (Some l) Hn) as (Hn' & _ & Hin). split; [done|].
  intros k z. rewrite lookup_insert_Some, Hm, Hin. cbn. naive_solver.
Qed.

(** ** Where the page's tasks wait *)

(** The concrete counterpart of [apply_op]. *)
Definition list_op (o : op) : answer o -> option (list Zone) -> list Zone :=
  match o return answer o -> option (list Zone) -> list Zone with
  | OLoad => fun l _ => l
  | OCreate _ | OSave _ _ _ | ORemove _ (Some _) => UseZones.published
  | ORemove z None => fun _ => UseZones.without (z_id z)
  end.

Definition shown_zones (s : State) : option (list Zone) := UseZones.zones (hook s).

(** The zones after running [p] in [s]. *)
Definition zones_after (e : env) (p : prog State) (s : State) : option (list Zone) :=
  shown_zones (seg_state (advance e p s)).

(** A task of the page is finished, about to ask for the list, or waits for the
    answer to one of the operations, and does to the list what the operation
    says. *)
Inductive follows : prog State -> Prop :=
| follows_done : follows Done
| follows_sleep ms k :
    (forall e s, follows (seg_todo (advance e k s)) /\ seg_forks (advance e k s) = [] /\
       zones_after e k s = shown_zones s) ->
    follows (Sleep ms k)
| follows_wait o e0 k :
    (forall e s reply, follows (seg_todo (advance e (k reply) s)) /\ seg_forks (advance e (k reply) s) = [] /\
       zones_after e (k reply) s
         = match reply with
           | inl x => if applies o e s then Some (list_op o x (shown_zones s)) else shown_zones s
           | inr _ => shown_zones s
           end) ->
    follows (Wait (call o e0) k).

Context (t : string -> string).

(** What a handler starts: at most one operation, and no change yet. *)
Definition starts (p : prog State) : Prop :=
  forall e s, follows (seg_todo (advance e p s)) /\ seg_forks (advance e p s) = [] /\
    zones_after e p s = shown_zones s.

Ltac follow_cases :=
  repeat match goal with
  | |- context [UseZones.active ?h] => let E := fresh in destruct (UseZones.active h) eqn:E; cbn; rewrite ?E; cbn
  | |- context [aborted ?e] => let E := fresh in destruct (aborted e) eqn:E; cbn; rewrite ?E; cbn
  end.
Ltac follow_reply :=
  intros ? ? [?|?]; unfold zones_after, shown_zones; cbn; follow_cases; by split_and!; try constructor.

Lemma load_starts : starts (run_top (UseZones.load t set_hook)).
Proof.
  intros e s. split_and!; [|done..]. apply follows_sleep. clear e s. intros e s.
  unfold zones_after, shown_zones. cbn. destruct (aborted e) eqn:Ea; cbn; [by split_and!; try constructor|].
  split_and!; [|done..]. apply (follows_wait OLoad e). follow_reply.
Qed.

Lemma create_starts f : starts (run_top (ZoneForm.submit t set_zone_form (save_zone t) f)).
Proof. intros e s. split_and!; [|done..]. apply (follows_wait (OCreate _) e). follow_reply. Qed.

Lemma save_starts tg f : starts (run_top (RecordForm.submit t set_record_form (save_record t tg) f)).
Proof.
  intros e s. unfold zones_after, RecordForm.submit. destruct (RecordForm.invalid f); cbn; [by split_and!; try constructor|].
  split_and!; [|done..]. apply (follows_wait (OSave (tg_zone tg) _ (tg_record tg)) e). follow_reply.
Qed.

Lemma remove_starts c : starts (run_top (remove t c)).
Proof.
  intros e s. unfold zones_after, remove. destruct (deleting c) as [[z r]|]; cbn; [|by split_and!; try constructor].
  split_and!; [|done..]. apply (follows_wait (ORemove z r) e). destruct r; follow_reply.
Qed.

Lemma handle_starts p c ev : starts (handle t p c ev).
Proof.
  assert (forall p, (forall e s, seg_todo (advance e p s) = Done /\ seg_forks (advance e p s) = [] /\
            zones_after e p s = shown_zones s) -> starts p) as Hdone.
  { intros q Hq e s. destruct (Hq e s) as (-> & ? & ?). split_and!; [constructor|done..]. }
  destruct ev as [| | |fe| | | | | | |fe|z fe]; unfold handle; try (destruct fe); try (destruct (editor c)).
  all: first [apply create_starts | apply save_starts | apply remove_starts
             |apply Hdone; intros e s; unfold zones_after, shown_zones, open_creating; cbn; split_and!;
                try done; by destruct (creating _)].
Qed.

(** Running a waiting task again leaves a task of the same kind. *)
Lemma follows_leaves q :
  follows q ->
  match q with
  | Wait p k => forall u s, leaves follows (k (settle p u)) s
  | Sleep _ k => forall s, leaves follows k s
  | Again _ => False
  | _ => True
  end.
Proof.
  assert (forall p s e, seg_forks (advance e p s) = [] -> Forall follows (seg_forks (advance e p s))) as Hnil.
  { intros p s e ->. constructor. }
  destruct 1 as [|ms k Hk|o e0 k Hk]; [done|intros s e|intros u s e].
  - destruct (Hk e s) as (? & ? & _). auto.
  - destruct (Hk e s (settle (call o e0) u)) as (? & ? & _). auto.
Qed.

Lemma starts_leaves p s : starts p -> leaves follows p s.
Proof. intros Hp e. destruct (Hp e s) as (? & -> & _). by split; [|constructor]. Qed.

Lemma zones_controlled : controlled (page t) follows.
Proof.
  constructor; cbn [c_init c_view c_handle c_effects c_unmount page].
  - constructor.
  - intros p s ev _. apply starts_leaves, handle_starts.
  - intros ef p s q [<-|[]] [= <-]. apply starts_leaves, load_starts.
  - intros A p k u s Hf. apply (follows_leaves _ Hf).
  - intros ms k s Hf. apply (follows_leaves _ Hf).
  - intros ms q s Hf. destruct (follows_leaves _ Hf).
Qed.

(** ** Simulation *)

Lemma shows_empty : represents [] ∅.
Proof. split; [constructor|]. intros k z. rewrite lookup_empty. by split; [|intros [[] _]]. Qed.

Lemma shows_op o x cur d :
  sound_answer o x ->
  match cur, d with Some l, Some m => represents l m | None, None => True | _, _ => False end ->
  represents (list_op o x cur) (apply_op o x (d ?? ∅)).
Proof.
  intros Hx Hs.
  assert (exists l, represents l (d ?? ∅) /\ forall zone, UseZones.published zone cur = UseZones.published zone (Some l)
            /\ UseZones.without (z_id zone) cur = UseZones.without (z_id zone) (Some l)) as (l & Hl & Heq).
  { destruct cur as [l|], d as [m|]; try done; [by exists l|exists []; split; [apply shows_empty|done]]. }
  destruct o as [|i|z i r|z [r|]]; cbn in x, Hx |- *.
  1: by apply represents_load.
  1-3: rewrite (proj1 (Heq _)); by apply represents_published.
  rewrite (proj2 (Heq _)). by apply represents_without.
Qed.

Lemma shows_same s s' d : shown_zones s' = shown_zones s -> shows s d -> shows s' d.
Proof. unfold shows, shown_zones. by intros ->. Qed.

(** [c'] is [c] after an answer to a task's request. *)
Definition replied (c c' : config Props State) : Prop :=
  exists i tk (T : Set) (q : promise T) k u e,
    tasks c !! i = Some tk /\ t_todo tk = Wait q k /\ c' = resume e i tk (k (settle q u)) c.

Lemma step_shows p c c' d :
  reachable (page t) any_props p c -> shows (state c) d -> step (page t) any_props c c' ->
  shows (state c') d \/ replied c c'.
Proof.
  intros Hc Hs Hstep. pose proof (controlled_reachable _ _ _ _ _ zones_controlled Hc) as Hf.
  destruct Hstep as [c ev e _ Hev _|c i tk A q k u e Ht Hw _|c i tk ms k e Ht Hw _|c i tk ms e Ht Hw _
                    |c i ef prev e _ Hef _ _ _|c p' _|c _].
  - left. eapply shows_same; [|exact Hs]. apply (handle_starts (props c) (state c) ev).
  - right. by exists i, tk, A, q, k, u, e.
  - left. eapply shows_same; [|exact Hs]. pose proof (Forall_lookup_1 _ _ _ _ Hf Ht) as Hk. cbn in Hk.
    rewrite Hw in Hk. inversion_clear Hk as [|ms' k' Hk'|]. apply Hk'.
  - pose proof (Forall_lookup_1 _ _ _ _ Hf Ht) as Hk. cbn in Hk. rewrite Hw in Hk. inversion Hk.
  - left. eapply shows_same; [|exact Hs]. destruct i as [|i]; [|done]. injection Hef as <-.
    apply (load_starts e (state c)).
  - left. exact Hs.
  - left. eapply shows_same; [|exact Hs]. done.
Qed.

(** C4: the zones page refines a directory of zones by id. It starts with no
    directory. In every run, no click, timer, re-render or unmount changes the
    directory; only answers do, and every task waiting for one waits for the
    answer to one of the four operations: a failure leaves the directory as it
    is, and so does an answer that was superseded or found the page gone; a
    listing (with each id once) replaces it, a created or saved zone is inserted
    under its id, and a deleted zone is taken out. *)
Theorem zones_refine_directory p c d :
  reachable (page t) any_props p c -> shows (state c) d ->
  (forall c', step (page t) any_props c c' -> shows (state c') d \/ replied c c') /\
  (forall i tk (T : Set) (q : promise T) k, tasks c !! i = Some tk -> t_todo tk = Wait q k ->
     exists o e0 k', t_todo tk = Wait (call o e0) k' /\
       forall e u, let c' := resume e i tk (k' (settle (call o e0) u)) c in
         match settle (call o e0) u with
         | inl x => if applies o e (state c)
                    then sound_answer o x -> shows (state c') (Some (apply_op o x (d ?? ∅)))
                    else shows (state c') d
         | inr _ => shows (state c') d
         end) /\
  shows (init p) None.
Proof.
  intros Hc Hs. split; [|split; [|done]].
  - intros c'. by apply (step_shows p).
  - intros i tk T q k Ht Hw. pose proof (controlled_reachable _ _ _ _ _ zones_controlled Hc) as Hf.
    pose proof (Forall_lookup_1 _ _ _ _ Hf Ht) as Hk. cbn in Hk. revert Hw.
    destruct Hk as [|ms k1 H1|o e0 k1 H1]; intros Hw; [done..|]. clear Hw.
    exists o, e0, k1. split; [done|]. intros e u. cbv zeta. destruct (H1 e (state c) (settle (call o e0) u)) as (_ & _ & Hz).
    unfold zones_after in Hz. destruct (settle (call o e0) u) as [x|x].
    + destruct (applies o e (state c)); [|by eapply shows_same].
      intros Hx. unfold shows. change (UseZones.zones (hook ?s)) with (shown_zones s) in *.
      cbn [state resume run_segment]. rewrite Hz. by apply shows_op.
    + by eapply shows_same.
Qed.
End Laws.

(** The page with a submitted form for a new zone: one task waits, for the answer
    to one of the operations, and no directory is shown yet. *)
Lemma zones_refine_directory_witness :
  shows (state submitted) None /\
  exists i tk o e0 k', tasks submitted !! i = Some tk /\ t_todo tk = Wait (call o e0) k'.
Proof.
  destruct (@zones_refine_directory plain_locale _ plain_text open_props submitted None submitted_reachable I)
    as (_ & H & _).
  split; [exact I|]. destruct (H 1 _ _ _ _ eq_refl eq_refl) as (o & e0 & k' & Hw & _).
  eexists 1, _, o, e0, k'. split; [reflexivity|exact Hw].
Defined.
End ZoneDirectoryFacts.
