(* ===== verification/Policies.v ===== *)
(** * The client policies page: web/src/pages/Policies.tsx *)
From S2P Require Import Prelude JsString JsNumber Url Http Api Resources React Runtime Components.
Local Open Scope velora_scope.
Local Open Scope prog_scope.
Local Open Scope string_scope.

Module Policies.

Record Editor : Set := mkEditor {
  ed_id : option Z; ed_client : jsnum; ed_mode : PolicyMode; ed_blocklists : list Z;
  ed_allow : string; ed_block : string; ed_enabled : bool }.
#[export] Instance eta_Editor : Eta Editor := fun s =>
  mkEditor (ed_id s) (ed_client s) (ed_mode s) (ed_blocklists s) (ed_allow s) (ed_block s) (ed_enabled s).

Definition MODE_BADGE (m : PolicyMode) : string :=
  match m with mode_default => "badge" | mode_disabled => "badge warning" | mode_custom => "badge info" end.

Definition is_custom (m : PolicyMode) : bool := match m with mode_custom => true | _ => false end.

(** The domains of a text field, separated by blanks and commas. *)
Definition domains (text : string) : list string :=
  filterb truthy (map trim (split_runs is_list_sep text)).

Record Props : Set := mkProps { readOnly : bool }.

Record State : Set := mkState {
  policies : option (list Policy);
  clients_ : list ClientView;
  sources : list BlocklistSource;
  error : string;
  notice : string;
  busy : bool;
  editor : option Editor;
  lookup : string;
  effective : option EffectivePolicy }.
#[export] Instance eta_State : Eta State := fun s =>
  mkState (policies s) (clients_ s) (sources s) (error s) (notice s) (busy s) (editor s) (lookup s)
    (effective s).

Definition init (_ : Props) : State := mkState None [] [] "" "" false None "" None.

Inductive Event : Set :=
| SetLookup (v : string)
| Check
| ClickReload
| ClickNew
| SetEditor (e : option Editor)
| Submit
| ClickToggle (policy : Policy)
| ClickEdit (policy : Policy)
| ClickDelete (policy : Policy).

Section Page.
Context (t : string -> string).

Definition load (signal : bool) : M State unit :=
  try_catch
    (next <- await (all3 (loadPolicies signal) (loadClients signal)
                      (get (list BlocklistSource) "/api/v1/blocklists" signal)) ;;
     e <- ask ;;
     when_do (negb (signal && aborted e))
       (update (fun s => s <| policies := Some (fst (fst next)) |>) ;;
        update (fun s => s <| clients_ := clients (snd (fst next)) |>) ;;
        update (fun s => s <| sources := snd next |>) ;;
        update (fun s => s <| error := "" |>)))
    (fun x => e <- ask ;;
       when_do (negb (signal && aborted e))
         (update (fun s => s <| error := error_message x (t "policies.load_failed") |>))).

Definition run {T : Set} (action : api T) (ok_notice : string) : M State bool :=
  update (fun s => s <| busy := true |>) ;;
  update (fun s => s <| error := "" |>) ;;
  update (fun s => s <| notice := "" |>) ;;
  try_finally
    (try_catch
       (_ <- await action ;;
        update (fun s => s <| notice := ok_notice |>) ;;
        update (fun s => s <| effective := None |>) ;;
        load false ;;
        ret true)
       (fun x =>
          update (fun s => s <| error := error_message x (t "policies.save_failed") |>) ;;
          ret false))
    (update (fun s => s <| busy := false |>)).

(** Only a custom policy carries lists and domains. *)
Definition toInput (form : Editor) : PolicyInput :=
  mkPolicyInput (ed_client form) (ed_mode form)
    (if is_custom (ed_mode form) then ed_blocklists form else [])
    (if is_custom (ed_mode form) then domains (ed_allow form) else [])
    (if is_custom (ed_mode form) then domains (ed_block form) else [])
    (ed_enabled form).

Definition inputOf (p : Policy) : PolicyInput :=
  mkPolicyInput (num (po_client_id p)) (po_mode p) (po_blocklists p) (po_allow p) (po_block p) (po_enabled p).

Definition toggled (i : PolicyInput) (enabled : bool) : PolicyInput :=
  mkPolicyInput (pin_client_id i) (pin_mode i) (pin_blocklists i) (pin_allow i) (pin_block i) enabled.

Definition editor_of (p : Policy) : Editor :=
  mkEditor (Some (po_id p)) (num (po_client_id p)) (po_mode p) (po_blocklists p)
    (joinStrings (String "010" "") (po_allow p)) (joinStrings (String "010" "") (po_block p)) (po_enabled p).

Definition save (c : State) : M State unit :=
  match editor c with
  | None => ret tt
  | Some ed =>
      ok <- (match ed_id ed with
             | None => run (createPolicy (toInput ed)) (t "policies.saved")
             | Some id => run (updatePolicy id (toInput ed)) (t "policies.saved")
             end) ;;
      when_do ok (update (fun s => s <| editor := None |>))
  end.

Definition check (c : State) : M State unit :=
  update (fun s => s <| error := "" |>) ;;
  try_catch
    (r <- await (effectivePolicy (trim (lookup c))) ;; update (fun s => s <| effective := Some r |>))
    (fun x => update (fun s => s <| effective := None |>) ;;
              update (fun s => s <| error := error_message x (t "policies.load_failed") |>)).

Definition clientName (s : State) (id : Z) : string :=
  match find_first (fun v => Z.eqb (cl_id (cv_client v)) id) (clients_ s) with
  | Some v => cl_name (cv_client v)
  | None => "#" +:+ StringZ id
  end.
Definition sourceName (s : State) (id : Z) : string :=
  match find_first (fun b => Z.eqb (bs_id b) id) (sources s) with
  | Some b => bs_name b
  | None => "#" +:+ StringZ id
  end.

(** Whether a client already has a policy. *)
Definition has_policy (s : State) (v : ClientView) : bool :=
  someb (fun p => Z.eqb (po_client_id p) (cl_id (cv_client v))) (policies s ?? []).

(** The clients the editor may choose: its own and those without a policy. *)
Definition available (s : State) (ed : Editor) : list ClientView :=
  filterb (fun v => num_is (ed_client ed) (cl_id (cv_client v)) || negb (has_policy s v)) (clients_ s).

Definition modeLabel (m : PolicyMode) : string := t ("policies.mode_" +:+ mode_str m).

Definition new_editor (s : State) : Editor :=
  mkEditor None
    (num (match find_first (fun v => negb (has_policy s v)) (clients_ s) with
          | Some v => cl_id (cv_client v)
          | None => 0
          end)) mode_custom [] "" "" true.

Definition summary_text (s : State) (p : Policy) : string :=
  match po_mode p with
  | mode_disabled => t "policies.summary_disabled"
  | mode_default => t "policies.summary_default"
  | mode_custom =>
      joinStrings " · "
        ([match po_blocklists p with
          | [] => t "policies.no_lists"
          | l => joinStrings ", " (map (sourceName s) l)
          end]
         ++ match po_block p with
            | [] => []
            | l => ["+" +:+ StringZ (Z.of_nat (length l)) +:+ " " +:+ t "policies.blocked_short"]
            end
         ++ match po_allow p with
            | [] => []
            | l => [StringZ (Z.of_nat (length l)) +:+ " " +:+ t "policies.allowed_short"]
            end)
  end.

Definition drop {A} (m : M State A) : M State unit := _ <- m ;; ret tt.

Definition handle (p : Props) (c : State) (ev : Event) : prog State :=
  run_top
    match ev with
    | SetLookup v => update (fun s => s <| lookup := v |>)
    | Check => check c
    | ClickReload => load false
    | ClickNew =>
        update (fun s => s <| editor := Some (new_editor c) |>) ;;
        update (fun s => s <| notice := "" |>)
    | SetEditor e => update (fun s => s <| editor := e |>)
    | Submit => save c
    | ClickToggle po => drop (run (updatePolicy (po_id po) (toggled (inputOf po) (negb (po_enabled po)))) "")
    | ClickEdit po =>
        update (fun s => s <| editor := Some (editor_of po) |>) ;;
        update (fun s => s <| notice := "" |>) ;;
        emit ScrollTop
    | ClickDelete po =>
        e <- ask ;;
        when_do (confirm e (t "policies.delete_confirm" +:+ " " +:+ clientName c (po_client_id po) +:+ "?"))
          (drop (run (deletePolicy (po_id po)) ""))
    end.

(** ** The view *)

Definition toolbar (p : Props) (s : State) : node Event :=
  El div ["className" =: "zones-toolbar"]
    [El form ["className" =: "policy-lookup"; "role" =: "search"; OnSubmit Check]
       [El label ["className" =: "sr-only"; "htmlFor" =: "policy-lookup"] [Txt (t "policies.lookup")];
        El input ["id" =: "policy-lookup"; "value" =: lookup s; OnChange SetLookup;
                  "placeholder" =: "192.168.1.40"; "spellCheck" =: "false"; "autoComplete" =: "off";
                  flag "required"] [];
        El button ["className" =: "button"; "type" =: "submit"]
          [Icon "Search" 15; Txt (t "policies.lookup")]];
     El div []
       [El button ["className" =: "button"; Disabled (busy s); OnClick ClickReload]
          [Icon "RefreshCw" 15; Txt (t "blocklists.reload")];
        El button ["className" =: "button primary";
                   Disabled (busy s || readOnly p || opt_is_some (editor s)
                             || Nat.eqb (length (clients_ s)) 0);
                   OnClick ClickNew] [Icon "Plus" 15; Txt (t "policies.add")]]].

Definition effective_notice (s : State) (r : EffectivePolicy) : node Event :=
  El div ["className" =: "notice info"; "role" =: "status"]
    match ep_client r with
    | Some c =>
        [El strong [] [Txt (trim (lookup s))]; Txt (" → " +:+ cl_name c +:+ ": ");
         El span ["className" =: MODE_BADGE (ep_mode r)] [Txt (modeLabel (ep_mode r))]]
        ++ when (negb (opt_is_some (ep_policy r))) [Txt (" " +:+ t "policies.no_policy")]
    | None => [El strong [] [Txt (trim (lookup s))]; Txt (" " +:+ t "policies.unknown_address")]
    end.

Definition editor_title (ed : Editor) : string :=
  if opt_is_some (ed_id ed) then t "policies.edit_title" else t "policies.add_title".

Definition toggle_list (ed : Editor) (id : Z) (on : bool) : Editor :=
  ed <| ed_blocklists := if on then (ed_blocklists ed ++ [id])%list
                         else filterb (fun i => negb (Z.eqb i id)) (ed_blocklists ed) |>.

Definition custom_fields (s : State) (ed : Editor) : list (node Event) :=
  [El fieldset ["className" =: "policy-lists"]
     (El legend [] [Txt (t "policies.blocklists")]
      :: when (Nat.eqb (length (sources s)) 0) [El small [] [Txt (t "policies.no_sources")]]
      ++ each (sources s) (fun b =>
           [El label ["className" =: "check-field"]
              ([El input ["type" =: "checkbox"; "checked" =: bool_str (existsb (Z.eqb (bs_id b)) (ed_blocklists ed));
                          OnCheck (fun on => SetEditor (Some (toggle_list ed (bs_id b) on)))] [];
                Txt (bs_name b)]
               ++ when (negb (bs_enabled b)) [El small [] [Txt ("(" +:+ t "policies.globally_off" +:+ ")")]])]));
   El div ["className" =: "form-grid policy-grid"]
     [El label []
        [Txt (t "policies.block");
         El textarea ["rows" =: "4"; "value" =: ed_block ed;
                      OnChange (fun v => SetEditor (Some (ed <| ed_block := v |>)));
                      "placeholder" =: "games.example"; "spellCheck" =: "false"] [];
         El small [] [Txt (t "policies.domains_hint")]];
      El label []
        [Txt (t "policies.allow");
         El textarea ["rows" =: "4"; "value" =: ed_allow ed;
                      OnChange (fun v => SetEditor (Some (ed <| ed_allow := v |>)));
                      "placeholder" =: "school.example"; "spellCheck" =: "false"] [];
         El small [] [Txt (t "policies.allow_hint")]]]].

(** The value of a client option is its id, read back with [Number]. *)
Definition choose_client (ed : Editor) (v : ClientView) : Event :=
  SetEditor (Some (ed <| ed_client := Number (StringZ (cl_id (cv_client v))) |>)).

Definition editor_fields (s : State) (ed : Editor) : list (node Event) :=
  [El div ["className" =: "form-grid policy-grid"]
     [El label []
        [Txt (t "policies.client");
         El select ["value" =: num_str (ed_client ed); OnSelect (map (choose_client ed) (available s ed));
                    flag "required"]
           (each (available s ed) (fun v =>
              [El option_ ["value" =: StringZ (cl_id (cv_client v))] [Txt (cl_name (cv_client v))]]))];
      El label []
        [Txt (t "policies.mode");
         El select ["value" =: mode_str (ed_mode ed);
                    OnSelect (map (fun m => SetEditor (Some (ed <| ed_mode := m |>)))
                                [mode_custom; mode_disabled; mode_default])]
           [El option_ ["value" =: "custom"] [Txt (t "policies.mode_custom")];
            El option_ ["value" =: "disabled"] [Txt (t "policies.mode_disabled")];
            El option_ ["value" =: "default"] [Txt (t "policies.mode_default")]];
         El small [] [Txt (t ("policies.mode_" +:+ mode_str (ed_mode ed) +:+ "_hint"))]]]]
  ++ when (is_custom (ed_mode ed)) (custom_fields s ed)
  ++ [El label ["className" =: "check-field"]
        [El input ["type" =: "checkbox"; "checked" =: bool_str (ed_enabled ed);
                   OnCheck (fun b => SetEditor (Some (ed <| ed_enabled := b |>)))] [];
         Txt (t "policies.enabled")];
      El div ["className" =: "form-actions"]
        [El button ["className" =: "button primary"; "type" =: "submit";
                    Disabled (negb (jsnum_truthy (ed_client ed)))] [Txt (t "policies.save")];
         El button ["className" =: "button"; "type" =: "button"; OnClick (SetEditor None)]
           [Txt (t "forwarding.cancel")]]].

Definition editor_panel (s : State) (ed : Editor) : node Event :=
  El section ["className" =: "panel form-panel"]
    [El form ["className" =: "zone-form"; "aria-label" =: editor_title ed; OnSubmit Submit]
       [El div [] [El h3 [] [Txt (editor_title ed)]; El p_ [] [Txt (t "policies.form_hint")]];
        El fieldset [Disabled (busy s)] (editor_fields s ed)]].

Definition policy_row (p : Props) (s : State) (po : Policy) : node Event :=
  let name := clientName s (po_client_id po) in
  El tr []
    [El td []
       [El span ["className" =: "endpoint"]
          [El button ["className" =: "switch"; "role" =: "switch"; "aria-checked" =: bool_str (po_enabled po);
                      "aria-label" =: (t "policies.toggle" +:+ ": " +:+ name);
                      Disabled (busy s || readOnly p); OnClick (ClickToggle po)] [];
           El a_ ["href" =: ("/clients?name=" +:+ encodeURIComponent name)] [El strong [] [Txt name]]]];
     El td []
       [El span ["className" =: (if po_enabled po then MODE_BADGE (po_mode po) else "badge")]
          [Txt (if po_enabled po then modeLabel (po_mode po) else t "policies.paused")]];
     El td ["className" =: "wrap cell-muted"] [Txt (summary_text s po)];
     El td []
       [El div ["className" =: "table-actions"]
          [El button ["className" =: "icon-button";
                      Disabled (busy s || readOnly p || opt_is_some (editor s));
                      "title" =: t "policies.edit"; "aria-label" =: (t "policies.edit" +:+ " " +:+ name);
                      OnClick (ClickEdit po)] [Icon "Pencil" 15];
           El button ["className" =: "icon-button danger-icon"; Disabled (busy s || readOnly p);
                      "title" =: t "policies.delete"; "aria-label" =: (t "policies.delete" +:+ " " +:+ name);
                      OnClick (ClickDelete po)] [Icon "Trash2" 15]]]].

Definition policies_panel (p : Props) (s : State) (l : list Policy) : node Event :=
  El section ["className" =: "panel"]
    [El div ["className" =: "table-wrap"]
       [El table []
          [El caption ["className" =: "sr-only"] [Txt (t "app.title.policies")];
           El thead []
             [El tr [] [El th [] [Txt (t "policies.client")]; El th [] [Txt (t "policies.mode")];
                        El th [] [Txt (t "policies.details")];
                        El th [] [El span ["className" =: "sr-only"] [Txt (t "zones.col_actions")]]]];
           El tbody [] (each l (fun po => [policy_row p s po]))]]].

Definition empty_text (s : State) : list (node Event) :=
  match clients_ s with
  | [] => [Txt (t "policies.need_clients" +:+ " "); El a_ ["href" =: "/clients"] [Txt (t "app.nav.clients")]]
  | _ => [Txt (t "policies.empty_text")]
  end.

Definition view (p : Props) (s : State) : list (node Event) :=
  [toolbar p s]
  ++ when_some (effective s) (fun r => [effective_notice s r])
  ++ error_notice (error s)
  ++ success_notice (notice s)
  ++ when_some (editor s) (fun ed => [editor_panel s ed])
  ++ [El div ["className" =: "stack"]
        (when (negb (opt_is_some (policies s)) && negb (truthy (error s)))
           [El section ["className" =: "panel"] [Loading [Txt (t "app.connecting_panel")]]]
         ++ match policies s with
            | None => []
            | Some [] =>
                [El section ["className" =: "panel"]
                   [EmptyState (Some (Icon "ShieldCheck" 22)) (t "policies.empty_title") (empty_text s) [] false]]
            | Some l => [policies_panel p s l]
            end)].

Definition page : component Props State Event :=
  mkComponent init view handle
    [effect_once (fun _ _ => false) (fun _ _ => Some (run_top (sleep 0 ;; load true)))]
    (fun s => s).
End Page.
End Policies.

(** * Theorems *)

Module PoliciesFacts.
Import Policies.
Section Facts.
Context (t : string -> string).

Definition viewer_event (ev : Event) : Prop :=
  match ev with SetLookup _ | Check | ClickReload => True | _ => False end.

Lemma policies_view_viewer p s :
  readOnly p = true -> editor s = None -> nodes_all viewer_event false (view t p s).
Proof.
  intros Hr He. unfold view. rewrite He. view_split; rewrite ?Hr; first [view_close | done].
Qed.

(** What the page offers while a mutation is running: the lookup stays usable. *)
Definition busy_event (ev : Event) : Prop := match ev with SetLookup _ | Check => True | _ => False end.

Lemma policies_view_busy p s : busy s = true -> nodes_all busy_event false (view t p s).
Proof. intros Hb. unfold view. view_split; rewrite ?Hb; first [view_close | done]. Qed.

Definition viewer_inv (p : Props) (s : State) : Prop := readOnly p = true /\ editor s = None.

Lemma policies_load_reads signal :
  reads_only (all3 (loadPolicies signal) (loadClients signal)
                (get (list BlocklistSource) "/api/v1/blocklists" signal)).
Proof. unfold all3. eauto with velora. Qed.
Lemma policies_effective_reads ip : reads_only (effectivePolicy ip).
Proof. apply reads_only_get. Qed.
#[local] Hint Resolve policies_load_reads policies_effective_reads : velora.

Lemma policies_verified_viewer p :
  readOnly p = true -> verified (page t) (still (fun p => readOnly p = true)) viewer_inv read_only_output p.
Proof.
  intros Hp. constructor; cbn [c_init c_view c_handle c_effects c_unmount page].
  - done.
  - intros p' s ev [Hr He] Hev.
    pose proof (nodes_all_offered _ _ _ (policies_view_viewer p' s Hr He) Hev) as H.
    destruct ev; try done; unfold handle, check, load; wp_split;
      first [apply policies_load_reads | apply policies_effective_reads | wp_close].
  - intros ef p' s q [<-|[]] [Hr He] [= <-]. unfold load.
    wp_split; first [apply policies_load_reads | wp_close].
  - intros ef p' s [<-|[]] _ p'' s' H. exact H.
  - intros p1 p2 s [_ He] Hp2. by split.
  - done.
Qed.

#[export] Instance policies_viewer_safe : ViewerSafe (page t) (fun p => readOnly p = true).
Proof. apply (verified_viewer_safe _ viewer_inv). apply policies_verified_viewer. Qed.

Lemma policies_exclusive_page : exclusive (page t) busy true (fun _ _ => True).
Proof.
  constructor; cbn [c_init c_view c_handle c_effects c_unmount page].
  - done.
  - intros p s ev _ Hev. destruct (busy s) eqn:Hb.
    + pose proof (nodes_all_offered _ _ _ (policies_view_busy p s Hb) Hev) as H.
      destruct ev; try done; unfold handle, check; excl_walk.
    + destruct ev; unfold handle, save, drop, run, check, load; excl_walk.
  - intros ef p s q [<-|[]] [= <-]. unfold load. excl_walk.
  - by intros ef p s [<-|[]].
  - done.
Qed.

#[export] Instance policies_one_at_a_time : OneAtATime (page t).
Proof. apply (exclusive_one_at_a_time _ busy true), policies_exclusive_page. Qed.

#[export] Instance policies_unblocks : Unblocks (page t) busy.
Proof. apply exclusive_unblocks, policies_exclusive_page. Qed.

(** Joined with line feeds, domains come back from the text field. *)
Lemma domains_join l :
  Forall (fun d => is_word is_list_sep d = true) l -> domains (joinStrings (String "010" "") l) = l.
Proof.
  intros Hl. unfold domains. rewrite <- (split_runs_join is_list_sep (String "010" "") l) at 2 by done.
  f_equal. rewrite <- (List.map_id (split_runs _ _)) at 2. apply List.map_ext_in. intros w Hw.
  apply trim_no_space. pose proof (split_runs_no_sep is_list_sep (joinStrings (String "010" "") l)) as Hn.
  rewrite List.Forall_forall in Hn. specialize (Hn w Hw). clear -Hn.
  induction w as [|c w IH]; [done|]. simpl in Hn |- *. unfold is_list_sep in Hn.
  rewrite negb_orb in Hn. destruct_bool_hyps. rewrite Hn. by apply IH.
Qed.

(** Opening a policy and saving it unchanged sends it back. *)
Lemma policies_unchanged pol :
  (is_custom (po_mode pol) = false -> po_blocklists pol = [] /\ po_allow pol = [] /\ po_block pol = []) ->
  Forall (fun d => is_word is_list_sep d = true) (po_allow pol) ->
  Forall (fun d => is_word is_list_sep d = true) (po_block pol) ->
  toInput (editor_of pol) = inputOf pol.
Proof.
  intros Hm Ha Hb. unfold toInput, editor_of, inputOf.
  cbn [ed_client ed_mode ed_blocklists ed_allow ed_block ed_enabled]. rewrite !domains_join by done.
  destruct (is_custom (po_mode pol)); [done|]. by destruct (Hm eq_refl) as (-> & -> & ->).
Qed.
End Facts.
End PoliciesFacts.
