(* ===== verification/Webhooks.v ===== *)
(** * The webhooks page: web/src/pages/Webhooks.tsx *)
From S2P Require Import Prelude JsString JsNumber Url Http Api Resources React Runtime Components.
Local Open Scope velora_scope.
Local Open Scope prog_scope.
Local Open Scope string_scope.

Module Webhooks.

(** [ed_token]: [None] keeps the stored token; [Some ""] removes it. *)
Record Editor : Set := mkEditor {
  ed_id : option Z; ed_name : string; ed_url : string; ed_events : list string;
  ed_minSeverity : severity; ed_allowPrivate : bool; ed_enabled : bool; ed_hasToken : bool;
  ed_token : option string }.
#[export] Instance eta_Editor : Eta Editor := fun s =>
  mkEditor (ed_id s) (ed_name s) (ed_url s) (ed_events s) (ed_minSeverity s) (ed_allowPrivate s)
    (ed_enabled s) (ed_hasToken s) (ed_token s).

Definition blank : Editor := mkEditor None "" "" [] sev_info false true false (Some "").

Record State : Set := mkState {
  hooks : option (list Webhook); eventTypes : list string; error : string; notice : string;
  busy : bool; editor : option Editor }.
#[export] Instance eta_State : Eta State := fun s =>
  mkState (hooks s) (eventTypes s) (error s) (notice s) (busy s) (editor s).

Definition init (_ : unit) : State := mkState None [] "" "" false None.

Inductive Event : Set :=
| ClickReload
| ClickAdd
| SetEditor (e : option Editor)
| Submit
| ClickToggle (hook : Webhook)
| ClickTest (hook : Webhook)
| ClickEdit (hook : Webhook)
| ClickDelete (hook : Webhook).

Section Page.
Context {L : Locale} (t : string -> string) (language : string).

Definition load (signal : bool) : M State unit :=
  try_catch
    (next <- await (all2 (loadWebhooks signal) (loadEventTypes signal)) ;;
     e <- ask ;;
     when_do (negb (signal && aborted e))
       (update (fun s => s <| hooks := Some (fst next) |>) ;;
        update (fun s => s <| eventTypes := snd next |>) ;;
        update (fun s => s <| error := "" |>)))
    (fun x => e <- ask ;;
       when_do (negb (signal && aborted e))
         (update (fun s => s <| error := error_message x (t "webhooks.load_failed") |>))).

Definition run {T : Set} (action : api T) (ok_notice : string) : M State bool :=
  update (fun s => s <| busy := true |>) ;;
  update (fun s => s <| error := "" |>) ;;
  update (fun s => s <| notice := "" |>) ;;
  try_finally
    (try_catch
       (_ <- await action ;;
        update (fun s => s <| notice := ok_notice |>) ;;
        load false ;;
        ret true)
       (fun x =>
          update (fun s => s <| error := error_message x (t "webhooks.save_failed") |>) ;;
          ret false))
    (update (fun s => s <| busy := false |>)).

(** A stored webhook as an input: the token is left alone. *)
Definition inputOf (h : Webhook) : WebhookInput :=
  mkWebhookInput (wh_name h) (wh_url h) (wh_events h) (wh_min_severity h) (wh_allow_private h)
    (wh_enabled h) None.

Definition toggled (i : WebhookInput) (enabled : bool) : WebhookInput :=
  mkWebhookInput (wi_name i) (wi_url i) (wi_events i) (wi_min_severity i) (wi_allow_private i)
    enabled (wi_token i).

(** The input [save] builds from the editor. *)
Definition input_of (ed : Editor) : WebhookInput :=
  mkWebhookInput (trim (ed_name ed)) (trim (ed_url ed)) (ed_events ed) (ed_minSeverity ed)
    (ed_allowPrivate ed) (ed_enabled ed)
    (match ed_token ed with Some tok => Some (trim tok) | None => None end).

Definition save (c : State) : M State unit :=
  match editor c with
  | None => ret tt
  | Some ed =>
      ok <- (match ed_id ed with
             | None => run (createWebhook (input_of ed)) (t "webhooks.saved")
             | Some id => run (updateWebhook id (input_of ed)) (t "webhooks.saved")
             end) ;;
      when_do ok (update (fun s => s <| editor := None |>))
  end.

Definition sendTest (h : Webhook) : M State unit :=
  update (fun s => s <| busy := true |>) ;;
  update (fun s => s <| error := "" |>) ;;
  update (fun s => s <| notice := "" |>) ;;
  try_finally
    (try_catch
       (result <- await (testWebhook (wh_id h)) ;;
        load false ;;
        if wt_ok result
        then update (fun s => s <| notice := t "webhooks.test_ok" +:+ " " +:+ wh_name h +:+ " ("
                                             +:+ wh_last_status (wt_webhook result) +:+ ")" |>)
        else update (fun s => s <| error := t "webhooks.test_failed" +:+ " " +:+ wh_name h +:+ ": "
                                            +:+ wt_error result |>))
       (fun x => update (fun s => s <| error := error_message x (t "webhooks.test_failed") |>)))
    (update (fun s => s <| busy := false |>)).

Definition toggleEvent (ed : Editor) (type : string) (on : bool) : Editor :=
  ed <| ed_events := if on then (ed_events ed ++ [type])%list
                     else filterb (fun item => negb (String.eqb item type)) (ed_events ed) |>.

Definition editor_of (h : Webhook) : Editor :=
  mkEditor (Some (wh_id h)) (wh_name h) (wh_url h) (wh_events h) (wh_min_severity h) (wh_allow_private h)
    (wh_enabled h) (wh_has_token h) (if wh_has_token h then None else Some "").

Definition drop {A} (m : M State A) : M State unit := _ <- m ;; ret tt.

Definition handle (p : unit) (c : State) (ev : Event) : prog State :=
  run_top
    match ev with
    | ClickReload => load false
    | ClickAdd =>
        update (fun s => s <| editor := Some blank |>) ;; update (fun s => s <| notice := "" |>)
    | SetEditor e => update (fun s => s <| editor := e |>)
    | Submit => save c
    | ClickToggle h => drop (run (updateWebhook (wh_id h) (toggled (inputOf h) (negb (wh_enabled h)))) "")
    | ClickTest h => sendTest h
    | ClickEdit h =>
        update (fun s => s <| editor := Some (editor_of h) |>) ;;
        update (fun s => s <| notice := "" |>) ;;
        emit ScrollTop
    | ClickDelete h =>
        e <- ask ;;
        when_do (confirm e (t "webhooks.delete_confirm" +:+ " " +:+ wh_name h +:+ "?"))
          (drop (run (deleteWebhook (wh_id h)) ""))
    end.

(** ** The view *)

Definition status (h : Webhook) : list (node Event) :=
  match wh_last_delivery_at h with
  | None | Some EmptyString => [El span ["className" =: "cell-muted"] [Txt (t "webhooks.never")]]
  | Some at_ =>
      let date := date_locale language at_ in
      cond (0 <? wh_consecutive_failures h)%Z
        [El span ["className" =: "badge danger"]
           [Txt (t "webhooks.failing" +:+ " ×" +:+ StringZ (wh_consecutive_failures h))];
         El small ["className" =: "cell-muted"; "title" =: wh_last_error h] [Txt (wh_last_error h)];
         El small ["className" =: "cell-muted"] [Txt date]]
        [El span ["className" =: "badge success"] [Txt (wh_last_status h)];
         El small ["className" =: "cell-muted"] [Txt date]]
  end.

Definition toolbar (s : State) : node Event :=
  El div ["className" =: "zones-toolbar"]
    [El span ["className" =: "zone-count"]
       [Txt (match hooks s with
             | Some l => StringZ (Z.of_nat (length l)) +:+ " " +:+ t "webhooks.count"
             | None => ""
             end)];
     El div []
       [El button ["className" =: "button"; Disabled (busy s); OnClick ClickReload]
          [Icon "RefreshCw" 15; Txt (t "blocklists.reload")];
        El button ["className" =: "button primary"; Disabled (busy s || opt_is_some (editor s));
                   OnClick ClickAdd] [Icon "Plus" 15; Txt (t "webhooks.add")]]].

Definition token_field (ed : Editor) : list (node Event) :=
  match ed_token ed with
  | None =>
      [El span ["className" =: "token-kept"]
         [El span ["className" =: "cell-muted"] [Txt (t "webhooks.token_stored")];
          El button ["type" =: "button"; "className" =: "button small";
                     OnClick (SetEditor (Some (ed <| ed_token := Some "" |>)))]
            [Txt (t "webhooks.token_change")]]]
  | Some tok =>
      [El input ["type" =: "password"; "value" =: tok;
                 OnChange (fun v => SetEditor (Some (ed <| ed_token := Some v |>)));
                 "autoComplete" =: "new-password"; "spellCheck" =: "false";
                 "placeholder" =: (if ed_hasToken ed then t "webhooks.token_remove_hint" else "")] []]
  end.

Definition editor_grid (ed : Editor) : node Event :=
  El div ["className" =: "form-grid webhook-grid"]
    [El label []
       [Txt (t "webhooks.name");
        El input ["value" =: ed_name ed; OnChange (fun v => SetEditor (Some (ed <| ed_name := v |>)));
                  "placeholder" =: "Home Assistant"; "maxLength" =: "80"; flag "required"; flag "autoFocus"] []];
     El label []
       [Txt (t "webhooks.url");
        El input ["type" =: "url"; "value" =: ed_url ed;
                  OnChange (fun v => SetEditor (Some (ed <| ed_url := v |>)));
                  "placeholder" =: "https://hooks.example.com/velora"; "spellCheck" =: "false";
                  "autoComplete" =: "off"; flag "required"] []];
     El label []
       [Txt (t "webhooks.min_severity");
        El select ["value" =: severity_str (ed_minSeverity ed);
                   OnSelect (map (fun v => SetEditor (Some (ed <| ed_minSeverity := v |>)))
                               [sev_info; sev_warning; sev_critical])]
          [El option_ ["value" =: "info"] [Txt (t "webhooks.severity_info")];
           El option_ ["value" =: "warning"] [Txt (t "webhooks.severity_warning")];
           El option_ ["value" =: "critical"] [Txt (t "webhooks.severity_critical")]]];
     El label []
       ([Txt (t "webhooks.token")] ++ token_field ed ++ [El small [] [Txt (t "webhooks.token_hint")]])].

Definition editor_fields (s : State) (ed : Editor) : list (node Event) :=
  [editor_grid ed;
   El fieldset ["className" =: "policy-lists"]
     ([El legend [] [Txt (t "webhooks.events")];
       El small ["className" =: "events-hint"] [Txt (t "webhooks.events_hint")]]
      ++ each (eventTypes s) (fun type =>
           [El label ["className" =: "check-field"]
              [El input ["type" =: "checkbox"; "checked" =: bool_str (existsb (String.eqb type) (ed_events ed));
                         OnCheck (fun on => SetEditor (Some (toggleEvent ed type on)))] [];
               El code_ [] [Txt type]]]));
   El label ["className" =: "check-field"]
     [El input ["type" =: "checkbox"; "checked" =: bool_str (ed_allowPrivate ed);
                OnCheck (fun b => SetEditor (Some (ed <| ed_allowPrivate := b |>)))] [];
      Txt (t "webhooks.allow_private")];
   El label ["className" =: "check-field"]
     [El input ["type" =: "checkbox"; "checked" =: bool_str (ed_enabled ed);
                OnCheck (fun b => SetEditor (Some (ed <| ed_enabled := b |>)))] [];
      Txt (t "webhooks.enabled")];
   El div ["className" =: "form-actions"]
     [El button ["className" =: "button primary"; "type" =: "submit"] [Txt (t "webhooks.save")];
      El button ["className" =: "button"; "type" =: "button"; OnClick (SetEditor None)]
        [Txt (t "forwarding.cancel")]]].

Definition editor_title (ed : Editor) : string :=
  if opt_is_some (ed_id ed) then t "webhooks.edit_title" else t "webhooks.add_title".

Definition editor_panel (s : State) (ed : Editor) : node Event :=
  El section ["className" =: "panel form-panel"]
    [El form ["className" =: "zone-form"; "aria-label" =: editor_title ed; OnSubmit Submit]
       [El div [] [El h3 [] [Txt (editor_title ed)]; El p_ [] [Txt (t "webhooks.form_hint")]];
        El fieldset [Disabled (busy s)] (editor_fields s ed)]].

Definition is_info (v : severity) : bool := match v with sev_info => true | _ => false end.

Definition hook_row (s : State) (h : Webhook) : node Event :=
  El tr []
    [El td []
       [El span ["className" =: "endpoint"]
          [El button ["className" =: "switch"; "role" =: "switch"; "aria-checked" =: bool_str (wh_enabled h);
                      "aria-label" =: (t "webhooks.toggle" +:+ ": " +:+ wh_name h);
                      Disabled (busy s); OnClick (ClickToggle h)] [];
           El span [] [El strong [] [Txt (wh_name h)];
                       El small ["className" =: "webhook-url"] [El code_ [] [Txt (wh_url h)]]]]];
     El td ["className" =: "wrap cell-muted"]
       ([Txt (match wh_events h with [] => t "webhooks.all_events" | l => joinStrings ", " l end)]
        ++ when (negb (is_info (wh_min_severity h)))
             [El small [] [Txt (t "webhooks.min_severity" +:+ ": "
                                +:+ t ("webhooks.severity_" +:+ severity_str (wh_min_severity h)))]]);
     El td ["className" =: "webhook-status"] (status h);
     El td []
       [El div ["className" =: "table-actions"]
          [El button ["className" =: "icon-button"; Disabled (busy s); "title" =: t "webhooks.test";
                      "aria-label" =: (t "webhooks.test" +:+ " " +:+ wh_name h); OnClick (ClickTest h)]
             [Icon "Send" 15];
           El button ["className" =: "icon-button"; Disabled (busy s || opt_is_some (editor s));
                      "title" =: t "webhooks.edit"; "aria-label" =: (t "webhooks.edit" +:+ " " +:+ wh_name h);
                      OnClick (ClickEdit h)] [Icon "Pencil" 15];
           El button ["className" =: "icon-button danger-icon"; Disabled (busy s);
                      "title" =: t "webhooks.delete"; "aria-label" =: (t "webhooks.delete" +:+ " " +:+ wh_name h);
                      OnClick (ClickDelete h)] [Icon "Trash2" 15]]]].

Definition hooks_panel (s : State) (l : list Webhook) : node Event :=
  El section ["className" =: "panel"]
    [El div ["className" =: "table-wrap"]
       [El table []
          [El caption ["className" =: "sr-only"] [Txt (t "app.title.webhooks")];
           El thead []
             [El tr [] [El th [] [Txt (t "webhooks.name")]; El th [] [Txt (t "webhooks.events")];
                        El th [] [Txt (t "webhooks.last_delivery")];
                        El th [] [El span ["className" =: "sr-only"] [Txt (t "zones.col_actions")]]]];
           El tbody [] (each l (fun h => [hook_row s h]))]]].

Definition view (p : unit) (s : State) : list (node Event) :=
  [toolbar s]
  ++ error_notice (error s)
  ++ success_notice (notice s)
  ++ when_some (editor s) (fun ed => [editor_panel s ed])
  ++ [El div ["className" =: "stack"]
        (when (negb (opt_is_some (hooks s)) && negb (truthy (error s)))
           [El section ["className" =: "panel"] [Loading [Txt (t "app.connecting_panel")]]]
         ++ match hooks s with
            | None => []
            | Some [] =>
                [El section ["className" =: "panel"]
                   [EmptyState (Some (Icon "WebhookIcon" 22)) (t "webhooks.empty_title")
                      [Txt (t "webhooks.empty_text")] [] false]]
            | Some l => [hooks_panel s l]
            end)].

Definition page : component unit State Event :=
  mkComponent init view handle
    [effect_once (fun _ _ => false) (fun _ _ => Some (run_top (sleep 0 ;; load true)))]
    (fun s => s).
End Page.
End Webhooks.

(** * Theorems *)

Module WebhooksFacts.
Import Webhooks.
Section Facts.
Context {L : Locale} (t : string -> string) (language : string).

(** Nothing is offered while a mutation or a test delivery is running. *)
Lemma webhooks_view_busy p s : busy s = true -> nodes_all (fun _ => False) false (view t language p s).
Proof. intros Hb. unfold view. view_split; rewrite ?Hb; first [view_close | done]. Qed.

Lemma webhooks_exclusive_page : exclusive (page t language) busy true (fun _ _ => True).
Proof.
  constructor; cbn [c_init c_view c_handle c_effects c_unmount page].
  - done.
  - intros p s ev _ Hev. destruct (busy s) eqn:Hb.
    + by destruct (nodes_all_offered _ _ _ (webhooks_view_busy p s Hb) Hev).
    + destruct ev; unfold handle, save, sendTest, drop, run, load; excl_walk.
  - intros ef p s q [<-|[]] [= <-]. unfold load. excl_walk.
  - by intros ef p s [<-|[]].
  - done.
Qed.

#[export] Instance webhooks_one_at_a_time : OneAtATime (page t language).
Proof. apply (exclusive_one_at_a_time _ busy true), webhooks_exclusive_page. Qed.

#[export] Instance webhooks_unblocks : Unblocks (page t language) busy.
Proof. apply exclusive_unblocks, webhooks_exclusive_page. Qed.

(** ** The stored token *)















End Facts.

(** ** Concrete instances *)






End WebhooksFacts.
