(* ===== verification/Blocklists.v ===== *)
(** * The blocklists page: web/src/pages/Blocklists.tsx *)
From S2P Require Import Prelude JsString JsNumber Url Http Api Resources React Runtime Components.
Local Open Scope velora_scope.
Local Open Scope prog_scope.
Local Open Scope string_scope.

Module Blocklists.

Record Schedule : Set := mkSchedule { seconds : Z; key : string }.
Definition SCHEDULES : list Schedule :=
  [mkSchedule 0 "blocklists.manual"; mkSchedule 3600 "blocklists.every_1h";
   mkSchedule (6 * 3600) "blocklists.every_6h"; mkSchedule (12 * 3600) "blocklists.every_12h";
   mkSchedule (24 * 3600) "blocklists.every_24h"; mkSchedule (7 * 24 * 3600) "blocklists.every_7d"].

(** [clock]: the time of the render, which the next-update column compares with. *)
Record Props : Set := mkProps { readOnly : bool; clock : Z }.

(** [number | "new"] *)
Inductive Busy : Set := busy_new | busy_id (id : Z).

Record State : Set := mkState {
  sources : option (list BlocklistSource);
  name : string;
  url : string;
  schedule : jsnum;
  adding : bool;
  busy : option Busy;
  error : string;
  editing : option Z;
  editContent : string;
  confirmDelete : option Z }.
#[export] Instance eta_State : Eta State := fun s =>
  mkState (sources s) (name s) (url s) (schedule s) (adding s) (busy s) (error s) (editing s)
    (editContent s) (confirmDelete s).

Definition init (_ : Props) : State :=
  mkState None "" "" (num (24 * 3600)) false None "" None "" None.

Inductive Event : Set :=
| ClickReload
| SetAdding (b : bool)
| SetName (v : string)
| SetURL (v : string)
| SetSchedule (v : jsnum)
| SubmitAdd
| SetEditContent (v : string)
| CancelEditing
| SubmitContent
| ClickToggle (id : Z) (enabled : bool)
| ChangeSchedule (id : Z) (v : jsnum)
| ClickDelete (id : Z)
| SetConfirmDelete (id : option Z)
| ClickEdit (id : Z)
| ClickRefresh (id : Z).

Section Page.
Context {L : Locale} (t : string -> string) (language : string).

Definition load : M State unit :=
  update (fun s => s <| error := "" |>) ;;
  try_catch
    (l <- await (get (list BlocklistSource) "/api/v1/blocklists" false) ;;
     update (fun s => s <| sources := Some l |>))
    (fun x => update (fun s => s <| error := error_message x (t "blocklists.load_failed") |>)).

(** The effect on mount; [active] is cleared by its cleanup. *)
Definition first_load : M State unit :=
  try_catch
    (data <- await (get (list BlocklistSource) "/api/v1/blocklists" false) ;;
     e <- ask ;;
     when_do (negb (aborted e))
       (update (fun s => s <| sources := Some data |>) ;; update (fun s => s <| error := "" |>)))
    (fun x => e <- ask ;;
       when_do (negb (aborted e))
         (update (fun s => s <| error := error_message x (t "blocklists.load_failed") |>))).

(** The frame the mutations share: [busy], the call, what follows success, and
    the error text. *)
Definition mutation (key : Busy) (call : api unit) (ok : M State unit) (failed : string) : M State unit :=
  update (fun s => s <| busy := Some key |>) ;;
  update (fun s => s <| error := "" |>) ;;
  try_finally
    (try_catch (await call ;; ok ;; load)
       (fun x => update (fun s => s <| error := error_message x (t failed) |>)))
    (update (fun s => s <| busy := None |>)).

Definition source_path (id : Z) : string := "/api/v1/blocklists/" +:+ StringZ id.

Definition add (c : State) : M State unit :=
  mutation busy_new
    (post _ "/api/v1/blocklists"
       (JObj [("name", JStr (name c)); ("url", JStr (url c));
              ("update_interval", JNum (if truthy (trim (url c)) then schedule c else num 0))]))
    (update (fun s => s <| name := "" |>) ;;
     update (fun s => s <| url := "" |>) ;;
     update (fun s => s <| adding := false |>))
    "blocklists.add_failed".

Definition toggleEnabled (id : Z) (currentEnabled : bool) : M State unit :=
  mutation (busy_id id) (put _ (source_path id) (JObj [("enabled", JBool (negb currentEnabled))]))
    (ret tt) "blocklists.toggle_failed".

Definition changeSchedule (id : Z) (secs : jsnum) : M State unit :=
  mutation (busy_id id) (put _ (source_path id) (JObj [("update_interval", JNum secs)]))
    (ret tt) "blocklists.schedule_failed".

Definition refresh (id : Z) : M State unit :=
  mutation (busy_id id) (post_empty _ (source_path id +:+ "/update")) (ret tt) "blocklists.update_failed_msg".

Definition deleteSource (id : Z) : M State unit :=
  mutation (busy_id id) (del _ (source_path id))
    (update (fun s => s <| confirmDelete := None |>)) "blocklists.delete_failed".

Definition saveContent (c : State) (id : Z) : M State unit :=
  mutation (busy_id id) (put _ (source_path id +:+ "/content") (JObj [("content", JStr (editContent c))]))
    (update (fun s => s <| editing := None |>)) "blocklists.content_save_failed".

Definition startEditing (id : Z) : M State unit :=
  update (fun s => s <| error := "" |>) ;;
  try_catch
    (source <- await (get BlocklistSource (source_path id) false) ;;
     update (fun s => s <| editContent := joinStrings (String "010" "") (bs_domains source ?? []) |>) ;;
     update (fun s => s <| editing := Some id |>))
    (fun x => update (fun s => s <| error := error_message x (t "blocklists.load_failed") |>)).

Definition handle (p : Props) (c : State) (ev : Event) : prog State :=
  run_top
    match ev with
    | ClickReload => load
    | SetAdding b => update (fun s => s <| adding := b |>)
    | SetName v => update (fun s => s <| name := v |>)
    | SetURL v => update (fun s => s <| url := v |>)
    | SetSchedule v => update (fun s => s <| schedule := v |>)
    | SubmitAdd => add c
    | SetEditContent v => update (fun s => s <| editContent := v |>)
    | CancelEditing => update (fun s => s <| editing := None |>)
    | SubmitContent => match editing c with Some id => saveContent c id | None => ret tt end
    | ClickToggle id enabled => toggleEnabled id enabled
    | ChangeSchedule id v => changeSchedule id v
    | ClickDelete id => deleteSource id
    | SetConfirmDelete o => update (fun s => s <| confirmDelete := o |>)
    | ClickEdit id => startEditing id
    | ClickRefresh id => refresh id
    end.

(** ** The view *)

Definition is_busy (s : State) : bool := opt_is_some (busy s).
Definition busy_with (s : State) (id : Z) : bool :=
  match busy s with Some (busy_id i) => Z.eqb i id | _ => false end.

Definition toolbar (p : Props) (s : State) : node Event :=
  El div ["className" =: "zones-toolbar"]
    [El span ["className" =: "zone-count"]
       [Txt (match sources s with
             | Some l => StringZ (Z.of_nat (length l)) +:+ " "
                           +:+ (if Nat.eqb (length l) 1 then t "blocklists.count_one" else t "blocklists.count")
             | None => t "blocklists.sources_label"
             end)];
     El div []
       [El button ["className" =: "button"; OnClick ClickReload; Disabled (is_busy s)]
          [Icon "RefreshCw" 15; Txt (t "blocklists.reload")];
        El button ["className" =: "button primary"; OnClick (SetAdding true); Disabled (is_busy s || readOnly p)]
          [Icon "Plus" 15; Txt (t "blocklists.add_source")]]].

(** A schedule option's value is its seconds, read back with [Number]. *)
Definition chosen (o : Schedule) : jsnum := Number (StringZ (seconds o)).
Definition schedule_options : list (node Event) :=
  each SCHEDULES (fun o => [El option_ ["value" =: StringZ (seconds o)] [Txt (t (key o))]]).

Definition add_panel (s : State) : node Event :=
  El section ["className" =: "panel form-panel"]
    [El form ["className" =: "zone-form"; "aria-label" =: t "blocklists.add_aria"; OnSubmit SubmitAdd]
       [El div [] [El h3 [] [Txt (t "blocklists.add_title")]; El p_ [] [Txt (t "blocklists.add_text")]];
        El fieldset [Disabled (is_busy s)]
          [El div ["className" =: "form-grid source-grid"]
             [El label []
                [Txt (t "blocklists.name");
                 El input [flag "required"; "value" =: name s; OnChange SetName;
                           "placeholder" =: t "blocklists.community_hosts"] []];
              El label []
                [Txt (t "blocklists.source_url");
                 El input [flag "required"; "type" =: "url"; "value" =: url s; OnChange SetURL;
                           "placeholder" =: "https://example.org/hosts.txt"] []];
              El label []
                [Txt (t "blocklists.schedule");
                 El select ["value" =: num_str (schedule s);
                            OnSelect (map (fun o => SetSchedule (chosen o)) SCHEDULES)] schedule_options]];
           El div ["className" =: "form-actions"]
             [El button ["className" =: "button primary"]
                [Txt (match busy s with
                      | Some busy_new => t "blocklists.adding"
                      | _ => t "blocklists.add_source"
                      end)];
              El button ["type" =: "button"; "className" =: "button"; OnClick (SetAdding false)]
                [Txt (t "blocklists.cancel")]]]]].

Definition edit_panel (s : State) (id : Z) : node Event :=
  El section ["className" =: "panel form-panel"]
    [El form ["className" =: "zone-form"; "aria-label" =: t "blocklists.edit_content_aria"; OnSubmit SubmitContent]
       [El div [] [El h3 [] [Txt (t "blocklists.edit_content_title")];
                   El p_ [] [Txt (t "blocklists.edit_content_text")]];
        El fieldset [Disabled (is_busy s)]
          [El label []
             [Txt (t "blocklists.domains_label");
              El textarea ["value" =: editContent s; OnChange SetEditContent; "rows" =: "12";
                           "placeholder" =: ("0.0.0.0 ads.example.com" +:+ String "010" "tracker.example.com")] []];
           El div ["className" =: "form-actions"]
             [El button ["className" =: "button primary"]
                [Txt (if busy_with s id then t "blocklists.saving" else t "blocklists.save")];
              El button ["type" =: "button"; "className" =: "button"; OnClick CancelEditing]
                [Txt (t "blocklists.cancel")]]]]].

(** The status badge of a source. *)
Definition status_badge (b : BlocklistSource) : node Event :=
  if truthy (bs_last_error b)
  then El span ["title" =: bs_last_error b] [Badge danger false [Txt (t "blocklists.update_failed")]]
  else if truthy (bs_url b) && negb (truthy (bs_last_updated_at b ?? ""))
  then Badge warning false [Txt (t "blocklists.never_updated")]
  else if bs_enabled b then Badge success false [Txt (t "blocklists.active")]
  else Badge neutral false [Txt (t "blocklists.disabled")].

(** [new Date(next) <= new Date()]: false for an invalid date. *)
Definition is_due (p : Props) (at_ : string) : bool :=
  match date_time at_ with Some d => (d <=? clock p)%Z | None => false end.

Definition next_update (p : Props) (b : BlocklistSource) : string :=
  match bs_next_update_at b with
  | None | Some EmptyString => "—"
  | Some at_ => if is_due p at_ then t "blocklists.due_now" else date_locale_default at_
  end.

Definition domain_count (b : BlocklistSource) : Z :=
  match bs_domain_count b with
  | Some n => n
  | None => match bs_domains b with Some l => Z.of_nat (length l) | None => 0 end
  end.

Definition actions (p : Props) (s : State) (b : BlocklistSource) : node Event :=
  El div ["className" =: "blocklist-actions"]
    (cond (match confirmDelete s with Some i => Z.eqb i (bs_id b) | None => false end)
       [El button ["className" =: "button danger small"; Disabled (is_busy s); OnClick (ClickDelete (bs_id b))]
          [Txt (t "blocklists.confirm_delete")];
        El button ["className" =: "button ghost small"; OnClick (SetConfirmDelete None)]
          [Txt (t "blocklists.cancel")]]
       (when (negb (truthy (bs_url b)))
          [El button ["className" =: "icon-button"; "title" =: t "blocklists.edit_content";
                      "aria-label" =: t "blocklists.edit_content"; Disabled (is_busy s || readOnly p);
                      OnClick (ClickEdit (bs_id b))] [Icon "Pencil" 15]]
        ++ [El button ["className" =: "icon-button"; "title" =: t "blocklists.update";
                       "aria-label" =: (if busy_with s (bs_id b) then t "blocklists.updating"
                                        else t "blocklists.update");
                       Disabled (is_busy s || readOnly p); OnClick (ClickRefresh (bs_id b))]
              [Icon "RefreshCw" 15];
            El button ["className" =: "icon-button danger-icon"; "title" =: t "blocklists.delete";
                       "aria-label" =: t "blocklists.delete"; Disabled (is_busy s || readOnly p);
                       OnClick (SetConfirmDelete (Some (bs_id b)))] [Icon "Trash2" 15]])).

Definition source_row (p : Props) (s : State) (b : BlocklistSource) : node Event :=
  let verb := if bs_enabled b then t "blocklists.disable" else t "blocklists.enable" in
  El tr []
    [El td []
       [El span ["className" =: "endpoint"]
          [El button ["className" =: "switch"; "role" =: "switch"; "aria-checked" =: bool_str (bs_enabled b);
                      "aria-label" =: (verb +:+ ": " +:+ bs_name b); "title" =: verb;
                      Disabled (is_busy s || readOnly p); OnClick (ClickToggle (bs_id b) (bs_enabled b))] [];
           El strong [] [Txt (bs_name b)]]];
     El td ["className" =: "record-value"]
       [if truthy (bs_url b) then El code_ [] [Txt (bs_url b)]
        else Badge neutral true [Txt (t "blocklists.local")]];
     El td ["className" =: "num mono"] [Txt (num_locale language (domain_count b))];
     El td [] [status_badge b];
     El td []
       (cond (truthy (bs_url b))
          [El select ["className" =: "inline-select";
                      "aria-label" =: (t "blocklists.schedule_for" +:+ " " +:+ bs_name b);
                      "value" =: StringZ (bs_update_interval b ?? 0%Z); Disabled (is_busy s || readOnly p);
                      OnSelect (map (fun o => ChangeSchedule (bs_id b) (chosen o)) SCHEDULES)] schedule_options]
          [El span ["className" =: "cell-muted"] [Txt "—"]]);
     El td ["className" =: "cell-muted"]
       ([Txt (match bs_last_updated_at b with
              | None | Some EmptyString => t "blocklists.never"
              | Some at_ => date_locale_default at_
              end)]
        ++ when (0 <? (bs_consecutive_failures b ?? 0%Z))%Z
             [El small ["className" =: "danger"]
                [Txt (StringZ (bs_consecutive_failures b ?? 0%Z) +:+ " " +:+ t "blocklists.retry_count")]]);
     El td ["className" =: "cell-muted"] [Txt (next_update p b)];
     El td [] [actions p s b]].

Definition table_panel (p : Props) (s : State) (l : list BlocklistSource) : node Event :=
  El section ["className" =: "panel"]
    [El div ["className" =: "table-wrap"]
       [El table ["className" =: "records-table"]
          [El caption ["className" =: "sr-only"] [Txt (t "blocklists.caption")];
           El thead []
             [El tr [] [El th [] [Txt (t "blocklists.name")]; El th [] [Txt (t "blocklists.col_source")];
                        El th ["className" =: "num"] [Txt (t "blocklists.col_domains")];
                        El th [] [Txt (t "blocklists.col_status")]; El th [] [Txt (t "blocklists.schedule")];
                        El th [] [Txt (t "blocklists.col_last_update")];
                        El th [] [Txt (t "blocklists.col_next_update")];
                        El th [] [El span ["className" =: "sr-only"] [Txt (t "zones.col_actions")]]]];
           El tbody [] (each l (fun b => [source_row p s b]))]]].

Definition view (p : Props) (s : State) : list (node Event) :=
  [toolbar p s]
  ++ error_notice (error s)
  ++ when (adding s) [add_panel s]
  ++ when_some (editing s) (fun id => [edit_panel s id])
  ++ match sources s with
     | None => [El section ["className" =: "panel"] [Loading [Txt (t "blocklists.loading")]]]
     | Some [] => [El section ["className" =: "panel"]
                     [EmptyState (Some (Icon "ShieldBan" 22)) (t "blocklists.empty_title")
                        [Txt (t "blocklists.empty_text")] [] false]]
     | Some l => [table_panel p s l]
     end.

Definition page : component Props State Event :=
  mkComponent init view handle
    [effect_once (fun _ _ => false) (fun _ _ => Some (run_top first_load))]
    (fun s => s).
End Page.
End Blocklists.

(** * Theorems *)

Module BlocklistsFacts.
Import Blocklists.
Section Facts.
Context {L : Locale} (t : string -> string) (language : string).

Definition viewer_event (ev : Event) : Prop :=
  match ev with ClickReload => True | _ => False end.

Definition viewer_inv (p : Props) (s : State) : Prop :=
  readOnly p = true /\ adding s = false /\ editing s = None /\ confirmDelete s = None.

Lemma blocklists_view_viewer p s : viewer_inv p s -> nodes_all viewer_event false (view t language p s).
Proof.
  intros (Hr & Ha & He & Hc). unfold view. rewrite Ha, He.
  view_split; rewrite ?Hr; try first [view_close | done]; by rewrite Hc in *.
Qed.

Definition busy_event (ev : Event) : Prop := match ev with SetConfirmDelete None => True | _ => False end.

Lemma blocklists_view_busy p s : is_busy s = true -> nodes_all busy_event false (view t language p s).
Proof. intros Hb. unfold view. view_split; rewrite ?Hb; first [view_close | done]. Qed.

Lemma blocklists_verified_viewer p :
  readOnly p = true ->
  verified (page t language) (still (fun p => readOnly p = true)) viewer_inv read_only_output p.
Proof.
  intros Hp. constructor; cbn [c_init c_view c_handle c_effects c_unmount page].
  - done.
  - intros p' s ev Hi Hev.
    pose proof (nodes_all_offered _ _ _ (blocklists_view_viewer p' s Hi) Hev) as H.
    destruct ev; try done; unfold handle, load; wp_split; wp_close.
  - intros ef p' s q [<-|[]] Hi [= <-]. unfold first_load. wp_split; wp_close.
  - intros ef p' s [<-|[]] _ p'' s' H. exact H.
  - intros p1 p2 s [_ Hi] Hp2. by split.
  - done.
Qed.

#[export] Instance blocklists_viewer_safe : ViewerSafe (page t language) (fun p => readOnly p = true).
Proof. apply (verified_viewer_safe _ viewer_inv). apply blocklists_verified_viewer. Qed.

Lemma blocklists_exclusive_page : exclusive (page t language) is_busy true (fun _ _ => True).
Proof.
  constructor; cbn [c_init c_view c_handle c_effects c_unmount page].
  - done.
  - intros p s ev _ Hev. destruct (is_busy s) eqn:Hb.
    + pose proof (nodes_all_offered _ _ _ (blocklists_view_busy p s Hb) Hev) as H. by destruct ev.
    + destruct ev; unfold handle, add, toggleEnabled, changeSchedule, deleteSource, saveContent, refresh,
        startEditing, mutation, load; excl_walk.
  - intros ef p s q [<-|[]] [= <-]. unfold first_load. excl_walk.
  - by intros ef p s [<-|[]].
  - done.
Qed.

#[export] Instance blocklists_one_at_a_time : OneAtATime (page t language).
Proof. apply (exclusive_one_at_a_time _ is_busy true), blocklists_exclusive_page. Qed.

#[export] Instance blocklists_unblocks : Unblocks (page t language) is_busy.
Proof. apply exclusive_unblocks, blocklists_exclusive_page. Qed.

(** ** Two-step deletion *)



End Facts.

(** ** Concrete instances *)


End BlocklistsFacts.
