(* ===== verification/CachePage.v ===== *)
(** * The DNS cache page: web/src/pages/CachePage.tsx *)
From S2P Require Import Prelude JsString JsNumber Url Http Api Resources React Runtime Components.
Local Open Scope velora_scope.
Local Open Scope prog_scope.
Local Open Scope string_scope.

Module CachePage.

Definition RECORD_TYPES : list string := ["A"; "AAAA"; "CNAME"; "MX"; "NS"; "PTR"; "SOA"; "TXT"].
Definition PAGE_SIZE : Z := 100.

Record InvalidateResult : Set := mkInvalidateResult { removed : Z }.

Record Props : Set := mkProps { data : Snapshot; readOnly : bool }.

Record Message : Set := mkMessage { m_error : bool; m_text : string }.

(** The filter object; [flt_identity] tells two objects with the same fields
    apart, as the effect that depends on it does. *)
Record Filter : Set := mkFilter { flt_domain : string; flt_type : string; flt_identity : Z }.

Record State : Set := mkState {
  busy : bool;
  message : option Message;
  offset : Z;
  revision : Z;
  entryPage : option CacheEntryPage;
  entryError : string;
  search : string;
  typeFilter : string;
  filter : Filter;
  domain : string;
  includeSubdomains : bool }.
#[export] Instance eta_State : Eta State := fun s =>
  mkState (busy s) (message s) (offset s) (revision s) (entryPage s) (entryError s) (search s)
    (typeFilter s) (filter s) (domain s) (includeSubdomains s).

Definition init (_ : Props) : State :=
  mkState false None 0 0 None "" "" "" (mkFilter "" "" 0) "" true.

Inductive Event : Set :=
| ClickFlush
| SetDomain (v : string)
| SetIncludeSubdomains (b : bool)
| SubmitDomain
| SetSearch (v : string)
| SetTypeFilter (v : string)
| ClickRemove (entry : CacheEntry)
| ClickPrevious
| ClickNext.

Section Page.
Context {L : Locale} (t : string -> string) (language : string).

(** The debounced search: its timer is cleared when the text changes again. *)
Definition debounce (c : State) : M State unit :=
  sleep 250 ;;
  update (fun s => s <| offset := 0%Z |>) ;;
  update (fun s => s <| filter := mkFilter (trim (search c)) (typeFilter c) (flt_identity (filter s) + 1) |>).

Definition debounce_changed (r r' : Props * State) : bool :=
  negb (String.eqb (search (snd r)) (search (snd r')) && String.eqb (typeFilter (snd r)) (typeFilter (snd r'))).

Definition entries_query (off : Z) (f : Filter) : string :=
  search_params ([("limit", StringZ PAGE_SIZE); ("offset", StringZ off)]
                 ++ (if truthy (flt_domain f) then [("domain", flt_domain f)] else [])
                 ++ (if truthy (flt_type f) then [("type", flt_type f)] else [])).

Definition load_entries (c : State) : M State unit :=
  try_catch
    (page <- await (get CacheEntryPage ("/api/v1/cache/entries?" +:+ entries_query (offset c) (filter c)) true) ;;
     e <- ask ;;
     when_do (negb (aborted e))
       (update (fun s => s <| entryPage := Some page |>) ;; update (fun s => s <| entryError := "" |>)))
    (fun x => e <- ask ;;
       when_do (negb (aborted e))
         (update (fun s => s <| entryError := error_message x (t "cache.entries_load_failed") |>))).

Definition entries_changed (r r' : Props * State) : bool :=
  negb (Z.eqb (offset (snd r)) (offset (snd r')) && Z.eqb (revision (snd r)) (revision (snd r'))
        && Z.eqb (flt_identity (filter (snd r))) (flt_identity (filter (snd r')))
        && Z.eqb (checked (data (fst r))) (checked (data (fst r')))).

Definition afterChange : M State unit :=
  update (fun s => s <| revision ::= Z.add 1 |>) ;; emit (CallProp "refresh").

Definition fail (x : exn) (fallback : string) : M State unit :=
  update (fun s => s <| message := Some (mkMessage true (error_message x (t fallback))) |>).

Definition flush : M State unit :=
  e <- ask ;;
  if negb (confirm e (t "cache.flush_confirm")) then ret tt else
  update (fun s => s <| busy := true |>) ;;
  update (fun s => s <| message := None |>) ;;
  try_finally
    (try_catch
       (await (del unit "/api/v1/cache") ;;
        update (fun s => s <| message := Some (mkMessage false (t "cache.cleared")) |>) ;;
        update (fun s => s <| offset := 0%Z |>) ;;
        afterChange)
       (fun x => fail x "cache.flush_failed"))
    (update (fun s => s <| busy := false |>)).

Definition invalidate (name type : string) (subdomains : bool) : M State bool :=
  update (fun s => s <| busy := true |>) ;;
  update (fun s => s <| message := None |>) ;;
  try_finally
    (try_catch
       (result <- await (post InvalidateResult "/api/v1/cache/invalidate"
                           (JObj [("name", JStr name); ("type", JStr type);
                                  ("include_subdomains", JBool subdomains)])) ;;
        update (fun s => s <| message :=
          Some (mkMessage false (t "cache.removed_entries" +:+ ": " +:+ StringZ (removed result))) |>) ;;
        afterChange ;;
        ret true)
       (fun x => fail x "cache.invalidate_failed" ;; ret false))
    (update (fun s => s <| busy := false |>)).

Definition submitDomain (c : State) : M State unit :=
  ok <- invalidate (trim (domain c)) "" (includeSubdomains c) ;;
  when_do ok (update (fun s => s <| domain := "" |>)).

Definition handle (p : Props) (c : State) (ev : Event) : prog State :=
  run_top
    match ev with
    | ClickFlush => flush
    | SetDomain v => update (fun s => s <| domain := v |>)
    | SetIncludeSubdomains b => update (fun s => s <| includeSubdomains := b |>)
    | SubmitDomain => submitDomain c
    | SetSearch v => update (fun s => s <| search := v |>)
    | SetTypeFilter v => update (fun s => s <| typeFilter := v |>)
    | ClickRemove entry => _ <- invalidate (ce_name entry) (ce_type entry) false ;; ret tt
    | ClickPrevious => update (fun s => s <| offset := Z.max 0 (offset c - PAGE_SIZE) |>)
    | ClickNext => update (fun s => s <| offset := (offset c + PAGE_SIZE)%Z |>)
    end.

(** ** The view *)

Definition filtering (s : State) : bool := truthy (flt_domain (filter s)) || truthy (flt_type (filter s)).

Definition stats (p : Props) : node Event :=
  let c := snap_cache (data p) in
  El div ["className" =: "stats"]
    [Stat (t "cache.live_entries") (num_locale language (entries c))
       (Some (t "cache.capacity" +:+ ": " +:+ num_locale language (capacity c))) None
       (Some (ratio (entries c) (Z.max 1 (capacity c)))) info;
     Stat (t "cache.hits") (num_locale language (hits c)) (Some (t "cache.since_startup")) None None success;
     Stat (t "cache.misses") (num_locale language (misses c)) (Some (t "cache.includes_uncacheable"))
       None None warning].

Definition message_notice (m : Message) : node Event :=
  El div ["className" =: ("notice " +:+ (if m_error m then "error" else "success"));
          "role" =: (if m_error m then "alert" else "status")] [Txt (m_text m)].

Definition flush_panel (p : Props) (s : State) : node Event :=
  El section ["className" =: "panel"]
    [El div ["className" =: "panel-heading"]
       [El div [] [El h2 [] [Txt (t "cache.memory_cache")]; El p_ [] [Txt (t "cache.description")]]];
     El div ["className" =: "panel-body stack-sm"]
       [El p_ ["className" =: "field-hint"] [Txt (t "cache.clear_description")];
        El div []
          [El button ["className" =: "button outline-danger"; Disabled (busy s || readOnly p);
                      OnClick ClickFlush]
             [Icon "Eraser" 15; Txt (if busy s then t "cache.clearing" else t "cache.clear")]]]].

Definition invalidate_panel (p : Props) (s : State) : node Event :=
  El section ["className" =: "panel"]
    [El div ["className" =: "panel-heading"]
       [El div [] [El h2 [] [Txt (t "cache.invalidate_title")]; El p_ [] [Txt (t "cache.invalidate_text")]]];
     El form ["className" =: "panel-body stack-sm"; OnSubmit SubmitDomain]
       [El fieldset [Disabled (busy s || readOnly p); "className" =: "stack-sm"]
          [El label ["className" =: "field"]
             [Txt (t "cache.domain");
              El input ["value" =: domain s; OnChange SetDomain; "placeholder" =: t "cache.search_placeholder";
                        "maxLength" =: "253"; "autoComplete" =: "off"; flag "required"] []];
           El label ["className" =: "check-field"]
             [El input ["type" =: "checkbox"; "checked" =: bool_str (includeSubdomains s);
                        OnCheck SetIncludeSubdomains] [];
              Txt (t "cache.include_subdomains")];
           El div [] [El button ["className" =: "button"; "type" =: "submit"] [Txt (t "cache.invalidate")]]]]].

Definition entry_row (p : Props) (s : State) (entry : CacheEntry) : node Event :=
  El tr []
    [El td [] [El code_ [] [Txt (ce_name entry)]];
     El td [] [El span ["className" =: "record-type"] [Txt (ce_type entry)]];
     El td ["className" =: "mono cell-muted"]
       [Txt (StringZ (ce_remaining_ttl entry) +:+ " " +:+ t "cache.seconds")];
     El td [] [El span ["className" =: (if String.eqb (ce_rcode entry) "NOERROR" then "cell-muted" else "danger")]
                 [Txt (ce_rcode entry)]];
     El td ["className" =: "cache-answer"]
       (cond (nonempty (ce_answers entry))
          (each (ce_answers entry) (fun a => [El code_ [] [Txt a]]))
          [El span ["className" =: "cell-muted"] [Txt "—"]]);
     El td []
       [El div ["className" =: "table-actions"]
          [El button ["className" =: "icon-button danger-icon"; Disabled (busy s || readOnly p);
                      OnClick (ClickRemove entry);
                      "aria-label" =: (t "cache.remove_entry" +:+ ": " +:+ ce_name entry +:+ " " +:+ ce_type entry);
                      "title" =: t "cache.remove_entry"] [Icon "Trash2" 15]]]].

Definition pagination (s : State) (page : CacheEntryPage) : node Event :=
  El div ["className" =: "cache-pagination"]
    [El span [] [Txt (StringZ (offset s + 1) +:+ "–" +:+ StringZ (Z.min (offset s + PAGE_SIZE) (cep_total page))
                      +:+ " / " +:+ StringZ (cep_total page))];
     El div ["className" =: "form-actions"]
       [El button ["className" =: "button small"; Disabled (Z.eqb (offset s) 0); OnClick ClickPrevious]
          [Txt (t "cache.previous")];
        El button ["className" =: "button small"; Disabled (cep_total page <=? offset s + PAGE_SIZE)%Z;
                   OnClick ClickNext] [Txt (t "cache.next")]]].

Definition entries_table (p : Props) (s : State) (page : CacheEntryPage) : list (node Event) :=
  [El p_ ["className" =: "cache-scroll-hint"] [Txt (t "cache.entries_scroll_hint")];
   El div ["className" =: "table-wrap"]
     [El table ["className" =: "cache-entries-table"]
        [El caption ["className" =: "sr-only"] [Txt (t "cache.entries_title")];
         El thead []
           [El tr [] [El th [] [Txt (t "cache.entry_name")]; El th [] [Txt (t "cache.entry_type")];
                      El th [] [Txt (t "cache.entry_ttl")]; El th [] [Txt (t "cache.entry_status")];
                      El th [] [Txt (t "cache.entry_answer")];
                      El th [] [El span ["className" =: "sr-only"] [Txt (t "zones.col_actions")]]]];
         El tbody [] (each (cep_entries page) (fun entry => [entry_row p s entry]))]];
   pagination s page].

Definition search_form (s : State) : node Event :=
  El div ["className" =: "zone-form"; "role" =: "search"]
    [El div ["className" =: "form-grid cache-filters"]
       [El label []
          [Txt (t "cache.search_label");
           El input ["type" =: "search"; "value" =: search s; OnChange SetSearch;
                     "placeholder" =: t "cache.search_placeholder"; "maxLength" =: "253";
                     "autoComplete" =: "off"] []];
        El label []
          [Txt (t "cache.entry_type");
           El select ["value" =: typeFilter s; OnSelect (map SetTypeFilter ("" :: RECORD_TYPES))]
             (El option_ ["value" =: ""] [Txt (t "cache.all_types")]
              :: each RECORD_TYPES (fun ty => [El option_ [] [Txt ty]]))]]].

Definition entries_panel (p : Props) (s : State) : node Event :=
  El section ["className" =: "panel"]
    ([El div ["className" =: "panel-heading"]
        [El div [] [El h2 [] [Txt (t "cache.entries_title")]; El p_ [] [Txt (t "cache.entries_description")]];
         El span ["className" =: "subtle-badge"]
           [Txt (num_locale language (match entryPage s with
                                      | Some page => cep_total page
                                      | None => entries (snap_cache (data p))
                                      end))]];
      search_form s]
     ++ when (truthy (entryError s))
          [El p_ ["className" =: "notice error"; "role" =: "alert"] [Txt (entryError s)]]
     ++ when (negb (opt_is_some (entryPage s)) && negb (truthy (entryError s)))
          [Loading [Txt (t "cache.entries_loading")]]
     ++ when_some (entryPage s) (fun page =>
          (when (Z.eqb (cep_total page) 0)
            [EmptyState (if filtering s then None else Some (Icon "Database" 22))
               (if filtering s then t "cache.no_matches" else t "cache.entries_empty") [] [] true]
          ++ when (0 <? cep_total page)%Z (entries_table p s page))%list)).

Definition view (p : Props) (s : State) : list (node Event) :=
  [El div ["className" =: "stack"]
     ([stats p]
      ++ when_some (message s) (fun m => [message_notice m])
      ++ [El div ["className" =: "grid-2"] [flush_panel p s; invalidate_panel p s];
          entries_panel p s])].

Definition page : component Props State Event :=
  mkComponent init view handle
    [effect_once debounce_changed (fun _ c => Some (run_top (debounce c)));
     effect_once entries_changed (fun _ c => Some (run_top (load_entries c)))]
    (fun s => s).
End Page.
End CachePage.

(** * Theorems *)

Module CachePageFacts.
Import CachePage.
Section Facts.
Context {L : Locale} (t : string -> string) (language : string).

Definition local_event (ev : Event) : Prop :=
  match ev with SetSearch _ | SetTypeFilter _ | ClickPrevious | ClickNext => True | _ => False end.

Lemma cachepage_view_viewer p s : readOnly p = true -> nodes_all local_event false (view t language p s).
Proof. intros Hr. unfold view. view_split; rewrite ?Hr; first [view_close | done]. Qed.

Lemma cachepage_view_busy p s : busy s = true -> nodes_all local_event false (view t language p s).
Proof. intros Hb. unfold view. view_split; rewrite ?Hb; first [view_close | done]. Qed.

Ltac cache_unfold := unfold handle, flush, submitDomain, invalidate, afterChange, fail, debounce, load_entries.

Lemma cachepage_lockable_page : lockable (page t language) readOnly.
Proof.
  constructor; cbn [c_init c_view c_handle c_effects c_unmount page].
  - intros p s ev _. destruct ev; cache_unfold; quiet_walk.
  - intros p s ev Hr Hev.
    pose proof (nodes_all_offered _ _ _ (cachepage_view_viewer p s Hr) Hev) as Hok.
    destruct ev; try done; cache_unfold; quiet_walk.
  - intros ef p s q [<-|[<-|[]]] [= <-]; cache_unfold; quiet_walk.
  - by intros ef p s [<-|[<-|[]]].
Qed.

#[export] Instance cache_lock_safe : LockSafe (page t language) readOnly.
Proof. apply lockable_lock_safe, cachepage_lockable_page. Qed.
#[export] Instance cache_viewer_safe : ViewerSafe (page t language) (fun p => readOnly p = true).
Proof. apply lock_safe_viewer_safe, cache_lock_safe. Qed.

Lemma cachepage_exclusive_page : exclusive (page t language) busy true (fun _ _ => True).
Proof.
  constructor; cbn [c_init c_view c_handle c_effects c_unmount page].
  - done.
  - intros p s ev _ Hev. destruct (busy s) eqn:Hb.
    + pose proof (nodes_all_offered _ _ _ (cachepage_view_busy p s Hb) Hev) as Hok.
      destruct ev; try done; cache_unfold; excl_walk.
    + destruct ev; cache_unfold; excl_walk.
  - intros ef p s q [<-|[<-|[]]] [= <-]; cache_unfold; excl_walk.
  - by intros ef p s [<-|[<-|[]]].
  - done.
Qed.

#[export] Instance cache_one_at_a_time : OneAtATime (page t language).
Proof. apply (exclusive_one_at_a_time _ busy true), cachepage_exclusive_page. Qed.

#[export] Instance cache_unblocks : Unblocks (page t language) busy.
Proof. apply exclusive_unblocks, cachepage_exclusive_page. Qed.

(** ** Paging *)

(** The offset is the start of a page. *)
Definition page_start (n : Z) : Prop := exists k, (0 <= k)%Z /\ n = (k * 100)%Z.

Lemma page_start_0 : page_start 0.
Proof. by exists 0%Z. Qed.
(** The address of the page of entries a state stands for. *)
Definition entries_url (s : State) : string :=
  "/api/v1/cache/entries?limit=100&offset=" +:+ StringZ (offset s)
    +:+ (if truthy (flt_domain (filter s)) then "&domain=" +:+ form_encode (flt_domain (filter s)) else "")
    +:+ (if truthy (flt_type (filter s)) then "&type=" +:+ form_encode (flt_type (filter s)) else "").

Lemma entries_query_url s :
  (0 <= offset s)%Z -> "/api/v1/cache/entries?" +:+ entries_query (offset s) (filter s) = entries_url s.
Proof.
  intros Ho. unfold entries_query, entries_url, search_params.
  destruct (truthy (flt_domain (filter s))), (truthy (flt_type (filter s))); cbn;
    rewrite form_encode_StringZ by done; rewrite ?append_nil_r, ?append_assoc; reflexivity.
Qed.

Definition paged_output (s : State) (o : output) : Prop :=
  match o with Sent q => mutating q = false -> f_path q = entries_url s | _ => True end.

Definition in_page (s : State) (ev : Event) : Prop :=
  match ev with
  | ClickNext => exists pg, entryPage s = Some pg /\ (offset s + PAGE_SIZE < cep_total pg)%Z
  | ClickPrevious => offset s <> 0%Z
  | _ => True
  end.

Lemma view_in_page p s : nodes_all (in_page s) false (view t language p s).
Proof.
  unfold view. view_split; try first [view_close | done]; cbn; rewrite orb_false_r, ?orb_false_r.
  - by rewrite Z.eqb_neq.
  - rewrite Z.leb_gt. eauto.
Qed.

(** What one step does to the offset. *)
Definition offset_move (s s' : State) : Prop :=
  offset s' = offset s \/ offset s' = 0%Z \/
  (offset s' = (offset s + 100)%Z /\ exists pg, entryPage s = Some pg /\ (offset s + 100 < cep_total pg)%Z) \/
  (offset s' = (offset s - 100)%Z /\ (100 <= offset s)%Z).

Lemma page_start_move s s' : offset_move s s' -> page_start (offset s) -> page_start (offset s').
Proof.
  unfold page_start. intros [->|[->|[[-> _]|[-> Hle]]]] (k & Hk & Heq); [eauto|eauto using Z.le_refl|..].
  - exists (k + 1)%Z. lia.
  - exists (k - 1)%Z. lia.
Qed.

Definition cache_step (s s' : State) (l : list output) : Prop :=
  page_start (offset s) ->
  Forall (paged_output s) l /\ offset_move s s' /\ (filter s' = filter s \/ offset s' = 0%Z).

Lemma paged_change s (T : Set) path signal m o e :
  is_safe_method m = false -> Forall (paged_output s) (map Sent (sent (request T path signal m o e))).
Proof. intros Hm. constructor; [|constructor]. unfold paged_output, mutating. cbn [f_method request_init]. unfold is_safe_method in Hm. by rewrite Hm. Qed.

Lemma paged_read s (T : Set) signal e :
  page_start (offset s) ->
  Forall (paged_output s)
    (map Sent (sent (get T ("/api/v1/cache/entries?" +:+ entries_query (offset s) (filter s)) signal e))).
Proof.
  intros (k & Hk & Ho). constructor; [|constructor]. intros _. apply entries_query_url. rewrite Ho. lia.
Qed.

Ltac cache_step_close :=
  intros Hp; (split; [first [by repeat constructor | by apply paged_change | by apply paged_read]|]);
  (split; [|by auto]); first [by left | by right; left].

Lemma cache_stepwise : stepwise (page t language) cache_step.
Proof.
  constructor; cbn [c_init c_view c_handle c_effects c_unmount page].
  - intros s. cache_step_close.
  - intros s. cache_step_close.
  - intros p s ev Hev. pose proof (nodes_all_offered _ _ _ (view_in_page p s) Hev) as Hok.
    destruct ev; cache_unfold; tread_split; try cache_step_close; intros (k & Hk & Ho); unfold PAGE_SIZE in *.
    + split_and!; [constructor| |by left]. right; right; right. cbn in Hok |- *. lia.
    + split_and!; [constructor| |by left]. right; right; left. by split.
  - intros ef p s q [<-|[<-|[]]] [= <-]; cache_unfold; tread_split; cache_step_close.
Qed.

Lemma offset_page_start p c : reachable (page t language) any_props p c -> page_start (offset (state c)).
Proof.
  induction 1 as [|c c' Hc IH Hs]; [apply page_start_0|].
  destruct (stepwise_step _ _ _ _ _ _ cache_stepwise Hc Hs) as (l & _ & Hl).
  destruct (Hl IH) as (_ & Hm & _). by eapply page_start_move.
Qed.

(** C15: paging of the cache entries. In every step of every run of the page,
    whatever the order of searches, flushes, page turns and replies, the offset is
    the start of a page of 100 entries, never negative; a read it sends is for
    exactly the page of 100 entries at the offset, under the filter, of the state
    it is sent in, the filter's domain and type encoded and left out when empty;
    the offset stays, goes back to the first page, moves on by one page (only
    when the listing on screen has an entry there) or back by one page (only
    from a later page); and a new filter starts at the first page. *)
Theorem cache_paging p c c' :
  reachable (page t language) any_props p c -> step (page t language) any_props c c' ->
  page_start (offset (state c)) /\
  exists l, out c' = (out c ++ l)%list /\ Forall (paged_output (state c)) l /\
    offset_move (state c) (state c') /\
    (filter (state c') = filter (state c) \/ offset (state c') = 0%Z).
Proof.
  intros Hc Hs. pose proof (offset_page_start _ _ Hc) as Hp. split; [done|].
  destruct (stepwise_step _ _ _ _ _ _ cache_stepwise Hc Hs) as (l & Hl & HR). exists l. split; [done|]. by apply HR.
Qed.
End Facts.

(** ** Concrete instances *)

Definition plain_page : component Props State Event := @page plain_locale plain_text "en".
Definition open_props : Props := mkProps small_snapshot false.

(** The page on its second page, about to read its entries. *)
Definition second_page : config Props State :=
  Config open_props
    ((init open_props) <| entryPage := Some (mkCacheEntryPage [] 150) |> <| offset := 100%Z |>)
    true [Task (Some 1) true Done Done; Task None true Done Done]
    [None; Some (open_props, init open_props)]
    [Sent (request_init "" "/api/v1/cache/entries?limit=100&offset=0" true "GET" no_options)].

Lemma second_page_reachable : reachable plain_page any_props open_props second_page.
Proof.
  pose proof (reach_effect plain_page any_props open_props (start plain_page open_props) (calm_env false)
    (reach_start _ _ _) 1 _ _ eq_refl eq_refl eq_refl eq_refl eq_refl) as H1.
  pose proof (reach_reply _ _ _ _ (calm_env false) H1 0 _ _ _ _ eq_refl eq_refl eq_refl
    (OkResponse 200 (inl (mkCacheEntryPage [] 150)))) as H2.
  refine (reach_event _ _ _ _ (calm_env false) H2 ClickNext eq_refl _ eq_refl).
  offer_at 0 [2; 4; 1; 1] 2.
Qed.

Lemma cache_paging_witness :
  exists (c' : config Props State) q, out c' = (out second_page ++ [Sent q])%list /\
    f_path q = "/api/v1/cache/entries?limit=100&offset=100".
Proof.
  assert (step plain_page any_props second_page
            (rerun (calm_env false) 1 (effect_once entries_changed
               (fun _ c => Some (run_top (load_entries plain_text c)))) second_page)) as Hs
    by (eapply step_effect; reflexivity).
  destruct (@cache_paging plain_locale plain_text "en" open_props second_page _ second_page_reachable Hs)
    as (_ & l & Hl & Hq & _).
  match type of Hs with step _ _ _ ?c' => exists c' end.
  eexists. split; [reflexivity|]. apply (app_inv_head (out second_page) [_] l) in Hl. rewrite <- Hl in Hq.
  inversion Hq as [|o l' Ho _]. by apply Ho.
Defined.
End CachePageFacts.
