(* ===== verification/QueryLog.v ===== *)
(** * The query log page: web/src/pages/QueryLog.tsx *)
From S2P Require Import Prelude JsString JsNumber Url Http Api Resources React Runtime Components.
Local Open Scope velora_scope.
Local Open Scope prog_scope.
Local Open Scope string_scope.

Module QueryLog.

(** The filter fields a user edits. *)
Record Draft : Set := mkDraft { d_domain : string; d_client : string; d_type : string; d_source : string }.
#[export] Instance eta_Draft : Eta Draft := fun s =>
  mkDraft (d_domain s) (d_client s) (d_type s) (d_source s).
Definition empty_draft : Draft := mkDraft "" "" "" "".

(** The filter in force: a draft, the cursor, and a counter that makes every
    new filter differ from the one before. *)
Record Filter : Set := mkFilter { flt_draft : Draft; before : string; revision : Z }.

Definition SOURCES : list string := ["cache"; "local"; "upstream"; "blocked"; "refused"; "overload"].
Definition SOURCE_TONES (source : string) : option BadgeTone :=
  if String.eqb source "cache" then Some info
  else if String.eqb source "local" then Some brand
  else if String.eqb source "upstream" then Some neutral
  else if String.eqb source "blocked" then Some danger
  else if String.eqb source "refused" then Some warning
  else if String.eqb source "overload" then Some warning
  else None.
Definition QUERY_TYPES : list string := ["A"; "AAAA"; "CNAME"; "TXT"; "MX"; "NS"; "PTR"; "SOA"].

Record Props : Set := mkProps { enabled : bool; client_param : option string }.

Record State : Set := mkState {
  entries_ : option (list QueryLogEntry);
  draft : Draft;
  filter : Filter;
  loading : bool;
  error : string }.
#[export] Instance eta_State : Eta State := fun s =>
  mkState (entries_ s) (draft s) (filter s) (loading s) (error s).

Definition initial (p : Props) : Draft := empty_draft <| d_client := client_param p ?? "" |>.
Definition init (p : Props) : State := mkState None (initial p) (mkFilter (initial p) "" 0) true "".

Inductive Event : Set :=
| ClickRefresh
| Submit
| SetDraft (d : Draft)
| ShowBlocked
| ClickOlder (last : QueryLogEntry).

Section Page.
Context {L : Locale} (t : string -> string).

Definition query (f : Filter) : string :=
  search_params [("domain", d_domain (flt_draft f)); ("client", d_client (flt_draft f));
                 ("type", d_type (flt_draft f)); ("source", d_source (flt_draft f));
                 ("before", before f); ("limit", "100")].

Definition load (f : Filter) : M State unit :=
  try_finally
    (try_catch
       (data <- await (get (list QueryLogEntry) ("/api/v1/queries?" +:+ query f) true) ;;
        e <- ask ;;
        when_do (negb (aborted e))
          (update (fun s => s <| entries_ := Some data |>) ;; update (fun s => s <| error := "" |>)))
       (fun x => e <- ask ;;
          when_do (negb (aborted e))
            (update (fun s => s <| error := error_message x (t "querylog.load_failed") |>))))
    (e <- ask ;; when_do (negb (aborted e)) (update (fun s => s <| loading := false |>))).

Definition load_changed (r r' : Props * State) : bool :=
  negb (Bool.eqb (enabled (fst r)) (enabled (fst r'))
        && Z.eqb (revision (filter (snd r))) (revision (filter (snd r')))).

Definition set_filter (d : Draft) (bef : string) (c : State) : M State unit :=
  update (fun s => s <| loading := true |>) ;;
  update (fun s => s <| filter := mkFilter d bef (revision (filter c) + 1) |>).

Definition apply (c : State) : M State unit := set_filter (draft c) "" c.

Definition handle (p : Props) (c : State) (ev : Event) : prog State :=
  run_top
    match ev with
    | ClickRefresh | Submit => apply c
    | SetDraft d => update (fun s => s <| draft := d |>)
    | ShowBlocked =>
        let blocked := empty_draft <| d_source := "blocked" |> in
        update (fun s => s <| draft := blocked |>) ;; set_filter blocked "" c
    | ClickOlder last => set_filter (flt_draft (filter c)) (StringZ (qle_id last)) c
    end.

(** ** The view *)

Definition choices (values : list string) (f : string -> Draft) : attr Event :=
  OnSelect (map (fun v => SetDraft (f v)) ("" :: values)).

Definition filter_fields (d : Draft) : node Event :=
  El div ["className" =: "form-grid filters"]
    [El label []
       [Txt (t "querylog.domain");
        El input ["maxLength" =: "253"; "value" =: d_domain d; OnChange (fun v => SetDraft (d <| d_domain := v |>));
                  "placeholder" =: t "querylog.contains_example"] []];
     El label []
       [Txt (t "querylog.client_ip");
        El input ["value" =: d_client d; OnChange (fun v => SetDraft (d <| d_client := v |>));
                  "placeholder" =: t "querylog.exact_ip"] []];
     El label []
       [Txt (t "querylog.query_type");
        El select ["aria-label" =: t "querylog.query_type"; "value" =: d_type d;
                   choices QUERY_TYPES (fun v => d <| d_type := v |>)]
          (El option_ ["value" =: ""] [Txt (t "querylog.all_types")]
           :: each QUERY_TYPES (fun v => [El option_ [] [Txt v]]))];
     El label []
       [Txt (t "querylog.source");
        El select ["aria-label" =: t "querylog.source"; "value" =: d_source d;
                   choices SOURCES (fun v => d <| d_source := v |>)]
          (El option_ ["value" =: ""] [Txt (t "querylog.all_sources")]
           :: each SOURCES (fun v => [El option_ [] [Txt v]]))]].

Definition filter_panel (s : State) : node Event :=
  El section ["className" =: "panel form-panel"]
    [El form ["className" =: "zone-form"; "aria-label" =: t "querylog.filters_aria"; OnSubmit Submit]
       [filter_fields (draft s);
        El div ["className" =: "form-actions"]
          [El button ["className" =: "button primary"; Disabled (loading s)]
             [Icon "Filter" 15; Txt (t "querylog.apply_filters")];
           El button ["className" =: "button"; "type" =: "button"; Disabled (loading s); OnClick ShowBlocked]
             [Icon "ShieldBan" 15; Txt (t "querylog.show_blocked")]]]].

Definition client_cell (e : QueryLogEntry) : list (node Event) :=
  match qle_client_name e with
  | None | Some EmptyString => [El code_ [] [Txt (qle_client_ip e)]]
  | Some name =>
      [El a_ ["href" =: ("/clients?name=" +:+ encodeURIComponent name)] [Txt name];
       El small [] [El code_ [] [Txt (qle_client_ip e)]]]
  end.

Definition entry_row (e : QueryLogEntry) : node Event :=
  El tr []
    [El td ["className" =: "cell-muted"] [Txt (date_locale_default (qle_occurred_at e))];
     El td [] (client_cell e);
     El td ["className" =: "record-value"] [El code_ [] [Txt (qle_domain e)]];
     El td [] [El span ["className" =: ("record-type type-" +:+ qle_type e)] [Txt (qle_type e)]];
     El td (if truthy (qle_upstream e) then ["title" =: qle_upstream e] else [])
       [Badge (SOURCE_TONES (qle_source e) ?? neutral) false [Txt (qle_source e)]];
     El td [] [El span ["className" =: (if String.eqb (qle_rcode e) "NOERROR" then "cell-muted" else "danger")]
                 [Txt (qle_rcode e)]];
     El td ["className" =: "num mono"] [Txt (toFixed 2 (ratio (qle_duration e) 1000000) +:+ " ms")]].

Definition older_footer (s : State) (l : list QueryLogEntry) : list (node Event) :=
  when (Nat.eqb (length l) 100)
    (when_some (last l) (fun e =>
       [El div ["className" =: "panel-footer"]
          [El span [] [];
           El button ["className" =: "button"; Disabled (loading s); OnClick (ClickOlder e)]
             [Txt (t "querylog.older")]]])).

Definition table_panel (s : State) (l : list QueryLogEntry) : node Event :=
  El section ["className" =: "panel"]
    (El div ["className" =: "table-wrap"]
       [El table ["className" =: "records-table"]
          [El caption ["className" =: "sr-only"] [Txt (t "querylog.caption")];
           El thead []
             [El tr [] [El th [] [Txt (t "querylog.col_timestamp")]; El th [] [Txt (t "querylog.col_client")];
                        El th [] [Txt (t "querylog.col_domain")]; El th [] [Txt (t "querylog.col_type")];
                        El th [] [Txt (t "querylog.col_source")]; El th [] [Txt (t "querylog.col_response")];
                        El th ["className" =: "num"] [Txt (t "querylog.col_latency")]]];
           El tbody [] (each l (fun e => [entry_row e]))]]
     :: older_footer s l).

Definition unavailable : list (node Event) :=
  [El section ["className" =: "panel"; "role" =: "status"]
     [EmptyState (Some (Icon "EyeOff" 22)) (t "querylog.unavailable_title")
        [Txt (t "querylog.unavailable_text")] [] false]].

Definition log_view (s : State) : list (node Event) :=
  [El div ["className" =: "zones-toolbar"]
     [El span ["className" =: "zone-count"] [Txt (t "querylog.up_to_100")];
      El button ["className" =: "button"; Disabled (loading s); OnClick ClickRefresh]
        [Icon "RefreshCw" 15; Txt (t "querylog.refresh")]];
   filter_panel s]
  ++ when (truthy (error s))
       [El div ["className" =: "notice error"; "role" =: "alert"]
          [Txt (error s +:+ ". " +:+ t "querylog.error_stale")]]
  ++ when (loading s)
       [El section ["className" =: "panel form-panel"] [Loading [Txt (t "querylog.loading")]]]
  ++ match entries_ s with
     | None => []
     | Some [] =>
         when (negb (truthy (error s)) && negb (loading s))
           [El section ["className" =: "panel"]
              [EmptyState (Some (Icon "SearchX" 22)) (t "querylog.no_matches")
                 [Txt (t "querylog.no_matches_text")] [] false]]
     | Some l => [table_panel s l]
     end.

Definition view (p : Props) (s : State) : list (node Event) :=
  if negb (enabled p) then unavailable else log_view s.

Definition page : component Props State Event :=
  mkComponent init view handle
    [effect_once load_changed (fun p c => if enabled p then Some (run_top (load (filter c))) else None)]
    (fun s => s).
End Page.
End QueryLog.

(** * Theorems *)

Module QueryLogFacts.
Import QueryLog.
Section Facts.
Context {L : Locale} (t : string -> string).

Lemma querylog_lockable_page : lockable (page t) (fun _ => true).
Proof.
  constructor; cbn [c_init c_view c_handle c_effects c_unmount page].
  - intros p s ev _. destruct ev; unfold handle, apply, set_filter; quiet_walk.
  - intros p s ev _ _. destruct ev; unfold handle, apply, set_filter; quiet_walk.
  - intros ef p s q [<-|[]]. cbn. destruct (enabled p); intros [= <-]. unfold load. quiet_walk.
  - by intros ef p s [<-|[]].
Qed.

#[export] Instance querylog_lock_safe : LockSafe (page t) (fun _ => true).
Proof. apply lockable_lock_safe, querylog_lockable_page. Qed.
#[export] Instance querylog_viewer_safe : ViewerSafe (page t) (fun _ => true = true).
Proof. apply lock_safe_viewer_safe, querylog_lock_safe. Qed.

(** What the page offers: no query starts while one is loading, and the cursor
    of the older-entries button is the last entry of a full page. *)
Definition log_event (s : State) (ev : Event) : Prop :=
  match ev with
  | SetDraft _ => True
  | ClickOlder e => loading s = false /\ exists l, entries_ s = Some l /\ length l = 100 /\ last l = Some e
  | _ => loading s = false
  end.

Lemma view_log p s : nodes_all (log_event s) false (view t p s).
Proof.
  unfold view, choices. view_split; try first [view_close | done]; cbn -[length]; rewrite ?orb_false_r; auto.
  - by intros Hs%negb_true_iff.
  - intros Hl. split; [done|]. eexists. split; [done|].
    by match goal with H : Nat.eqb _ _ = true |- _ => apply Nat.eqb_eq in H end.
Qed.

(** C17: paging through the log: older entries are offered only below a full
    page of 100 and while nothing loads; the click keeps the filter in force at
    that moment, and the query it makes due asks, under that filter, for the 100
    entries before the last one shown (which stems from an earlier filter when the
    latest query failed); no other query starts while one is loading. *)
Theorem querylog_older e p s ev :
  offered (view t p s) ev ->
  match ev with
  | SetDraft _ => True
  | ClickOlder last_entry =>
      loading s = false /\
      (exists l, entries_ s = Some l /\ length l = 100 /\ last l = Some last_entry) /\
      let s' := seg_state (advance e (handle p s ev) s) in
      let d := flt_draft (filter s) in
      loading s' = true /\ flt_draft (filter s') = d /\
      before (filter s') = StringZ (qle_id last_entry) /\ load_changed (p, s) (p, s') = true /\
      query (filter s')
        = "domain=" +:+ form_encode (d_domain d) +:+ "&client=" +:+ form_encode (d_client d)
            +:+ "&type=" +:+ form_encode (d_type d) +:+ "&source=" +:+ form_encode (d_source d)
            +:+ "&before=" +:+ form_encode (StringZ (qle_id last_entry)) +:+ "&limit=100"
  | _ => loading s = false
  end.
Proof.
  intros Hev. pose proof (nodes_all_offered _ _ _ (view_log p s) Hev) as Hok.
  destruct ev; try exact Hok. destruct Hok as [Hl Hx]. split; [done|]. split; [done|]. cbn.
  split_and!; try done.
  unfold load_changed. cbn. rewrite (proj2 (Z.eqb_neq _ _)), andb_false_r; [done|lia].
Qed.

(** C16: a reply to a superseded query is dropped: when the filter changed or
    the page was left meanwhile, neither data nor an error of the old query
    reaches the state; a live reply shows the entries or the error and ends
    the loading state. *)
Theorem querylog_replies e f s :
  let call := get (list QueryLogEntry) ("/api/v1/queries?" +:+ query f) true in
  exists k,
    advance e (run_top (load t f)) s = Seg (Wait (call e) k) s (map Sent (sent (call e))) [] /\
    forall e' s' reply,
      advance e' (k reply) s' =
        Seg Done
          (if aborted e' then s'
           else match reply with
                | inl data => s' <| entries_ := Some data |> <| error := "" |> <| loading := false |>
                | inr x => s' <| error := error_message x (t "querylog.load_failed") |> <| loading := false |>
                end) [] [].
Proof.
  unfold load. prog_cbv. eexists. split; [reflexivity|].
  intros e' s' [data|x]; cbn; destruct (aborted e') eqn:Ea; cbn; by rewrite Ea.
Qed.
End Facts.

(** ** Concrete instances *)

Definition some_entry : QueryLogEntry :=
  mkQueryLogEntry 9 "" false "" "10.0.0.1" "a.example" "A" "NOERROR" 1000 "cache" None.
Definition full_page : State :=
  (init (mkProps true None)) <| entries_ := Some (repeat some_entry 100) |> <| loading := false |>.

Lemma querylog_older_witness :
  before (filter (seg_state (advance (calm_env false)
    (handle (mkProps true None) full_page (ClickOlder some_entry)) full_page))) = "9".
Proof.
  refine (proj1 (proj2 (proj2 (proj2 (proj2
    (@querylog_older plain_locale plain_text (calm_env false) (mkProps true None) full_page
       (ClickOlder some_entry) _)))))).
  offer_at 2 [1; 1] 2.
Defined.
End QueryLogFacts.
