(* ===== verification/Dhcp.v ===== *)
(** * The DHCP page: web/src/pages/DHCP.tsx *)
From S2P Require Import Prelude JsString JsNumber Url Http Api Resources React Runtime Components.
Local Open Scope velora_scope.
Local Open Scope prog_scope.
Local Open Scope string_scope.

Module DHCP.

(** The pool being created. *)
Record NewPool : Set := mkNewPool {
  np_name : string; np_interface : string; np_subnet : string; np_gateway : string;
  np_dns_servers : list string; np_lease_seconds : jsnum }.
#[export] Instance eta_NewPool : Eta NewPool := fun s =>
  mkNewPool (np_name s) (np_interface s) (np_subnet s) (np_gateway s) (np_dns_servers s) (np_lease_seconds s).

Definition blank_pool : NewPool := mkNewPool "" "eth0" "" "" ["1.1.1.1"] (num 86400).

#[export] Instance eta_ReservationInput : Eta ReservationInput := fun s =>
  mkReservationInput (ri_mac_address s) (ri_ip_address s) (ri_hostname s).
Definition blank_reservation : ReservationInput := mkReservationInput "" "" "".

(** [clock]: the time of the render, which the expiry column counts from. *)
Record Props : Set := mkProps { readOnly : bool; clock : Z }.

Record State : Set := mkState {
  pools : list DHCPPool;
  leases : list DHCPLease;
  reservations : list DHCPReservation;
  selectedPool : option Z;
  loading : bool;
  error : string;
  showCreatePool : bool;
  newPool : NewPool;
  newReservation : ReservationInput }.
#[export] Instance eta_State : Eta State := fun s =>
  mkState (pools s) (leases s) (reservations s) (selectedPool s) (loading s) (error s)
    (showCreatePool s) (newPool s) (newReservation s).

Definition init (_ : Props) : State :=
  mkState [] [] [] None true "" false blank_pool blank_reservation.

(** [if (poolId)]: a pool that is selected and whose id is not 0. *)
Definition pool_truthy (o : option Z) : option Z :=
  match o with Some id => if num_truthy id then Some id else None | None => None end.

Definition same_pool (o : option Z) (id : Z) : bool :=
  match o with Some i => Z.eqb i id | None => false end.

Inductive Event : Set :=
| ClickRefresh
| ClickTogglePoolForm
| SetNewPool (v : NewPool)
| SubmitPool
| CancelPool
| SelectPool (id : Z)
| RowKey (id : Z) (key : string)
| ClickDeletePool (id : Z)
| SetNewReservation (v : ReservationInput)
| SubmitReservation
| ClickDeleteReservation (id : Z)
| ClickDeleteLease (id : Z).

Section Page.
Context {L : Locale} (t : string -> string).

Definition set_error (x : exn) (fallback : string) : M State unit :=
  update (fun s => s <| error := error_message x (t fallback) |>).

Definition refresh (poolId : option Z) : M State unit :=
  try_finally
    (try_catch
       (pl <- await (all2 (loadPools false) (loadLeases false)) ;;
        update (fun s => s <| pools := fst pl |>) ;;
        update (fun s => s <| leases := snd pl |>) ;;
        (match pool_truthy poolId with
         | Some id => r <- await (loadReservations id false) ;; update (fun s => s <| reservations := r |>)
         | None => ret tt
         end) ;;
        update (fun s => s <| error := "" |>))
       (fun x => set_error x "dhcp.load_failed"))
    (update (fun s => s <| loading := false |>)).

(** The effect on mount. *)
Definition first_load : M State unit :=
  try_finally
    (try_catch
       (pl <- await (all2 (loadPools false) (loadLeases false)) ;;
        e <- ask ;;
        when_do (negb (aborted e))
          (update (fun s => s <| pools := fst pl |>) ;;
           update (fun s => s <| leases := snd pl |>) ;;
           update (fun s => s <| error := "" |>)))
       (fun x => e <- ask ;; when_do (negb (aborted e)) (set_error x "dhcp.load_failed")))
    (e <- ask ;; when_do (negb (aborted e)) (update (fun s => s <| loading := false |>))).

(** The effect on a selection. *)
Definition load_selected (id : Z) : M State unit :=
  try_catch
    (r <- await (loadReservations id false) ;;
     e <- ask ;; when_do (negb (aborted e)) (update (fun s => s <| reservations := r |>)))
    (fun x => e <- ask ;; when_do (negb (aborted e)) (set_error x "dhcp.load_failed")).

Definition pool_input (v : NewPool) : PoolInput :=
  mkPoolInput (np_name v) (np_interface v) (np_subnet v) (np_gateway v)
    (filterb truthy (np_dns_servers v)) (np_lease_seconds v) true.

Definition handleCreatePool (c : State) : M State unit :=
  try_catch
    (_ <- await (createPool (pool_input (newPool c))) ;;
     update (fun s => s <| showCreatePool := false |>) ;;
     update (fun s => s <| newPool := blank_pool |>) ;;
     refresh (selectedPool c))
    (fun x => set_error x "dhcp.create_pool_failed").

Definition handleDeletePool (c : State) (id : Z) : M State unit :=
  e <- ask ;;
  if negb (confirm e (t "dhcp.confirm_delete_pool")) then ret tt else
  try_catch
    (await (deletePool id) ;;
     when_do (same_pool (selectedPool c) id) (update (fun s => s <| selectedPool := None |>)) ;;
     refresh (if same_pool (selectedPool c) id then None else selectedPool c))
    (fun x => set_error x "dhcp.delete_pool_failed").

Definition handleCreateReservation (c : State) : M State unit :=
  match pool_truthy (selectedPool c) with
  | None => ret tt
  | Some id =>
      try_catch
        (_ <- await (createReservation id (newReservation c)) ;;
         update (fun s => s <| newReservation := blank_reservation |>) ;;
         refresh (selectedPool c))
        (fun x => set_error x "dhcp.create_reservation_failed")
  end.

Definition handleDeleteReservation (c : State) (id : Z) : M State unit :=
  try_catch (await (deleteReservation id) ;; refresh (selectedPool c))
    (fun x => set_error x "dhcp.delete_reservation_failed").

Definition handleDeleteLease (c : State) (id : Z) : M State unit :=
  try_catch (await (deleteLease id) ;; refresh (selectedPool c))
    (fun x => set_error x "dhcp.delete_lease_failed").

Definition handle (p : Props) (c : State) (ev : Event) : prog State :=
  run_top
    match ev with
    | ClickRefresh => refresh (selectedPool c)
    | ClickTogglePoolForm => update (fun s => s <| showCreatePool := negb (showCreatePool c) |>)
    | SetNewPool v => update (fun s => s <| newPool := v |>)
    | SubmitPool => handleCreatePool c
    | CancelPool => update (fun s => s <| showCreatePool := false |>)
    | SelectPool id => update (fun s => s <| selectedPool := Some id |>)
    | RowKey id key =>
        when_do (String.eqb key "Enter" || String.eqb key " ")
          (update (fun s => s <| selectedPool := Some id |>))
    | ClickDeletePool id => handleDeletePool c id
    | SetNewReservation v => update (fun s => s <| newReservation := v |>)
    | SubmitReservation => handleCreateReservation c
    | ClickDeleteReservation id => handleDeleteReservation c id
    | ClickDeleteLease id => handleDeleteLease c id
    end.

(** ** The view *)

(** The time left on a lease; an invalid date counts in [NaN]s. *)
Definition formatExpiry (now_ : Z) (expiresAt : string) : string :=
  match date_time expiresAt with
  | None => "NaNh NaNm"
  | Some d =>
      let diff := (d - now_)%Z in
      if (diff <=? 0)%Z then t "dhcp.expired"
      else
        let hours := (diff / 3600000)%Z in
        let mins := (diff mod 3600000 / 60000)%Z in
        if (24 <=? hours)%Z
        then StringZ (hours / 24) +:+ "d " +:+ StringZ (hours mod 24) +:+ "h"
        else StringZ hours +:+ "h " +:+ StringZ mins +:+ "m"
  end.

Definition poolReservations (s : State) : list DHCPReservation :=
  filterb (fun r => same_pool (selectedPool s) (dr_pool_id r)) (reservations s).
Definition activeLeases (s : State) : list DHCPLease :=
  filterb (fun l => String.eqb (dl_status l) "active") (leases s).

Definition text_field (label_ : string) (v : string) (f : string -> Event) (extra : list (attr Event))
    : node Event :=
  El label [] [Txt label_; El input (["value" =: v; OnChange f] ++ extra) []].

Definition pool_form (v : NewPool) : node Event :=
  El form ["className" =: "zone-form"; OnSubmit SubmitPool]
    [El div ["className" =: "form-grid"]
       [text_field (t "dhcp.pool_name") (np_name v) (fun x => SetNewPool (v <| np_name := x |>))
          ["placeholder" =: "lan"];
        text_field (t "dhcp.interface") (np_interface v) (fun x => SetNewPool (v <| np_interface := x |>)) [];
        text_field (t "dhcp.subnet_cidr") (np_subnet v) (fun x => SetNewPool (v <| np_subnet := x |>))
          ["placeholder" =: "192.168.1.0/24"];
        text_field (t "dhcp.gateway") (np_gateway v) (fun x => SetNewPool (v <| np_gateway := x |>))
          ["placeholder" =: "192.168.1.1"];
        text_field (t "dhcp.dns_servers") (joinStrings ", " (np_dns_servers v))
          (fun x => SetNewPool (v <| np_dns_servers := map trim (split_each is_comma x) |>))
          ["placeholder" =: "1.1.1.1, 8.8.8.8"];
        text_field (t "dhcp.lease_seconds") (num_str (np_lease_seconds v))
          (fun x => SetNewPool (v <| np_lease_seconds := Number x |>)) ["type" =: "number"]];
     El div ["className" =: "form-actions"]
       [El button ["className" =: "button primary"; "type" =: "submit"] [Txt (t "dhcp.create")];
        El button ["className" =: "button"; "type" =: "button"; OnClick CancelPool] [Txt (t "zones.cancel")]]].

Definition pool_row (p : Props) (s : State) (pool : DHCPPool) : node Event :=
  El tr ["className" =: ("clickable" +:+ (if same_pool (selectedPool s) (dp_id pool) then " selected" else ""));
         OnClick (SelectPool (dp_id pool)); "tabIndex" =: "0"; OnKey (RowKey (dp_id pool))]
    [El td [] [El strong [] [Txt (dp_name pool)]; El small [] [Txt (dp_interface pool)]];
     El td [] [El code_ [] [Txt (dp_subnet pool)]];
     El td [] [El code_ [] [Txt (dp_gateway pool)]];
     El td ["className" =: "num mono"]
       [Txt (StringZ (Z.of_nat (length (filterb (fun l => Z.eqb (dl_pool_id l) (dp_id pool)) (activeLeases s)))))];
     El td []
       [El div ["className" =: "table-actions"]
          (when (negb (readOnly p))
             [El button ["className" =: "icon-button danger-icon";
                         "aria-label" =: (t "zones.delete_aria" +:+ " " +:+ dp_name pool);
                         OnClick (ClickDeletePool (dp_id pool))] [Icon "Trash2" 15]])]].

Definition pools_table (p : Props) (s : State) : node Event :=
  El div ["className" =: "table-wrap"]
    [El table []
       [El thead []
          [El tr [] [El th [] [Txt (t "dhcp.name")]; El th [] [Txt (t "dhcp.subnet")];
                     El th [] [Txt (t "dhcp.gateway")]; El th ["className" =: "num"] [Txt (t "dhcp.leases_label")];
                     El th [] [El span ["className" =: "sr-only"] [Txt (t "zones.col_actions")]]]];
        El tbody [] (each (pools s) (fun pool => [pool_row p s pool]))]].

Definition pools_panel (p : Props) (s : State) : node Event :=
  El section ["className" =: "panel"]
    ([El div ["className" =: "panel-heading"]
        [El div [] [El h2 [] [Txt (t "dhcp.pools")]];
         El div ["className" =: "button-group"]
           (El button ["className" =: "icon-button"; OnClick ClickRefresh; "aria-label" =: t "app.refresh";
                       "title" =: t "app.refresh"] [Icon "RefreshCw" 16]
            :: when (negb (readOnly p))
                 [El button ["className" =: "button primary"; OnClick ClickTogglePoolForm]
                    [Icon "Plus" 15; Txt (t "dhcp.add_pool")]])]]
     ++ when (showCreatePool s) [pool_form (newPool s)]
     ++ cond (nonempty (pools s)) [pools_table p s]
          [EmptyState (Some (Icon "Network" 22)) (t "dhcp.no_pools") [] [] true]).

Definition reservation_form (v : ReservationInput) : node Event :=
  El form ["className" =: "zone-form"; OnSubmit SubmitReservation]
    [El div ["className" =: "form-grid"]
       [text_field (t "dhcp.mac_address") (ri_mac_address v)
          (fun x => SetNewReservation (v <| ri_mac_address := x |>)) ["placeholder" =: "aa:bb:cc:dd:ee:ff"];
        text_field (t "dhcp.ip_address") (ri_ip_address v)
          (fun x => SetNewReservation (v <| ri_ip_address := x |>)) ["placeholder" =: "192.168.1.100"];
        text_field (t "dhcp.hostname") (ri_hostname v)
          (fun x => SetNewReservation (v <| ri_hostname := x |>)) ["placeholder" =: "printer"]];
     El div ["className" =: "form-actions"]
       [El button ["className" =: "button primary"; "type" =: "submit"] [Icon "Plus" 15; Txt (t "dhcp.add")]]].

Definition host_cell (hostname : string) : node Event :=
  El td [] (cond (truthy hostname) [Txt hostname] [El span ["className" =: "cell-muted"] [Txt "—"]]).

Definition reservation_row (p : Props) (r : DHCPReservation) : node Event :=
  El tr []
    [El td [] [El code_ [] [Txt (dr_mac_address r)]];
     El td [] [El code_ [] [Txt (dr_ip_address r)]];
     host_cell (dr_hostname r);
     El td []
       [El div ["className" =: "table-actions"]
          (when (negb (readOnly p))
             [El button ["className" =: "icon-button danger-icon";
                         "aria-label" =: (t "zones.delete_aria" +:+ " " +:+ dr_mac_address r);
                         OnClick (ClickDeleteReservation (dr_id r))] [Icon "Trash2" 15]])]].

Definition reservations_panel (p : Props) (s : State) : node Event :=
  El section ["className" =: "panel"]
    ([El div ["className" =: "panel-heading"]
        [El div []
           (El h2 [] [Txt (t "dhcp.reservations")]
            :: when_some (find_first (fun pool => same_pool (selectedPool s) (dp_id pool)) (pools s))
                 (fun pool => [El p_ [] [Txt (dp_name pool +:+ " · " +:+ dp_subnet pool)]]))]]
     ++ when (negb (readOnly p)) [reservation_form (newReservation s)]
     ++ when (nonempty (poolReservations s))
          [El div ["className" =: "table-wrap"]
             [El table []
                [El thead []
                   [El tr [] [El th [] [Txt (t "dhcp.mac_address")]; El th [] [Txt (t "dhcp.ip_address")];
                              El th [] [Txt (t "dhcp.hostname")];
                              El th [] [El span ["className" =: "sr-only"] [Txt (t "zones.col_actions")]]]];
                 El tbody [] (each (poolReservations s) (fun r => [reservation_row p r]))]]]).

Definition lease_row (p : Props) (lease : DHCPLease) : node Event :=
  El tr []
    [El td [] [El code_ [] [Txt (dl_mac_address lease)]];
     El td [] [El code_ [] [Txt (dl_ip_address lease)]];
     host_cell (dl_hostname lease);
     El td ["className" =: "cell-muted"] [Txt (formatExpiry (clock p) (dl_expires_at lease))];
     El td []
       [El div ["className" =: "table-actions"]
          (when (negb (readOnly p))
             [El button ["className" =: "icon-button danger-icon";
                         "aria-label" =: (t "zones.delete_aria" +:+ " " +:+ dl_ip_address lease);
                         OnClick (ClickDeleteLease (dl_id lease))] [Icon "Trash2" 15]])]].

Definition leases_panel (p : Props) (s : State) : node Event :=
  El section ["className" =: "panel"]
    (El div ["className" =: "panel-heading"]
       [El div [] [El h2 [] [Txt (t "dhcp.active_leases")]];
        El span ["className" =: "subtle-badge"] [Txt (StringZ (Z.of_nat (length (activeLeases s))))]]
     :: cond (nonempty (activeLeases s))
          [El div ["className" =: "table-wrap"]
             [El table []
                [El thead []
                   [El tr [] [El th [] [Txt (t "dhcp.mac_address")]; El th [] [Txt (t "dhcp.ip_address")];
                              El th [] [Txt (t "dhcp.hostname")]; El th [] [Txt (t "dhcp.expires")];
                              El th [] [El span ["className" =: "sr-only"] [Txt (t "zones.col_actions")]]]];
                 El tbody [] (each (activeLeases s) (fun lease => [lease_row p lease]))]]]
          [EmptyState None (t "dhcp.no_leases") [] [] true]).

Definition view (p : Props) (s : State) : list (node Event) :=
  if loading s then [El section ["className" =: "panel"] [Loading [Txt (t "dhcp.loading")]]]
  else
    [El div ["className" =: "stack"]
       (error_notice (error s)
        ++ [pools_panel p s]
        ++ when_some (pool_truthy (selectedPool s)) (fun _ => [reservations_panel p s])
        ++ [leases_panel p s])].

Definition selection_changed (r r' : Props * State) : bool :=
  negb (bool_decide (selectedPool (snd r) = selectedPool (snd r'))).

Definition page : component Props State Event :=
  mkComponent init view handle
    [effect_once (fun _ _ => false) (fun _ _ => Some (run_top first_load));
     effect_once selection_changed
       (fun _ c => match pool_truthy (selectedPool c) with
                   | Some id => Some (run_top (load_selected id))
                   | None => None
                   end)]
    (fun s => s).
End Page.
End DHCP.

(** * Theorems *)

Module DhcpFacts.
Import DHCP.
Section Facts.
Context {L : Locale} (t : string -> string).

Definition viewer_event (ev : Event) : Prop :=
  match ev with ClickRefresh | SelectPool _ | RowKey _ _ => True | _ => False end.

Definition viewer_inv (p : Props) (s : State) : Prop := readOnly p = true /\ showCreatePool s = false.

Lemma dhcp_view_viewer p s : viewer_inv p s -> nodes_all viewer_event false (view t p s).
Proof.
  intros [Hr Hs]. unfold view. view_split; try first [view_close | done]; rewrite ?Hr, ?Hs in *; done.
Qed.

Lemma dhcp_load_reads : reads_only (all2 (loadPools false) (loadLeases false)).
Proof. unfold loadPools, loadLeases. eauto with velora. Qed.
Lemma reservations_reads id : reads_only (loadReservations id false).
Proof. unfold loadReservations. eauto with velora. Qed.
#[local] Hint Resolve dhcp_load_reads reservations_reads : velora.

Lemma dhcp_verified_viewer p :
  readOnly p = true -> verified (page t) (still (fun p => readOnly p = true)) viewer_inv read_only_output p.
Proof.
  intros Hp. constructor; cbn [c_init c_view c_handle c_effects c_unmount page].
  - done.
  - intros p' s ev Hi Hev.
    pose proof (nodes_all_offered _ _ _ (dhcp_view_viewer p' s Hi) Hev) as H.
    destruct ev; try done; unfold handle, refresh, set_error; wp_split;
      first [apply dhcp_load_reads | apply reservations_reads | wp_close].
  - intros ef p' s q [<-|[<-|[]]] Hi; cbn; [intros [= <-]|destruct (pool_truthy _); intros [= <-]];
      unfold first_load, load_selected, set_error; wp_split;
      first [apply dhcp_load_reads | apply reservations_reads | wp_close].
  - by intros ef p' s [<-|[<-|[]]] _ p'' s' H.
  - intros p1 p2 s [_ Hi] Hp2. by split.
  - done.
Qed.

#[export] Instance dhcp_viewer_safe : ViewerSafe (page t) (fun p => readOnly p = true).
Proof. apply (verified_viewer_safe _ viewer_inv). apply dhcp_verified_viewer. Qed.

(** The expiry column rounds down to the minute: an expired lease says so,
    and otherwise the hours and minutes shown are the whole minutes left, in
    days and hours from a day on. *)
Theorem dhcp_expiry now_ expiresAt d :
  date_time expiresAt = Some d ->
  ((d <= now_)%Z -> formatExpiry t now_ expiresAt = t "dhcp.expired") /\
  ((now_ < d)%Z ->
   exists h m, (0 <= h /\ 0 <= m < 60)%Z /\
     (h * 3600000 + m * 60000 <= d - now_ < h * 3600000 + (m + 1) * 60000)%Z /\
     formatExpiry t now_ expiresAt =
       if (24 <=? h)%Z then StringZ (h / 24) +:+ "d " +:+ StringZ (h mod 24) +:+ "h"
       else StringZ h +:+ "h " +:+ StringZ m +:+ "m").
Proof.
  intros Hd. unfold formatExpiry. rewrite Hd. split; intros Hle.
  - by replace (d - now_ <=? 0)%Z with true by lia.
  - replace (d - now_ <=? 0)%Z with false by lia.
    exists ((d - now_) / 3600000)%Z, ((d - now_) mod 3600000 / 60000)%Z.
    pose proof (Z.div_mod (d - now_) 3600000). pose proof (Z.mod_pos_bound (d - now_) 3600000).
    pose proof (Z.div_mod ((d - now_) mod 3600000) 60000).
    pose proof (Z.mod_pos_bound ((d - now_) mod 3600000) 60000).
    repeat split; lia.
Qed.

(** What the page offers on reservations: those of the selected pool only. *)
Definition selected_event (s : State) (ev : Event) : Prop :=
  match ev with
  | ClickDeleteReservation id =>
      exists r, In r (reservations s) /\ dr_id r = id /\ selectedPool s = Some (dr_pool_id r)
  | _ => True
  end.

Lemma view_selected p s : nodes_all (selected_event s) false (view t p s).
Proof.
  unfold view. view_split; try first [view_close | done]. intros _. cbn.
  match goal with H : In _ (poolReservations s) |- _ => apply In_filterb in H as [Hin Hsame] end.
  unfold same_pool in Hsame. destruct (selectedPool s) as [i|] eqn:Es; [|done].
  apply Z.eqb_eq in Hsame as ->. eauto.
Qed.

(** Rows of a pool that is no longer selected are never acted on: every
    reservation the page offers to delete belongs to the selected pool, even
    while the reservations of another pool are still in its state. *)
Theorem dhcp_delete_reservation_scope p s id :
  offered (view t p s) (ClickDeleteReservation id) ->
  exists r, In r (reservations s) /\ dr_id r = id /\ selectedPool s = Some (dr_pool_id r).
Proof. exact (nodes_all_offered _ _ _ (view_selected p s)). Qed.

(** Deleting a pool asks first; a refusal sends nothing. After the server
    deleted it, a selection of that pool is cleared, pools and leases are
    loaded again, and the reservations of the deleted pool are not asked for. *)
Theorem dhcp_delete_pool e p c id :
  let call := deletePool id in
  let reload := all2 (loadPools false) (loadLeases false) in
  (confirm e (t "dhcp.confirm_delete_pool") = false ->
   advance e (handle t p c (ClickDeletePool id)) c = Seg Done c [] []) /\
  (confirm e (t "dhcp.confirm_delete_pool") = true ->
   exists k, advance e (handle t p c (ClickDeletePool id)) c
               = Seg (Wait (call e) k) c (map Sent (sent (call e))) [] /\
   forall e1 s1, exists k2 s2,
     advance e1 (k (inl tt)) s1 = Seg (Wait (reload e1) k2) s2 (map Sent (sent (reload e1))) [] /\
     (selectedPool c = Some id ->
      selectedPool s2 = None /\
      forall e2 s3 pl, seg_todo (advance e2 (k2 (inl pl)) s3) = Done /\
                       seg_out (advance e2 (k2 (inl pl)) s3) = [])).
Proof.
  split; intros Hc; cbn; rewrite Hc; [done|]. prog_cbv. eexists. split; [reflexivity|].
  intros e1 s1. cbn. destruct (same_pool (selectedPool c) id) eqn:Es.
  - eexists _, _. split; [reflexivity|]. intros _. by split.
  - eexists _, _. split; [reflexivity|]. intros Hsel. rewrite Hsel in Es. cbn in Es.
    by rewrite Z.eqb_refl in Es.
Qed.
End Facts.

(** ** Concrete instances *)

Definition two_pools : State :=
  (init (mkProps false 0))
    <| pools := [mkDHCPPool 1 "lan" "eth0" "10.0.0.0/24" "10.0.0.1" [] (num 86400) true "" ""] |>
    <| reservations := [mkDHCPReservation 4 1 "aa" "10.0.0.9" ""; mkDHCPReservation 5 2 "bb" "10.0.1.9" ""] |>
    <| selectedPool := Some 1%Z |> <| loading := false |>.

Lemma dhcp_delete_reservation_scope_witness :
  exists r, In r (reservations two_pools) /\ dr_id r = 4%Z /\ selectedPool two_pools = Some (dr_pool_id r).
Proof.
  apply (@dhcp_delete_reservation_scope plain_locale plain_text (mkProps false 0) two_pools 4).
  offer_at 0 [1; 2; 0; 1; 0; 3; 0; 0] 2.
Defined.

(** A locale whose every date is 25 hours, one minute and one second in. *)
Definition dated_locale : Locale :=
  Build_Locale (fun _ n => StringZ n) (fun _ x => num_str x) (fun _ s => s) (fun s => s) (fun _ s => s)
    (fun _ => Some 90061000%Z) String.compare (fun ms => StringZ ms) (fun _ s => s) (fun _ s => s)
    (fun _ s => s) (fun _ s => s).

Lemma dhcp_expiry_witness :
  (forall now_, (90061000 <= now_)%Z -> @formatExpiry dated_locale plain_text now_ "2026-01-02" = "dhcp.expired") /\
  @formatExpiry dated_locale plain_text 0 "2026-01-02" = "1d 1h".
Proof.
  split; [|reflexivity]. intros now_.
  exact (proj1 (@dhcp_expiry dated_locale plain_text now_ "2026-01-02" 90061000%Z eq_refl)).
Defined.

Lemma dhcp_delete_pool_witness :
  advance (calm_env false) (handle plain_text (mkProps false 0) two_pools (ClickDeletePool 1)) two_pools
    = Seg Done two_pools [] [].
Proof. apply (@dhcp_delete_pool plain_text (calm_env false) (mkProps false 0) two_pools 1%Z). reflexivity. Defined.
End DhcpFacts.
