(* ===== verification/UpdateCenter.v ===== *)
(** * The update center: web/src/pages/UpdateCenter.tsx

    A state machine over phases. While an update runs, an effect polls the
    agent; its loop is the program [poll]. *)
From S2P Require Import Prelude JsString JsNumber Url Http Api Resources React Runtime Components.
Local Open Scope velora_scope.
Local Open Scope prog_scope.
Local Open Scope string_scope.

Module UpdateCenter.

Inductive Phase : Set :=
| idle | checking | up_to_date | available | starting | updating | completed | failed.
#[export] Instance Phase_eq_dec : EqDecision Phase.
Proof. solve_decision. Defined.

Definition phase_str (ph : Phase) : string :=
  match ph with
  | idle => "idle" | checking => "checking" | up_to_date => "up_to_date" | available => "available"
  | starting => "starting" | updating => "updating" | completed => "completed" | failed => "failed"
  end.

Definition is_phase (a b : Phase) : bool := bool_decide (a = b).

Definition STEPS : list string := ["downloading"; "verifying"; "installing"; "readiness"].
Definition POLL_MS : Z := 2000.
Definition START_TIMEOUT_MS : Z := 30000.

(** [onUpdated]: the identity of the callback, which the polling effect depends on. *)
Record Props : Set := mkProps { readOnly : bool; onUpdated : Z }.

Record State : Set := mkState {
  status : option UpdateStatus;
  check : option UpdateCheck;
  phase : Phase;
  error : string;
  loading : bool;
  reconnecting : bool;
  history : option (list UpdateEntry);
  notified : bool;     (* refs *)
  sawUpdate : bool;
  startedAt : Z }.
#[export] Instance eta_State : Eta State := fun s =>
  mkState (status s) (check s) (phase s) (error s) (loading s) (reconnecting s) (history s)
    (notified s) (sawUpdate s) (startedAt s).

Definition init (_ : Props) : State := mkState None None idle "" true false None false false 0.

Inductive Event : Set :=
| RunCheck
| StartUpdate
| ClickReload
| ToggleHistory (open : bool).

Section Page.
Context {L : Locale} (t : string -> string) (language : string).

Definition set_phase (ph : Phase) : M State unit := update (fun s => s <| phase := ph |>).

Definition stateLabel (state_ : string) : string :=
  let key := "updates.state_" +:+ state_ in
  let translated := t key in
  if String.eqb translated key then state_ else translated.

(** The first status: progress is only resumed when an update is running. *)
Definition first_status : M State unit :=
  try_finally
    (try_catch
       (next <- await (loadUpdateStatus true) ;;
        e <- ask ;;
        if aborted e then ret tt else
        update (fun s => s <| status := Some next |>) ;;
        when_do (us_updating next)
          (update (fun s => s <| sawUpdate := true |>) ;; set_phase updating))
       (fun x => e <- ask ;;
          when_do (negb (aborted e))
            (update (fun s => s <| error := error_message x (t "updates.load_failed") |>))))
    (e <- ask ;; when_do (negb (aborted e)) (update (fun s => s <| loading := false |>))).

Definition finishedSinceRequest (next : UpdateStatus) (started : Z) : bool :=
  match us_last_completed next with
  | Some at_ =>
      truthy at_ && match date_time at_ with Some d => (started <=? d)%Z | None => false end
  | None => false
  end.

(** What one answered poll does; [true] when it polls again. *)
Definition on_status (next : UpdateStatus) : M State bool :=
  update (fun s => s <| reconnecting := false |>) ;;
  update (fun s => s <| status := Some next |>) ;;
  s <- read ;;
  e <- ask ;;
  if us_updating next then
    update (fun s => s <| sawUpdate := true |>) ;; set_phase updating ;; ret true
  else if negb (sawUpdate s) && negb (finishedSinceRequest next (startedAt s)) then
    if (START_TIMEOUT_MS <? now e - startedAt s)%Z then
      update (fun s => s <| error := t "updates.not_started" |>) ;; set_phase failed ;; ret false
    else ret true
  else if String.eqb (us_state next) "completed" then
    set_phase completed ;;
    when_do (negb (notified s))
      (update (fun s => s <| notified := true |>) ;; emit (CallProp "onUpdated")) ;;
    ret false
  else if String.eqb (us_state next) "failed" || String.eqb (us_state next) "rolled_back" then
    set_phase failed ;; ret false
  else set_phase idle ;; ret false.

Definition poll : M State unit :=
  continue <- try_catch
    (next <- await (loadUpdateStatus false) ;;
     e <- ask ;;
     if aborted e then ret false else on_status next)
    (fun _ => e <- ask ;;
       when_do (negb (aborted e)) (update (fun s => s <| reconnecting := true |>)) ;; ret true) ;;
  if (continue : bool) then e <- ask ;; when_do (negb (aborted e)) (again POLL_MS) else ret tt.

Definition polling (ph : Phase) : bool := is_phase ph starting || is_phase ph updating.

Definition runCheck : M State unit :=
  set_phase checking ;;
  update (fun s => s <| error := "" |>) ;;
  try_catch
    (result <- await (checkForUpdates false) ;;
     update (fun s => s <| check := Some result |>) ;;
     set_phase (if update_available result then available else up_to_date))
    (fun x =>
       update (fun s => s <| error := error_message x (t "updates.load_failed") |>) ;;
       set_phase idle).

Definition can_update (o : option UpdateCheck) : bool :=
  match o with Some r => update_available r | None => false end.

Definition startUpdate (c : State) : M State unit :=
  update (fun s => s <| error := "" |>) ;;
  update (fun s => s <| notified := false |>) ;;
  update (fun s => s <| sawUpdate := false |>) ;;
  e <- ask ;;
  update (fun s => s <| startedAt := now e |>) ;;
  set_phase starting ;;
  try_catch (_ <- await (requestUpdate false) ;; ret tt)
    (fun x =>
       update (fun s => s <| error := error_message x (t "updates.request_failed") |>) ;;
       set_phase (if can_update (check c) then available else idle)).

Definition toggleHistory (c : State) (open : bool) : M State unit :=
  when_do (open && negb (opt_is_some (history c)))
    (try_catch
       (l <- await (loadUpdateHistory false) ;; update (fun s => s <| history := Some l |>))
       (fun _ => update (fun s => s <| history := Some [] |>))).

Definition handle (p : Props) (c : State) (ev : Event) : prog State :=
  run_top
    match ev with
    | RunCheck => runCheck
    | StartUpdate => startUpdate c
    | ClickReload => emit Reload
    | ToggleHistory open => toggleHistory c open
    end.

(** ** The view *)

Definition busy (s : State) : bool :=
  is_phase (phase s) checking || is_phase (phase s) starting || is_phase (phase s) updating.

Definition installed (s : State) : string :=
  str_or (match status s with Some st => us_installed st | None => "" end)
    (str_or (match check s with Some r => uc_installed_version r | None => "" end) "—").

Fixpoint index_of (x : string) (l : list string) : Z :=
  match l with
  | [] => -1
  | y :: l' => if String.eqb x y then 0 else match index_of x l' with -1 => -1 | n => n + 1 end
  end%Z.
Definition currentStep (s : State) : Z :=
  match status s with Some st => index_of (us_state st) STEPS | None => (-1)%Z end.

Definition phase_icon (s : State) : node Event :=
  match phase s with
  | completed | up_to_date => Icon "CheckCircle2" 28
  | failed => Icon "XCircle" 28
  | checking | starting | updating => Icon "Loader2" 28
  | idle | available => Icon "Download" 28
  end.

Definition headline (s : State) : string :=
  match phase s with
  | idle => t "updates.check_prompt"
  | checking => t "updates.checking"
  | up_to_date => t "updates.up_to_date"
  | available => t "updates.available" +:+ ": "
                   +:+ match check s with Some r => uc_latest_version r | None => "undefined" end
  | starting => t "updates.starting"
  | updating =>
      let to_ := match status s with Some st => us_to_version st ?? "" | None => "" end in
      if truthy to_ then t "updates.updating_to" +:+ " " +:+ to_ else t "updates.in_progress"
  | completed => t "updates.completed_to" +:+ " "
                   +:+ match status s with Some st => us_installed st | None => "" end
  | failed => t "updates.failed_title"
  end.

Definition meta (s : State) : list (node Event) :=
  when_some (check s) (fun r =>
    (when (is_phase (phase s) available)
       [El p_ ["className" =: "updater-meta"]
          [Txt (uc_channel r +:+ " · " +:+ uc_architecture r);
           Txt (match uc_release_date r with
                | None | Some EmptyString => ""
                | Some d => " · " +:+ t "updates.release_date" +:+ " " +:+ date_day language d
                end);
           Txt (if num_truthy (uc_download_size r ?? 0%Z)
                then " · " +:+ toFixed 1 (ratio (uc_download_size r ?? 0%Z) 1048576) +:+ " MiB" else "")]]
     ++ when (is_phase (phase s) up_to_date)
          [El p_ ["className" =: "updater-meta"] [Txt (uc_channel r +:+ " · " +:+ uc_architecture r)]])%list).

Definition actions (p : Props) (s : State) : node Event :=
  El div ["className" =: "updater-actions"]
    (when (is_phase (phase s) idle || is_phase (phase s) checking || is_phase (phase s) up_to_date
           || is_phase (phase s) failed)
       [El button ["className" =: ("button" +:+ (if is_phase (phase s) up_to_date then "" else " primary"));
                   OnClick RunCheck; Disabled (busy s)]
          [Icon "RefreshCw" 15;
           Txt (if is_phase (phase s) failed then t "updates.check_again" else t "updates.check")]]
     ++ when (is_phase (phase s) available && negb (readOnly p))
          [El button ["className" =: "button primary"; OnClick StartUpdate]
             [Icon "Download" 15; Txt (t "updates.update_now")]]
     ++ when (is_phase (phase s) completed)
          [El button ["className" =: "button primary"; OnClick ClickReload]
             [Icon "RotateCcw" 15; Txt (t "updates.reload")]]).

(** The steps before the current one are done, the ones after it open. *)
Fixpoint steps_from (i : Z) (cur : Z) (l : list string) : list (node Event) :=
  match l with
  | [] => []
  | step :: l' =>
      El li ["className" =: (if (i <? cur)%Z then "done" else if Z.eqb i cur then "current" else "")]
        [Txt ((if (i <? cur)%Z then "✓" else if Z.eqb i cur then "●" else "○") +:+ " " +:+ stateLabel step)]
      :: steps_from (i + 1) cur l'
  end.

Definition progress_panel (s : State) : node Event :=
  El div ["className" =: "updater-progress"]
    [El ol ["className" =: "update-steps"; "aria-label" =: t "updates.progress"]
       (steps_from 0 (currentStep s) STEPS);
     El p_ ["className" =: "updater-meta"; "role" =: "status"]
       [Txt (if reconnecting s then t "updates.reconnecting" else t "updates.keep_open")]].

Definition failure_text (s : State) : string :=
  match status s with
  | None => t "updates.failed_text"
  | Some st =>
      str_or (us_error st ?? "") (t "updates.failed_text")
        +:+ (if us_rollback_used st ?? false
             then " " +:+ (if us_readiness_ok st ?? false then t "updates.rollback_recovered"
                           else t "updates.rollback_used")
             else "")
  end.

Definition notices (p : Props) (s : State) : list (node Event) :=
  when (is_phase (phase s) available
        && truthy (match check s with Some r => uc_release_notes r ?? "" | None => "" end))
    [El p_ ["className" =: "release-notes updater-notes"]
       [Txt (match check s with Some r => uc_release_notes r ?? "" | None => "" end)]]
  ++ when (is_phase (phase s) available && readOnly p)
       [El div ["className" =: "notice info updater-notice"; "role" =: "status"]
          [Txt (t "updates.viewer_readonly")]]
  ++ when (polling (phase s)) [progress_panel s]
  ++ when (is_phase (phase s) completed)
       [El div ["className" =: "notice success updater-notice"; "role" =: "status"]
          [Txt (t "updates.completed_text")]]
  ++ when (is_phase (phase s) failed)
       [El div ["className" =: "notice error updater-notice"; "role" =: "alert"] [Txt (failure_text s)]]
  ++ when (truthy (error s))
       [El div ["className" =: "notice error updater-notice"; "role" =: "alert"] [Txt (error s)]].

Definition history_row (en : UpdateEntry) : node Event :=
  El tr []
    [El td ["className" =: "mono"] [Txt (ue_to_version en)];
     El td ["className" =: "mono cell-muted"] [Txt (ue_from_version en)];
     El td ["className" =: "wrap"]
       (Badge (toneFor (Some (ue_state en))) false [Txt (stateLabel (ue_state en))]
        :: when (truthy (ue_error en ?? "")) [El span ["className" =: "error-text"] [Txt (ue_error en ?? "")]]);
     El td ["className" =: "cell-muted"] [Txt (date_locale language (ue_started_at en))]].

Definition history_panel (s : State) : node Event :=
  El details ["className" =: "panel updater-history"; OnToggle ToggleHistory]
    (El summary [] [Icon "History" 15; Txt (" " +:+ t "updates.history")]
     :: match history s with
        | None => [Loading [Txt (t "updates.loading")]]
        | Some [] => [EmptyState None (t "updates.no_history") [] [] true]
        | Some l =>
            [El div ["className" =: "table-wrap"]
               [El table []
                  [El thead []
                     [El tr [] [El th [] [Txt (t "updates.col_to")]; El th [] [Txt (t "updates.col_from")];
                                El th [] [Txt (t "updates.col_state")]; El th [] [Txt (t "updates.col_started")]]];
                   El tbody [] (each l (fun en => [history_row en]))]]]
        end).

Definition view (p : Props) (s : State) : list (node Event) :=
  if loading s then [El section ["className" =: "panel"] [Loading [Txt (t "updates.loading")]]]
  else
    [El div ["className" =: "stack"]
       [El section ["className" =: "panel updater"]
          (El div ["className" =: "updater-body"]
             [El span ["className" =: ("updater-icon " +:+ phase_str (phase s)); "aria-hidden" =: "true"]
                [phase_icon s];
              El div ["className" =: "updater-text"]
                ([El p_ ["className" =: "updater-version"]
                    [Txt "Velora DNS "; El strong [] [Txt (installed s)]];
                  El h2 ["aria-live" =: "polite"] [Txt (headline s)]]
                 ++ meta s);
              actions p s]
           :: notices p s);
        history_panel s]].

Definition polling_changed (r r' : Props * State) : bool :=
  negb (is_phase (phase (snd r)) (phase (snd r')) && Z.eqb (onUpdated (fst r)) (onUpdated (fst r'))).

Definition page : component Props State Event :=
  mkComponent init view handle
    [effect_once (fun _ _ => false) (fun _ _ => Some (run_top first_status));
     mkEffect polling_changed
       (fun _ c => if polling (phase c)
                   then Some (Again (if is_phase (phase c) starting then 500 else POLL_MS)) else None)
       (fun _ _ => run_top poll)]
    (fun s => s).
End Page.
End UpdateCenter.

(** * Theorems *)

Module UpdateCenterFacts.
Import UpdateCenter.
Section Facts.
Context {L : Locale} (t : string -> string) (language : string).

(** The action each phase offers. *)
Definition phase_event (p : Props) (s : State) (ev : Event) : Prop :=
  match ev with
  | RunCheck => phase s = idle \/ phase s = up_to_date \/ phase s = failed
  | StartUpdate => phase s = available /\ readOnly p = false
  | ClickReload => phase s = completed
  | ToggleHistory _ => True
  end.

Lemma steps_all P i cur l : nodes_all P false (steps_from t i cur l).
Proof. revert i. induction l as [|x l IH]; intros i; [done|]. by split. Qed.

Lemma view_phase p s : nodes_all (phase_event p s) false (view t language p s).
Proof.
  unfold view. view_split; try apply steps_all; try first [view_close | done];
    unfold busy, is_phase in *; cbn; intros; destruct (phase s); cbn in *;
    destruct (readOnly p); try done; auto.
Qed.

Ltac update_unfold :=
  unfold handle, runCheck, startUpdate, toggleHistory, first_status, poll, on_status, set_phase.

Lemma updatecenter_lockable_page : lockable (page t language) readOnly.
Proof.
  constructor; cbn [c_init c_view c_handle c_effects c_unmount page].
  - intros p s ev _. destruct ev; update_unfold; quiet_walk.
  - intros p s ev Hr Hev.
    pose proof (nodes_all_offered _ _ _ (view_phase p s) Hev) as Hok.
    destruct ev; [| destruct Hok; congruence | |]; update_unfold; quiet_walk.
  - intros ef p s q [<-|[<-|[]]]; cbn; [|destruct (polling (phase s))]; intros [= <-];
      update_unfold; quiet_walk.
  - intros ef p s [<-|[<-|[]]]; cbn [ef_loop effect_once]; update_unfold; quiet_walk.
Qed.

#[export] Instance update_lock_safe : LockSafe (page t language) readOnly.
Proof. apply lockable_lock_safe, updatecenter_lockable_page. Qed.
#[export] Instance update_viewer_safe : ViewerSafe (page t language) (fun p => readOnly p = true).
Proof. apply lock_safe_viewer_safe, update_lock_safe. Qed.

(** Only one action is ever offered: checking, updating and reloading
    exclude each other, each belongs to its phases, and a read-only user is
    never offered the update. *)
Theorem update_one_action p s ev ev' :
  offered (view t language p s) ev -> offered (view t language p s) ev' ->
  phase_event p s ev /\
  (ev = ev' \/ (exists b, ev = ToggleHistory b) \/ (exists b, ev' = ToggleHistory b)).
Proof.
  intros Hev Hev'. pose proof (nodes_all_offered _ _ _ (view_phase p s) Hev) as H.
  pose proof (nodes_all_offered _ _ _ (view_phase p s) Hev') as H'. split; [done|].
  destruct ev, ev'; eauto; cbn in H, H'; naive_solver congruence.
Qed.

(** ** Notifications *)

Definition is_notice (o : output) : bool :=
  match o with CallProp name => String.eqb name "onUpdated" | _ => false end.
Definition is_mutation (o : output) : bool := match o with Sent q => mutating q | _ => false end.

(** Every notification uses up the run it is about. *)
Definition ledger (_ : Props) (s : State) (o : list output) : Prop :=
  count is_notice o + (if notified s then 0 else 1) <= 1 + count is_mutation o.

Lemma count_sent_notice l : count is_notice (map Sent l) = 0.
Proof. induction l as [|q l IH]; [done|]. exact IH. Qed.

Lemma accounted_updates p : accounted (page t language) any_props ledger p.
Proof.
  constructor; cbn [c_init c_view c_handle c_effects c_unmount page]; try done.
  - unfold ledger. cbn. lia.
  - intros p' s o ev Hi _. destruct ev; update_unfold; hist_split; unfold ledger in *;
      rewrite ?count_app, ?count_sent_notice in *; cbn in *; lia.
  - intros ef p' s o q [<-|[<-|[]]] Hi; cbn [ef_body effect_once];
      [|destruct (polling (phase s))]; intros [= <-]; update_unfold; hist_split; unfold ledger in *;
      rewrite ?count_app, ?count_sent_notice in *; cbn in *; lia.
  - intros ef p' s [<-|[<-|[]]] p'' s' o' H; cbn [ef_loop effect_once]; [exact H|].
    update_unfold. hist_split; unfold ledger in *; rewrite ?count_app, ?count_sent_notice in *; cbn in *;
      repeat case_match; cbn in *; try lia; try congruence.
Qed.

(** C11: the shell is told about a finished update at most once per update: in
    every run, polls and replies in any order, the notifications exceed the
    updates requested on this page by at most one, for an update that was
    already running when the page opened. *)
Theorem update_notified_once p c :
  reachable (page t language) any_props p c ->
  count is_notice (out c) <= 1 + count is_mutation (out c).
Proof.
  intros Hc. pose proof (accounted_reachable _ _ _ _ _ (accounted_updates p) Hc) as H.
  unfold ledger in H. case_match; lia.
Qed.



(** ** The wait for the update to start *)

(** What is left of a poll once it is answered. *)
Definition poll_reply (reply : UpdateStatus + exn) : prog State :=
  run_top
    (continue <- try_catch
       (next <- (fun k x => match reply with inl v => k v | inr e => x e end) ;;
        e <- ask ;;
        if aborted e then ret false else on_status t next)
       (fun _ => e <- ask ;;
          when_do (negb (aborted e)) (update (fun s => s <| reconnecting := true |>)) ;; ret true) ;;
     if (continue : bool) then e <- ask ;; when_do (negb (aborted e)) (again POLL_MS) else ret tt).

Lemma poll_is_call : run_top (poll t) = Call (loadUpdateStatus false) poll_reply.
Proof. reflexivity. Qed.

(** The loop over a list of answers, each with the moment it arrives: whether it
    still polls, and the state. *)
Fixpoint poll_run (answers : list (env * (UpdateStatus + exn))) (s : State) : bool * State :=
  match answers with
  | [] => (true, s)
  | (e, reply) :: rest =>
      let r := advance e (poll_reply reply) s in
      match seg_todo r with
      | Again _ => poll_run rest (seg_state r)
      | _ => (false, seg_state r)
      end
  end.

(** The agent has not picked the request up: polls fail, or report no update and
    no run that finished since. *)
Definition unstarted (started : Z) (a : env * (UpdateStatus + exn)) : Prop :=
  match snd a with
  | inl next => us_updating next = false /\ finishedSinceRequest next started = false
  | inr _ => True
  end.

(** Answers to live polls, at least the polling interval apart from [at_] on. *)
Fixpoint spaced (at_ : Z) (answers : list (env * (UpdateStatus + exn))) : Prop :=
  match answers with
  | [] => True
  | (e, _) :: rest => aborted e = false /\ (at_ <= now e)%Z /\ spaced (now e + POLL_MS) rest
  end.

Definition is_answer (a : env * (UpdateStatus + exn)) : bool :=
  match snd a with inl _ => true | inr _ => false end.

Lemma poll_run_ends n answers : forall at_ s,
  sawUpdate s = false -> spaced at_ answers -> Forall (unstarted (startedAt s)) answers ->
  (START_TIMEOUT_MS < at_ + Z.of_nat n * POLL_MS - startedAt s)%Z ->
  n < length (filterb is_answer answers) ->
  exists s', poll_run answers s = (false, s') /\ phase s' = failed /\ error s' = t "updates.not_started".
Proof.
  revert n. induction answers as [|[e reply] rest IH]; intros n at_ s Hs Hsp Hun Hlate Hn; [cbn in Hn; lia|].
  destruct Hsp as (Ha & Hat & Hsp). apply Forall_cons in Hun as [Hu Hun]. unfold POLL_MS in *.
  destruct reply as [next|x]; cbn in Hu, Hn |- *.
  - destruct Hu as [Hup Hfin]. rewrite Ha. cbn. rewrite Hup. cbn. rewrite Hs, Hfin. cbn.
    destruct (Z.ltb_spec START_TIMEOUT_MS (now e - startedAt s)); cbn; [by eexists|]. rewrite Ha. cbn.
    destruct n as [|n]; [lia|].
    apply (IH n (now e + 2000)%Z); cbn; try done; unfold filterb; lia.
  - rewrite Ha. cbn. rewrite Ha. cbn. apply (IH n (now e + 2000)%Z); cbn; try done; unfold filterb; lia.
Qed.

(** C13: waiting for an update to start ends: when the agent never picks the
    request up, the sixteenth answered poll at the latest, with any number of
    failed polls before it, is past the thirty seconds, and polling stops with
    the update marked as failed. *)
Theorem update_start_ends answers s :
  sawUpdate s = false -> spaced (startedAt s + 500) answers -> Forall (unstarted (startedAt s)) answers ->
  16 <= length (filterb is_answer answers) ->
  exists s', poll_run answers s = (false, s') /\ phase s' = failed /\ error s' = t "updates.not_started".
Proof.
  intros Hs Hsp Hun Hn. apply (poll_run_ends 15 answers (startedAt s + 500)%Z); try done.
  unfold START_TIMEOUT_MS, POLL_MS. lia.
Qed.

(** A poll's part of the page: the loop body of the polling effect waits for the
    status and then runs [poll_reply]. *)
Lemma poll_loop_body p c : exists ef, c_effects (page t language) !! 1 = Some ef /\
  ef_loop ef p c = Call (loadUpdateStatus false) poll_reply.
Proof. eexists. by split. Qed.
End Facts.

(** ** Concrete instances *)

Definition plain_page : component Props State Event := @page plain_locale plain_text "en".

(** A run: the page finds an update running, polls, and learns that it completed. *)
Definition running_status : UpdateStatus :=
  mkUpdateStatus "installing" "1.0.0" None None None None None true None None None.
Definition completed_status : UpdateStatus :=
  mkUpdateStatus "completed" "1.1.0" None None None None None false None None None.

Lemma completed_run :
  exists c, reachable plain_page any_props (mkProps false 0) c /\ phase (state c) = completed /\
    count is_notice (out c) = 1 /\ count is_mutation (out c) = 0.
Proof.
  set (e := calm_env false).
  pose proof (reach_effect plain_page any_props (mkProps false 0) _ e (reach_start _ _ _) 0 _ _
    eq_refl eq_refl eq_refl eq_refl eq_refl) as H1.
  pose proof (reach_reply _ _ _ _ e H1 0 _ _ _ _ eq_refl eq_refl eq_refl (OkResponse 200 (inl running_status))) as H2.
  pose proof (reach_effect _ _ _ _ e H2 1 _ _ eq_refl eq_refl eq_refl eq_refl eq_refl) as H3.
  pose proof (reach_again _ _ _ _ e H3 1 _ _ eq_refl eq_refl eq_refl) as H4.
  pose proof (reach_reply _ _ _ _ e H4 1 _ _ _ _ eq_refl eq_refl eq_refl (OkResponse 200 (inl completed_status))) as H5.
  eexists. split; [exact H5|]. by vm_compute.
Qed.

Lemma update_notified_once_witness :
  exists c : config Props State, count is_notice (out c) = 1 /\ count is_notice (out c) <= 1 + count is_mutation (out c).
Proof.
  destruct completed_run as (c & Hc & _ & Hn & _). exists c. split; [exact Hn|].
  exact (@update_notified_once plain_locale plain_text "en" (mkProps false 0) c Hc).
Defined.

(** A request made at time zero, to which the agent answers every two seconds that
    it is idle. *)
Definition idle_status : UpdateStatus :=
  mkUpdateStatus "idle" "1.0.0" None None None None None false None None None.
Definition idle_answers : list (env * (UpdateStatus + exn)) :=
  map (fun i => (mkEnv false (500 + 2000 * Z.of_nat i) (fun _ => false) "", inl idle_status)) (seq 0 16).

Lemma update_start_ends_witness :
  exists s', @poll_run plain_locale plain_text idle_answers ((init (mkProps false 0)) <| phase := starting |>) = (false, s') /\
    phase s' = failed /\ error s' = "updates.not_started".
Proof.
  apply (@update_start_ends plain_locale plain_text idle_answers ((init (mkProps false 0)) <| phase := starting |>));
    [reflexivity|vm_compute; repeat split; discriminate|repeat constructor|cbn; lia].
Defined.
End UpdateCenterFacts.
