(* ===== verification/Backup.v ===== *)
(** * Backup and restore: web/src/pages/BackupAssistant.tsx and RestorePanel.tsx *)
From S2P Require Import Prelude JsString JsNumber Url Http Api Resources React Runtime Components.
Local Open Scope velora_scope.
Local Open Scope prog_scope.
Local Open Scope string_scope.

Module RestorePanel.

Inductive Phase : Set := idle | inspecting | inspected | scheduling | restarting | signed_out | finished.
#[export] Instance RestorePhase_eq_dec : EqDecision Phase.
Proof. solve_decision. Defined.
Definition is_phase (a b : Phase) : bool := bool_decide (a = b).

Definition POLL_MS : Z := 2000.

Record State : Set := mkState {
  file : option blob;
  passphrase : string;
  phase : Phase;
  inspection : option BackupInspection;
  confirmed : bool;
  error : string;
  result : option RestoreState;
  scheduledAt : Z }.
#[export] Instance eta_State : Eta State := fun s =>
  mkState (file s) (passphrase s) (phase s) (inspection s) (confirmed s) (error s) (result s) (scheduledAt s).

Definition init (_ : unit) : State := mkState None "" idle None false "" None 0.

Inductive Event : Set :=
| SetFile (f : option blob)
| SetPassphrase (v : string)
| SubmitInspect
| SetConfirmed (b : bool)
| ClickRestore
| ClickReset
| ClickReload.

Section Panel.
Context {L : Locale} (t : string -> string) (language : string).

Definition set_phase (ph : Phase) : M State unit := update (fun s => s <| phase := ph |>).

Definition is_pending (ph : restore_phase) : bool := match ph with rs_pending => true | _ => false end.

(** The outcome of the most recent restore; a failed request is ignored. *)
Definition first_state : M State unit :=
  try_catch
    (state_ <- await (loadRestoreState true) ;;
     e <- ask ;;
     match state_ with
     | Some r => when_do (negb (aborted e) && opt_is_some (rst_metadata r) && negb (is_pending (rst_state r)))
                   (update (fun s => s <| result := Some r |>))
     | None => ret tt
     end)
    (fun _ => ret tt).

Definition is_final (ph : restore_phase) : bool :=
  match ph with rs_completed | rs_rolled_back | rs_failed => true | _ => false end.

(** [new Date(updated_at).getTime() >= scheduledAt - 5000] *)
Definition fresh (r : RestoreState) (scheduled : Z) : bool :=
  match date_time (rst_updated_at r) with Some d => (scheduled - 5000 <=? d)%Z | None => false end.

Definition is_unauthorized (x : exn) : bool :=
  match x with APIError status _ _ _ => Z.eqb status 401 | _ => false end.

(** While the server restarts; [true] when it polls again. *)
Definition poll : M State unit :=
  continue <- try_catch
    (state_ <- await (loadRestoreState false) ;;
     e <- ask ;;
     if aborted e then ret false else
     s <- read ;;
     match state_ with
     | Some r =>
         if fresh r (scheduledAt s) && is_final (rst_state r)
         then update (fun s => s <| result := Some r |>) ;; set_phase finished ;; ret false
         else ret true
     | None => ret true
     end)
    (fun x => e <- ask ;;
       if negb (aborted e) && is_unauthorized x then set_phase signed_out ;; ret false else ret true) ;;
  if (continue : bool) then e <- ask ;; when_do (negb (aborted e)) (again POLL_MS) else ret tt.

Definition inspect (c : State) : M State unit :=
  match file c with
  | None => ret tt
  | Some f =>
      set_phase inspecting ;;
      update (fun s => s <| error := "" |>) ;;
      update (fun s => s <| inspection := None |>) ;;
      update (fun s => s <| confirmed := false |>) ;;
      try_catch
        (i <- await (inspectBackup f (passphrase c)) ;;
         update (fun s => s <| inspection := Some i |>) ;;
         set_phase inspected)
        (fun x => update (fun s => s <| error := error_message x (t "restore.inspect_failed") |>) ;;
                  set_phase idle)
  end.

Definition restore (c : State) : M State unit :=
  match inspection c with
  | None => ret tt
  | Some i =>
      set_phase scheduling ;;
      update (fun s => s <| error := "" |>) ;;
      try_catch
        (e <- ask ;;
         update (fun s => s <| scheduledAt := now e |>) ;;
         scheduled <- await (scheduleRestore (insp_token i)) ;;
         update (fun s => s <| passphrase := "" |>) ;;
         update (fun s => s <| result := None |>) ;;
         set_phase (if String.eqb (sch_state scheduled) "pending" then finished else restarting) ;;
         when_do (String.eqb (sch_state scheduled) "pending")
           (update (fun s => s <| error := t "restore.manual_restart" |>)))
        (fun x => update (fun s => s <| error := error_message x (t "restore.schedule_failed") |>) ;;
                  set_phase inspected)
  end.

Definition reset : M State unit :=
  set_phase idle ;;
  update (fun s => s <| inspection := None |>) ;;
  update (fun s => s <| file := None |>) ;;
  update (fun s => s <| confirmed := false |>).

Definition handle (p : unit) (c : State) (ev : Event) : prog State :=
  run_top
    match ev with
    | SetFile f => update (fun s => s <| file := f |>)
    | SetPassphrase v => update (fun s => s <| passphrase := v |>)
    | SubmitInspect => inspect c
    | SetConfirmed b => update (fun s => s <| confirmed := b |>)
    | ClickRestore => restore c
    | ClickReset => reset
    | ClickReload => emit Reload
    end.

(** ** The view *)

Definition restore_phase_str (ph : restore_phase) : string :=
  match ph with
  | rs_pending => "pending" | rs_applied => "applied" | rs_completed => "completed"
  | rs_rolled_back => "rolled_back" | rs_failed => "failed"
  end.
Definition is_completed (ph : restore_phase) : bool := match ph with rs_completed => true | _ => false end.

Definition result_notice (r : RestoreState) : node Event :=
  let ok := is_completed (rst_state r) in
  El div ["className" =: ("notice " +:+ (if ok then "success" else "error")); "role" =: "status"]
    [Icon (if ok then "CheckCircle" else "XCircle") 16;
     El span []
       ([El strong [] [Txt (t ("restore.state_" +:+ restore_phase_str (rst_state r)))]; Txt " ";
         Txt (match rst_metadata r with
              | Some m => t "restore.backup_from" +:+ " " +:+ date_locale language (created_at m)
                            +:+ " (" +:+ velora_version m +:+ ")"
              | None => ""
              end);
         Txt (" · " +:+ date_locale language (rst_updated_at r))]
        ++ when (truthy (rst_error r ?? "")) [El span ["className" =: "restore-error"] [Txt (rst_error r ?? "")]]
        ++ when (truthy (safety_copy r ?? ""))
             [El small ["className" =: "restore-safety"]
                [Txt (t "restore.safety_copy" +:+ " "); El code_ [] [Txt (safety_copy r ?? "")]]])].

Definition inspect_form (s : State) : node Event :=
  let running := is_phase (phase s) inspecting in
  El form ["className" =: "restore-form"; OnSubmit SubmitInspect]
    [El label ["className" =: "field"]
       [El span [] [Txt (t "restore.file")];
        El input ["type" =: "file"; "accept" =: ".vdns,application/octet-stream"; OnFile SetFile] []];
     El label ["className" =: "field"]
       [El span [] [Txt (t "restore.passphrase")];
        El input ["type" =: "password"; "autoComplete" =: "off"; "value" =: passphrase s; OnChange SetPassphrase;
                  "minLength" =: "12"; flag "required"] []];
     El button ["className" =: "button"; "type" =: "submit";
                Disabled (running || negb (opt_is_some (file s)) || (String.length (passphrase s) <? 12)%nat)]
       [Icon (if running then "Loader2" else "FileSearch") 15;
        Txt (if running then t "restore.inspecting" else t "restore.inspect")]].

Definition contents (sum : BackupSummary) : string :=
  joinStrings " · "
    (map (fun '(n, label_) => StringZ n +:+ " " +:+ label_)
       [(sum_zones sum, t "restore.zones"); (sum_records sum, t "restore.records");
        (sum_blocklists sum, t "restore.blocklists"); (sum_rewrites sum, t "restore.rewrites");
        (sum_forward_rules sum, t "restore.forward_rules"); (sum_clients sum, t "restore.clients");
        (sum_users sum, t "restore.users")]).

Definition facts (i : BackupInspection) : node Event :=
  let m := insp_metadata i in
  let sum := insp_summary i in
  El dl ["className" =: "restore-facts"]
    [El dt [] [Txt (t "restore.created")]; El dd [] [Txt (date_locale language (created_at m))];
     El dt [] [Txt (t "restore.version")];
     El dd [] [El code_ [] [Txt (velora_version m)]; Txt " → "; El code_ [] [Txt (current_version sum)]];
     El dt [] [Txt (t "restore.schema")];
     El dd [] [Txt (StringZ (schema_version m) +:+ " → " +:+ StringZ (current_schema sum))];
     El dt [] [Txt (t "restore.contents")]; El dd [] [Txt (contents sum)];
     El dt [] [Txt (t "restore.listeners")];
     El dd [] [El code_ [] [Txt (joinStrings ", " (sum_dns_listen sum))];
               Txt (" · " +:+ t "restore.web" +:+ " "); El code_ [] [Txt (sum_http_listen sum)]]].

Definition review (s : State) (i : BackupInspection) : node Event :=
  let running := is_phase (phase s) scheduling in
  El div ["className" =: "restore-review"]
    ([El h3 [] [Txt (t "restore.review_title")]; facts i]
     ++ each (warnings (insp_summary i)) (fun w =>
          [El p_ ["className" =: "notice warning"] [Icon "AlertTriangle" 15; Txt (" " +:+ w)]])
     ++ [El label ["className" =: "check-field"]
           [El input ["type" =: "checkbox"; "checked" =: bool_str (confirmed s); OnCheck SetConfirmed] [];
            El span [] [Txt (t "restore.confirm")]];
         El div ["className" =: "form-actions"]
           [El button ["className" =: "button danger"; Disabled (negb (confirmed s) || running);
                       OnClick ClickRestore] [Icon "Upload" 15; Txt (t "restore.restore")];
            El button ["className" =: "button"; "type" =: "button"; OnClick ClickReset; Disabled running]
              [Txt (t "forwarding.cancel")]]]).

Definition view (p : unit) (s : State) : list (node Event) :=
  let ph := phase s in
  [El section ["className" =: "panel restore-panel"]
     [El div ["className" =: "panel-heading"]
        [El div [] [El h2 [] [Txt (t "restore.title")]; El p_ [] [Txt (t "restore.hint")]]];
      El div ["className" =: "panel-body stack-sm"]
        (when_some (result s) (fun r => when (negb (is_phase ph restarting)) [result_notice r])
         ++ when (is_phase ph idle || is_phase ph inspecting) [inspect_form s]
         ++ when_some (inspection s) (fun i =>
              when (is_phase ph inspected || is_phase ph scheduling) [review s i])
         ++ when (is_phase ph restarting)
              [El div ["className" =: "notice info"; "role" =: "status"]
                 [Icon "Loader2" 16; Txt (" " +:+ t "restore.restarting")]]
         ++ when (is_phase ph signed_out)
              [El div ["className" =: "notice success"; "role" =: "status"]
                 [Icon "CheckCircle" 16; Txt (" " +:+ t "restore.signed_out");
                  El button ["className" =: "button small"; OnClick ClickReload]
                    [Icon "RotateCcw" 14; Txt (" " +:+ t "updates.reload")]]]
         ++ when (is_phase ph finished)
              [El button ["className" =: "button"; OnClick ClickReset] [Txt (t "restore.again")]]
         ++ error_notice (error s))]].

Definition restarting_changed (r r' : unit * State) : bool :=
  negb (is_phase (phase (snd r)) (phase (snd r'))).

Definition page : component unit State Event :=
  mkComponent init view handle
    [effect_once (fun _ _ => false) (fun _ _ => Some (run_top first_state));
     mkEffect restarting_changed
       (fun _ c => if is_phase (phase c) restarting then Some (Again POLL_MS) else None)
       (fun _ _ => run_top poll)]
    (fun s => s).
End Panel.
End RestorePanel.

(** ** BackupAssistant.tsx *)

Module BackupAssistant.

Record BackupStatus : Set := mkBackupStatus {
  supported : bool; last_backup_time : option string; last_backup_size : option Z;
  backup_age : option string; verification_state : string; database_path : string }.
Record BackupVerification : Set := mkBackupVerification {
  valid : bool; bv_schema_version : Z; record_count : Z; bv_error : option string }.

Record Props : Set := mkProps { readOnly : bool; canCreate : bool }.

Record State : Set := mkState {
  status : option BackupStatus;
  loading : bool;
  error : option string;
  verifyPath : string;
  verifying : bool;
  verificationResult : option BackupVerification;
  passphrase : string;
  creating : bool;
  createError : string }.
#[export] Instance eta_State : Eta State := fun s =>
  mkState (status s) (loading s) (error s) (verifyPath s) (verifying s) (verificationResult s)
    (passphrase s) (creating s) (createError s).

Definition init (_ : Props) : State := mkState None true None "" false None "" false "".

Inductive Event : Set :=
| SetPassphrase (v : string)
| ClickCreate
| SetVerifyPath (v : string)
| ClickVerify.

Section Page.
Context {L : Locale} (t : string -> string).

Definition statusLabel (state_ : string) : string :=
  let key := "backup.state_" +:+ state_ in
  let translated := t key in
  if String.eqb translated key then state_ else translated.

Definition createBackup (c : State) : M State unit :=
  update (fun s => s <| creating := true |>) ;;
  update (fun s => s <| createError := "" |>) ;;
  try_finally
    (try_catch
       (_ <- await (downloadEncryptedBackup (passphrase c)) ;;
        e <- ask ;;
        emit (Download ("velora-backup-" +:+ iso_day (now e) +:+ ".vdns")) ;;
        update (fun s => s <| passphrase := "" |>))
       (fun x => update (fun s => s <| createError := error_message x (t "backup.create_failed") |>)))
    (update (fun s => s <| creating := false |>)).

Definition load : M State unit :=
  try_finally
    (try_catch
       (st <- await (get BackupStatus "/api/v1/backup/status" true) ;;
        e <- ask ;;
        when_do (negb (aborted e))
          (update (fun s => s <| status := Some st |>) ;; update (fun s => s <| error := None |>)))
       (fun x => e <- ask ;;
          when_do (negb (aborted e))
            (update (fun s => s <| error := Some (error_message x (t "backup.load_failed")) |>))))
    (update (fun s => s <| loading := false |>)).

Definition handleVerify (c : State) : M State unit :=
  if negb (truthy (trim (verifyPath c))) then ret tt else
  update (fun s => s <| verifying := true |>) ;;
  update (fun s => s <| verificationResult := None |>) ;;
  try_finally
    (try_catch
       (r <- await (post BackupVerification "/api/v1/backup/verify" (JObj [("path", JStr (verifyPath c))])) ;;
        update (fun s => s <| verificationResult := Some r |>))
       (fun x => update (fun s => s <| verificationResult :=
          Some (mkBackupVerification false 0 0 (Some (error_message x (t "backup.verify_failed")))) |>)))
    (update (fun s => s <| verifying := false |>)).

Definition handle (p : Props) (c : State) (ev : Event) : prog State :=
  run_top
    match ev with
    | SetPassphrase v => update (fun s => s <| passphrase := v |>)
    | ClickCreate => createBackup c
    | SetVerifyPath v => update (fun s => s <| verifyPath := v |>)
    | ClickVerify => handleVerify c
    end.

(** ** The view *)

Definition is_supported (s : State) : bool :=
  match status s with Some st => supported st | None => false end.

Definition create_panel (p : Props) (s : State) : node Event :=
  El section ["className" =: "panel backup-create-panel"]
    [El div ["className" =: "panel-heading"]
       [El div [] [El h2 [] [Txt (t "backup.create_title")]; El p_ [] [Txt (t "backup.create_hint")]]];
     El div ["className" =: "panel-body"]
       (when (canCreate p && opt_is_some (status s) && negb (is_supported s))
          [El p_ ["className" =: "notice"] [Txt (t "backup.sqlite_only")]]
        ++ when (canCreate p && is_supported s)
             [El div ["className" =: "inline-form"]
                [El div ["className" =: "field"]
                   [El label ["htmlFor" =: "backup-passphrase"] [Txt (t "backup.passphrase")];
                    El input ["id" =: "backup-passphrase"; "type" =: "password"; "autoComplete" =: "new-password";
                              "value" =: passphrase s; OnChange SetPassphrase] []];
                 El button ["className" =: "button primary";
                            Disabled (creating s || (String.length (passphrase s) <? 12)%nat);
                            OnClick ClickCreate]
                   [Icon "Download" 15; Txt (if creating s then t "backup.creating" else t "backup.create")]]]
        ++ error_notice (createError s))].

Definition status_rows (st : BackupStatus) : node Event :=
  El div ["className" =: "status-rows"]
    [El div ["className" =: "status-row"]
       [Icon "Database" 17;
        El span ["className" =: "value"]
          [Txt (t "backup.database" +:+ " "); El code_ [] [Txt (database_path st)]]];
     match last_backup_time st with
     | None | Some EmptyString =>
         El div ["className" =: "status-row warn"]
           [Icon "AlertTriangle" 17; El span ["className" =: "value"] [Txt (t "backup.no_backup")]]
     | Some at_ =>
         El div ["className" =: "status-row ok"]
           [Icon "CheckCircle" 17;
            El span ["className" =: "value"]
              [Txt (t "backup.last_backup" +:+ " " +:+ date_locale_default at_);
               Txt (if truthy (backup_age st ?? "") then " (" +:+ (backup_age st ?? "") +:+ ")" else "")]]
     end;
     El div ["className" =: "status-row"]
       [Icon "Clock" 17;
        El span ["className" =: "value"]
          [Txt (t "backup.verification_state" +:+ " ");
           Badge (toneFor (Some (verification_state st))) false [Txt (statusLabel (verification_state st))]]]].

Definition status_panel (s : State) : node Event :=
  El section ["className" =: "panel"]
    [El div ["className" =: "panel-heading"] [El div [] [El h2 [] [Txt (t "backup.status_title")]]];
     El div ["className" =: "panel-body"]
       (error_notice (error s ?? "") ++ when_some (status s) (fun st => [status_rows st]))].

Definition verify_form (s : State) : node Event :=
  El div []
    [El div ["className" =: "backup-file-label"]
       [El label ["htmlFor" =: "backup-file-name"] [Txt (t "backup.file_name")];
        El div ["className" =: "backup-file-controls"]
          [El input ["id" =: "backup-file-name"; "type" =: "text"; "placeholder" =: "backup.db";
                     "value" =: verifyPath s; OnChange SetVerifyPath] [];
           El button ["className" =: "button"; OnClick ClickVerify;
                      Disabled (verifying s || negb (truthy (trim (verifyPath s))))]
             [Txt (if verifying s then t "backup.verifying" else t "backup.verify")]]];
     El p_ ["className" =: "backup-file-hint"] [Txt (t "backup.file_hint")]].

Definition verification_card (r : BackupVerification) : node Event :=
  El div ["className" =: ("result-card " +:+ (if valid r then "valid" else "invalid"))]
    [Icon (if valid r then "CheckCircle" else "XCircle") 18;
     El div []
       [El strong [] [Txt (if valid r then t "backup.valid" else t "backup.invalid")];
        El p_ [] [Txt (if valid r
                       then t "backup.schema_version" +:+ " " +:+ StringZ (bv_schema_version r) +:+ " · "
                              +:+ t "backup.records" +:+ " " +:+ StringZ (record_count r)
                       else bv_error r ?? "")]]].

Definition verify_panel (p : Props) (s : State) : node Event :=
  El section ["className" =: "panel"]
    [El div ["className" =: "panel-heading"]
       [El div [] [El h2 [] [Txt (t "backup.verify_title")]; El p_ [] [Txt (t "backup.verify_text")]]];
     El div ["className" =: "panel-body"]
       (cond (readOnly p)
          [El div ["className" =: "notice info"; "role" =: "status"] [Txt (t "backup.viewer_readonly")]]
          [verify_form s]
        ++ when_some (verificationResult s) (fun r => [verification_card r]))].

Definition nl : string := String "010" "".
Definition lines (l : list string) : string := joinStrings nl l.

Definition recipe (title : string) (l : list string) : node Event :=
  El div ["className" =: "recipe"]
    [El h3 [] [Txt (t title)]; El pre ["className" =: "code-block"] [Txt (lines l)]].

(** The command-line instructions. *)
Definition instructions : node Event :=
  El section ["className" =: "panel"]
    [El details ["className" =: "panel-body cli-restore"]
       [El summary [] [Txt (t "backup.instructions")];
        El p_ [] [Txt (t "backup.restore_hint")];
        El pre ["className" =: "backup-restore-command"]
          [Txt (lines ["sudo systemctl stop velora-dns";
             "read -rsp 'Backup passphrase: ' VELORA_BACKUP_PASSPHRASE; export VELORA_BACKUP_PASSPHRASE";
             "sudo -E velora-dns -restore-backup ./velora-backup.vdns -config /etc/velora/config.yaml -restore-database /var/lib/velora/velora.db";
             "sudo systemctl start velora-dns"])];
        El details ["className" =: "recipes"]
          [El summary [] [Txt (t "backup.native" +:+ " · " +:+ t "backup.docker" +:+ " · " +:+ t "backup.online")];
           recipe "backup.native"
             ["# " +:+ t "backup.step_stop_service"; "sudo systemctl stop velora-dns"; "";
              "# " +:+ t "backup.step_create_backup";
              "sqlite3 /var/lib/velora/velora.db " +:+ dquote
                +:+ ".backup /var/lib/velora/backup-$(date +%Y%m%d).db" +:+ dquote; "";
              "# " +:+ t "backup.step_restart_service"; "sudo systemctl start velora-dns"];
           recipe "backup.docker"
             ["# " +:+ t "backup.step_stop_container"; "docker compose stop velora"; "";
              "# " +:+ t "backup.step_backup_volume";
              "docker run --rm -v velora-dns_velora-data:/data -v $(pwd):/backup \";
              "  alpine tar czf /backup/velora-data-$(date +%Y%m%d).tar.gz -C /data ."; "";
              "# " +:+ t "backup.step_restart_container"; "docker compose start velora"];
           recipe "backup.online"
             ["# " +:+ t "backup.step_online_backup"; "sqlite3 /var/lib/velora/velora.db \";
              "  " +:+ dquote +:+ ".backup /var/lib/velora/online-backup.db" +:+ dquote]]]].

Definition view (p : Props) (s : State) : list (node Event) :=
  if loading s then [El section ["className" =: "panel"] [Loading [Txt (t "backup.loading")]]]
  else
    [El div ["className" =: "stack"]
       ([El div ["className" =: "grid-2"] [create_panel p s; status_panel s]; verify_panel p s]
        ++ when (canCreate p && is_supported s) [Mount "RestorePanel"]
        ++ [instructions])].

Definition page : component Props State Event :=
  mkComponent init view handle
    [effect_once (fun _ _ => false) (fun _ _ => Some (run_top load))]
    (fun s => s).
End Page.
End BackupAssistant.

(** * Theorems *)

Module RestoreFacts.
Import RestorePanel.
Section Facts.
Context {L : Locale} (t : string -> string) (language : string).

(** What the panel offers in which state. *)
Definition restore_event (s : State) (ev : Event) : Prop :=
  match ev with
  | ClickRestore => confirmed s = true /\ phase s = inspected /\ exists i, inspection s = Some i
  | SubmitInspect => phase s = idle /\ (exists f, file s = Some f) /\ 12 <= String.length (passphrase s)
  | SetConfirmed _ => exists i, inspection s = Some i
  | _ => True
  end.

Lemma restore_submit s :
  existsb (can_submit false) [inspect_form t s] = true -> is_phase (phase s) idle || is_phase (phase s) inspecting = true ->
  restore_event s SubmitInspect.
Proof.
  cbn -[Nat.ltb]. rewrite ?orb_false_r, ?andb_true_r. intros H Hp. apply negb_true_iff in H.
  apply orb_false_elim in H as [H Hlen]. apply orb_false_elim in H as [Hph Hf].
  rewrite Hph, orb_false_r in Hp. apply bool_decide_eq_true in Hp. apply Nat.ltb_ge in Hlen.
  destruct (file s); [|done]. eauto.
Qed.

Lemma view_restore p s : nodes_all (restore_event s) false (view t language p s).
Proof.
  unfold view. view_split; try first [done | view_close].
  - intros Hs. apply restore_submit; [|done]. cbn in Hs |- *. by rewrite Hs.
  - cbn. eauto.
  - cbn. rewrite orb_false_r. intros Hd. apply orb_false_elim in Hd as [Hc Hs].
    apply negb_false_iff in Hc. split; [done|]. split; [|eauto].
    match goal with H : _ || _ = true |- _ => rewrite Hs, orb_false_r in H;
      by apply bool_decide_eq_true in H end.
Qed.

(** C10: nothing is restored by accident: a restore is offered only after a
    backup was inspected and the user ticked the confirmation for it; inspecting
    needs a file and a passphrase of 12 characters, and forgets the previous
    inspection and confirmation before it uploads. *)
Theorem restore_needs_confirmation e p s ev :
  offered (view t language p s) ev ->
  match ev with
  | ClickRestore =>
      confirmed s = true /\ phase s = inspected /\
      exists i, inspection s = Some i /\
        seg_out (advance e (handle t p s ev) s) = map Sent (sent (scheduleRestore (insp_token i) e))
  | SubmitInspect =>
      12 <= String.length (passphrase s) /\
      exists f, file s = Some f /\
        let s' := seg_state (advance e (handle t p s ev) s) in
        inspection s' = None /\ confirmed s' = false /\
        seg_out (advance e (handle t p s ev) s) = map Sent (sent (inspectBackup f (passphrase s) e))
  | _ => seg_out (advance e (handle t p s ev) s) = [] \/ ev = ClickReload
  end.
Proof.
  intros Hev. pose proof (nodes_all_offered _ _ _ (view_restore p s) Hev) as Hok.
  destruct ev; try by left.
  - destruct Hok as (_ & (f & Hf) & Hlen). split; [done|]. exists f. split; [done|].
    cbn. unfold inspect. rewrite Hf. done.
  - destruct Hok as (Hc & Hp & i & Hi). split; [done|]. split; [done|]. exists i. split; [done|].
    cbn. unfold restore. rewrite Hi. done.
  - by right.
Qed.

End Facts.

(** ** Concrete instances *)

Definition reviewed : State :=
  (init tt)
    <| inspection := Some (mkBackupInspection "tok" "" (mkBackupMetadata 1 "1.0" "" 3 [])
                             (mkBackupSummary 1 1 1 1 1 1 1 [] [] "" "1.0" 3 [])) |>
    <| confirmed := true |> <| phase := inspected |>.

Lemma restore_needs_confirmation_witness :
  confirmed reviewed = true /\
  seg_out (advance (calm_env false) (@handle plain_text tt reviewed ClickRestore) reviewed)
    = map Sent (sent (scheduleRestore "tok" (calm_env false))).
Proof.
  destruct (@restore_needs_confirmation plain_locale plain_text "en" (calm_env false) tt reviewed ClickRestore)
    as (Hc & _ & i & [= <-] & Ho); [offer_at 0 [1; 0; 3; 0] 2|]. by split.
Defined.
End RestoreFacts.

Module BackupFacts.
Import BackupAssistant.
Section Facts.
Context {L : Locale} (t : string -> string).

(** Creating is for those who may, verifying for those who are not read-only. *)
Definition backup_event (p : Props) (s : State) (ev : Event) : Prop :=
  match ev with
  | ClickCreate => canCreate p = true /\ creating s = false /\ 12 <= String.length (passphrase s)
  | ClickVerify => readOnly p = false
  | _ => True
  end.

Lemma view_backup p s : nodes_all (backup_event p s) false (view t p s).
Proof.
  unfold view. view_split; try first [done | view_close]. cbn -[Nat.ltb]. rewrite orb_false_r.
  intros Hd. apply orb_false_elim in Hd as [Hc Hl]. apply Nat.ltb_ge in Hl. by destruct (canCreate p).
Qed.

Definition locked (p : Props) : bool := readOnly p && negb (canCreate p).

Lemma backup_lockable_page : lockable (page t) locked.
Proof.
  constructor; cbn [c_init c_view c_handle c_effects c_unmount page].
  - intros p s ev _. destruct ev; unfold handle, createBackup, handleVerify; quiet_walk.
  - intros p s ev Hl Hev. apply andb_prop in Hl as [Hr Hc]. apply negb_true_iff in Hc.
    pose proof (nodes_all_offered _ _ _ (view_backup p s) Hev) as Hok.
    destruct ev; [done|destruct Hok; congruence|done|cbn in Hok; congruence].
  - intros ef p s q [<-|[]] [= <-]. unfold load. quiet_walk.
  - by intros ef p s [<-|[]].
Qed.

#[export] Instance backup_lock_safe : LockSafe (page t) locked.
Proof. apply lockable_lock_safe, backup_lockable_page. Qed.
#[export] Instance backup_viewer_safe : ViewerSafe (page t) (fun p => locked p = true).
Proof. apply lock_safe_viewer_safe, backup_lock_safe. Qed.
End Facts.
End BackupFacts.
