(* ===== verification/Cluster.v ===== *)
(** * The cluster page: web/src/pages/Cluster.tsx

    Creating, joining, leaving and dissolving a cluster, its members and join
    tokens, and the history of applied configurations. *)
From S2P Require Import Prelude JsString JsNumber Url Http Api Resources React Runtime Components.
Local Open Scope velora_scope.
Local Open Scope prog_scope.
Local Open Scope string_scope.

Module Cluster.

Definition REFRESH_MS : Z := 15000.

Definition STATUS_TONE (st : MemberStatus) : BadgeTone :=
  match st with
  | in_sync => success | behind => info | never_synced => warning | stale | member_error => danger
  end.

Definition status_str (st : MemberStatus) : string :=
  match st with
  | in_sync => "in_sync" | behind => "behind" | never_synced => "never_synced" | stale => "stale"
  | member_error => "error"
  end.

Definition role_str (r : cluster_role) : string :=
  match r with standalone => "standalone" | primary => "primary" | replica => "replica" end.

Definition is_role (a b : cluster_role) : bool :=
  match a, b with standalone, standalone | primary, primary | replica, replica => true | _, _ => false end.

(** The two forms of [StandaloneSetup]. *)
Record CreateForm : Set := mkCreate {
  cf_name : string; cf_url : string; cf_insecure : bool; cf_skip_check : bool }.
#[export] Instance eta_CreateForm : Eta CreateForm := fun s =>
  mkCreate (cf_name s) (cf_url s) (cf_insecure s) (cf_skip_check s).
Record JoinForm : Set := mkJoin {
  jf_url : string; jf_token : string; jf_name : string; jf_insecure : bool }.
#[export] Instance eta_JoinForm : Eta JoinForm := fun s =>
  mkJoin (jf_url s) (jf_token s) (jf_name s) (jf_insecure s).
Record Setup : Set := mkSetup { create : CreateForm; join : JoinForm }.
#[export] Instance eta_Setup : Eta Setup := fun s => mkSetup (create s) (join s).

(** [origin]: [window.location.origin]. *)
Definition new_setup (origin : string) : Setup :=
  mkSetup (mkCreate "" origin (startsWith origin "http:") false) (mkJoin "" "" "" false).

Record Props : Set := mkProps { canManage : bool; origin : string }.

(** [setup] is the state of [StandaloneSetup], which is mounted while the
    overview shows a standalone server. *)
Record State : Set := mkState {
  overview : option ClusterOverview; versions : list ConfigVersion; error : string; notice : string;
  busy : bool; token : option JoinToken; copied : bool; setup : Setup }.
#[export] Instance eta_State : Eta State := fun s =>
  mkState (overview s) (versions s) (error s) (notice s) (busy s) (token s) (copied s) (setup s).

Definition init (p : Props) : State := mkState None [] "" "" false None false (new_setup (origin p)).

Inductive Event : Set :=
| ClickReload
| ClickAddNode
| CopyToken (text : string)
| TokenDone
| ClickRemove (member : ClusterMember)
| ClickDissolve
| ClickSync
| ClickLeave
| SetCreate (f : CreateForm)
| SetJoin (f : JoinForm)
| SubmitCreate
| SubmitJoin.

Section Page.
Context {L : Locale} (t : string -> string) (language : string).

(** [setOverview]. Leaving the standalone role unmounts [StandaloneSetup], so
    its forms start afresh when it is mounted again. *)
Definition setOverview (p : Props) (next : ClusterOverview) : M State unit :=
  update (fun s => s <| overview := Some next |>
                     <| setup := if is_role (cs_role (co_state next)) standalone then setup s
                                 else new_setup (origin p) |>).

Definition load_requests (signal : bool) : api (ClusterOverview * list ConfigVersion) :=
  all2 (loadClusterOverview signal) (or_else [] (loadConfigVersions 20 signal)).

Definition load (p : Props) (signal : bool) : M State unit :=
  try_catch
    (r <- await (load_requests signal) ;;
     e <- ask ;;
     when_do (negb (signal && aborted e))
       (setOverview p (fst r) ;;
        update (fun s => s <| versions := snd r |>) ;;
        update (fun s => s <| error := "" |>)))
    (fun x => e <- ask ;;
       when_do (negb (signal && aborted e))
         (update (fun s => s <| error := error_message x (t "cluster.load_failed") |>))).

Definition run (p : Props) (action : M State (option ClusterOverview)) (success_ : string) : M State unit :=
  update (fun s => s <| busy := true |>) ;;
  update (fun s => s <| error := "" |>) ;;
  update (fun s => s <| notice := "" |>) ;;
  try_finally
    (try_catch
       (next <- action ;;
        (match next with Some o => setOverview p o | None => ret tt end) ;;
        update (fun s => s <| notice := success_ |>))
       (fun x => update (fun s => s <| error := error_message x (t "cluster.action_failed") |>)))
    (update (fun s => s <| busy := false |>)).

(** An action that is one call answered with the new overview. *)
Definition call (a : api ClusterOverview) : M State (option ClusterOverview) :=
  next <- await a ;; ret (Some next).

(** [() => { setToken(await issueJoinToken()); setCopied(false); }] *)
Definition addNode : M State (option ClusterOverview) :=
  tk <- await issueJoinToken ;;
  update (fun s => s <| token := Some tk |>) ;;
  update (fun s => s <| copied := false |>) ;;
  ret None.

(** [navigator.clipboard?.writeText(text)]: its promise settles at some time,
    or never where there is no clipboard. *)
Definition writeText (text : string) : api unit := fun _ => Promise (unit + exn) [] (fun u => u).

(** [if (window.confirm(question)) void run(action, success)] *)
Definition confirmed_run (p : Props) (question : string) (a : api ClusterOverview) (success_ : string)
    : M State unit :=
  e <- ask ;; when_do (confirm e question) (run p (call a) success_).

Definition create_request (f : CreateForm) : api ClusterOverview :=
  createCluster (cf_name f) (cf_url f) (cf_insecure f) (cf_skip_check f).
Definition join_request (f : JoinForm) : api ClusterOverview :=
  joinCluster (jf_url f) (jf_token f) (jf_name f) (jf_insecure f).

Definition remove_question (m : ClusterMember) : string :=
  t "cluster.remove_confirm" +:+ " " +:+ cm_name m +:+ "?".

Definition handle (p : Props) (c : State) (ev : Event) : prog State :=
  run_top
    match ev with
    | ClickReload => load p false
    | ClickAddNode => run p addNode ""
    | CopyToken text =>
        emit (Clipboard text) ;; _ <- await (writeText text) ;; update (fun s => s <| copied := true |>)
    | TokenDone => update (fun s => s <| token := None |>)
    | ClickRemove m =>
        confirmed_run p (remove_question m) (removeClusterMember (cm_node_id m)) (t "cluster.removed")
    | ClickDissolve => confirmed_run p (t "cluster.dissolve_confirm") dissolveCluster (t "cluster.dissolved")
    | ClickSync => run p (call syncCluster) ""
    | ClickLeave => confirmed_run p (t "cluster.leave_confirm") leaveCluster (t "cluster.left")
    | SetCreate f => update (fun s => s <| setup ::= (fun x => x <| create := f |>) |>)
    | SetJoin f => update (fun s => s <| setup ::= (fun x => x <| join := f |>) |>)
    | SubmitCreate => run p (call (create_request (create (setup c)))) (t "cluster.created")
    | SubmitJoin =>
        confirmed_run p (t "cluster.join_confirm") (join_request (join (setup c))) (t "cluster.joined")
    end.

(** ** The view *)

Definition when_ (value : option string) : string :=
  if truthy (value ?? "") then date_locale language (value ?? "") else t "cluster.never".

Definition roleLabel (r : cluster_role) : string := t ("cluster.role_" +:+ role_str r).

Definition inSync (o : ClusterOverview) : list ClusterMember :=
  filterb (fun m => match cm_status m with in_sync => true | _ => false end) (co_members o).

Definition count_str {A} (l : list A) : string := StringZ (Z.of_nat (length l)).

Definition toolbar (s : State) (st : ClusterState) : node Event :=
  El div ["className" =: "zones-toolbar"]
    [El span ["className" =: "zone-count"]
       (Txt (roleLabel (cs_role st))
        :: when (truthy (cs_node_name st)) [Txt (" · " +:+ cs_node_name st)]);
     El div []
       [El button ["className" =: "button"; Disabled (busy s); OnClick ClickReload]
          [Icon "RefreshCw" 15; Txt (t "blocklists.reload")]]].

Definition stats (o : ClusterOverview) : list (node Event) :=
  let st := co_state o in
  when (negb (is_role (cs_role st) standalone))
    [El div ["className" =: "stats"]
       ([Stat (t "cluster.role") (roleLabel (cs_role st))
           (Some (if is_role (cs_role st) primary then cs_advertised_url st else cs_primary_url st))
           None None info]
        ++ when (is_role (cs_role st) primary)
             [Stat (t "cluster.replicas") (count_str (co_members o))
                (Some (count_str (inSync o) +:+ " " +:+ t "cluster.in_sync_count")) None None
                (if Nat.eqb (length (inSync o)) (length (co_members o)) then success else warning)]
        ++ [Stat (t "cluster.revision") (str_or (co_revision o) "—")
              (Some (StringZ (co_replicated_zones o) +:+ " " +:+ t "cluster.zones_replicated"))
              None None neutral]
        ++ when (is_role (cs_role st) replica)
             [Stat (t "cluster.last_sync") (when_ (cs_last_sync_at st))
                (Some (if truthy (cs_last_sync_error st) then t "cluster.sync_failed" else t "cluster.sync_ok"))
                None None (if truthy (cs_last_sync_error st) then danger else success)])].

Definition checkbox (label_ : string) (v : bool) (set : bool -> Event) : node Event :=
  El label ["className" =: "check-field"]
    [El input ["type" =: "checkbox"; "checked" =: bool_str v; OnCheck set] []; Txt label_].

Definition create_form (s : State) : node Event :=
  let f := create (setup s) in
  El form ["className" =: "zone-form"; "aria-label" =: t "cluster.create_title"; OnSubmit SubmitCreate]
    [El div [] [El h3 [] [Txt (t "cluster.create_title")]; El p_ [] [Txt (t "cluster.create_hint")]];
     El fieldset [Disabled (busy s)]
       [El label []
          [Txt (t "cluster.node_name");
           El input ["value" =: cf_name f; OnChange (fun v => SetCreate (f <| cf_name := v |>));
                     "placeholder" =: "dns1"; "maxLength" =: "64"; flag "required"] []];
        El label []
          [Txt (t "cluster.advertised_url");
           El input ["type" =: "url"; "value" =: cf_url f;
                     OnChange (fun v => SetCreate (f <| cf_url := v |>));
                     "placeholder" =: "https://dns1.example.lan"; "spellCheck" =: "false"; flag "required"] [];
           El small [] [Txt (t "cluster.advertised_hint")]];
        checkbox (t "cluster.allow_http") (cf_insecure f) (fun b => SetCreate (f <| cf_insecure := b |>));
        checkbox (t "cluster.skip_check") (cf_skip_check f) (fun b => SetCreate (f <| cf_skip_check := b |>));
        El div ["className" =: "form-actions"]
          [El button ["className" =: "button primary"; "type" =: "submit"]
             [Icon "Server" 15; Txt (t "cluster.create")]]]].

Definition join_form (s : State) : node Event :=
  let f := join (setup s) in
  El form ["className" =: "zone-form"; "aria-label" =: t "cluster.join_title"; OnSubmit SubmitJoin]
    [El div [] [El h3 [] [Txt (t "cluster.join_title")]; El p_ [] [Txt (t "cluster.join_hint")]];
     El fieldset [Disabled (busy s)]
       [El label []
          [Txt (t "cluster.primary_url");
           El input ["type" =: "url"; "value" =: jf_url f; OnChange (fun v => SetJoin (f <| jf_url := v |>));
                     "placeholder" =: "https://dns1.example.lan"; "spellCheck" =: "false"; flag "required"] []];
        El label []
          [Txt (t "cluster.join_token");
           El input ["value" =: jf_token f; OnChange (fun v => SetJoin (f <| jf_token := v |>));
                     "placeholder" =: "vjt_…"; "spellCheck" =: "false"; "autoComplete" =: "off";
                     flag "required"] []];
        El label []
          [Txt (t "cluster.node_name");
           El input ["value" =: jf_name f; OnChange (fun v => SetJoin (f <| jf_name := v |>));
                     "placeholder" =: "dns2"; "maxLength" =: "64"; flag "required"] []];
        checkbox (t "cluster.allow_http") (jf_insecure f) (fun b => SetJoin (f <| jf_insecure := b |>));
        El p_ ["className" =: "notice warning"] [Txt (t "cluster.join_warning")];
        El div ["className" =: "form-actions"]
          [El button ["className" =: "button"; "type" =: "submit"]
             [Icon "Network" 15; Txt (t "cluster.join")]]]].

Definition StandaloneSetup (p : Props) (s : State) : list (node Event) :=
  cond (negb (canManage p))
    [El section ["className" =: "panel"]
       [EmptyState (Some (Icon "Network" 22)) (t "cluster.standalone_title")
          [Txt (t "cluster.standalone_viewer")] [] false]]
    [El div ["className" =: "notice info"; "role" =: "note"] [Txt (t "cluster.scope_note")];
     El div ["className" =: "grid-2"]
       [El section ["className" =: "panel"] [create_form s];
        El section ["className" =: "panel"] [join_form s]]].

Definition MemberRow (p : Props) (s : State) (m : ClusterMember) : node Event :=
  El tr []
    [El td []
       [El strong [] [Txt (cm_name m)];
        El small ["className" =: "cell-muted block"] [Txt (str_or (cm_address m) (cm_node_id m))]];
     El td ["className" =: "wrap"]
       (Badge (STATUS_TONE (cm_status m)) false [Txt (t ("cluster.status_" +:+ status_str (cm_status m)))]
        :: when (truthy (cm_last_error m)) [El span ["className" =: "error-text"] [Txt (cm_last_error m)]]);
     El td ["className" =: "mono"] [Txt (str_or (cm_version m) "—")];
     El td ["className" =: "cell-muted"] [Txt (when_ (cm_last_seen_at m))];
     El td []
       (when (canManage p)
          [El div ["className" =: "table-actions"]
             [El button ["className" =: "icon-button danger-icon"; Disabled (busy s);
                         "title" =: t "cluster.remove";
                         "aria-label" =: (t "cluster.remove" +:+ " " +:+ cm_name m);
                         OnClick (ClickRemove m)] [Icon "Trash2" 15]]])].

Definition token_panel (s : State) (st : ClusterState) : list (node Event) :=
  when_some (token s) (fun tk =>
    [El div ["className" =: "panel-body"]
       [El div ["className" =: "notice info join-token"; "role" =: "status"]
          [Icon "KeyRound" 16;
           El div []
             [El strong [] [Txt (t "cluster.token_title")];
              El p_ [] [Txt (t "cluster.token_steps")];
              El dl ["className" =: "restore-facts"]
                [El dt [] [Txt (t "cluster.primary_url")];
                 El dd [] [El code_ [] [Txt (cs_advertised_url st)]];
                 El dt [] [Txt (t "cluster.join_token")];
                 El dd [] [El code_ ["className" =: "token-value"] [Txt (jt_token tk)]]];
              El p_ [] [Txt (t "cluster.token_expires" +:+ " " +:+ clock_locale language (jt_expires_at tk)
                             +:+ ". " +:+ t "cluster.token_once")];
              El div ["className" =: "form-actions"]
                [El button ["className" =: "button small"; OnClick (CopyToken (jt_token tk))]
                   [if copied s then Icon "Check" 14 else Icon "Copy" 14;
                    Txt (if copied s then t "cluster.copied" else t "cluster.copy_token")];
                 El button ["className" =: "button small"; OnClick TokenDone]
                   [Txt (t "cluster.token_done")]]]]]]).

Definition members_table (p : Props) (s : State) (o : ClusterOverview) : node Event :=
  match co_members o with
  | [] => EmptyState (Some (Icon "Server" 22)) (t "cluster.no_members") [Txt (t "cluster.no_members_text")] [] true
  | members =>
      El div ["className" =: "table-wrap"]
        [El table []
           [El caption ["className" =: "sr-only"] [Txt (t "cluster.members")];
            El thead []
              [El tr []
                 [El th [] [Txt (t "cluster.name")]; El th [] [Txt (t "cluster.status")];
                  El th [] [Txt (t "cluster.version")]; El th [] [Txt (t "cluster.last_seen")];
                  El th [] [El span ["className" =: "sr-only"] [Txt (t "zones.col_actions")]]]];
            El tbody [] (each members (fun m => [MemberRow p s m]))]]
  end.

Definition primary_panels (p : Props) (s : State) (o : ClusterOverview) : list (node Event) :=
  [El section ["className" =: "panel"]
     ([El div ["className" =: "panel-heading"]
         (El div [] [El h2 [] [Txt (t "cluster.members")]; El p_ [] [Txt (t "cluster.members_hint")]]
          :: when (canManage p)
               [El button ["className" =: "button primary"; Disabled (busy s); OnClick ClickAddNode]
                  [Icon "Plus" 15; Txt (t "cluster.add_node")]])]
      ++ token_panel s (co_state o) ++ [members_table p s o])]
  ++ when (canManage p)
       [El section ["className" =: "panel danger-zone"]
          [El div ["className" =: "panel-heading"]
             [El div [] [El h2 [] [Txt (t "cluster.dissolve")]; El p_ [] [Txt (t "cluster.dissolve_hint")]];
              El button ["className" =: "button outline-danger"; Disabled (busy s); OnClick ClickDissolve]
                [Icon "Unplug" 15; Txt (t "cluster.dissolve")]]]].

Definition replica_panel (p : Props) (s : State) (st : ClusterState) : node Event :=
  El section ["className" =: "panel"]
    [El div ["className" =: "panel-heading"]
       (El div [] [El h2 [] [Txt (t "cluster.replica_title")]; El p_ [] [Txt (t "cluster.replica_hint")]]
        :: when (canManage p)
             [El div ["className" =: "button-group"]
                [El button ["className" =: "button"; Disabled (busy s); OnClick ClickSync]
                   [Icon "RefreshCw" 15; Txt (t "cluster.sync_now")];
                 El button ["className" =: "button outline-danger"; Disabled (busy s); OnClick ClickLeave]
                   [Icon "LogOut" 15; Txt (t "cluster.leave")]]]);
     El div ["className" =: "panel-body stack-sm"]
       (cond (truthy (cs_last_sync_error st))
          (error_notice (cs_last_sync_error st))
          [El div ["className" =: "notice success"; "role" =: "status"] [Txt (t "cluster.replica_ok")]]
        ++ [El dl ["className" =: "restore-facts"]
              [El dt [] [Txt (t "cluster.primary_url")]; El dd [] [El code_ [] [Txt (cs_primary_url st)]];
               El dt [] [Txt (t "cluster.cluster_id")]; El dd [] [El code_ [] [Txt (cs_cluster_id st)]];
               El dt [] [Txt (t "cluster.node_id")]; El dd [] [El code_ [] [Txt (cs_node_id st)]]]])].

Definition version_row (v : ConfigVersion) : node Event :=
  El tr []
    [El td ["className" =: "mono"] [Txt (StringZ (cv_version v))];
     El td [] [El code_ [] [Txt (String.substring 0 12 (cv_config_hash v))]];
     El td [] [Txt (cv_applied_by v)];
     El td ["className" =: "cell-muted"] [Txt (date_locale language (cv_applied_at v))]].

Definition history_panel (s : State) : node Event :=
  El details ["className" =: "panel cli-restore"]
    [El summary ["className" =: "panel-body"] [Txt (t "cluster.config_history")];
     match versions s with
     | [] => EmptyState None (t "cluster.no_versions") [] [] true
     | l =>
         El div ["className" =: "table-wrap"]
           [El table []
              [El thead []
                 [El tr [] [El th [] [Txt (t "cluster.version")]; El th [] [Txt (t "cluster.hash")];
                            El th [] [Txt (t "cluster.applied_by")]; El th [] [Txt (t "cluster.applied_at")]]];
               El tbody [] (each l (fun v => [version_row v]))]]
     end].

Definition view (p : Props) (s : State) : list (node Event) :=
  match overview s with
  | None =>
      [El section ["className" =: "panel"]
         (cond (truthy (error s)) (error_notice (error s)) [Loading [Txt (t "cluster.loading")]])]
  | Some o =>
      let st := co_state o in
      [El div ["className" =: "stack"]
         ([toolbar s st] ++ error_notice (error s) ++ success_notice (notice s) ++ stats o
          ++ when (is_role (cs_role st) standalone) (StandaloneSetup p s)
          ++ when (is_role (cs_role st) primary) (primary_panels p s o)
          ++ when (is_role (cs_role st) replica) [replica_panel p s st]
          ++ [history_panel s])]
  end.

Definition page : component Props State Event :=
  mkComponent init view handle
    [mkEffect (fun _ _ => false)
       (fun p _ => Some (run_top (spawn (sleep 0 ;; load p true) ;; again REFRESH_MS)))
       (fun p _ => run_top (spawn (load p false) ;; again REFRESH_MS))]
    (fun s => s).
End Page.
End Cluster.

Module ClusterFacts.
Import Cluster.
Section Facts.
Context {L : Locale} (t : string -> string) (language : string).

Lemma load_requests_read signal : reads_only (load_requests signal).
Proof. unfold load_requests, loadClusterOverview, loadConfigVersions. eauto with velora. Qed.

Lemma writeText_reads text : reads_only (writeText text).
Proof. intros e. constructor. Qed.
#[local] Hint Resolve load_requests_read writeText_reads : velora.

Ltac cluster_unfold := unfold handle, confirmed_run, load, run, call, addNode, setOverview.

Definition viewer_event (ev : Event) : Prop :=
  match ev with ClickReload | CopyToken _ | TokenDone => True | _ => False end.

Lemma cluster_view_viewer p s :
  canManage p = false -> nodes_all viewer_event false (view t language p s).
Proof. intros Hr. unfold view. view_split; rewrite ?Hr in *; first [done | view_close]. Qed.

Definition harmless (ev : Event) : Prop :=
  match ev with CopyToken _ | TokenDone => True | _ => False end.

Lemma cluster_view_busy p s : busy s = true -> nodes_all harmless false (view t language p s).
Proof. intros Hb. unfold view. view_split; rewrite ?Hb; first [view_close | done]. Qed.

Lemma cluster_lockable : lockable (page t language) (fun p => negb (canManage p)).
Proof.
  constructor; cbn [c_init c_view c_handle c_effects c_unmount page].
  - intros p s ev _. destruct ev; cluster_unfold; quiet_walk.
  - intros p s ev Hr Hev. apply negb_true_iff in Hr.
    pose proof (nodes_all_offered _ _ _ (cluster_view_viewer p s Hr) Hev) as H.
    destruct ev; try done; cluster_unfold; quiet_walk.
  - intros ef p s q [<-|[]] [= <-]. cluster_unfold. quiet_walk.
  - intros ef p s [<-|[]]. cbn. cluster_unfold. quiet_walk.
Qed.

#[export] Instance cluster_lock_safe : LockSafe (page t language) (fun p => negb (canManage p)).
Proof. apply lockable_lock_safe, cluster_lockable. Qed.

#[export] Instance cluster_viewer_safe : ViewerSafe (page t language) (fun p => negb (canManage p) = true).
Proof. apply lock_safe_viewer_safe, _. Qed.

Lemma cluster_exclusive_page : exclusive (page t language) busy true (fun _ _ => True).
Proof.
  constructor; cbn [c_init c_view c_handle c_effects c_unmount page].
  - done.
  - intros p s ev _ Hev. destruct (busy s) eqn:Hb.
    + pose proof (nodes_all_offered _ _ _ (cluster_view_busy p s Hb) Hev) as H.
      destruct ev; try done; cluster_unfold; excl_walk.
    + destruct ev; cluster_unfold; excl_walk.
  - intros ef p s q [<-|[]] [= <-]. cluster_unfold. excl_walk.
  - intros ef p s [<-|[]]. cbn. cluster_unfold. excl_walk.
  - done.
Qed.

#[export] Instance cluster_one_at_a_time : OneAtATime (page t language).
Proof. apply (exclusive_one_at_a_time _ busy true), cluster_exclusive_page. Qed.

#[export] Instance cluster_unblocks : Unblocks (page t language) busy.
Proof. apply exclusive_unblocks, cluster_exclusive_page. Qed.

(** What an action asks before it starts, calls, and says when it is done. *)
Definition action_of (c : State) (ev : Event) : option (option string * api ClusterOverview * string) :=
  match ev with
  | SubmitCreate => Some (None, create_request (create (setup c)), t "cluster.created")
  | ClickSync => Some (None, syncCluster, "")
  | SubmitJoin => Some (Some (t "cluster.join_confirm"), join_request (join (setup c)), t "cluster.joined")
  | ClickLeave => Some (Some (t "cluster.leave_confirm"), leaveCluster, t "cluster.left")
  | ClickDissolve => Some (Some (t "cluster.dissolve_confirm"), dissolveCluster, t "cluster.dissolved")
  | ClickRemove m =>
      Some (Some (remove_question t m), removeClusterMember (cm_node_id m), t "cluster.removed")
  | _ => None
  end.

Definition agreed (e : env) (question : option string) : bool :=
  match question with Some q => confirm e q | None => true end.

(** One action run to its end. *)
Definition runs_action (p : Props) (e : env) (c : State) (a : api ClusterOverview) (done_ : string)
    (r0 : segment State) : Prop :=
  exists k s1,
    r0 = Seg (Wait (a e) k) s1 (map Sent (sent (a e))) [] /\
    busy s1 = true /\ overview s1 = overview c /\
    forall e' s reply, let r := advance e' (k reply) s in
      seg_todo r = Done /\ seg_out r = [] /\ busy (seg_state r) = false /\
      match reply with
      | inl o => overview (seg_state r) = Some o /\ notice (seg_state r) = done_
      | inr x => overview (seg_state r) = overview s /\ notice (seg_state r) = notice s /\
                 error (seg_state r) = error_message x (t "cluster.action_failed")
      end.

Lemma run_action p e c a done_ : runs_action p e c a done_ (advance e (run_top (run t p (call a) done_)) c).
Proof. do 2 eexists. split_and!; [reflexivity..|]. by intros e' s [o|x]. Qed.

Lemma confirmed_action p e c q a done_ :
  advance e (run_top (confirmed_run t p q a done_)) c
    = if confirm e q then advance e (run_top (run t p (call a) done_)) c else Seg Done c [] [].
Proof. unfold confirmed_run. prog_cbv. cbn [advance]. by destruct (confirm e q). Qed.

(** C32: cluster actions: joining, leaving, dissolving and removing a member ask
    first, and a refusal sends nothing and changes nothing. Otherwise the action
    sends its one request and marks the page busy; the answer replaces the
    overview and is reported, a failure keeps the overview and shows its
    message, and either way the page is free again. *)
Theorem cluster_action e p c ev question a done_ :
  action_of c ev = Some (question, a, done_) ->
  length (sent (a e)) = 1 /\
  let r := advance e (handle t p c ev) c in
  if agreed e question then runs_action p e c a done_ r else r = Seg Done c [] [].
Proof.
  intros H. destruct ev; try done; injection H as <- <- <-; (split; [reflexivity|]); cbv zeta;
    unfold handle; rewrite ?confirmed_action; cbn [agreed]; try apply run_action.
  all: case_match; [apply run_action|reflexivity].
Qed.
End Facts.

Lemma cluster_action_witness :
  let c := init (mkProps true "http://10.0.0.2") in
  advance (calm_env false) (handle plain_text (mkProps true "http://10.0.0.2") c ClickDissolve) c = Seg Done c [] [].
Proof.
  exact (proj2 (cluster_action plain_text (calm_env false) (mkProps true "http://10.0.0.2")
    (init (mkProps true "http://10.0.0.2")) ClickDissolve _ _ _ eq_refl)).
Defined.
End ClusterFacts.
