(* ===== verification/Support.v ===== *)
(** * Events, audit log, diagnostics and the answer explainer

    Four small pages: web/src/pages/EventCenter.tsx, AuditLog.tsx,
    Diagnostics.tsx and AnswerExplainer.tsx. *)
From S2P Require Import Prelude JsString JsNumber Url Http Api Resources React Runtime Components.
Local Open Scope velora_scope.
Local Open Scope prog_scope.
Local Open Scope string_scope.

(** ** EventCenter.tsx *)

Module EventCenter.

Record State : Set := mkState { page_ : option SystemEventPage; error : string }.
#[export] Instance eta_State : Eta State := fun s => mkState (page_ s) (error s).

Definition init (_ : unit) : State := mkState None "".

Inductive Event : Set := MarkRead (id : Z).

Section Page.
Context {L : Locale} (t : string -> string) (language : string).

Definition load : M State unit :=
  try_catch
    (events <- await (get SystemEventPage "/api/v1/events?limit=100" false) ;;
     update (fun s => s <| page_ := Some events |>) ;;
     update (fun s => s <| error := "" |>))
    (fun x => update (fun s => s <| error := error_message x (t "events.load_failed") |>)).

Definition read_request (id : Z) : api unit :=
  post_empty unit ("/api/v1/events/" +:+ StringZ id +:+ "/read").

Definition markRead (id : Z) : M State unit :=
  try_catch
    (_ <- await (read_request id) ;;
     load ;;
     emit (CallProp "onRead"))
    (fun x => update (fun s => s <| error := error_message x (t "events.load_failed") |>)).

Definition handle (p : unit) (c : State) (ev : Event) : prog State :=
  run_top match ev with MarkRead id => markRead id end.

Definition icon_of (sv : severity) : node Event :=
  match sv with
  | sev_info => Icon "Info" 17
  | sev_warning => Icon "AlertTriangle" 17
  | sev_critical => Icon "AlertOctagon" 17
  end.

Definition tone_of (sv : severity) : BadgeTone :=
  match sv with sev_critical => danger | sev_warning => warning | sev_info => info end.

Definition event_article (ev : SystemEvent) : node Event :=
  El article ["className" =: ("system-event event-" +:+ severity_str (se_severity ev)
                              +:+ (if se_read ev then " is-read" else ""))]
    [El span ["className" =: "event-icon"; "aria-hidden" =: "true"] [icon_of (se_severity ev)];
     El div ["className" =: "system-event-heading"]
       [El strong [] [Txt (se_title ev)];
        Badge (tone_of (se_severity ev)) true
          [El span ["className" =: "event-severity"] [Txt (t ("events." +:+ severity_str (se_severity ev)))]];
        El span ["dateTime" =: se_occurred_at ev] [Txt (date_locale language (se_occurred_at ev))]];
     El p_ [] [Txt (se_message ev)];
     El div ["className" =: "system-event-actions"]
       (when (1 <? se_repeat_count ev)%Z
          [El span [] [Txt (t "events.repeated" +:+ ": " +:+ StringZ (se_repeat_count ev))]]
        ++ when (truthy (se_link ev)) [El a_ ["to" =: se_link ev] [Txt (t "events.open")]]
        ++ when (negb (se_read ev))
             [El button ["className" =: "button small"; OnClick (MarkRead (se_id ev))]
                [Icon "Check" 14; Txt (t "events.mark_read")]])].

Definition view (p : unit) (s : State) : list (node Event) :=
  [El section ["className" =: "panel"]
     (error_notice (error s)
      ++ when (negb (opt_is_some (page_ s)) && negb (truthy (error s))) [Loading [Txt (t "app.connecting")]]
      ++ when_some (page_ s) (fun pg =>
           match sep_events pg with
           | [] => [EmptyState (Some (Icon "BellOff" 22)) (t "events.empty") [] [] false]
           | l => [El div ["className" =: "event-list"] (each l (fun ev => [event_article ev]))]
           end))].

Definition page : component unit State Event :=
  mkComponent init view handle
    [mkEffect (fun _ _ => false)
       (fun _ _ => Some (run_top (spawn (sleep 0 ;; load) ;; again 10000)))
       (fun _ _ => run_top (spawn load ;; again 10000))]
    (fun s => s).
End Page.
End EventCenter.

(** ** AuditLog.tsx *)

Module AuditLog.

Record AuditEvent : Set := mkAuditEvent {
  au_id : Z; au_occurred_at : string; au_actor : string; au_role : string; au_action : string;
  au_target : string; au_result : string; au_status_code : Z }.

(** [revision] tells two filter objects apart: submitting the form makes a new
    one even when its texts are the same. *)
Record Filters : Set := mkFilters {
  f_actor : string; f_action : string; f_result : string; f_revision : Z }.

Record State : Set := mkState {
  events : list AuditEvent; actor : string; action : string; result : string; filters : Filters;
  error : string; loading : bool; more : bool }.
#[export] Instance eta_State : Eta State := fun s =>
  mkState (events s) (actor s) (action s) (result s) (filters s) (error s) (loading s) (more s).

Definition init (_ : unit) : State := mkState [] "" "" "" (mkFilters "" "" "" 0) "" false false.

Inductive Event : Set :=
| SetActor (v : string)
| SetAction (v : string)
| SetResult (v : string)
| Submit
| ClickMore (last_id : Z).

Section Page.
Context {L : Locale} (t : string -> string).

Definition query (f : Filters) (before : Z) : string :=
  search_params
    ([("limit", "50")]
     ++ (if truthy (f_actor f) then [("actor", f_actor f)] else [])
     ++ (if truthy (f_action f) then [("action", f_action f)] else [])
     ++ (if truthy (f_result f) then [("result", f_result f)] else [])
     ++ (if num_truthy before then [("before", StringZ before)] else [])).

Definition audit_request (f : Filters) (before : Z) : api (list AuditEvent) :=
  get (list AuditEvent) ("/api/v1/audit?" +:+ query f before) false.

Definition load (f : Filters) (before : Z) : M State unit :=
  update (fun s => s <| loading := true |>) ;;
  try_finally
    (try_catch
       (next <- await (audit_request f before) ;;
        update (fun s => s <| events ::= fun previous =>
                                if num_truthy before then (previous ++ next)%list else next |>) ;;
        update (fun s => s <| more := Nat.eqb (length next) 50 |>) ;;
        update (fun s => s <| error := "" |>))
       (fun x => update (fun s => s <| error := error_message x (t "audit.load_failed") |>)))
    (update (fun s => s <| loading := false |>)).

Definition load_changed (r r' : unit * State) : bool :=
  negb (Z.eqb (f_revision (filters (snd r))) (f_revision (filters (snd r')))).

Definition handle (p : unit) (c : State) (ev : Event) : prog State :=
  run_top
    match ev with
    | SetActor v => update (fun s => s <| actor := v |>)
    | SetAction v => update (fun s => s <| action := v |>)
    | SetResult v => update (fun s => s <| result := v |>)
    | Submit =>
        update (fun s => s <| filters := mkFilters (trim (actor c)) (trim (action c)) (result c)
                                           (f_revision (filters c) + 1) |>)
    | ClickMore last_id => load (filters c) last_id
    end.

Definition result_options : list string := [""; "success"; "failure"].

Definition filter_form (s : State) : node Event :=
  El form [OnSubmit Submit; "className" =: "zone-form audit-filters"]
    [El div ["className" =: "form-grid filters"]
       [El label [] [Txt (t "audit.actor"); El input ["value" =: actor s; OnChange SetActor] []];
        El label [] [Txt (t "audit.action"); El input ["value" =: action s; OnChange SetAction] []];
        El label []
          [Txt (t "audit.result");
           El select ["value" =: result s; OnSelect (map SetResult result_options)]
             [El option_ ["value" =: ""] [Txt (t "audit.all")];
              El option_ ["value" =: "success"] [Txt (t "audit.success")];
              El option_ ["value" =: "failure"] [Txt (t "audit.failure")]]];
        El div ["className" =: "filter-submit"]
          [El button ["className" =: "button primary"; "type" =: "submit"]
             [Icon "Filter" 15; Txt (t "audit.filter")]]]].

Definition result_text (item : AuditEvent) : string :=
  trim ((if one_of (au_result item) ["success"; "failure"] then t ("audit." +:+ au_result item)
         else au_result item)
        +:+ " " +:+ (if num_truthy (au_status_code item) then StringZ (au_status_code item) else "")).

Definition event_row (item : AuditEvent) : node Event :=
  El tr []
    [El td ["className" =: "cell-muted"] [Txt (date_locale_default (au_occurred_at item))];
     El td [] [Txt (au_actor item +:+ " (" +:+ str_or (au_role item) "—" +:+ ")")];
     El td [] [El code_ [] [Txt (au_action item)]];
     El td ["className" =: "wrap"] [El code_ [] [Txt (au_target item)]];
     El td [] [Badge (toneFor (Some (au_result item))) false [Txt (result_text item)]]].

(** Without events, reading the last one throws, so the click does nothing. *)
Definition more_button (s : State) : node Event :=
  El button
    ([("className" =: "button"); Disabled (loading s)]
     ++ match last (events s) with Some item => [OnClick (ClickMore (au_id item))] | None => [] end)
    [Txt (t "audit.more")].

Definition view (p : unit) (s : State) : list (node Event) :=
  [El section ["className" =: "panel"]
     ([El div ["className" =: "panel-heading"]
         [El div [] [El h2 [] [Txt (t "audit.title")]; El p_ [] [Txt (t "audit.hint")]]];
       filter_form s]
      ++ error_notice (error s)
      ++ when (nonempty (events s))
           [El div ["className" =: "table-wrap"]
              [El table []
                 [El thead []
                    [El tr [] [El th [] [Txt (t "audit.time")]; El th [] [Txt (t "audit.actor")];
                               El th [] [Txt (t "audit.action")]; El th [] [Txt (t "audit.target")];
                               El th [] [Txt (t "audit.result")]]];
                  El tbody [] (each (events s) (fun item => [event_row item]))]]]
      ++ when (negb (nonempty (events s)) && negb (loading s))
           [EmptyState (Some (Icon "ClipboardList" 22)) (t "audit.empty") [] [] true]
      ++ when (more s) [El div ["className" =: "panel-footer"] [El span [] []; more_button s]])].

Definition page : component unit State Event :=
  mkComponent init view handle
    [effect_once load_changed (fun _ s => Some (run_top (sleep 0 ;; load (filters s) 0)))]
    (fun s => s).
End Page.
End AuditLog.

(** ** Diagnostics.tsx *)

Module Diagnostics.

Inductive health : Set := healthy | degraded | failed.
Definition health_str (h : health) : string :=
  match h with healthy => "healthy" | degraded => "degraded" | failed => "failed" end.

Record DiagnosticComponent : Set := mkDiagnosticComponent {
  dc_name : string; dc_state : health; dc_detail : string }.
Record DiagnosticReport : Set := mkDiagnosticReport {
  dr_generated_at : string; dr_version : Version; dr_os : string; dr_architecture : string;
  dr_uptime_seconds : Z; dr_state : health; dr_components : list DiagnosticComponent;
  dr_upstream_count : Z; dr_query_log_enabled : bool }.

Record State : Set := mkState { report : option DiagnosticReport; error : string }.
#[export] Instance eta_State : Eta State := fun s => mkState (report s) (error s).

Definition init (_ : unit) : State := mkState None "".

Inductive Event : Set := ClickDownload.

Section Page.
Context (t : string -> string).

Definition load : M State unit :=
  try_catch
    (value <- await (get DiagnosticReport "/api/v1/diagnostics" true) ;;
     e <- ask ;;
     when_do (negb (aborted e)) (update (fun s => s <| report := Some value |>)))
    (fun x => e <- ask ;;
       when_do (negb (aborted e))
         (update (fun s => s <| error := error_message x (t "diagnostics.load_failed") |>))).

(** The click saves the report as a JSON file; the object URL is released
    afterwards. *)
Definition download (c : State) : M State unit :=
  when_do (opt_is_some (report c)) (emit (Download "velora-diagnostics.json")).

Definition handle (p : unit) (c : State) (ev : Event) : prog State :=
  run_top match ev with ClickDownload => download c end.

(** [s.replaceAll("_", " ")] *)
Fixpoint blank_underscores (s : string) : string :=
  match s with
  | EmptyString => EmptyString
  | String c s' => String (if Ascii.eqb c "_"%char then " "%char else c) (blank_underscores s')
  end.

Definition uptime (seconds : Z) : string :=
  StringZ (seconds / 3600) +:+ "h " +:+ StringZ (Z.rem (seconds / 60) 60) +:+ "m".

Definition health_badge (h : health) : node Event :=
  Badge (toneFor (Some (health_str h))) false [Txt (t ("diagnostics.state." +:+ health_str h))].

Definition component_row (c : DiagnosticComponent) : node Event :=
  El tr []
    [El td [] [El strong ["className" =: "capitalize"] [Txt (blank_underscores (dc_name c))]];
     El td [] [health_badge (dc_state c)];
     El td ["className" =: "wrap cell-muted"] [Txt (dc_detail c)]].

Definition hero (r : DiagnosticReport) : node Event :=
  El div ["className" =: "version-hero"]
    [El span ["className" =: ("version-icon "
                              +:+ match dr_state r with healthy => "success" | failed => "danger" | degraded => "" end);
              "aria-hidden" =: "true"] [Icon "Activity" 22];
     El div []
       [El p_ ["role" =: "status"; "className" =: "diagnostic-summary"]
          [health_badge (dr_state r); El strong [] [Txt ("Velora DNS " +:+ ver_version (dr_version r))]];
        El span []
          [Txt (t "diagnostics.upstreams" +:+ ": " +:+ StringZ (dr_upstream_count r) +:+ " · " +:+ dr_os r
                +:+ "/" +:+ dr_architecture r +:+ " · " +:+ uptime (dr_uptime_seconds r))]]].

Definition report_panel (r : DiagnosticReport) : node Event :=
  El section ["className" =: "panel"]
    [El div ["className" =: "panel-heading"]
       [El div [] [El h2 [] [Txt (t "diagnostics.title")]; El p_ [] [Txt (t "diagnostics.report_hint")]];
        El button ["className" =: "button"; OnClick ClickDownload]
          [Icon "Download" 15; Txt (t "diagnostics.download")]];
     El div ["className" =: "panel-body"] [hero r];
     El div ["className" =: "table-wrap"]
       [El table []
          [El thead []
             [El tr [] [El th [] [Txt (t "diagnostics.component")]; El th [] [Txt (t "diagnostics.state")];
                        El th [] [Txt (t "diagnostics.detail")]]];
           El tbody [] (each (dr_components r) (fun c => [component_row c]))]]].

Definition view (p : unit) (s : State) : list (node Event) :=
  cond (truthy (error s)) (error_notice (error s))
    (match report s with
     | None => [El section ["className" =: "panel"] [Loading [Txt (t "diagnostics.loading")]]]
     | Some r => [El div ["className" =: "stack"] [report_panel r; Mount "AnswerExplainer"]]
     end).

Definition page : component unit State Event :=
  mkComponent init view handle [effect_once (fun _ _ => false) (fun _ _ => Some (run_top load))] (fun s => s).
End Page.
End Diagnostics.

(** ** AnswerExplainer.tsx *)

Module AnswerExplainer.

Definition tones (result_ : string) : option BadgeTone :=
  if one_of result_ ["answered"; "hit"; "allowed"] then Some success
  else if one_of result_ ["blocked"; "error"] then Some danger
  else if String.eqb result_ "would_forward" then Some info
  else None.

Definition ruleLabel (rule : ExplainRule) : string :=
  (match er_id rule with
   | Some id => if num_truthy id then er_name rule +:+ " (#" +:+ StringZ id +:+ ")" else er_name rule
   | None => er_name rule
   end)
  +:+ (if truthy (er_detail rule ?? "") then " · " +:+ (er_detail rule ?? "") else "").

Definition stage_str (s : explain_stage) : string :=
  match s with
  | st_filter => "filter" | st_rewrite => "rewrite" | st_zone => "zone" | st_cache => "cache"
  | st_forwarding => "forwarding" | st_upstream => "upstream" | st_refused => "refused"
  end.
Definition source_str (s : answer_source) : string :=
  match s with
  | src_local => "local" | src_cache => "cache" | src_blocked => "blocked" | src_upstream => "upstream"
  | src_refused => "refused"
  end.

Record State : Set := mkState {
  name : string; type : string; client : string; busy : bool; error : string;
  result : option AnswerExplanation }.
#[export] Instance eta_State : Eta State := fun s =>
  mkState (name s) (type s) (client s) (busy s) (error s) (result s).

Definition init (_ : unit) : State := mkState "" "A" "" false "" None.

Inductive Event : Set :=
| SetName (v : string)
| SetType (v : string)
| SetClient (v : string)
| Submit.

Section Page.
Context (t : string -> string).

(** [client.trim() || undefined] *)
Definition client_input (v : string) : option string := if truthy (trim v) then Some (trim v) else None.

Definition explain_request (c : State) : api AnswerExplanation :=
  explainAnswer (trim (name c)) (type c) (client_input (client c)) false.

Definition submit (c : State) : M State unit :=
  update (fun s => s <| busy := true |>) ;;
  update (fun s => s <| error := "" |>) ;;
  try_finally
    (try_catch
       (r <- await (explain_request c) ;; update (fun s => s <| result := Some r |>))
       (fun x => update (fun s => s <| result := None |>) ;;
                 update (fun s => s <| error := error_message x (t "explain.failed") |>)))
    (update (fun s => s <| busy := false |>)).

Definition handle (p : unit) (c : State) (ev : Event) : prog State :=
  run_top
    match ev with
    | SetName v => update (fun s => s <| name := v |>)
    | SetType v => update (fun s => s <| type := v |>)
    | SetClient v => update (fun s => s <| client := v |>)
    | Submit => submit c
    end.

Definition muted (text : string) : node Event := El div ["className" =: "cell-muted"] [Txt text].

Definition filter_line (f : ExplainFilter) : node Event :=
  El div ["className" =: "cell-muted"]
    ([Txt (match ef_scope f with
           | scope_client_policy =>
               t "explain.scope.client_policy" +:+ ": " +:+ (ef_client f ?? "") +:+ " (" +:+ (ef_mode f ?? "") +:+ ")"
           | scope_global => t "explain.scope.global"
           end)]
     ++ each (ef_matches f ?? []) (fun r => [Txt (" · " +:+ t "explain.matches" +:+ ": " +:+ ruleLabel r)])
     ++ each (ef_allowed_by f ?? []) (fun r => [Txt (" · " +:+ t "explain.allowed_by" +:+ ": " +:+ ruleLabel r)])).

Definition StepDetails (step : ExplainStep) : list (node Event) :=
  (each (es_rules step ?? []) (fun r => [muted (ruleLabel r)])
   ++ when_some (es_filter step) (fun f => [filter_line f])
   ++ when_some (es_remaining_ttl step) (fun ttl => [muted (t "explain.ttl" +:+ ": " +:+ StringZ ttl +:+ " s")])
   ++ when (String.eqb (es_result step) "would_forward") [muted (t "explain.not_contacted")])%list.

Definition step_row (step : ExplainStep) : node Event :=
  El tr []
    [El td [] [El strong []
                 [Txt ((if (0 <? es_depth step)%Z then "↳ " +:+ t "explain.cname_target" +:+ " · " else "")
                       +:+ t ("explain.stage." +:+ stage_str (es_stage step)))]];
     El td [] [Badge (tones (es_result step) ?? neutral) false [Txt (t ("explain.result." +:+ es_result step))]];
     El td ["className" =: "wrap"] (StepDetails step)].

Definition result_panel (r : AnswerExplanation) : node Event :=
  El div ["className" =: "panel-body"; "role" =: "region"; "aria-label" =: t "explain.result"]
    [El p_ ["role" =: "status"; "className" =: "diagnostic-summary"]
       [Badge (tones (es_result (ae_winner r)) ?? neutral) false
          [Txt (t ("explain.source." +:+ source_str (ae_source r)))];
        El strong [] [Txt (t "explain.winner" +:+ ": "
                           +:+ t ("explain.stage." +:+ stage_str (es_stage (ae_winner r))))]];
     El p_ ["className" =: "cell-muted"]
       [Txt (ae_name r +:+ " " +:+ ae_type r
             +:+ (if truthy (ae_client r ?? "") then " · " +:+ (ae_client r ?? "") else "")
             +:+ (if truthy (ae_rcode r ?? "") then " · " +:+ (ae_rcode r ?? "") else ""))];
     match ae_answers r with
     | [] => El p_ ["className" =: "cell-muted"] [Txt (t "explain.no_answers")]
     | l => El ul ["aria-label" =: t "explain.answers"] (each l (fun a => [El li [] [El code_ [] [Txt a]]]))
     end;
     El div ["className" =: "table-wrap"]
       [El table []
          [El caption ["className" =: "sr-only"] [Txt (t "explain.steps")];
           El thead []
             [El tr [] [El th [] [Txt (t "explain.step")]; El th [] [Txt (t "explain.outcome")];
                        El th [] [Txt (t "explain.detail")]]];
           El tbody [] (each (ae_steps r) (fun step => [step_row step]))]]].

Definition question_form (s : State) : node Event :=
  El form ["className" =: "zone-form"; "aria-label" =: t "explain.title"; OnSubmit Submit]
    [El fieldset [Disabled (busy s)]
       [El div ["className" =: "form-grid forward-grid"]
          [El label []
             [Txt (t "explain.name");
              El input ["value" =: name s; OnChange SetName; "placeholder" =: "nas.home"; "maxLength" =: "253";
                        "autoComplete" =: "off"; "spellCheck" =: "false"; flag "required"] []];
           El label []
             [Txt (t "explain.type");
              El select ["value" =: type s; OnSelect (map SetType EXPLAIN_TYPES)]
                (each EXPLAIN_TYPES (fun v => [El option_ [] [Txt v]]))];
           El label []
             [Txt (t "explain.client");
              El input ["value" =: client s; OnChange SetClient; "placeholder" =: "192.168.1.40";
                        "maxLength" =: "45"; "autoComplete" =: "off"; "spellCheck" =: "false"] [];
              El small [] [Txt (t "explain.client_hint")]]];
        El button ["className" =: "button primary"; "type" =: "submit"]
          [Icon "Search" 15; Txt (if busy s then t "explain.running" else t "explain.submit")]]].

Definition view (p : unit) (s : State) : list (node Event) :=
  [El section ["className" =: "panel"]
     ([El div ["className" =: "panel-heading"]
         [El div [] [El h2 [] [Txt (t "explain.title")]; El p_ [] [Txt (t "explain.hint")]]];
       question_form s]
      ++ error_notice (error s)
      ++ when_some (result s) (fun r => [result_panel r]))].

Definition page : component unit State Event := mkComponent init view handle [] (fun s => s).
End Page.
End AnswerExplainer.

Module SupportFacts.

(** *** Events *)

Section Events.
Import EventCenter.
Context {L : Locale} (t : string -> string).

(** Marking an event as read: the click posts it; only then the list is read
    again, and the shell's counter is refreshed after that answer, good or bad.
    A refusal is shown and the shell is not told. *)
Theorem events_mark_read e p c id :
  exists k,
    advance e (handle t p c (MarkRead id)) c
      = Seg (Wait (read_request id e) k) c (map Sent (sent (read_request id e))) [] /\
    (forall e' s x, advance e' (k (inr x)) s
       = Seg Done (s <| error := error_message x (t "events.load_failed") |>) [] []) /\
    forall e' s, exists k2,
      let list_call := get SystemEventPage "/api/v1/events?limit=100" false in
      advance e' (k (inl tt)) s = Seg (Wait (list_call e') k2) s (map Sent (sent (list_call e'))) [] /\
      forall e2 s2 reply, advance e2 (k2 reply) s2
        = Seg Done (match reply with
                    | inl pg => s2 <| page_ := Some pg |> <| error := "" |>
                    | inr x => s2 <| error := error_message x (t "events.load_failed") |>
                    end) [CallProp "onRead"] [].
Proof.
  eexists. split; [reflexivity|]. split; [reflexivity|]. intros e' s. eexists. split; [reflexivity|].
  by intros e2 s2 [pg|x].
Qed.
End Events.

(** *** Audit log *)

Section Audit.
Import AuditLog.
Context {L : Locale} (t : string -> string).

#[local] Hint Extern 0 (api_sends _ (audit_request _ _)) => apply reads_only_get : velora.

Definition audit_inv (_ : unit) (s : State) : Prop := more s = true -> events s <> [].

Lemma full_page (next previous : list AuditEvent) :
  Nat.eqb (length next) 50 = true -> next <> [] /\ (previous ++ next)%list <> [].
Proof. intros H. destruct next as [|x next]; [done|]. split; [done|]. by destruct previous. Qed.

Ltac audit_close :=
  first [ apply reads_only_get | by auto
        | let H := fresh in unfold audit_inv; cbn; intros H; repeat case_match; by apply full_page ].

Lemma audit_verified p : verified (page t) any_props audit_inv read_only_output p.
Proof.
  constructor; cbn [c_init c_view c_handle c_effects c_unmount page]; try done.
  - intros p' s ev Hi Hev. destruct ev; unfold handle, load; wp_split; audit_close.
  - intros ef p' s q [<-|[]] Hi [= <-]. unfold load. wp_split; audit_close.
  - by intros ef p' s [<-|[]] Hi p'' s' Hi'.
Qed.

(** An audit page that says there is more has a last event to go on from. *)
Theorem audit_more_has_last p c :
  reachable (page t) any_props p c -> more (state c) = true -> events (state c) <> [].
Proof. intros Hc. by apply (invariant_reachable _ _ _ _ _ _ (audit_verified p) Hc). Qed.

#[export] Instance audit_viewer_safe : ViewerSafe (page t) (fun _ => true = true).
Proof.
  intros p c _ Hc. destruct (reachable_still _ _ _ _ eq_refl Hc) as [Hc' _].
  by apply (invariant_reachable _ _ _ _ _ _ (audit_verified p) Hc').
Qed.

Definition more_event (s : State) (ev : Event) : Prop :=
  match ev with
  | ClickMore id =>
      loading s = false /\ more s = true /\ exists item, last (events s) = Some item /\ au_id item = id
  | _ => True
  end.

Lemma audit_view_more p s : nodes_all (more_event s) false (view t p s).
Proof.
  unfold view. view_split; try done.
  - intros _ ev Hin. apply in_map_iff in Hin as (v & <- & _). done.
  - destruct (last (events s)) as [item|] eqn:El; view_split.
    cbn. rewrite orb_false_r. intros Hl. split_and!; [done|done|by exists item].
Qed.

(** Paging: the button asks, under the filter in force, for what comes before
    the last event shown, and the answer is appended; a failure keeps the list. *)
Theorem audit_more e p s id :
  offered (view t p s) (ClickMore id) ->
  (exists item, last (events s) = Some item /\ au_id item = id) /\
  let a := audit_request (filters s) id in
  exists k, advance e (handle t p s (ClickMore id)) s
              = Seg (Wait (a e) k) (s <| loading := true |>) (map Sent (sent (a e))) [] /\
    forall e' s' reply, advance e' (k reply) s'
      = Seg Done (match reply with
                  | inl next => s' <| events := if num_truthy id then (events s' ++ next)%list else next |>
                                   <| more := Nat.eqb (length next) 50 |> <| error := "" |>
                  | inr x => s' <| error := error_message x (t "audit.load_failed") |>
                  end <| loading := false |>) [] [].
Proof.
  intros Hev. pose proof (nodes_all_offered _ _ _ (audit_view_more p s) Hev) as (_ & _ & Hl).
  split; [done|]. cbv zeta. eexists. split; [reflexivity|]. by intros e' s' [next|x].
Qed.

Lemma audit_offers_actor p s v : offered (view t p s) (SetActor v).
Proof.
  eapply (offered_at 0 [1; 0; 0; 1] 1); [reflexivity|reflexivity|reflexivity|apply fires_change|reflexivity].
Qed.

Lemma audit_offers_submit p s : offered (view t p s) Submit.
Proof. eapply (offered_at 0 [1] 0); [reflexivity|reflexivity|reflexivity|apply fires_submit|reflexivity]. Qed.

(** C40: a superseded audit query can win: the page does not cancel a query when
    the filter changes, so an older answer that arrives last replaces the newer
    one, and the page comes to rest showing events the filter excludes. *)
Theorem audit_stale_reply :
  exists c item, reachable (page t) any_props tt c /\ mounted c = true /\ at_rest (page t) c /\
    f_actor (filters (state c)) = "bob" /\ loading (state c) = false /\
    events (state c) = [item] /\ au_actor item = "alice".
Proof.
  set (item := mkAuditEvent 7 "" "alice" "admin" "login" "" "success" 200).
  set (e := calm_env false). set (all := mkFilters "" "" "" 0). set (bob := mkFilters "bob" "" "" 1).
  set (at_ := fun text f loading_ => mkState [] text "" "" f "" loading_ false).
  set (wait := fun f => seg_todo (advance e (run_top (load t f 0)) (init tt))).
  set (sends := fun f => seg_out (advance e (run_top (load t f 0)) (init tt))).
  set (idle := Task (S := State) None true Done Done).
  pose proof (reach_start (page t) any_props tt) as H0.
  pose proof (reach_effect _ _ _ _ e H0 0 _ _ eq_refl eq_refl eq_refl eq_refl eq_refl) as H1.
  pose proof (reach_timer _ _ _ _ e H1 0 _ _ _ eq_refl eq_refl eq_refl) as H2.
  assert (H3 : reachable (page t) any_props tt (Config tt (at_ "bob" all true) true
      [Task (Some 0) true (wait all) Done; idle] [Some (tt, init tt)] (sends all))).
  { exact (reach_event _ _ _ _ e H2 (SetActor "bob") eq_refl (audit_offers_actor _ _ _) eq_refl). }
  assert (H4 : reachable (page t) any_props tt (Config tt (at_ "bob" bob true) true
      [Task (Some 0) true (wait all) Done; idle; idle] [Some (tt, init tt)] (sends all))).
  { exact (reach_event _ _ _ _ e H3 Submit eq_refl (audit_offers_submit _ _) eq_refl). }
  pose proof (reach_effect _ _ _ _ e H4 0 _ _ eq_refl eq_refl eq_refl eq_refl eq_refl) as H5.
  pose proof (reach_timer _ _ _ _ e H5 3 _ _ _ eq_refl eq_refl eq_refl) as H6.
  pose proof (reach_reply _ _ _ _ e H6 3 _ _ _ _ eq_refl eq_refl eq_refl (OkResponse 200 (inl []))) as H7.
  pose proof (reach_reply _ _ _ _ (calm_env true) H7 0 _ _ _ _ eq_refl eq_refl eq_refl (OkResponse 200 (inl [item]))) as H8.
  eexists _, item. split; [exact H8|]. split_and!; try reflexivity.
  split; [repeat constructor|]. intros [|i] ef prev [= <-] [= <-]. reflexivity.
Qed.
End Audit.

(** *** Answer explainer *)

Section Explain.
Import AnswerExplainer.
Context (t : string -> string).

Lemma explain_view_busy p s : busy s = true -> nodes_all (fun _ => False) false (view t p s).
Proof. intros Hb. unfold view. view_split; rewrite ?Hb; first [view_close | done]. Qed.

Lemma explain_exclusive : exclusive (page t) busy true (fun _ _ => True).
Proof.
  constructor; cbn [c_init c_view c_handle c_effects c_unmount page]; try done.
  intros p s ev _ Hev. destruct (busy s) eqn:Hb.
  - by pose proof (nodes_all_offered _ _ _ (explain_view_busy p s Hb) Hev).
  - destruct ev; unfold handle, submit; excl_walk.
Qed.

#[export] Instance explain_one_at_a_time : OneAtATime (page t).
Proof. apply (exclusive_one_at_a_time _ busy true), explain_exclusive. Qed.

#[export] Instance explain_unblocks : Unblocks (page t) busy.
Proof. apply exclusive_unblocks, explain_exclusive. Qed.

(** Asking for an explanation: one question with trimmed texts, the client only
    when one was typed; the answer is shown, and a failure shows its message and
    no answer of an earlier question. *)
Theorem explain_submit e p c :
  let a := explain_request c in
  exists k s1,
    advance e (handle t p c Submit) c = Seg (Wait (a e) k) s1 (map Sent (sent (a e))) [] /\ busy s1 = true /\
    forall e' s reply, advance e' (k reply) s
      = Seg Done (match reply with
                  | inl r => s <| result := Some r |>
                  | inr x => s <| result := None |> <| error := error_message x (t "explain.failed") |>
                  end <| busy := false |>) [] [].
Proof. do 2 eexists. split_and!; [reflexivity..|]. by intros e' s [r|x]. Qed.
End Explain.
End SupportFacts.
