(* ===== verification/Dashboard.v ===== *)
(** * The overview: web/src/pages/Dashboard.tsx and components/OnboardingChecklist.tsx *)
From S2P Require Import Prelude JsString JsNumber JsArith Url Http Api Resources React Runtime Components.
Local Open Scope velora_scope.
Local Open Scope prog_scope.
Local Open Scope string_scope.

(** ** OnboardingChecklist.tsx *)

Module Onboarding.

Record OnboardingStatus : Set := mkOnboardingStatus {
  first_run : bool; user_count : Z; config_ready : bool }.

Record ChecklistItem : Set := mkChecklistItem {
  it_id : string; it_title : string; it_description : string; completed : bool }.

(** [stored]: the dismissal in local storage, [None] when there is none or it
    cannot be read; [storage_works]: whether it can be written. *)
Record Props : Set := mkProps { stored : option string; storage_works : bool }.

(** [kept]: what local storage holds. *)
Record State : Set := mkState {
  status : option OnboardingStatus; snapshot : option Snapshot; dismissed : bool; kept : option string }.
#[export] Instance eta_State : Eta State := fun s =>
  mkState (status s) (snapshot s) (dismissed s) (kept s).

Definition readDismissed (item : option string) : bool :=
  match item with Some v => String.eqb v "true" | None => false end.

Definition init (p : Props) : State := mkState None None (readDismissed (stored p)) (stored p).

Inductive Event : Set := ClickDismiss.

Section Page.
Context (t : string -> string).

(** [fetch(url).then(r => r.json()).then(d => d.data)]: an error status is not
    looked at, and its body has no data. *)
Definition status_request : api (option OnboardingStatus) := fun _ =>
  Promise (fetch_outcome OnboardingStatus) [Fetch "/api/v1/onboarding/status" "GET" [] None false]
    (fun u => match u with
              | Rejected x => inr x
              | OkResponse _ (inl d) => inl (Some d)
              | OkResponse _ (inr x) => inr x
              | ErrResponse _ (Some _) => inl None
              | ErrResponse _ None => inr (OtherError "SyntaxError")
              end).

Definition poll : M State unit :=
  try_finally
    (try_catch
       (r <- await (all2 status_request (snapshot_requests true)) ;;
        e <- ask ;;
        if aborted e then ret tt else
        let '(st, stats, cache, config) := snd r in
        update (fun s => s <| status := fst r |>) ;;
        update (fun s => s <| snapshot := Some (mkSnapshot st stats cache config (now e)) |>))
       (fun _ => ret tt))
    (e <- ask ;; when_do (negb (aborted e)) (again 30000)).

Definition handleDismiss (p : Props) : M State unit :=
  update (fun s => s <| kept := if storage_works p then Some "true" else kept s |>) ;;
  update (fun s => s <| dismissed := true |>).

Definition handle (p : Props) (c : State) (ev : Event) : prog State :=
  run_top match ev with ClickDismiss => handleDismiss p end.

Definition items (st : OnboardingStatus) (d : Snapshot) : list ChecklistItem :=
  let dns := cfg_dns (snap_config d) in
  [mkChecklistItem "credentials" (t "onboarding.change_credentials") (t "onboarding.change_credentials_text")
     (1 <? user_count st)%Z;
   mkChecklistItem "dns_config" (t "onboarding.review_dns") (t "onboarding.review_dns_text")
     (nonempty (Api.upstreams dns));
   mkChecklistItem "client_restriction" (t "onboarding.restrict_clients") (t "onboarding.restrict_clients_text")
     (nonempty (allowed_clients dns));
   mkChecklistItem "database" (t "onboarding.verify_db") (t "onboarding.verify_db_text") true;
   mkChecklistItem "updates" (t "onboarding.update_policy") (t "onboarding.update_policy_text") false].

Definition completedCount (l : list ChecklistItem) : Z := Z.of_nat (length (filterb completed l)).

Definition item_row (i : ChecklistItem) : node Event :=
  El li (if completed i then ["className" =: "done"] else [])
    [Icon (if completed i then "CheckCircle2" else "Circle") 18;
     El div [] [El strong [] [Txt (it_title i)]; El p_ [] [Txt (it_description i)]]].

Definition checklist (l : list ChecklistItem) : node Event :=
  let n := completedCount l in
  let size := Z.of_nat (length l) in
  El section ["className" =: "panel onboarding"; "aria-labelledby" =: "onboarding-title"]
    [El div ["className" =: "panel-heading"]
       [El div [] [El h2 ["id" =: "onboarding-title"] [Txt (t "onboarding.welcome")];
                   El p_ [] [Txt (t "onboarding.complete_steps")]];
        El div ["className" =: "button-group"]
          [El span ["className" =: "progress-inline"]
             [El span ["className" =: "progress"; "role" =: "progressbar"; "aria-valuemin" =: "0";
                       "aria-valuemax" =: StringZ size; "aria-valuenow" =: StringZ n;
                       "aria-labelledby" =: "onboarding-title"]
                [El span ["style.width" =: (num_str (num_mul (num_div (num n) (num size)) (num 100)) +:+ "%")] []];
              Txt (StringZ n +:+ "/" +:+ StringZ size)];
           El button ["className" =: "button small"; OnClick ClickDismiss] [Txt (t "onboarding.dismiss")]]];
     El ul ["className" =: "checklist"] (each l (fun i => [item_row i]))].

Definition view (p : Props) (s : State) : list (node Event) :=
  match status s, snapshot s with
  | Some st, Some d => when (first_run st && negb (dismissed s)) [checklist (items st d)]
  | _, _ => []
  end.

Definition page : component Props State Event :=
  mkComponent init view handle
    [mkEffect (fun _ _ => false) (fun _ _ => Some (run_top poll)) (fun _ _ => run_top poll)]
    (fun s => s).
End Page.
End Onboarding.

(** ** Dashboard.tsx *)

Module Dashboard.

Record UpstreamHealth : Set := mkUpstreamHealth {
  uh_address : string; uh_state : upstream_state; uh_consecutive_failures : Z;
  uh_latency_milliseconds : jsnum }.

(** [has_refresh]: whether the optional [refresh] was passed. *)
Record Props : Set := mkProps {
  data : Snapshot; history : list jsnum; queryLoggingEnabled : bool; readOnly : bool; has_refresh : bool }.

Record State : Set := mkState {
  querySummary : option QuerySummary; summaryError : string; upstreamHealth : list UpstreamHealth;
  resetError : string; resetting : bool }.
#[export] Instance eta_State : Eta State := fun s =>
  mkState (querySummary s) (summaryError s) (upstreamHealth s) (resetError s) (resetting s).

Definition init (_ : Props) : State := mkState None "" [] "" false.

Inductive Event : Set := ClickReset.

(** *** The chart *)

(** Rounds a chart maximum up to 1, 2 or 5 times a power of ten. *)
Definition niceCeiling (value : jsnum) : jsnum :=
  if num_leb value (num 0) then num 1
  else match value with
       | Fin m e =>
           let '(a, b) := frac m e in
           let magnitude := pow10 (log10_floor a b) in
           let step := find_first (fun k => num_leb value (num_mul (num k) magnitude)) [1; 2; 5; 10]%Z ?? 10%Z in
           num_mul (num step) magnitude
       | _ => value
       end.

Definition formatAxis (value : jsnum) : string :=
  if num_leb (num 10) value then round_str value
  else let text := toFixed 1 value in if endsWith ".0" text then slice_end text 2 else text.

(** [Math.max(...history, 0)] *)
Definition peak (h : list jsnum) : jsnum := fold_right num_max (num 0) h.

(** A single sample still draws a flat line. *)
Definition samples (h : list jsnum) : list jsnum :=
  match h with [x] => [x; x] | _ => h end.

Definition coord (n : nat) (max : jsnum) (i : nat) (v : jsnum) : jsnum * jsnum :=
  (num_mul (num_div (num (Z.of_nat i)) (num (Z.max 1 (Z.of_nat n - 1)))) (num 600),
   num_sub (num 200) (num_mul (num_div v max) (num 200))).

Definition coords (h : list jsnum) : list (jsnum * jsnum) :=
  let l := samples h in imap (coord (length l) (niceCeiling (peak h))) l.

Definition point (xy : jsnum * jsnum) : string := toFixed 1 (fst xy) +:+ "," +:+ toFixed 1 (snd xy).
Definition line (h : list jsnum) : string := joinStrings " " (map point (coords h)).
Definition area (h : list jsnum) : string :=
  match coords h with
  | [] => ""
  | l => "M0,200 L" +:+ joinStrings " L" (map point l) +:+ " L600,200 Z"
  end.

Section Page.
Context {L : Locale} (t : string -> string) (language : string).

(** *** Behaviour *)

Definition reset_request : api unit := post_empty unit "/api/v1/stats/reset".

Definition resetStatistics (p : Props) : M State unit :=
  e <- ask ;;
  when_do (confirm e (t "dashboard.reset_confirm"))
    (update (fun s => s <| resetting := true |>) ;;
     update (fun s => s <| resetError := "" |>) ;;
     try_finally
       (try_catch
          (_ <- await reset_request ;; when_do (has_refresh p) (emit (CallProp "refresh")))
          (fun x => update (fun s => s <| resetError := error_message x (t "dashboard.reset_failed") |>)))
       (update (fun s => s <| resetting := false |>))).

(** The answer may be no array ([None]). *)
Definition health_request : api (option (list UpstreamHealth)) :=
  get (option (list UpstreamHealth)) "/api/v1/upstreams/health" true.

Definition poll : M State unit :=
  try_finally
    (try_catch
       (health <- await health_request ;;
        e <- ask ;;
        match health with
        | Some l => when_do (negb (aborted e)) (update (fun s => s <| upstreamHealth := l |>))
        | None => ret tt
        end)
       (fun _ => e <- ask ;; when_do (negb (aborted e)) (update (fun s => s <| upstreamHealth := [] |>))))
    (e <- ask ;; when_do (negb (aborted e)) (again 5000)).

Definition summary_request : api QuerySummary :=
  get QuerySummary "/api/v1/query-stats?window=24h&limit=10" true.

Definition load_summary : M State unit :=
  try_catch
    (summary_ <- await summary_request ;;
     e <- ask ;;
     when_do (negb (aborted e))
       (update (fun s => s <| querySummary := Some summary_ |>) ;;
        update (fun s => s <| summaryError := "" |>)))
    (fun x => e <- ask ;;
       when_do (negb (aborted e))
         (update (fun s => s <| summaryError := error_message x (t "dashboard.stats_load_failed") |>))).

Definition summary_changed (r r' : Props * State) : bool :=
  negb (Bool.eqb (queryLoggingEnabled (fst r)) (queryLoggingEnabled (fst r'))
        && Z.eqb (checked (data (fst r))) (checked (data (fst r')))).

Definition handle (p : Props) (c : State) (ev : Event) : prog State :=
  run_top match ev with ClickReset => resetStatistics p end.

(** *** The view *)

Definition number (v : Z) : string := num_locale language v.

Definition uptime (seconds : Z) : string :=
  let hours := (seconds / 3600)%Z in
  if (48 <=? hours)%Z then StringZ (hours / 24) +:+ "d " +:+ StringZ (Z.rem hours 24) +:+ "h"
  else StringZ hours +:+ "h " +:+ StringZ (Z.rem (seconds / 60) 60) +:+ "m".

Definition blockedShare (st : Stats) : jsnum :=
  if (0 <? queries_total st)%Z then num_div (num (blocked_queries st)) (num (queries_total st)) else num 0.

Definition percent (value : jsnum) : string := toFixed 1 (num_mul value (num 100)) +:+ "%".

Definition stats (d : Snapshot) : node Event :=
  let st := snap_stats d in
  El div ["className" =: "stats"]
    [Stat (t "dashboard.total_queries") (number (queries_total st)) (Some (t "dashboard.since_start"))
       None None info;
     Stat (t "dashboard.blocked") (number (blocked_queries st))
       (Some (percent (blockedShare st) +:+ " " +:+ t "dashboard.of_all_queries"))
       (Some (percent (blockedShare st))) (Some (blockedShare st)) danger;
     Stat (t "dashboard.cache_hit_rate") (percent (cache_hit_rate st))
       (Some (number (hits (snap_cache d)) +:+ " " +:+ t "dashboard.answers_from_memory"))
       None (Some (cache_hit_rate st)) success;
     Stat (t "dashboard.qps") (toFixed 2 (queries_per_second st)) (Some (t "dashboard.rolling_avg"))
       None None warning].

Definition chart_panel (h : list jsnum) : node Event :=
  let max := niceCeiling (peak h) in
  El section ["className" =: "panel"]
    [El div ["className" =: "panel-heading"]
       [El h2 [] [Txt (t "dashboard.query_activity")];
        El span ["className" =: "subtle-badge"] [Txt (t "dashboard.refresh_5s")]];
     El div ["className" =: "chart-wrap"]
       ([El div ["className" =: "chart-axis"; "aria-hidden" =: "true"]
           [El span [] [Txt (formatAxis max)]; El span [] [Txt (formatAxis (num_div max (num 2)))];
            El span [] [Txt "0"]];
         El svg ["className" =: "chart"; "viewBox" =: "0 0 600 200"; "preserveAspectRatio" =: "none";
                 "role" =: "img"; "aria-label" =: t "dashboard.chart_aria"]
           ([El path_ ["d" =: "M0 0.5H600 M0 100H600 M0 199.5H600"; "className" =: "chart-grid"] []]
            ++ when (truthy (area h)) [El path_ ["d" =: area h; "className" =: "chart-area"] []]
            ++ when (truthy (line h)) [El polyline ["points" =: line h; "className" =: "chart-line"] []])]
        ++ when (length h <? 2)%nat [El div ["className" =: "chart-empty"] [Txt (t "dashboard.collecting_samples")]]);
     El div ["className" =: "chart-footer"]
       [El span [] [Txt (t "dashboard.session_samples" +:+ " · " +:+ StringZ (Z.of_nat (length h)) +:+ " / 30")];
        El span [] [Txt (t "dashboard.now")]]].

Definition kv_row (k v : string) : node Event := El tr [] [El td [] [Txt k]; El td [] [Txt v]].

Definition general_panel (p : Props) (s : State) : node Event :=
  let c := snap_cache (data p) in
  El section ["className" =: "panel"]
    [El div ["className" =: "panel-heading"]
       (El h2 [] [Txt (t "dashboard.general_statistics")]
        :: when (negb (readOnly p) && has_refresh p)
             [El button ["className" =: "button small"; Disabled (resetting s); OnClick ClickReset]
                [Icon "RotateCcw" 14; Txt (t "dashboard.reset_statistics")]]);
     El table ["className" =: "kv-table"]
       [El tbody []
          [kv_row (t "dashboard.uptime") (uptime (uptime_seconds (snap_status (data p))));
           kv_row (t "cache.live_entries") (number (entries c) +:+ " / " +:+ number (capacity c));
           kv_row (t "cache.hits") (number (hits c));
           kv_row (t "cache.misses") (number (misses c));
           kv_row (t "dashboard.upstream_servers")
             (StringZ (Z.of_nat (length (Api.upstreams (cfg_dns (snap_config (data p)))))));
           kv_row (t "dashboard.query_logging")
             (if queryLoggingEnabled p then t "dashboard.enabled" else t "dashboard.disabled")]]].

(** [Math.max(1, total ?? 0, ...counts)] *)
Definition denominator (values : option (list QueryRanking)) (total : option Z) : Z :=
  fold_right Z.max (Z.max 1 (total ?? 0%Z)) (map qr_count (values ?? [])).

Definition share (count_ denominator_ : Z) : jsnum := num_div (num count_) (num denominator_).

Definition ranking_row (d : Z) (item : QueryRanking) : node Event :=
  let sh := share (qr_count item) d in
  El tr []
    [El td ["className" =: "wrap"]
       (cond (truthy (qr_name item ?? ""))
          [Txt (qr_name item ?? ""); El small [] [El code_ [] [Txt (qr_value item)]]]
          [El code_ [] [Txt (qr_value item)]]);
     El td []
       [El div ["className" =: "share"]
          [El strong [] [Txt (number (qr_count item))];
           El span ["className" =: "share-bar"; "aria-hidden" =: "true"]
             [El span ["style.width" =: (num_str (num_mul sh (num 100)) +:+ "%")] []];
           El span ["className" =: "share-pct"] [Txt (toFixed 1 (num_mul sh (num 100)) +:+ "%")]]]].

Definition RankingPanel (title column : string) (values : option (list QueryRanking)) (total : option Z)
    (enabled : bool) (error : string) : node Event :=
  El section ["className" =: "panel"]
    [El div ["className" =: "panel-heading"]
       [El div [] [El h2 [] [Txt title]; El p_ [] [Txt (t "dashboard.retained_last_24h")]]];
     if negb enabled then El p_ ["className" =: "notice"] [Txt (t "dashboard.unavailable_no_logging")]
     else if truthy error then El p_ ["className" =: "notice error"; "role" =: "alert"] [Txt error]
     else match values with
          | None => Loading [Txt (t "dashboard.loading_stats")]
          | Some [] => EmptyState None (t "dashboard.no_retained") [] [] true
          | Some l =>
              El div ["className" =: "table-wrap"]
                [El table []
                   [El thead []
                      [El tr [] [El th [] [Txt column];
                                 El th ["className" =: "num"] [Txt (t "dashboard.requests")]]];
                    El tbody [] (each l (fun item => [ranking_row (denominator values total) item]))]]
          end].

Definition healthFor (s : State) (address : string) : option UpstreamHealth :=
  find_first (fun h => String.eqb (uh_address h) address) (upstreamHealth s).

Definition upstreams (p : Props) (s : State) : list string :=
  match upstreamHealth s with
  | [] => Api.upstreams (cfg_dns (snap_config (data p)))
  | l => map uh_address l
  end.

Definition health_str (h : upstream_state) : string :=
  match h with
  | up_unknown => "unknown" | up_healthy => "healthy" | up_degraded => "degraded"
  | up_unavailable => "unavailable"
  end.

Definition upstream_row (p : Props) (s : State) (i : nat) (upstream : string) : node Event :=
  let h := healthFor s upstream in
  let st := match h with Some x => uh_state x | None => up_unknown end in
  El tr []
    [El td [] [El code_ [] [Txt upstream]];
     El td [] [Txt (match i with
                    | O => t "dashboard.primary"
                    | _ => t "dashboard.fallback" +:+ " " +:+ StringZ (Z.of_nat i)
                    end)];
     El td [] [Txt (num_str (num_div (num (dns_timeout (cfg_dns (snap_config (data p))))) (num 1000000000)) +:+ "s")];
     El td []
       (El span ["className" =: ("status-text " +:+ tone_str (toneFor (Some (health_str st))))]
          [Txt (t ("dashboard.upstream_" +:+ health_str st))]
        :: match st, h with
           | up_healthy, Some x => [El span ["className" =: "latency"] [Txt (round_str (uh_latency_milliseconds x) +:+ " ms")]]
           | _, _ => []
           end)].

Definition upstream_panel (p : Props) (s : State) : node Event :=
  El section ["className" =: "panel"]
    [El div ["className" =: "panel-heading"]
       [El div [] [El h2 [] [Txt (t "dashboard.upstream_resolvers")];
                   El p_ [] [Txt (t "dashboard.ordered_failover")]]];
     El div ["className" =: "table-wrap"]
       [El table []
          [El thead []
             [El tr [] [El th [] [Txt (t "dashboard.endpoint")]; El th [] [Txt (t "dashboard.priority")];
                        El th [] [Txt (t "dashboard.attempt_timeout")]; El th [] [Txt (t "dashboard.health")]]];
           El tbody [] (imap (upstream_row p s) (upstreams p s))]];
     El p_ ["className" =: "panel-footnote"] [Txt (t "dashboard.config_shown")]].

Definition ranking (p : Props) (s : State) (title column : string)
    (pick : QuerySummary -> list QueryRanking) : node Event :=
  RankingPanel title column (option_map pick (querySummary s)) (option_map qs_total (querySummary s))
    (queryLoggingEnabled p) (summaryError s).

Definition view (p : Props) (s : State) : list (node Event) :=
  [El div ["className" =: "stack"]
     ([Mount "OnboardingChecklist"]
      ++ error_notice (resetError s)
      ++ [stats (data p);
          El div ["className" =: "grid-main-side"] [chart_panel (history p); general_panel p s];
          El div ["className" =: "grid-2"]
            [ranking p s (t "dashboard.top_clients") (t "dashboard.client") qs_top_clients;
             ranking p s (t "dashboard.top_domains") (t "dashboard.domain") qs_top_domains];
          upstream_panel p s])].

Definition page : component Props State Event :=
  mkComponent init view handle
    [mkEffect (fun _ _ => false) (fun _ _ => Some (run_top poll)) (fun _ _ => run_top poll);
     effect_once summary_changed
       (fun p _ => if queryLoggingEnabled p then Some (run_top load_summary) else None)]
    (fun s => s).
End Page.
End Dashboard.

Module DashboardFacts.

(** *** Onboarding *)

Section Checklist.
Import Onboarding.
Context (t : string -> string).

(** Dismissing the checklist hides it at once, and on later visits too when the
    browser can store it. *)
Theorem onboarding_dismiss e p s :
  let s' := seg_state (advance e (handle p s ClickDismiss) s) in
  view t p s' = [] /\
  (storage_works p = true -> forall q, stored q = kept s' -> forall st d,
     view t q ((init q) <| status := st |> <| snapshot := d |>) = []).
Proof.
  cbv zeta. cbn. split.
  - unfold view. cbn. destruct (status s), (snapshot s); try done. by rewrite andb_false_r.
  - intros -> q Hq st d. unfold view, init, readDismissed. cbn. rewrite Hq.
    destruct st, d; try done. by rewrite andb_false_r.
Qed.
End Checklist.

(** *** The chart *)

Import Dashboard.

Lemma niceCeiling_covers v :
  is_rate v -> exists m e, niceCeiling v = Fin m e /\ (0 < m)%Z /\ num_leb v (Fin m e) = true.
Proof.
  intros Hv. destruct v as [| |m e]; [done|done|]. unfold niceCeiling.
  destruct Hv as [->|Hs].
  - assert (num_leb (Fin 0 e) (num 0) = true) as ->.
    { destruct (num_leb (Fin 0 e) (num 0)) eqn:E; [done|]. apply num_leb_not_zero in E. lia. }
    exists 1%Z, 0%Z. split; [done|]. split; [done|]. unfold num_leb. destruct (frac 0 e) as [n d] eqn:E.
    change (frac 1 0) with (1, 1)%Z. pose proof (frac_pos _ _ _ _ E).
    assert (n = 0%Z) as -> by (unfold frac in E; destruct (0 <=? e)%Z; injection E; lia).
    apply Z.leb_le. lia.
  - rewrite (proj2 (num_leb_not_zero m e)) by (destruct Hs; lia).
    destruct (frac m e) as [a b] eqn:F. exact (nice_step m e a b Hs F).
Qed.

Lemma samples_rates h : Forall is_rate h -> Forall is_rate (samples h).
Proof. destruct h as [|x [|y h]]; cbn; [done| |done]. intros H. inversion H; subst. by repeat constructor. Qed.

Lemma samples_below h v :
  Forall (fun x => num_leb x v = true) h -> Forall (fun x => num_leb x v = true) (samples h).
Proof. destruct h as [|x [|y h]]; cbn; [done| |done]. intros H. inversion H; subst. by repeat constructor. Qed.

(** C14: the activity chart stays in its frame: for every history of query rates
    (zero, or doubles from 10^-70 up to 10^131), the axis maximum is positive
    and at least every rate, and every point drawn, computed in floating point,
    lies in the box of 600 by 200 that the chart shows. *)
Theorem dashboard_chart_box h :
  Forall is_rate h ->
  (exists m e, niceCeiling (peak h) = Fin m e /\ (0 < m)%Z) /\
  Forall (fun v => num_leb v (niceCeiling (peak h)) = true) h /\
  Forall (fun xy => between 0 600 (fst xy) /\ between 0 200 (snd xy)) (coords h).
Proof.
  intros Hh. destruct (fold_max_rates h Hh) as [Hp Hle]. fold (peak h) in Hp, Hle.
  destruct (niceCeiling_covers _ Hp) as (m & e & Hmax & Hm & Hcov).
  assert (Forall (fun v => num_leb v (Fin m e) = true) h) as Hall.
  { eapply Forall_impl; [exact Hle|]. intros v Hv. destruct (peak h) as [| |pm pe]; [done|done|].
    exact (num_leb_trans _ _ _ _ Hv Hcov). }
  split; [by exists m, e|]. split; [by rewrite Hmax|]. unfold coords. rewrite Hmax.
  apply Forall_lookup_2. intros i xy Hxy. rewrite list_lookup_imap in Hxy.
  destruct (samples h !! i) as [v|] eqn:Hv; [|done]. injection Hxy as <-.
  pose proof (Forall_lookup_1 _ _ _ _ (samples_rates h Hh) Hv) as Hr.
  pose proof (Forall_lookup_1 _ _ _ _ (samples_below h _ Hall) Hv) as Hb. cbn in Hr, Hb.
  apply lookup_lt_Some in Hv. unfold coord. cbn [fst snd]. split.
  - apply num_mul_between; [lia|]. apply num_div_between; [lia|lia|].
    unfold num_leb. rewrite !(fun n => eq_refl : frac n 0 = (n * 2 ^ 0, 1)%Z). change (2 ^ 0)%Z with 1%Z.
    apply Z.leb_le. lia.
  - apply num_sub_between; [lia|]. apply num_mul_between; [lia|].
    destruct v as [| |vm ve]; [done|done|]. apply num_div_between; [by apply (is_rate_nonneg vm ve)|done|done].
Qed.

Lemma dashboard_chart_box_witness :
  Forall (fun xy => between 0 600 (fst xy) /\ between 0 200 (snd xy)) (coords [num 3; Fin 5 (-1); num 0]).
Proof.
  refine (proj2 (proj2 (dashboard_chart_box [num 3; Fin 5 (-1); num 0] _))).
  constructor; [right|constructor; [right|constructor; [left; reflexivity|constructor]]];
    vm_compute; repeat split; discriminate.
Defined.

(** The share bars of a ranking never leave their track. *)
Theorem dashboard_shares l total item :
  In item l -> (0 <= qr_count item)%Z -> between 0 1 (share (qr_count item) (denominator (Some l) total)).
Proof.
  intros Hin Hc. assert (qr_count item <= denominator (Some l) total /\ 1 <= denominator (Some l) total)%Z as [Hle H1].
  { unfold denominator. cbn [default id]. revert Hin. generalize (total ?? 0%Z). intros z Hin.
    induction l as [|x l IH]; [done|]. cbn.
    assert (1 <= fold_right Z.max (Z.max 1 z) (map qr_count l))%Z by (clear; induction l; cbn; lia).
    destruct Hin as [->|Hin]; [lia|]. specialize (IH Hin). cbn in IH. lia. }
  unfold share. apply num_div_between; [done|lia|]. unfold num_leb, frac. cbn [Z.leb Z.compare].
  change (2 ^ 0)%Z with 1%Z. apply Z.leb_le. lia.
Qed.

(** *** Roles and the reset *)

Section Facts.
Context {L : Locale} (t : string -> string) (language : string).

Ltac dashboard_unfold := unfold handle, resetStatistics, poll, load_summary.

Lemma dashboard_view_locked p s :
  readOnly p = true \/ resetting s = true -> nodes_all (fun _ => False) false (view t language p s).
Proof.
  intros H. unfold view, ranking. view_split; destruct H as [H|H]; rewrite ?H in *; first [done | view_close].
Qed.

Lemma health_reads : reads_only health_request.
Proof. apply reads_only_get. Qed.
Lemma summary_reads : reads_only summary_request.
Proof. apply reads_only_get. Qed.
#[local] Hint Resolve health_reads summary_reads : velora.

Lemma dashboard_body_quiet ef p s q : In ef (c_effects (page t language)) -> ef_body ef p s = Some q -> quiet q.
Proof.
  intros [<-|[<-|[]]]; cbn; [intros [= <-]|destruct (queryLoggingEnabled p); intros [= <-]];
    dashboard_unfold; quiet_walk.
Qed.

Lemma dashboard_lockable : lockable (page t language) readOnly.
Proof.
  constructor; cbn [c_init c_view c_handle c_effects c_unmount page].
  - intros p s ev _. destruct ev; dashboard_unfold; quiet_walk.
  - intros p s ev Hr Hev. destruct (nodes_all_offered _ _ _ (dashboard_view_locked p s (or_introl Hr)) Hev).
  - apply dashboard_body_quiet.
  - intros ef p s [<-|[<-|[]]]; cbn; [dashboard_unfold; quiet_walk|done].
Qed.

#[export] Instance dashboard_lock_safe : LockSafe (page t language) readOnly.
Proof. apply lockable_lock_safe, dashboard_lockable. Qed.

#[export] Instance dashboard_viewer_safe : ViewerSafe (page t language) (fun p => readOnly p = true).
Proof. apply lock_safe_viewer_safe, _. Qed.

Lemma dashboard_exclusive_page : exclusive (page t language) resetting true (fun _ _ => True).
Proof.
  constructor; cbn [c_init c_view c_handle c_effects c_unmount page].
  - done.
  - intros p s ev _ Hev. destruct (resetting s) eqn:Hb.
    + destruct (nodes_all_offered _ _ _ (dashboard_view_locked p s (or_intror Hb)) Hev).
    + destruct ev; dashboard_unfold; excl_walk.
  - intros ef p s q [<-|[<-|[]]]; cbn; [intros [= <-]|destruct (queryLoggingEnabled p); intros [= <-]];
      dashboard_unfold; excl_walk.
  - intros ef p s [<-|[<-|[]]]; cbn; [dashboard_unfold; excl_walk|done].
  - done.
Qed.

#[export] Instance dashboard_one_at_a_time : OneAtATime (page t language).
Proof. apply (exclusive_one_at_a_time _ resetting true), dashboard_exclusive_page. Qed.

#[export] Instance dashboard_unblocks : Unblocks (page t language) resetting.
Proof. apply exclusive_unblocks, dashboard_exclusive_page. Qed.

(** Resetting the statistics asks first; a refusal does nothing. Otherwise one
    request goes out, and only its success refreshes the shell's data. *)
Theorem dashboard_reset e p c :
  let r := advance e (handle t p c ClickReset) c in
  if confirm e (t "dashboard.reset_confirm") then
    exists k s1, r = Seg (Wait (reset_request e) k) s1 (map Sent (sent (reset_request e))) [] /\
      resetting s1 = true /\
      forall e' s reply, let r' := advance e' (k reply) s in
        seg_todo r' = Done /\ resetting (seg_state r') = false /\
        match reply with
        | inl _ => seg_out r' = (if has_refresh p then [CallProp "refresh"] else []) /\
                   resetError (seg_state r') = resetError s
        | inr x => seg_out r' = [] /\ resetError (seg_state r') = error_message x (t "dashboard.reset_failed")
        end
  else r = Seg Done c [] [].
Proof.
  cbv zeta. dashboard_unfold. prog_cbv. cbn [advance]. destruct (confirm e _); [|reflexivity].
  do 2 eexists. split; [reflexivity|]. split; [reflexivity|].
  intros e' s [[]|x]; [by destruct (has_refresh p)|done].
Qed.
End Facts.
End DashboardFacts.
