(* ===== verification/Analytics.v ===== *)
(** * The analytics page: web/src/pages/Analytics.tsx

    Ranges, the two charts with their bucket selection, and the breakdowns.
    Rendering a chart reads buckets by index, which throws where there is none;
    a chart is an [option], and a page that throws shows nothing. *)
From S2P Require Import Prelude JsString JsNumber JsArith Url Http Api Resources React Runtime Components.
From S2P Require Import Dashboard.
Local Open Scope velora_scope.
Local Open Scope prog_scope.
Local Open Scope string_scope.

Module AnalyticsPage.

Definition RANGES : list AnalyticsRange := [r_1h; r_24h; r_7d; r_30d].

Definition same_range (a b : AnalyticsRange) : bool :=
  match a, b with r_1h, r_1h | r_24h, r_24h | r_7d, r_7d | r_30d, r_30d => true | _, _ => false end.

Definition percent (part whole : Z) : jsnum :=
  if (0 <? whole)%Z then num_mul (num_div (num part) (num whole)) (num 100) else num 0.

(** Rounds a maximum up to 1, 2 or 5 times a power of ten. *)
Definition niceMax (value : jsnum) : jsnum :=
  if num_leb value (num 0) then num 1
  else match value with
       | Fin m e =>
           let '(a, b) := frac m e in
           let magnitude := pow10 (log10_floor a b) in
           let step := find_first (fun f => num_leb value (num_mul (num f) magnitude)) [1; 2; 5; 10]%Z ?? 10%Z in
           num_mul (num step) magnitude
       | _ => value
       end.

(** [Math.max(...l)], minus infinity for no numbers. *)
Definition max_of (l : list jsnum) : jsnum := fold_right num_max (Infinity true) l.

Record Props : Set := mkProps { queryLogging : bool }.

(** What [setActive] stores: the index of a bucket, or the NaN of a division of
    zero by zero. *)
Inductive Index : Set := At (i : Z) | NoNumber.

(** [query_active] and [latency_active]: the selection each chart keeps while it
    is mounted. *)
Record State : Set := mkState {
  range : AnalyticsRange; data : option Analytics; summary_ : option QuerySummary; error : string;
  loading : bool; query_active : option Index; latency_active : option Index }.
#[export] Instance eta_State : Eta State := fun s =>
  mkState (range s) (data s) (summary_ s) (error s) (loading s) (query_active s) (latency_active s).

Definition init (_ : Props) : State := mkState r_24h None None "" false None None.

Inductive Chart : Set := QueryChart_ | LatencyChart_.

Inductive Event : Set :=
| SetRange (r : AnalyticsRange)
| ClickReload
| MovePointer (c : Chart) (offset width : jsnum)
| LeaveChart (c : Chart)
| PressKey (c : Chart) (key : string).

(** *** Shared selection of the bucketed charts *)

Definition clamp (length_ i : Z) : Z := Z.max 0 (Z.min (length_ - 1) i).

(** [onMove]: the bucket under the pointer; nothing for an element without
    width. *)
Definition moved (length_ : Z) (offset width : jsnum) (active : option Index) : option Index :=
  if num_is width 0 then active
  else Some (match num_mul (num_div offset width) (num length_) with
             | NaN => NoNumber
             | Infinity neg => At (if neg then 0 else Z.max 0 (length_ - 1))
             | x => At (clamp length_ (floor_num x ?? 0))
             end)%Z.

(** [onKey] *)
Definition keyed (length_ : Z) (key : string) (active : option Index) : option Index :=
  if negb (String.eqb key "ArrowLeft") && negb (String.eqb key "ArrowRight") then active
  else
    match active ?? At (length_ - 1)%Z with
    | At from => Some (At (clamp length_ (from + (if String.eqb key "ArrowLeft" then -1 else 1)))%Z)
    | NoNumber => Some NoNumber
    end.

(** [series[i]] *)
Definition bucket_at (series : list AnalyticsBucket) (i : Z) : option AnalyticsBucket :=
  if (i <? 0)%Z then None else series !! Z.to_nat i.

Definition shown (series : list AnalyticsBucket) (active : option Index) : option AnalyticsBucket :=
  match active ?? At (Z.of_nat (length series) - 1)%Z with
  | At i => bucket_at series i
  | NoNumber => None
  end.

(** The buckets under the axis. *)
Definition ticks (series : list AnalyticsBucket) : list (option AnalyticsBucket) :=
  let n := Z.of_nat (length series) in
  map (bucket_at series) [0; n / 2; n - 1]%Z.

(** *** The latency line: buckets without upstream traffic leave gaps *)

Definition latency_point (max : jsnum) (i : nat) (b : AnalyticsBucket) : string :=
  StringZ (Z.of_nat i * 10 + 5) +:+ ","
    +:+ toFixed 1 (num_sub (num 200) (num_mul (num_div (ab_average_ms b) max) (num 200))).

(** One step of the loop over the buckets: finished segments and the current
    one. *)
Definition segment_step (max : jsnum) (acc : list (list string) * list string) (ib : nat * AnalyticsBucket)
    : list (list string) * list string :=
  let '(out, current) := acc in
  let '(i, b) := ib in
  if num_gtb (ab_average_ms b) 0 then (out, (current ++ [latency_point max i b])%list)
  else match current with
       | [] => (out, [])
       | _ => ((out ++ [current])%list, [])
       end.

Definition segments (series : list AnalyticsBucket) (max : jsnum) : list (list string) :=
  let '(out, current) := fold_left (segment_step max) (imap pair series) ([], []) in
  match current with [] => out | _ => (out ++ [current])%list end.

Section Page.
Context {L : Locale} (t : string -> string) (language : string).

Definition bucketLabel (start_ : string) (seconds : Z) (r : AnalyticsRange) : string :=
  if (86400 <=? seconds)%Z then short_day language start_
  else if same_range r r_7d then weekday_time language start_
  else hour_minute language start_.

(** *** Behaviour *)

(** Whether the charts of this data are mounted. *)
Definition charted (d : Analytics) : bool := negb (Z.eqb (ab_total (an_totals d)) 0).

(** [setData]. Data without queries unmounts the charts, and with them their
    selections. *)
Definition setData (d : Analytics) : M State unit :=
  update (fun s => s <| data := Some d |>
                     <| query_active := if charted d then query_active s else None |>
                     <| latency_active := if charted d then latency_active s else None |>).

Definition requests (r : AnalyticsRange) (signal : bool) : api (Analytics * QuerySummary) :=
  all2 (loadAnalytics r signal)
    (get QuerySummary ("/api/v1/query-stats?window=" +:+ range_str r +:+ "&limit=10") signal).

Definition load (r : AnalyticsRange) (signal : bool) : M State unit :=
  update (fun s => s <| loading := true |>) ;;
  try_finally
    (try_catch
       (x <- await (requests r signal) ;;
        e <- ask ;;
        when_do (negb (signal && aborted e))
          (setData (fst x) ;;
           update (fun s => s <| summary_ := Some (snd x) |>) ;;
           update (fun s => s <| error := "" |>)))
       (fun x => e <- ask ;;
          when_do (negb (signal && aborted e))
            (update (fun s => s <| error := error_message x (t "analytics.load_failed") |>))))
    (e <- ask ;; when_do (negb (signal && aborted e)) (update (fun s => s <| loading := false |>))).

Definition load_changed (r r' : Props * State) : bool :=
  negb (same_range (range (snd r)) (range (snd r'))
        && Bool.eqb (queryLogging (fst r)) (queryLogging (fst r'))).

(** Without query logging the charts are not rendered and lose their
    selections. *)
Definition unmount_charts : M State unit :=
  update (fun s => s <| query_active := None |> <| latency_active := None |>).
Definition logging_changed (r r' : Props * State) : bool :=
  negb (Bool.eqb (queryLogging (fst r)) (queryLogging (fst r'))).

Definition set_active (c : Chart) (f : option Index -> option Index) : M State unit :=
  update (fun s => match c with
                   | QueryChart_ => s <| query_active ::= f |>
                   | LatencyChart_ => s <| latency_active ::= f |>
                   end).

Definition series_length (c : State) : Z :=
  match data c with Some d => Z.of_nat (length (an_series d)) | None => 0 end.

Definition handle (p : Props) (c : State) (ev : Event) : prog State :=
  run_top
    match ev with
    | SetRange r => update (fun s => s <| range := r |>)
    | ClickReload => load (range c) false
    | MovePointer ch offset width => set_active ch (moved (series_length c) offset width)
    | LeaveChart ch => set_active ch (fun _ => None)
    | PressKey ch key => set_active ch (keyed (series_length c) key)
    end.

(** *** The view *)

Definition number (v : Z) : string := num_locale language v.

Definition label_ (d : Analytics) (r : AnalyticsRange) (b : AnalyticsBucket) : string :=
  bucketLabel (ab_start b) (an_bucket_seconds d) r.

(** [l.map(f)] where [f] throws on a missing element. *)
Fixpoint all_some {A} (l : list (option A)) : option (list A) :=
  match l with
  | [] => Some []
  | Some x :: l' => match all_some l' with Some r => Some (x :: r) | None => None end
  | None :: _ => None
  end.

Definition tick_row (d : Analytics) (r : AnalyticsRange) (l : list AnalyticsBucket) : node Event :=
  El div ["className" =: "chart-ticks"; "aria-hidden" =: "true"]
    (each l (fun b => [El span [] [Txt (label_ d r b)]])).

Definition chart_attrs (c : Chart) (class_ aria : string) (width : Z) : list (attr Event) :=
  ["className" =: class_; "viewBox" =: ("0 0 " +:+ StringZ width +:+ " 200"); "preserveAspectRatio" =: "none";
   "role" =: "img"; "tabIndex" =: "0"; "aria-label" =: aria; OnMove (MovePointer c); OnMouse (LeaveChart c);
   OnKey (PressKey c)].

Definition grid (width : Z) : node Event :=
  El path_ ["d" =: ("M0 0.5H" +:+ StringZ width +:+ " M0 100H" +:+ StringZ width +:+ " M0 199.5H" +:+ StringZ width);
            "className" =: "chart-grid"] [].

(** The heights of the two bars of a bucket. *)
Definition allowed_height (max : jsnum) (b : AnalyticsBucket) : jsnum :=
  num_mul (num_div (num (ab_total b - ab_blocked b)) max) (num 200).
Definition blocked_height (max : jsnum) (b : AnalyticsBucket) : jsnum :=
  num_mul (num_div (num (ab_blocked b)) max) (num 200).

Definition bar (max : jsnum) (active : option Index) (i : nat) (b : AnalyticsBucket) : node Event :=
  let allowed := allowed_height max b in
  let blocked := blocked_height max b in
  let x := Z.of_nat i in
  El g_ (match active with Some (At a) => if Z.eqb a x then ["className" =: "active"] else [] | _ => [] end)
    [El rect ["className" =: "bar-hit"; "x" =: StringZ (x * 10); "y" =: "0"; "width" =: "10"; "height" =: "200"] [];
     El rect ["className" =: "bar-allowed"; "x" =: StringZ (x * 10 + 1);
              "y" =: num_str (num_sub (num_sub (num 200) allowed) blocked); "width" =: "8";
              "height" =: num_str allowed] [];
     El rect ["className" =: "bar-blocked"; "x" =: StringZ (x * 10 + 1); "y" =: num_str (num_sub (num 200) blocked);
              "width" =: "8"; "height" =: num_str blocked] []].

Definition detail (text value : string) : node Event := El span [] [Txt (text +:+ ": " +:+ value)].

Definition num_cell (text : string) : node Event := El td ["className" =: "num mono"] [Txt text].

Definition average_text (x : jsnum) (suffix : string) : string :=
  if jsnum_truthy x then toFixed 1 x +:+ suffix else "—".

Definition table_row (d : Analytics) (r : AnalyticsRange) (b : AnalyticsBucket) : node Event :=
  El tr []
    [El td [] [Txt (label_ d r b)]; num_cell (number (ab_total b)); num_cell (number (ab_blocked b));
     num_cell (number (ab_cached b)); num_cell (number (ab_failed b)); num_cell (average_text (ab_average_ms b) "")].

Definition num_head (text : string) : node Event := El th ["className" =: "num"] [Txt text].

Definition chart_table (d : Analytics) (r : AnalyticsRange) : node Event :=
  El details ["className" =: "chart-table"]
    [El summary [] [Txt (t "analytics.show_table")];
     El div ["className" =: "table-wrap"]
       [El table []
          [El thead []
             [El tr [] [El th [] [Txt (t "analytics.time")]; num_head (t "analytics.queries");
                        num_head (t "analytics.blocked"); num_head (t "analytics.cached"); num_head "SERVFAIL";
                        num_head (t "analytics.avg_time")]];
           El tbody [] (each (filterb (fun b => (0 <? ab_total b)%Z) (an_series d)) (fun b => [table_row d r b]))]]].

Definition QueryChart (d : Analytics) (r : AnalyticsRange) (active : option Index) : option (node Event) :=
  let series := an_series d in
  let max := niceMax (max_of (map (fun b => num (ab_total b)) series)) in
  let width := (Z.of_nat (length series) * 10)%Z in
  match all_some (ticks series), shown series active with
  | Some tick_buckets, Some b =>
      Some (El section ["className" =: "panel"]
        [El div ["className" =: "panel-heading"]
           [El div [] [El h2 [] [Txt (t "analytics.over_time")]; El p_ [] [Txt (t "analytics.over_time_hint")]];
            El div ["className" =: "chart-legend"; "aria-hidden" =: "true"]
              [El span [] [El i_ ["className" =: "swatch allowed"] []; Txt (" " +:+ t "analytics.allowed")];
               El span [] [El i_ ["className" =: "swatch blocked"] []; Txt (" " +:+ t "analytics.blocked")]]];
         El div ["className" =: "chart-wrap"]
           [El div ["className" =: "chart-axis"; "aria-hidden" =: "true"]
              [El span [] [Txt (jsnum_locale language max)];
               El span [] [Txt (jsnum_locale language (num_div max (num 2)))]; El span [] [Txt "0"]];
            El svg (chart_attrs QueryChart_ "chart bars" (t "analytics.chart_aria") width)
              (grid width :: imap (bar max active) series)];
         tick_row d r tick_buckets;
         El p_ ["className" =: "chart-detail"; "aria-live" =: "polite"]
           [El strong [] [Txt (label_ d r b)];
            detail (t "analytics.queries") (number (ab_total b));
            detail (t "analytics.blocked") (number (ab_blocked b));
            detail (t "analytics.cached") (number (ab_cached b));
            detail "SERVFAIL" (number (ab_failed b))];
         chart_table d r])
  | _, _ => None
  end.

(** A segment of one point is a dot; its coordinates are cut out of the text. *)
Definition cut_comma (s : string) : string * string :=
  match split_runs (fun c => Ascii.eqb c ","%char) s with
  | x :: y :: _ => (x, y)
  | [x] => (x, "")
  | [] => ("", "")
  end.

Definition segment_node (points : list string) : node Event :=
  match points with
  | [q] => El circle ["className" =: "chart-dot"; "cx" =: fst (cut_comma q); "cy" =: snd (cut_comma q); "r" =: "3"] []
  | _ => El polyline ["points" =: joinStrings " " points; "className" =: "chart-line"] []
  end.

Definition LatencyChart (d : Analytics) (r : AnalyticsRange) (active : option Index) : option (node Event) :=
  let series := an_series d in
  let max := niceMax (max_of (map ab_average_ms series)) in
  let width := (Z.of_nat (length series) * 10)%Z in
  match all_some (ticks series), shown series active with
  | Some tick_buckets, Some b =>
      Some (El section ["className" =: "panel"]
        [El div ["className" =: "panel-heading"]
           [El div [] [El h2 [] [Txt (t "analytics.latency")]; El p_ [] [Txt (t "analytics.latency_hint")]]];
         El div ["className" =: "chart-wrap"]
           [El div ["className" =: "chart-axis"; "aria-hidden" =: "true"]
              [El span [] [Txt (jsnum_locale language max +:+ " ms")];
               El span [] [Txt (jsnum_locale language (num_div max (num 2)))]; El span [] [Txt "0"]];
            El svg (chart_attrs LatencyChart_ "chart" (t "analytics.latency_aria") width)
              ([grid width] ++ each (segments series max) (fun points => [segment_node points])
               ++ when_some active (fun a =>
                    let x := match a with At i => StringZ (i * 10 + 5) | NoNumber => "NaN" end in
                    [El line_ ["className" =: "chart-cursor"; "x1" =: x; "x2" =: x; "y1" =: "0"; "y2" =: "200"] []]))];
         tick_row d r tick_buckets;
         El p_ ["className" =: "chart-detail"; "aria-live" =: "polite"]
           [El strong [] [Txt (label_ d r b)];
            detail (t "analytics.avg_time") (average_text (ab_average_ms b) " ms")]])
  | _, _ => None
  end.

Definition breakdown_row (denominator_ : Z) (plain_ : bool) (item : QueryRanking) : node Event :=
  let sh := num_div (num (qr_count item)) (num denominator_) in
  El tr []
    [El td ["className" =: "wrap"]
       (cond (truthy (qr_name item ?? ""))
          [Txt ((qr_name item ?? "") +:+ " "); El small [] [El code_ [] [Txt (qr_value item)]]]
          (cond plain_ [Txt (qr_value item)] [El code_ [] [Txt (qr_value item)]]));
     El td []
       [El div ["className" =: "share"]
          [El strong [] [Txt (number (qr_count item))];
           El span ["className" =: "share-bar"; "aria-hidden" =: "true"]
             [El span ["style.width" =: (num_str (num_mul (if num_leb (num 1) sh then num 1 else sh) (num 100)) +:+ "%")] []];
           El span ["className" =: "share-pct"] [Txt (toFixed 1 (num_mul sh (num 100)) +:+ "%")]]]].

Definition Breakdown (title : string) (values : list QueryRanking) (total : Z) (empty : option string)
    (plain_ : bool) : node Event :=
  El section ["className" =: "panel"]
    [El div ["className" =: "panel-heading"] [El div [] [El h2 [] [Txt title]]];
     match values with
     | [] => EmptyState None (empty ?? t "dashboard.no_retained") [] [] true
     | _ => El div ["className" =: "table-wrap"]
              [El table [] [El tbody [] (each values (fun i => [breakdown_row (Z.max 1 total) plain_ i]))]]
     end].

(** [{ ...item, value: t(`analytics.source_${item.value}`) }] *)
Definition source_item (i : QueryRanking) : QueryRanking :=
  mkQueryRanking (t ("analytics.source_" +:+ qr_value i)) (qr_count i) (qr_name i).

Definition upstream_row (u : UpstreamUsage) : node Event :=
  El tr []
    [El td [] [El code_ [] [Txt (uu_address u)]]; num_cell (number (uu_queries u));
     El td ["className" =: ("num mono" +:+ (if num_truthy (uu_failed u) then " text-danger" else ""))]
       [Txt (number (uu_failed u) +:+ " ");
        El small [] [Txt ("(" +:+ toFixed 1 (percent (uu_failed u) (uu_queries u)) +:+ "%)")]];
     num_cell (average_text (uu_average_ms u) " ms")].

Definition upstream_panel (d : Analytics) : node Event :=
  El section ["className" =: "panel"]
    [El div ["className" =: "panel-heading"]
       [El div [] [El h2 [] [Txt (t "analytics.upstreams")]; El p_ [] [Txt (t "analytics.upstreams_hint")]]];
     match an_upstreams d with
     | [] => EmptyState None (t "analytics.no_upstream") [] [] true
     | l => El div ["className" =: "table-wrap"]
              [El table []
                 [El thead []
                    [El tr [] [El th [] [Txt (t "dashboard.endpoint")]; num_head (t "analytics.queries");
                               num_head (t "analytics.failures"); num_head (t "analytics.avg_time")]];
                  El tbody [] (each l (fun u => [upstream_row u]))]]
     end].

Definition breakdowns (s : State) (d : Analytics) : node Event :=
  let total := ab_total (an_totals d) in
  El div ["className" =: "grid-2"]
    ([Breakdown (t "analytics.query_types") (an_query_types d) total None false;
      Breakdown (t "analytics.sources") (map source_item (an_sources d)) total None true;
      Breakdown (t "analytics.response_codes") (an_response_codes d) total None false;
      Breakdown (t "analytics.top_blocked") (an_top_blocked d) (ab_blocked (an_totals d))
        (Some (t "analytics.nothing_blocked")) false]
     ++ when_some (summary_ s) (fun q =>
          [Breakdown (t "dashboard.top_domains") (qs_top_domains q) (qs_total q) None false;
           Breakdown (t "dashboard.top_clients") (qs_top_clients q) (qs_total q) None false])).

Definition stats (r : AnalyticsRange) (b : AnalyticsBucket) : node Event :=
  let share_of part := percent part (ab_total b) in
  El div ["className" =: "stats"]
    [Stat (t "analytics.queries") (number (ab_total b)) (Some (t ("analytics.range_" +:+ range_str r))) None None info;
     Stat (t "analytics.blocked") (number (ab_blocked b)) None
       (Some (toFixed 1 (share_of (ab_blocked b)) +:+ "%"))
       (Some (num_div (share_of (ab_blocked b)) (num 100))) danger;
     Stat (t "analytics.cached") (toFixed 1 (share_of (ab_cached b)) +:+ "%")
       (Some (number (ab_cached b) +:+ " " +:+ t "analytics.answers")) None None success;
     Stat (t "analytics.avg_upstream") (average_text (ab_average_ms b) " ms")
       (Some (number (ab_failed b) +:+ " SERVFAIL")) None None
       (if (0 <? ab_failed b)%Z then warning else neutral)].

(** The charts and breakdowns of data with queries, unless a chart throws. *)
Definition charts (s : State) (d : Analytics) : option (list (node Event)) :=
  match QueryChart d (range s) (query_active s), LatencyChart d (range s) (latency_active s) with
  | Some q, Some l => Some [q; l; breakdowns s d; upstream_panel d]
  | _, _ => None
  end.

Definition data_panels (s : State) (d : Analytics) : option (list (node Event)) :=
  match (if charted d then charts s d
         else Some [El section ["className" =: "panel"]
                      [EmptyState (Some (Icon "BarChart3" 22)) (t "analytics.empty_title")
                         [Txt (t "analytics.empty_text")] [] false]]) with
  | Some l => Some (stats (range s) (an_totals d) :: l)
  | None => None
  end.

Definition limitedHistory (d : Analytics) : bool :=
  match an_history_start d with
  | Some h => truthy h && match date_time h, date_time (an_window_start d) with
                          | Some a, Some b => (b <? a)%Z
                          | _, _ => false
                          end
  | None => false
  end.

Definition toolbar (s : State) : node Event :=
  El div ["className" =: "zones-toolbar analytics-toolbar"]
    [El div ["className" =: "segmented"; "role" =: "group"; "aria-label" =: t "analytics.range"]
       (each RANGES (fun r =>
          [El button ["type" =: "button"; "aria-pressed" =: bool_str (same_range (range s) r); OnClick (SetRange r)]
             [Txt (t ("analytics.range_" +:+ range_str r))]]));
     El button ["className" =: "button"; Disabled (loading s); OnClick ClickReload]
       [Icon "RefreshCw" 15; Txt (t "blocklists.reload")]].

Definition history_notice (d : Analytics) : list (node Event) :=
  when (limitedHistory d)
    [El div ["className" =: "notice info"; "role" =: "status"]
       [Txt (t "analytics.history_limited" +:+ " " +:+ date_locale language (an_history_start d ?? "") +:+ ".")]].

(** The page, or [None] when rendering throws. *)
Definition render (p : Props) (s : State) : option (list (node Event)) :=
  if negb (queryLogging p) then
    Some [El section ["className" =: "panel"]
            [EmptyState (Some (Icon "BarChart3" 22)) (t "analytics.logging_off_title")
               [Txt (t "analytics.logging_off_text" +:+ " "); El a_ ["to" =: "/settings"] [Txt (t "app.nav.settings")]]
               [] false]]
  else
    let head := ([toolbar s] ++ error_notice (error s))%list in
    let wrap l := [El div ["className" =: "stack"] l] in
    match data s with
    | None =>
        Some (wrap (head ++ when (negb (truthy (error s)))
                              [El section ["className" =: "panel"] [Loading [Txt (t "app.connecting_panel")]]])%list)
    | Some d => option_map (fun l => wrap (head ++ history_notice d ++ l)%list) (data_panels s d)
    end.

(** A render that throws takes the whole tree down. *)
Definition view (p : Props) (s : State) : list (node Event) := render p s ?? [].

Definition page : component Props State Event :=
  mkComponent init view handle
    [effect_once load_changed
       (fun p s => if queryLogging p then Some (run_top (sleep 0 ;; load (range s) true)) else None);
     effect_once logging_changed
       (fun p s => if queryLogging p then None else Some (run_top unmount_charts))]
    (fun s => s).
End Page.
End AnalyticsPage.

Module AnalyticsFacts.
Import AnalyticsPage.

(** *** Selection *)

Lemma clamp_range n i : (0 < n -> 0 <= clamp n i < n)%Z.
Proof. unfold clamp. lia. Qed.

Definition selected_in (n : Z) (active : option Index) : Prop :=
  match active with Some (At i) => (0 <= i < n)%Z | Some NoNumber => False | None => True end.

Lemma ratio_number a b : ratio a b <> NaN.
Proof.
  assert (forall c d, round_ratio c d <> NaN) as Hr by (intros c d; unfold round_ratio; by destruct (_ && _)).
  unfold ratio. destruct (a =? 0)%Z; [done|]. destruct (a <? 0)%Z; [|apply Hr].
  specialize (Hr (- a)%Z b). by destruct (round_ratio _ _).
Qed.

(** Coordinates on a screen. *)
Definition finite (x : jsnum) : Prop := match x with Fin _ _ => True | _ => False end.

(** Dividing by a width that is not zero gives a number, and so does scaling it. *)
Lemma pointer_number x w n :
  finite x -> finite w -> num_is w 0 = false -> (0 < n)%Z -> num_mul (num_div x w) (num n) <> NaN.
Proof.
  destruct x as [| |m e], w as [| |m' e']; try done. intros _ _ Hw Hn. cbn [num_div].
  destruct (frac m e) as [a b]. destruct (frac m' e') as [c d] eqn:Ef.
  destruct (c =? 0)%Z eqn:Ec.
  - exfalso. apply Z.eqb_eq in Ec. unfold frac in Ef. unfold num_is, to_integer in Hw.
    destruct (0 <=? e')%Z eqn:Ee; injection Ef as <- <-; [by rewrite Ec in Hw|]. subst m'. cbn [Z.eqb Z.div] in Hw.
    by rewrite Z.mod_0_l in Hw by (apply Z.pow_nonzero; lia).
  - pose proof (ratio_number (Z.sgn c * a * d) (b * Z.abs c)) as Hq. destruct (ratio _ _) as [|neg|m1 e1]; [done| |].
    + unfold num_mul, num. by replace (n =? 0)%Z with false by lia.
    + cbn [num_mul]. destruct (frac m1 e1), (frac n 0). apply ratio_number.
Qed.

Lemma moved_in n x w active :
  (0 < n)%Z -> finite x -> finite w -> selected_in n active -> selected_in n (moved n x w active).
Proof.
  intros Hn Hx Hw Ha. unfold moved. destruct (num_is w 0) eqn:E; [done|].
  pose proof (pointer_number x w n Hx Hw E Hn). destruct (num_mul _ _) as [|[]|]; [done|cbn; lia|cbn; lia|].
  by apply clamp_range.
Qed.

Lemma keyed_in n key active : (0 < n)%Z -> selected_in n active -> selected_in n (keyed n key active).
Proof.
  intros Hn Ha. unfold keyed. destruct (_ && _); [done|]. by destruct active as [[i|]|]; [apply clamp_range|done|apply clamp_range].
Qed.

Lemma bucket_at_some series i :
  (0 <= i < Z.of_nat (length series))%Z -> exists b, bucket_at series i = Some b.
Proof.
  intros Hi. unfold bucket_at. destruct (Z.ltb_spec i 0); [lia|]. apply lookup_lt_is_Some. lia.
Qed.

Lemma ticks_some series : series <> [] -> exists l, all_some (ticks series) = Some l.
Proof.
  intros Hne. assert (0 < Z.of_nat (length series))%Z as Hn by (destruct series; [done|cbn; lia]).
  unfold ticks. cbn [map].
  destruct (bucket_at_some series 0) as [a Ha]; [lia|].
  destruct (bucket_at_some series (Z.of_nat (length series) / 2)) as [b Hb].
  { split; [apply Z.div_pos; lia|apply Z.div_lt_upper_bound; lia]. }
  destruct (bucket_at_some series (Z.of_nat (length series) - 1)) as [c Hc]; [lia|].
  rewrite Ha, Hb, Hc. by exists [a; b; c].
Qed.

Lemma shown_some series active :
  series <> [] -> selected_in (Z.of_nat (length series)) active -> exists b, shown series active = Some b.
Proof.
  intros Hne Ha. assert (0 < Z.of_nat (length series))%Z as Hn by (destruct series; [done|cbn; lia]).
  unfold shown. destruct active as [[i|]|]; [|done|]; apply bucket_at_some; cbn in *; lia.
Qed.

(** *** The latency line *)

(** The points of the buckets with upstream traffic, in order. *)
Definition traffic_points (max : jsnum) (l : list (nat * AnalyticsBucket)) : list string :=
  flat_map (fun '(i, b) => if num_gtb (ab_average_ms b) 0 then [latency_point max i b] else []) l.

Lemma segments_fold max l out current :
  Forall (fun s => s <> []) out ->
  let '(out', current') := fold_left (segment_step max) l (out, current) in
  Forall (fun s => s <> []) out' /\
  (concat out' ++ current' = concat out ++ current ++ traffic_points max l)%list.
Proof.
  revert out current. induction l as [|[i b] l IH]; intros out current Ho; cbn [fold_left traffic_points flat_map].
  - by rewrite app_nil_r.
  - unfold segment_step at 2. destruct (num_gtb (ab_average_ms b) 0).
    + specialize (IH out (current ++ [latency_point max i b])%list Ho). destruct (fold_left _ _ _) as [o c].
      destruct IH as [H1 ->]. split; [done|]. by rewrite <- !app_assoc.
    + destruct current as [|q current].
      * specialize (IH out [] Ho). by destruct (fold_left _ _ _).
      * specialize (IH (out ++ [q :: current])%list []). destruct (fold_left _ _ _) as [o c].
        destruct IH as [H1 ->]; [apply Forall_app; by repeat constructor|]. split; [done|].
        rewrite concat_app. cbn. by rewrite app_nil_r, <- app_assoc.
Qed.

(** The latency line is cut only at gaps: its segments are not empty, and put
    together they are the points of the buckets with traffic, in order. *)
Theorem latency_segments series max :
  Forall (fun s => s <> []) (segments series max) /\
  concat (segments series max) = traffic_points max (imap pair series).
Proof.
  unfold segments. pose proof (segments_fold max (imap pair series) [] [] (List.Forall_nil _)) as H.
  destruct (fold_left _ _ _) as [out current]. destruct H as [Ho Hc]. cbn in Hc.
  destruct current as [|q current]; [by rewrite app_nil_r in Hc|]. split.
  - apply Forall_app. by repeat constructor.
  - rewrite concat_app. cbn. by rewrite app_nil_r.
Qed.

(** *** Bars *)

Lemma niceMax_niceCeiling : niceMax = Dashboard.niceCeiling.
Proof. reflexivity. Qed.

Definition sound_bucket (b : AnalyticsBucket) : Prop := (0 <= ab_blocked b <= ab_total b /\ ab_total b < 2 ^ 53)%Z.

Lemma num_leb_int a b : num_leb (num a) (num b) = (a <=? b)%Z.
Proof.
  unfold num_leb, num, frac. cbn [Z.leb Z.compare]. change (2 ^ 0)%Z with 1%Z. by rewrite !Z.mul_1_r.
Qed.

(** Both bars of every bucket fit the chart, whatever the counts. *)
Theorem analytics_bars series b :
  Forall sound_bucket series -> In b series ->
  let max := niceMax (max_of (map (fun b => num (ab_total b)) series)) in
  between 0 200 (allowed_height max b) /\ between 0 200 (blocked_height max b).
Proof.
  intros Hs Hb max.
  assert (Forall is_rate (map (fun b => num (ab_total b)) series)) as Hr.
  { apply Forall_map. eapply Forall_impl; [exact Hs|]. intros x [H1 H2]. apply count_rate. lia. }
  destruct (fold_max_nonempty (map (fun b => num (ab_total b)) series)) as [Hm Hle]; [by destruct series|done|].
  subst max. rewrite niceMax_niceCeiling. unfold max_of.
  destruct (DashboardFacts.niceCeiling_covers _ Hm) as (m & e & -> & Hpos & Hcov).
  rewrite List.Forall_forall in Hle, Hs. specialize (Hs b Hb) as [[H0 H1] H2].
  specialize (Hle (num (ab_total b)) (in_map _ _ _ Hb)).
  assert (forall k, (0 <= k <= ab_total b)%Z -> between 0 200 (num_mul (num_div (num k) (Fin m e)) (num 200))) as Hk.
  { intros k Hk. apply num_mul_between; [lia|]. apply num_div_between; [lia|lia|].
    destruct (fold_right num_max (Infinity true) _) as [| |pm pe]; [done|done|].
    refine (num_leb_trans _ _ _ _ _ Hcov). refine (num_leb_trans _ _ _ _ _ Hle).
    change (num_leb (num k) (num (ab_total b)) = true). rewrite num_leb_int. apply Z.leb_le; lia. }
  split; apply Hk; lia.
Qed.

(** *** What makes the page throw *)

Section Render.
Context {L : Locale} (t : string -> string) (language : string).

Lemma bucket_at_none series i :
  bucket_at series i = None <-> ~ (0 <= i < Z.of_nat (length series))%Z.
Proof.
  split.
  - intros Hb Hi. destruct (bucket_at_some series i Hi). congruence.
  - intros Hi. unfold bucket_at. destruct (Z.ltb_spec i 0); [done|]. apply lookup_ge_None. lia.
Qed.

(** The charts can be drawn: there are buckets, and both selections are among
    them. *)
Definition drawable (s : State) (d : Analytics) : Prop :=
  an_series d <> [] /\ selected_in (Z.of_nat (length (an_series d))) (query_active s)
  /\ selected_in (Z.of_nat (length (an_series d))) (latency_active s).

Lemma shown_none series active :
  series <> [] -> shown series active = None -> ~ selected_in (Z.of_nat (length series)) active.
Proof. intros Hne Hs Ha. destruct (shown_some series active Hne Ha). congruence. Qed.

Lemma shown_selected series active b :
  shown series active = Some b -> selected_in (Z.of_nat (length series)) active.
Proof.
  intros Hs. destruct active as [[i|]|]; [|done|done]. unfold shown in Hs. cbn in *.
  destruct (Z_lt_dec i 0), (Z_lt_dec i (Z.of_nat (length series))); try lia;
    rewrite (proj2 (bucket_at_none series i)) in Hs by lia; done.
Qed.

Lemma charts_drawable s d : charts t language s d <> None <-> drawable s d.
Proof.
  unfold charts, QueryChart, LatencyChart, drawable. split.
  - intros Hc. destruct (an_series d) as [|b l] eqn:Es; [done|]. rewrite <- Es in *.
    destruct (all_some _); [|done].
    destruct (shown (an_series d) (query_active s)) eqn:Eq; [|done].
    destruct (shown (an_series d) (latency_active s)) eqn:El; [|done].
    split_and!; [by rewrite Es|by eapply shown_selected..].
  - intros (Hne & Hq & Hl). destruct (ticks_some _ Hne) as [k ->].
    destruct (shown_some _ _ Hne Hq) as [? ->], (shown_some _ _ Hne Hl) as [? ->]. done.
Qed.

#[export] Instance drawable_dec s d : Decision (drawable s d).
Proof.
  assert (forall n a, Decision (selected_in n a)) by (intros n [[i|]|]; cbn; apply _).
  unfold drawable. destruct (an_series d); [by right; intros []|]. destruct (decide (selected_in (Z.of_nat (length (a :: l))) (query_active s))),
    (decide (selected_in (Z.of_nat (length (a :: l))) (latency_active s))); (by left) || (right; tauto).
Defined.

(** Rendering throws exactly when queries are logged, data with queries is
    shown, and it has no buckets or a selection points past them. *)
Theorem analytics_throws p s :
  render t language p s = None <->
  queryLogging p = true /\ exists d, data s = Some d /\ charted d = true /\ ~ drawable s d.
Proof.
  unfold render, data_panels. destruct (queryLogging p); cbn [negb]; [|by split; [|intros []]].
  destruct (data s) as [d|]; [|by split; [|intros (_ & d & [=] & _)]].
  setoid_rewrite <- charts_drawable. destruct (charted d) eqn:Ec; cbn.
  - split.
    + intros Hn. split; [done|]. exists d. split_and!; [done..|]. intros Hc. by destruct (charts _ _ s d).
    + intros (_ & d' & [= <-] & _ & Hn). destruct (charts t language s d) eqn:Ech; [|done]. by destruct Hn.
  - split; [done|]. intros (_ & d' & [= <-] & Hc & _). congruence.
Qed.

(** C35: handling an event leaves a page that renders in a state that renders: the
    update that moving the pointer to a point of the screen, leaving a chart, an
    arrow key, a range button or the reload button makes at once cannot make the
    page throw, whatever was selected (what the answer to a new range may do is
    another matter). *)
Theorem analytics_events_render e p s ev :
  render t language p s <> None ->
  match ev with MovePointer _ offset width => finite offset /\ finite width | _ => True end ->
  render t language p (seg_state (advance e (handle t p s ev) s)) <> None.
Proof.
  intros Hr Hev Hn. apply analytics_throws in Hn as (Hq & d & Hd & Hc & Hn).
  assert (data s = Some d) as Hd0 by (by destruct ev as [| |[] ? ?|[]|[] ?]).
  assert (drawable s d) as (Hne & H1 & H2).
  { destruct (decide (drawable s d)) as [|Hx]; [done|]. destruct Hr. apply analytics_throws. split; [done|].
    by exists d. }
  apply Hn. clear Hn Hd. unfold drawable.
  assert (0 < Z.of_nat (length (an_series d)))%Z by (destruct (an_series d); [done|cbn; lia]).
  assert (series_length s = Z.of_nat (length (an_series d))) as El by (unfold series_length; by rewrite Hd0).
  split; [done|].
  destruct ev as [| |[] ? ?|[]|[] ?]; cbn; rewrite ?El; split; try done; destruct_and?; by (apply moved_in || apply keyed_in).
Qed.

(** *** Reads only *)

Lemma analytics_reads r signal : reads_only (requests r signal).
Proof. apply reads_only_all2; apply reads_only_get. Qed.

Lemma analytics_verified p : verified (page t language) any_props (fun _ _ => True) read_only_output p.
Proof.
  constructor; cbn [c_init c_view c_handle c_effects c_unmount page]; try done.
  - intros p' s ev Hi Hev. destruct ev; unfold handle, load, setData, set_active; wp_split;
      first [apply analytics_reads | done].
  - intros ef p' s q [<-|[<-|[]]] Hi; cbn; destruct (queryLogging p'); intros [= <-];
      unfold load, setData, unmount_charts; wp_split; first [apply analytics_reads | done].
  - by intros ef p' s [<-|[<-|[]]] Hi p'' s' Hi'.
Qed.

#[export] Instance analytics_viewer_safe : ViewerSafe (page t language) (fun _ => true = true).
Proof.
  intros p c _ Hc. destruct (reachable_still _ _ _ _ eq_refl Hc) as [Hc' _].
  by apply (invariant_reachable _ _ _ _ _ _ (analytics_verified p) Hc').
Qed.

(** *** A selection that outlives its buckets *)

Lemma analytics_offers_range p s r :
  render t language p s <> None -> queryLogging p = true -> offered (view t language p s) (SetRange r).
Proof.
  intros Hr Hp. unfold view, render in *. rewrite Hp in *. cbn [negb] in *.
  destruct (data s); [destruct (data_panels _ _ s _); [|done]|];
    destruct r; [eapply (offered_at 0 [0; 0; 0] 2)|eapply (offered_at 0 [0; 0; 1] 2)
                |eapply (offered_at 0 [0; 0; 2] 2)|eapply (offered_at 0 [0; 0; 3] 2)
                |eapply (offered_at 0 [0; 0; 0] 2)|eapply (offered_at 0 [0; 0; 1] 2)
                |eapply (offered_at 0 [0; 0; 2] 2)|eapply (offered_at 0 [0; 0; 3] 2)];
    (reflexivity || apply fires_click).
Qed.

Lemma analytics_offers_key p s d key :
  queryLogging p = true -> data s = Some d -> charted d = true -> error s = "" -> limitedHistory d = false ->
  drawable s d -> offered (view t language p s) (PressKey QueryChart_ key).
Proof.
  intros Hp Hd Hc He Hl Hdr. pose proof (proj2 (charts_drawable s d) Hdr) as Hch. unfold view, render, data_panels.
  rewrite Hp, Hd, Hc, He. unfold history_notice. rewrite Hl. unfold charts in *.
  destruct (QueryChart t language d (range s) (query_active s)) as [q|] eqn:Eq; [|done].
  destruct (LatencyChart t language d (range s) (latency_active s)); [|done].
  unfold QueryChart in Eq. destruct (all_some _); [|done]. destruct (shown _ _); [|done]. injection Eq as <-.
  eapply (offered_at 0 [2; 1; 1] 8); [reflexivity|reflexivity|reflexivity|apply fires_key|reflexivity].
Qed.

(** Analytics of [n] buckets with [k] queries each. *)
Definition even_data (r : AnalyticsRange) (n : nat) (k : Z) : Analytics :=
  let b := mkAnalyticsBucket "" k 0 0 0 (num 0) in
  mkAnalytics r "" "" 60 None (mkAnalyticsBucket "" (Z.of_nat n * k) 0 0 0 (num 0)) (repeat b n) [] [] [] [] [].

(** What an answer to the request for range [r] leaves in the state. *)
Definition loaded (r : AnalyticsRange) (d : Analytics) (top : QuerySummary) (s : State) : State :=
  mkState r (Some d) (Some top) "" false (if charted d then query_active s else None)
    (if charted d then latency_active s else None).

(** A run: the user picks a range, the effect runs, its timer fires and both
    answers arrive. *)
Lemma analytics_pick p0 c prev r d top :
  reachable (page t language) any_props p0 c -> mounted c = true -> queryLogging (props c) = true ->
  render t language (props c) (state c) <> None -> runs c !! 0 = Some prev ->
  match prev with Some x => load_changed x (props c, (state c) <| range := r |>) | None => true end = true ->
  exists c', reachable (page t language) any_props p0 c' /\ mounted c' = true /\ props c' = props c /\
    state c' = loaded r d top (state c) /\ runs c' !! 0 = Some (Some (props c, (state c) <| range := r |>)).
Proof.
  destruct c as [p s m tk ru o]. cbn. intros Hc -> Hp Hr Hru Hdue. set (e := calm_env false).
  opose proof (reach_event _ _ _ _ e Hc (SetRange r) eq_refl _ eq_refl) as H1; [by apply analytics_offers_range|].
  unfold fire, launch, run_segment in H1. cbn in H1. rewrite !app_nil_r in H1.
  pose proof (reach_effect _ _ _ _ e H1 0 _ _ eq_refl eq_refl Hru Hdue eq_refl) as H2.
  unfold rerun, launch, run_segment in H2. cbn in H2. rewrite Hp in H2. cbn in H2. rewrite !app_nil_r in H2.
  set (l := map _ _) in H2. clearbody l.
  pose proof (reach_timer _ _ _ _ e H2 (length l) _ _ _ (lookup_snoc l _) eq_refl eq_refl) as H3.
  unfold resume, run_segment in H3. cbn in H3. rewrite insert_snoc, !app_nil_r in H3.
  pose proof (reach_reply _ _ _ _ e H3 (length l) _ _ _ _ (lookup_snoc l _) eq_refl eq_refl
                (OkResponse 200 (inl d), OkResponse 200 (inl top), true)) as H4.
  eexists. split; [exact H4|]. split_and!; [reflexivity..|].
  cbn. apply list_lookup_insert_eq. by eapply lookup_lt_Some.
Qed.

(** C36: changing the range can take the page down: a chart keeps its selection
    while it is mounted, and the buckets it selects from are replaced. With the
    last of the 60 buckets of one hour selected, the 24 buckets of the last day
    arrive, the selected bucket does not exist, and rendering throws. *)
Theorem analytics_stale_bucket :
  exists c d, reachable (page t language) any_props (mkProps true) c /\ mounted c = true /\
    data (state c) = Some d /\ length (an_series d) = 24 /\ query_active (state c) = Some (At 59) /\
    render t language (props c) (state c) = None.
Proof.
  set (top := mkQuerySummary "" "" 0 0 [] []).
  set (hour := even_data r_1h 60 1). set (day := even_data r_24h 24 1).
  destruct (analytics_pick _ _ None r_1h hour top (reach_start (page t language) any_props (mkProps true)))
    as (c1 & H1 & Hm1 & Hp1 & Hs1 & Hr1); [done..|].
  destruct c1 as [p1 s1 m1 tk1 ru1 o1]. cbn in *. subst p1 s1 m1.
  opose proof (reach_event _ _ _ _ (calm_env false) H1 (PressKey QueryChart_ "ArrowRight") eq_refl _ eq_refl) as H2.
  { apply analytics_offers_key with hour; try reflexivity. by split. }
  destruct (analytics_pick _ _ (Some _) r_24h day top H2 eq_refl eq_refl ltac:(discriminate) Hr1 eq_refl)
    as (c2 & H3 & Hm2 & Hp2 & Hs2 & _).
  exists c2, day. rewrite Hs2, Hp2. by split_and!.
Qed.
End Render.

(** *** A concrete instance *)

(** The page with the 24 buckets of a day, the last one selected. *)
Definition day_shown : State := mkState r_24h (Some (even_data r_24h 24 1)) None "" false (Some (At 23)) None.

Lemma analytics_events_render_witness :
  query_active (seg_state (advance (calm_env false)
    (@handle plain_text (mkProps true) day_shown (PressKey QueryChart_ "ArrowLeft")) day_shown)) = Some (At 22) /\
  @render plain_locale plain_text "en" (mkProps true) (seg_state (advance (calm_env false)
    (@handle plain_text (mkProps true) day_shown (PressKey QueryChart_ "ArrowLeft")) day_shown)) <> None.
Proof.
  split; [reflexivity|].
  apply (@analytics_events_render plain_locale plain_text "en" (calm_env false) (mkProps true) day_shown); [|done].
  vm_compute. discriminate.
Defined.
End AnalyticsFacts.
