(* ===== verification/Preferences.v ===== *)
(** * Languages and themes

    web/src/theme.ts, the language part of web/src/i18n/index.ts,
    web/src/i18n-context.ts and web/src/LanguageProvider.tsx. *)
From S2P Require Import Prelude JsString JsNumber Http Api Resources React Runtime Components.
Local Open Scope velora_scope.
Local Open Scope prog_scope.
Local Open Scope string_scope.

(** ** i18n/index.ts *)

Inductive Language : Set := l_en | l_de | l_es | l_pt_BR | l_nl | l_pl | l_cs | l_sv | l_ja | l_ko.
#[export] Instance Language_eq_dec : EqDecision Language.
Proof. solve_decision. Defined.

Definition language_code (l : Language) : string :=
  match l with
  | l_en => "en" | l_de => "de" | l_es => "es" | l_pt_BR => "pt-BR" | l_nl => "nl"
  | l_pl => "pl" | l_cs => "cs" | l_sv => "sv" | l_ja => "ja" | l_ko => "ko"
  end.

Definition SUPPORTED_LANGUAGES : list Language :=
  [l_en; l_de; l_es; l_pt_BR; l_nl; l_pl; l_cs; l_sv; l_ja; l_ko].
Definition DEFAULT_LANGUAGE : Language := l_en.

Definition languageName (l : Language) : string :=
  match l with
  | l_de => "Deutsch" | l_es => "Español" | l_pt_BR => "Português (Brasil)" | l_nl => "Nederlands"
  | l_pl => "Polski" | l_cs => "Čeština" | l_sv => "Svenska" | l_ja => "日本語" | l_ko => "한국어"
  | l_en => "English"
  end.

(** A catalog: the entries of one language's file. *)
Definition dictionary : Set := list (string * string).

(** A missing text falls back to English, then to its key. Every key the pages use
    contains a dot, so none is a name that JavaScript objects inherit. *)
Definition translate (dictionaries : Language -> dictionary) (l : Language) (key : string) : string :=
  match assoc key (dictionaries l) with
  | Some v => v
  | None => match assoc key (dictionaries l_en) with Some v => v | None => key end
  end.

(** ** i18n-context.ts *)

Definition makeT (dictionaries : Language -> dictionary) (l : Language) : string -> string :=
  fun key => translate dictionaries l key.

(** ** theme.ts *)

Inductive Theme : Set := th_light | th_dark | th_auto.
#[export] Instance Theme_eq_dec : EqDecision Theme.
Proof. solve_decision. Defined.

Definition theme_code (th : Theme) : string :=
  match th with th_light => "light" | th_dark => "dark" | th_auto => "auto" end.
Definition SUPPORTED_THEMES : list Theme := [th_light; th_dark; th_auto].
Definition DEFAULT_THEME : Theme := th_auto.

Definition normalizeTheme (theme : option string) : Theme :=
  match theme with
  | Some v => find_first (fun th => String.eqb v (theme_code th)) SUPPORTED_THEMES ?? DEFAULT_THEME
  | None => DEFAULT_THEME
  end.

(** [prefers_dark]: the system's color scheme, [matchMedia(...).matches]. *)
Definition resolveTheme (prefers_dark : bool) (theme : Theme) : string :=
  match theme with
  | th_auto => if prefers_dark then "dark" else "light"
  | other => theme_code other
  end.

Definition themeLabel (theme : Theme) : string :=
  match theme with th_light => "Light" | th_dark => "Dark" | th_auto => "Auto" end.

(** ** LanguageProvider.tsx *)

Module LanguageProvider.

Definition normalizeLanguage (language : option string) : Language :=
  match language with
  | Some v => find_first (fun l => String.eqb v (language_code l)) SUPPORTED_LANGUAGES ?? DEFAULT_LANGUAGE
  | None => DEFAULT_LANGUAGE
  end.

(** What the browser has when the provider mounts: the two [localStorage] entries
    and the system's colour scheme. *)
Record Props : Set := mkProps { item_language : option string; item_theme : option string; system_dark : bool }.

(** The provider's state, and the parts of the browser it writes: the two
    [localStorage] entries, the document's language and its theme; [following]:
    whether the theme effect listens to the system's colour scheme. *)
Record State : Set := mkState {
  language : Language;
  theme : Theme;
  stored_language : option string;
  stored_theme : option string;
  document_lang : string;
  document_theme : string;
  prefers_dark : bool;
  following : bool }.
#[export] Instance eta_State : Eta State := fun s =>
  mkState (language s) (theme s) (stored_language s) (stored_theme s) (document_lang s)
    (document_theme s) (prefers_dark s) (following s).

Definition init (p : Props) : State :=
  mkState (normalizeLanguage (item_language p)) (normalizeTheme (item_theme p)) (item_language p) (item_theme p)
    "" "" (system_dark p) false.

Definition applyTheme (th : Theme) (s : State) : State :=
  s <| document_theme := resolveTheme (prefers_dark s) th |>.

(** The three effects. *)
Definition load : M State unit :=
  try_catch
    (prefs <- await (loadPreferences false) ;;
     let nextLanguage := normalizeLanguage (Some (pref_language prefs)) in
     let nextTheme := normalizeTheme (Some (pref_theme prefs)) in
     update (fun s => s <| language := nextLanguage |>) ;;
     update (fun s => s <| theme := nextTheme |>) ;;
     update (fun s => s <| stored_language := Some (language_code nextLanguage) |>) ;;
     update (fun s => s <| stored_theme := Some (theme_code nextTheme) |>))
    (fun _ => ret tt).

Definition language_effect (c : State) : M State unit :=
  update (fun s => s <| document_lang := language_code (language c) |>).

Definition is_auto (th : Theme) : bool := match th with th_auto => true | _ => false end.

(** The theme effect replaces the listener of its last run. *)
Definition theme_effect (c : State) : M State unit :=
  update (applyTheme (theme c)) ;;
  update (fun s => s <| following := is_auto (theme c) |>).

(** The system's colour scheme changes: the listener the theme effect left
    behind for the automatic theme applies it again. *)
Definition follow (dark : bool) : M State unit :=
  update (fun s => s <| prefers_dark := dark |>) ;;
  s <- read ;; when_do (following s) (update (applyTheme th_auto)).

(** The save runs in the updater of the other setting, so it sends that
    setting's current value; its failure is ignored. *)
Definition save (l : Language) (th : Theme) : M State unit :=
  spawn (try_catch (_ <- await (savePreferences (mkPreferences (language_code l) (theme_code th))) ;; ret tt)
           (fun _ => ret tt)).

Definition setLanguage (next : Language) : M State unit :=
  update (fun s => s <| language := next |>) ;;
  update (fun s => s <| stored_language := Some (language_code next) |>) ;;
  s <- read ;; save next (theme s).

Definition setTheme (next : Theme) : M State unit :=
  update (fun s => s <| theme := next |>) ;;
  update (fun s => s <| stored_theme := Some (theme_code next) |>) ;;
  s <- read ;; save (language s) next.

(** What happens to the provider: the setters it hands down are called, and the
    system's colour scheme changes. *)
Inductive Event : Set := SetLanguage (next : Language) | SetTheme (next : Theme) | SystemScheme (dark : bool).

Definition handle (p : Props) (c : State) (ev : Event) : prog State :=
  run_top
    match ev with
    | SetLanguage next => setLanguage next
    | SetTheme next => setTheme next
    | SystemScheme dark => follow dark
    end.

(** The provider renders its children; any of its events can come at any time. *)
Definition view (p : Props) (s : State) : list (node Event) :=
  [El main_ [OnSelect (map SetLanguage SUPPORTED_LANGUAGES); OnSelect (map SetTheme SUPPORTED_THEMES);
             OnSelect [SystemScheme true; SystemScheme false]] []].

Definition language_changed (a b : Props * State) : bool :=
  negb (bool_decide (language (snd a) = language (snd b))).
Definition theme_changed (a b : Props * State) : bool :=
  negb (bool_decide (theme (snd a) = theme (snd b))).

Definition page : component Props State Event :=
  mkComponent init view handle
    [effect_once (fun _ _ => false) (fun _ _ => Some (run_top load));
     effect_once language_changed (fun _ c => Some (run_top (language_effect c)));
     effect_once theme_changed (fun _ c => Some (run_top (theme_effect c)))]
    (fun s => s).
End LanguageProvider.

(** * Theorems *)

Module PreferencesFacts.
Import LanguageProvider.

Lemma normalizeLanguage_code l : normalizeLanguage (Some (language_code l)) = l.
Proof. by destruct l. Qed.

Lemma normalizeTheme_code th : normalizeTheme (Some (theme_code th)) = th.
Proof. by destruct th. Qed.

(** A preference survives the browser's storage: choosing a language or a
    theme changes it at once, stores a value from which the next visit starts
    with the same choice, leaves the other setting alone, and sends both
    current values to the server in one request whose failure changes nothing. *)
Theorem preferences_round_trip e s l th :
  let s1 := seg_state (advance e (run_top (setLanguage l)) s) in
  let s2 := seg_state (advance e (run_top (setTheme th)) s1) in
  language s1 = l /\ theme s1 = theme s /\
  language s2 = l /\ theme s2 = th /\
  language (init (mkProps (stored_language s2) (stored_theme s2) (prefers_dark s2))) = l /\
  theme (init (mkProps (stored_language s2) (stored_theme s2) (prefers_dark s2))) = th /\
  let call := savePreferences (mkPreferences (language_code l) (theme_code th)) in
  exists k, advance e (run_top (setTheme th)) s1
              = Seg Done s2 (map Sent (sent (call e))) [Wait (call e) k] /\
    forall e' s' reply, advance e' (k reply) s' = Seg Done s' [] [].
Proof.
  cbv zeta. do 4 (split; [reflexivity|]).
  split; [apply normalizeLanguage_code|]. split; [apply normalizeTheme_code|].
  eexists. split; [reflexivity|]. by intros e' s' [].
Qed.

(** ** Runs of the provider *)

(** A reload would start with what is shown. *)
Definition storage_inv (_ : Props) (s : State) : Prop :=
  normalizeLanguage (stored_language s) = language s /\ normalizeTheme (stored_theme s) = theme s.

Lemma storage_verified p : verified page any_props storage_inv (fun _ => True) p.
Proof.
  assert (forall A (a : api A), api_sends (fun _ => True) a) as Hany.
  { intros A a e. by apply List.Forall_forall. }
  constructor; cbn [c_init c_view c_handle c_effects c_unmount page]; try done.
  - intros p' s ev [H1 H2] _. destruct ev; unfold handle, setLanguage, setTheme, follow, save, applyTheme; wp_split;
      try apply Hany; unfold storage_inv in *;
      cbn -[normalizeLanguage normalizeTheme]; rewrite ?normalizeLanguage_code, ?normalizeTheme_code; auto.
  - intros ef p' s q [<-|[<-|[<-|[]]]] [H1 H2] [= <-]; unfold load, language_effect, theme_effect, applyTheme; wp_split;
      try apply Hany; unfold storage_inv in *;
      cbn -[normalizeLanguage normalizeTheme]; rewrite ?normalizeLanguage_code, ?normalizeTheme_code; auto.
  - by intros ef p' s [<-|[<-|[<-|[]]]] Hi p'' s' Hi'.
Qed.

(** What the provider has written to the document, and for what. *)
Definition document (s : State) : string * string * bool * bool :=
  (document_lang s, document_theme s, prefers_dark s, following s).

(** A waiting task of the provider leaves the document alone and ends. *)
Definition ends_quietly (p : prog State) : Prop :=
  match p with
  | Done => True
  | Wait q k => forall e s reply, let r := advance e (k reply) s in
      document (seg_state r) = document s /\ seg_todo r = Done /\ seg_forks r = []
  | _ => False
  end.

Lemma provider_controlled : controlled page ends_quietly.
Proof.
  constructor; cbn [c_init c_view c_handle c_effects c_unmount page]; try done.
  - intros p s ev _ e. destruct ev as [next|next|dark]; cbn.
    1,2: split; [done|]; repeat constructor; by destruct reply.
    destruct (following s); by repeat constructor.
  - intros ef p s q [<-|[<-|[<-|[]]]] [= <-] e; cbn; (split; [|constructor]); [|done..]. by intros e' s' [].
  - intros A q k u s Hq e. destruct (Hq e s (settle q u)) as (_ & -> & ->). by split.
Qed.

(** The document shows the language and the theme of the renders the effects last
    ran in. *)
Definition document_inv (c : config Props State) : Prop :=
  (forall r, runs c !! 1 = Some (Some r) -> document_lang (state c) = language_code (language (snd r))) /\
  (forall r, runs c !! 2 = Some (Some r) ->
     document_theme (state c) = resolveTheme (prefers_dark (state c)) (theme (snd r)) /\
     following (state c) = is_auto (theme (snd r))).

Lemma runs_length p c : reachable page any_props p c -> length (runs c) = 3.
Proof.
  induction 1 as [|c c' _ IH Hstep]; [done|]. destruct Hstep; try done.
  unfold rerun. destruct (ef_body _ _ _); cbn; by rewrite length_insert.
Qed.

Lemma document_inv_event e p s ev : forall r,
  let s' := seg_state (advance e (handle p s ev) s) in
  document_lang s' = document_lang s /\
  (document_theme s = resolveTheme (prefers_dark s) (theme r) /\ following s = is_auto (theme r) ->
   document_theme s' = resolveTheme (prefers_dark s') (theme r) /\ following s' = is_auto (theme r)).
Proof.
  intros r. destruct ev as [next|next|dark]; cbn; [done..|].
  destruct (following s) eqn:Ef; cbn; (split; [done|]); intros [Hd Hf]; rewrite ?Ef; destruct (theme r); done.
Qed.

Lemma document_reachable p c : reachable page any_props p c -> document_inv c.
Proof.
  intros Hc. induction Hc as [|c c' Hc [IH1 IH2] Hstep]; [done|].
  pose proof (controlled_reachable _ _ _ _ _ provider_controlled Hc) as Hq.
  destruct Hstep as [c ev e _ _ _|c i tk A q k u e Ht Hw _|c i tk ms k e Ht Hw _|c i tk ms e Ht Hw _
                    |c i ef prev e _ Hef _ _ _|c p' _|c _]; try done.
  - split; intros r Hr; cbn in Hr |- *; destruct (document_inv_event e (props c) (state c) ev (snd r)) as [H1 H2]; cbn in H1, H2.
    + rewrite H1. by apply IH1.
    + by apply H2, IH2.
  - pose proof (Forall_lookup_1 _ _ _ _ Hq Ht) as H. cbn in H. rewrite Hw in H.
    destruct (H e (state c) (settle q u)) as ([= E1 E2 E3 E4] & _).
    split; intros r Hr; cbn in Hr |- *; rewrite ?E1, ?E2, ?E3, ?E4; auto.
  - pose proof (Forall_lookup_1 _ _ _ _ Hq Ht) as H. cbn in H. by rewrite Hw in H.
  - pose proof (Forall_lookup_1 _ _ _ _ Hq Ht) as H. cbn in H. by rewrite Hw in H.
  - destruct i as [|[|[|i]]]; [..|done]; injection Hef as <-; split; intros r; cbn.
    + rewrite list_lookup_insert_ne by done. apply IH1.
    + rewrite list_lookup_insert_ne by done. apply IH2.
    + rewrite list_lookup_insert_Some. intros [(_ & [= <-] & _)|[? _]]; done.
    + rewrite list_lookup_insert_ne by done. apply IH2.
    + rewrite list_lookup_insert_ne by done. apply IH1.
    + rewrite list_lookup_insert_Some. intros [(_ & [= <-] & _)|[? _]]; done.
Qed.

(** C34: language and theme in every run of the provider. At any moment a reload
    would start with the language and theme shown, since the stored values are
    theirs; and once the effects have run, the document carries the language's
    code and the colour scheme the theme stands for, the system's current one
    when it is automatic. *)
Theorem preferences_settled p c :
  reachable page any_props p c ->
  let s := state c in
  let reloaded := init (mkProps (stored_language s) (stored_theme s) (prefers_dark s)) in
  language reloaded = language s /\ theme reloaded = theme s /\
  (at_rest page c ->
   document_lang s = language_code (language s) /\ document_theme s = resolveTheme (prefers_dark s) (theme s)).
Proof.
  intros Hc. cbv zeta. destruct (invariant_reachable _ _ _ _ _ _ (storage_verified p) Hc) as [[H1 H2] _].
  split; [exact H1|]. split; [exact H2|]. intros [_ Hrest]. pose proof (runs_length p c Hc) as Hlen. destruct (document_reachable p c Hc) as [D1 D2].
  destruct (runs c) as [|r0 [|r1 [|r2 [|? ?]]]]; try done.
  specialize (Hrest 1 _ r1 eq_refl eq_refl) as E1. specialize (Hrest 2 _ r2 eq_refl eq_refl) as E2.
  destruct r1 as [r1|]; [|done]. destruct r2 as [r2|]; [|done].
  cbn in E1, E2. unfold language_changed, theme_changed in *. cbn in E1, E2.
  apply negb_false_iff, bool_decide_eq_true in E1. apply negb_false_iff, bool_decide_eq_true in E2.
  rewrite <- E1, <- E2. split; [by apply D1|by apply D2].
Qed.

Lemma provider_offers p s ev :
  match ev with SetTheme _ | SystemScheme _ => offered (view p s) ev | SetLanguage _ => True end.
Proof.
  destruct ev as [next|next|dark]; [done| |].
  - eapply (offered_at 0 [] 1); [reflexivity|reflexivity|reflexivity| |reflexivity]. apply fires_select.
    apply in_map. destruct next; cbn; tauto.
  - eapply (offered_at 0 [] 2); [reflexivity|reflexivity|reflexivity| |reflexivity]. apply fires_select.
    destruct dark; cbn; tauto.
Qed.

(** Compute the configuration a step leads to, calls and normalisation kept. *)
Ltac provider_cbn H :=
  unfold fire, rerun, launch, resume, run_segment in H;
  cbn -[normalizeLanguage normalizeTheme savePreferences loadPreferences resolveTheme] in H.

(** The provider of a first visit. *)
Definition fresh_visit : Props := mkProps None None false.

(** C38: a choice made before the saved preferences arrive is undone: the answer
    to the first read overwrites the theme chosen meanwhile. Everything comes to
    rest with the light theme shown, although the last thing the user did was to
    choose the dark one, and that is what was saved. *)
Theorem preferences_overwritten :
  exists c, reachable page any_props fresh_visit c /\ at_rest page c /\
    theme (state c) = th_light /\ document_theme (state c) = "light" /\
    last (out c) = last (map Sent (sent (savePreferences (mkPreferences "en" "dark") (calm_env false)))).
Proof.
  set (e := calm_env false). set (old := mkPreferences "en" "light"). set (new := mkPreferences "en" "dark").
  pose proof (reach_start page any_props fresh_visit) as H0.
  pose proof (reach_effect _ _ _ _ e H0 0 _ _ eq_refl eq_refl eq_refl eq_refl eq_refl) as H1. provider_cbn H1.
  pose proof (reach_event _ _ _ _ e H1 (SetTheme th_dark) eq_refl (provider_offers _ _ (SetTheme th_dark)) eq_refl) as H2.
  provider_cbn H2.
  pose proof (reach_reply _ _ _ _ e H2 2 _ _ _ _ eq_refl eq_refl eq_refl (OkResponse 200 (inl new))) as H3. provider_cbn H3.
  pose proof (reach_reply _ _ _ _ e H3 0 _ _ _ _ eq_refl eq_refl eq_refl (OkResponse 200 (inl old))) as H4. provider_cbn H4.
  pose proof (reach_effect _ _ _ _ e H4 1 _ _ eq_refl eq_refl eq_refl eq_refl eq_refl) as H5. provider_cbn H5.
  pose proof (reach_effect _ _ _ _ e H5 2 _ _ eq_refl eq_refl eq_refl eq_refl eq_refl) as H6. provider_cbn H6.
  eexists. split; [exact H6|]. split_and!; try reflexivity.
  split; [repeat constructor|]. intros [|[|[|i]]] ef prev [= <-] [= <-]; reflexivity.
Qed.

Definition german_dark : Props := mkProps (Some "de") (Some "dark") false.
Definition theme_applied : config Props State :=
  rerun (calm_env false) 2 (effect_once theme_changed (fun _ c => Some (run_top (theme_effect c))))
    (start page german_dark).

Lemma preferences_settled_witness :
  document_theme (state theme_applied) = "dark" /\
  theme (init (mkProps (stored_language (state theme_applied)) (stored_theme (state theme_applied))
                 (prefers_dark (state theme_applied)))) = th_dark.
Proof.
  split; [reflexivity|].
  destruct (preferences_settled german_dark theme_applied) as (_ & H & _); [|exact H].
  exact (reach_effect page any_props german_dark _ (calm_env false) (reach_start page any_props german_dark) 2 _ _
           eq_refl eq_refl eq_refl eq_refl eq_refl).
Defined.
End PreferencesFacts.
