(* ===== verification/Settings.v ===== *)
(** * The settings page: web/src/pages/Settings.tsx *)
From S2P Require Import Prelude JsString JsNumber Url Http Api Resources React Runtime Components Preferences.
Local Open Scope velora_scope.
Local Open Scope prog_scope.
Local Open Scope string_scope.

Module Settings.
Local Notation Config := Api.Config.

(** ** The form *)

Record ConfigFormData : Set := mkForm {
  fd_dns_listen : string;
  fd_dns_upstreams : string;
  fd_dns_allowed_clients : string;
  fd_cache_upstream_ttl : string;
  fd_http_listen : string;
  fd_http_allowed_hosts : string;
  fd_query_log_enabled : bool;
  fd_log_level : string }.
#[export] Instance eta_Form : Eta ConfigFormData := fun s =>
  mkForm (fd_dns_listen s) (fd_dns_upstreams s) (fd_dns_allowed_clients s) (fd_cache_upstream_ttl s)
    (fd_http_listen s) (fd_http_allowed_hosts s) (fd_query_log_enabled s) (fd_log_level s).

Inductive FormKey : Set :=
| k_dns_listen | k_dns_upstreams | k_dns_allowed_clients | k_cache_upstream_ttl | k_http_listen
| k_http_allowed_hosts | k_query_log_enabled | k_log_level.
#[export] Instance FormKey_eq_dec : EqDecision FormKey.
Proof. solve_decision. Defined.

Definition key_str (k : FormKey) : string :=
  match k with
  | k_dns_listen => "dns_listen" | k_dns_upstreams => "dns_upstreams"
  | k_dns_allowed_clients => "dns_allowed_clients" | k_cache_upstream_ttl => "cache_upstream_ttl"
  | k_http_listen => "http_listen" | k_http_allowed_hosts => "http_allowed_hosts"
  | k_query_log_enabled => "query_log_enabled" | k_log_level => "log_level"
  end.

(** The API paths the form edits directly. *)
Definition FIELD_KEYS : list (string * FormKey) :=
  [("dns.listen", k_dns_listen); ("dns.upstreams", k_dns_upstreams);
   ("dns.allowed_clients", k_dns_allowed_clients); ("cache.upstream_ttl", k_cache_upstream_ttl);
   ("http.listen", k_http_listen); ("http.allowed_hosts", k_http_allowed_hosts);
   ("query_log.enabled", k_query_log_enabled); ("log_level", k_log_level)].

(** *** [/^([a-z_.]+)(?:\[(\d+)\])?$/] *)

Definition is_path_char (c : ascii) : bool :=
  ((97 <=? code c) && (code c <=? 122) || (code c =? 95) || (code c =? 46))%nat.

(** The longest prefix of path characters, and the rest. *)
Fixpoint take_path (s : string) : string * string :=
  match s with
  | EmptyString => (EmptyString, EmptyString)
  | String c s' =>
      if is_path_char c then let '(a, b) := take_path s' in (String c a, b) else (EmptyString, s)
  end.

(** The digits of an index [\[n\]] that ends the string. *)
Definition parse_index (s : string) : option string :=
  match s with
  | String c s' =>
      if (code c =? 91)%nat && endsWith "]" s'
      then let d := slice_end s' 1 in if truthy d && is_dec d then Some d else None
      else None
  | EmptyString => None
  end.

Definition parse_field (field_ : string) : option (string * option string) :=
  let '(path, rest) := take_path field_ in
  if negb (truthy path) then None
  else match rest with
       | EmptyString => Some (path, None)
       | _ => match parse_index rest with Some d => Some (path, Some d) | None => None end
       end.

(** *** [groupFieldErrors] *)

(** The messages of each input; an input without an entry has none. *)
Definition errors : Type := FormKey -> list string.
Definition no_errors : errors := fun _ => [].
Definition push (k : FormKey) (text : string) (out_ : errors) : errors :=
  fun k' => if bool_decide (k' = k) then (out_ k' ++ [text])%list else out_ k'.

Definition error_text (entryLabel : string) (index : option string) (message_ : string) : string :=
  match index with
  | Some d => entryLabel +:+ " " +:+ num_str (num_succ (Number d)) +:+ ": " +:+ message_
  | None => message_
  end.

Definition group_step (entryLabel : string) (out_ : errors) (item : FieldError) : errors :=
  match parse_field (field item) with
  | None => out_
  | Some (path, index) =>
      match assoc path FIELD_KEYS with
      | None => out_
      | Some k => push k (error_text entryLabel index (message item)) out_
      end
  end.

Definition groupFieldErrors (fields : list FieldError) (entryLabel : string) : errors :=
  fold_left (group_step entryLabel) fields no_errors.

(** ** The page *)

Record Props : Set := mkProps { data : Snapshot }.
Record Message : Set := mkMessage { m_error : bool; m_text : string }.

Record State : Type := mkState {
  formData : ConfigFormData;
  saving : bool;
  message_ : option Message;
  fieldErrors : errors;
  rateLimit : option RateLimitSettings;
  loadingRateLimit : bool;
  rateLimitError : string;
  rateLimitSaved : bool;
  rateLimitStatus : option RateLimitStatus }.
#[export] Instance eta_State : Eta State := fun s =>
  mkState (formData s) (saving s) (message_ s) (fieldErrors s) (rateLimit s) (loadingRateLimit s)
    (rateLimitError s) (rateLimitSaved s) (rateLimitStatus s).

(** The form a configuration opens with. The declared type makes every member
    present, so the defaults behind [??] do not apply. *)
Definition form_of (c : Config) : ConfigFormData :=
  mkForm (joinStrings ", " (dns_cfg_listen (cfg_dns c))) (joinStrings ", " (upstreams (cfg_dns c)))
    (joinStrings ", " (allowed_clients (cfg_dns c))) (StringZ (upstream_ttl (cfg_cache c)))
    (http_listen (cfg_http c)) (joinStrings ", " (http_allowed_hosts (cfg_http c)))
    (ql_enabled (cfg_query_log c)) (cfg_log_level c).

Definition init (p : Props) : State :=
  mkState (form_of (snap_config (data p))) false None no_errors None true "" false None.

#[export] Instance eta_RateLimit : Eta RateLimitSettings := fun s =>
  mkRateLimitSettings (rl_enabled s) (global_qps s) (client_qps s) (rate_limit_burst s).

Inductive Event : Set :=
| ChooseLanguage (l : Language)
| ChooseTheme (th : Theme)
| SetField (k : FormKey) (v : string)
| SetQueryLog (b : bool)
| ClickCheck
| ClickSave
| SetRateLimit (r : RateLimitSettings)
| ClickSaveRateLimit.

Definition parseList (value : string) : list string := comma_list value.

(** A text field of the form; the checkbox is [SetQueryLog]. *)
Definition set_text (k : FormKey) (v : string) (f : ConfigFormData) : ConfigFormData :=
  match k with
  | k_dns_listen => f <| fd_dns_listen := v |>
  | k_dns_upstreams => f <| fd_dns_upstreams := v |>
  | k_dns_allowed_clients => f <| fd_dns_allowed_clients := v |>
  | k_cache_upstream_ttl => f <| fd_cache_upstream_ttl := v |>
  | k_http_listen => f <| fd_http_listen := v |>
  | k_http_allowed_hosts => f <| fd_http_allowed_hosts := v |>
  | k_query_log_enabled => f
  | k_log_level => f <| fd_log_level := v |>
  end.

Definition clear_error (k : FormKey) (e : errors) : errors :=
  fun k' => if bool_decide (k' = k) then [] else e k'.

(** [/^\d+$/.test(v.trim())], an integer, and at most a week. *)
Definition ttl_valid (v : string) : bool :=
  truthy (trim v) && is_dec (trim v) && isInteger (Number v) && negb (num_gtb (Number v) 604800).

(** The configuration the form describes: the object spreads keep every member of
    the one it was opened with that the form does not set, declared or not. *)
Definition candidate (base : Config) (f : ConfigFormData) : option Config :=
  if negb (ttl_valid (fd_cache_upstream_ttl f)) then None
  else
    let d := cfg_dns base in
    let h := cfg_http base in
    let q := cfg_query_log base in
    Some (mkConfig
      (mkQueryLogConfig (fd_query_log_enabled f) (ql_retention q) (ql_max_rows q) (ql_queue_size q) (ql_rest q))
      (mkDnsConfig (parseList (fd_dns_listen f)) (parseList (fd_dns_upstreams f))
         (parseList (fd_dns_allowed_clients f)) (dns_timeout d) (dns_retries d) (dns_max_concurrent d) (dns_rest d))
      (mkCacheConfig (max_entries (cfg_cache base))
         (to_integer (Number (fd_cache_upstream_ttl f)) ?? 0%Z) (cache_rest (cfg_cache base)))
      (mkHttpConfig (fd_http_listen f) (http_web_dir h) (parseList (fd_http_allowed_hosts f)) (http_rest h))
      (fd_log_level f) (cfg_rest base)).

(** What [saveRateLimit] sends: an empty rate counts as 1. *)
Definition rate_payload (r : RateLimitSettings) : RateLimitSettings :=
  mkRateLimitSettings (rl_enabled r) (num_or_one (global_qps r)) (num_or_one (client_qps r))
    (num_or_one (rate_limit_burst r)).

Section Page.
Context {L : Locale} (t : string -> string) (language : string) (theme : Theme).

Definition show (error : bool) (text : string) : M State unit :=
  update (fun s => s <| message_ := Some (mkMessage error text) |>).

Definition load_rate_limit : M State unit :=
  try_finally
    (try_catch
       (settings <- await (loadRateLimitSettings true) ;;
        e <- ask ;;
        when_do (negb (aborted e))
          (update (fun s => s <| rateLimit := Some settings |>) ;;
           update (fun s => s <| rateLimitError := "" |>)))
       (fun x => e <- ask ;;
          when_do (negb (aborted e))
            (update (fun s => s <| rateLimitError := error_message x (t "settings.rate_limit_load_failed") |>))))
    (e <- ask ;; when_do (negb (aborted e)) (update (fun s => s <| loadingRateLimit := false |>))).

Definition is_finite (x : jsnum) : bool := match x with Fin _ _ => true | _ => false end.

Definition poll : M State unit :=
  try_finally
    (try_catch
       (st <- await (loadRateLimitStatus true) ;;
        e <- ask ;;
        when_do (negb (aborted e) && is_finite (rejected_total st))
          (update (fun s => s <| rateLimitStatus := Some st |>)))
       (fun _ => e <- ask ;;
          when_do (negb (aborted e)) (update (fun s => s <| rateLimitStatus := None |>))))
    (e <- ask ;; when_do (negb (aborted e)) (again 5000)).

Definition saveRateLimit (c : State) : M State unit :=
  match rateLimit c with
  | None => ret tt
  | Some r =>
      update (fun s => s <| rateLimitError := "" |>) ;;
      update (fun s => s <| rateLimitSaved := false |>) ;;
      try_catch
        (saved <- await (saveRateLimitSettings (rate_payload r)) ;;
         update (fun s => s <| rateLimit := Some saved |>) ;;
         update (fun s => s <| rateLimitSaved := true |>))
        (fun x => update (fun s => s <| rateLimitError := error_message x (t "settings.rate_limit_save_failed") |>))
  end.

Definition handleChange (k : FormKey) (f : ConfigFormData -> ConfigFormData) : M State unit :=
  update (fun s => s <| formData ::= f |>) ;;
  update (fun s => s <| message_ := None |>) ;;
  update (fun s => s <| fieldErrors ::= clear_error k |>).

(** [buildConfig], whose refusal is a message on the TTL input. *)
Definition buildConfig (p : Props) (c : State) (go : Config -> M State unit) : M State unit :=
  match candidate (snap_config (data p)) (formData c) with
  | Some cfg => go cfg
  | None =>
      show true (t "settings.cache_ttl_invalid") ;;
      update (fun s => s <| fieldErrors := push k_cache_upstream_ttl (t "settings.cache_ttl_invalid") no_errors |>)
  end.

Definition showFieldErrors (fields : list FieldError) : M State unit :=
  update (fun s => s <| fieldErrors := groupFieldErrors fields (t "settings.entry") |>).

Definition begin_saving : M State unit :=
  update (fun s => s <| saving := true |>) ;;
  update (fun s => s <| message_ := None |>) ;;
  update (fun s => s <| fieldErrors := no_errors |>).

Definition end_saving : M State unit := update (fun s => s <| saving := false |>).

Definition handleSave (p : Props) (c : State) : M State unit :=
  buildConfig p c (fun cfg =>
    begin_saving ;;
    try_finally
      (try_catch
         (_ <- await (saveConfig cfg false) ;; show false (t "settings.save_success"))
         (fun x => match x with
                   | APIError _ _ ((_ :: _) as fields) errcode =>
                       showFieldErrors fields ;;
                       show true (if String.eqb errcode "config_requires_restart"
                                  then t "settings.restart_required" else t "settings.fix_fields")
                   | _ => show true (error_message x (t "settings.save_failed"))
                   end))
      end_saving).

Definition handleCheck (p : Props) (c : State) : M State unit :=
  buildConfig p c (fun cfg =>
    begin_saving ;;
    try_finally
      (try_catch
         (r <- await (validateConfig cfg) ;;
          if cc_valid r then show false (t "settings.check_ok")
          else match cc_errors r with
               | _ :: _ => showFieldErrors (cc_errors r) ;; show true (t "settings.fix_fields")
               | [] =>
                   showFieldErrors (map (fun f => mkFieldError f (t "settings.restart_field")) (cc_restart_required r)) ;;
                   show true (t "settings.restart_required")
               end)
         (fun x => show true (error_message x (t "settings.save_failed"))))
      end_saving).

Definition handle (p : Props) (c : State) (ev : Event) : prog State :=
  run_top
    match ev with
    | ChooseLanguage l => emit (CallProp ("setLanguage " +:+ language_code l))
    | ChooseTheme x => emit (CallProp ("setTheme " +:+ theme_code x))
    | SetField k v => handleChange k (set_text k v)
    | SetQueryLog b => handleChange k_query_log_enabled (fun f => f <| fd_query_log_enabled := b |>)
    | ClickCheck => handleCheck p c
    | ClickSave => handleSave p c
    | SetRateLimit r => update (fun s => s <| rateLimit := Some r |>)
    | ClickSaveRateLimit => saveRateLimit c
    end.

(** ** The view *)

Definition errorsFor (s : State) (k : FormKey) : list (node Event) :=
  when (nonempty (fieldErrors s k))
    [El span ["className" =: "field-error"; "id" =: ("error-" +:+ key_str k)]
       (each (fieldErrors s k) (fun text => [El span [] [Txt text]]))].

Definition invalidProps (s : State) (k : FormKey) : list (attr Event) :=
  if nonempty (fieldErrors s k)
  then ["aria-invalid" =: "true"; "aria-describedby" =: ("error-" +:+ key_str k)] else [].

Definition logLevelOptions : list string := ["debug"; "info"; "warn"; "error"].

Definition text_field (s : State) (k : FormKey) (v label_ placeholder hint : string) : node Event :=
  El label ["className" =: "field"]
    ([El span [] [Txt label_];
      El input (["type" =: "text"; "value" =: v; OnChange (SetField k); "placeholder" =: placeholder;
                 "spellCheck" =: "false"] ++ invalidProps s k) []]
     ++ errorsFor s k ++ [El small [] [Txt hint]]).

Definition card (title : string) (fields : list (node Event)) : node Event :=
  El div ["className" =: "settings-card"]
    [El div ["className" =: "settings-card-intro"] [El h3 [] [Txt (t title)]];
     El div ["className" =: "settings-fields"] fields].

Definition preferences_panel : node Event :=
  El section ["className" =: "panel"]
    [El div ["className" =: "settings-card"]
       [El div ["className" =: "settings-card-intro"]
          [El h3 [] [Txt (t "settings.preferences")]; El p_ [] [Txt (t "settings.theme_hint")]];
        El div ["className" =: "settings-preferences"]
          [El label []
             [Txt (t "settings.language");
              El select ["value" =: language; OnSelect (map ChooseLanguage SUPPORTED_LANGUAGES)]
                (each SUPPORTED_LANGUAGES (fun l =>
                   [El option_ ["value" =: language_code l] [Txt (languageName l)]]))];
           El label []
             [Txt (t "settings.theme");
              El select ["value" =: theme_code theme; OnSelect (map ChooseTheme SUPPORTED_THEMES)]
                (each SUPPORTED_THEMES (fun x =>
                   [El option_ ["value" =: theme_code x] [Txt (t ("settings.theme_" +:+ theme_code x))]]))]]]].

Definition ttl_field (s : State) : node Event :=
  El label ["className" =: "field"]
    ([El span [] [Txt (t "settings.cache_ttl_label")];
      El input (["type" =: "number"; "min" =: "0"; "max" =: "604800"; "step" =: "1";
                 "value" =: fd_cache_upstream_ttl (formData s); OnChange (SetField k_cache_upstream_ttl)]
                ++ invalidProps s k_cache_upstream_ttl) []]
     ++ errorsFor s k_cache_upstream_ttl ++ [El small [] [Txt (t "settings.cache_ttl_hint")]]).

Definition log_fields (s : State) : list (node Event) :=
  [El label ["className" =: "check-field"]
     [El input ["type" =: "checkbox"; "checked" =: bool_str (fd_query_log_enabled (formData s));
                OnCheck SetQueryLog] [];
      El span [] [Txt (t "settings.enable_query_log")]];
   El label ["className" =: "field"]
     ([El span [] [Txt (t "settings.log_level")];
       El select (["value" =: fd_log_level (formData s);
                   OnSelect (map (SetField k_log_level) logLevelOptions)] ++ invalidProps s k_log_level)
         (each logLevelOptions (fun level => [El option_ ["value" =: level] [Txt level]]))]
      ++ errorsFor s k_log_level)].

Definition save_bar (s : State) : node Event :=
  El div ["className" =: "save-bar"]
    (when_some (message_ s) (fun m =>
       [El div ["className" =: ("notice " +:+ (if m_error m then "error" else "success")); "role" =: "alert"]
          [Icon (if m_error m then "AlertCircle" else "CheckCircle") 16; Txt (m_text m)]])
     ++ [El button ["className" =: "button"; OnClick ClickCheck; Disabled (saving s)]
           [Icon "ListChecks" 15; Txt (t "settings.check")];
         El button ["className" =: "button primary"; OnClick ClickSave; Disabled (saving s)]
           [Icon "Save" 15; Txt (if saving s then t "settings.saving" else t "settings.save_configuration")]]).

Definition config_panel (s : State) : node Event :=
  let f := formData s in
  El section ["className" =: "panel"]
    [El div ["className" =: "panel-heading"]
       [El div [] [El h2 [] [Txt (t "settings.server_configuration")]; El p_ [] [Txt (t "settings.edit_hint")]]];
     card "settings.dns_section"
       [text_field s k_dns_listen (fd_dns_listen f) (t "settings.dns_listen_label") "127.0.0.1:53, [::1]:53"
          (t "settings.dns_listen_warning");
        text_field s k_dns_upstreams (fd_dns_upstreams f) (t "settings.upstreams_label") "1.1.1.1:53, 9.9.9.9:53"
          (t "settings.upstreams_hint");
        text_field s k_dns_allowed_clients (fd_dns_allowed_clients f) (t "settings.allowed_clients_label")
          "127.0.0.0/8, ::1/128" (t "settings.allowed_clients_hint")];
     card "settings.cache_section" [ttl_field s];
     card "settings.web_section"
       [text_field s k_http_listen (fd_http_listen f) (t "settings.web_listen_label") "127.0.0.1:8080"
          (t "settings.web_listen_warning");
        text_field s k_http_allowed_hosts (fd_http_allowed_hosts f) (t "settings.allowed_hosts_label")
          "localhost, 127.0.0.1, ::1" (t "settings.allowed_hosts_hint")];
     card "settings.logging_section" (log_fields s);
     save_bar s].

(** A rate input: 0 shows as empty, and an empty input is 0. *)
Definition rate_field (label_ : string) (v : jsnum) (f : jsnum -> RateLimitSettings) : node Event :=
  El label []
    [Txt (t label_);
     El input ["type" =: "number"; "min" =: "1"; "max" =: "100000";
               "value" =: (if jsnum_truthy v then num_str v else "");
               OnChange (fun x => SetRateLimit (f (if String.eqb x "" then num 0 else Number x)))] []].

Definition rate_fields (s : State) (r : RateLimitSettings) : node Event :=
  El fieldset ["className" =: "rate-limit-fieldset"]
    [El div ["className" =: "panel-body"]
       [El div ["className" =: "rate-limit-grid"]
          [El label ["className" =: "check-row"]
             [El input ["type" =: "checkbox"; "checked" =: bool_str (rl_enabled r);
                        OnCheck (fun b => SetRateLimit (r <| rl_enabled := b |>))] [];
              Txt (t "settings.rate_limit_enabled")];
           rate_field "settings.rate_limit_global_qps" (global_qps r) (fun x => r <| global_qps := x |>);
           rate_field "settings.rate_limit_client_qps" (client_qps r) (fun x => r <| client_qps := x |>);
           rate_field "settings.rate_limit_burst" (rate_limit_burst r) (fun x => r <| rate_limit_burst := x |>)]];
     El div ["className" =: "save-bar"]
       (when (truthy (rateLimitError s))
          [El p_ ["className" =: "notice error"; "role" =: "alert"] [Txt (rateLimitError s)]]
        ++ when (rateLimitSaved s)
             [El p_ ["className" =: "notice success"; "role" =: "status"] [Txt (t "settings.rate_limit_saved")]]
        ++ [El button ["className" =: "button primary"; OnClick ClickSaveRateLimit] [Txt (t "settings.save")]])].

Definition rate_status (r : RateLimitStatus) : node Event :=
  El p_ ["role" =: "status"; "className" =: "subtle-badge"]
    [Txt (t "settings.rate_limit_rejected_total" +:+ ": " +:+ jsnum_locale language (rejected_total r));
     Txt (match last_rejected_at r with
          | None | Some EmptyString => ""
          | Some at_ => " · " +:+ t "settings.rate_limit_last_rejected" +:+ ": " +:+ date_locale language at_
          end)].

Definition rate_panel (s : State) : node Event :=
  El section ["className" =: "panel"]
    (El div ["className" =: "panel-heading"]
       (El div [] [El h2 [] [Txt (t "settings.rate_limiting")]; El p_ [] [Txt (t "settings.rate_limit_hint")]]
        :: when_some (rateLimitStatus s) (fun r => [rate_status r]))
     :: (if loadingRateLimit s then [Loading [Txt (t "settings.rate_limit_loading")]]
         else match rateLimit s with
              | Some r => [rate_fields s r]
              | None => when (truthy (rateLimitError s))
                          [El p_ ["className" =: "notice error"; "role" =: "alert"] [Txt (rateLimitError s)]]
              end)).

Definition view (p : Props) (s : State) : list (node Event) :=
  [El div ["className" =: "settings-layout"] [preferences_panel; config_panel s; rate_panel s]].

Definition page : component Props State Event :=
  mkComponent init view handle
    [effect_once (fun _ _ => false) (fun _ _ => Some (run_top load_rate_limit));
     mkEffect (fun _ _ => false) (fun _ _ => Some (run_top poll)) (fun _ _ => run_top poll)]
    (fun s => s).
End Page.
End Settings.

(** * Theorems *)

Module SettingsFacts.
Import Settings.

(** ** Field errors *)

(** The path under which the API reports errors on what an input edits. *)
Definition input_path (k : FormKey) : string :=
  match k with
  | k_dns_listen => "dns.listen"
  | k_dns_upstreams => "dns.upstreams"
  | k_dns_allowed_clients => "dns.allowed_clients"
  | k_cache_upstream_ttl => "cache.upstream_ttl"
  | k_http_listen => "http.listen"
  | k_http_allowed_hosts => "http.allowed_hosts"
  | k_query_log_enabled => "query_log.enabled"
  | k_log_level => "log_level"
  end.

(** The path of an entry of a list, from its index as written. *)
Definition entry_path (path index : string) : string := path +:+ "[" +:+ index +:+ "]".

(** What an error adds to the messages of the input [k]: its message when it is
    on the whole setting, the message with the number of the entry, counted from
    1, when it is on the entry with index [n], and nothing when its path is
    neither. *)
Inductive adds (label_ : string) (k : FormKey) : FieldError -> list string -> Prop :=
| adds_setting text : adds label_ k (mkFieldError (input_path k) text) [text]
| adds_entry n text :
    (0 <= n < 2 ^ 52 - 1)%Z ->
    adds label_ k (mkFieldError (entry_path (input_path k) (StringZ n)) text)
      [label_ +:+ " " +:+ StringZ (n + 1) +:+ ": " +:+ text]
| adds_nothing path text :
    path <> input_path k ->
    (forall d, truthy d = true -> is_dec d = true -> path <> entry_path (input_path k) d) ->
    adds label_ k (mkFieldError path text) [].

Lemma field_keys_path path k : assoc path FIELD_KEYS = Some k <-> path = input_path k.
Proof.
  split; [|intros ->; by destruct k]. unfold FIELD_KEYS. cbn [assoc]. intros Hk.
  repeat match goal with
  | H : (if String.eqb path ?p then _ else _) = _ |- _ =>
      destruct (String.eqb_spec path p) as [->|_]; [by injection H as <-|]
  end.
  done.
Qed.

Fixpoint all_path (s : string) : bool :=
  match s with "" => true | String c s' => is_path_char c && all_path s' end.

Lemma take_path_app path r :
  all_path path = true -> match r with String c _ => is_path_char c = false | "" => True end ->
  take_path (path +:+ r) = (path, r).
Proof.
  intros Hp Hr. induction path as [|c path IH].
  - cbn. destruct r as [|c r]; [done|]. cbn. by rewrite Hr.
  - cbn in Hp |- *. apply andb_prop in Hp as [Hc Hp]. by rewrite Hc, IH.
Qed.

(** The path of a list entry, as the API writes it. *)
Lemma parse_field_index path d :
  all_path path = true -> truthy path = true -> truthy d = true -> is_dec d = true ->
  parse_field (path +:+ "[" +:+ d +:+ "]") = Some (path, Some d).
Proof.
  intros Hp Ht Hd Hdec. unfold parse_field. rewrite take_path_app by done. rewrite Ht. cbn [negb].
  cbn [String.append]. unfold parse_index. change (code "[" =? 91)%nat with true.
  rewrite endsWith_append. change 1 with (String.length "]"). rewrite slice_end_append, Hd, Hdec. done.
Qed.

Lemma input_path_ok k : all_path (input_path k) = true /\ truthy (input_path k) = true.
Proof. by destruct k. Qed.

(** Conversely, a path that parses is a path, or a path and an index. *)
Lemma take_path_split f a b : take_path f = (a, b) -> f = a +:+ b.
Proof.
  revert a b. induction f as [|c f IH]; intros a b; cbn [take_path]; [by intros [= <- <-]|].
  destruct (is_path_char c); [|by intros [= <- <-]]. destruct (take_path f) as [a' b'].
  intros [= <- <-]. cbn [String.append]. by rewrite (IH a' b' eq_refl).
Qed.

Lemma parse_index_Some r d :
  parse_index r = Some d -> r = "[" +:+ d +:+ "]" /\ truthy d = true /\ is_dec d = true.
Proof.
  destruct r as [|c r]; [done|]. cbn [parse_index]. destruct (code c =? 91)%nat eqn:Ec; [|done]. cbn [andb].
  destruct (endsWith "]" r) eqn:Ee; [|done]. apply endsWith_split in Ee as [a ->].
  change 1 with (String.length "]"). rewrite slice_end_append. cbv zeta.
  destruct (truthy a && is_dec a) eqn:Ed; [|done].
  intros [= <-]. apply andb_prop in Ed as [? ?]. split; [|done]. apply Nat.eqb_eq in Ec.
  replace c with "["%char; [done|]. apply (f_equal Ascii.ascii_of_nat) in Ec. unfold code in Ec.
  by rewrite Ascii.ascii_nat_embedding in Ec.
Qed.

Lemma parse_field_Some f path index :
  parse_field f = Some (path, index) ->
  match index with
  | None => f = path
  | Some d => f = entry_path path d /\ truthy d = true /\ is_dec d = true
  end.
Proof.
  unfold parse_field. destruct (take_path f) as [a b] eqn:Et. apply take_path_split in Et as ->.
  destruct (negb (truthy a)); [done|]. destruct b as [|c b]; [intros [= <- <-]; by rewrite append_nil_r|].
  destruct (parse_index (String c b)) as [d|] eqn:Ei; [|done]. intros [= <- <-].
  apply parse_index_Some in Ei as (-> & ? & ?). done.
Qed.

(** One error, one step. *)
Lemma group_step_adds label_ out_ item k texts :
  adds label_ k item texts -> group_step label_ out_ item k = (out_ k ++ texts)%list.
Proof.
  destruct 1 as [text|n text Hn|path text Hp Hd]; unfold group_step; cbn [field message].
  - assert (parse_field (input_path k) = Some (input_path k, None)) as -> by (by destruct k).
    rewrite (proj2 (field_keys_path _ k)) by done. unfold push. by rewrite bool_decide_true.
  - destruct (input_path_ok k), (StringZ_trim n ltac:(lia)). unfold entry_path.
    rewrite parse_field_index by (done || apply StringZ_dec; lia).
    rewrite (proj2 (field_keys_path _ k)) by done. unfold push, error_text.
    by rewrite bool_decide_true, num_succ_StringZ by done.
  - rewrite app_nil_r. destruct (parse_field path) as [[q index]|] eqn:Eq; [|done].
    destruct (assoc q FIELD_KEYS) as [k'|] eqn:Ek; [|done]. apply field_keys_path in Ek as ->.
    unfold push. case_bool_decide as Hk; [|done]. subst k'. apply parse_field_Some in Eq.
    destruct index as [d|]; [|done]. destruct Eq as (Eq & Ht & Hdec). by destruct (Hd d).
Qed.

Lemma group_adds label_ fields texts k out_ :
  Forall2 (adds label_ k) fields texts -> fold_left (group_step label_) fields out_ k = (out_ k ++ concat texts)%list.
Proof.
  intros Hf. revert out_. induction Hf as [|item l fields texts Hi _ IH]; intros out_; cbn [fold_left concat].
  - by rewrite app_nil_r.
  - by rewrite IH, (group_step_adds _ _ _ _ _ Hi), <- app_assoc.
Qed.

(** ** The form and the configuration *)

(** The lists a form can show without loss, and a TTL in range. *)
Definition plain_config (c : Api.Config) : Prop :=
  Forall (fun s => is_entry s = true) (dns_cfg_listen (cfg_dns c)) /\
  Forall (fun s => is_entry s = true) (upstreams (cfg_dns c)) /\
  Forall (fun s => is_entry s = true) (allowed_clients (cfg_dns c)) /\
  Forall (fun s => is_entry s = true) (http_allowed_hosts (cfg_http c)) /\
  (0 <= upstream_ttl (cfg_cache c) <= 604800)%Z.

Lemma ttl_valid_StringZ n : (0 <= n <= 604800)%Z -> ttl_valid (StringZ n) = true.
Proof.
  intros Hn. unfold ttl_valid. destruct (StringZ_trim n) as [Ht Htr]; [lia|].
  pose proof (Number_StringZ n ltac:(lia)) as Hr.
  rewrite Ht, Htr, StringZ_dec by lia. unfold isInteger. rewrite Hr, (num_gtb_int _ _ _ Hr). cbn.
  by replace (604800 <? n)%Z with false by lia.
Qed.

(** C18: opening the settings and saving without a change sends the running
    configuration back unchanged, with every list entry, the TTL and the parts
    the form does not show. *)
Theorem settings_unchanged c : plain_config c -> candidate c (form_of c) = Some c.
Proof.
  intros (Hl & Hu & Ha & Hh & Httl). unfold candidate, form_of, parseList. cbn [fd_cache_upstream_ttl fd_dns_listen
    fd_dns_upstreams fd_dns_allowed_clients fd_http_listen fd_http_allowed_hosts fd_query_log_enabled fd_log_level].
  rewrite ttl_valid_StringZ by done. rewrite !comma_list_join by done. rewrite Number_StringZ by lia.
  destruct c as [q d ca h lv r]. destruct q, d, ca, h. done.
Qed.

(** The TTL the form accepts is a whole number of seconds up to a week,
    written in digits; anything else is refused and no configuration is built. *)
Theorem settings_ttl base f :
  match candidate base f with
  | Some c => (upstream_ttl (cfg_cache c) <= 604800)%Z /\
              to_integer (Number (fd_cache_upstream_ttl f)) = Some (upstream_ttl (cfg_cache c)) /\
              is_dec (trim (fd_cache_upstream_ttl f)) = true
  | None => ttl_valid (fd_cache_upstream_ttl f) = false
  end.
Proof.
  unfold candidate. destruct (ttl_valid (fd_cache_upstream_ttl f)) eqn:Hv; [|done]. cbn.
  unfold ttl_valid, isInteger in Hv.
  destruct (to_integer (Number (fd_cache_upstream_ttl f))) as [n|] eqn:Hn; cbn in *.
  - rewrite (num_gtb_int _ _ _ Hn) in Hv. destruct_bool_hyps. apply Z.ltb_ge in Hv0. done.
  - by rewrite andb_false_r in Hv.
Qed.

Section Facts.
Context {L : Locale} (t : string -> string) (language : string) (theme : Theme).

(** *** What the view shows *)

Definition attr_value {E} (n : string) (l : list (attr E)) : option string :=
  assoc n (flat_map (fun a => match a with Attr n' v => [(n', v)] | _ => [] end) l).

Fixpoint texts {E} (n : node E) : list string :=
  match n with
  | Txt text => [text]
  | El _ _ kids => flat_map texts kids
  end.

(** The error lists of a view: the id and the messages of each. *)
Fixpoint error_lists {E} (n : node E) : list (string * list string) :=
  match n with
  | Txt _ => []
  | El _ attrs kids =>
      ((if String.eqb (attr_value "className" attrs ?? "") "field-error"
        then [(attr_value "id" attrs ?? "", flat_map texts kids)] else [])
       ++ flat_map error_lists kids)%list
  end.

(** The inputs marked as invalid: the value of each, and the id of the list that
    describes it. *)
Fixpoint invalid_inputs {E} (n : node E) : list (string * string) :=
  match n with
  | Txt _ => []
  | El _ attrs kids =>
      (match attr_value "aria-invalid" attrs, attr_value "aria-describedby" attrs with
       | Some "true", Some id => [(attr_value "value" attrs ?? "", id)]
       | _, _ => []
       end ++ flat_map invalid_inputs kids)%list
  end.

(** The inputs of the form from top to bottom, but for the checkbox of the query
    log: the id of each one's error list, what it edits and the text in it. *)
Definition inputs (f : ConfigFormData) : list (string * FormKey * string) :=
  [("error-dns_listen", k_dns_listen, fd_dns_listen f);
   ("error-dns_upstreams", k_dns_upstreams, fd_dns_upstreams f);
   ("error-dns_allowed_clients", k_dns_allowed_clients, fd_dns_allowed_clients f);
   ("error-cache_upstream_ttl", k_cache_upstream_ttl, fd_cache_upstream_ttl f);
   ("error-http_listen", k_http_listen, fd_http_listen f);
   ("error-http_allowed_hosts", k_http_allowed_hosts, fd_http_allowed_hosts f);
   ("error-log_level", k_log_level, fd_log_level f)].

Lemma errors_texts (l : list string) :
  flat_map (@texts Event) (each l (fun text => [El span [] [Txt text]])) = l.
Proof. unfold each. induction l as [|x l IH]; [done|]. cbn in *. by rewrite IH. Qed.

Lemma errors_no_lists (l : list string) :
  flat_map (@error_lists Event) (each l (fun text => [El span [] [Txt text]])) = [].
Proof. unfold each. by induction l. Qed.

Lemma errorsFor_lists st k :
  flat_map error_lists (errorsFor st k)
    = if nonempty (fieldErrors st k) then [("error-" +:+ key_str k, fieldErrors st k)] else [].
Proof.
  unfold errorsFor, when. destruct (nonempty (fieldErrors st k)); [|done]. cbn.
  rewrite errors_texts, errors_no_lists. done.
Qed.

Lemma errorsFor_inputs st k : flat_map invalid_inputs (errorsFor st k) = [].
Proof.
  unfold errorsFor, when. destruct (nonempty (fieldErrors st k)); [|done]. cbn. rewrite app_nil_r.
  unfold each. induction (fieldErrors st k); [done|cbn; done].
Qed.

Ltac field_close :=
  cbn; rewrite ?flat_map_app, ?errorsFor_lists, ?errorsFor_inputs; unfold invalidProps;
  destruct (nonempty _); reflexivity.

Lemma text_field_shows st k v a b c :
  error_lists (text_field st k v a b c) = flat_map error_lists (errorsFor st k) /\
  invalid_inputs (text_field st k v a b c)
    = if nonempty (fieldErrors st k) then [(v, "error-" +:+ key_str k)] else [].
Proof. split; field_close. Qed.

Lemma ttl_field_shows st :
  error_lists (ttl_field t st) = flat_map error_lists (errorsFor st k_cache_upstream_ttl) /\
  invalid_inputs (ttl_field t st)
    = if nonempty (fieldErrors st k_cache_upstream_ttl)
      then [(fd_cache_upstream_ttl (formData st), "error-cache_upstream_ttl")] else [].
Proof. split; field_close. Qed.

Lemma log_fields_show st :
  flat_map error_lists (log_fields t st) = flat_map error_lists (errorsFor st k_log_level) /\
  flat_map invalid_inputs (log_fields t st)
    = if nonempty (fieldErrors st k_log_level) then [(fd_log_level (formData st), "error-log_level")] else [].
Proof. split; field_close. Qed.

Lemma save_bar_quiet st : error_lists (save_bar t st) = [] /\ invalid_inputs (save_bar t st) = [].
Proof. unfold save_bar. destruct (message_ st) as [[[] m]|]; split; reflexivity. Qed.

Lemma rate_panel_quiet st : error_lists (rate_panel t language st) = [] /\ invalid_inputs (rate_panel t language st) = [].
Proof.
  unfold rate_panel, rate_fields. destruct (rateLimitStatus st), (loadingRateLimit st), (rateLimit st),
    (truthy (rateLimitError st)), (rateLimitSaved st); split; reflexivity.
Qed.

Lemma settings_view_shows p st :
  flat_map error_lists (view t language theme p st)
    = flat_map (fun '(id, k, _) => if nonempty (fieldErrors st k) then [(id, fieldErrors st k)] else [])
        (inputs (formData st)) /\
  flat_map invalid_inputs (view t language theme p st)
    = flat_map (fun '(id, k, v) => if nonempty (fieldErrors st k) then [(v, id)] else []) (inputs (formData st)).
Proof.
  unfold view, config_panel, card. cbn [flat_map error_lists invalid_inputs].
  destruct (ttl_field_shows st) as [Ht Ht'], (log_fields_show st) as [Hl Hl'], (save_bar_quiet st) as [Hb Hb'],
    (rate_panel_quiet st) as [Hr Hr'].
  rewrite Ht, Ht', Hl, Hl', Hb, Hb', Hr, Hr'.
  repeat match goal with |- context [text_field ?s ?k ?v ?a ?b ?c] =>
    destruct (text_field_shows s k v a b c) as [-> ->] end.
  rewrite !errorsFor_lists. cbn. by rewrite !app_nil_r, <- ?app_assoc.
Qed.

(** C19: every field error of the API reaches its input. Of the errors a reply
    brings, an input gets, in their order, exactly these messages: the message of
    an error on the whole setting, the message with the number of the entry
    (counted from 1) of an error on one entry of a list, and nothing of an error
    with another path. The page then shows a list of messages for exactly the
    inputs that have some, from top to bottom, and marks exactly these inputs as
    invalid and described by their list; the checkbox of the query log is the one
    input that shows none. *)
Theorem settings_field_errors fields label_ p s added :
  (forall k, Forall2 (adds label_ k) fields (added k)) ->
  let s' := s <| fieldErrors := groupFieldErrors fields label_ |> in
  flat_map error_lists (view t language theme p s')
    = flat_map (fun '(id, k, _) => if nonempty (concat (added k)) then [(id, concat (added k))] else [])
        (inputs (formData s)) /\
  flat_map invalid_inputs (view t language theme p s')
    = flat_map (fun '(id, k, v) => if nonempty (concat (added k)) then [(v, id)] else []) (inputs (formData s)).
Proof.
  intros Ha s'. assert (forall k, fieldErrors s' k = concat (added k)) as He.
  { intros k. exact (group_adds label_ fields (added k) k no_errors (Ha k)). }
  destruct (settings_view_shows p s') as [-> ->].
  split; apply flat_map_ext; intros [[id k] v]; by rewrite He.
Qed.

(** C20: saving the configuration: an invalid form sends nothing and marks the
    TTL input; a valid one sends it once and sets the saving flag, which every
    outcome clears; success says so, errors on fields are shown at their
    inputs, and other errors as a message. *)
Theorem settings_save e p c :
  let r := advance e (handle t p c ClickSave) c in
  match candidate (snap_config (data p)) (formData c) with
  | None => seg_todo r = Done /\ seg_out r = [] /\ saving (seg_state r) = saving c /\
            fieldErrors (seg_state r) k_cache_upstream_ttl = [t "settings.cache_ttl_invalid"]
  | Some cfg =>
      let call := saveConfig cfg false in
      exists k, r = Seg (Wait (call e) k) (seg_state r) (map Sent (sent (call e))) [] /\
        saving (seg_state r) = true /\
        forall e' s reply, let r' := advance e' (k reply) s in
          seg_todo r' = Done /\ seg_out r' = [] /\ saving (seg_state r') = false /\
          match reply with
          | inl _ => message_ (seg_state r') = Some (mkMessage false (t "settings.save_success"))
          | inr (APIError _ _ (f :: fs) _) =>
              fieldErrors (seg_state r') = groupFieldErrors (f :: fs) (t "settings.entry")
          | inr x => message_ (seg_state r') = Some (mkMessage true (error_message x (t "settings.save_failed")))
          end
  end.
Proof.
  unfold handle, handleSave, buildConfig.
  destruct (candidate (snap_config (data p)) (formData c)) as [cfg|].
  - unfold begin_saving, end_saving, show, showFieldErrors. prog_cbv. eexists. split; [reflexivity|].
    split; [reflexivity|]. intros e' s [a|[st m [|f fs] cd|m|]]; repeat split; reflexivity.
  - repeat split; reflexivity.
Qed.
End Facts.

(** ** Concrete instances *)

Lemma settings_unchanged_witness : candidate small_config (form_of small_config) = Some small_config.
Proof. apply (settings_unchanged small_config). repeat split; cbn; try lia; repeat constructor. Defined.

(** A reply with an error on the second upstream, one on the log level and one on
    a setting the form does not edit. *)
Definition some_errors : list FieldError :=
  [mkFieldError "dns.upstreams[1]" "not an address"; mkFieldError "log_level" "unknown level";
   mkFieldError "dns.timeout" "too long"].
Definition some_added (k : FormKey) : list (list string) :=
  match k with
  | k_dns_upstreams => [["Entry 2: not an address"]; []; []]
  | k_log_level => [[]; ["unknown level"]; []]
  | _ => [[]; []; []]
  end.

Lemma settings_field_errors_witness :
  flat_map error_lists (@view plain_locale plain_text "en" th_dark (mkProps small_snapshot)
    ((init (mkProps small_snapshot)) <| fieldErrors := groupFieldErrors some_errors "Entry" |>))
  = [("error-dns_upstreams", ["Entry 2: not an address"]); ("error-log_level", ["unknown level"])].
Proof.
  destruct (@settings_field_errors plain_locale plain_text "en" th_dark some_errors "Entry" (mkProps small_snapshot)
    (init (mkProps small_snapshot)) some_added) as [H _]; [|exact H].
  intros k. destruct k; (constructor; [|constructor; [|constructor; [|constructor]]]).
  all: first [ exact (adds_entry "Entry" k_dns_upstreams 1 "not an address" ltac:(lia))
             | exact (adds_setting "Entry" k_log_level "unknown level")
             | apply adds_nothing; [discriminate | intros d _ _; discriminate] ].
Defined.
End SettingsFacts.
