(* ===== verification/Session.v ===== *)
(** * The session: sign-in and the shared snapshot

    [authenticate], [currentUser], [logout] and [loadSnapshot] of
    web/src/api.ts, web/src/AuthGate.tsx and web/src/useSnapshot.ts. *)
From S2P Require Import Prelude JsString JsNumber Http Api Resources React Runtime Components.
Local Open Scope velora_scope.
Local Open Scope prog_scope.
Local Open Scope string_scope.

(** ** api.ts: the calls that set the CSRF token *)

Section Calls.
Context {S : Type}.

Definition login_request (username_ password : string) : api AuthUser :=
  request AuthUser "/api/v1/auth/login" false "POST"
    (with_body (JObj [("username", JStr username_); ("password", JStr password)])).
Definition authenticate (username_ password : string) : M S AuthUser :=
  user <- await (login_request username_ password) ;;
  emit (SetCSRFToken (csrf_token user)) ;;
  ret user.

Definition currentUser : M S AuthUser :=
  user <- await (get AuthUser "/api/v1/auth/me" false) ;;
  emit (SetCSRFToken (csrf_token user)) ;;
  ret user.

Definition logout : M S unit :=
  await (post_empty unit "/api/v1/auth/logout") ;;
  emit (SetCSRFToken "").

(** The snapshot is stamped when its four requests are answered. *)
Definition loadSnapshot (signal : bool) : M S Snapshot :=
  r <- await (snapshot_requests signal) ;;
  e <- ask ;;
  ret (mkSnapshot (fst (fst (fst r))) (snd (fst (fst r))) (snd (fst r)) (snd r) (now e)).
End Calls.

(** ** AuthGate.tsx *)

Module AuthGate.

(** [username_input] and [password_input]: what the uncontrolled inputs hold
    when the form is submitted. *)
Record State : Set := mkState {
  user : option AuthUser;
  checking : bool;
  submitting : bool;
  error : string;
  username_input : string;
  password_input : string }.
#[export] Instance eta_State : Eta State := fun s =>
  mkState (user s) (checking s) (submitting s) (error s) (username_input s) (password_input s).

Definition init (_ : unit) : State := mkState None true false "" "" "".

Inductive Event : Set := TypeUsername (v : string) | TypePassword (v : string) | Login.

Section Gate.
Context (t : string -> string).

Definition check : M State unit :=
  try_finally
    (try_catch (u <- currentUser ;; update (fun s => s <| user := Some u |>)) (fun _ => ret tt))
    (update (fun s => s <| checking := false |>)).

(** Only the API's own errors are shown word by word. *)
Definition login_error (x : exn) : string :=
  match x with APIError _ msg _ _ => msg | _ => t "auth.sign_in_failed" end.

Definition login (c : State) : M State unit :=
  update (fun s => s <| error := "" |>) ;;
  update (fun s => s <| submitting := true |>) ;;
  try_finally
    (try_catch
       (u <- authenticate (username_input c) (password_input c) ;; update (fun s => s <| user := Some u |>))
       (fun x => update (fun s => s <| error := login_error x |>)))
    (update (fun s => s <| submitting := false |>)).

Definition handle (p : unit) (c : State) (ev : Event) : prog State :=
  run_top
    match ev with
    | TypeUsername v => update (fun s => s <| username_input := v |>)
    | TypePassword v => update (fun s => s <| password_input := v |>)
    | Login => login c
    end.

Definition brand_mark : node Event :=
  El span ["className" =: "auth-brand"]
    [El img ["src" =: "/favicon.svg"; "width" =: "36"; "height" =: "36"; "alt" =: ""] [];
     El span [] [Txt "Velora "; El span [] [Txt "DNS"]]].

Definition login_form (s : State) : node Event :=
  El form ["className" =: "auth-card"; OnSubmit Login]
    [El h1 [] [Txt (t "auth.sign_in_title")];
     El div ["className" =: "auth-body"]
       (when (truthy (error s))
          [El div ["className" =: "notice error"; "role" =: "alert"] [Icon "AlertCircle" 16; Txt (error s)]]
        ++ [El label [] [Txt (t "auth.username");
                         El input ["name" =: "username"; "autoComplete" =: "username"; flag "required";
                                   flag "autoFocus"; OnChange TypeUsername] []];
            El label [] [Txt (t "auth.password");
                         El input ["name" =: "password"; "type" =: "password";
                                   "autoComplete" =: "current-password"; flag "required";
                                   OnChange TypePassword] []];
            El button ["className" =: "button primary"; "type" =: "submit"; Disabled (submitting s)]
              [Txt (t "auth.sign_in")]])].

Definition view (p : unit) (s : State) : list (node Event) :=
  if checking s then
    [El main_ ["className" =: "auth-shell"]
       [El div ["className" =: "auth-card"] [Loading [Txt (t "auth.checking")]]]]
  else match user s with
       | None => [El main_ ["className" =: "auth-shell"] [brand_mark; login_form s]]
       | Some _ => [Mount "App"]
       end.

Definition page : component unit State Event :=
  mkComponent init view handle [effect_once (fun _ _ => false) (fun _ _ => Some (run_top check))] (fun s => s).
End Gate.
End AuthGate.

(** ** useSnapshot.ts *)

Module UseSnapshot.

Record Hook : Set := mkHook {
  data : option Snapshot;
  error : string;
  revision : Z;
  history : list jsnum }.
#[export] Instance eta_Hook : Eta Hook := fun s => mkHook (data s) (error s) (revision s) (history s).

Definition init : Hook := mkHook None "" 0 [].

(** [v.slice(-29)] *)
Definition last_29 {A} (l : list A) : list A := drop (length l - 29) l.

Section Hook.
Context (t : string -> string).
Context {S : Type} (set_hook : (Hook -> Hook) -> S -> S).

Definition set (f : Hook -> Hook) : M S unit := update (set_hook f).

Definition poll : M S unit :=
  try_finally
    (try_catch
       (next <- loadSnapshot true ;;
        e <- ask ;;
        if aborted e then ret tt else
        set (fun h => h <| data := Some next |>) ;;
        set (fun h => h <| error := "" |>) ;;
        set (fun h => h <| history ::= fun v => (last_29 v ++ [queries_per_second (snap_stats next)])%list |>))
       (fun x => e <- ask ;;
          when_do (negb (aborted e))
            (set (fun h => h <| error := error_message x (t "app.error.reach_server") |>))))
    (e <- ask ;; when_do (negb (aborted e)) (again 5000)).

Definition refresh : M S unit := set (fun h => h <| revision ::= Z.add 1 |>).
End Hook.
End UseSnapshot.

(** * Theorems *)

Module AuthGateFacts.
Import AuthGate.
Section Facts.
Context (t : string -> string).

(** The token the client's module variable was last given. *)
Fixpoint last_token (o : list output) : option string :=
  match o with
  | [] => None
  | x :: o' => match last_token o' with
               | Some tok => Some tok
               | None => match x with SetCSRFToken tok => Some tok | _ => None end
               end
  end.

Lemma last_token_sent o l : last_token (o ++ map Sent l) = last_token o.
Proof.
  assert (last_token (map Sent l) = None) as Hn.
  { induction l as [|q l IH]; [done|]. cbn. by rewrite IH. }
  induction o as [|x o IH]; [exact Hn|]. cbn. by rewrite IH.
Qed.

Lemma last_token_set o tok : last_token (o ++ [SetCSRFToken tok]) = Some tok.
Proof. induction o as [|x o IH]; [done|]. cbn. by rewrite IH. Qed.

(** A signed-in user's token is the one in use. *)
Definition token_inv (_ : unit) (s : State) (o : list output) : Prop :=
  forall u, user s = Some u -> last_token o = Some (csrf_token u).

Ltac token_close :=
  unfold token_inv in *; intros; rewrite ?last_token_sent, ?last_token_set in *; cbn in *;
  simplify_eq; eauto.

Lemma accounted_token p : accounted (page t) any_props token_inv p.
Proof.
  constructor; cbn [c_init c_view c_handle c_effects c_unmount page]; try done.
  - intros p' s o ev Hi _. destruct ev; unfold handle, login, authenticate; hist_split; token_close.
  - intros ef p' s o q [<-|[]] Hi [= <-]. unfold check, currentUser. hist_split; token_close.
  - by intros ef p' s [<-|[]] p'' s' o' H.
Qed.

(** C7: the session's token: in every run of the sign-in gate, whenever a user
    is signed in, the CSRF token the client last stored is that user's, whether
    the session was found on start or came from the form. *)
Theorem authgate_token p c u :
  reachable (page t) any_props p c -> user (state c) = Some u -> last_token (out c) = Some (csrf_token u).
Proof. intros Hc Hu. exact (accounted_reachable _ _ _ _ _ (accounted_token p) Hc u Hu). Qed.


End Facts.

(** ** Concrete instances *)

Definition plain_page : component unit State Event := page plain_text.
Definition some_user : AuthUser := mkAuthUser "ada" admin "tok" None None.

(** The gate after it found a session. *)
Definition signed_in : config unit State :=
  Config tt (mkState (Some some_user) false false "" "" "") true [Task (Some 0) true Done Done]
    [Some (tt, init tt)]
    (map Sent (sent (get AuthUser "/api/v1/auth/me" false (calm_env false))) ++ [SetCSRFToken "tok"]).

Lemma signed_in_reachable : reachable plain_page any_props tt signed_in.
Proof.
  pose proof (reach_effect plain_page any_props tt _ (calm_env false) (reach_start _ _ tt) 0 _ _
    eq_refl eq_refl eq_refl eq_refl eq_refl) as H.
  exact (reach_reply _ _ _ _ (calm_env false) H 0 _ _ _ _ eq_refl eq_refl eq_refl (OkResponse 200 (inl some_user))).
Qed.

Lemma authgate_token_witness : last_token (out signed_in) = Some "tok".
Proof. exact (authgate_token plain_text tt signed_in some_user signed_in_reachable eq_refl). Defined.
End AuthGateFacts.
