(* ===== verification/CommandPalette.v ===== *)
(** * The command palette: web/src/components/CommandPalette.tsx

    The dialog behind Ctrl+K: a filtered list of pages and actions, with the
    results of a server search for the same words. *)
From S2P Require Import Prelude JsString JsNumber Url Http Api Resources React Runtime Components Preferences.
Local Open Scope velora_scope.
Local Open Scope prog_scope.
Local Open Scope string_scope.

Module CommandPalette.

(** What choosing an item does ([run]). *)
Inductive Run : Set := RunNavigate (to_ : string) | RunTheme (next : Theme) | RunSignOut.

Definition run_output (r : Run) : output :=
  match r with
  | RunNavigate link => Navigate link
  | RunTheme next => CallProp ("setTheme " +:+ theme_code next)
  | RunSignOut => CallProp "signOut"
  end.

Record PaletteItem : Set := mkItem {
  id : string; label_ : string; hint : option string; icon_ : string; keywords : option string; run : Run }.

Record Option : Set := mkOption { item : PaletteItem; group : string }.

Definition KIND_ICONS (k : SearchKind) : string :=
  match k with
  | k_zone => "Globe2" | k_record => "FileText" | k_client => "MonitorSmartphone"
  | k_rewrite => "Replace" | k_forwarding => "Route" | k_blocklist => "Ban"
  end.

Definition DEBOUNCE_MS : Z := 200.

(** Every word of the query occurs in the item's texts, whatever the case. *)
Definition matches (query : string) (values : list (option string)) : bool :=
  let haystack :=
    toLowerCase (joinStrings " " (filterb truthy (map (fun v => v ?? "") values))) in
  forallb (fun word => includes word haystack) (split_words (toLowerCase query)).

(** [listId]: the id React gives the list. *)
Record Props : Set := mkProps { pages : list PaletteItem; actions : list PaletteItem; listId : string }.

Record Remote : Set := mkRemote { rem_query : string; rem_results : list SearchResult }.

Record State : Set := mkState {
  query : string;
  active : Z;
  remote : option Remote;
  loading : bool }.
#[export] Instance eta_State : Eta State := fun s => mkState (query s) (active s) (remote s) (loading s).

Definition init (_ : Props) : State := mkState "" 0 None false.

Inductive Event : Set :=
| TypeQuery (v : string)
| PressKey (key : string)
| MoveOver (index : Z)
| ClickOption (o : Option)
| ClickBackdrop.

Section Palette.
Context (t : string -> string).

Definition trimmed (s : State) : string := trim (query s).

(** [trimmed.length >= 2] *)
Definition searchable (s : State) : bool := (2 <=? String.length (trimmed s))%nat.

(** What the debounce timer runs. *)
Definition search_now (text : string) : M State unit :=
  update (fun s => s <| loading := true |>) ;;
  try_finally
    (try_catch
       (results <- await (searchResources text true) ;;
        update (fun s => s <| remote := Some (mkRemote text results) |>))
       (fun _ => e <- ask ;;
          when_do (negb (aborted e)) (update (fun s => s <| remote := Some (mkRemote text []) |>))))
    (e <- ask ;; when_do (negb (aborted e)) (update (fun s => s <| loading := false |>))).

Definition search (text : string) : M State unit := sleep DEBOUNCE_MS ;; search_now text.

Definition search_effect (s : State) : option (prog State) :=
  if searchable s then Some (run_top (search (trimmed s))) else None.

Definition search_changed (a b : Props * State) : bool :=
  negb (String.eqb (trimmed (snd a)) (trimmed (snd b))).

(** The results on hand answer the query in the input. *)
Definition current_results (s : State) : list SearchResult :=
  if searchable s then
    match remote s with
    | Some r => if String.eqb (rem_query r) (trimmed s) then rem_results r else []
    | None => []
    end
  else [].

Definition result_option (i : nat) (r : SearchResult) : Option :=
  mkOption (mkItem ("result-" +:+ StringZ (Z.of_nat i)) (sr_title r) (sr_subtitle r)
              (KIND_ICONS (sr_kind r)) None (RunNavigate (sr_link r)))
    (t ("palette.kind_" +:+ kind_str (sr_kind r))).

Definition listed (s : State) (it : PaletteItem) : bool :=
  negb (truthy (trimmed s)) || matches (trimmed s) [Some (label_ it); keywords it].

Definition options (p : Props) (s : State) : list Option :=
  (map (fun it => mkOption it (t "palette.pages")) (filterb (listed s) (pages p))
   ++ map (fun it => mkOption it (t "palette.actions")) (filterb (listed s) (actions p))
   ++ imap result_option (current_results s))%list.

Definition size (p : Props) (s : State) : Z := Z.of_nat (length (options p s)).

Definition current (p : Props) (s : State) : Z := Z.min (active s) (Z.max (size p s - 1) 0).

Definition choose (o : option Option) : M State unit :=
  match o with
  | None => ret tt
  | Some o => emit (CallProp "onClose") ;; emit (run_output (run (item o)))
  end.

Definition set_active (n : Z) : M State unit := update (fun s => s <| active := n |>).

Definition onKeyDown (p : Props) (c : State) (key : string) : M State unit :=
  let n := size p c in
  if String.eqb key "ArrowDown" then set_active (Z.rem (current p c + 1) (Z.max n 1))
  else if String.eqb key "ArrowUp" then set_active (Z.rem (current p c - 1 + n) (Z.max n 1))
  else if String.eqb key "Home" then set_active 0
  else if String.eqb key "End" then set_active (Z.max (n - 1) 0)
  else if String.eqb key "Enter" then choose (options p c !! Z.to_nat (current p c))
  else if String.eqb key "Escape" then emit (CallProp "onClose")
  else ret tt.

Definition handle (p : Props) (c : State) (ev : Event) : prog State :=
  run_top
    match ev with
    | TypeQuery v => update (fun s => s <| query := v |>) ;; set_active 0
    | PressKey key => onKeyDown p c key
    | MoveOver index => set_active index
    | ClickOption o => choose (Some o)
    | ClickBackdrop => emit (CallProp "onClose")
    end.

(** ** The view *)

Definition searching (s : State) : bool :=
  loading s || (searchable s && negb (match remote s with
                                      | Some r => String.eqb (rem_query r) (trimmed s)
                                      | None => false
                                      end)).

Definition option_id (p : Props) (i : Z) : string := listId p +:+ "-" +:+ StringZ i.

Definition option_body (p : Props) (c : State) (i : Z) (o : Option) : node Event :=
  let here := (i =? current p c)%Z in
  El div ["id" =: option_id p i; "role" =: "option"; "aria-selected" =: bool_str here;
          "className" =: "palette-option"; OnMouse (MoveOver i); OnClick (ClickOption o)]
    ([El span ["className" =: "palette-icon"; "aria-hidden" =: "true"] [Icon (icon_ (item o)) 16];
      El span ["className" =: "palette-text"]
        (El span [] [Txt (label_ (item o))]
         :: when (truthy (hint (item o) ?? "")) [El small [] [Txt (hint (item o) ?? "")]])]
     ++ when here [Icon "CornerDownLeft" 14]).

(** One row per option; a row starts a group when its group differs from the
    one before it. *)
Fixpoint option_rows (p : Props) (c : State) (lastGroup : string) (i : Z) (l : list Option)
    : list (node Event) :=
  match l with
  | [] => []
  | o :: l' =>
      let heading := if String.eqb (group o) lastGroup then "" else group o in
      El li ["role" =: "presentation"]
        (when (truthy heading)
           [El div ["className" =: "palette-group"; "role" =: "presentation"] [Txt heading]]
         ++ [option_body p c i o])
      :: option_rows p c (group o) (i + 1) l'
  end.

Definition input_row (p : Props) (c : State) : node Event :=
  El div ["className" =: "palette-input"]
    ([Icon "Search" 18;
      El input (["role" =: "combobox"; "aria-expanded" =: "true"; "aria-controls" =: listId p;
                 "aria-autocomplete" =: "list"]
                ++ (if nonempty (options p c)
                    then ["aria-activedescendant" =: option_id p (current p c)] else [])
                ++ ["aria-label" =: t "palette.placeholder"; "placeholder" =: t "palette.placeholder";
                    "value" =: query c; OnChange TypeQuery; "spellCheck" =: "false";
                    "autoComplete" =: "off"])%list []]
     ++ when (searching c) [Icon "Loader2" 16]
     ++ [El kbd [] [Txt "Esc"]]).

Definition palette_footer : node Event :=
  El p_ ["className" =: "palette-footer"; "aria-hidden" =: "true"]
    [El span [] [El kbd [] [Txt "↑"]; El kbd [] [Txt "↓"]; Txt (" " +:+ t "palette.navigate")];
     El span [] [El kbd [] [Txt "Enter"]; Txt (" " +:+ t "palette.open")];
     El span [] [El kbd [] [Txt "Ctrl"]; Txt "+"; El kbd [] [Txt "K"]; Txt (" " +:+ t "palette.toggle")]].

Definition view (p : Props) (c : State) : list (node Event) :=
  [El div ["className" =: "palette-backdrop"; OnMouse ClickBackdrop]
     [El div ["className" =: "palette"; "role" =: "dialog"; "aria-modal" =: "true";
              "aria-label" =: t "palette.title"; OnKey PressKey]
        ([input_row p c;
          El ul ["className" =: "palette-list"; "id" =: listId p; "role" =: "listbox";
                 "aria-label" =: t "palette.results"]
            (option_rows p c "" 0 (options p c))]
         ++ when (negb (nonempty (options p c)) && negb (searching c))
              [El p_ ["className" =: "palette-empty"; "role" =: "status"] [Txt (t "palette.no_results")]]
         ++ [palette_footer])]].

Definition scroll_changed (a b : Props * State) : bool :=
  negb (current (fst a) (snd a) =? current (fst b) (snd b))%Z
  || negb (String.eqb (listId (fst a)) (listId (fst b))).

Definition PaletteDialog : component Props State Event :=
  mkComponent init view handle
    [effect_once search_changed (fun _ c => search_effect c);
     effect_once scroll_changed
       (fun p c => Some (run_top (emit (ScrollIntoView (option_id p (current p c))))))]
    (fun s => s).
End Palette.
End CommandPalette.

(** * Theorems *)

Module PaletteFacts.
Import CommandPalette.
Section Facts.
Context (t : string -> string).

Lemma imap_In {A B} (f : nat -> A -> B) l x : In x l -> exists i, In (f i x) (imap f l).
Proof.
  rewrite <- list_elem_of_In. intros H. apply list_elem_of_lookup in H as [i Hi].
  exists i. rewrite <- list_elem_of_In. by apply elem_of_lookup_imap_2.
Qed.

(** The palette lists exactly what answers the words in its input: the
    pages and actions that match them, and, from two characters on, the results
    of a search for these very words; results of an earlier query are not
    listed, whatever order the replies arrive in. *)
Theorem palette_options p s o :
  In o (options t p s) ->
  (In (item o) (pages p ++ actions p) /\ listed s (item o) = true) \/
  exists r l, remote s = Some (mkRemote (trimmed s) l) /\ 2 <= String.length (trimmed s) /\
    In r l /\ run (item o) = RunNavigate (sr_link r).
Proof.
  unfold options. intros H. apply in_app_or in H as [H|H]; [|apply in_app_or in H as [H|H]].
  - apply in_map_iff in H as (it & <- & Hit). apply In_filterb in Hit as [Hin Hl].
    left. split; [|done]. cbn. apply in_or_app. by left.
  - apply in_map_iff in H as (it & <- & Hit). apply In_filterb in Hit as [Hin Hl].
    left. split; [|done]. cbn. apply in_or_app. by right.
  - right. apply In_imap in H as (i & r & Hin & ->). unfold current_results in Hin.
    destruct (searchable s) eqn:Hs; [|done]. destruct (remote s) as [[q l]|]; [|done]. cbn in Hin.
    destruct (String.eqb q (trimmed s)) eqn:Hq; [|done]. apply String.eqb_eq in Hq as ->.
    exists r, l. repeat split; [|done]. by apply Nat.leb_le.
Qed.

Lemma current_range p s :
  (0 <= active s)%Z -> options t p s <> [] -> (0 <= current t p s < size t p s)%Z.
Proof.
  intros Ha Hne. unfold current. assert (0 < size t p s)%Z; [|lia].
  unfold size. destruct (options t p s); [done|]. cbn. lia.
Qed.

(** Keyboard navigation walks the list in a circle: with options on screen,
    the arrow keys move the selection one option down or up and wrap at the
    ends, Home and End go to the first and last option, and the selection never
    leaves the list. *)
Theorem palette_keys e p s key :
  (0 <= active s)%Z -> options t p s <> [] ->
  let n := size t p s in
  let s' := seg_state (advance e (handle t p s (PressKey key)) s) in
  (0 <= current t p s' < n)%Z /\
  (key = "ArrowDown" -> current t p s' = (current t p s + 1) mod n)%Z /\
  (key = "ArrowUp" -> current t p s' = (current t p s - 1) mod n)%Z /\
  (key = "Home" -> current t p s' = 0%Z) /\ (key = "End" -> current t p s' = (n - 1)%Z).
Proof.
  intros Ha Hne n s'. pose proof (current_range p s Ha Hne) as Hc. fold n in Hc.
  assert (forall x, (0 <= x < n)%Z -> current t p (s <| active := x |>) = x) as Hset.
  { intros x Hx. unfold current, size. cbn.
    change (options t p _) with (options t p s). fold (size t p s). fold n. lia. }
  assert (Z.rem (current t p s + 1) (Z.max n 1) = (current t p s + 1) mod n)%Z as Hd.
  { rewrite Z.max_l, Z.rem_mod_nonneg by lia. done. }
  assert (Z.rem (current t p s - 1 + n) (Z.max n 1) = (current t p s - 1) mod n)%Z as Hu.
  { rewrite Z.max_l, Z.rem_mod_nonneg by lia. rewrite <- (Z.mod_add (current t p s - 1) 1) by lia. f_equal. lia. }
  pose proof (Z.mod_pos_bound (current t p s + 1) n ltac:(lia)) as Bd.
  pose proof (Z.mod_pos_bound (current t p s - 1) n ltac:(lia)) as Bu.
  assert (forall x, seg_state (advance e (run_top (set_active x)) s) = s <| active := x |>) as Hadv
    by reflexivity.
  subst s'. unfold handle, onKeyDown. fold n. rewrite Hd, Hu.
  destruct (String.eqb_spec key "ArrowDown") as [->|N1].
  { rewrite Hadv, Hset by lia. split_and!; first [lia | done]. }
  destruct (String.eqb_spec key "ArrowUp") as [->|N2].
  { rewrite Hadv, Hset by lia. split_and!; first [lia | done]. }
  destruct (String.eqb_spec key "Home") as [->|N3].
  { rewrite Hadv, Hset by lia. split_and!; first [lia | done]. }
  destruct (String.eqb_spec key "End") as [->|N4].
  { rewrite Hadv, Hset by lia. split_and!; first [lia | done]. }
  assert (seg_state (advance e (run_top
    (if String.eqb key "Enter" then choose (options t p s !! Z.to_nat (current t p s))
     else if String.eqb key "Escape" then emit (CallProp "onClose") else ret tt)) s) = s) as ->.
  { destruct (String.eqb key "Enter"); [destruct (_ !! _); done|]. by destruct (String.eqb key "Escape"). }
  split_and!; first [lia | done].
Qed.

(** The input takes what the user types. *)
Lemma palette_offers_type p s v : offered (view t p s) (TypeQuery v).
Proof.
  eexists. split; [left; reflexivity|]. right. left. right. left. right. right. left. left.
  exists (OnChange TypeQuery). split; [|split; [apply fires_change|]; cbn; by destruct (nonempty _)].
  apply in_or_app. right. apply in_or_app. right. cbn. tauto.
Qed.

(** C39: the search spinner can stay on for good: when a query is shortened to
    one character while its search is running, the search is aborted, the
    aborted call does not clear the loading flag and no new search starts, so
    with nothing left to run the palette still shows itself as searching. *)
Theorem palette_spinner_stuck :
  exists p c, reachable (PaletteDialog t) any_props p c /\ mounted c = true /\ at_rest (PaletteDialog t) c /\
    query (state c) = "a" /\ searching (state c) = true.
Proof.
  set (p := mkProps [] [] "list"). set (e := calm_env false).
  set (ab := mkState "ab" 0 None false). set (spinning := mkState "ab" 0 None true).
  set (a := mkState "a" 0 None true).
  set (asked := run_top (search_now "ab")). set (sent_ := seg_todo (advance e asked ab)).
  set (idle := Task (S := State) None true Done Done).
  set (scrolled := Task (S := State) (Some 1) true Done Done).
  pose proof (fun c v Hc Hm => reach_event (PaletteDialog t) any_props p c e Hc (TypeQuery v)
    Hm (palette_offers_type _ _ v) eq_refl) as Htype.
  pose proof (fun c i ef prev Hc Hm He Hr Hd =>
    reach_effect (PaletteDialog t) any_props p c e Hc i ef prev Hm He Hr Hd eq_refl) as Heff.
  assert (H1 : reachable (PaletteDialog t) any_props p (Config p ab true [idle] [None; None] []))
    by exact (Htype _ "ab" (reach_start _ _ p) eq_refl).
  assert (H2 : reachable (PaletteDialog t) any_props p (Config p ab true
      [idle; Task (Some 0) true (Sleep DEBOUNCE_MS asked) Done] [Some (p, ab); None] []))
    by exact (Heff _ 0 _ _ H1 eq_refl eq_refl eq_refl eq_refl).
  assert (H3 : reachable (PaletteDialog t) any_props p (Config p ab true
      [idle; Task (Some 0) true (Sleep DEBOUNCE_MS asked) Done; scrolled] [Some (p, ab); Some (p, ab)]
      [ScrollIntoView "list-0"]))
    by exact (Heff _ 1 _ _ H2 eq_refl eq_refl eq_refl eq_refl).
  set (o := seg_out (advance e asked ab)).
  assert (H4 : reachable (PaletteDialog t) any_props p (Config p spinning true
      [idle; Task (Some 0) true sent_ Done; scrolled] [Some (p, ab); Some (p, ab)]
      (ScrollIntoView "list-0" :: o)))
    by exact (reach_timer _ _ _ _ e H3 1 _ _ _ eq_refl eq_refl eq_refl).
  assert (H5 : reachable (PaletteDialog t) any_props p (Config p a true
      [idle; Task (Some 0) true sent_ Done; scrolled; idle] [Some (p, ab); Some (p, ab)]
      (ScrollIntoView "list-0" :: o)))
    by exact (Htype _ "a" H4 eq_refl).
  assert (H6 : reachable (PaletteDialog t) any_props p (Config p a true
      [idle; Task (Some 0) false sent_ Done; scrolled; idle] [Some (p, a); Some (p, ab)]
      (ScrollIntoView "list-0" :: o)))
    by exact (Heff _ 0 _ _ H5 eq_refl eq_refl eq_refl eq_refl).
  assert (H7 : reachable (PaletteDialog t) any_props p (Config p a true
      [idle; Task (Some 0) false Done Done; scrolled; idle] [Some (p, a); Some (p, ab)]
      (ScrollIntoView "list-0" :: o)))
    by exact (reach_reply _ _ _ _ (calm_env true) H6 1 _ _ _ _ eq_refl eq_refl eq_refl
                (Rejected (OtherError "aborted"))).
  exists p. eexists. split; [exact H7|]. split; [reflexivity|]. split; [|split; reflexivity].
  split; [repeat constructor|]. intros [|[|i]] ef prev [= <-] [= <-]; reflexivity.
Qed.
End Facts.

(** ** Concrete instances *)

Definition two_pages : Props :=
  mkProps [mkItem "page-/zones" "Local zones" None "Globe2" None (RunNavigate "/zones");
           mkItem "page-/cache" "Cache" None "Database" None (RunNavigate "/cache")] [] "list".

Lemma palette_options_witness :
  let s := mkState "zone" 0 None false in
  let o := mkOption (mkItem "page-/zones" "Local zones" None "Globe2" None (RunNavigate "/zones")) "palette.pages" in
  options plain_text two_pages s = [o] /\ listed s (item o) = true.
Proof.
  split; [reflexivity|].
  destruct (palette_options plain_text two_pages (mkState "zone" 0 None false)
    (mkOption (mkItem "page-/zones" "Local zones" None "Globe2" None (RunNavigate "/zones")) "palette.pages"))
    as [[_ H]|(r & l & [=] & _)]; [left; reflexivity|exact H].
Defined.

Lemma palette_keys_witness :
  current plain_text two_pages (seg_state (advance (calm_env false)
    (handle plain_text two_pages (mkState "" 1 None false) (PressKey "ArrowDown")) (mkState "" 1 None false))) = 0%Z.
Proof.
  destruct (palette_keys plain_text (calm_env false) two_pages (mkState "" 1 None false) "ArrowDown")
    as (_ & Hd & _); [cbn; lia|done|]. exact (Hd eq_refl).
Defined.
End PaletteFacts.
