(* ===== verification/ScrollRegions.v ===== *)
(** * Scroll regions: web/src/scroll-regions.ts

    The watcher that makes overflowing table wrappers focusable regions: what
    one update does to a wrapper, and the watcher as a state machine over layout
    changes, animation frames and its own removal. *)
From S2P Require Import Prelude JsString.
Local Open Scope velora_scope.
Local Open Scope string_scope.

Module ScrollRegions.

(** A [.table-wrap] element: its widths, the text of its first caption and the
    three attributes the watcher writes. *)
Record Wrapper : Set := mkWrapper {
  scrollWidth : Z; clientWidth : Z; caption : option string;
  tabindex : option Z; role : option string; aria_label : option string }.
#[export] Instance eta_Wrapper : Eta Wrapper := fun w =>
  mkWrapper (scrollWidth w) (clientWidth w) (caption w) (tabindex w) (role w) (aria_label w).

Definition scrollable (w : Wrapper) : bool := (clientWidth w + 1 <? scrollWidth w)%Z.

(** [element.tabIndex]: minus one for an element of this kind without the
    attribute. *)
Definition tabIndex (w : Wrapper) : Z := tabindex w ?? (-1)%Z.

Definition is_region (w : Wrapper) : bool :=
  match role w with Some r => String.eqb r "region" | None => false end.

Definition region_label (label_ : string) (w : Wrapper) : string :=
  let text := option_map trim (caption w) ?? "" in
  if truthy text then text +:+ " (" +:+ label_ +:+ ")" else label_.

(** The body of the loop of [update]. *)
Definition update_wrapper (label_ : string) (w : Wrapper) : Wrapper :=
  if scrollable w && negb (Z.eqb (tabIndex w) 0) then
    w <| tabindex := Some 0%Z |> <| role := Some "region" |> <| aria_label := Some (region_label label_ w) |>
  else if negb (scrollable w) && is_region w then
    w <| tabindex := None |> <| role := None |> <| aria_label := None |>
  else w.

Definition update_all (label_ : string) (l : list Wrapper) : list Wrapper := map (update_wrapper label_) l.

(** The watcher: the wrappers under its root, the pending animation frame, and
    whether its observers are connected. *)
Record Watcher : Set := mkWatcher { wrappers : list Wrapper; frame : bool; watching : bool }.

(** [watchScrollRegions]: the first update runs at once. *)
Definition watch (label_ : string) (l : list Wrapper) : Watcher := mkWatcher (update_all label_ l) false true.

(** [schedule] replaces a pending frame. *)
Definition schedule (w : Watcher) : Watcher := mkWatcher (wrappers w) true (watching w).

(** A wrapper as React renders it. *)
Definition plain (w : Wrapper) : Prop := tabindex w = None /\ role w = None /\ aria_label w = None.

(** A layout: the same element, with other widths. *)
Definition resized (w w' : Wrapper) : Prop :=
  exists sw cw, w' = mkWrapper sw cw (caption w) (tabindex w) (role w) (aria_label w).

(** Rows come and go, elements are mounted plain and keep their attributes
    while they stay; and the window changes size. Both are observed. *)
Inductive step (label_ : string) : Watcher -> Watcher -> Prop :=
| step_children w l :
    Forall (fun x => plain x \/ exists y, In y (wrappers w) /\ resized y x) l ->
    step label_ w (let w' := mkWatcher l (frame w) (watching w) in if watching w then schedule w' else w')
| step_resize w l :
    Forall2 resized (wrappers w) l ->
    step label_ w (let w' := mkWatcher l (frame w) (watching w) in if watching w then schedule w' else w')
| step_frame w :
    frame w = true -> step label_ w (mkWatcher (update_all label_ (wrappers w)) false (watching w))
| step_stop w :
    watching w = true -> step label_ w (mkWatcher (wrappers w) false false).

Inductive reachable (label_ : string) : Watcher -> Prop :=
| reach_watch l : Forall plain l -> reachable label_ (watch label_ l)
| reach_step w w' : reachable label_ w -> step label_ w w' -> reachable label_ w'.
End ScrollRegions.

(** * Theorems *)

Module ScrollRegionsFacts.
Import ScrollRegions.

(** A wrapper is plain, or a focusable region with a label. *)
Definition marked (label_ : string) (w : Wrapper) : Prop :=
  tabindex w = Some 0%Z /\ role w = Some "region" /\ aria_label w = Some (region_label label_ w).
Definition sane (label_ : string) (w : Wrapper) : Prop := plain w \/ marked label_ w.

(** The attributes say what the layout is. *)
Definition correct (label_ : string) (w : Wrapper) : Prop :=
  if scrollable w then marked label_ w else plain w.

Lemma update_correct label_ w : sane label_ w -> correct label_ (update_wrapper label_ w).
Proof.
  intros Hw. unfold correct, update_wrapper.
  assert (is_region w = true /\ tabIndex w = 0%Z \/ is_region w = false /\ tabIndex w = (-1)%Z) as Hcase.
  { unfold is_region, tabIndex. destruct Hw as [(-> & -> & _)|(-> & -> & _)]; auto. }
  destruct (scrollable w) eqn:Es; cbn [andb negb].
  - destruct Hcase as [[Hr Ht]|[Hr Ht]]; rewrite Ht; cbn.
    + rewrite Es. destruct Hw as [(Hp & _)|Hw]; [|done]. unfold tabIndex in Ht. by rewrite Hp in Ht.
    + change (scrollable _) with (scrollable w). by rewrite Es.
  - destruct Hcase as [[Hr Ht]|[Hr Ht]]; rewrite Hr; cbn.
    + change (scrollable _) with (scrollable w). by rewrite Es.
    + rewrite Es. destruct Hw as [Hw|(_ & Hm & _)]; [done|]. unfold is_region in Hr. by rewrite Hm in Hr.
Qed.

Lemma correct_sane label_ w : correct label_ w -> sane label_ w.
Proof. unfold correct, sane. destruct (scrollable w); auto. Qed.

Lemma resized_sane label_ w w' : resized w w' -> sane label_ w -> sane label_ w'.
Proof. intros (sw & cw & ->). unfold sane, plain, marked, region_label. by cbn. Qed.

Definition watch_inv (label_ : string) (w : Watcher) : Prop :=
  Forall (sane label_) (wrappers w) /\
  (watching w = true -> frame w = false -> Forall (correct label_) (wrappers w)) /\
  (watching w = false -> frame w = false).

Lemma all_correct label_ l : Forall (sane label_) l -> Forall (correct label_) (update_all label_ l).
Proof. intros Hl. apply Forall_map. eapply Forall_impl; [exact Hl|]. intros w. apply update_correct. Qed.

Lemma all_sane label_ l : Forall (correct label_) l -> Forall (sane label_) l.
Proof. intros Hl. eapply Forall_impl; [exact Hl|]. intros w. apply correct_sane. Qed.

Lemma watch_inv_reachable label_ w : reachable label_ w -> watch_inv label_ w.
Proof.
  induction 1 as [l Hl|w w' _ (Hs & Hc & Hf) Hstep].
  - assert (Forall (correct label_) (update_all label_ l)) as Hu.
    { apply all_correct. eapply Forall_impl; [exact Hl|]. by left. }
    split_and!; [by apply all_sane|done|done].
  - assert (forall l, Forall (sane label_) l ->
      watch_inv label_ (if watching w then schedule (mkWatcher l (frame w) (watching w))
                        else mkWatcher l (frame w) (watching w))) as Hchange.
    { intros l Hl. unfold watch_inv. destruct (watching w) eqn:Ew; cbn; split_and!; auto; done. }
    destruct Hstep as [w l Hl|w l Hl|w Hfr|w Hw].
    + apply Hchange. rewrite List.Forall_forall in Hl, Hs |- *. intros x Hx.
      destruct (Hl x Hx) as [Hp|(y & Hy & Hr)]; [by left|]. eapply resized_sane; [exact Hr|]. auto.
    + apply Hchange. clear -Hl Hs. induction Hl as [|x y l l' Hxy _ IH]; [constructor|].
      apply Forall_cons in Hs as [Hx Hs]. constructor; [by eapply resized_sane|auto].
    + pose proof (all_correct label_ _ Hs) as Hu. split_and!; cbn; [by apply all_sane|done|done].
    + split_and!; cbn; done.
Qed.

(** Scroll regions follow the layout: while the watcher runs and no animation
    frame is pending, exactly the wrappers that overflow are focusable labelled
    regions and all others are plain; and once it is stopped, no frame is
    pending that would still touch the page. *)
Theorem scroll_regions_follow label_ w :
  reachable label_ w ->
  (watching w = true -> frame w = false -> Forall (correct label_) (wrappers w)) /\
  (watching w = false -> frame w = false).
Proof. intros Hw. by destruct (watch_inv_reachable _ _ Hw) as (_ & ? & ?). Qed.

(** Updating twice is updating once, whatever attributes the wrapper had. *)
Theorem update_idempotent label_ w : update_wrapper label_ (update_wrapper label_ w) = update_wrapper label_ w.
Proof.
  unfold update_wrapper at 2 3. destruct (scrollable w && negb (tabIndex w =? 0)%Z) eqn:E1.
  - apply andb_true_iff in E1 as [Es _]. unfold update_wrapper. change (scrollable _) with (scrollable w). by rewrite Es.
  - destruct (negb (scrollable w) && is_region w) eqn:E2; unfold update_wrapper.
    + apply andb_true_iff in E2 as [Es _]. apply negb_true_iff in Es.
      change (scrollable _) with (scrollable w). by rewrite Es.
    + by rewrite E1, E2.
Qed.

Lemma scroll_regions_follow_witness :
  let w := watch "scrolls" [mkWrapper 900 390 (Some " Zones ") None None None; mkWrapper 300 390 None None None None] in
  Forall (correct "scrolls") (wrappers w) /\
  map aria_label (wrappers w) = [Some "Zones (scrolls)"; None].
Proof.
  split; [|reflexivity]. apply scroll_regions_follow; [|reflexivity..]. constructor. by repeat constructor.
Defined.
End ScrollRegionsFacts.
