(* ===== verification/Focus.v ===== *)
(** * Where the keyboard focus goes: the menus of web/src/App.tsx

    The arrow keys inside an open group of the navigation, and the trap that
    keeps Tab inside the mobile menu. An index is [indexOf]'s: minus one when the
    focused element is not in the list. *)
From S2P Require Import Prelude JsString.
Local Open Scope velora_scope.
Local Open Scope string_scope.

Module Focus.

(** What a key does: nothing, or the element that takes the focus. *)
Inductive Target : Set :=
| Untouched
| FocusLink (i : nat)
| FocusFirstOnceOpen      (* the group opens, then its first link *)
| FocusToggle.            (* the group closes *)

(** [links[(i + links.length) % links.length]?.focus()]; the remainder of a
    division by zero is no index. *)
Definition focusAt (n : nat) (i : Z) : Target :=
  let n' := Z.of_nat n in
  if Z.eqb n' 0 then Untouched
  else let j := Z.rem (i + n') n' in
       if (j <? 0)%Z then Untouched else FocusLink (Z.to_nat j).

(** [menuKeys] for a group with [n] links, open or not, and the focus at
    [index]. *)
Definition menu_focus (is_open : bool) (n : nat) (index : Z) (key : string) : Target :=
  if String.eqb key "ArrowDown" then
    if negb is_open then FocusFirstOnceOpen else focusAt n (index + 1)
  else if String.eqb key "ArrowUp" then
    if (0 <=? index)%Z then focusAt n (index - 1) else Untouched
  else if String.eqb key "Home" then
    if (0 <=? index)%Z then focusAt n 0 else Untouched
  else if String.eqb key "End" then
    if (0 <=? index)%Z then focusAt n (Z.of_nat n - 1) else Untouched
  else if String.eqb key "Escape" then
    if is_open then FocusToggle else Untouched
  else Untouched.

(** [onKey] of the mobile menu for Tab: the item that takes the focus, or [None]
    when the browser moves it. *)
Definition trap_tab (n : nat) (shift : bool) (index : Z) : option Z :=
  if Nat.eqb n 0 then None
  else if shift && (index <=? 0)%Z then Some (Z.of_nat n - 1)%Z
  else if negb shift && Z.eqb index (Z.of_nat n - 1) then Some 0%Z
  else None.

(** Tab as the browser does it: to the next or the previous focusable element. *)
Definition browser_tab (shift : bool) (index : Z) : Z := if shift then (index - 1)%Z else (index + 1)%Z.
Definition press_tab (n : nat) (shift : bool) (index : Z) : Z := trap_tab n shift index ?? browser_tab shift index.
End Focus.

(** * Theorems *)

Module FocusFacts.
Import Focus.

Lemma focusAt_mod n i : 0 < n -> (-1 <= i)%Z -> focusAt n i = FocusLink (Z.to_nat (i mod Z.of_nat n)).
Proof.
  intros Hn Hi. unfold focusAt. destruct (Z.eqb_spec (Z.of_nat n) 0); [lia|].
  rewrite Z.rem_mod_nonneg by lia.
  replace (i + Z.of_nat n)%Z with (i + 1 * Z.of_nat n)%Z by lia. rewrite Z_mod_plus_full.
  destruct (Z.ltb_spec (i mod Z.of_nat n) 0); [|done]. pose proof (Z.mod_pos_bound i (Z.of_nat n)). lia.
Qed.

(** Arrow keys walk the links of an open menu in a circle: from link [i] of
    [n], down goes to the next and from the last to the first, up goes back, and
    Home and End go to the ends. *)
Theorem menu_arrows n i :
  i < n ->
  menu_focus true n (Z.of_nat i) "ArrowDown" = FocusLink (if Nat.eqb (S i) n then 0 else S i) /\
  menu_focus true n (Z.of_nat i) "ArrowUp" = FocusLink (match i with 0 => n - 1 | S j => j end) /\
  menu_focus true n (Z.of_nat i) "Home" = FocusLink 0 /\
  menu_focus true n (Z.of_nat i) "End" = FocusLink (n - 1).
Proof.
  intros Hi. unfold menu_focus. cbn [String.eqb Ascii.eqb Bool.eqb negb].
  assert (0 <=? Z.of_nat i = true)%Z as -> by (apply Z.leb_le; lia).
  rewrite !focusAt_mod by lia. split_and!; f_equal.
  - destruct (Nat.eqb_spec (S i) n) as [<-|].
    + replace (Z.of_nat i + 1)%Z with (Z.of_nat (S i)) by lia. by rewrite Z_mod_same_full.
    + rewrite Z.mod_small; lia.
  - destruct i as [|j].
    + replace (Z.of_nat 0 - 1)%Z with ((Z.of_nat n - 1) + (-1) * Z.of_nat n)%Z by lia.
      rewrite Z_mod_plus_full, Z.mod_small; lia.
    + rewrite Z.mod_small; lia.
  - rewrite Z.mod_small; lia.
Qed.

(** Tab cannot leave the mobile menu: with the focus on one of its [n]
    elements, Tab and Shift+Tab, in any number and order, keep it on one of
    them. *)
Theorem tab_trapped n keys i :
  (0 <= i < Z.of_nat n)%Z -> (0 <= fold_left (fun j shift => press_tab n shift j) keys i < Z.of_nat n)%Z.
Proof.
  revert i. induction keys as [|shift keys IH]; intros i Hi; [done|]. cbn. apply IH.
  unfold press_tab, trap_tab, browser_tab. destruct (Nat.eqb_spec n 0); [lia|].
  destruct shift; cbn.
  - destruct (Z.leb_spec i 0); cbn; lia.
  - destruct (Z.eqb_spec i (Z.of_nat n - 1)); cbn; lia.
Qed.
End FocusFacts.
