(* ===== verification/App.v ===== *)
(** * The shell: web/src/App.tsx

    Navigation, routes with the props each page gets, the command palette's
    entries, the shared snapshot and the event counter. *)
From S2P Require Import Prelude JsString JsNumber Http Api Resources React Runtime Components.
From S2P Require Import Rewrites Clients Forwarding ZoneForms Zones Policies Webhooks Blocklists.
From S2P Require Import CachePage QueryLog Dhcp UpdateCenter Backup Cluster Support Dashboard Analytics Preferences Settings Session.
From S2P Require Import CommandPalette.
Local Open Scope velora_scope.
Local Open Scope prog_scope.
Local Open Scope string_scope.

Module App.

Record NavItem : Set := mkNavItem { to_ : string; key : string; nav_icon : string; adminOnly : bool }.
Inductive NavEntry : Set := Link (i : NavItem) | Group (label_ : string) (items : list NavItem).

Definition NAV : list NavEntry :=
  [Link (mkNavItem "/" "overview" "LayoutDashboard" false);
   Link (mkNavItem "/queries" "queries" "ScrollText" false);
   Link (mkNavItem "/analytics" "analytics" "BarChart3" false);
   Group "app.nav.group_dns"
     [mkNavItem "/zones" "zones" "Globe2" false;
      mkNavItem "/blocklists" "blocklists" "ShieldBan" false;
      mkNavItem "/policies" "policies" "ShieldCheck" false;
      mkNavItem "/rewrites" "rewrites" "Replace" false;
      mkNavItem "/forwarding" "forwarding" "Route" false;
      mkNavItem "/cache" "cache" "Database" false];
   Group "app.nav.group_network"
     [mkNavItem "/clients" "clients" "MonitorSmartphone" false;
      mkNavItem "/dhcp" "dhcp" "Network" false;
      mkNavItem "/cluster" "cluster" "Server" false];
   Group "app.nav.group_system"
     [mkNavItem "/settings" "settings" "Settings2" false;
      mkNavItem "/updates" "updates" "Download" false;
      mkNavItem "/backup" "backup" "HardDrive" false;
      mkNavItem "/diagnostics" "diagnostics" "Stethoscope" false;
      mkNavItem "/events" "events" "Bell" false;
      mkNavItem "/webhooks" "webhooks" "Webhook" true;
      mkNavItem "/audit" "audit" "ClipboardList" true]].

Definition GROUP_ICONS (label_ : string) : string :=
  assoc label_ [("app.nav.group_dns", "Globe2"); ("app.nav.group_network", "Network");
                ("app.nav.group_system", "Settings2")] ?? "".

Definition ROUTE_KEYS : list (string * string) :=
  [("/", "overview"); ("/events", "events"); ("/zones", "zones"); ("/queries", "queries");
   ("/analytics", "analytics"); ("/blocklists", "blocklists"); ("/forwarding", "forwarding");
   ("/rewrites", "rewrites"); ("/clients", "clients"); ("/policies", "policies"); ("/cache", "cache");
   ("/settings", "settings"); ("/updates", "updates"); ("/backup", "backup"); ("/dhcp", "dhcp");
   ("/cluster", "cluster"); ("/diagnostics", "diagnostics"); ("/audit", "audit");
   ("/webhooks", "webhooks")].

Definition SELF_REFRESHING : list string :=
  ["/zones"; "/queries"; "/blocklists"; "/forwarding"; "/rewrites"; "/clients"; "/policies";
   "/webhooks"; "/analytics"; "/updates"; "/cluster"].

(** The pages that say so when they are read-only. *)
Definition VIEWER_NOTICE : list string :=
  ["/zones"; "/blocklists"; "/cache"; "/forwarding"; "/rewrites"; "/clients"; "/policies"].

(** What the shell is rendered with: the signed-in user, the theme, the
    location ([param] reads its query) and the time of the render. *)
Record Props : Set := mkProps {
  user : option AuthUser;
  theme : Theme;
  prefers_dark : bool;
  pathname : string;
  param : string -> option string;
  clock : Z }.

Record State : Set := mkState {
  snapshot : UseSnapshot.Hook;
  paletteOpen : bool;
  unreadEvents : Z;
  menuOpen : bool;
  openGroup : option string;
  firstRoute : bool;
  document_title : string }.
#[export] Instance eta_State : Eta State := fun s =>
  mkState (snapshot s) (paletteOpen s) (unreadEvents s) (menuOpen s) (openGroup s) (firstRoute s)
    (document_title s).

Definition init (_ : Props) : State := mkState UseSnapshot.init false 0 false None true "".

Definition has_role (r : role) (p : Props) : bool :=
  match user p with
  | Some u => match user_role u, r with
              | admin, admin | operator, operator | viewer, viewer => true
              | _, _ => false
              end
  | None => false
  end.
Definition readOnly (p : Props) : bool := has_role viewer p.
Definition is_admin (p : Props) : bool := has_role admin p.

Definition replica (s : State) : bool :=
  match UseSnapshot.data (snapshot s) with
  | Some d => match cluster_role_of (snap_status d) with Some replica => true | _ => false end
  | None => false
  end.

(** ** Routes

    The element a path is routed to, with the props it is given. *)
Inductive Routed : Set :=
| RDashboard (p : Dashboard.Props)
| REventCenter
| RCachePage (p : CachePage.Props)
| RZones (p : Zones.Props)
| RQueryLog (p : QueryLog.Props)
| RBlocklists (p : Blocklists.Props)
| RPolicies (p : Policies.Props)
| RClients (p : Clients.Props)
| RRewrites (p : Rewrites.Props)
| RForwarding (p : Forwarding.Props)
| RSettings (p : Settings.Props)
| RUpdateCenter (p : UpdateCenter.Props)
| RBackupAssistant (p : BackupAssistant.Props)
| RDHCP (p : DHCP.Props)
| RCluster (canManage : bool)
| RDiagnostics
| RAuditLog
| RAnalytics (p : AnalyticsPage.Props)
| RWebhooks
| RNotFound.

Definition routes (p : Props) (s : State) (d : Snapshot) : list (string * Routed) :=
  let logging := ql_enabled (cfg_query_log (snap_config d)) in
  [("/", RDashboard (Dashboard.mkProps d (UseSnapshot.history (snapshot s)) logging (negb (is_admin p)) true));
   ("/events", REventCenter);
   ("/cache", RCachePage (CachePage.mkProps d (readOnly p)));
   ("/zones", RZones (Zones.mkProps (readOnly p || replica s) (param p "zone")));
   ("/queries", RQueryLog (QueryLog.mkProps logging (param p "client")));
   ("/blocklists", RBlocklists (Blocklists.mkProps (readOnly p) (clock p)));
   ("/policies", RPolicies (Policies.mkProps (readOnly p)));
   ("/clients", RClients (Clients.mkProps (readOnly p) logging (param p "name") (param p "new")));
   ("/rewrites", RRewrites (Rewrites.mkProps (readOnly p) (param p "q")));
   ("/forwarding", RForwarding (Forwarding.mkProps (readOnly p)));
   ("/settings", RSettings (Settings.mkProps d));
   ("/updates", RUpdateCenter (UpdateCenter.mkProps (readOnly p) 0));
   ("/backup", RBackupAssistant (BackupAssistant.mkProps (readOnly p) (is_admin p)));
   ("/dhcp", RDHCP (DHCP.mkProps (readOnly p) (clock p)));
   ("/cluster", RCluster (is_admin p));
   ("/diagnostics", RDiagnostics);
   ("/audit", RAuditLog);
   ("/analytics", RAnalytics (AnalyticsPage.mkProps logging));
   ("/webhooks", RWebhooks)].

Definition route (p : Props) (s : State) (d : Snapshot) (path : string) : Routed :=
  assoc path (routes p s d) ?? RNotFound.

Definition routed_name (r : Routed) : string :=
  match r with
  | RDashboard _ => "Dashboard" | REventCenter => "EventCenter" | RCachePage _ => "CachePage"
  | RZones _ => "Zones" | RQueryLog _ => "QueryLog" | RBlocklists _ => "Blocklists"
  | RPolicies _ => "Policies" | RClients _ => "Clients" | RRewrites _ => "Rewrites"
  | RForwarding _ => "Forwarding" | RSettings _ => "Settings" | RUpdateCenter _ => "UpdateCenter"
  | RBackupAssistant _ => "BackupAssistant" | RDHCP _ => "DHCP" | RCluster _ => "Cluster"
  | RDiagnostics => "Diagnostics" | RAuditLog => "AuditLog" | RAnalytics _ => "Analytics"
  | RWebhooks => "Webhooks" | RNotFound => ""
  end.

Inductive Event : Set :=
| ClickNav (link : string)
| ToggleGroup (label_ : string)
| GroupKey (label_ key_ : string)
| BlurGroup (label_ : string)
| WindowKey (key_ : string)
| PressCtrl (key_ : string)
| PointerOutside
| ToggleMenu
| OpenPalette
| ClosePalette
| RunItem (it : CommandPalette.PaletteItem)
| SetTheme (next : Theme)
| SignOut
| ClickRefresh
| PageRefresh
| PageEventsRead.

Section Shell.
Context {L : Locale} (t : string -> string).

(** ** The snapshot and the event counter *)

Definition set_snapshot (f : UseSnapshot.Hook -> UseSnapshot.Hook) (s : State) : State :=
  s <| snapshot ::= f |>.
Definition poll : M State unit := UseSnapshot.poll t set_snapshot.
Definition refresh : M State unit := UseSnapshot.refresh set_snapshot.

Definition snapshot_changed (a b : Props * State) : bool :=
  negb (UseSnapshot.revision (snapshot (snd a)) =? UseSnapshot.revision (snapshot (snd b)))%Z.

Definition refreshEvents : M State unit :=
  try_catch
    (page <- await (get SystemEventPage "/api/v1/events?limit=1" false) ;;
     update (fun s => s <| unreadEvents := unread_count page |>))
    (fun _ => update (fun s => s <| unreadEvents := 0%Z |>)).

Definition watch_events : M State unit := spawn refreshEvents ;; again 10000.

Definition same_user (a b : option AuthUser) : bool :=
  match a, b with
  | None, None => true
  | Some u, Some v => String.eqb (username u) (username v) && String.eqb (csrf_token u) (csrf_token v)
  | _, _ => false
  end.

Definition signOut : M State unit := logout ;; emit Reload.

(** ** Title and theme *)

Definition routeKey (p : Props) : string := assoc (pathname p) ROUTE_KEYS ?? "overview".
Definition title (p : Props) : string := t ("app.title." +:+ routeKey p).
Definition subtitle (p : Props) : string :=
  if String.eqb (routeKey p) "overview" then t "app.subtitle.overview"
  else t ("app.subtitle." +:+ routeKey p).

Definition dark (p : Props) : bool := String.eqb (resolveTheme (prefers_dark p) (theme p)) "dark".
Definition other_theme (p : Props) : Theme := if dark p then th_light else th_dark.
Definition theme_hint (p : Props) : string :=
  if dark p then t "app.theme_to_light" else t "app.theme_to_dark".

(** ** The palette's entries *)

Definition visible_items (p : Props) (items : list NavItem) : list NavItem :=
  filterb (fun i => negb (adminOnly i) || is_admin p) items.

Definition nav_items (p : Props) : list (NavItem * string) :=
  flat_map (fun entry => match entry with
                         | Link i => [(i, "")]
                         | Group label_ items => map (fun i => (i, t label_)) (visible_items p items)
                         end) NAV.

Definition page_item (it : NavItem * string) : CommandPalette.PaletteItem :=
  let '(i, grp) := it in
  CommandPalette.mkItem ("page-" +:+ to_ i) (t ("app.nav." +:+ key i))
    (if truthy grp then Some grp else None) (nav_icon i)
    (Some (t ("app.title." +:+ key i) +:+ " " +:+ grp)) (CommandPalette.RunNavigate (to_ i)).

Definition palettePages (p : Props) : list CommandPalette.PaletteItem := map page_item (nav_items p).

Definition action (id_ label_ icon_ : string) (run_ : CommandPalette.Run) : CommandPalette.PaletteItem :=
  CommandPalette.mkItem id_ label_ None icon_ None run_.

Definition paletteActions (p : Props) : list CommandPalette.PaletteItem :=
  ([action "theme" (theme_hint p) (if dark p then "Sun" else "Moon") (CommandPalette.RunTheme (other_theme p))]
   ++ (if negb (readOnly p) && opt_is_some (user p)
       then [action "add-client" (t "palette.add_client") "MonitorSmartphone"
               (CommandPalette.RunNavigate "/clients?new=1")] else [])
   ++ (if is_admin p
       then [action "backup" (t "palette.create_backup") "HardDrive" (CommandPalette.RunNavigate "/backup")]
       else [])
   ++ [action "updates" (t "updates.check") "Download" (CommandPalette.RunNavigate "/updates")]
   ++ (if opt_is_some (user p)
       then [action "sign-out" (t "app.sign_out") "LogOut" CommandPalette.RunSignOut] else []))%list.

(** ** Handlers *)

Definition set_group (g : option string) : M State unit := update (fun s => s <| openGroup := g |>).
Definition closeNav : M State unit := set_group None ;; update (fun s => s <| menuOpen := false |>).

Definition is_group (label_ : string) (g : option string) : bool :=
  match g with Some l => String.eqb l label_ | None => false end.

(** The parts of [menuKeys] that change state; the other keys move the focus. *)
Definition menuKeys (c : State) (label_ key_ : string) : M State unit :=
  if String.eqb key_ "ArrowDown" then when_do (negb (is_group label_ (openGroup c))) (set_group (Some label_))
  else if String.eqb key_ "Escape" then when_do (is_group label_ (openGroup c)) (set_group None)
  else ret tt.

(** The two Escape listeners: one while a group is open, one while the menu is. *)
Definition window_key (c : State) (key_ : string) : M State unit :=
  when_do (String.eqb key_ "Escape")
    (when_do (opt_is_some (openGroup c)) (set_group None) ;;
     when_do (menuOpen c) (update (fun s => s <| menuOpen := false |>))).

Definition run_item (r : CommandPalette.Run) : M State unit :=
  match r with
  | CommandPalette.RunNavigate link => emit (Navigate link)
  | CommandPalette.RunTheme next => emit (CallProp ("setTheme " +:+ theme_code next))
  | CommandPalette.RunSignOut => signOut
  end.

Definition handle (p : Props) (c : State) (ev : Event) : prog State :=
  run_top
    match ev with
    | ClickNav link => closeNav ;; emit (Navigate link)
    | ToggleGroup label_ => set_group (if is_group label_ (openGroup c) then None else Some label_)
    | GroupKey label_ key_ => menuKeys c label_ key_
    | BlurGroup label_ =>
        when_do (negb (menuOpen c))
          (update (fun s => if is_group label_ (openGroup s) then s <| openGroup := None |> else s))
    | WindowKey key_ => window_key c key_
    | PressCtrl key_ =>
        when_do (String.eqb (toLowerCase key_) "k") (update (fun s => s <| paletteOpen ::= negb |>))
    | PointerOutside => when_do (opt_is_some (openGroup c)) (set_group None)
    | ToggleMenu => update (fun s => s <| menuOpen ::= negb |>)
    | OpenPalette => update (fun s => s <| paletteOpen := true |>)
    | ClosePalette => update (fun s => s <| paletteOpen := false |>)
    | RunItem it => update (fun s => s <| paletteOpen := false |>) ;; run_item (CommandPalette.run it)
    | SetTheme next => emit (CallProp ("setTheme " +:+ theme_code next))
    | SignOut => signOut
    | ClickRefresh | PageRefresh => refresh
    | PageEventsRead => spawn refreshEvents
    end.

(** ** The view *)

Definition connection (s : State) : string * string :=
  if truthy (UseSnapshot.error (snapshot s)) then ("offline", t "app.connection_lost")
  else match UseSnapshot.data (snapshot s) with
       | Some d => if ready (snap_status d) then ("", t "app.resolver_online")
                   else ("pending", t "app.connecting")
       | None => ("pending", t "app.connecting")
       end.

Definition event_count (s : State) : list (node Event) :=
  when (0 <? unreadEvents s)%Z [El span ["className" =: "event-count"] [Txt (StringZ (unreadEvents s))]].

Definition user_block (p : Props) : node Event :=
  El div ["className" =: "header-user"]
    (when_some (user p) (fun u =>
       [El div ["className" =: "header-user-name"; "title" =: (t "app.signed_in_as" +:+ " " +:+ username u)]
          [El strong [] [Txt (username u)];
           El span [] [Txt (match user_role u with
                            | admin => "admin" | operator => "operator" | viewer => "viewer"
                            end)]]])
     ++ [El button ["className" =: "button small signout"; OnClick SignOut; "title" =: t "app.sign_out"]
           [Icon "LogOut" 15; El span ["className" =: "label"] [Txt (t "app.sign_out")]]]).

Definition header_bar (p : Props) (s : State) : node Event :=
  El header ["className" =: "header"]
    [El div ["className" =: "container header-inner"]
       [El a_ ["className" =: "app-brand"; "href" =: "/"]
          [El img ["src" =: "/favicon.svg"; "width" =: "28"; "height" =: "28"; "alt" =: ""] [];
           El span [] [Txt "Velora "; El span [] [Txt "DNS"]]];
        El div ["className" =: "header-right"]
          [El span ["className" =: ("connection " +:+ fst (connection s)); "title" =: snd (connection s)]
             [El i_ ["className" =: "dot"] [];
              El span ["className" =: "connection-label"] [Txt (snd (connection s))]];
           El button ["className" =: "icon-button palette-button"; OnClick OpenPalette;
                      "aria-label" =: t "palette.open_button"; "aria-keyshortcuts" =: "Control+K Meta+K";
                      "aria-haspopup" =: "dialog"; "title" =: (t "palette.open_button" +:+ " (Ctrl+K)")]
             [Icon "Search" 18];
           El a_ ["href" =: "/events"; "className" =: "icon-button event-entry";
                  "aria-label" =: (t "app.nav.events" +:+ ": " +:+ StringZ (unreadEvents s) +:+ " "
                                   +:+ t "events.unread");
                  OnClick (ClickNav "/events")]
             (Icon "Bell" 18 :: event_count s);
           El button ["className" =: "icon-button"; OnClick (SetTheme (other_theme p));
                      "aria-label" =: theme_hint p; "title" =: theme_hint p]
             [Icon (if dark p then "Sun" else "Moon") 18];
           user_block p;
           El button ["className" =: "icon-button menu-button"; OnClick ToggleMenu;
                      "aria-label" =: (if menuOpen s then t "app.menu_close" else t "app.menu_open");
                      "aria-controls" =: "main-nav"; "aria-expanded" =: bool_str (menuOpen s)]
             [Icon (if menuOpen s then "X" else "Menu") 20]]]].

(** [label.split(".").pop()] *)
Definition menuId (label_ : string) : string :=
  "menu-" +:+ (last (split_each (Ascii.eqb ".") label_) ?? "").

Definition group_item (s : State) (i : NavItem) : node Event :=
  El li []
    [El a_ ["href" =: to_ i; OnClick (ClickNav (to_ i))]
       (Icon (nav_icon i) 16 :: Txt (t ("app.nav." +:+ key i))
        :: when (String.eqb (key i) "events") (event_count s))].

Definition nav_entry (p : Props) (s : State) (entry : NavEntry) : node Event :=
  match entry with
  | Link i =>
      El li [] [El a_ ["href" =: to_ i; "className" =: "nav-tab"; OnClick (ClickNav (to_ i))]
                  [Icon (nav_icon i) 17; Txt (t ("app.nav." +:+ key i))]]
  | Group label_ items =>
      let shown := visible_items p items in
      let is_active := someb (fun i => String.eqb (to_ i) (pathname p)) shown in
      let is_open := is_group label_ (openGroup s) || menuOpen s in
      El li [OnKey (GroupKey label_); OnMouse (BlurGroup label_)]
        (El button ["className" =: ("nav-tab group-toggle" +:+ if is_active then " active" else "");
                    "aria-expanded" =: bool_str is_open; "aria-controls" =: menuId label_;
                    OnClick (ToggleGroup label_)]
           [Icon (GROUP_ICONS label_) 17; Txt (t label_); Icon "ChevronDown" 14]
         :: when is_open
              [El ul ["className" =: "dropdown-menu"; "id" =: menuId label_] (map (group_item s) shown)])
  end.

Definition nav_bar (p : Props) (s : State) : node Event :=
  El nav ["id" =: "main-nav"; "className" =: ("navbar" +:+ if menuOpen s then " open" else "");
          "aria-label" =: t "app.nav.main"]
    [El div ["className" =: "container"]
       [El ul ["className" =: "nav-tabs"] (map (nav_entry p s) NAV)]].

(** The palette while it is open, with the callbacks it is given. *)
Definition palette (p : Props) (s : State) : list (node Event) :=
  when (paletteOpen s)
    [El section ["component" =: "CommandPalette"; OnClick ClosePalette;
                 OnSelect (map RunItem (palettePages p ++ paletteActions p)%list)] []].

(** The routed page, with the callbacks it is given. *)
Definition page_callbacks (r : Routed) : list (attr Event) :=
  match r with
  | RDashboard _ | RCachePage _ | RUpdateCenter _ => [OnClick PageRefresh]
  | REventCenter => [OnClick PageEventsRead]
  | _ => []
  end.

Definition page_view (p : Props) (s : State) (d : Snapshot) : node Event :=
  let r := route p s d (pathname p) in
  El div ["className" =: "page-view"; "key" =: pathname p]
    [match r with
     | RNotFound => El p_ [] [Txt (t "app.not_found")]
     | _ => El section (("component" =: routed_name r) :: page_callbacks r) []
     end].

Definition heading (p : Props) : node Event :=
  El div ["className" =: "page-heading"]
    (El div [] [El h1 ["tabIndex" =: "-1"] [Txt (title p)]; El p_ [] [Txt (subtitle p)]]
     :: when (negb (one_of (pathname p) SELF_REFRESHING))
          [El div ["className" =: "page-actions"]
             [El button ["className" =: "button"; OnClick ClickRefresh; "aria-label" =: t "app.refresh"]
                [Icon "RefreshCw" 15; El span ["className" =: "label"] [Txt (t "app.refresh")]]]]).

Definition info (text : string) : node Event :=
  El div ["className" =: "notice info"; "role" =: "status"] [Txt text].

Definition notices (p : Props) (s : State) : list (node Event) :=
  let error := UseSnapshot.error (snapshot s) in
  when (truthy error)
    [El div ["className" =: "notice error"; "role" =: "alert"]
       [Txt (error +:+ ". ");
        Txt (match UseSnapshot.data (snapshot s) with
             | Some d => t "app.error.showing_last" +:+ " " +:+ time_locale (checked d) +:+ "."
             | None => t "app.error.check_server"
             end)]]
  ++ when (replica s && String.eqb (pathname p) "/zones") [info (t "cluster.zones_read_only")]
  ++ when (readOnly p && one_of (pathname p) VIEWER_NOTICE) [info (t "app.viewer_readonly")].

Definition footer_bar (s : State) : node Event :=
  let d := UseSnapshot.data (snapshot s) in
  El footer []
    (El span [] [Txt (t "app.footer.independent")]
     :: when_some d (fun d =>
          when (truthy (ver_version (version (snap_status d))))
            [El span ["className" =: "running-version"]
               [Txt ("Velora DNS " +:+ ver_version (version (snap_status d)))]])
     ++ [El span [] [Txt (match d with
                          | Some d => t "app.footer.last_updated" +:+ " " +:+ time_locale (checked d)
                          | None => t "app.footer.waiting"
                          end)]]).

Definition view (p : Props) (s : State) : list (node Event) :=
  [El div ["className" =: "app"; OnKey WindowKey; OnKey PressCtrl; OnMouse PointerOutside]
     ([El a_ ["className" =: "skip-link"; "href" =: "#main"] [Txt (t "app.skip_to_content")];
       header_bar p s; nav_bar p s]
      ++ palette p s
      ++ [El main_ ["id" =: "main"; "className" =: "container"]
            ([heading p]
             ++ notices p s
             ++ when (negb (opt_is_some (UseSnapshot.data (snapshot s)))
                      && negb (truthy (UseSnapshot.error (snapshot s))))
                  [El section ["className" =: "panel"] [Loading [Txt (t "app.connecting_panel")]]]
             ++ when_some (UseSnapshot.data (snapshot s)) (fun d => [page_view p s d])
             ++ [footer_bar s])])].

(** ** The component *)

(** After a navigation the new page's heading takes the focus. *)
Definition focus_heading (c : State) : M State unit :=
  if firstRoute c then update (fun s => s <| firstRoute := false |>)
  else emit (CallProp "focus heading").

Definition page : component Props State Event :=
  mkComponent init view handle
    [mkEffect snapshot_changed (fun _ _ => Some (run_top poll)) (fun _ _ => run_top poll);
     mkEffect (fun a b => negb (same_user (user (fst a)) (user (fst b))))
       (fun p _ => if opt_is_some (user p) then Some (run_top watch_events) else None)
       (fun _ _ => run_top watch_events);
     effect_once (fun a b => negb (String.eqb (pathname (fst a)) (pathname (fst b))))
       (fun _ c => Some (run_top (focus_heading c)));
     effect_once (fun a b => negb (String.eqb (title (fst a)) (title (fst b))))
       (fun p _ => Some (run_top (update (fun s => s <| document_title := "Velora DNS · " +:+ title p |>))))]
    (fun s => s).
End Shell.
End App.

(** * Theorems *)

Module AppFacts.
Import App.
Import RewritesFacts ClientsFacts ForwardingFacts ZonesFacts PoliciesFacts WebhooksFacts BlocklistsFacts.
Import CachePageFacts QueryLogFacts DhcpFacts UpdateCenterFacts BackupFacts ClusterFacts SupportFacts DashboardFacts AnalyticsFacts.
Section Facts.
Context {L : Locale} (t : string -> string) (language : string).

(** ** What the pages promise, put together *)






Definition serial {P S E} (C : component P S E) (p : P) : Prop :=
  forall c, reachable C any_props p c -> length (filterb in_flight (tasks c)) <= 1.

Definition one_mutation (r : Routed) : Prop :=
  match r with
  | RDashboard p => serial (Dashboard.page t language) p
  | RCachePage p => serial (CachePage.page t language) p
  | RZones p => serial (Zones.page t) p
  | RBlocklists p => serial (Blocklists.page t language) p
  | RPolicies p => serial (Policies.page t) p
  | RClients p => serial (Clients.page t language) p
  | RRewrites p => serial (Rewrites.page t) p
  | RForwarding p => serial (Forwarding.page t) p
  | RWebhooks => serial (Webhooks.page t language) tt
  | RCluster manage => forall origin, serial (Cluster.page t language) (Cluster.mkProps manage origin)
  | _ => False
  end.

(** C3: no double submits: on the pages with a busy flag (overview, cache, zones,
    blocklists, policies, clients, rewrites, forwarding, webhooks and cluster) at
    most one mutating request is unanswered at any moment, whoever the user is and
    however fast they click. *)
Theorem app_one_mutation p s d path :
  In path ["/"; "/cache"; "/zones"; "/blocklists"; "/policies"; "/clients"; "/rewrites"; "/forwarding"; "/webhooks";
           "/cluster"] ->
  one_mutation (route p s d path).
Proof.
  intros Hin.
  repeat (destruct Hin as [<-|Hin];
    [unfold route; cbn; unfold serial; intros; eapply one_at_a_time; eassumption|]).
  destruct Hin.
Qed.

(** Whenever the page's flag is set, one of its tasks waits for an answer, and
    the answers that follow clear the flag. *)
Definition unlocks {P S E} (C : component P S E) (lock : S -> bool) (p : P) : Prop :=
  forall c, reachable C any_props p c -> lock (state c) = true ->
    exists tk, In tk (tasks c) /\ clears lock (state c) (t_todo tk) /\
      match t_todo tk with Wait _ _ => True | _ => False end.

Definition never_stuck (r : Routed) : Prop :=
  match r with
  | RDashboard p => unlocks (Dashboard.page t language) Dashboard.resetting p
  | RCachePage p => unlocks (CachePage.page t language) CachePage.busy p
  | RBlocklists p => unlocks (Blocklists.page t language) Blocklists.is_busy p
  | RPolicies p => unlocks (Policies.page t) Policies.busy p
  | RClients p => unlocks (Clients.page t language) Clients.busy p
  | RRewrites p => unlocks (Rewrites.page t) Rewrites.busy p
  | RForwarding p => unlocks (Forwarding.page t) Forwarding.busy p
  | RWebhooks => unlocks (Webhooks.page t language) Webhooks.busy tt
  | RCluster manage => forall origin, unlocks (Cluster.page t language) Cluster.busy (Cluster.mkProps manage origin)
  | _ => False
  end.

(** C5: no page stays busy: in every run of the overview, cache, blocklists,
    policies, clients, rewrites, forwarding, webhooks and cluster pages, while
    the flag that disables the controls is set, a request is unanswered whose
    answer, be it a success, an error response or a network failure, leads in
    finitely many answers to the flag being cleared, whatever the page's other
    tasks did in between. *)
Theorem app_busy_cleared p s d path :
  In path ["/"; "/cache"; "/blocklists"; "/policies"; "/clients"; "/rewrites"; "/forwarding"; "/webhooks";
           "/cluster"] ->
  never_stuck (route p s d path).
Proof.
  intros Hin.
  repeat (destruct Hin as [<-|Hin];
    [unfold route; cbn; unfold unlocks; intros; eapply unblocks; eassumption|]).
  destruct Hin.
Qed.

(** ** Navigation *)

Definition nav_paths : list (string * string) :=
  flat_map (fun entry => match entry with
                         | Link i => [(to_ i, key i)]
                         | Group _ items => map (fun i => (to_ i, key i)) items
                         end) NAV.

Definition is_not_found (r : Routed) : bool := match r with RNotFound => true | _ => false end.

(** Navigation, titles and routes agree: every link of the navigation is
    routed to a page whose title key is the link's, every routed path is linked
    once, and a path the router does not know is the not-found page. *)
Theorem app_navigation p s d path :
  match assoc path nav_paths with
  | Some k => assoc path ROUTE_KEYS = Some k /\ is_not_found (route p s d path) = false
  | None => assoc path ROUTE_KEYS = None /\ route p s d path = RNotFound
  end /\ List.NoDup (map fst nav_paths).
Proof.
  split; [|apply NoDup_ListNoDup; by apply (bool_decide_unpack (NoDup (map fst nav_paths)))].
  unfold route, nav_paths, routes, ROUTE_KEYS. cbn [assoc flat_map NAV map to_ key app].
  repeat match goal with
  | |- context [String.eqb path ?k] =>
      destruct (String.eqb_spec path k) as [->|]; [by split|]
  end.
  by split.
Qed.

(** The command palette offers what the role allows: the admin-only pages
    are listed for administrators only, the shortcut that opens the add-client
    form for signed-in users who are no viewers, and signing out only to a
    signed-in user. *)
Theorem app_palette_roles p it :
  In it (palettePages t p ++ paletteActions t p) ->
  match CommandPalette.run it with
  | CommandPalette.RunNavigate link =>
      (one_of link ["/webhooks"; "/audit"] = true -> is_admin p = true) /\
      (link = "/clients?new=1" -> readOnly p = false /\ user p <> None)
  | CommandPalette.RunSignOut => user p <> None
  | CommandPalette.RunTheme next => next = other_theme p
  end.
Proof.
  unfold palettePages, paletteActions, nav_items, visible_items.
  destruct (is_admin p) eqn:Ha; destruct (readOnly p) eqn:Hr; destruct (user p) as [u|] eqn:Hu; cbn;
    intros Hin; repeat (destruct Hin as [<-|Hin]; [by cbn|]); destruct Hin.
Qed.

(** ** The snapshot *)

Definition history_inv (_ : Props) (s : State) : Prop :=
  length (UseSnapshot.history (snapshot s)) <= 30.

Ltac history_close :=
  unfold history_inv, set_snapshot in *; cbn in *; rewrite ?length_app, ?length_drop; cbn;
  first [lia | done].

Lemma app_verified_history p : verified (page t) any_props history_inv (fun _ => True) p.
Proof.
  assert (forall A (a : api A), api_sends (fun q => True) a) as Hany.
  { intros A a e. by apply List.Forall_forall. }
  constructor; cbn [c_init c_view c_handle c_effects c_unmount page]; try done.
  - unfold history_inv. cbn. lia.
  - intros p' s ev Hi _.
    destruct ev as [| | | | | | | | | |it| | | | |]; try destruct (CommandPalette.run it) eqn:Erun;
      unfold handle, closeNav, menuKeys, window_key, run_item, signOut, logout, refresh, UseSnapshot.refresh,
        UseSnapshot.set, refreshEvents, set_group; rewrite ?Erun; wp_split; try apply Hany; try history_close.
    unfold history_inv. by case_match.
  - intros ef p' s q Hin Hi Hb. repeat (destruct Hin as [<-|Hin]); [..|done]; cbn in Hb.
    + injection Hb as <-. unfold poll, UseSnapshot.poll, loadSnapshot, UseSnapshot.set. wp_split;
        try apply Hany; history_close.
    + destruct (opt_is_some (user p')); [|done]. injection Hb as <-.
      unfold watch_events, refreshEvents. wp_split; try apply Hany; history_close.
    + injection Hb as <-. unfold focus_heading. destruct (firstRoute s); wp_split; history_close.
    + injection Hb as <-. wp_split; history_close.
  - intros ef p' s Hin. repeat (destruct Hin as [<-|Hin]); [..|done]; intros _ p'' s' Hi; cbn [ef_loop effect_once].
    + unfold poll, UseSnapshot.poll, loadSnapshot, UseSnapshot.set. wp_split; try apply Hany; history_close.
    + unfold watch_events, refreshEvents. wp_split; try apply Hany; history_close.
    + exact Hi.
    + exact Hi.
Qed.

(** The query-rate history never grows past the thirty points the chart
    shows, however long the console stays open. *)
Theorem app_history_bounded p c :
  reachable (page t) any_props p c -> length (UseSnapshot.history (snapshot (state c))) <= 30.
Proof. intros Hc. by apply (invariant_reachable _ _ _ _ _ _ (app_verified_history p) Hc). Qed.

(** C29: one poll of the server: four reads go out together. When the poll was
    superseded or the console left, its answer changes nothing and no other
    poll follows; otherwise the next one is due in five seconds. An answer
    replaces the data, clears the error and appends one point to the history; a
    failure shows its message and keeps the last data and history. *)
Theorem app_poll e s :
  let call := snapshot_requests true in
  exists k,
    advance e (run_top (poll t)) s = Seg (Wait (call e) k) s (map Sent (sent (call e))) [] /\
    map f_path (sent (call e)) = ["/api/v1/status"; "/api/v1/stats"; "/api/v1/cache"; "/api/v1/config"] /\
    forall e' s' reply, let r := advance e' (k reply) s' in
      if aborted e' then r = Seg Done s' [] []
      else seg_todo r = Again 5000 /\ seg_out r = [] /\
        let h := snapshot s' in let h' := snapshot (seg_state r) in
        match reply with
        | inl (st, stats, cache, config) =>
            UseSnapshot.data h' = Some (mkSnapshot st stats cache config (now e')) /\
            UseSnapshot.error h' = "" /\
            UseSnapshot.history h'
              = (UseSnapshot.last_29 (UseSnapshot.history h) ++ [queries_per_second stats])%list
        | inr x =>
            UseSnapshot.data h' = UseSnapshot.data h /\ UseSnapshot.history h' = UseSnapshot.history h /\
            UseSnapshot.error h' = error_message x (t "app.error.reach_server")
        end.
Proof.
  cbv zeta. eexists. split; [reflexivity|]. split; [reflexivity|].
  intros e' s' [[[[st stats] cache] config]|x]; cbn; destruct (aborted e') eqn:Ha; cbn; rewrite ?Ha; done.
Qed.

(** Signing out: the click posts the logout; when the server confirms, the
    CSRF token is forgotten before the page reloads; a failed logout keeps the
    session, the token and the page. *)
Theorem app_sign_out e p s :
  let call := post_empty unit "/api/v1/auth/logout" in
  exists k,
    advance e (handle p s SignOut) s = Seg (Wait (call e) k) s (map Sent (sent (call e))) [] /\
    forall e' s', advance e' (k (inl tt)) s' = Seg Done s' [SetCSRFToken ""; Reload] [] /\
      forall x, advance e' (k (inr x)) s' = Seg Done s' [] [].
Proof. cbv zeta. eexists. split; [reflexivity|]. intros e' s'. by split. Qed.

(** ** The editors *)

Definition words (l : list string) : Prop := Forall (fun w => is_word is_list_sep w = true) l.

(** C25: opening an entry in its editor and saving it unchanged sends exactly
    that entry back: lists survive the trip through a text field (joined with a
    comma and a blank, or with line feeds, and cut at blanks and commas) for
    clients, conditional-forwarding rules and policies whose texts are trimmed
    and whose list entries hold no separator. *)
Theorem editors_round_trip v rule pol :
  let c := cv_client v in let r := frs_rule rule in
  Forall (fun x => trim x = x) [cl_name c; cl_group c; cl_description c; fr_domain r; fr_description r] ->
  words (cl_addresses c) -> words (fr_upstreams r) -> words (po_allow pol) -> words (po_block pol) ->
  (Policies.is_custom (po_mode pol) = false -> po_blocklists pol = [] /\ po_allow pol = [] /\ po_block pol = []) ->
  Clients.toInput (Clients.editor_of v) = Clients.inputOf v /\
  Forwarding.input_of_form (Forwarding.editor_of rule) = rule_input rule /\
  Policies.toInput (Policies.editor_of pol) = Policies.inputOf pol.
Proof.
  cbv zeta. intros Ht Hc Hr Ha Hb Hm. repeat (apply Forall_cons in Ht as [? Ht]).
  split_and!; [by apply clients_unchanged|by apply forwarding_unchanged|by apply policies_unchanged].
Qed.
End Facts.

(** ** Concrete instances *)

Definition viewer_props (path : string) : Props :=
  mkProps (Some (mkAuthUser "vic" viewer "tok" None None)) th_auto false path (fun _ => None) 0.


Lemma app_one_mutation_witness : @serial _ _ _ (@Zones.page plain_locale plain_text) (Zones.mkProps true None).
Proof.
  refine (@app_one_mutation plain_locale plain_text "en" (viewer_props "/zones") (init (viewer_props "/zones"))
    small_snapshot "/zones" _). cbn. tauto.
Defined.

Definition operator_props (path : string) : Props :=
  mkProps (Some (mkAuthUser "olga" operator "tok" None None)) th_auto false path (fun _ => None) 0.

Lemma app_busy_cleared_witness :
  @unlocks _ _ _ (@Rewrites.page plain_text) Rewrites.busy (Rewrites.mkProps false None).
Proof.
  refine (@app_busy_cleared plain_locale plain_text "en" (operator_props "/rewrites")
    (init (operator_props "/rewrites")) small_snapshot "/rewrites" _). cbn. tauto.
Defined.

Lemma app_palette_roles_witness :
  CommandPalette.RunTheme (other_theme (viewer_props "/")) = CommandPalette.RunTheme th_dark /\
  In (action "theme" "app.theme_to_dark" "Moon" (CommandPalette.RunTheme th_dark))
     (palettePages plain_text (viewer_props "/") ++ paletteActions plain_text (viewer_props "/")).
Proof.
  assert (In (action "theme" "app.theme_to_dark" "Moon" (CommandPalette.RunTheme th_dark))
     (palettePages plain_text (viewer_props "/") ++ paletteActions plain_text (viewer_props "/"))) as Hin
    by (vm_compute; tauto).
  split; [|exact Hin]. apply (f_equal CommandPalette.RunTheme). symmetry.
  exact (app_palette_roles plain_text (viewer_props "/") _ Hin).
Defined.

Lemma editors_round_trip_witness :
  let v := mkClientView (mkClient 1 "TV" ["192.168.1.20"; "2001:db8::20"] "Media" "" true) None in
  Clients.toInput (Clients.editor_of v) = Clients.inputOf v.
Proof.
  refine (proj1 (editors_round_trip
    (mkClientView (mkClient 1 "TV" ["192.168.1.20"; "2001:db8::20"] "Media" "" true) None)
    (mkForwardRuleStatus (mkForwardRule 1 "corp.example" ["10.0.0.10"] true "") [])
    (mkPolicy 1 1 mode_custom [2]%Z ["ok.example"] ["ads.example"; "t.example"] true) _ _ _ _ _ _)).
  all: by repeat constructor.
Defined.
End AppFacts.
