(* ===== verification/I18nEn.v ===== *)
(** * The English catalog: web/src/i18n/en.ts

    Its entries in order, in parts of up to 148 lines of the file. *)
From S2P Require Import Prelude.
Local Open Scope string_scope.

Definition en_1 : list (string * string) :=
  [("app.skip_to_content", "Skip to content");
   ("app.workspace_label", "WORKSPACE");
   ("app.nav.events", "Events");
   ("app.title.events", "Events");
   ("events.unread", "unread");
   ("events.empty", "No system events yet.");
   ("events.load_failed", "Could not load system events");
   ("events.mark_read", "Mark as read");
   ("events.repeated", "Repeated");
   ("events.open", "Open");
   ("events.info", "Info");
   ("events.warning", "Warning");
   ("events.critical", "Critical");
   ("app.nav.main", "Main navigation");
   ("app.nav.overview", "Overview");
   ("app.nav.zones", "Local zones");
   ("app.nav.queries", "Query log");
   ("app.nav.blocklists", "Blocklists");
   ("app.nav.cache", "DNS cache");
   ("app.nav.settings", "Settings");
   ("app.nav.updates", "Updates");
   ("app.nav.backup", "Backup");
   ("app.sign_out", "Sign out");
   ("app.nav.audit", "Audit log");
   ("app.title.audit", "Audit log");
   ("app.nav.diagnostics", "Diagnostics");
   ("app.title.diagnostics", "Diagnostics");
   ("app.local_resolver", "Local resolver");
   ("app.self_hosted_foundation", "Self-hosted · Foundation");
   ("app.private_by_default", "Private by default");
   ("app.privacy.query_retention", "Query history has bounded retention.");
   ("app.privacy.no_query_history", "Query history is not collected.");
   ("app.github_repo", "GitHub repository");
   ("app.connecting", "Connecting…");
   ("app.workspace", "Workspace");
   ("app.connection_lost", "Connection lost");
   ("app.resolver_online", "Resolver online");
   ("app.title.overview", "Network overview");
   ("app.title.zones", "Local zones");
   ("app.title.queries", "Query log");
   ("app.title.blocklists", "Blocklists");
   ("app.title.cache", "DNS cache");
   ("app.title.settings", "Settings");
   ("app.title.updates", "Updates");
   ("app.title.backup", "Backup & Restore");
   ("app.eyebrow", "YOUR NETWORK, AT A GLANCE");
   ("app.subtitle.overview", "A clear view of your DNS, from request to response.");
   ("app.subtitle.default", "Inspect and manage your resolver foundation.");
   ("app.refresh", "Refresh");
   ("app.error.showing_last", "Showing the last successful snapshot from");
   ("app.error.check_server", "Check that the Velora server is running.");
   ("app.error.reach_server", "Unable to reach server");
   ("app.viewer_readonly", "You are signed in as a viewer. Management actions are read-only.");
   ("app.connecting_panel", "Connecting to your resolver…");
   ("app.not_found", "Page not found.");
   ("app.footer.independent", "Velora DNS · Independent. Self-hosted.");
   ("app.footer.last_updated", "Last updated");
   ("app.footer.waiting", "Waiting for server");
   ("diagnostics.title", "System health");
   ("diagnostics.report_hint", "The download contains component states and build information, without secrets or query logs.");
   ("diagnostics.download", "Download report");
   ("diagnostics.loading", "Loading diagnostics…");
   ("diagnostics.load_failed", "Unable to load diagnostics");
   ("diagnostics.upstreams", "Upstreams");
   ("diagnostics.component", "Component");
   ("diagnostics.state", "State");
   ("diagnostics.detail", "Detail");
   ("diagnostics.state.healthy", "Healthy");
   ("diagnostics.state.degraded", "Degraded");
   ("diagnostics.state.failed", "Failed");
   ("explain.title", "Why did this answer happen?");
   ("explain.hint", "Dry run of the resolver for one name. Nothing is queried upstream, logged, cached or counted.");
   ("explain.name", "Name");
   ("explain.type", "Record type");
   ("explain.client", "Client address (optional)");
   ("explain.client_hint", "Applies that client's filtering policy.");
   ("explain.submit", "Explain");
   ("explain.running", "Explaining…");
   ("explain.failed", "Unable to explain this query");
   ("explain.result", "Explanation");
   ("explain.winner", "Deciding stage");
   ("explain.answers", "Answer");
   ("explain.no_answers", "No answer records: the answer would come from an upstream resolver, which is not contacted.");
   ("explain.steps", "Stages considered");
   ("explain.step", "Stage");
   ("explain.outcome", "Outcome");
   ("explain.detail", "Detail");
   ("explain.cname_target", "CNAME target");
   ("explain.ttl", "Remaining TTL");
   ("explain.matches", "Matched");
   ("explain.allowed_by", "Allowed by");
   ("explain.not_contacted", "No upstream was contacted.");
   ("explain.scope.global", "Global filtering");
   ("explain.scope.client_policy", "Client policy");
   ("explain.stage.filter", "Blocklist or client policy");
   ("explain.stage.rewrite", "DNS rewrite");
   ("explain.stage.zone", "Local zone");
   ("explain.stage.cache", "Cache");
   ("explain.stage.forwarding", "Conditional forwarding rule");
   ("explain.stage.upstream", "Global upstream resolvers");
   ("explain.stage.refused", "Refused");
   ("explain.result.passed", "Passed");
   ("explain.result.allowed", "Allowed");
   ("explain.result.blocked", "Blocked");
   ("explain.result.no_match", "No match");
   ("explain.result.answered", "Answered");
   ("explain.result.miss", "Miss");
   ("explain.result.hit", "Hit");
   ("explain.result.refused", "Refused");
   ("explain.result.would_forward", "Would be forwarded");
   ("explain.result.error", "Error");
   ("explain.source.local", "Local answer");
   ("explain.source.cache", "Cache");
   ("explain.source.blocked", "Blocked");
   ("explain.source.upstream", "Upstream");
   ("explain.source.refused", "Refused");
   ("audit.title", "Management audit log");
   ("audit.hint", "Administrative actions are retained for 90 days. Secrets and request bodies are excluded.");
   ("audit.actor", "Actor");
   ("audit.action", "Action");
   ("audit.result", "Result");
   ("audit.all", "All");
   ("audit.success", "Success");
   ("audit.failure", "Failure");
   ("audit.filter", "Filter");
   ("audit.time", "Time");
   ("audit.target", "Target");
   ("audit.empty", "No audit events found.");
   ("audit.more", "Load more");
   ("audit.load_failed", "Unable to load audit events");
   ("auth.checking", "Checking session…");
   ("auth.sign_in_title", "Sign in to Velora DNS");
   ("auth.username", "Username");
   ("auth.password", "Password");
   ("auth.sign_in", "Sign in");
   ("auth.sign_in_failed", "Sign in failed");
   ("settings.server_configuration", "Server configuration");
   ("settings.language", "Language");
   ("settings.theme", "Theme");
   ("settings.theme_light", "Light");
   ("settings.theme_dark", "Dark");
   ("settings.theme_auto", "Auto");
   ("settings.theme_hint", "Auto follows your operating system's light or dark color scheme.")].

Definition en_2 : list (string * string) :=
  [("settings.log_level", "Log level");
   ("settings.rate_limiting", "Rate limiting");
   ("settings.rate_limit_hint", "Rate limiting is disabled by default. Enable it to protect the resolver from source floods and high query rates.");
   ("settings.rate_limit_enabled", "Enable rate limiting");
   ("settings.rate_limit_global_qps", "Global queries per second");
   ("settings.rate_limit_client_qps", "Queries per second per client");
   ("settings.rate_limit_burst", "Burst allowance");
   ("settings.rate_limit_rejected_total", "Rejected queries");
   ("settings.rate_limit_last_rejected", "Last rejection");
   ("settings.save", "Save");
   ("settings.rate_limit_load_failed", "Unable to load rate limit settings");
   ("settings.rate_limit_save_failed", "Unable to save rate limit settings");
   ("settings.rate_limit_saved", "Rate limit settings saved.");
   ("settings.rate_limit_loading", "Loading rate limit settings…");
   ("settings.edit_hint", "These settings correspond to the quickstart installer options. Some changes require a restart; cache TTL changes apply immediately.");
   ("settings.dns_section", "DNS settings");
   ("settings.cache_section", "DNS cache");
   ("settings.cache_ttl_label", "Upstream answer cache TTL (seconds)");
   ("settings.cache_ttl_hint", "86400 seconds = 24 hours. Range: 0–604800 seconds; 0 uses each upstream's original TTL. Upstream changes may take this long to appear. Changing this clears existing cached answers. Zero-TTL and signed DNSSEC answers retain their original TTL.");
   ("settings.cache_ttl_invalid", "Enter a whole number from 0 to 604800 seconds.");
   ("settings.dns_listen_label", "DNS listen addresses (comma-separated)");
   ("settings.dns_listen_warning", "Warning: 0.0.0.0 exposes DNS to your network. Ensure the firewall allows only trusted clients.");
   ("settings.upstreams_label", "Upstream DNS servers (comma-separated)");
   ("settings.upstreams_hint", "Format: IP:PORT (e.g. 1.1.1.1:53). DoH upstreams use https://host/dns-query");
   ("settings.allowed_clients_label", "Allowed client networks (comma-separated CIDRs)");
   ("settings.allowed_clients_hint", "Only these networks can query the resolver. Example: 192.168.1.0/24, 10.0.0.0/8");
   ("settings.web_section", "Web UI settings");
   ("settings.web_listen_label", "Web UI listen address (IP:port)");
   ("settings.web_listen_warning", "Warning: 0.0.0.0 exposes the Web UI to your network. Use a firewall or authentication.");
   ("settings.allowed_hosts_label", "Allowed hosts (comma-separated)");
   ("settings.allowed_hosts_hint", "Host headers allowed to access the management API. Use * to allow all (not recommended on a LAN).");
   ("settings.logging_section", "Logging & other");
   ("settings.enable_query_log", "Enable query logging");
   ("settings.save_configuration", "Save configuration");
   ("settings.saving", "Saving…");
   ("settings.save_success", "Configuration saved and applied.");
   ("settings.save_failed", "Failed to save configuration");
   ("dashboard.total_queries", "Total queries");
   ("dashboard.since_start", "Since the last statistics reset");
   ("dashboard.reset_statistics", "Reset statistics");
   ("dashboard.reset_confirm", "Reset all query, cache, and rate limit counters? This cannot be undone.");
   ("dashboard.reset_failed", "Could not reset statistics");
   ("dashboard.qps", "Queries / second");
   ("dashboard.rolling_avg", "Rolling 60-second average");
   ("dashboard.cache_hit_rate", "Cache hit rate");
   ("dashboard.answers_from_memory", "answers served from memory");
   ("dashboard.uptime", "Uptime");
   ("dashboard.process_lifetime", "Current process lifetime");
   ("dashboard.top_domains", "Top domains");
   ("dashboard.top_clients", "Top clients");
   ("dashboard.query_activity", "Query activity");
   ("dashboard.live_samples", "Live samples from your resolver");
   ("dashboard.refresh_5s", "5s refresh");
   ("dashboard.queries_per_sec", "queries / sec");
   ("dashboard.chart_aria", "Query rate sampled during this browser session");
   ("dashboard.session_samples", "Session samples");
   ("dashboard.now", "Now");
   ("dashboard.upstream_resolvers", "Upstream resolvers");
   ("dashboard.ordered_failover", "Ordered failover with TCP fallback");
   ("dashboard.endpoint", "Endpoint");
   ("dashboard.health", "Health");
   ("dashboard.upstream_unknown", "Unknown");
   ("dashboard.upstream_healthy", "Healthy");
   ("dashboard.upstream_degraded", "Degraded");
   ("dashboard.upstream_unavailable", "Unavailable");
   ("dashboard.priority", "Priority");
   ("dashboard.attempt_timeout", "Attempt timeout");
   ("dashboard.primary", "Primary");
   ("dashboard.fallback", "Fallback");
   ("dashboard.config_shown", "Configuration shown. Reachability is evaluated on each query.");
   ("dashboard.retained_last_24h", "Retained queries during the last 24 hours");
   ("dashboard.unavailable_no_logging", "Unavailable while query logging is disabled.");
   ("dashboard.loading_stats", "Loading query statistics…");
   ("dashboard.stats_load_failed", "Unable to load query statistics");
   ("dashboard.no_retained", "No retained queries in this window.");
   ("cache.live_entries", "Live entries");
   ("cache.capacity", "Capacity");
   ("cache.hits", "Cache hits");
   ("cache.since_startup", "Since process startup");
   ("cache.misses", "Cache misses");
   ("cache.includes_uncacheable", "Includes uncacheable requests");
   ("cache.memory_cache", "Memory cache");
   ("cache.description", "Positive upstream answers use the configured cache TTL. Zero-TTL, signed DNSSEC, and negative answers retain their original rules. Least recently used entries are removed at capacity. Cache contents are never stored in SQLite.");
   ("cache.clear_description", "Clearing the cache removes all current answers. Lifetime hit and miss counters are retained.");
   ("cache.clearing", "Clearing…");
   ("cache.clear", "Clear cache");
   ("cache.cleared", "Cache cleared. Local zones remain active; other queries will use upstream resolvers.");
   ("cache.flush_failed", "Cache flush failed");
   ("cache.entries_title", "Cached DNS entries");
   ("cache.entries_description", "Current answers, most recently used first.");
   ("cache.entries_loading", "Loading cache entries…");
   ("cache.entries_load_failed", "Unable to load cache entries");
   ("cache.entries_empty", "The cache is empty.");
   ("cache.entries_scroll_hint", "Scroll sideways to see all columns.");
   ("cache.entry_name", "Name");
   ("cache.entry_type", "Type");
   ("cache.entry_answer", "Answer");
   ("cache.entry_status", "Status");
   ("cache.entry_ttl", "TTL remaining");
   ("cache.seconds", "s");
   ("cache.previous", "Previous");
   ("cache.next", "Next");
   ("querylog.unavailable_title", "Query history unavailable");
   ("querylog.unavailable_text", "Enable query logging to collect and inspect future DNS activity.");
   ("querylog.up_to_100", "Up to 100 retained responses per page");
   ("querylog.refresh", "Refresh queries");
   ("querylog.filters_aria", "Query filters");
   ("querylog.domain", "Domain");
   ("querylog.contains_example", "Contains example.com");
   ("querylog.client_ip", "Client IP");
   ("querylog.exact_ip", "Exact IP address");
   ("querylog.query_type", "Query type");
   ("querylog.all_types", "All types");
   ("querylog.source", "Source");
   ("querylog.all_sources", "All sources");
   ("querylog.apply_filters", "Apply filters");
   ("querylog.show_blocked", "Show blocked queries");
   ("querylog.error_stale", "Previous results may be out of date.");
   ("querylog.loading", "Loading query log…");
   ("querylog.no_matches", "No matching queries");
   ("querylog.no_matches_text", "Try different filters or generate DNS traffic with logging enabled.");
   ("querylog.caption", "DNS query log");
   ("querylog.col_timestamp", "Timestamp");
   ("querylog.col_client", "Client");
   ("querylog.col_domain", "Domain");
   ("querylog.col_type", "Type");
   ("querylog.col_source", "Source");
   ("querylog.col_response", "Response");
   ("querylog.col_latency", "Latency");
   ("querylog.older", "Older queries");
   ("querylog.load_failed", "Unable to load query log")].

Definition en_3 : list (string * string) :=
  [("blocklists.count", "external sources");
   ("blocklists.count_one", "external source");
   ("blocklists.sources_label", "DNS policy sources");
   ("blocklists.reload", "Reload");
   ("blocklists.add_source", "Add source");
   ("blocklists.add_aria", "Add blocklist source");
   ("blocklists.add_title", "Add external blocklist");
   ("blocklists.add_text", "Only public HTTP(S) sources are accepted. Failed refreshes keep prior DNS rules active.");
   ("blocklists.name", "Name");
   ("blocklists.source_url", "Source URL");
   ("blocklists.community_hosts", "Community hosts");
   ("blocklists.adding", "Adding…");
   ("blocklists.cancel", "Cancel");
   ("blocklists.loading", "Loading blocklist sources…");
   ("blocklists.empty_title", "No external blocklists");
   ("blocklists.empty_text", "Add a trusted public hosts or domain list to apply DNS blocking.");
   ("blocklists.caption", "External blocklist sources");
   ("blocklists.col_source", "Source");
   ("blocklists.col_status", "Status");
   ("blocklists.col_last_update", "Last update");
   ("blocklists.update_failed", "Update failed");
   ("blocklists.active", "ACTIVE");
   ("blocklists.disabled", "DISABLED");
   ("blocklists.never", "Never");
   ("blocklists.updating", "Updating…");
   ("blocklists.update", "Update");
   ("blocklists.load_failed", "Unable to load blocklists");
   ("blocklists.add_failed", "Unable to add source");
   ("blocklists.update_failed_msg", "Unable to update source");
   ("blocklists.col_domains", "Domains");
   ("blocklists.local", "Local");
   ("blocklists.enable", "Enable");
   ("blocklists.disable", "Disable");
   ("blocklists.toggle_failed", "Unable to toggle source");
   ("blocklists.edit_content", "Edit content");
   ("blocklists.edit_content_aria", "Edit blocklist content");
   ("blocklists.edit_content_title", "Edit blocklist domains");
   ("blocklists.edit_content_text", "Enter one domain per line. Lines starting with 0.0.0.0 or a comment are treated as host entries.");
   ("blocklists.domains_label", "Domains");
   ("blocklists.saving", "Saving…");
   ("blocklists.save", "Save");
   ("blocklists.content_save_failed", "Unable to save content");
   ("blocklists.delete", "Delete");
   ("blocklists.confirm_delete", "Confirm");
   ("blocklists.delete_failed", "Unable to delete source");
   ("zones.count", "local zones");
   ("zones.count_one", "local zone");
   ("zones.local_authority", "Local authority");
   ("zones.reload", "Reload zones");
   ("zones.add_zone", "Add zone");
   ("zones.error_stale", "Showing the last loaded zones. Reload before making changes.");
   ("zones.error_retry", "Reload to try again.");
   ("zones.reload_before_retry", "Reload zones before retrying.");
   ("zones.loading", "Loading local zones…");
   ("zones.empty_title", "Give your network familiar names");
   ("zones.empty_text", "Create a zone such as home.arpa, then add records for your router, services, and devices.");
   ("zones.create_first", "Create your first zone");
   ("zones.filter_aria", "Filter zones");
   ("zones.filter_placeholder", "Find a zone…");
   ("zones.nav_aria", "Local zones");
   ("zones.records_custom", "custom records");
   ("zones.no_matching", "No matching zones.");
   ("zones.authoritative_eyebrow", "AUTHORITATIVE ZONE");
   ("zones.revision", "Revision");
   ("zones.add_record", "Add record");
   ("zones.delete_zone_aria", "Delete zone");
   ("zones.primary_ns", "Primary NS");
   ("zones.contact", "Contact");
   ("zones.delete_record_confirm", "Delete record");
   ("zones.delete_zone_confirm", "and all");
   ("zones.delete_zone_confirm2", "records? This cannot be undone.");
   ("zones.deleting", "Deleting…");
   ("zones.delete_record_perm", "Delete record permanently");
   ("zones.delete_zone_perm", "Delete zone permanently");
   ("zones.cancel_deletion", "Cancel deletion");
   ("zones.record_saved", "Record saved. DNS changes are active.");
   ("zones.record_deleted", "Record deleted. DNS changes are active.");
   ("zones.zone_deleted", "Zone and its records deleted.");
   ("zones.zone_created", "Zone created. Add records to start using it.");
   ("zones.delete_failed", "Unable to delete");
   ("zones.footnote", "Local answers take priority over forwarding. Devices may retain previous answers until their TTL expires.");
   ("zones.record_form_edit_aria", "Edit DNS record");
   ("zones.record_form_add_aria", "Add DNS record");
   ("zones.edit_record", "Edit record");
   ("zones.add_record_form", "Add record");
   ("zones.changes_apply", "Changes apply to");
   ("zones.record_name", "Record name");
   ("zones.router_or_at", "router or @");
   ("zones.relative_name_hint", "Relative name, @ for the zone, or an absolute name ending in a dot.");
   ("zones.record_type", "Record type");
   ("zones.ttl_seconds", "TTL (seconds)");
   ("zones.priority", "Priority");
   ("zones.ipv4_address", "IPv4 address");
   ("zones.ipv6_address", "IPv6 address");
   ("zones.text_value", "Text value");
   ("zones.target_hostname", "Target hostname");
   ("zones.invalid_ttl", "Enter valid TTL and priority values.");
   ("zones.record_conflict", "This zone changed elsewhere. Your draft is unchanged. Close this form and reload zones before retrying.");
   ("zones.save_failed", "Unable to save record");
   ("zones.saving", "Saving…");
   ("zones.save_record", "Save record");
   ("zones.cancel", "Cancel");
   ("zones.no_records_title", "No custom records yet");
   ("zones.no_records_text", "Add your first record. SOA and fallback apex NS are managed automatically.");
   ("zones.records_aria", "DNS records for");
   ("zones.col_name", "Name");
   ("zones.col_type", "Type");
   ("zones.col_value", "Value");
   ("zones.col_ttl", "TTL");
   ("zones.col_actions", "Actions");
   ("zones.edit_aria", "Edit");
   ("zones.delete_aria", "Delete");
   ("zones.record_word", "record");
   ("zones.create_title", "Create a local zone");
   ("zones.create_text", "Velora will answer for this zone and keep unknown names inside your network.");
   ("zones.zone_name", "Zone name");
   ("zones.authority_settings", "Authority settings");
   ("zones.primary_nameserver", "Primary nameserver");
   ("zones.contact_mailbox", "Contact (DNS mailbox)");
   ("zones.creating", "Creating…");
   ("zones.create_zone", "Create zone");
   ("zones.create_zone_aria", "Create DNS zone");
   ("zones.create_failed", "Unable to create zone");
   ("zones.load_failed", "Unable to load zones");
   ("updates.loading", "Loading update status...");
   ("updates.viewer_readonly", "You are signed in as a viewer. Update requests are read-only.");
   ("updates.in_progress", "Update in progress...");
   ("updates.history", "Update History");
   ("updates.no_history", "No updates recorded yet.");
   ("updates.col_from", "From");
   ("updates.col_to", "To");
   ("updates.col_state", "State");
   ("updates.col_started", "Started");
   ("updates.state_idle", "Idle");
   ("updates.state_downloading", "Downloading");
   ("updates.state_verifying", "Verifying");
   ("updates.state_installing", "Installing");
   ("updates.state_readiness", "Waiting for readiness")].

Definition en_4 : list (string * string) :=
  [("updates.state_completed", "Completed");
   ("updates.state_rolled_back", "Rolled back");
   ("updates.state_failed", "Failed");
   ("updates.load_failed", "Failed to load update status");
   ("updates.request_failed", "Failed to request update");
   ("updates.check", "Check for updates");
   ("updates.available", "Update available");
   ("updates.up_to_date", "The system is up to date.");
   ("updates.release_date", "Released");
   ("updates.progress", "Update progress");
   ("updates.rollback_used", "The previous version was restored.");
   ("updates.rollback_recovered", "The previous version was restored and is healthy.");
   ("backup.sqlite_only", "Encrypted export currently supports SQLite installations only.");
   ("backup.create_title", "Encrypted backup");
   ("backup.create_hint", "Download a versioned backup of configuration and persistent state. Keep its passphrase safe.");
   ("backup.passphrase", "Passphrase");
   ("backup.creating", "Creating…");
   ("backup.create", "Create and download");
   ("backup.create_failed", "Could not create backup");
   ("backup.restore_hint", "Restore an encrypted bundle while the service is stopped. The command keeps a safety copy of the current installation.");
   ("backup.loading", "Loading backup status...");
   ("backup.status_title", "Backup Status");
   ("backup.database", "Database:");
   ("backup.last_backup", "Last backup:");
   ("backup.no_backup", "No backup recorded yet");
   ("backup.verification_state", "Verification state:");
   ("backup.state_unknown", "Unknown");
   ("backup.state_unverified", "Not verified");
   ("backup.state_verified", "Verified");
   ("backup.verify_title", "Verify Backup");
   ("backup.verify_text", "Place a copy of the backup beside the server database to verify its integrity.");
   ("backup.file_name", "Backup file name");
   ("backup.file_hint", "Place the backup next to the database on the Velora server. Only the file name is used; browser files and other directories cannot be checked here.");
   ("backup.viewer_readonly", "You are signed in as a viewer. Backup verification is read-only.");
   ("backup.verifying", "Verifying...");
   ("backup.verify", "Verify");
   ("backup.valid", "Backup is valid");
   ("backup.invalid", "Backup is invalid");
   ("backup.schema_version", "Schema version:");
   ("backup.records", "Records:");
   ("backup.instructions", "Restore from the command line");
   ("backup.native", "Native Installation");
   ("backup.docker", "Docker Compose");
   ("backup.online", "Online Backup (SQLite)");
   ("backup.load_failed", "Failed to load backup status");
   ("backup.verify_failed", "Verification failed");
   ("backup.step_stop_service", "Stop the service");
   ("backup.step_create_backup", "Create a consistent backup");
   ("backup.step_restart_service", "Restart the service");
   ("backup.step_stop_container", "Stop the container");
   ("backup.step_backup_volume", "Back up the volume");
   ("backup.step_restart_container", "Restart the container");
   ("backup.step_online_backup", "Use the SQLite backup API for a consistent online backup");
   ("onboarding.welcome", "Welcome to Velora DNS");
   ("onboarding.complete_steps", "Complete these steps to secure your installation");
   ("onboarding.dismiss", "Dismiss");
   ("onboarding.change_credentials", "Change bootstrap credentials");
   ("onboarding.change_credentials_text", "The default admin password should be changed after first login.");
   ("onboarding.review_dns", "Review DNS configuration");
   ("onboarding.review_dns_text", "Ensure upstream servers and allowed clients are correctly configured for your network.");
   ("onboarding.restrict_clients", "Restrict client access");
   ("onboarding.restrict_clients_text", "Configure allowed_clients CIDRs to limit which networks can use your resolver.");
   ("onboarding.verify_db", "Verify database storage");
   ("onboarding.verify_db_text", "Ensure the database path is on reliable storage with adequate space.");
   ("onboarding.update_policy", "Configure update policy");
   ("onboarding.update_policy_text", "Review the update center to understand how to keep your installation current.");
   ("app.nav.dhcp", "DHCP");
   ("app.title.dhcp", "DHCP Server");
   ("dhcp.loading", "Loading DHCP data…");
   ("dhcp.load_failed", "Unable to load DHCP data");
   ("dhcp.create_pool_failed", "Unable to create pool");
   ("dhcp.delete_pool_failed", "Unable to delete pool");
   ("dhcp.create_reservation_failed", "Unable to create reservation");
   ("dhcp.delete_reservation_failed", "Unable to delete reservation");
   ("dhcp.delete_lease_failed", "Unable to delete lease");
   ("dhcp.pools", "DHCP Pools");
   ("dhcp.add_pool", "Add Pool");
   ("dhcp.pool_name", "Pool name");
   ("dhcp.interface", "Interface");
   ("dhcp.subnet_cidr", "Subnet (CIDR)");
   ("dhcp.subnet", "Subnet");
   ("dhcp.gateway", "Gateway");
   ("dhcp.dns_servers", "DNS servers");
   ("dhcp.lease_seconds", "Lease time (seconds)");
   ("dhcp.leases_label", "Leases");
   ("dhcp.create", "Create");
   ("dhcp.no_pools", "No DHCP pools configured. Create one to start serving leases.");
   ("dhcp.reservations", "Static Reservations");
   ("dhcp.mac_address", "MAC address");
   ("dhcp.ip_address", "IP address");
   ("dhcp.hostname", "Hostname");
   ("dhcp.add", "Add");
   ("dhcp.active_leases", "Active Leases");
   ("dhcp.expires", "Expires");
   ("dhcp.no_leases", "No active leases.");
   ("dhcp.expired", "Expired");
   ("dhcp.confirm_delete_pool", "Delete this pool and all its reservations?");
   ("dhcp.name", "Name");
   ("app.nav.cluster", "Cluster");
   ("app.title.cluster", "Cluster Overview");
   ("cluster.loading", "Loading cluster data…");
   ("cluster.load_failed", "Unable to load cluster data");
   ("cluster.name", "Name");
   ("cluster.status", "Status");
   ("cluster.version", "Version");
   ("cluster.last_seen", "Last seen");
   ("cluster.config_history", "Configuration History");
   ("cluster.no_versions", "No configuration versions recorded.");
   ("cluster.hash", "Hash");
   ("cluster.applied_by", "Applied by");
   ("cluster.applied_at", "Applied at");
   ("app.nav.group_dns", "DNS");
   ("app.nav.group_network", "Network");
   ("app.nav.group_system", "System");
   ("app.menu_open", "Open navigation");
   ("app.menu_close", "Close navigation");
   ("app.theme_to_dark", "Switch to dark theme");
   ("app.theme_to_light", "Switch to light theme");
   ("app.signed_in_as", "Signed in as");
   ("app.subtitle.zones", "Authoritative names for devices and services on your network.");
   ("app.subtitle.queries", "Recent lookups answered by this resolver.");
   ("app.subtitle.blocklists", "Domain lists that are answered as blocked.");
   ("app.subtitle.cache", "Answers held in memory to speed up repeat lookups.");
   ("app.subtitle.settings", "Resolver, web interface, and personal preferences.");
   ("app.subtitle.updates", "Installed version, available releases, and update history.");
   ("app.subtitle.backup", "Create encrypted backups and verify existing ones.");
   ("app.subtitle.dhcp", "Address pools, reservations, and active leases.");
   ("app.subtitle.cluster", "Keep local zones identical on several Velora DNS servers.");
   ("app.subtitle.diagnostics", "Component health and a shareable support report.");
   ("app.subtitle.events", "Things that need your attention.");
   ("app.subtitle.audit", "Who changed what, and when.");
   ("settings.preferences", "Preferences");
   ("dashboard.general_statistics", "General statistics");
   ("dashboard.blocked", "Blocked by filters");
   ("dashboard.of_all_queries", "of all queries")].

Definition en_5 : list (string * string) :=
  [("dashboard.query_logging", "Query logging");
   ("dashboard.enabled", "Enabled");
   ("dashboard.disabled", "Disabled");
   ("dashboard.requests", "Requests");
   ("dashboard.domain", "Domain");
   ("dashboard.client", "Client");
   ("dashboard.upstream_servers", "Upstream servers");
   ("dashboard.collecting_samples", "Collecting samples…");
   ("cache.search_label", "Search by name");
   ("cache.search_placeholder", "example.org");
   ("cache.all_types", "All types");
   ("cache.remove_entry", "Remove from cache");
   ("cache.invalidate_title", "Invalidate a domain");
   ("cache.invalidate_text", "Remove cached answers for one name without clearing the whole cache.");
   ("cache.domain", "Domain");
   ("cache.include_subdomains", "Include subdomains");
   ("cache.invalidate", "Invalidate");
   ("cache.removed_entries", "Removed cached entries");
   ("cache.invalidate_failed", "Invalidation failed");
   ("cache.flush_confirm", "Clear every cached answer? Lifetime hit and miss counters are kept.");
   ("cache.no_matches", "No cached entries match this filter.");
   ("blocklists.schedule", "Update schedule");
   ("blocklists.schedule_for", "Update schedule for");
   ("blocklists.manual", "Manual");
   ("blocklists.every_1h", "Every hour");
   ("blocklists.every_6h", "Every 6 hours");
   ("blocklists.every_12h", "Every 12 hours");
   ("blocklists.every_24h", "Daily");
   ("blocklists.every_7d", "Weekly");
   ("blocklists.col_next_update", "Next update");
   ("blocklists.due_now", "Due now");
   ("blocklists.never_updated", "Never updated");
   ("blocklists.retry_count", "failed attempts");
   ("blocklists.schedule_failed", "Unable to change the schedule");
   ("app.nav.forwarding", "Conditional forwarding");
   ("app.title.forwarding", "Conditional forwarding");
   ("app.subtitle.forwarding", "Send queries for selected domains to dedicated resolvers.");
   ("forwarding.count", "forwarding rules");
   ("forwarding.add", "Add rule");
   ("forwarding.add_title", "New forwarding rule");
   ("forwarding.edit_title", "Edit forwarding rule");
   ("forwarding.form_hint", "The rule also covers every name below the domain. The most specific enabled rule wins.");
   ("forwarding.domain", "Domain");
   ("forwarding.upstreams", "Resolvers");
   ("forwarding.upstreams_hint", "1–4 addresses as IP or IP:port, separated by commas. Port 53 is used when omitted.");
   ("forwarding.description", "Description");
   ("forwarding.enabled", "Enabled");
   ("forwarding.save", "Save rule");
   ("forwarding.cancel", "Cancel");
   ("forwarding.empty_title", "No forwarding rules");
   ("forwarding.empty_text", "All queries use the global upstream resolvers. Add a rule to resolve a domain such as corp.example through an internal DNS server.");
   ("forwarding.col_status", "Status");
   ("forwarding.test", "Test");
   ("forwarding.test_title", "Test rule");
   ("forwarding.test_hint", "Sends one query through this rule's resolvers only, bypassing the cache.");
   ("forwarding.test_name", "Name");
   ("forwarding.test_type", "Type");
   ("forwarding.run_test", "Run test");
   ("forwarding.test_via", "via");
   ("forwarding.no_answers", "No answer records");
   ("forwarding.edit", "Edit");
   ("forwarding.delete", "Delete");
   ("forwarding.delete_confirm", "Delete the forwarding rule for");
   ("forwarding.toggle", "Enable or disable rule for");
   ("forwarding.load_failed", "Unable to load forwarding rules");
   ("forwarding.save_failed", "Unable to save the rule");
   ("forwarding.saved", "Forwarding rule saved. Cached answers for the domain were cleared.");
   ("forwarding.disabled", "Disabled");
   ("app.nav.rewrites", "DNS rewrites");
   ("app.title.rewrites", "DNS rewrites");
   ("app.subtitle.rewrites", "Answer chosen names with fixed addresses or aliases.");
   ("rewrites.count", "rewrites");
   ("rewrites.add", "Add rewrite");
   ("rewrites.add_title", "New rewrite");
   ("rewrites.edit_title", "Edit rewrite");
   ("rewrites.form_hint", "Use *.parent to match every name below a domain. Exact names win over wildcards.");
   ("rewrites.name", "Name");
   ("rewrites.type", "Type");
   ("rewrites.value", "Answer");
   ("rewrites.value_hint_A", "IPv4 address");
   ("rewrites.value_hint_AAAA", "IPv6 address");
   ("rewrites.value_hint_CNAME", "Target host name, resolved normally");
   ("rewrites.description", "Description");
   ("rewrites.enabled", "Enabled");
   ("rewrites.save", "Save rewrite");
   ("rewrites.empty_title", "No DNS rewrites");
   ("rewrites.empty_text", "Map a name such as nas.home to an address without creating a zone.");
   ("rewrites.col_notes", "Notes");
   ("rewrites.blocked_hint", "Blocked first by a blocklist");
   ("rewrites.overrides_hint", "Overrides local zone");
   ("rewrites.edit", "Edit");
   ("rewrites.delete", "Delete");
   ("rewrites.delete_confirm", "Delete this rewrite?");
   ("rewrites.toggle", "Enable or disable rewrite for");
   ("rewrites.search", "Filter rewrites");
   ("rewrites.load_failed", "Unable to load rewrites");
   ("rewrites.save_failed", "Unable to save the rewrite");
   ("rewrites.saved", "Rewrite saved and applied.");
   ("app.nav.clients", "Clients");
   ("app.title.clients", "Clients and devices");
   ("app.subtitle.clients", "Give addresses and networks friendly names used across Velora.");
   ("clients.count", "clients");
   ("clients.add", "Add client");
   ("clients.add_title", "New client");
   ("clients.edit_title", "Edit client");
   ("clients.form_hint", "When networks overlap, the most specific one wins. Give DHCP devices a fixed address before naming them.");
   ("clients.name", "Name");
   ("clients.addresses", "Addresses");
   ("clients.addresses_hint", "IP addresses or CIDR networks, separated by commas.");
   ("clients.group", "Group");
   ("clients.description", "Description");
   ("clients.enabled", "Enabled");
   ("clients.save", "Save client");
   ("clients.activity", "Last 24 hours");
   ("clients.queries", "queries");
   ("clients.last_seen", "Last seen");
   ("clients.no_activity", "No queries");
   ("clients.view_queries", "View queries");
   ("clients.empty_title", "No named clients");
   ("clients.empty_text", "Name devices such as a TV or Home Assistant so they are easy to recognize in the query log.");
   ("clients.unnamed_title", "Recently seen without a name");
   ("clients.unnamed_text", "Busiest addresses in the last 24 hours that match no client.");
   ("clients.name_it", "Name this device");
   ("clients.edit", "Edit");
   ("clients.delete", "Delete");
   ("clients.delete_confirm", "Delete client");
   ("clients.toggle", "Enable or disable client");
   ("clients.load_failed", "Unable to load clients");
   ("clients.save_failed", "Unable to save the client");
   ("clients.saved", "Client saved.");
   ("clients.logging_off", "Enable query logging to see client activity.");
   ("app.nav.policies", "Client policies");
   ("app.title.policies", "Client filtering policies");
   ("app.subtitle.policies", "Choose how blocking applies to individual clients.");
   ("policies.load_failed", "Policies could not be loaded.");
   ("policies.save_failed", "The policy could not be saved.");
   ("policies.saved", "Policy saved.");
   ("policies.lookup", "Check address");
   ("policies.add", "Add policy");
   ("policies.add_title", "New policy");
   ("policies.edit_title", "Edit policy");
   ("policies.form_hint", "The most specific client network decides which policy an address uses.");
   ("policies.client", "Client");
   ("policies.mode", "Filtering");
   ("policies.mode_default", "Global");
   ("policies.mode_disabled", "No filtering");
   ("policies.mode_custom", "Custom");
   ("policies.mode_default_hint", "Same blocklists and allowlists as everyone else.")].

Definition en_6 : list (string * string) :=
  [("policies.mode_disabled_hint", "Nothing is blocked for this client.");
   ("policies.mode_custom_hint", "Only the chosen blocklists plus your own domains.");
   ("policies.blocklists", "Blocklists");
   ("policies.no_sources", "No blocklists yet.");
   ("policies.globally_off", "off globally");
   ("policies.block", "Also block");
   ("policies.allow", "Always allow");
   ("policies.domains_hint", "One domain per line; subdomains are included.");
   ("policies.allow_hint", "Wins over every blocklist for this client.");
   ("policies.enabled", "Policy active");
   ("policies.save", "Save policy");
   ("policies.empty_title", "No client policies");
   ("policies.empty_text", "Every client uses the global blocklists. Add a policy to give a device stricter, looser or no filtering.");
   ("policies.need_clients", "Policies apply to named clients. Name a device first:");
   ("policies.details", "Details");
   ("policies.summary_disabled", "All queries are answered unfiltered");
   ("policies.summary_default", "Uses the global blocklists");
   ("policies.no_lists", "No blocklists");
   ("policies.blocked_short", "blocked");
   ("policies.allowed_short", "allowed");
   ("policies.paused", "Paused");
   ("policies.toggle", "Policy active");
   ("policies.edit", "Edit policy");
   ("policies.delete", "Delete policy");
   ("policies.delete_confirm", "Remove the policy for");
   ("policies.no_policy", "(no policy, global filtering)");
   ("policies.unknown_address", "matches no client and uses global filtering.");
   ("app.nav.webhooks", "Webhooks");
   ("app.title.webhooks", "Webhook notifications");
   ("app.subtitle.webhooks", "Send important events to other systems.");
   ("webhooks.load_failed", "Webhooks could not be loaded.");
   ("webhooks.save_failed", "The webhook could not be saved.");
   ("webhooks.saved", "Webhook saved.");
   ("webhooks.count", "webhooks");
   ("webhooks.add", "Add webhook");
   ("webhooks.add_title", "New webhook");
   ("webhooks.edit_title", "Edit webhook");
   ("webhooks.form_hint", "Velora sends a JSON POST request for each matching event. Delivery runs in the background and never delays DNS answers.");
   ("webhooks.name", "Name");
   ("webhooks.url", "URL");
   ("webhooks.min_severity", "Minimum severity");
   ("webhooks.severity_info", "Info");
   ("webhooks.severity_warning", "Warning");
   ("webhooks.severity_critical", "Critical");
   ("webhooks.token", "Bearer token");
   ("webhooks.token_hint", "Optional. Sent as Authorization header; never shown again.");
   ("webhooks.token_stored", "Token stored");
   ("webhooks.token_change", "Change");
   ("webhooks.token_remove_hint", "Leave empty to remove the token");
   ("webhooks.events", "Events");
   ("webhooks.events_hint", "Select none to receive every event type.");
   ("webhooks.all_events", "All events");
   ("webhooks.allow_private", "Allow private network destination (for example Home Assistant on your LAN)");
   ("webhooks.enabled", "Webhook active");
   ("webhooks.save", "Save webhook");
   ("webhooks.empty_title", "No webhooks");
   ("webhooks.empty_text", "Add a webhook to be told when an upstream fails, a blocklist cannot be refreshed or a backup fails.");
   ("webhooks.last_delivery", "Last delivery");
   ("webhooks.never", "Nothing sent yet");
   ("webhooks.failing", "Failing");
   ("webhooks.toggle", "Webhook active");
   ("webhooks.test", "Send test");
   ("webhooks.test_ok", "Test delivered to");
   ("webhooks.test_failed", "Test failed for");
   ("webhooks.edit", "Edit webhook");
   ("webhooks.delete", "Delete webhook");
   ("webhooks.delete_confirm", "Delete the webhook");
   ("app.nav.analytics", "Analytics");
   ("app.title.analytics", "Analytics");
   ("app.subtitle.analytics", "DNS activity and resolver performance from retained query history.");
   ("analytics.load_failed", "Analytics could not be loaded.");
   ("analytics.logging_off_title", "Query logging is off");
   ("analytics.logging_off_text", "Analytics are built from retained query history. Enable query logging to collect it:");
   ("analytics.range", "Time range");
   ("analytics.range_1h", "1 hour");
   ("analytics.range_24h", "24 hours");
   ("analytics.range_7d", "7 days");
   ("analytics.range_30d", "30 days");
   ("analytics.history_limited", "Query history only goes back to");
   ("analytics.queries", "Queries");
   ("analytics.blocked", "Blocked");
   ("analytics.allowed", "Allowed");
   ("analytics.cached", "Cache answers");
   ("analytics.answers", "answers");
   ("analytics.avg_upstream", "Avg. upstream time");
   ("analytics.empty_title", "No queries in this range");
   ("analytics.empty_text", "Choose a longer range or check back once clients have sent queries.");
   ("analytics.over_time", "Queries over time");
   ("analytics.over_time_hint", "Hover or use the arrow keys to inspect a bucket.");
   ("analytics.chart_aria", "Queries per time bucket, allowed and blocked");
   ("analytics.show_table", "Show as table");
   ("analytics.time", "Time");
   ("analytics.avg_time", "Avg. time");
   ("analytics.latency", "Upstream response time");
   ("analytics.latency_hint", "Average of answered queries forwarded upstream; gaps mean no upstream traffic.");
   ("analytics.latency_aria", "Average upstream response time per time bucket");
   ("analytics.query_types", "Query types");
   ("analytics.sources", "Answered by");
   ("analytics.source_upstream", "Upstream");
   ("analytics.source_cache", "Cache");
   ("analytics.source_blocked", "Blocked");
   ("analytics.source_local", "Local zones and rewrites");
   ("analytics.source_refused", "Refused");
   ("analytics.response_codes", "Response codes");
   ("analytics.top_blocked", "Top blocked domains");
   ("analytics.nothing_blocked", "Nothing blocked in this range");
   ("analytics.upstreams", "Upstream usage");
   ("analytics.upstreams_hint", "Queries forwarded to each resolver, SERVFAIL answers and average response time.");
   ("analytics.no_upstream", "No upstream traffic in this range");
   ("analytics.failures", "Failures");
   ("updates.check_prompt", "Check whether a newer version is available.");
   ("updates.checking", "Checking for updates…");
   ("updates.starting", "Starting the update…");
   ("updates.updating_to", "Updating to");
   ("updates.completed_to", "Updated to");
   ("updates.failed_title", "The update did not complete");
   ("updates.failed_text", "The update failed. Velora keeps running the previous version.");
   ("updates.not_started", "The updater did not start the update. Check that velora-updater.service is running.");
   ("updates.check_again", "Check again");
   ("updates.update_now", "Update");
   ("updates.reload", "Reload page");
   ("updates.reconnecting", "Velora is restarting. Waiting for it to come back…");
   ("updates.keep_open", "You can keep this page open; it updates automatically. DNS keeps answering from the running version until the switch.");
   ("updates.completed_text", "The update finished and passed its health checks. Reload the page to load the new web interface.");
   ("settings.entry", "Entry");
   ("settings.fix_fields", "Nothing was changed. Fix the highlighted fields and try again.");
   ("settings.restart_required", "Nothing was changed. The highlighted fields only take effect after a restart: edit the configuration file and restart Velora DNS.");
   ("settings.restart_field", "Requires a restart");
   ("settings.check", "Check");
   ("settings.check_ok", "These settings are valid and can be applied without a restart.");
   ("restore.title", "Restore a backup");
   ("restore.hint", "Upload an encrypted backup to check it first. Nothing changes until you confirm; Velora then restarts, keeps a safety copy and rolls back automatically if it cannot start.");
   ("restore.file", "Backup file (.vdns)");
   ("restore.inspect", "Check backup");
   ("restore.inspecting", "Checking…");
   ("restore.inspect_failed", "The backup could not be checked.");
   ("restore.review_title", "Backup is valid");
   ("restore.created", "Created");
   ("restore.version", "Velora version");
   ("restore.schema", "Database schema");
   ("restore.contents", "Contents");
   ("restore.zones", "zones");
   ("restore.records", "records");
   ("restore.blocklists", "blocklists");
   ("restore.rewrites", "rewrites");
   ("restore.forward_rules", "forwarding rules");
   ("restore.clients", "clients");
   ("restore.users", "users")].

Definition en_7 : list (string * string) :=
  [("restore.listeners", "Listeners");
   ("restore.web", "web");
   ("restore.confirm", "Replace the current configuration and data with this backup. A safety copy of the current state is kept.");
   ("restore.restore", "Restore and restart");
   ("restore.schedule_failed", "The restore could not be started.");
   ("restore.manual_restart", "The restore is scheduled. Restart Velora DNS to apply it.");
   ("restore.restarting", "Velora is restarting to apply the backup. This page updates when it is back.");
   ("restore.signed_out", "Velora is back with the restored data. Sign in again with an account from the backup.");
   ("restore.again", "Restore another backup");
   ("restore.backup_from", "Backup from");
   ("restore.safety_copy", "Previous state kept in");
   ("restore.state_completed", "Restore completed.");
   ("restore.state_rolled_back", "Restore rolled back.");
   ("restore.state_failed", "Restore failed.");
   ("restore.state_applied", "Restore applied; waiting for readiness.");
   ("restore.state_pending", "Restore scheduled.");
   ("restore.passphrase", "Backup passphrase");
   ("app.scrollable_table", "scrolls sideways");
   ("palette.title", "Command palette");
   ("palette.placeholder", "Search pages, zones, records, clients…");
   ("palette.results", "Results");
   ("palette.pages", "Pages");
   ("palette.actions", "Actions");
   ("palette.kind_zone", "Zones");
   ("palette.kind_record", "Records");
   ("palette.kind_client", "Clients");
   ("palette.kind_rewrite", "DNS rewrites");
   ("palette.kind_forwarding", "Conditional forwarding");
   ("palette.kind_blocklist", "Blocklists");
   ("palette.no_results", "No matches.");
   ("palette.navigate", "navigate");
   ("palette.open", "open");
   ("palette.toggle", "open or close");
   ("palette.open_button", "Search");
   ("palette.add_client", "Add a client");
   ("palette.create_backup", "Create a backup");
   ("cluster.action_failed", "The cluster action failed.");
   ("cluster.never", "never");
   ("cluster.role", "Role");
   ("cluster.role_standalone", "Standalone");
   ("cluster.role_primary", "Cluster primary");
   ("cluster.role_replica", "Cluster replica");
   ("cluster.replicas", "Replicas");
   ("cluster.in_sync_count", "in sync");
   ("cluster.revision", "Zone revision");
   ("cluster.zones_replicated", "zones replicated");
   ("cluster.last_sync", "Last sync");
   ("cluster.sync_failed", "Last sync failed");
   ("cluster.sync_ok", "Up to date with the primary");
   ("cluster.members", "Replicas");
   ("cluster.members_hint", "Nodes that copy this primary's zones. They check in every 30 seconds.");
   ("cluster.add_node", "Add node");
   ("cluster.token_title", "Join token created");
   ("cluster.token_steps", "On the new node, open Cluster → Join a cluster and enter:");
   ("cluster.token_expires", "The token expires at");
   ("cluster.token_once", "It works once and is not shown again.");
   ("cluster.copy_token", "Copy token");
   ("cluster.copied", "Copied");
   ("cluster.token_done", "Done");
   ("cluster.no_members", "No replicas yet");
   ("cluster.no_members_text", "Add a node to create a join token for a second Velora DNS server.");
   ("cluster.status_in_sync", "In sync");
   ("cluster.status_behind", "Catching up");
   ("cluster.status_stale", "Not responding");
   ("cluster.status_error", "Sync error");
   ("cluster.status_never_synced", "Waiting for first sync");
   ("cluster.remove", "Remove node");
   ("cluster.remove_confirm", "Remove this replica? It stops receiving zone updates:");
   ("cluster.removed", "Replica removed.");
   ("cluster.dissolve", "Dissolve cluster");
   ("cluster.dissolve_hint", "Revokes every replica and makes this node standalone again. Replicas keep their last copy of the zones.");
   ("cluster.dissolve_confirm", "Dissolve the cluster and revoke all replicas?");
   ("cluster.dissolved", "The cluster was dissolved.");
   ("cluster.replica_title", "Replicating from the primary");
   ("cluster.replica_hint", "Zones on this node are copied from the primary and are read-only here. Other settings stay local to this node.");
   ("cluster.replica_ok", "Replication is working.");
   ("cluster.sync_now", "Sync now");
   ("cluster.leave", "Leave cluster");
   ("cluster.leave_confirm", "Leave the cluster? This node keeps its current zones and becomes editable again.");
   ("cluster.left", "This node left the cluster.");
   ("cluster.primary_url", "Primary URL");
   ("cluster.cluster_id", "Cluster ID");
   ("cluster.node_id", "Node ID");
   ("cluster.join_token", "Join token");
   ("cluster.standalone_title", "This node is standalone");
   ("cluster.standalone_viewer", "An administrator can create a cluster or join this node to one.");
   ("cluster.scope_note", "A cluster keeps local zones identical on several Velora DNS servers: one primary accepts changes and replicas copy them every 30 seconds. There is no automatic failover, and other settings stay per node.");
   ("cluster.create_title", "Create a cluster");
   ("cluster.create_hint", "This node becomes the primary. Its zones are copied to every replica.");
   ("cluster.node_name", "Node name");
   ("cluster.advertised_url", "Address other nodes use");
   ("cluster.advertised_hint", "The web interface URL of this node as seen from the replicas.");
   ("cluster.allow_http", "Allow plain HTTP (trusted network only)");
   ("cluster.skip_check", "Skip the reachability check");
   ("cluster.create", "Create cluster");
   ("cluster.created", "The cluster was created. Add a node to invite a replica.");
   ("cluster.join_title", "Join a cluster");
   ("cluster.join_hint", "Make this node a replica of an existing primary. Create the join token on the primary first.");
   ("cluster.join_warning", "Joining replaces this node's local zones with the primary's. Other settings on this node are not changed.");
   ("cluster.join_confirm", "Join the cluster and replace this node's zones with the primary's?");
   ("cluster.join", "Join cluster");
   ("cluster.joined", "This node joined the cluster and is copying the primary's zones.");
   ("cluster.zones_read_only", "This node is a cluster replica. Zones are copied from the primary and can only be changed there.")].

Definition en : list (string * string) :=
  (en_1 ++ en_2 ++ en_3 ++ en_4 ++ en_5 ++ en_6 ++ en_7)%list.
