(* ===== verification/I18nDe.v ===== *)
(** * The German catalog: web/src/i18n/de.ts

    Its entries in order, in parts of up to 148 lines of the file. *)
From S2P Require Import Prelude.
Local Open Scope string_scope.

Definition de_1 : list (string * string) :=
  [("app.skip_to_content", "Zum Inhalt springen");
   ("app.workspace_label", "ARBEITSBEREICH");
   ("app.nav.events", "Ereignisse");
   ("app.title.events", "Ereignisse");
   ("events.unread", "ungelesen");
   ("events.empty", "Noch keine Systemereignisse.");
   ("events.load_failed", "Systemereignisse konnten nicht geladen werden");
   ("events.mark_read", "Als gelesen markieren");
   ("events.repeated", "Wiederholt");
   ("events.open", "Öffnen");
   ("events.info", "Info");
   ("events.warning", "Warnung");
   ("events.critical", "Kritisch");
   ("app.nav.main", "Hauptnavigation");
   ("app.nav.overview", "Übersicht");
   ("app.nav.zones", "Lokale Zonen");
   ("app.nav.queries", "Abfrageprotokoll");
   ("app.nav.blocklists", "Blocklisten");
   ("app.nav.cache", "DNS-Cache");
   ("app.nav.settings", "Einstellungen");
   ("app.nav.updates", "Updates");
   ("app.nav.backup", "Backup");
   ("app.sign_out", "Abmelden");
   ("app.nav.audit", "Auditprotokoll");
   ("app.title.audit", "Auditprotokoll");
   ("app.nav.diagnostics", "Diagnose");
   ("app.title.diagnostics", "Diagnose");
   ("app.local_resolver", "Lokaler Resolver");
   ("app.self_hosted_foundation", "Self-hosted · Foundation");
   ("app.private_by_default", "Standardmäßig privat");
   ("app.privacy.query_retention", "Das Abfrageprotokoll hat eine begrenzte Speicherdauer.");
   ("app.privacy.no_query_history", "Es wird kein Abfrageverlauf erfasst.");
   ("app.github_repo", "GitHub-Repository");
   ("app.connecting", "Verbinde…");
   ("app.workspace", "Arbeitsbereich");
   ("app.connection_lost", "Verbindung verloren");
   ("app.resolver_online", "Resolver online");
   ("app.title.overview", "Netzwerkübersicht");
   ("app.title.zones", "Lokale Zonen");
   ("app.title.queries", "Abfrageprotokoll");
   ("app.title.blocklists", "Blocklisten");
   ("app.title.cache", "DNS-Cache");
   ("app.title.settings", "Einstellungen");
   ("app.title.updates", "Updates");
   ("app.title.backup", "Backup & Wiederherstellung");
   ("app.eyebrow", "IHR NETZWERK AUF EINEN BLICK");
   ("app.subtitle.overview", "Ein klarer Blick auf Ihre DNS, von Anfrage bis Antwort.");
   ("app.subtitle.default", "Prüfen und verwalten Sie Ihre Resolver-Grundlage.");
   ("app.refresh", "Aktualisieren");
   ("app.error.showing_last", "Zeige den letzten erfolgreichen Stand von");
   ("app.error.check_server", "Prüfen Sie, ob der Velora-Server läuft.");
   ("app.error.reach_server", "Server nicht erreichbar");
   ("app.viewer_readonly", "Sie sind als Betrachter angemeldet. Verwaltungsaktionen sind schreibgeschützt.");
   ("app.connecting_panel", "Verbinde mit Ihrem Resolver…");
   ("app.not_found", "Seite nicht gefunden.");
   ("app.footer.independent", "Velora DNS · Unabhängig. Self-hosted.");
   ("app.footer.last_updated", "Zuletzt aktualisiert");
   ("app.footer.waiting", "Warte auf Server");
   ("diagnostics.title", "Systemzustand");
   ("diagnostics.report_hint", "Der Download enthält Komponentenstatus und Build-Informationen, aber keine Geheimnisse oder Abfrageprotokolle.");
   ("diagnostics.download", "Bericht herunterladen");
   ("diagnostics.loading", "Diagnose wird geladen…");
   ("diagnostics.load_failed", "Diagnose konnte nicht geladen werden");
   ("diagnostics.upstreams", "Upstreams");
   ("diagnostics.component", "Komponente");
   ("diagnostics.state", "Status");
   ("diagnostics.detail", "Details");
   ("diagnostics.state.healthy", "Gesund");
   ("diagnostics.state.degraded", "Eingeschränkt");
   ("diagnostics.state.failed", "Ausgefallen");
   ("explain.title", "Warum kam diese Antwort zustande?");
   ("explain.hint", "Probelauf des Resolvers für einen Namen. Es wird nichts beim Upstream angefragt, protokolliert, zwischengespeichert oder gezählt.");
   ("explain.name", "Name");
   ("explain.type", "Eintragstyp");
   ("explain.client", "Client-Adresse (optional)");
   ("explain.client_hint", "Wendet die Filterrichtlinie dieses Clients an.");
   ("explain.submit", "Erklären");
   ("explain.running", "Wird erklärt…");
   ("explain.failed", "Diese Abfrage konnte nicht erklärt werden");
   ("explain.result", "Erklärung");
   ("explain.winner", "Entscheidende Stufe");
   ("explain.answers", "Antwort");
   ("explain.no_answers", "Keine Antwortdatensätze: Die Antwort käme von einem Upstream-Resolver, der nicht angefragt wird.");
   ("explain.steps", "Geprüfte Stufen");
   ("explain.step", "Stufe");
   ("explain.outcome", "Ergebnis");
   ("explain.detail", "Details");
   ("explain.cname_target", "CNAME-Ziel");
   ("explain.ttl", "Verbleibende TTL");
   ("explain.matches", "Treffer");
   ("explain.allowed_by", "Erlaubt durch");
   ("explain.not_contacted", "Es wurde kein Upstream angefragt.");
   ("explain.scope.global", "Globale Filterung");
   ("explain.scope.client_policy", "Client-Richtlinie");
   ("explain.stage.filter", "Blockliste oder Client-Richtlinie");
   ("explain.stage.rewrite", "DNS-Rewrite");
   ("explain.stage.zone", "Lokale Zone");
   ("explain.stage.cache", "Cache");
   ("explain.stage.forwarding", "Regel für bedingte Weiterleitung");
   ("explain.stage.upstream", "Globale Upstream-Resolver");
   ("explain.stage.refused", "Abgelehnt");
   ("explain.result.passed", "Durchgelassen");
   ("explain.result.allowed", "Erlaubt");
   ("explain.result.blocked", "Blockiert");
   ("explain.result.no_match", "Kein Treffer");
   ("explain.result.answered", "Beantwortet");
   ("explain.result.miss", "Nicht im Cache");
   ("explain.result.hit", "Treffer");
   ("explain.result.refused", "Abgelehnt");
   ("explain.result.would_forward", "Würde weitergeleitet");
   ("explain.result.error", "Fehler");
   ("explain.source.local", "Lokale Antwort");
   ("explain.source.cache", "Cache");
   ("explain.source.blocked", "Blockiert");
   ("explain.source.upstream", "Upstream");
   ("explain.source.refused", "Abgelehnt");
   ("audit.title", "Verwaltungs-Auditprotokoll");
   ("audit.hint", "Verwaltungsaktionen werden 90 Tage gespeichert. Geheimnisse und Anfrageinhalte sind ausgeschlossen.");
   ("audit.actor", "Akteur");
   ("audit.action", "Aktion");
   ("audit.result", "Ergebnis");
   ("audit.all", "Alle");
   ("audit.success", "Erfolg");
   ("audit.failure", "Fehler");
   ("audit.filter", "Filtern");
   ("audit.time", "Zeit");
   ("audit.target", "Ziel");
   ("audit.empty", "Keine Auditereignisse gefunden.");
   ("audit.more", "Mehr laden");
   ("audit.load_failed", "Auditereignisse konnten nicht geladen werden");
   ("auth.checking", "Sitzung wird geprüft…");
   ("auth.sign_in_title", "Bei Velora DNS anmelden");
   ("auth.username", "Benutzername");
   ("auth.password", "Passwort");
   ("auth.sign_in", "Anmelden");
   ("auth.sign_in_failed", "Anmeldung fehlgeschlagen");
   ("settings.server_configuration", "Serverkonfiguration");
   ("settings.language", "Sprache");
   ("settings.theme", "Farbschema");
   ("settings.theme_light", "Hell");
   ("settings.theme_dark", "Dunkel");
   ("settings.theme_auto", "Automatisch");
   ("settings.theme_hint", "Auto folgt dem hellen oder dunklen Farbschema Ihres Betriebssystems.")].

Definition de_2 : list (string * string) :=
  [("settings.log_level", "Log-Level");
   ("settings.rate_limiting", "Ratenbegrenzung");
   ("settings.rate_limit_hint", "Die Ratenbegrenzung ist standardmäßig deaktiviert. Aktivieren Sie sie, um den Resolver vor Quell-Floods und hohen Abfrageraten zu schützen.");
   ("settings.rate_limit_enabled", "Ratenbegrenzung aktivieren");
   ("settings.rate_limit_global_qps", "Globale Abfragen pro Sekunde");
   ("settings.rate_limit_client_qps", "Abfragen pro Sekunde pro Client");
   ("settings.rate_limit_burst", "Burst-Erlaubnis");
   ("settings.rate_limit_rejected_total", "Abgewiesene Anfragen");
   ("settings.rate_limit_last_rejected", "Letzte Abweisung");
   ("settings.save", "Speichern");
   ("settings.rate_limit_load_failed", "Ratenbegrenzungs-Einstellungen konnten nicht geladen werden");
   ("settings.rate_limit_save_failed", "Ratenbegrenzungs-Einstellungen konnten nicht gespeichert werden");
   ("settings.rate_limit_saved", "Ratenbegrenzungs-Einstellungen gespeichert.");
   ("settings.rate_limit_loading", "Ratenbegrenzungs-Einstellungen werden geladen…");
   ("settings.edit_hint", "Diese Einstellungen entsprechen den Optionen des Quickstart-Installers. Einige Änderungen erfordern einen Neustart; die Cache-TTL gilt sofort.");
   ("settings.dns_section", "DNS-Einstellungen");
   ("settings.cache_section", "DNS-Cache");
   ("settings.cache_ttl_label", "Cache-TTL für Upstream-Antworten (Sekunden)");
   ("settings.cache_ttl_hint", "86400 Sekunden = 24 Stunden. Bereich: 0–604800 Sekunden; 0 verwendet die ursprüngliche Upstream-TTL. Änderungen beim Upstream können entsprechend verzögert sichtbar werden. Eine Änderung leert bestehende Cache-Einträge. Antworten mit TTL 0 und signierte DNSSEC-Antworten behalten ihre ursprüngliche TTL.");
   ("settings.cache_ttl_invalid", "Geben Sie eine ganze Zahl zwischen 0 und 604800 Sekunden ein.");
   ("settings.dns_listen_label", "DNS-Listen-Adressen (kommagetrennt)");
   ("settings.dns_listen_warning", "Warnung: 0.0.0.0 macht DNS in Ihrem Netzwerk verfügbar. Stellen Sie sicher, dass die Firewall nur vertrauenswürdige Clients zulässt.");
   ("settings.upstreams_label", "Upstream-DNS-Server (kommagetrennt)");
   ("settings.upstreams_hint", "Format: IP:PORT (z. B. 1.1.1.1:53). DoH-Upstreams verwenden https://host/dns-query");
   ("settings.allowed_clients_label", "Erlaubte Client-Netzwerke (kommagetrennte CIDRs)");
   ("settings.allowed_clients_hint", "Nur diese Netzwerke dürfen den Resolver abfragen. Beispiel: 192.168.1.0/24, 10.0.0.0/8");
   ("settings.web_section", "Web-UI-Einstellungen");
   ("settings.web_listen_label", "Web-UI-Listen-Adresse (IP:Port)");
   ("settings.web_listen_warning", "Warnung: 0.0.0.0 macht die Web-UI in Ihrem Netzwerk verfügbar. Verwenden Sie eine Firewall oder Authentifizierung.");
   ("settings.allowed_hosts_label", "Erlaubte Hosts (kommagetrennt)");
   ("settings.allowed_hosts_hint", "Host-Header, die auf die Verwaltungs-API zugreifen dürfen. Verwenden Sie *, um alle zuzulassen (im LAN nicht empfohlen).");
   ("settings.logging_section", "Protokollierung & Sonstiges");
   ("settings.enable_query_log", "Abfrageprotokoll aktivieren");
   ("settings.save_configuration", "Konfiguration speichern");
   ("settings.saving", "Wird gespeichert…");
   ("settings.save_success", "Konfiguration gespeichert und angewendet.");
   ("settings.save_failed", "Konfiguration konnte nicht gespeichert werden");
   ("dashboard.total_queries", "Abfragen gesamt");
   ("dashboard.since_start", "Seit dem letzten Statistik-Reset");
   ("dashboard.reset_statistics", "Statistiken zurücksetzen");
   ("dashboard.reset_confirm", "Alle Anfrage-, Cache- und Ratenlimit-Zähler zurücksetzen? Dies kann nicht rückgängig gemacht werden.");
   ("dashboard.reset_failed", "Statistiken konnten nicht zurückgesetzt werden");
   ("dashboard.qps", "Abfragen / Sekunde");
   ("dashboard.rolling_avg", "Gleitender 60-Sekunden-Durchschnitt");
   ("dashboard.cache_hit_rate", "Cache-Trefferquote");
   ("dashboard.answers_from_memory", "Antworten aus dem Speicher");
   ("dashboard.uptime", "Betriebszeit");
   ("dashboard.process_lifetime", "Aktuelle Prozesslaufzeit");
   ("dashboard.top_domains", "Top-Domains");
   ("dashboard.top_clients", "Top-Clients");
   ("dashboard.query_activity", "Abfrageaktivität");
   ("dashboard.live_samples", "Live-Beispiele von Ihrem Resolver");
   ("dashboard.refresh_5s", "5s-Aktualisierung");
   ("dashboard.queries_per_sec", "Abfragen / Sek.");
   ("dashboard.chart_aria", "Abfragerate während dieser Browsersitzung");
   ("dashboard.session_samples", "Sitzungsbeispiele");
   ("dashboard.now", "Jetzt");
   ("dashboard.upstream_resolvers", "Upstream-Resolver");
   ("dashboard.ordered_failover", "Geordneter Failover mit TCP-Fallback");
   ("dashboard.endpoint", "Endpunkt");
   ("dashboard.health", "Zustand");
   ("dashboard.upstream_unknown", "Unbekannt");
   ("dashboard.upstream_healthy", "Gesund");
   ("dashboard.upstream_degraded", "Eingeschränkt");
   ("dashboard.upstream_unavailable", "Nicht verfügbar");
   ("dashboard.priority", "Priorität");
   ("dashboard.attempt_timeout", "Antwort-Timeout");
   ("dashboard.primary", "Primär");
   ("dashboard.fallback", "Fallback");
   ("dashboard.config_shown", "Konfiguration angezeigt. Erreichbarkeit wird bei jeder Abfrage geprüft.");
   ("dashboard.retained_last_24h", "Gespeicherte Abfragen der letzten 24 Stunden");
   ("dashboard.unavailable_no_logging", "Nicht verfügbar, solange das Abfrageprotokoll deaktiviert ist.");
   ("dashboard.loading_stats", "Abfragestatistiken werden geladen…");
   ("dashboard.stats_load_failed", "Abfragestatistiken konnten nicht geladen werden");
   ("dashboard.no_retained", "Keine gespeicherten Abfragen in diesem Zeitraum.");
   ("cache.live_entries", "Live-Einträge");
   ("cache.capacity", "Kapazität");
   ("cache.hits", "Cache-Treffer");
   ("cache.since_startup", "Seit dem Prozessstart");
   ("cache.misses", "Cache-Fehltreffer");
   ("cache.includes_uncacheable", "Inklusive nicht cachebarer Anfragen");
   ("cache.memory_cache", "Speicher-Cache");
   ("cache.description", "Positive Upstream-Antworten verwenden die konfigurierte Cache-TTL. Antworten mit TTL 0, signierte DNSSEC-Antworten und negative Antworten behalten ihre ursprünglichen Regeln. Bei voller Kapazität werden die am längsten nicht verwendeten Einträge entfernt. Cache-Inhalte werden nie in SQLite gespeichert.");
   ("cache.clear_description", "Das Leeren des Caches entfernt alle aktuellen Antworten. Die Treffer- und Fehltreffer-Zähler für die Laufzeit bleiben erhalten.");
   ("cache.clearing", "Wird geleert…");
   ("cache.clear", "Cache leeren");
   ("cache.cleared", "Cache geleert. Lokale Zonen bleiben aktiv; andere Abfragen verwenden die Upstream-Resolver.");
   ("cache.flush_failed", "Cache leeren fehlgeschlagen");
   ("cache.entries_title", "DNS-Cache-Einträge");
   ("cache.entries_description", "Aktuelle Antworten, zuletzt verwendete zuerst.");
   ("cache.entries_loading", "Cache-Einträge werden geladen…");
   ("cache.entries_load_failed", "Cache-Einträge konnten nicht geladen werden");
   ("cache.entries_empty", "Der Cache ist leer.");
   ("cache.entries_scroll_hint", "Seitlich scrollen, um alle Spalten zu sehen.");
   ("cache.entry_name", "Name");
   ("cache.entry_type", "Typ");
   ("cache.entry_answer", "Antwort");
   ("cache.entry_status", "Status");
   ("cache.entry_ttl", "Rest-TTL");
   ("cache.seconds", "s");
   ("cache.previous", "Zurück");
   ("cache.next", "Weiter");
   ("querylog.unavailable_title", "Abfrageverlauf nicht verfügbar");
   ("querylog.unavailable_text", "Aktivieren Sie das Abfrageprotokoll, um zukünftige DNS-Aktivitäten zu erfassen und zu prüfen.");
   ("querylog.up_to_100", "Bis zu 100 gespeicherte Antworten pro Seite");
   ("querylog.refresh", "Abfragen aktualisieren");
   ("querylog.filters_aria", "Abfragefilter");
   ("querylog.domain", "Domain");
   ("querylog.contains_example", "Enthält example.com");
   ("querylog.client_ip", "Client-IP");
   ("querylog.exact_ip", "Exakte IP-Adresse");
   ("querylog.query_type", "Abfragetyp");
   ("querylog.all_types", "Alle Typen");
   ("querylog.source", "Quelle");
   ("querylog.all_sources", "Alle Quellen");
   ("querylog.apply_filters", "Filter anwenden");
   ("querylog.show_blocked", "Blockierte Abfragen anzeigen");
   ("querylog.error_stale", "Frühere Ergebnisse sind möglicherweise veraltet.");
   ("querylog.loading", "Abfrageprotokoll wird geladen…");
   ("querylog.no_matches", "Keine passenden Abfragen");
   ("querylog.no_matches_text", "Versuchen Sie andere Filter oder erzeugen Sie DNS-Verkehr bei aktiviertem Protokoll.");
   ("querylog.caption", "DNS-Abfrageprotokoll");
   ("querylog.col_timestamp", "Zeitstempel");
   ("querylog.col_client", "Client");
   ("querylog.col_domain", "Domain");
   ("querylog.col_type", "Typ");
   ("querylog.col_source", "Quelle");
   ("querylog.col_response", "Antwort");
   ("querylog.col_latency", "Latenz");
   ("querylog.older", "Ältere Abfragen");
   ("querylog.load_failed", "Abfrageprotokoll konnte nicht geladen werden")].

Definition de_3 : list (string * string) :=
  [("blocklists.count", "externe Quellen");
   ("blocklists.count_one", "externe Quelle");
   ("blocklists.sources_label", "DNS-Policy-Quellen");
   ("blocklists.reload", "Neu laden");
   ("blocklists.add_source", "Quelle hinzufügen");
   ("blocklists.add_aria", "Blocklisten-Quelle hinzufügen");
   ("blocklists.add_title", "Externe Blockliste hinzufügen");
   ("blocklists.add_text", "Es werden nur öffentliche HTTP(S)-Quellen akzeptiert. Fehlgeschlagene Aktualisierungen halten bisherige DNS-Regeln aktiv.");
   ("blocklists.name", "Name");
   ("blocklists.source_url", "Quell-URL");
   ("blocklists.community_hosts", "Community-Hosts");
   ("blocklists.adding", "Wird hinzugefügt…");
   ("blocklists.cancel", "Abbrechen");
   ("blocklists.loading", "Blocklisten-Quellen werden geladen…");
   ("blocklists.empty_title", "Keine externen Blocklisten");
   ("blocklists.empty_text", "Fügen Sie eine vertrauenswürdige öffentliche Hosts- oder Domain-Liste hinzu, um DNS-Blocking anzuwenden.");
   ("blocklists.caption", "Externe Blocklisten-Quellen");
   ("blocklists.col_source", "Quelle");
   ("blocklists.col_status", "Status");
   ("blocklists.col_last_update", "Letzte Aktualisierung");
   ("blocklists.update_failed", "Aktualisierung fehlgeschlagen");
   ("blocklists.active", "AKTIV");
   ("blocklists.disabled", "DEAKTIVIERT");
   ("blocklists.never", "Nie");
   ("blocklists.updating", "Wird aktualisiert…");
   ("blocklists.update", "Aktualisieren");
   ("blocklists.load_failed", "Blocklisten konnten nicht geladen werden");
   ("blocklists.add_failed", "Quelle konnte nicht hinzugefügt werden");
   ("blocklists.update_failed_msg", "Quelle konnte nicht aktualisiert werden");
   ("blocklists.col_domains", "Domains");
   ("blocklists.local", "Lokal");
   ("blocklists.enable", "Aktivieren");
   ("blocklists.disable", "Deaktivieren");
   ("blocklists.toggle_failed", "Quelle konnte nicht umgeschaltet werden");
   ("blocklists.edit_content", "Inhalt bearbeiten");
   ("blocklists.edit_content_aria", "Blocklisten-Inhalt bearbeiten");
   ("blocklists.edit_content_title", "Blocklisten-Domains bearbeiten");
   ("blocklists.edit_content_text", "Geben Sie eine Domain pro Zeile ein. Zeilen, die mit 0.0.0.0 beginnen oder ein Kommentar sind, werden als Host-Einträge behandelt.");
   ("blocklists.domains_label", "Domains");
   ("blocklists.saving", "Wird gespeichert…");
   ("blocklists.save", "Speichern");
   ("blocklists.content_save_failed", "Inhalt konnte nicht gespeichert werden");
   ("blocklists.delete", "Löschen");
   ("blocklists.confirm_delete", "Bestätigen");
   ("blocklists.delete_failed", "Quelle konnte nicht gelöscht werden");
   ("zones.count", "lokale Zonen");
   ("zones.count_one", "lokale Zone");
   ("zones.local_authority", "Lokale Autorität");
   ("zones.reload", "Zonen neu laden");
   ("zones.add_zone", "Zone hinzufügen");
   ("zones.error_stale", "Zeige die zuletzt geladenen Zonen. Vor Änderungen neu laden.");
   ("zones.error_retry", "Zum erneuten Versuch neu laden.");
   ("zones.reload_before_retry", "Vor dem erneuten Versuch Zonen neu laden.");
   ("zones.loading", "Lokale Zonen werden geladen…");
   ("zones.empty_title", "Geben Sie Ihrem Netzwerk vertraute Namen");
   ("zones.empty_text", "Erstellen Sie eine Zone wie home.arpa und fügen Sie dann Einträge für Router, Dienste und Geräte hinzu.");
   ("zones.create_first", "Erste Zone erstellen");
   ("zones.filter_aria", "Zonen filtern");
   ("zones.filter_placeholder", "Zone finden…");
   ("zones.nav_aria", "Lokale Zonen");
   ("zones.records_custom", "benutzerdefinierte Einträge");
   ("zones.no_matching", "Keine passenden Zonen.");
   ("zones.authoritative_eyebrow", "AUTORITATIVE ZONE");
   ("zones.revision", "Revision");
   ("zones.add_record", "Eintrag hinzufügen");
   ("zones.delete_zone_aria", "Zone löschen");
   ("zones.primary_ns", "Primärer NS");
   ("zones.contact", "Kontakt");
   ("zones.delete_record_confirm", "Eintrag löschen");
   ("zones.delete_zone_confirm", "und alle");
   ("zones.delete_zone_confirm2", "Einträge? Dies kann nicht rückgängig gemacht werden.");
   ("zones.deleting", "Wird gelöscht…");
   ("zones.delete_record_perm", "Eintrag endgültig löschen");
   ("zones.delete_zone_perm", "Zone endgültig löschen");
   ("zones.cancel_deletion", "Löschen abbrechen");
   ("zones.record_saved", "Eintrag gespeichert. DNS-Änderungen sind aktiv.");
   ("zones.record_deleted", "Eintrag gelöscht. DNS-Änderungen sind aktiv.");
   ("zones.zone_deleted", "Zone und ihre Einträge wurden gelöscht.");
   ("zones.zone_created", "Zone erstellt. Fügen Sie Einträge hinzu, um sie zu nutzen.");
   ("zones.delete_failed", "Löschen fehlgeschlagen");
   ("zones.footnote", "Lokale Antworten haben Vorrang vor der Weiterleitung. Geräte behalten frühere Antworten, bis ihre TTL abläuft.");
   ("zones.record_form_edit_aria", "DNS-Eintrag bearbeiten");
   ("zones.record_form_add_aria", "DNS-Eintrag hinzufügen");
   ("zones.edit_record", "Eintrag bearbeiten");
   ("zones.add_record_form", "Eintrag hinzufügen");
   ("zones.changes_apply", "Änderungen gelten für");
   ("zones.record_name", "Eintragsname");
   ("zones.router_or_at", "router oder @");
   ("zones.relative_name_hint", "Relativer Name, @ für die Zone, oder ein absoluter Name mit Punkt am Ende.");
   ("zones.record_type", "Eintragstyp");
   ("zones.ttl_seconds", "TTL (Sekunden)");
   ("zones.priority", "Priorität");
   ("zones.ipv4_address", "IPv4-Adresse");
   ("zones.ipv6_address", "IPv6-Adresse");
   ("zones.text_value", "Textwert");
   ("zones.target_hostname", "Ziel-Hostname");
   ("zones.invalid_ttl", "Gültige TTL- und Prioritätswerte eingeben.");
   ("zones.record_conflict", "Diese Zone wurde woanders geändert. Ihr Entwurf bleibt unverändert. Schließen Sie das Formular und laden Sie die Zonen neu, bevor Sie es erneut versuchen.");
   ("zones.save_failed", "Eintrag konnte nicht gespeichert werden");
   ("zones.saving", "Wird gespeichert…");
   ("zones.save_record", "Eintrag speichern");
   ("zones.cancel", "Abbrechen");
   ("zones.no_records_title", "Noch keine benutzerdefinierten Einträge");
   ("zones.no_records_text", "Fügen Sie Ihren ersten Eintrag hinzu. SOA und Fallback-APEX-NS werden automatisch verwaltet.");
   ("zones.records_aria", "DNS-Einträge für");
   ("zones.col_name", "Name");
   ("zones.col_type", "Typ");
   ("zones.col_value", "Wert");
   ("zones.col_ttl", "TTL");
   ("zones.col_actions", "Aktionen");
   ("zones.edit_aria", "Bearbeiten");
   ("zones.delete_aria", "Löschen");
   ("zones.record_word", "Eintrag");
   ("zones.create_zone_aria", "DNS-Zone erstellen");
   ("zones.create_title", "Lokale Zone erstellen");
   ("zones.create_text", "Velora wird für diese Zone antworten und unbekannte Namen in Ihrem Netzwerk halten.");
   ("zones.zone_name", "Zonenname");
   ("zones.authority_settings", "Autoritäts-Einstellungen");
   ("zones.primary_nameserver", "Primärer Nameserver");
   ("zones.contact_mailbox", "Kontakt (DNS-Mailbox)");
   ("zones.creating", "Wird erstellt…");
   ("zones.create_zone", "Zone erstellen");
   ("zones.create_failed", "Zone konnte nicht erstellt werden");
   ("zones.load_failed", "Zonen konnten nicht geladen werden");
   ("updates.loading", "Update-Status wird geladen...");
   ("updates.viewer_readonly", "Sie sind als Betrachter angemeldet. Update-Anfragen sind schreibgeschützt.");
   ("updates.in_progress", "Update läuft...");
   ("updates.history", "Update-Verlauf");
   ("updates.no_history", "Noch keine Updates aufgezeichnet.");
   ("updates.col_from", "Von");
   ("updates.col_to", "Zu");
   ("updates.col_state", "Status");
   ("updates.col_started", "Gestartet");
   ("updates.state_idle", "Bereit");
   ("updates.state_downloading", "Wird heruntergeladen");
   ("updates.state_verifying", "Wird geprüft");
   ("updates.state_installing", "Wird installiert");
   ("updates.state_readiness", "Wartet auf Betriebsbereitschaft")].

Definition de_4 : list (string * string) :=
  [("updates.state_completed", "Abgeschlossen");
   ("updates.state_rolled_back", "Zurückgerollt");
   ("updates.state_failed", "Fehlgeschlagen");
   ("updates.load_failed", "Update-Status konnte nicht geladen werden");
   ("updates.request_failed", "Update konnte nicht angefordert werden");
   ("updates.check", "Nach Updates suchen");
   ("updates.available", "Update verfügbar");
   ("updates.up_to_date", "Das System ist aktuell.");
   ("updates.release_date", "Veröffentlicht");
   ("updates.progress", "Update-Fortschritt");
   ("updates.rollback_used", "Die vorherige Version wurde wiederhergestellt.");
   ("updates.rollback_recovered", "Die vorherige Version wurde wiederhergestellt und ist fehlerfrei.");
   ("backup.sqlite_only", "Der verschlüsselte Export unterstützt derzeit nur SQLite-Installationen.");
   ("backup.create_title", "Verschlüsseltes Backup");
   ("backup.create_hint", "Versioniertes Backup von Konfiguration und dauerhaftem Zustand herunterladen. Passwort sicher aufbewahren.");
   ("backup.passphrase", "Passwort");
   ("backup.creating", "Wird erstellt…");
   ("backup.create", "Erstellen und herunterladen");
   ("backup.create_failed", "Backup konnte nicht erstellt werden");
   ("backup.restore_hint", "Ein verschlüsseltes Bundle bei gestopptem Dienst wiederherstellen. Der Befehl bewahrt eine Sicherheitskopie der bisherigen Installation auf.");
   ("backup.loading", "Backup-Status wird geladen...");
   ("backup.status_title", "Backup-Status");
   ("backup.database", "Datenbank:");
   ("backup.last_backup", "Letztes Backup:");
   ("backup.no_backup", "Noch kein Backup aufgezeichnet");
   ("backup.verification_state", "Verifizierungsstatus:");
   ("backup.state_unknown", "Unbekannt");
   ("backup.state_unverified", "Nicht verifiziert");
   ("backup.state_verified", "Verifiziert");
   ("backup.verify_title", "Backup verifizieren");
   ("backup.verify_text", "Legen Sie eine Kopie des Backups neben der Server-Datenbank ab, um ihre Integrität zu prüfen.");
   ("backup.file_name", "Name der Backup-Datei");
   ("backup.file_hint", "Legen Sie das Backup auf dem Velora-Server neben der Datenbank ab. Hier wird nur der Dateiname verwendet; Browser-Dateien und andere Verzeichnisse können nicht geprüft werden.");
   ("backup.viewer_readonly", "Sie sind als Betrachter angemeldet. Backup-Verifizierung ist schreibgeschützt.");
   ("backup.verifying", "Wird verifiziert...");
   ("backup.verify", "Verifizieren");
   ("backup.valid", "Backup ist gültig");
   ("backup.invalid", "Backup ist ungültig");
   ("backup.schema_version", "Schema-Version:");
   ("backup.records", "Einträge:");
   ("backup.instructions", "Wiederherstellung über die Kommandozeile");
   ("backup.native", "Direkte Installation");
   ("backup.docker", "Docker Compose");
   ("backup.online", "Online-Backup (SQLite)");
   ("backup.load_failed", "Backup-Status konnte nicht geladen werden");
   ("backup.verify_failed", "Verifizierung fehlgeschlagen");
   ("backup.step_stop_service", "Dienst stoppen");
   ("backup.step_create_backup", "Konsistentes Backup erstellen");
   ("backup.step_restart_service", "Dienst neu starten");
   ("backup.step_stop_container", "Container stoppen");
   ("backup.step_backup_volume", "Volume sichern");
   ("backup.step_restart_container", "Container neu starten");
   ("backup.step_online_backup", "SQLite-Backup-API für ein konsistentes Online-Backup verwenden");
   ("onboarding.welcome", "Willkommen bei Velora DNS");
   ("onboarding.complete_steps", "Führen Sie diese Schritte aus, um Ihre Installation zu sichern");
   ("onboarding.dismiss", "Ausblenden");
   ("onboarding.change_credentials", "Bootstrap-Anmeldedaten ändern");
   ("onboarding.change_credentials_text", "Das Standard-Admin-Passwort sollte nach der ersten Anmeldung geändert werden.");
   ("onboarding.review_dns", "DNS-Konfiguration prüfen");
   ("onboarding.review_dns_text", "Stellen Sie sicher, dass Upstream-Server und erlaubte Clients korrekt für Ihr Netzwerk konfiguriert sind.");
   ("onboarding.restrict_clients", "Client-Zugriff einschränken");
   ("onboarding.restrict_clients_text", "Konfigurieren Sie allowed_clients-CIDRs, um zu begrenzen, welche Netzwerke Ihren Resolver nutzen können.");
   ("onboarding.verify_db", "Datenbankspeicher prüfen");
   ("onboarding.verify_db_text", "Stellen Sie sicher, dass der Datenbankpfad auf zuverlässigem Speicher mit ausreichend Platz liegt.");
   ("onboarding.update_policy", "Update-Richtlinie konfigurieren");
   ("onboarding.update_policy_text", "Prüfen Sie das Update-Center, um zu verstehen, wie Sie Ihre Installation aktuell halten.");
   ("app.nav.dhcp", "DHCP");
   ("app.title.dhcp", "DHCP-Server");
   ("dhcp.loading", "DHCP-Daten laden…");
   ("dhcp.load_failed", "DHCP-Daten konnten nicht geladen werden");
   ("dhcp.create_pool_failed", "Pool konnte nicht erstellt werden");
   ("dhcp.delete_pool_failed", "Pool konnte nicht gelöscht werden");
   ("dhcp.create_reservation_failed", "Reservierung konnte nicht erstellt werden");
   ("dhcp.delete_reservation_failed", "Reservierung konnte nicht gelöscht werden");
   ("dhcp.delete_lease_failed", "Lease konnte nicht gelöscht werden");
   ("dhcp.pools", "DHCP-Pools");
   ("dhcp.add_pool", "Pool hinzufügen");
   ("dhcp.pool_name", "Poolname");
   ("dhcp.interface", "Schnittstelle");
   ("dhcp.subnet_cidr", "Subnetz (CIDR)");
   ("dhcp.subnet", "Subnetz");
   ("dhcp.gateway", "Gateway");
   ("dhcp.dns_servers", "DNS-Server");
   ("dhcp.lease_seconds", "Lease-Dauer (Sekunden)");
   ("dhcp.leases_label", "Leases");
   ("dhcp.create", "Erstellen");
   ("dhcp.no_pools", "Keine DHCP-Pools konfiguriert. Erstellen Sie einen, um Leases zu verteilen.");
   ("dhcp.reservations", "Statische Reservierungen");
   ("dhcp.mac_address", "MAC-Adresse");
   ("dhcp.ip_address", "IP-Adresse");
   ("dhcp.hostname", "Hostname");
   ("dhcp.add", "Hinzufügen");
   ("dhcp.active_leases", "Aktive Leases");
   ("dhcp.expires", "Läuft ab");
   ("dhcp.no_leases", "Keine aktiven Leases.");
   ("dhcp.expired", "Abgelaufen");
   ("dhcp.confirm_delete_pool", "Diesen Pool und alle seine Reservierungen löschen?");
   ("dhcp.name", "Name");
   ("app.nav.cluster", "Cluster");
   ("app.title.cluster", "Cluster-Übersicht");
   ("cluster.loading", "Cluster-Daten laden…");
   ("cluster.load_failed", "Cluster-Daten konnten nicht geladen werden");
   ("cluster.name", "Name");
   ("cluster.status", "Status");
   ("cluster.version", "Version");
   ("cluster.last_seen", "Zuletzt gesehen");
   ("cluster.config_history", "Konfigurationsverlauf");
   ("cluster.no_versions", "Keine Konfigurationsversionen aufgezeichnet.");
   ("cluster.hash", "Hash");
   ("cluster.applied_by", "Angewendet von");
   ("cluster.applied_at", "Angewendet am");
   ("app.nav.group_dns", "DNS");
   ("app.nav.group_network", "Netzwerk");
   ("app.nav.group_system", "System");
   ("app.menu_open", "Navigation öffnen");
   ("app.menu_close", "Navigation schließen");
   ("app.theme_to_dark", "Zum dunklen Design wechseln");
   ("app.theme_to_light", "Zum hellen Design wechseln");
   ("app.signed_in_as", "Angemeldet als");
   ("app.subtitle.zones", "Autoritative Namen für Geräte und Dienste in Ihrem Netzwerk.");
   ("app.subtitle.queries", "Aktuelle Abfragen, die dieser Resolver beantwortet hat.");
   ("app.subtitle.blocklists", "Domainlisten, die als blockiert beantwortet werden.");
   ("app.subtitle.cache", "Antworten im Speicher, um wiederholte Abfragen zu beschleunigen.");
   ("app.subtitle.settings", "Resolver, Weboberfläche und persönliche Einstellungen.");
   ("app.subtitle.updates", "Installierte Version, verfügbare Releases und Update-Verlauf.");
   ("app.subtitle.backup", "Verschlüsselte Backups erstellen und vorhandene prüfen.");
   ("app.subtitle.dhcp", "Adresspools, Reservierungen und aktive Leases.");
   ("app.subtitle.cluster", "Lokale Zonen auf mehreren Velora-DNS-Servern identisch halten.");
   ("app.subtitle.diagnostics", "Zustand der Komponenten und ein teilbarer Supportbericht.");
   ("app.subtitle.events", "Dinge, die Ihre Aufmerksamkeit erfordern.");
   ("app.subtitle.audit", "Wer hat was wann geändert.");
   ("settings.preferences", "Persönliche Einstellungen");
   ("dashboard.general_statistics", "Allgemeine Statistik");
   ("dashboard.blocked", "Durch Filter blockiert");
   ("dashboard.of_all_queries", "aller Anfragen")].

Definition de_5 : list (string * string) :=
  [("dashboard.query_logging", "Abfrageprotokoll");
   ("dashboard.enabled", "Aktiviert");
   ("dashboard.disabled", "Deaktiviert");
   ("dashboard.requests", "Anfragen");
   ("dashboard.domain", "Domain");
   ("dashboard.client", "Client");
   ("dashboard.upstream_servers", "Upstream-Server");
   ("dashboard.collecting_samples", "Messwerte werden gesammelt…");
   ("cache.search_label", "Nach Name suchen");
   ("cache.search_placeholder", "example.org");
   ("cache.all_types", "Alle Typen");
   ("cache.remove_entry", "Aus dem Cache entfernen");
   ("cache.invalidate_title", "Domain invalidieren");
   ("cache.invalidate_text", "Gecachte Antworten für einen Namen entfernen, ohne den gesamten Cache zu leeren.");
   ("cache.domain", "Domain");
   ("cache.include_subdomains", "Subdomains einschließen");
   ("cache.invalidate", "Invalidieren");
   ("cache.removed_entries", "Entfernte Cache-Einträge");
   ("cache.invalidate_failed", "Invalidierung fehlgeschlagen");
   ("cache.flush_confirm", "Alle gecachten Antworten löschen? Die Zähler für Treffer und Fehlschläge bleiben erhalten.");
   ("cache.no_matches", "Keine Cache-Einträge passen zu diesem Filter.");
   ("blocklists.schedule", "Aktualisierungsplan");
   ("blocklists.schedule_for", "Aktualisierungsplan für");
   ("blocklists.manual", "Manuell");
   ("blocklists.every_1h", "Stündlich");
   ("blocklists.every_6h", "Alle 6 Stunden");
   ("blocklists.every_12h", "Alle 12 Stunden");
   ("blocklists.every_24h", "Täglich");
   ("blocklists.every_7d", "Wöchentlich");
   ("blocklists.col_next_update", "Nächste Aktualisierung");
   ("blocklists.due_now", "Jetzt fällig");
   ("blocklists.never_updated", "Nie aktualisiert");
   ("blocklists.retry_count", "fehlgeschlagene Versuche");
   ("blocklists.schedule_failed", "Plan konnte nicht geändert werden");
   ("app.nav.forwarding", "Bedingte Weiterleitung");
   ("app.title.forwarding", "Bedingte Weiterleitung");
   ("app.subtitle.forwarding", "Anfragen für ausgewählte Domains an eigene Resolver senden.");
   ("forwarding.count", "Weiterleitungsregeln");
   ("forwarding.add", "Regel hinzufügen");
   ("forwarding.add_title", "Neue Weiterleitungsregel");
   ("forwarding.edit_title", "Weiterleitungsregel bearbeiten");
   ("forwarding.form_hint", "Die Regel gilt auch für alle Namen unterhalb der Domain. Die spezifischste aktive Regel gewinnt.");
   ("forwarding.domain", "Domain");
   ("forwarding.upstreams", "Resolver");
   ("forwarding.upstreams_hint", "1–4 Adressen als IP oder IP:Port, durch Kommas getrennt. Ohne Angabe wird Port 53 verwendet.");
   ("forwarding.description", "Beschreibung");
   ("forwarding.enabled", "Aktiviert");
   ("forwarding.save", "Regel speichern");
   ("forwarding.cancel", "Abbrechen");
   ("forwarding.empty_title", "Keine Weiterleitungsregeln");
   ("forwarding.empty_text", "Alle Anfragen nutzen die globalen Upstream-Resolver. Füge eine Regel hinzu, um eine Domain wie corp.example über einen internen DNS-Server aufzulösen.");
   ("forwarding.col_status", "Status");
   ("forwarding.test", "Testen");
   ("forwarding.test_title", "Regel testen");
   ("forwarding.test_hint", "Sendet eine Anfrage nur über die Resolver dieser Regel, ohne Cache.");
   ("forwarding.test_name", "Name");
   ("forwarding.test_type", "Typ");
   ("forwarding.run_test", "Test ausführen");
   ("forwarding.test_via", "über");
   ("forwarding.no_answers", "Keine Antwortdatensätze");
   ("forwarding.edit", "Bearbeiten");
   ("forwarding.delete", "Löschen");
   ("forwarding.delete_confirm", "Weiterleitungsregel löschen für");
   ("forwarding.toggle", "Regel aktivieren oder deaktivieren für");
   ("forwarding.load_failed", "Weiterleitungsregeln konnten nicht geladen werden");
   ("forwarding.save_failed", "Regel konnte nicht gespeichert werden");
   ("forwarding.saved", "Weiterleitungsregel gespeichert. Gecachte Antworten der Domain wurden entfernt.");
   ("forwarding.disabled", "Deaktiviert");
   ("app.nav.rewrites", "DNS-Umschreibungen");
   ("app.title.rewrites", "DNS-Umschreibungen");
   ("app.subtitle.rewrites", "Ausgewählte Namen mit festen Adressen oder Aliasen beantworten.");
   ("rewrites.count", "Umschreibungen");
   ("rewrites.add", "Umschreibung hinzufügen");
   ("rewrites.add_title", "Neue Umschreibung");
   ("rewrites.edit_title", "Umschreibung bearbeiten");
   ("rewrites.form_hint", "Mit *.parent werden alle Namen unter einer Domain erfasst. Exakte Namen haben Vorrang vor Platzhaltern.");
   ("rewrites.name", "Name");
   ("rewrites.type", "Typ");
   ("rewrites.value", "Antwort");
   ("rewrites.value_hint_A", "IPv4-Adresse");
   ("rewrites.value_hint_AAAA", "IPv6-Adresse");
   ("rewrites.value_hint_CNAME", "Zielhostname, wird normal aufgelöst");
   ("rewrites.description", "Beschreibung");
   ("rewrites.enabled", "Aktiviert");
   ("rewrites.save", "Umschreibung speichern");
   ("rewrites.empty_title", "Keine DNS-Umschreibungen");
   ("rewrites.empty_text", "Einen Namen wie nas.home ohne Zone einer Adresse zuordnen.");
   ("rewrites.col_notes", "Hinweise");
   ("rewrites.blocked_hint", "Wird zuerst von einer Sperrliste blockiert");
   ("rewrites.overrides_hint", "Überschreibt lokale Zone");
   ("rewrites.edit", "Bearbeiten");
   ("rewrites.delete", "Löschen");
   ("rewrites.delete_confirm", "Diese Umschreibung löschen?");
   ("rewrites.toggle", "Umschreibung aktivieren oder deaktivieren für");
   ("rewrites.search", "Umschreibungen filtern");
   ("rewrites.load_failed", "Umschreibungen konnten nicht geladen werden");
   ("rewrites.save_failed", "Umschreibung konnte nicht gespeichert werden");
   ("rewrites.saved", "Umschreibung gespeichert und angewendet.");
   ("app.nav.clients", "Clients");
   ("app.title.clients", "Clients und Geräte");
   ("app.subtitle.clients", "Adressen und Netzen Namen geben, die überall in Velora erscheinen.");
   ("clients.count", "Clients");
   ("clients.add", "Client hinzufügen");
   ("clients.add_title", "Neuer Client");
   ("clients.edit_title", "Client bearbeiten");
   ("clients.form_hint", "Bei überlappenden Netzen gewinnt das spezifischste. Gib DHCP-Geräten vor der Benennung eine feste Adresse.");
   ("clients.name", "Name");
   ("clients.addresses", "Adressen");
   ("clients.addresses_hint", "IP-Adressen oder CIDR-Netze, durch Kommas getrennt.");
   ("clients.group", "Gruppe");
   ("clients.description", "Beschreibung");
   ("clients.enabled", "Aktiviert");
   ("clients.save", "Client speichern");
   ("clients.activity", "Letzte 24 Stunden");
   ("clients.queries", "Anfragen");
   ("clients.last_seen", "Zuletzt gesehen");
   ("clients.no_activity", "Keine Anfragen");
   ("clients.view_queries", "Anfragen anzeigen");
   ("clients.empty_title", "Keine benannten Clients");
   ("clients.empty_text", "Benenne Geräte wie einen Fernseher oder Home Assistant, damit sie im Abfrageprotokoll leicht erkennbar sind.");
   ("clients.unnamed_title", "Kürzlich gesehen, ohne Namen");
   ("clients.unnamed_text", "Aktivste Adressen der letzten 24 Stunden ohne passenden Client.");
   ("clients.name_it", "Gerät benennen");
   ("clients.edit", "Bearbeiten");
   ("clients.delete", "Löschen");
   ("clients.delete_confirm", "Client löschen");
   ("clients.toggle", "Client aktivieren oder deaktivieren");
   ("clients.load_failed", "Clients konnten nicht geladen werden");
   ("clients.save_failed", "Client konnte nicht gespeichert werden");
   ("clients.saved", "Client gespeichert.");
   ("clients.logging_off", "Aktiviere das Abfrageprotokoll, um Client-Aktivität zu sehen.");
   ("app.nav.policies", "Client-Richtlinien");
   ("app.title.policies", "Filterrichtlinien pro Client");
   ("app.subtitle.policies", "Legen Sie fest, wie Blockierung für einzelne Clients gilt.");
   ("policies.load_failed", "Richtlinien konnten nicht geladen werden.");
   ("policies.save_failed", "Die Richtlinie konnte nicht gespeichert werden.");
   ("policies.saved", "Richtlinie gespeichert.");
   ("policies.lookup", "Adresse prüfen");
   ("policies.add", "Richtlinie hinzufügen");
   ("policies.add_title", "Neue Richtlinie");
   ("policies.edit_title", "Richtlinie bearbeiten");
   ("policies.form_hint", "Das spezifischste Client-Netz entscheidet, welche Richtlinie für eine Adresse gilt.");
   ("policies.client", "Client");
   ("policies.mode", "Filterung");
   ("policies.mode_default", "Global");
   ("policies.mode_disabled", "Keine Filterung");
   ("policies.mode_custom", "Eigene");
   ("policies.mode_default_hint", "Dieselben Block- und Erlaubnislisten wie alle anderen.")].

Definition de_6 : list (string * string) :=
  [("policies.mode_disabled_hint", "Für diesen Client wird nichts blockiert.");
   ("policies.mode_custom_hint", "Nur die gewählten Blocklisten plus eigene Domains.");
   ("policies.blocklists", "Blocklisten");
   ("policies.no_sources", "Noch keine Blocklisten.");
   ("policies.globally_off", "global aus");
   ("policies.block", "Zusätzlich blockieren");
   ("policies.allow", "Immer erlauben");
   ("policies.domains_hint", "Eine Domain pro Zeile; Subdomains sind eingeschlossen.");
   ("policies.allow_hint", "Hat für diesen Client Vorrang vor allen Blocklisten.");
   ("policies.enabled", "Richtlinie aktiv");
   ("policies.save", "Richtlinie speichern");
   ("policies.empty_title", "Keine Client-Richtlinien");
   ("policies.empty_text", "Alle Clients verwenden die globalen Blocklisten. Fügen Sie eine Richtlinie hinzu, um ein Gerät strenger, lockerer oder gar nicht zu filtern.");
   ("policies.need_clients", "Richtlinien gelten für benannte Clients. Benennen Sie zuerst ein Gerät:");
   ("policies.details", "Details");
   ("policies.summary_disabled", "Alle Anfragen werden ungefiltert beantwortet");
   ("policies.summary_default", "Verwendet die globalen Blocklisten");
   ("policies.no_lists", "Keine Blocklisten");
   ("policies.blocked_short", "blockiert");
   ("policies.allowed_short", "erlaubt");
   ("policies.paused", "Pausiert");
   ("policies.toggle", "Richtlinie aktiv");
   ("policies.edit", "Richtlinie bearbeiten");
   ("policies.delete", "Richtlinie löschen");
   ("policies.delete_confirm", "Richtlinie entfernen für");
   ("policies.no_policy", "(keine Richtlinie, globale Filterung)");
   ("policies.unknown_address", "gehört zu keinem Client und nutzt die globale Filterung.");
   ("app.nav.webhooks", "Webhooks");
   ("app.title.webhooks", "Webhook-Benachrichtigungen");
   ("app.subtitle.webhooks", "Wichtige Ereignisse an andere Systeme senden.");
   ("webhooks.load_failed", "Webhooks konnten nicht geladen werden.");
   ("webhooks.save_failed", "Der Webhook konnte nicht gespeichert werden.");
   ("webhooks.saved", "Webhook gespeichert.");
   ("webhooks.count", "Webhooks");
   ("webhooks.add", "Webhook hinzufügen");
   ("webhooks.add_title", "Neuer Webhook");
   ("webhooks.edit_title", "Webhook bearbeiten");
   ("webhooks.form_hint", "Velora sendet für jedes passende Ereignis eine JSON-POST-Anfrage. Die Zustellung läuft im Hintergrund und verzögert keine DNS-Antworten.");
   ("webhooks.name", "Name");
   ("webhooks.url", "URL");
   ("webhooks.min_severity", "Mindestschweregrad");
   ("webhooks.severity_info", "Info");
   ("webhooks.severity_warning", "Warnung");
   ("webhooks.severity_critical", "Kritisch");
   ("webhooks.token", "Bearer-Token");
   ("webhooks.token_hint", "Optional. Wird als Authorization-Header gesendet und nie wieder angezeigt.");
   ("webhooks.token_stored", "Token gespeichert");
   ("webhooks.token_change", "Ändern");
   ("webhooks.token_remove_hint", "Leer lassen, um das Token zu entfernen");
   ("webhooks.events", "Ereignisse");
   ("webhooks.events_hint", "Nichts auswählen, um alle Ereignistypen zu erhalten.");
   ("webhooks.all_events", "Alle Ereignisse");
   ("webhooks.allow_private", "Ziel im privaten Netz erlauben (z. B. Home Assistant im LAN)");
   ("webhooks.enabled", "Webhook aktiv");
   ("webhooks.save", "Webhook speichern");
   ("webhooks.empty_title", "Keine Webhooks");
   ("webhooks.empty_text", "Fügen Sie einen Webhook hinzu, um bei Upstream-Ausfällen, fehlgeschlagenen Blocklisten-Updates oder Backups benachrichtigt zu werden.");
   ("webhooks.last_delivery", "Letzte Zustellung");
   ("webhooks.never", "Noch nichts gesendet");
   ("webhooks.failing", "Fehlerhaft");
   ("webhooks.toggle", "Webhook aktiv");
   ("webhooks.test", "Test senden");
   ("webhooks.test_ok", "Test zugestellt an");
   ("webhooks.test_failed", "Test fehlgeschlagen für");
   ("webhooks.edit", "Webhook bearbeiten");
   ("webhooks.delete", "Webhook löschen");
   ("webhooks.delete_confirm", "Webhook löschen:");
   ("app.nav.analytics", "Analysen");
   ("app.title.analytics", "Analysen");
   ("app.subtitle.analytics", "DNS-Aktivität und Resolver-Leistung aus dem gespeicherten Abfrageverlauf.");
   ("analytics.load_failed", "Analysen konnten nicht geladen werden.");
   ("analytics.logging_off_title", "Abfrageprotokoll ist aus");
   ("analytics.logging_off_text", "Analysen basieren auf dem gespeicherten Abfrageverlauf. Aktivieren Sie das Abfrageprotokoll:");
   ("analytics.range", "Zeitraum");
   ("analytics.range_1h", "1 Stunde");
   ("analytics.range_24h", "24 Stunden");
   ("analytics.range_7d", "7 Tage");
   ("analytics.range_30d", "30 Tage");
   ("analytics.history_limited", "Der Abfrageverlauf reicht nur zurück bis");
   ("analytics.queries", "Anfragen");
   ("analytics.blocked", "Blockiert");
   ("analytics.allowed", "Erlaubt");
   ("analytics.cached", "Cache-Antworten");
   ("analytics.answers", "Antworten");
   ("analytics.avg_upstream", "Ø Upstream-Zeit");
   ("analytics.empty_title", "Keine Anfragen in diesem Zeitraum");
   ("analytics.empty_text", "Wählen Sie einen längeren Zeitraum oder schauen Sie später wieder vorbei.");
   ("analytics.over_time", "Anfragen im Zeitverlauf");
   ("analytics.over_time_hint", "Mit der Maus oder den Pfeiltasten einen Abschnitt ansehen.");
   ("analytics.chart_aria", "Anfragen pro Zeitabschnitt, erlaubt und blockiert");
   ("analytics.show_table", "Als Tabelle anzeigen");
   ("analytics.time", "Zeit");
   ("analytics.avg_time", "Ø Zeit");
   ("analytics.latency", "Upstream-Antwortzeit");
   ("analytics.latency_hint", "Durchschnitt beantworteter weitergeleiteter Anfragen; Lücken bedeuten keinen Upstream-Verkehr.");
   ("analytics.latency_aria", "Durchschnittliche Upstream-Antwortzeit pro Zeitabschnitt");
   ("analytics.query_types", "Abfragetypen");
   ("analytics.sources", "Beantwortet von");
   ("analytics.source_upstream", "Upstream");
   ("analytics.source_cache", "Cache");
   ("analytics.source_blocked", "Blockiert");
   ("analytics.source_local", "Lokale Zonen und Umschreibungen");
   ("analytics.source_refused", "Abgelehnt");
   ("analytics.response_codes", "Antwortcodes");
   ("analytics.top_blocked", "Meistblockierte Domains");
   ("analytics.nothing_blocked", "Nichts blockiert in diesem Zeitraum");
   ("analytics.upstreams", "Upstream-Nutzung");
   ("analytics.upstreams_hint", "Weitergeleitete Anfragen je Resolver, SERVFAIL-Antworten und durchschnittliche Antwortzeit.");
   ("analytics.no_upstream", "Kein Upstream-Verkehr in diesem Zeitraum");
   ("analytics.failures", "Fehler");
   ("updates.check_prompt", "Prüfen, ob eine neuere Version verfügbar ist.");
   ("updates.checking", "Suche nach Updates…");
   ("updates.starting", "Update wird gestartet…");
   ("updates.updating_to", "Aktualisierung auf");
   ("updates.completed_to", "Aktualisiert auf");
   ("updates.failed_title", "Das Update wurde nicht abgeschlossen");
   ("updates.failed_text", "Das Update ist fehlgeschlagen. Velora läuft mit der vorherigen Version weiter.");
   ("updates.not_started", "Der Updater hat das Update nicht gestartet. Prüfen Sie, ob velora-updater.service läuft.");
   ("updates.check_again", "Erneut prüfen");
   ("updates.update_now", "Aktualisieren");
   ("updates.reload", "Seite neu laden");
   ("updates.reconnecting", "Velora startet neu. Warte auf die Rückkehr…");
   ("updates.keep_open", "Sie können diese Seite offen lassen; sie aktualisiert sich selbst. DNS antwortet bis zum Wechsel mit der laufenden Version.");
   ("updates.completed_text", "Das Update ist abgeschlossen und hat die Integritätsprüfungen bestanden. Laden Sie die Seite neu, um die neue Oberfläche zu laden.");
   ("settings.entry", "Eintrag");
   ("settings.fix_fields", "Es wurde nichts geändert. Korrigieren Sie die markierten Felder und versuchen Sie es erneut.");
   ("settings.restart_required", "Es wurde nichts geändert. Die markierten Felder wirken erst nach einem Neustart: Konfigurationsdatei bearbeiten und Velora DNS neu starten.");
   ("settings.restart_field", "Erfordert einen Neustart");
   ("settings.check", "Prüfen");
   ("settings.check_ok", "Diese Einstellungen sind gültig und können ohne Neustart übernommen werden.");
   ("restore.title", "Backup wiederherstellen");
   ("restore.hint", "Laden Sie ein verschlüsseltes Backup hoch, um es zuerst zu prüfen. Erst nach Bestätigung startet Velora neu, legt eine Sicherheitskopie an und rollt automatisch zurück, falls der Start misslingt.");
   ("restore.file", "Backup-Datei (.vdns)");
   ("restore.inspect", "Backup prüfen");
   ("restore.inspecting", "Wird geprüft…");
   ("restore.inspect_failed", "Das Backup konnte nicht geprüft werden.");
   ("restore.review_title", "Backup ist gültig");
   ("restore.created", "Erstellt");
   ("restore.version", "Velora-Version");
   ("restore.schema", "Datenbankschema");
   ("restore.contents", "Inhalt");
   ("restore.zones", "Zonen");
   ("restore.records", "Einträge");
   ("restore.blocklists", "Blocklisten");
   ("restore.rewrites", "Umschreibungen");
   ("restore.forward_rules", "Weiterleitungsregeln");
   ("restore.clients", "Clients");
   ("restore.users", "Benutzer")].

Definition de_7 : list (string * string) :=
  [("restore.listeners", "Listener");
   ("restore.web", "Web");
   ("restore.confirm", "Aktuelle Konfiguration und Daten durch dieses Backup ersetzen. Eine Sicherheitskopie des aktuellen Stands wird aufbewahrt.");
   ("restore.restore", "Wiederherstellen und neu starten");
   ("restore.schedule_failed", "Die Wiederherstellung konnte nicht gestartet werden.");
   ("restore.manual_restart", "Die Wiederherstellung ist geplant. Starten Sie Velora DNS neu, um sie anzuwenden.");
   ("restore.restarting", "Velora startet neu, um das Backup anzuwenden. Diese Seite aktualisiert sich danach.");
   ("restore.signed_out", "Velora läuft wieder mit den wiederhergestellten Daten. Melden Sie sich mit einem Konto aus dem Backup an.");
   ("restore.again", "Weiteres Backup wiederherstellen");
   ("restore.backup_from", "Backup vom");
   ("restore.safety_copy", "Vorheriger Stand gesichert in");
   ("restore.state_completed", "Wiederherstellung abgeschlossen.");
   ("restore.state_rolled_back", "Wiederherstellung zurückgerollt.");
   ("restore.state_failed", "Wiederherstellung fehlgeschlagen.");
   ("restore.state_applied", "Wiederherstellung angewendet; warte auf Bereitschaft.");
   ("restore.state_pending", "Wiederherstellung geplant.");
   ("restore.passphrase", "Backup-Passphrase");
   ("app.scrollable_table", "seitlich scrollbar");
   ("palette.title", "Befehlspalette");
   ("palette.placeholder", "Seiten, Zonen, Einträge, Clients suchen…");
   ("palette.results", "Ergebnisse");
   ("palette.pages", "Seiten");
   ("palette.actions", "Aktionen");
   ("palette.kind_zone", "Zonen");
   ("palette.kind_record", "Einträge");
   ("palette.kind_client", "Clients");
   ("palette.kind_rewrite", "DNS-Umschreibungen");
   ("palette.kind_forwarding", "Bedingte Weiterleitung");
   ("palette.kind_blocklist", "Blocklisten");
   ("palette.no_results", "Keine Treffer.");
   ("palette.navigate", "navigieren");
   ("palette.open", "öffnen");
   ("palette.toggle", "öffnen oder schließen");
   ("palette.open_button", "Suchen");
   ("palette.add_client", "Client hinzufügen");
   ("palette.create_backup", "Backup erstellen");
   ("cluster.action_failed", "Die Cluster-Aktion ist fehlgeschlagen.");
   ("cluster.never", "nie");
   ("cluster.role", "Rolle");
   ("cluster.role_standalone", "Eigenständig");
   ("cluster.role_primary", "Cluster-Primärknoten");
   ("cluster.role_replica", "Cluster-Replikat");
   ("cluster.replicas", "Replikate");
   ("cluster.in_sync_count", "synchron");
   ("cluster.revision", "Zonenrevision");
   ("cluster.zones_replicated", "Zonen repliziert");
   ("cluster.last_sync", "Letzte Synchronisierung");
   ("cluster.sync_failed", "Letzte Synchronisierung fehlgeschlagen");
   ("cluster.sync_ok", "Aktuell mit dem Primärknoten");
   ("cluster.members", "Replikate");
   ("cluster.members_hint", "Knoten, die die Zonen dieses Primärknotens übernehmen. Sie melden sich alle 30 Sekunden.");
   ("cluster.add_node", "Knoten hinzufügen");
   ("cluster.token_title", "Beitrittstoken erstellt");
   ("cluster.token_steps", "Öffnen Sie auf dem neuen Knoten Cluster → Cluster beitreten und geben Sie ein:");
   ("cluster.token_expires", "Das Token läuft ab um");
   ("cluster.token_once", "Es funktioniert einmal und wird nicht erneut angezeigt.");
   ("cluster.copy_token", "Token kopieren");
   ("cluster.copied", "Kopiert");
   ("cluster.token_done", "Fertig");
   ("cluster.no_members", "Noch keine Replikate");
   ("cluster.no_members_text", "Fügen Sie einen Knoten hinzu, um ein Beitrittstoken für einen zweiten Velora-DNS-Server zu erstellen.");
   ("cluster.status_in_sync", "Synchron");
   ("cluster.status_behind", "Holt auf");
   ("cluster.status_stale", "Antwortet nicht");
   ("cluster.status_error", "Synchronisierungsfehler");
   ("cluster.status_never_synced", "Wartet auf erste Synchronisierung");
   ("cluster.remove", "Knoten entfernen");
   ("cluster.remove_confirm", "Dieses Replikat entfernen? Es erhält dann keine Zonenaktualisierungen mehr:");
   ("cluster.removed", "Replikat entfernt.");
   ("cluster.dissolve", "Cluster auflösen");
   ("cluster.dissolve_hint", "Widerruft alle Replikate und macht diesen Knoten wieder eigenständig. Replikate behalten ihre letzte Kopie der Zonen.");
   ("cluster.dissolve_confirm", "Cluster auflösen und alle Replikate widerrufen?");
   ("cluster.dissolved", "Der Cluster wurde aufgelöst.");
   ("cluster.replica_title", "Repliziert vom Primärknoten");
   ("cluster.replica_hint", "Zonen auf diesem Knoten werden vom Primärknoten kopiert und sind hier schreibgeschützt. Andere Einstellungen bleiben lokal.");
   ("cluster.replica_ok", "Die Replikation funktioniert.");
   ("cluster.sync_now", "Jetzt synchronisieren");
   ("cluster.leave", "Cluster verlassen");
   ("cluster.leave_confirm", "Cluster verlassen? Dieser Knoten behält seine Zonen und ist wieder bearbeitbar.");
   ("cluster.left", "Dieser Knoten hat den Cluster verlassen.");
   ("cluster.primary_url", "Primär-URL");
   ("cluster.cluster_id", "Cluster-ID");
   ("cluster.node_id", "Knoten-ID");
   ("cluster.join_token", "Beitrittstoken");
   ("cluster.standalone_title", "Dieser Knoten ist eigenständig");
   ("cluster.standalone_viewer", "Ein Administrator kann einen Cluster erstellen oder diesen Knoten einem Cluster hinzufügen.");
   ("cluster.scope_note", "Ein Cluster hält lokale Zonen auf mehreren Velora-DNS-Servern gleich: Ein Primärknoten nimmt Änderungen an, Replikate übernehmen sie alle 30 Sekunden. Es gibt kein automatisches Failover, andere Einstellungen bleiben pro Knoten.");
   ("cluster.create_title", "Cluster erstellen");
   ("cluster.create_hint", "Dieser Knoten wird Primärknoten. Seine Zonen werden auf alle Replikate kopiert.");
   ("cluster.node_name", "Knotenname");
   ("cluster.advertised_url", "Adresse für andere Knoten");
   ("cluster.advertised_hint", "Die URL der Weboberfläche dieses Knotens aus Sicht der Replikate.");
   ("cluster.allow_http", "Unverschlüsseltes HTTP erlauben (nur vertrauenswürdiges Netz)");
   ("cluster.skip_check", "Erreichbarkeitsprüfung überspringen");
   ("cluster.create", "Cluster erstellen");
   ("cluster.created", "Der Cluster wurde erstellt. Fügen Sie einen Knoten hinzu, um ein Replikat einzuladen.");
   ("cluster.join_title", "Cluster beitreten");
   ("cluster.join_hint", "Machen Sie diesen Knoten zum Replikat eines Primärknotens. Erstellen Sie zuerst das Beitrittstoken auf dem Primärknoten.");
   ("cluster.join_warning", "Beim Beitritt werden die lokalen Zonen dieses Knotens durch die des Primärknotens ersetzt. Andere Einstellungen bleiben unverändert.");
   ("cluster.join_confirm", "Cluster beitreten und die Zonen dieses Knotens durch die des Primärknotens ersetzen?");
   ("cluster.join", "Cluster beitreten");
   ("cluster.joined", "Dieser Knoten ist dem Cluster beigetreten und übernimmt die Zonen des Primärknotens.");
   ("cluster.zones_read_only", "Dieser Knoten ist ein Cluster-Replikat. Zonen werden vom Primärknoten kopiert und können nur dort geändert werden.")].

Definition de : list (string * string) :=
  (de_1 ++ de_2 ++ de_3 ++ de_4 ++ de_5 ++ de_6 ++ de_7)%list.
