(* ===== verification/I18nEs.v ===== *)
(** * The Spanish catalog: web/src/i18n/es.ts

    Its entries in order, in parts of up to 148 lines of the file. *)
From S2P Require Import Prelude.
Local Open Scope string_scope.

Definition es_1 : list (string * string) :=
  [("app.skip_to_content", "Saltar al contenido");
   ("app.workspace_label", "ESPACIO DE TRABAJO");
   ("app.nav.events", "Eventos");
   ("app.title.events", "Eventos");
   ("events.unread", "sin leer");
   ("events.empty", "Aún no hay eventos del sistema.");
   ("events.load_failed", "No se pudieron cargar los eventos");
   ("events.mark_read", "Marcar como leído");
   ("events.repeated", "Repetido");
   ("events.open", "Abrir");
   ("events.info", "Info");
   ("events.warning", "Advertencia");
   ("events.critical", "Crítico");
   ("app.nav.main", "Navegación principal");
   ("app.nav.overview", "Resumen");
   ("app.nav.zones", "Zonas locales");
   ("app.nav.queries", "Registro de consultas");
   ("app.nav.blocklists", "Listas de bloqueo");
   ("app.nav.cache", "Caché DNS");
   ("app.nav.settings", "Configuración");
   ("app.nav.updates", "Actualizaciones");
   ("app.nav.backup", "Copia de seguridad");
   ("app.sign_out", "Cerrar sesión");
   ("app.nav.audit", "Registro de auditoría");
   ("app.title.audit", "Registro de auditoría");
   ("app.nav.diagnostics", "Diagnóstico");
   ("app.title.diagnostics", "Diagnóstico");
   ("app.local_resolver", "Resolvedor local");
   ("app.self_hosted_foundation", "Autoalojado · Fundación");
   ("app.private_by_default", "Privado por defecto");
   ("app.privacy.query_retention", "El historial de consultas tiene un período de retención limitado.");
   ("app.privacy.no_query_history", "No se recopila el historial de consultas.");
   ("app.github_repo", "Repositorio de GitHub");
   ("app.connecting", "Conectando…");
   ("app.workspace", "Espacio de trabajo");
   ("app.connection_lost", "Conexión perdida");
   ("app.resolver_online", "Resolvedor en línea");
   ("app.title.overview", "Resumen de la red");
   ("app.title.zones", "Zonas locales");
   ("app.title.queries", "Registro de consultas");
   ("app.title.blocklists", "Listas de bloqueo");
   ("app.title.cache", "Caché DNS");
   ("app.title.settings", "Configuración");
   ("app.title.updates", "Actualizaciones");
   ("app.title.backup", "Copia de seguridad y restauración");
   ("app.eyebrow", "TU RED DE UN VISTAZO");
   ("app.subtitle.overview", "Una vista clara de tu DNS, desde la solicitud hasta la respuesta.");
   ("app.subtitle.default", "Inspecciona y administra tu fundación de resolvedor.");
   ("app.refresh", "Actualizar");
   ("app.error.showing_last", "Mostrando la última captura exitosa desde");
   ("app.error.check_server", "Verifica que el servidor Velora esté en ejecución.");
   ("app.error.reach_server", "No se puede acceder al servidor");
   ("app.viewer_readonly", "Has iniciado sesión como espectador. Las acciones de administración son de solo lectura.");
   ("app.connecting_panel", "Conectando a tu resolvedor…");
   ("app.not_found", "Página no encontrada.");
   ("app.footer.independent", "Velora DNS · Independiente. Autoalojado.");
   ("app.footer.last_updated", "Última actualización");
   ("app.footer.waiting", "Esperando al servidor");
   ("diagnostics.title", "Estado del sistema");
   ("diagnostics.report_hint", "La descarga contiene estados de componentes y datos de compilación, sin secretos ni registros de consultas.");
   ("diagnostics.download", "Descargar informe");
   ("diagnostics.loading", "Cargando diagnóstico…");
   ("diagnostics.load_failed", "No se pudo cargar el diagnóstico");
   ("diagnostics.upstreams", "Servidores ascendentes");
   ("diagnostics.component", "Componente");
   ("diagnostics.state", "Estado");
   ("diagnostics.detail", "Detalle");
   ("diagnostics.state.healthy", "Saludable");
   ("diagnostics.state.degraded", "Degradado");
   ("diagnostics.state.failed", "Fallido");
   ("explain.title", "¿Por qué se dio esta respuesta?");
   ("explain.hint", "Simulación del resolvedor para un nombre. No se consulta al upstream ni se registra, almacena en caché o cuenta nada.");
   ("explain.name", "Nombre");
   ("explain.type", "Tipo de registro");
   ("explain.client", "Dirección del cliente (opcional)");
   ("explain.client_hint", "Aplica la política de filtrado de ese cliente.");
   ("explain.submit", "Explicar");
   ("explain.running", "Explicando…");
   ("explain.failed", "No se pudo explicar esta consulta");
   ("explain.result", "Explicación");
   ("explain.winner", "Etapa decisiva");
   ("explain.answers", "Respuesta");
   ("explain.no_answers", "Sin registros de respuesta: la respuesta vendría de un resolvedor upstream, al que no se consulta.");
   ("explain.steps", "Etapas consideradas");
   ("explain.step", "Etapa");
   ("explain.outcome", "Resultado");
   ("explain.detail", "Detalle");
   ("explain.cname_target", "Destino del CNAME");
   ("explain.ttl", "TTL restante");
   ("explain.matches", "Coincidencia");
   ("explain.allowed_by", "Permitido por");
   ("explain.not_contacted", "No se consultó a ningún upstream.");
   ("explain.scope.global", "Filtrado global");
   ("explain.scope.client_policy", "Política del cliente");
   ("explain.stage.filter", "Lista de bloqueo o política del cliente");
   ("explain.stage.rewrite", "Reescritura DNS");
   ("explain.stage.zone", "Zona local");
   ("explain.stage.cache", "Caché");
   ("explain.stage.forwarding", "Regla de reenvío condicional");
   ("explain.stage.upstream", "Resolvedores upstream globales");
   ("explain.stage.refused", "Rechazado");
   ("explain.result.passed", "Pasó");
   ("explain.result.allowed", "Permitido");
   ("explain.result.blocked", "Bloqueado");
   ("explain.result.no_match", "Sin coincidencia");
   ("explain.result.answered", "Respondido");
   ("explain.result.miss", "Fallo de caché");
   ("explain.result.hit", "Acierto");
   ("explain.result.refused", "Rechazado");
   ("explain.result.would_forward", "Se reenviaría");
   ("explain.result.error", "Error");
   ("explain.source.local", "Respuesta local");
   ("explain.source.cache", "Caché");
   ("explain.source.blocked", "Bloqueado");
   ("explain.source.upstream", "Upstream");
   ("explain.source.refused", "Rechazado");
   ("audit.title", "Registro de auditoría administrativa");
   ("audit.hint", "Las acciones administrativas se conservan 90 días. Se excluyen secretos y cuerpos de solicitud.");
   ("audit.actor", "Actor");
   ("audit.action", "Acción");
   ("audit.result", "Resultado");
   ("audit.all", "Todos");
   ("audit.success", "Éxito");
   ("audit.failure", "Fallo");
   ("audit.filter", "Filtrar");
   ("audit.time", "Hora");
   ("audit.target", "Destino");
   ("audit.empty", "No se encontraron eventos de auditoría.");
   ("audit.more", "Cargar más");
   ("audit.load_failed", "No se pudieron cargar los eventos de auditoría");
   ("auth.checking", "Verificando sesión…");
   ("auth.sign_in_title", "Iniciar sesión en Velora DNS");
   ("auth.username", "Usuario");
   ("auth.password", "Contraseña");
   ("auth.sign_in", "Iniciar sesión");
   ("auth.sign_in_failed", "Error al iniciar sesión");
   ("settings.server_configuration", "Configuración del servidor");
   ("settings.language", "Idioma");
   ("settings.theme", "Tema");
   ("settings.theme_light", "Claro");
   ("settings.theme_dark", "Oscuro");
   ("settings.theme_auto", "Automático");
   ("settings.theme_hint", "El modo automático sigue el esquema de color claro u oscuro de tu sistema operativo.");
   ("settings.log_level", "Nivel de registro");
   ("settings.rate_limiting", "Limitación de velocidad");
   ("settings.rate_limit_hint", "La limitación de velocidad está deshabilitada por defecto. Actívala para proteger al resolvedor contra inundaciones de solicitudes y altas tasas de consulta.");
   ("settings.rate_limit_enabled", "Habilitar limitación de velocidad");
   ("settings.rate_limit_global_qps", "Consultas globales por segundo")].

Definition es_2 : list (string * string) :=
  [("settings.rate_limit_client_qps", "Consultas por segundo por cliente");
   ("settings.rate_limit_burst", "Tolerancia de ráfaga");
   ("settings.rate_limit_rejected_total", "Consultas rechazadas");
   ("settings.rate_limit_last_rejected", "Último rechazo");
   ("settings.save", "Guardar");
   ("settings.rate_limit_load_failed", "No se pudieron cargar las configuraciones de limitación de velocidad");
   ("settings.rate_limit_save_failed", "No se pudieron guardar las configuraciones de limitación de velocidad");
   ("settings.rate_limit_saved", "Configuración de limitación de velocidad guardada.");
   ("settings.rate_limit_loading", "Cargando configuración de limitación de velocidad…");
   ("settings.edit_hint", "Estas configuraciones corresponden a las opciones del instalador rápido. Algunos cambios requieren un reinicio; los cambios de TTL de caché se aplican de inmediato.");
   ("settings.dns_section", "Configuración DNS");
   ("settings.cache_section", "Caché DNS");
   ("settings.cache_ttl_label", "TTL de caché de respuestas upstream (segundos)");
   ("settings.cache_ttl_hint", "86400 segundos = 24 horas. Rango: 0–604800 segundos; 0 usa el TTL original de cada upstream. Los cambios en upstream pueden tardar en reflejarse. Cambiar esto limpia las respuestas en caché existentes. Las respuestas con TTL cero y DNSSEC firmado conservan su TTL original.");
   ("settings.cache_ttl_invalid", "Ingresa un número entero de 0 a 604800 segundos.");
   ("settings.dns_listen_label", "Direcciones de escucha DNS (separadas por comas)");
   ("settings.dns_listen_warning", "Advertencia: 0.0.0.0 expone el DNS a tu red. Asegúrate de que el firewall permita solo clientes de confianza.");
   ("settings.upstreams_label", "Servidores DNS upstream (separados por comas)");
   ("settings.upstreams_hint", "Formato: IP:PUERTO (ej. 1.1.1.1:53). Los upstreams DoH usan https://host/dns-query");
   ("settings.allowed_clients_label", "Redes de clientes permitidas (CIDRs separados por comas)");
   ("settings.allowed_clients_hint", "Solo estas redes pueden consultar al resolvedor. Ejemplo: 192.168.1.0/24, 10.0.0.0/8");
   ("settings.web_section", "Configuración de la interfaz web");
   ("settings.web_listen_label", "Dirección de escucha de la interfaz web (IP:puerto)");
   ("settings.web_listen_warning", "Advertencia: 0.0.0.0 expone la interfaz web a tu red. Usa un firewall o autenticación.");
   ("settings.allowed_hosts_label", "Hosts permitidos (separados por comas)");
   ("settings.allowed_hosts_hint", "Cabeceras de host permitidas para acceder a la API de administración. Usa * para permitir todas (no recomendado en una LAN).");
   ("settings.logging_section", "Registros y otros");
   ("settings.enable_query_log", "Habilitar registro de consultas");
   ("settings.save_configuration", "Guardar configuración");
   ("settings.saving", "Guardando…");
   ("settings.save_success", "Configuración guardada y aplicada.");
   ("settings.save_failed", "Error al guardar la configuración");
   ("dashboard.total_queries", "Consultas totales");
   ("dashboard.since_start", "Desde el último reinicio de estadísticas");
   ("dashboard.reset_statistics", "Restablecer estadísticas");
   ("dashboard.reset_confirm", "¿Restablecer todos los contadores de consultas, caché y límites de tasa? Esta acción no se puede deshacer.");
   ("dashboard.reset_failed", "No se pudieron restablecer las estadísticas");
   ("dashboard.qps", "Consultas / segundo");
   ("dashboard.rolling_avg", "Promedio móvil de 60 segundos");
   ("dashboard.cache_hit_rate", "Tasa de aciertos de caché");
   ("dashboard.answers_from_memory", "respuestas servidas desde la memoria");
   ("dashboard.uptime", "Tiempo de actividad");
   ("dashboard.process_lifetime", "Tiempo de vida del proceso actual");
   ("dashboard.top_domains", "Principales dominios");
   ("dashboard.top_clients", "Principales clientes");
   ("dashboard.query_activity", "Actividad de consultas");
   ("dashboard.live_samples", "Muestras en vivo de tu resolvedor");
   ("dashboard.refresh_5s", "Actualización cada 5s");
   ("dashboard.queries_per_sec", "consultas / seg");
   ("dashboard.chart_aria", "Tasa de consultas muestreada durante esta sesión del navegador");
   ("dashboard.session_samples", "Muestras de la sesión");
   ("dashboard.now", "Ahora");
   ("dashboard.upstream_resolvers", "Resolvedores upstream");
   ("dashboard.ordered_failover", "Failover ordenado con respaldo TCP");
   ("dashboard.endpoint", "Endpoint");
   ("dashboard.health", "Estado");
   ("dashboard.upstream_unknown", "Desconocido");
   ("dashboard.upstream_healthy", "Saludable");
   ("dashboard.upstream_degraded", "Degradado");
   ("dashboard.upstream_unavailable", "No disponible");
   ("dashboard.priority", "Prioridad");
   ("dashboard.attempt_timeout", "Tiempo de espera del intento");
   ("dashboard.primary", "Principal");
   ("dashboard.fallback", "Respaldo");
   ("dashboard.config_shown", "Configuración mostrada. La accesibilidad se evalúa en cada consulta.");
   ("dashboard.retained_last_24h", "Consultas retenidas durante las últimas 24 horas");
   ("dashboard.unavailable_no_logging", "No disponible mientras el registro de consultas está deshabilitado.");
   ("dashboard.loading_stats", "Cargando estadísticas de consultas…");
   ("dashboard.stats_load_failed", "No se pudieron cargar las estadísticas de consultas");
   ("dashboard.no_retained", "No hay consultas retenidas en esta ventana.");
   ("cache.live_entries", "Entradas en vivo");
   ("cache.capacity", "Capacidad");
   ("cache.hits", "Aciertos de caché");
   ("cache.since_startup", "Desde el inicio del proceso");
   ("cache.misses", "Fallos de caché");
   ("cache.includes_uncacheable", "Incluye solicitudes no cacheables");
   ("cache.memory_cache", "Caché en memoria");
   ("cache.description", "Las respuestas upstream positivas usan el TTL de caché configurado. Las respuestas con TTL cero, DNSSEC firmado y negativas conservan sus reglas originales. Las entradas menos usadas se eliminan al alcanzar la capacidad. El contenido de la caché nunca se almacena en SQLite.");
   ("cache.clear_description", "Limpiar la caché elimina todas las respuestas actuales. Los contadores de aciertos y fallos se mantienen.");
   ("cache.clearing", "Limpiando…");
   ("cache.clear", "Limpiar caché");
   ("cache.cleared", "Caché limpiada. Las zonas locales permanecen activas; otras consultas usarán los resolvedores upstream.");
   ("cache.flush_failed", "Error al vaciar la caché");
   ("cache.entries_title", "Entradas DNS en caché");
   ("cache.entries_description", "Respuestas actuales, las más usadas primero.");
   ("cache.entries_loading", "Cargando entradas de caché…");
   ("cache.entries_load_failed", "No se pudieron cargar las entradas de caché");
   ("cache.entries_empty", "La caché está vacía.");
   ("cache.entries_scroll_hint", "Desplázate horizontalmente para ver todas las columnas.");
   ("cache.entry_name", "Nombre");
   ("cache.entry_type", "Tipo");
   ("cache.entry_answer", "Respuesta");
   ("cache.entry_status", "Estado");
   ("cache.entry_ttl", "TTL restante");
   ("cache.seconds", "s");
   ("cache.previous", "Anterior");
   ("cache.next", "Siguiente");
   ("querylog.unavailable_title", "Historial de consultas no disponible");
   ("querylog.unavailable_text", "Habilita el registro de consultas para recopilar e inspeccionar la actividad DNS futura.");
   ("querylog.up_to_100", "Hasta 100 respuestas retenidas por página");
   ("querylog.refresh", "Actualizar consultas");
   ("querylog.filters_aria", "Filtros de consulta");
   ("querylog.domain", "Dominio");
   ("querylog.contains_example", "Contiene example.com");
   ("querylog.client_ip", "IP del cliente");
   ("querylog.exact_ip", "Dirección IP exacta");
   ("querylog.query_type", "Tipo de consulta");
   ("querylog.all_types", "Todos los tipos");
   ("querylog.source", "Origen");
   ("querylog.all_sources", "Todos los orígenes");
   ("querylog.apply_filters", "Aplicar filtros");
   ("querylog.show_blocked", "Mostrar consultas bloqueadas");
   ("querylog.error_stale", "Los resultados anteriores pueden estar desactualizados.");
   ("querylog.loading", "Cargando registro de consultas…");
   ("querylog.no_matches", "No se encontraron consultas");
   ("querylog.no_matches_text", "Prueba con filtros diferentes o genera tráfico DNS con el registro habilitado.");
   ("querylog.caption", "Registro de consultas DNS");
   ("querylog.col_timestamp", "Marca de tiempo");
   ("querylog.col_client", "Cliente");
   ("querylog.col_domain", "Dominio");
   ("querylog.col_type", "Tipo");
   ("querylog.col_source", "Origen");
   ("querylog.col_response", "Respuesta");
   ("querylog.col_latency", "Latencia");
   ("querylog.older", "Consultas anteriores");
   ("querylog.load_failed", "No se pudo cargar el registro de consultas");
   ("blocklists.count", "fuentes externas");
   ("blocklists.count_one", "fuente externa");
   ("blocklists.sources_label", "Fuentes de políticas DNS");
   ("blocklists.reload", "Recargar");
   ("blocklists.add_source", "Agregar fuente");
   ("blocklists.add_aria", "Agregar fuente de lista de bloqueo");
   ("blocklists.add_title", "Agregar lista de bloqueo externa");
   ("blocklists.add_text", "Solo se aceptan fuentes HTTP(S) públicas. Las actualizaciones fallidas mantienen las reglas DNS anteriores activas.");
   ("blocklists.name", "Nombre");
   ("blocklists.source_url", "URL de la fuente");
   ("blocklists.community_hosts", "Hosts comunitarios");
   ("blocklists.adding", "Agregando…");
   ("blocklists.cancel", "Cancelar");
   ("blocklists.loading", "Cargando fuentes de listas de bloqueo…");
   ("blocklists.empty_title", "Sin listas de bloqueo externas");
   ("blocklists.empty_text", "Agrega una lista pública de hosts o dominios de confianza para aplicar bloqueos DNS.");
   ("blocklists.caption", "Fuentes de listas de bloqueo externas");
   ("blocklists.col_source", "Fuente");
   ("blocklists.col_status", "Estado");
   ("blocklists.col_last_update", "Última actualización");
   ("blocklists.update_failed", "Error en la actualización");
   ("blocklists.active", "ACTIVO")].

Definition es_3 : list (string * string) :=
  [("blocklists.disabled", "DESACTIVADO");
   ("blocklists.never", "Nunca");
   ("blocklists.updating", "Actualizando…");
   ("blocklists.update", "Actualizar");
   ("blocklists.load_failed", "No se pudieron cargar las listas de bloqueo");
   ("blocklists.add_failed", "No se pudo agregar la fuente");
   ("blocklists.update_failed_msg", "No se pudo actualizar la fuente");
   ("blocklists.col_domains", "Dominios");
   ("blocklists.local", "Local");
   ("blocklists.enable", "Habilitar");
   ("blocklists.disable", "Deshabilitar");
   ("blocklists.toggle_failed", "No se pudo cambiar el estado de la fuente");
   ("blocklists.edit_content", "Editar contenido");
   ("blocklists.edit_content_aria", "Editar contenido de la lista de bloqueo");
   ("blocklists.edit_content_title", "Editar dominios de la lista de bloqueo");
   ("blocklists.edit_content_text", "Ingresa un dominio por línea. Las líneas que comienzan con 0.0.0.0 o un comentario se tratan como entradas de host.");
   ("blocklists.domains_label", "Dominios");
   ("blocklists.saving", "Guardando…");
   ("blocklists.save", "Guardar");
   ("blocklists.content_save_failed", "No se pudo guardar el contenido");
   ("blocklists.delete", "Eliminar");
   ("blocklists.confirm_delete", "Confirmar");
   ("blocklists.delete_failed", "No se pudo eliminar la fuente");
   ("zones.count", "zonas locales");
   ("zones.count_one", "zona local");
   ("zones.local_authority", "Autoridad local");
   ("zones.reload", "Recargar zonas");
   ("zones.add_zone", "Agregar zona");
   ("zones.error_stale", "Mostrando las últimas zonas cargadas. Recarga antes de hacer cambios.");
   ("zones.error_retry", "Recarga para intentar de nuevo.");
   ("zones.reload_before_retry", "Recarga las zonas antes de reintentar.");
   ("zones.loading", "Cargando zonas locales…");
   ("zones.empty_title", "Dale a tu red nombres familiares");
   ("zones.empty_text", "Crea una zona como home.arpa, luego agrega registros para tu enrutador, servicios y dispositivos.");
   ("zones.create_first", "Crea tu primera zona");
   ("zones.filter_aria", "Filtrar zonas");
   ("zones.filter_placeholder", "Buscar una zona…");
   ("zones.nav_aria", "Zonas locales");
   ("zones.records_custom", "registros personalizados");
   ("zones.no_matching", "No hay zonas que coincidan.");
   ("zones.authoritative_eyebrow", "ZONA AUTORITATIVA");
   ("zones.revision", "Revisión");
   ("zones.add_record", "Agregar registro");
   ("zones.delete_zone_aria", "Eliminar zona");
   ("zones.primary_ns", "NS primario");
   ("zones.contact", "Contacto");
   ("zones.delete_record_confirm", "Eliminar registro");
   ("zones.delete_zone_confirm", "y todos los");
   ("zones.delete_zone_confirm2", "registros? Esto no se puede deshacer.");
   ("zones.deleting", "Eliminando…");
   ("zones.delete_record_perm", "Eliminar registro permanentemente");
   ("zones.delete_zone_perm", "Eliminar zona permanentemente");
   ("zones.cancel_deletion", "Cancelar eliminación");
   ("zones.record_saved", "Registro guardado. Los cambios DNS están activos.");
   ("zones.record_deleted", "Registro eliminado. Los cambios DNS están activos.");
   ("zones.zone_deleted", "Zona y sus registros eliminados.");
   ("zones.zone_created", "Zona creada. Agrega registros para comenzar a usarla.");
   ("zones.delete_failed", "No se pudo eliminar");
   ("zones.footnote", "Las respuestas locales tienen prioridad sobre el reenvío. Los dispositivos pueden retener respuestas anteriores hasta que expire su TTL.");
   ("zones.record_form_edit_aria", "Editar registro DNS");
   ("zones.record_form_add_aria", "Agregar registro DNS");
   ("zones.edit_record", "Editar registro");
   ("zones.add_record_form", "Agregar registro");
   ("zones.changes_apply", "Los cambios se aplican a");
   ("zones.record_name", "Nombre del registro");
   ("zones.router_or_at", "router o @");
   ("zones.relative_name_hint", "Nombre relativo, @ para la zona, o un nombre absoluto que termine en punto.");
   ("zones.record_type", "Tipo de registro");
   ("zones.ttl_seconds", "TTL (segundos)");
   ("zones.priority", "Prioridad");
   ("zones.ipv4_address", "Dirección IPv4");
   ("zones.ipv6_address", "Dirección IPv6");
   ("zones.text_value", "Valor de texto");
   ("zones.target_hostname", "Hostname de destino");
   ("zones.invalid_ttl", "Ingresa valores válidos de TTL y prioridad.");
   ("zones.record_conflict", "Esta zona cambió en otro lugar. Tu borrador está sin cambios. Cierra este formulario y recarga las zonas antes de reintentar.");
   ("zones.save_failed", "No se pudo guardar el registro");
   ("zones.saving", "Guardando…");
   ("zones.save_record", "Guardar registro");
   ("zones.cancel", "Cancelar");
   ("zones.no_records_title", "Aún no hay registros personalizados");
   ("zones.no_records_text", "Agrega tu primer registro. SOA y el NS de respaldo se gestionan automáticamente.");
   ("zones.records_aria", "Registros DNS para");
   ("zones.col_name", "Nombre");
   ("zones.col_type", "Tipo");
   ("zones.col_value", "Valor");
   ("zones.col_ttl", "TTL");
   ("zones.col_actions", "Acciones");
   ("zones.edit_aria", "Editar");
   ("zones.delete_aria", "Eliminar");
   ("zones.record_word", "registro");
   ("zones.create_title", "Crear una zona local");
   ("zones.create_text", "Velora responderá para esta zona y mantendrá los nombres desconocidos dentro de tu red.");
   ("zones.zone_name", "Nombre de la zona");
   ("zones.authority_settings", "Configuración de autoridad");
   ("zones.primary_nameserver", "Servidor de nombres primario");
   ("zones.contact_mailbox", "Contacto (bandeja DNS)");
   ("zones.creating", "Creando…");
   ("zones.create_zone", "Crear zona");
   ("zones.create_zone_aria", "Crear zona DNS");
   ("zones.create_failed", "No se pudo crear la zona");
   ("zones.load_failed", "No se pudieron cargar las zonas");
   ("updates.loading", "Cargando estado de actualización...");
   ("updates.viewer_readonly", "Has iniciado sesión como espectador. Las solicitudes de actualización son de solo lectura.");
   ("updates.in_progress", "Actualización en progreso...");
   ("updates.history", "Historial de actualizaciones");
   ("updates.no_history", "No hay actualizaciones registradas aún.");
   ("updates.col_from", "Desde");
   ("updates.col_to", "Hasta");
   ("updates.col_state", "Estado");
   ("updates.col_started", "Iniciada");
   ("updates.state_idle", "Inactiva");
   ("updates.state_downloading", "Descargando");
   ("updates.state_verifying", "Verificando");
   ("updates.state_installing", "Instalando");
   ("updates.state_readiness", "Esperando disponibilidad");
   ("updates.state_completed", "Completada");
   ("updates.state_rolled_back", "Revertida");
   ("updates.state_failed", "Fallida");
   ("updates.load_failed", "Error al cargar el estado de actualización");
   ("updates.request_failed", "Error al solicitar actualización");
   ("updates.check", "Check for updates");
   ("updates.available", "Update available");
   ("updates.up_to_date", "The system is up to date.");
   ("updates.progress", "Update progress");
   ("updates.rollback_used", "The previous version was restored.");
   ("updates.rollback_recovered", "The previous version was restored and is healthy.");
   ("backup.sqlite_only", "La exportación cifrada solo admite instalaciones SQLite por ahora.");
   ("backup.create_title", "Copia cifrada");
   ("backup.create_hint", "Descarga una copia versionada de la configuración y los datos persistentes. Guarda la contraseña.");
   ("backup.passphrase", "Contraseña");
   ("backup.creating", "Creando…");
   ("backup.create", "Crear y descargar");
   ("backup.create_failed", "No se pudo crear la copia");
   ("backup.restore_hint", "Restaura el archivo cifrado con el servicio detenido. El comando conserva una copia de seguridad de la instalación actual.");
   ("backup.loading", "Cargando estado de copia de seguridad...");
   ("backup.status_title", "Estado de la copia de seguridad");
   ("backup.database", "Base de datos:");
   ("backup.last_backup", "Última copia:");
   ("backup.no_backup", "No hay copia de seguridad registrada aún");
   ("backup.verification_state", "Estado de verificación:");
   ("backup.state_unknown", "Desconocido");
   ("backup.state_unverified", "No verificada");
   ("backup.state_verified", "Verificada");
   ("backup.verify_title", "Verificar copia de seguridad");
   ("backup.verify_text", "Coloca una copia de la seguridad junto a la base de datos del servidor para verificar su integridad.");
   ("backup.file_name", "Nombre del archivo de copia");
   ("backup.file_hint", "Coloca la copia de seguridad junto a la base de datos en el servidor Velora. Solo se usa el nombre del archivo; los archivos del navegador y otros directorios no pueden verificarse aquí.");
   ("backup.viewer_readonly", "Has iniciado sesión como espectador. La verificación de copias de seguridad es de solo lectura.");
   ("backup.verifying", "Verificando...");
   ("backup.verify", "Verificar");
   ("backup.valid", "La copia de seguridad es válida")].

Definition es_4 : list (string * string) :=
  [("backup.invalid", "La copia de seguridad no es válida");
   ("backup.schema_version", "Versión del esquema:");
   ("backup.records", "Registros:");
   ("backup.instructions", "Restaurar desde la línea de comandos");
   ("backup.native", "Instalación nativa");
   ("backup.docker", "Docker Compose");
   ("backup.online", "Copia de seguridad en línea (SQLite)");
   ("backup.load_failed", "Error al cargar el estado de copia de seguridad");
   ("backup.verify_failed", "La verificación falló");
   ("backup.step_stop_service", "Detener el servicio");
   ("backup.step_create_backup", "Crear una copia consistente");
   ("backup.step_restart_service", "Reiniciar el servicio");
   ("backup.step_stop_container", "Detener el contenedor");
   ("backup.step_backup_volume", "Respaldar el volumen");
   ("backup.step_restart_container", "Reiniciar el contenedor");
   ("backup.step_online_backup", "Usar la API de SQLite para una copia en línea consistente");
   ("onboarding.welcome", "Bienvenido a Velora DNS");
   ("onboarding.complete_steps", "Completa estos pasos para asegurar tu instalación");
   ("onboarding.dismiss", "Omitir");
   ("onboarding.change_credentials", "Cambiar credenciales iniciales");
   ("onboarding.change_credentials_text", "La contraseña de administrador predeterminada debe cambiarse después del primer inicio de sesión.");
   ("onboarding.review_dns", "Revisar configuración DNS");
   ("onboarding.review_dns_text", "Asegúrate de que los servidores upstream y los clientes permitidos estén correctamente configurados para tu red.");
   ("onboarding.restrict_clients", "Restringir acceso de clientes");
   ("onboarding.restrict_clients_text", "Configura los CIDRs de allowed_clients para limitar qué redes pueden usar tu resolvedor.");
   ("onboarding.verify_db", "Verificar almacenamiento de la base de datos");
   ("onboarding.verify_db_text", "Asegúrate de que la ruta de la base de datos esté en un almacenamiento confiable con espacio suficiente.");
   ("onboarding.update_policy", "Configurar política de actualizaciones");
   ("onboarding.update_policy_text", "Revisa el centro de actualizaciones para entender cómo mantener tu instalación actualizada.");
   ("app.nav.dhcp", "DHCP");
   ("app.title.dhcp", "Servidor DHCP");
   ("dhcp.loading", "Cargando datos de DHCP…");
   ("dhcp.load_failed", "Unable to load DHCP data");
   ("dhcp.create_pool_failed", "Unable to create pool");
   ("dhcp.delete_pool_failed", "Unable to delete pool");
   ("dhcp.create_reservation_failed", "Unable to create reservation");
   ("dhcp.delete_reservation_failed", "Unable to delete reservation");
   ("dhcp.delete_lease_failed", "Unable to delete lease");
   ("dhcp.pools", "Pools de DHCP");
   ("dhcp.add_pool", "Agregar pool");
   ("dhcp.pool_name", "Nombre del pool");
   ("dhcp.interface", "Interfaz");
   ("dhcp.subnet_cidr", "Subred (CIDR)");
   ("dhcp.subnet", "Subred");
   ("dhcp.gateway", "Puerta de enlace");
   ("dhcp.dns_servers", "Servidores DNS");
   ("dhcp.lease_seconds", "Tiempo de concesión (segundos)");
   ("dhcp.leases_label", "Concesiones");
   ("dhcp.create", "Crear");
   ("dhcp.no_pools", "No hay pools de DHCP configurados. Crea uno para comenzar a asignar concesiones.");
   ("dhcp.reservations", "Reservas estáticas");
   ("dhcp.mac_address", "Dirección MAC");
   ("dhcp.ip_address", "Dirección IP");
   ("dhcp.hostname", "Hostname");
   ("dhcp.add", "Agregar");
   ("dhcp.active_leases", "Concesiones activas");
   ("dhcp.expires", "Expira");
   ("dhcp.no_leases", "No hay concesiones activas.");
   ("dhcp.expired", "Expirada");
   ("dhcp.confirm_delete_pool", "¿Eliminar este pool y todas sus reservas?");
   ("dhcp.name", "Nombre");
   ("app.nav.cluster", "Clúster");
   ("app.title.cluster", "Resumen del clúster");
   ("cluster.loading", "Cargando datos del clúster…");
   ("cluster.load_failed", "Unable to load cluster data");
   ("cluster.name", "Nombre");
   ("cluster.status", "Estado");
   ("cluster.version", "Versión");
   ("cluster.last_seen", "Última conexión");
   ("cluster.config_history", "Historial de configuración");
   ("cluster.no_versions", "No hay versiones de configuración registradas.");
   ("cluster.hash", "Hash");
   ("cluster.applied_by", "Aplicado por");
   ("cluster.applied_at", "Aplicado el");
   ("app.nav.group_dns", "DNS");
   ("app.nav.group_network", "Red");
   ("app.nav.group_system", "Sistema");
   ("app.menu_open", "Abrir navegación");
   ("app.menu_close", "Cerrar navegación");
   ("app.theme_to_dark", "Cambiar al tema oscuro");
   ("app.theme_to_light", "Cambiar al tema claro");
   ("app.signed_in_as", "Sesión iniciada como");
   ("app.subtitle.zones", "Nombres autoritativos para dispositivos y servicios de tu red.");
   ("app.subtitle.queries", "Consultas recientes respondidas por este resolver.");
   ("app.subtitle.blocklists", "Listas de dominios que se responden como bloqueados.");
   ("app.subtitle.cache", "Respuestas guardadas en memoria para acelerar consultas repetidas.");
   ("app.subtitle.settings", "Resolver, interfaz web y preferencias personales.");
   ("app.subtitle.updates", "Versión instalada, versiones disponibles e historial de actualizaciones.");
   ("app.subtitle.backup", "Crea copias de seguridad cifradas y verifica las existentes.");
   ("app.subtitle.dhcp", "Rangos de direcciones, reservas y concesiones activas.");
   ("app.subtitle.cluster", "Mantén las zonas locales idénticas en varios servidores Velora DNS.");
   ("app.subtitle.diagnostics", "Estado de los componentes y un informe de soporte para compartir.");
   ("app.subtitle.events", "Cosas que requieren tu atención.");
   ("app.subtitle.audit", "Quién cambió qué y cuándo.");
   ("settings.preferences", "Preferencias");
   ("dashboard.general_statistics", "Estadísticas generales");
   ("dashboard.blocked", "Bloqueadas por filtros");
   ("dashboard.of_all_queries", "de todas las consultas");
   ("dashboard.query_logging", "Registro de consultas");
   ("dashboard.enabled", "Activado");
   ("dashboard.disabled", "Desactivado");
   ("dashboard.requests", "Solicitudes");
   ("dashboard.domain", "Dominio");
   ("dashboard.client", "Cliente");
   ("dashboard.upstream_servers", "Servidores upstream");
   ("dashboard.collecting_samples", "Recopilando muestras…");
   ("cache.search_label", "Buscar por nombre");
   ("cache.search_placeholder", "example.org");
   ("cache.all_types", "Todos los tipos");
   ("cache.remove_entry", "Quitar de la caché");
   ("cache.invalidate_title", "Invalidar un dominio");
   ("cache.invalidate_text", "Quita las respuestas en caché de un nombre sin vaciar toda la caché.");
   ("cache.domain", "Dominio");
   ("cache.include_subdomains", "Incluir subdominios");
   ("cache.invalidate", "Invalidar");
   ("cache.removed_entries", "Entradas eliminadas de la caché");
   ("cache.invalidate_failed", "La invalidación falló");
   ("cache.flush_confirm", "¿Borrar todas las respuestas en caché? Se conservan los contadores de aciertos y fallos.");
   ("cache.no_matches", "Ninguna entrada coincide con este filtro.");
   ("blocklists.schedule", "Programación de actualización");
   ("blocklists.schedule_for", "Programación de actualización de");
   ("blocklists.manual", "Manual");
   ("blocklists.every_1h", "Cada hora");
   ("blocklists.every_6h", "Cada 6 horas");
   ("blocklists.every_12h", "Cada 12 horas");
   ("blocklists.every_24h", "Diariamente");
   ("blocklists.every_7d", "Semanalmente");
   ("blocklists.col_next_update", "Próxima actualización");
   ("blocklists.due_now", "Pendiente ahora");
   ("blocklists.never_updated", "Nunca actualizada");
   ("blocklists.retry_count", "intentos fallidos");
   ("blocklists.schedule_failed", "No se pudo cambiar la programación");
   ("app.nav.forwarding", "Reenvío condicional");
   ("app.title.forwarding", "Reenvío condicional");
   ("app.subtitle.forwarding", "Envía las consultas de dominios seleccionados a resolvers dedicados.");
   ("forwarding.count", "reglas de reenvío");
   ("forwarding.add", "Añadir regla");
   ("forwarding.add_title", "Nueva regla de reenvío");
   ("forwarding.edit_title", "Editar regla de reenvío");
   ("forwarding.form_hint", "La regla también cubre todos los nombres bajo el dominio. Gana la regla activa más específica.");
   ("forwarding.domain", "Dominio");
   ("forwarding.upstreams", "Resolvers");
   ("forwarding.upstreams_hint", "De 1 a 4 direcciones como IP o IP:puerto, separadas por comas. Se usa el puerto 53 si se omite.");
   ("forwarding.description", "Descripción");
   ("forwarding.enabled", "Activada");
   ("forwarding.save", "Guardar regla");
   ("forwarding.cancel", "Cancelar")].

Definition es_5 : list (string * string) :=
  [("forwarding.empty_title", "No hay reglas de reenvío");
   ("forwarding.empty_text", "Todas las consultas usan los resolvers globales. Añade una regla para resolver un dominio como corp.example mediante un servidor DNS interno.");
   ("forwarding.col_status", "Estado");
   ("forwarding.test", "Probar");
   ("forwarding.test_title", "Probar regla");
   ("forwarding.test_hint", "Envía una consulta solo por los resolvers de esta regla, sin caché.");
   ("forwarding.test_name", "Nombre");
   ("forwarding.test_type", "Tipo");
   ("forwarding.run_test", "Ejecutar prueba");
   ("forwarding.test_via", "vía");
   ("forwarding.no_answers", "Sin registros de respuesta");
   ("forwarding.edit", "Editar");
   ("forwarding.delete", "Eliminar");
   ("forwarding.delete_confirm", "¿Eliminar la regla de reenvío de");
   ("forwarding.toggle", "Activar o desactivar la regla de");
   ("forwarding.load_failed", "No se pudieron cargar las reglas");
   ("forwarding.save_failed", "No se pudo guardar la regla");
   ("forwarding.saved", "Regla guardada. Se borraron las respuestas en caché del dominio.");
   ("forwarding.disabled", "Desactivada");
   ("app.nav.rewrites", "Reescrituras DNS");
   ("app.title.rewrites", "Reescrituras DNS");
   ("app.subtitle.rewrites", "Responde nombres elegidos con direcciones o alias fijos.");
   ("rewrites.count", "reescrituras");
   ("rewrites.add", "Añadir reescritura");
   ("rewrites.add_title", "Nueva reescritura");
   ("rewrites.edit_title", "Editar reescritura");
   ("rewrites.form_hint", "Usa *.padre para todos los nombres bajo un dominio. Los nombres exactos ganan a los comodines.");
   ("rewrites.name", "Nombre");
   ("rewrites.type", "Tipo");
   ("rewrites.value", "Respuesta");
   ("rewrites.value_hint_A", "Dirección IPv4");
   ("rewrites.value_hint_AAAA", "Dirección IPv6");
   ("rewrites.value_hint_CNAME", "Nombre de host destino, resuelto normalmente");
   ("rewrites.description", "Descripción");
   ("rewrites.enabled", "Activada");
   ("rewrites.save", "Guardar reescritura");
   ("rewrites.empty_title", "No hay reescrituras DNS");
   ("rewrites.empty_text", "Asigna un nombre como nas.home a una dirección sin crear una zona.");
   ("rewrites.col_notes", "Notas");
   ("rewrites.blocked_hint", "Bloqueado primero por una lista de bloqueo");
   ("rewrites.overrides_hint", "Sustituye la zona local");
   ("rewrites.edit", "Editar");
   ("rewrites.delete", "Eliminar");
   ("rewrites.delete_confirm", "¿Eliminar esta reescritura?");
   ("rewrites.toggle", "Activar o desactivar la reescritura de");
   ("rewrites.search", "Filtrar reescrituras");
   ("rewrites.load_failed", "No se pudieron cargar las reescrituras");
   ("rewrites.save_failed", "No se pudo guardar la reescritura");
   ("rewrites.saved", "Reescritura guardada y aplicada.");
   ("app.nav.clients", "Clientes");
   ("app.title.clients", "Clientes y dispositivos");
   ("app.subtitle.clients", "Asigna nombres a direcciones y redes que se usan en todo Velora.");
   ("clients.count", "clientes");
   ("clients.add", "Añadir cliente");
   ("clients.add_title", "Nuevo cliente");
   ("clients.edit_title", "Editar cliente");
   ("clients.form_hint", "Si las redes se solapan, gana la más específica. Asigna una dirección fija a los dispositivos DHCP antes de nombrarlos.");
   ("clients.name", "Nombre");
   ("clients.addresses", "Direcciones");
   ("clients.addresses_hint", "Direcciones IP o redes CIDR, separadas por comas.");
   ("clients.group", "Grupo");
   ("clients.description", "Descripción");
   ("clients.enabled", "Activado");
   ("clients.save", "Guardar cliente");
   ("clients.activity", "Últimas 24 horas");
   ("clients.queries", "consultas");
   ("clients.last_seen", "Visto por última vez");
   ("clients.no_activity", "Sin consultas");
   ("clients.view_queries", "Ver consultas");
   ("clients.empty_title", "No hay clientes con nombre");
   ("clients.empty_text", "Nombra dispositivos como una TV o Home Assistant para reconocerlos en el registro de consultas.");
   ("clients.unnamed_title", "Vistos recientemente sin nombre");
   ("clients.unnamed_text", "Direcciones más activas de las últimas 24 horas sin cliente.");
   ("clients.name_it", "Nombrar dispositivo");
   ("clients.edit", "Editar");
   ("clients.delete", "Eliminar");
   ("clients.delete_confirm", "¿Eliminar el cliente");
   ("clients.toggle", "Activar o desactivar el cliente");
   ("clients.load_failed", "No se pudieron cargar los clientes");
   ("clients.save_failed", "No se pudo guardar el cliente");
   ("clients.saved", "Cliente guardado.");
   ("clients.logging_off", "Activa el registro de consultas para ver la actividad.");
   ("app.nav.policies", "Políticas por cliente");
   ("app.title.policies", "Políticas de filtrado por cliente");
   ("app.subtitle.policies", "Elige cómo se aplica el bloqueo a cada cliente.");
   ("policies.load_failed", "No se pudieron cargar las políticas.");
   ("policies.save_failed", "No se pudo guardar la política.");
   ("policies.saved", "Política guardada.");
   ("policies.lookup", "Comprobar dirección");
   ("policies.add", "Añadir política");
   ("policies.add_title", "Nueva política");
   ("policies.edit_title", "Editar política");
   ("policies.form_hint", "La red de cliente más específica decide qué política usa una dirección.");
   ("policies.client", "Cliente");
   ("policies.mode", "Filtrado");
   ("policies.mode_default", "Global");
   ("policies.mode_disabled", "Sin filtrado");
   ("policies.mode_custom", "Personalizado");
   ("policies.mode_default_hint", "Las mismas listas de bloqueo y permitidos que el resto.");
   ("policies.mode_disabled_hint", "No se bloquea nada para este cliente.");
   ("policies.mode_custom_hint", "Solo las listas elegidas y tus propios dominios.");
   ("policies.blocklists", "Listas de bloqueo");
   ("policies.no_sources", "Aún no hay listas de bloqueo.");
   ("policies.globally_off", "desactivada globalmente");
   ("policies.block", "Bloquear también");
   ("policies.allow", "Permitir siempre");
   ("policies.domains_hint", "Un dominio por línea; incluye subdominios.");
   ("policies.allow_hint", "Tiene prioridad sobre todas las listas para este cliente.");
   ("policies.enabled", "Política activa");
   ("policies.save", "Guardar política");
   ("policies.empty_title", "No hay políticas por cliente");
   ("policies.empty_text", "Todos los clientes usan las listas globales. Añade una política para filtrar un dispositivo de forma más estricta, más laxa o nada.");
   ("policies.need_clients", "Las políticas se aplican a clientes con nombre. Primero nombra un dispositivo:");
   ("policies.details", "Detalles");
   ("policies.summary_disabled", "Todas las consultas se responden sin filtrar");
   ("policies.summary_default", "Usa las listas globales");
   ("policies.no_lists", "Sin listas");
   ("policies.blocked_short", "bloqueados");
   ("policies.allowed_short", "permitidos");
   ("policies.paused", "En pausa");
   ("policies.toggle", "Política activa");
   ("policies.edit", "Editar política");
   ("policies.delete", "Eliminar política");
   ("policies.delete_confirm", "¿Eliminar la política de");
   ("policies.no_policy", "(sin política, filtrado global)");
   ("policies.unknown_address", "no coincide con ningún cliente y usa el filtrado global.");
   ("app.nav.webhooks", "Webhooks");
   ("app.title.webhooks", "Notificaciones por webhook");
   ("app.subtitle.webhooks", "Envía eventos importantes a otros sistemas.");
   ("webhooks.load_failed", "No se pudieron cargar los webhooks.");
   ("webhooks.save_failed", "No se pudo guardar el webhook.");
   ("webhooks.saved", "Webhook guardado.");
   ("webhooks.count", "webhooks");
   ("webhooks.add", "Añadir webhook");
   ("webhooks.add_title", "Nuevo webhook");
   ("webhooks.edit_title", "Editar webhook");
   ("webhooks.form_hint", "Velora envía una solicitud POST JSON por cada evento coincidente. El envío se hace en segundo plano y nunca retrasa las respuestas DNS.");
   ("webhooks.name", "Nombre");
   ("webhooks.url", "URL");
   ("webhooks.min_severity", "Gravedad mínima");
   ("webhooks.severity_info", "Información");
   ("webhooks.severity_warning", "Advertencia");
   ("webhooks.severity_critical", "Crítico");
   ("webhooks.token", "Token bearer");
   ("webhooks.token_hint", "Opcional. Se envía como cabecera Authorization y no vuelve a mostrarse.");
   ("webhooks.token_stored", "Token guardado");
   ("webhooks.token_change", "Cambiar");
   ("webhooks.token_remove_hint", "Déjalo vacío para quitar el token")].

Definition es_6 : list (string * string) :=
  [("webhooks.events", "Eventos");
   ("webhooks.events_hint", "No selecciones ninguno para recibir todos los tipos.");
   ("webhooks.all_events", "Todos los eventos");
   ("webhooks.allow_private", "Permitir destino en red privada (por ejemplo Home Assistant en tu LAN)");
   ("webhooks.enabled", "Webhook activo");
   ("webhooks.save", "Guardar webhook");
   ("webhooks.empty_title", "No hay webhooks");
   ("webhooks.empty_text", "Añade un webhook para saber cuándo falla un upstream, una lista no se actualiza o falla una copia.");
   ("webhooks.last_delivery", "Último envío");
   ("webhooks.never", "Aún no se ha enviado nada");
   ("webhooks.failing", "Fallando");
   ("webhooks.toggle", "Webhook activo");
   ("webhooks.test", "Enviar prueba");
   ("webhooks.test_ok", "Prueba entregada a");
   ("webhooks.test_failed", "La prueba falló para");
   ("webhooks.edit", "Editar webhook");
   ("webhooks.delete", "Eliminar webhook");
   ("webhooks.delete_confirm", "¿Eliminar el webhook");
   ("app.nav.analytics", "Analítica");
   ("app.title.analytics", "Analítica");
   ("app.subtitle.analytics", "Actividad DNS y rendimiento del resolver a partir del historial conservado.");
   ("analytics.load_failed", "No se pudo cargar la analítica.");
   ("analytics.logging_off_title", "El registro de consultas está desactivado");
   ("analytics.logging_off_text", "La analítica se basa en el historial de consultas. Activa el registro de consultas:");
   ("analytics.range", "Intervalo");
   ("analytics.range_1h", "1 hora");
   ("analytics.range_24h", "24 horas");
   ("analytics.range_7d", "7 días");
   ("analytics.range_30d", "30 días");
   ("analytics.history_limited", "El historial solo llega hasta");
   ("analytics.queries", "Consultas");
   ("analytics.blocked", "Bloqueadas");
   ("analytics.allowed", "Permitidas");
   ("analytics.cached", "Respuestas de caché");
   ("analytics.answers", "respuestas");
   ("analytics.avg_upstream", "Tiempo medio upstream");
   ("analytics.empty_title", "No hay consultas en este intervalo");
   ("analytics.empty_text", "Elige un intervalo más largo o vuelve cuando haya consultas.");
   ("analytics.over_time", "Consultas en el tiempo");
   ("analytics.over_time_hint", "Pasa el ratón o usa las flechas para ver un intervalo.");
   ("analytics.chart_aria", "Consultas por intervalo, permitidas y bloqueadas");
   ("analytics.show_table", "Ver como tabla");
   ("analytics.time", "Hora");
   ("analytics.avg_time", "Tiempo medio");
   ("analytics.latency", "Tiempo de respuesta upstream");
   ("analytics.latency_hint", "Media de consultas reenviadas respondidas; los huecos indican sin tráfico upstream.");
   ("analytics.latency_aria", "Tiempo medio de respuesta upstream por intervalo");
   ("analytics.query_types", "Tipos de consulta");
   ("analytics.sources", "Respondidas por");
   ("analytics.source_upstream", "Upstream");
   ("analytics.source_cache", "Caché");
   ("analytics.source_blocked", "Bloqueadas");
   ("analytics.source_local", "Zonas locales y reescrituras");
   ("analytics.source_refused", "Rechazadas");
   ("analytics.response_codes", "Códigos de respuesta");
   ("analytics.top_blocked", "Dominios más bloqueados");
   ("analytics.nothing_blocked", "Nada bloqueado en este intervalo");
   ("analytics.upstreams", "Uso de upstreams");
   ("analytics.upstreams_hint", "Consultas reenviadas por resolver, respuestas SERVFAIL y tiempo medio.");
   ("analytics.no_upstream", "Sin tráfico upstream en este intervalo");
   ("analytics.failures", "Fallos");
   ("updates.check_prompt", "Comprueba si hay una versión más reciente.");
   ("updates.checking", "Buscando actualizaciones…");
   ("updates.starting", "Iniciando la actualización…");
   ("updates.updating_to", "Actualizando a");
   ("updates.completed_to", "Actualizado a");
   ("updates.failed_title", "La actualización no se completó");
   ("updates.failed_text", "La actualización falló. Velora sigue con la versión anterior.");
   ("updates.not_started", "El actualizador no inició la actualización. Comprueba que velora-updater.service esté activo.");
   ("updates.check_again", "Comprobar de nuevo");
   ("updates.update_now", "Actualizar");
   ("updates.reload", "Recargar página");
   ("updates.reconnecting", "Velora se está reiniciando. Esperando…");
   ("updates.keep_open", "Puedes dejar esta página abierta; se actualiza sola. El DNS sigue respondiendo con la versión actual hasta el cambio.");
   ("updates.completed_text", "La actualización terminó y superó las comprobaciones. Recarga la página para cargar la nueva interfaz.");
   ("updates.release_date", "Publicada");
   ("settings.entry", "Entrada");
   ("settings.fix_fields", "No se cambió nada. Corrige los campos marcados e inténtalo de nuevo.");
   ("settings.restart_required", "No se cambió nada. Los campos marcados requieren reiniciar: edita el archivo de configuración y reinicia Velora DNS.");
   ("settings.restart_field", "Requiere reiniciar");
   ("settings.check", "Comprobar");
   ("settings.check_ok", "La configuración es válida y puede aplicarse sin reiniciar.");
   ("restore.title", "Restaurar una copia");
   ("restore.hint", "Sube una copia cifrada para revisarla. Nada cambia hasta que confirmes; Velora se reinicia, guarda una copia de seguridad y revierte automáticamente si no puede arrancar.");
   ("restore.file", "Archivo de copia (.vdns)");
   ("restore.inspect", "Revisar copia");
   ("restore.inspecting", "Revisando…");
   ("restore.inspect_failed", "No se pudo revisar la copia.");
   ("restore.review_title", "La copia es válida");
   ("restore.created", "Creada");
   ("restore.version", "Versión de Velora");
   ("restore.schema", "Esquema de base de datos");
   ("restore.contents", "Contenido");
   ("restore.zones", "zonas");
   ("restore.records", "registros");
   ("restore.blocklists", "listas");
   ("restore.rewrites", "reescrituras");
   ("restore.forward_rules", "reglas de reenvío");
   ("restore.clients", "clientes");
   ("restore.users", "usuarios");
   ("restore.listeners", "Escucha");
   ("restore.web", "web");
   ("restore.confirm", "Sustituir la configuración y los datos actuales por esta copia. Se conserva una copia de seguridad del estado actual.");
   ("restore.restore", "Restaurar y reiniciar");
   ("restore.schedule_failed", "No se pudo iniciar la restauración.");
   ("restore.manual_restart", "La restauración está programada. Reinicia Velora DNS para aplicarla.");
   ("restore.restarting", "Velora se reinicia para aplicar la copia. Esta página se actualizará al volver.");
   ("restore.signed_out", "Velora ha vuelto con los datos restaurados. Inicia sesión con una cuenta de la copia.");
   ("restore.again", "Restaurar otra copia");
   ("restore.backup_from", "Copia del");
   ("restore.safety_copy", "Estado anterior guardado en");
   ("restore.state_completed", "Restauración completada.");
   ("restore.state_rolled_back", "Restauración revertida.");
   ("restore.state_failed", "La restauración falló.");
   ("restore.state_applied", "Restauración aplicada; esperando disponibilidad.");
   ("restore.state_pending", "Restauración programada.");
   ("restore.passphrase", "Frase de contraseña de la copia");
   ("app.scrollable_table", "se desplaza horizontalmente");
   ("palette.title", "Paleta de comandos");
   ("palette.placeholder", "Buscar páginas, zonas, registros, clientes…");
   ("palette.results", "Resultados");
   ("palette.pages", "Páginas");
   ("palette.actions", "Acciones");
   ("palette.kind_zone", "Zonas");
   ("palette.kind_record", "Registros");
   ("palette.kind_client", "Clientes");
   ("palette.kind_rewrite", "Reescrituras DNS");
   ("palette.kind_forwarding", "Reenvío condicional");
   ("palette.kind_blocklist", "Listas de bloqueo");
   ("palette.no_results", "Sin coincidencias.");
   ("palette.navigate", "navegar");
   ("palette.open", "abrir");
   ("palette.toggle", "abrir o cerrar");
   ("palette.open_button", "Buscar");
   ("palette.add_client", "Añadir cliente");
   ("palette.create_backup", "Crear copia de seguridad");
   ("cluster.action_failed", "La acción del clúster falló.");
   ("cluster.never", "nunca");
   ("cluster.role", "Rol");
   ("cluster.role_standalone", "Independiente");
   ("cluster.role_primary", "Primario del clúster");
   ("cluster.role_replica", "Réplica del clúster");
   ("cluster.replicas", "Réplicas");
   ("cluster.in_sync_count", "sincronizadas");
   ("cluster.revision", "Revisión de zonas");
   ("cluster.zones_replicated", "zonas replicadas");
   ("cluster.last_sync", "Última sincronización");
   ("cluster.sync_failed", "La última sincronización falló")].

Definition es_7 : list (string * string) :=
  [("cluster.sync_ok", "Al día con el primario");
   ("cluster.members", "Réplicas");
   ("cluster.members_hint", "Nodos que copian las zonas de este primario. Se reportan cada 30 segundos.");
   ("cluster.add_node", "Añadir nodo");
   ("cluster.token_title", "Token de unión creado");
   ("cluster.token_steps", "En el nodo nuevo, abre Clúster → Unirse a un clúster e introduce:");
   ("cluster.token_expires", "El token caduca a las");
   ("cluster.token_once", "Funciona una sola vez y no se volverá a mostrar.");
   ("cluster.copy_token", "Copiar token");
   ("cluster.copied", "Copiado");
   ("cluster.token_done", "Listo");
   ("cluster.no_members", "Aún no hay réplicas");
   ("cluster.no_members_text", "Añade un nodo para crear un token de unión para un segundo servidor Velora DNS.");
   ("cluster.status_in_sync", "Sincronizado");
   ("cluster.status_behind", "Poniéndose al día");
   ("cluster.status_stale", "No responde");
   ("cluster.status_error", "Error de sincronización");
   ("cluster.status_never_synced", "Esperando la primera sincronización");
   ("cluster.remove", "Quitar nodo");
   ("cluster.remove_confirm", "¿Quitar esta réplica? Dejará de recibir actualizaciones de zonas:");
   ("cluster.removed", "Réplica quitada.");
   ("cluster.dissolve", "Disolver clúster");
   ("cluster.dissolve_hint", "Revoca todas las réplicas y vuelve a dejar este nodo independiente. Las réplicas conservan su última copia de las zonas.");
   ("cluster.dissolve_confirm", "¿Disolver el clúster y revocar todas las réplicas?");
   ("cluster.dissolved", "El clúster se disolvió.");
   ("cluster.replica_title", "Replicando desde el primario");
   ("cluster.replica_hint", "Las zonas de este nodo se copian del primario y aquí son de solo lectura. El resto de ajustes siguen siendo locales.");
   ("cluster.replica_ok", "La replicación funciona.");
   ("cluster.sync_now", "Sincronizar ahora");
   ("cluster.leave", "Salir del clúster");
   ("cluster.leave_confirm", "¿Salir del clúster? Este nodo conserva sus zonas y vuelve a ser editable.");
   ("cluster.left", "Este nodo salió del clúster.");
   ("cluster.primary_url", "URL del primario");
   ("cluster.cluster_id", "ID del clúster");
   ("cluster.node_id", "ID del nodo");
   ("cluster.join_token", "Token de unión");
   ("cluster.standalone_title", "Este nodo es independiente");
   ("cluster.standalone_viewer", "Un administrador puede crear un clúster o unir este nodo a uno.");
   ("cluster.scope_note", "Un clúster mantiene idénticas las zonas locales en varios servidores Velora DNS: un primario acepta cambios y las réplicas los copian cada 30 segundos. No hay conmutación automática y el resto de ajustes es por nodo.");
   ("cluster.create_title", "Crear un clúster");
   ("cluster.create_hint", "Este nodo será el primario. Sus zonas se copian a todas las réplicas.");
   ("cluster.node_name", "Nombre del nodo");
   ("cluster.advertised_url", "Dirección que usan los demás nodos");
   ("cluster.advertised_hint", "La URL de la interfaz web de este nodo vista desde las réplicas.");
   ("cluster.allow_http", "Permitir HTTP sin cifrar (solo red de confianza)");
   ("cluster.skip_check", "Omitir la comprobación de accesibilidad");
   ("cluster.create", "Crear clúster");
   ("cluster.created", "Se creó el clúster. Añade un nodo para invitar una réplica.");
   ("cluster.join_title", "Unirse a un clúster");
   ("cluster.join_hint", "Convierte este nodo en réplica de un primario. Crea antes el token de unión en el primario.");
   ("cluster.join_warning", "Al unirse, las zonas locales de este nodo se sustituyen por las del primario. Los demás ajustes no cambian.");
   ("cluster.join_confirm", "¿Unirse al clúster y sustituir las zonas de este nodo por las del primario?");
   ("cluster.join", "Unirse al clúster");
   ("cluster.joined", "Este nodo se unió al clúster y está copiando las zonas del primario.");
   ("cluster.zones_read_only", "Este nodo es una réplica del clúster. Las zonas se copian del primario y solo pueden cambiarse allí.")].

Definition es : list (string * string) :=
  (es_1 ++ es_2 ++ es_3 ++ es_4 ++ es_5 ++ es_6 ++ es_7)%list.
