(* ===== verification/I18nPtBR.v ===== *)
(** * The Brazilian Portuguese catalog: web/src/i18n/pt-BR.ts

    Its entries in order, in parts of up to 148 lines of the file. *)
From S2P Require Import Prelude.
Local Open Scope string_scope.

Definition pt_BR_1 : list (string * string) :=
  [("app.skip_to_content", "Pular para o conteúdo");
   ("app.workspace_label", "ÁREA DE TRABALHO");
   ("app.nav.events", "Eventos");
   ("app.title.events", "Eventos");
   ("events.unread", "não lidos");
   ("events.empty", "Ainda não há eventos do sistema.");
   ("events.load_failed", "Não foi possível carregar os eventos");
   ("events.mark_read", "Marcar como lido");
   ("events.repeated", "Repetido");
   ("events.open", "Abrir");
   ("events.info", "Info");
   ("events.warning", "Aviso");
   ("events.critical", "Crítico");
   ("app.nav.main", "Navegação principal");
   ("app.nav.overview", "Visão geral");
   ("app.nav.zones", "Zonas locais");
   ("app.nav.queries", "Registro de consultas");
   ("app.nav.blocklists", "Listas de bloqueio");
   ("app.nav.cache", "Cache DNS");
   ("app.nav.settings", "Configurações");
   ("app.nav.updates", "Atualizações");
   ("app.nav.backup", "Backup");
   ("app.sign_out", "Sair");
   ("app.nav.audit", "Registro de auditoria");
   ("app.title.audit", "Registro de auditoria");
   ("app.nav.diagnostics", "Diagnósticos");
   ("app.title.diagnostics", "Diagnósticos");
   ("app.local_resolver", "Resolvedor local");
   ("app.self_hosted_foundation", "Auto-hospedado · Fundação");
   ("app.private_by_default", "Privado por padrão");
   ("app.privacy.query_retention", "O histórico de consultas possui um período de retenção limitado.");
   ("app.privacy.no_query_history", "O histórico de consultas não é coletado.");
   ("app.github_repo", "Repositório no GitHub");
   ("app.connecting", "Conectando…");
   ("app.workspace", "Área de trabalho");
   ("app.connection_lost", "Conexão perdida");
   ("app.resolver_online", "Resolvedor online");
   ("app.title.overview", "Visão geral da rede");
   ("app.title.zones", "Zonas locais");
   ("app.title.queries", "Registro de consultas");
   ("app.title.blocklists", "Listas de bloqueio");
   ("app.title.cache", "Cache DNS");
   ("app.title.settings", "Configurações");
   ("app.title.updates", "Atualizações");
   ("app.title.backup", "Backup e restauração");
   ("app.eyebrow", "SUA REDE DE UM OLHAR");
   ("app.subtitle.overview", "Uma visão clara do seu DNS, da solicitação à resposta.");
   ("app.subtitle.default", "Inspecione e gerencie sua fundação de resolvedor.");
   ("app.refresh", "Atualizar");
   ("app.error.showing_last", "Mostrando o último snapshot bem-sucedido de");
   ("app.error.check_server", "Verifique se o servidor Velora está em execução.");
   ("app.error.reach_server", "Não foi possível acessar o servidor");
   ("app.viewer_readonly", "Você está conectado como visualizador. As ações de gerenciamento são somente leitura.");
   ("app.connecting_panel", "Conectando ao seu resolvedor…");
   ("app.not_found", "Página não encontrada.");
   ("app.footer.independent", "Velora DNS · Independente. Auto-hospedado.");
   ("app.footer.last_updated", "Última atualização");
   ("app.footer.waiting", "Aguardando o servidor");
   ("diagnostics.title", "Saúde do sistema");
   ("diagnostics.report_hint", "O download contém estados dos componentes e dados da versão, sem segredos ou logs de consultas.");
   ("diagnostics.download", "Baixar relatório");
   ("diagnostics.loading", "Carregando diagnósticos…");
   ("diagnostics.load_failed", "Não foi possível carregar os diagnósticos");
   ("diagnostics.upstreams", "Servidores upstream");
   ("diagnostics.component", "Componente");
   ("diagnostics.state", "Estado");
   ("diagnostics.detail", "Detalhe");
   ("diagnostics.state.healthy", "Saudável");
   ("diagnostics.state.degraded", "Degradado");
   ("diagnostics.state.failed", "Falhou");
   ("explain.title", "Por que esta resposta aconteceu?");
   ("explain.hint", "Simulação do resolvedor para um nome. Nada é consultado no upstream, registrado, colocado em cache ou contado.");
   ("explain.name", "Nome");
   ("explain.type", "Tipo de registro");
   ("explain.client", "Endereço do cliente (opcional)");
   ("explain.client_hint", "Aplica a política de filtragem desse cliente.");
   ("explain.submit", "Explicar");
   ("explain.running", "Explicando…");
   ("explain.failed", "Não foi possível explicar esta consulta");
   ("explain.result", "Explicação");
   ("explain.winner", "Etapa decisiva");
   ("explain.answers", "Resposta");
   ("explain.no_answers", "Sem registros de resposta: a resposta viria de um resolvedor upstream, que não é consultado.");
   ("explain.steps", "Etapas consideradas");
   ("explain.step", "Etapa");
   ("explain.outcome", "Resultado");
   ("explain.detail", "Detalhe");
   ("explain.cname_target", "Destino do CNAME");
   ("explain.ttl", "TTL restante");
   ("explain.matches", "Correspondência");
   ("explain.allowed_by", "Permitido por");
   ("explain.not_contacted", "Nenhum upstream foi consultado.");
   ("explain.scope.global", "Filtragem global");
   ("explain.scope.client_policy", "Política do cliente");
   ("explain.stage.filter", "Lista de bloqueio ou política do cliente");
   ("explain.stage.rewrite", "Reescrita DNS");
   ("explain.stage.zone", "Zona local");
   ("explain.stage.cache", "Cache");
   ("explain.stage.forwarding", "Regra de encaminhamento condicional");
   ("explain.stage.upstream", "Resolvedores upstream globais");
   ("explain.stage.refused", "Recusado");
   ("explain.result.passed", "Passou");
   ("explain.result.allowed", "Permitido");
   ("explain.result.blocked", "Bloqueado");
   ("explain.result.no_match", "Sem correspondência");
   ("explain.result.answered", "Respondido");
   ("explain.result.miss", "Falha de cache");
   ("explain.result.hit", "Acerto");
   ("explain.result.refused", "Recusado");
   ("explain.result.would_forward", "Seria encaminhado");
   ("explain.result.error", "Erro");
   ("explain.source.local", "Resposta local");
   ("explain.source.cache", "Cache");
   ("explain.source.blocked", "Bloqueado");
   ("explain.source.upstream", "Upstream");
   ("explain.source.refused", "Recusado");
   ("audit.title", "Registro de auditoria administrativa");
   ("audit.hint", "As ações administrativas são mantidas por 90 dias. Segredos e conteúdos das solicitações são excluídos.");
   ("audit.actor", "Ator");
   ("audit.action", "Ação");
   ("audit.result", "Resultado");
   ("audit.all", "Todos");
   ("audit.success", "Sucesso");
   ("audit.failure", "Falha");
   ("audit.filter", "Filtrar");
   ("audit.time", "Hora");
   ("audit.target", "Destino");
   ("audit.empty", "Nenhum evento de auditoria encontrado.");
   ("audit.more", "Carregar mais");
   ("audit.load_failed", "Não foi possível carregar os eventos de auditoria");
   ("auth.checking", "Verificando sessão…");
   ("auth.sign_in_title", "Entrar no Velora DNS");
   ("auth.username", "Usuário");
   ("auth.password", "Senha");
   ("auth.sign_in", "Entrar");
   ("auth.sign_in_failed", "Falha ao entrar");
   ("settings.server_configuration", "Configuração do servidor");
   ("settings.language", "Idioma");
   ("settings.theme", "Tema");
   ("settings.theme_light", "Claro");
   ("settings.theme_dark", "Escuro");
   ("settings.theme_auto", "Automático");
   ("settings.theme_hint", "O modo automático segue o esquema de cores claro ou escuro do seu sistema operacional.");
   ("settings.log_level", "Nível de log");
   ("settings.rate_limiting", "Limitação de taxa");
   ("settings.rate_limit_hint", "A limitação de taxa está desativada por padrão. Ative-a para proteger o resolvedor contra inundação de solicitudes e altas taxas de consulta.");
   ("settings.rate_limit_enabled", "Ativar limitação de taxa");
   ("settings.rate_limit_global_qps", "Consultas globais por segundo")].

Definition pt_BR_2 : list (string * string) :=
  [("settings.rate_limit_client_qps", "Consultas por segundo por cliente");
   ("settings.rate_limit_burst", "Tolerância de rajada");
   ("settings.rate_limit_rejected_total", "Consultas rejeitadas");
   ("settings.rate_limit_last_rejected", "Última rejeição");
   ("settings.save", "Salvar");
   ("settings.rate_limit_load_failed", "Não foi possível carregar as configurações de limitação de taxa");
   ("settings.rate_limit_save_failed", "Não foi possível salvar as configurações de limitação de taxa");
   ("settings.rate_limit_saved", "Configurações de limitação de taxa salvas.");
   ("settings.rate_limit_loading", "Carregando configurações de limitação de taxa…");
   ("settings.edit_hint", "Essas configurações correspondem às opções do instalador rápido. Algumas alterações requerem reinício; alterações no TTL do cache são aplicadas imediatamente.");
   ("settings.dns_section", "Configurações DNS");
   ("settings.cache_section", "Cache DNS");
   ("settings.cache_ttl_label", "TTL do cache de respostas upstream (segundos)");
   ("settings.cache_ttl_hint", "86400 segundos = 24 horas. Intervalo: 0–604800 segundos; 0 usa o TTL original de cada upstream. Alterações nos upstreams podem levar tempo para refletir. Alterar isso limpa as respostas em cache existentes. Respostas com TTL zero e DNSSEC assinado mantêm seu TTL original.");
   ("settings.cache_ttl_invalid", "Digite um número inteiro de 0 a 604800 segundos.");
   ("settings.dns_listen_label", "Endereços de escuta DNS (separados por vírgula)");
   ("settings.dns_listen_warning", "Aviso: 0.0.0.0 expõe o DNS à sua rede. Certifique-se de que o firewall permita apenas clientes confiáveis.");
   ("settings.upstreams_label", "Servidores DNS upstream (separados por vírgula)");
   ("settings.upstreams_hint", "Formato: IP:PORTA (ex. 1.1.1.1:53). Upstreams DoH usam https://host/dns-query");
   ("settings.allowed_clients_label", "Redes de clientes permitidas (CIDRs separados por vírgula)");
   ("settings.allowed_clients_hint", "Somente essas redes podem consultar o resolvedor. Exemplo: 192.168.1.0/24, 10.0.0.0/8");
   ("settings.web_section", "Configurações da interface web");
   ("settings.web_listen_label", "Endereço de escuta da interface web (IP:porta)");
   ("settings.web_listen_warning", "Aviso: 0.0.0.0 expõe a interface web à sua rede. Use um firewall ou autenticação.");
   ("settings.allowed_hosts_label", "Hosts permitidos (separados por vírgula)");
   ("settings.allowed_hosts_hint", "Cabeçalhos de host permitidos para acessar a API de gerenciamento. Use * para permitir todos (não recomendado em uma LAN).");
   ("settings.logging_section", "Logs e outros");
   ("settings.enable_query_log", "Ativar registro de consultas");
   ("settings.save_configuration", "Salvar configuração");
   ("settings.saving", "Salvando…");
   ("settings.save_success", "Configuração salva e aplicada.");
   ("settings.save_failed", "Falha ao salvar a configuração");
   ("dashboard.total_queries", "Total de consultas");
   ("dashboard.since_start", "Desde a última redefinição das estatísticas");
   ("dashboard.reset_statistics", "Redefinir estatísticas");
   ("dashboard.reset_confirm", "Redefinir todos os contadores de consultas, cache e limite de taxa? Esta ação não pode ser desfeita.");
   ("dashboard.reset_failed", "Não foi possível redefinir as estatísticas");
   ("dashboard.qps", "Consultas / segundo");
   ("dashboard.rolling_avg", "Média móvel de 60 segundos");
   ("dashboard.cache_hit_rate", "Taxa de acerto do cache");
   ("dashboard.answers_from_memory", "respostas servidas da memória");
   ("dashboard.uptime", "Tempo de atividade");
   ("dashboard.process_lifetime", "Tempo de vida do processo atual");
   ("dashboard.top_domains", "Principais domínios");
   ("dashboard.top_clients", "Principais clientes");
   ("dashboard.query_activity", "Atividade de consultas");
   ("dashboard.live_samples", "Amostras ao vivo do seu resolvedor");
   ("dashboard.refresh_5s", "Atualização a cada 5s");
   ("dashboard.queries_per_sec", "consultas / seg");
   ("dashboard.chart_aria", "Taxa de consultas amostrada durante esta sessão do navegador");
   ("dashboard.session_samples", "Amostras da sessão");
   ("dashboard.now", "Agora");
   ("dashboard.upstream_resolvers", "Resolvedores upstream");
   ("dashboard.ordered_failover", "Failover ordenado com fallback TCP");
   ("dashboard.endpoint", "Endpoint");
   ("dashboard.health", "Saúde");
   ("dashboard.upstream_unknown", "Desconhecido");
   ("dashboard.upstream_healthy", "Saudável");
   ("dashboard.upstream_degraded", "Degradado");
   ("dashboard.upstream_unavailable", "Indisponível");
   ("dashboard.priority", "Prioridade");
   ("dashboard.attempt_timeout", "Tempo limite da tentativa");
   ("dashboard.primary", "Principal");
   ("dashboard.fallback", "Fallback");
   ("dashboard.config_shown", "Configuração exibida. A acessibilidade é avaliada em cada consulta.");
   ("dashboard.retained_last_24h", "Consultas retidas nas últimas 24 horas");
   ("dashboard.unavailable_no_logging", "Indisponível enquanto o registro de consultas estiver desativado.");
   ("dashboard.loading_stats", "Carregando estatísticas de consultas…");
   ("dashboard.stats_load_failed", "Não foi possível carregar as estatísticas de consultas");
   ("dashboard.no_retained", "Nenhuma consulta retida nesta janela.");
   ("cache.live_entries", "Entradas ao vivo");
   ("cache.capacity", "Capacidade");
   ("cache.hits", "Acertos do cache");
   ("cache.since_startup", "Desde a inicialização do processo");
   ("cache.misses", "Falhas do cache");
   ("cache.includes_uncacheable", "Inclui solicitações não cacheáveis");
   ("cache.memory_cache", "Cache em memória");
   ("cache.description", "Respostas upstream positivas usam o TTL de cache configurado. Respostas com TTL zero, DNSSEC assinado e negativas mantêm suas regras originais. Entradas menos usadas são removidas ao atingir a capacidade. O conteúdo do cache nunca é armazenado no SQLite.");
   ("cache.clear_description", "Limpar o cache remove todas as respostas atuais. Os contadores de acertos e falhas são mantidos.");
   ("cache.clearing", "Limpando…");
   ("cache.clear", "Limpar cache");
   ("cache.cleared", "Cache limpo. As zonas locais permanecem ativas; outras consultas usarão os resolvedores upstream.");
   ("cache.flush_failed", "Falha ao esvaziar o cache");
   ("cache.entries_title", "Entradas DNS em cache");
   ("cache.entries_description", "Respostas atuais, as mais usadas primeiro.");
   ("cache.entries_loading", "Carregando entradas do cache…");
   ("cache.entries_load_failed", "Não foi possível carregar as entradas do cache");
   ("cache.entries_empty", "O cache está vazio.");
   ("cache.entries_scroll_hint", "Role horizontalmente para ver todas as colunas.");
   ("cache.entry_name", "Nome");
   ("cache.entry_type", "Tipo");
   ("cache.entry_answer", "Resposta");
   ("cache.entry_status", "Status");
   ("cache.entry_ttl", "TTL restante");
   ("cache.seconds", "s");
   ("cache.previous", "Anterior");
   ("cache.next", "Próximo");
   ("querylog.unavailable_title", "Histórico de consultas indisponível");
   ("querylog.unavailable_text", "Ative o registro de consultas para coletar e inspecionar a atividade DNS futura.");
   ("querylog.up_to_100", "Até 100 respostas retidas por página");
   ("querylog.refresh", "Atualizar consultas");
   ("querylog.filters_aria", "Filtros de consulta");
   ("querylog.domain", "Domínio");
   ("querylog.contains_example", "Contém example.com");
   ("querylog.client_ip", "IP do cliente");
   ("querylog.exact_ip", "Endereço IP exato");
   ("querylog.query_type", "Tipo de consulta");
   ("querylog.all_types", "Todos os tipos");
   ("querylog.source", "Origem");
   ("querylog.all_sources", "Todas as origens");
   ("querylog.apply_filters", "Aplicar filtros");
   ("querylog.show_blocked", "Mostrar consultas bloqueadas");
   ("querylog.error_stale", "Os resultados anteriores podem estar desatualizados.");
   ("querylog.loading", "Carregando registro de consultas…");
   ("querylog.no_matches", "Nenhuma consulta encontrada");
   ("querylog.no_matches_text", "Tente filtros diferentes ou gere tráfego DNS com o registro ativado.");
   ("querylog.caption", "Registro de consultas DNS");
   ("querylog.col_timestamp", "Data/hora");
   ("querylog.col_client", "Cliente");
   ("querylog.col_domain", "Domínio");
   ("querylog.col_type", "Tipo");
   ("querylog.col_source", "Origem");
   ("querylog.col_response", "Resposta");
   ("querylog.col_latency", "Latência");
   ("querylog.older", "Consultas anteriores");
   ("querylog.load_failed", "Não foi possível carregar o registro de consultas");
   ("blocklists.count", "fontes externas");
   ("blocklists.count_one", "fonte externa");
   ("blocklists.sources_label", "Fontes de políticas DNS");
   ("blocklists.reload", "Recarregar");
   ("blocklists.add_source", "Adicionar fonte");
   ("blocklists.add_aria", "Adicionar fonte de lista de bloqueio");
   ("blocklists.add_title", "Adicionar lista de bloqueio externa");
   ("blocklists.add_text", "Somente fontes HTTP(S) públicas são aceitas. Atualizações com falha mantêm as regras DNS anteriores ativas.");
   ("blocklists.name", "Nome");
   ("blocklists.source_url", "URL da fonte");
   ("blocklists.community_hosts", "Hosts comunitários");
   ("blocklists.adding", "Adicionando…");
   ("blocklists.cancel", "Cancelar");
   ("blocklists.loading", "Carregando fontes de listas de bloqueio…");
   ("blocklists.empty_title", "Nenhuma lista de bloqueio externa");
   ("blocklists.empty_text", "Adicione uma lista pública de hosts ou domínios confiável para aplicar bloqueios DNS.");
   ("blocklists.caption", "Fontes de listas de bloqueio externas");
   ("blocklists.col_source", "Fonte");
   ("blocklists.col_status", "Status");
   ("blocklists.col_last_update", "Última atualização");
   ("blocklists.update_failed", "Falha na atualização");
   ("blocklists.active", "ATIVO")].

Definition pt_BR_3 : list (string * string) :=
  [("blocklists.disabled", "DESATIVADO");
   ("blocklists.never", "Nunca");
   ("blocklists.updating", "Atualizando…");
   ("blocklists.update", "Atualizar");
   ("blocklists.load_failed", "Não foi possível carregar as listas de bloqueio");
   ("blocklists.add_failed", "Não foi possível adicionar a fonte");
   ("blocklists.update_failed_msg", "Não foi possível atualizar a fonte");
   ("blocklists.col_domains", "Domínios");
   ("blocklists.local", "Local");
   ("blocklists.enable", "Ativar");
   ("blocklists.disable", "Desativar");
   ("blocklists.toggle_failed", "Não foi possível alterar o estado da fonte");
   ("blocklists.edit_content", "Editar conteúdo");
   ("blocklists.edit_content_aria", "Editar conteúdo da lista de bloqueio");
   ("blocklists.edit_content_title", "Editar domínios da lista de bloqueio");
   ("blocklists.edit_content_text", "Digite um domínio por linha. Linhas iniciando com 0.0.0.0 ou um comentário são tratadas como entradas de host.");
   ("blocklists.domains_label", "Domínios");
   ("blocklists.saving", "Salvando…");
   ("blocklists.save", "Salvar");
   ("blocklists.content_save_failed", "Não foi possível salvar o conteúdo");
   ("blocklists.delete", "Excluir");
   ("blocklists.confirm_delete", "Confirmar");
   ("blocklists.delete_failed", "Não foi possível excluir a fonte");
   ("zones.count", "zonas locais");
   ("zones.count_one", "zona local");
   ("zones.local_authority", "Autoridade local");
   ("zones.reload", "Recarregar zonas");
   ("zones.add_zone", "Adicionar zona");
   ("zones.error_stale", "Mostrando as últimas zonas carregadas. Recarregue antes de fazer alterações.");
   ("zones.error_retry", "Recarregue para tentar novamente.");
   ("zones.reload_before_retry", "Recarregue as zonas antes de tentar novamente.");
   ("zones.loading", "Carregando zonas locais…");
   ("zones.empty_title", "Dê à sua rede nomes familiares");
   ("zones.empty_text", "Crie uma zona como home.arpa e adicione registros para seu roteador, serviços e dispositivos.");
   ("zones.create_first", "Crie sua primeira zona");
   ("zones.filter_aria", "Filtrar zonas");
   ("zones.filter_placeholder", "Buscar uma zona…");
   ("zones.nav_aria", "Zonas locais");
   ("zones.records_custom", "registros personalizados");
   ("zones.no_matching", "Nenhuma zona encontrada.");
   ("zones.authoritative_eyebrow", "ZONA AUTORITATIVA");
   ("zones.revision", "Revisão");
   ("zones.add_record", "Adicionar registro");
   ("zones.delete_zone_aria", "Excluir zona");
   ("zones.primary_ns", "NS primário");
   ("zones.contact", "Contato");
   ("zones.delete_record_confirm", "Excluir registro");
   ("zones.delete_zone_confirm", "e todos os");
   ("zones.delete_zone_confirm2", "registros? Isso não pode ser desfeito.");
   ("zones.deleting", "Excluindo…");
   ("zones.delete_record_perm", "Excluir registro permanentemente");
   ("zones.delete_zone_perm", "Excluir zona permanentemente");
   ("zones.cancel_deletion", "Cancelar exclusão");
   ("zones.record_saved", "Registro salvo. As alterações DNS estão ativas.");
   ("zones.record_deleted", "Registro excluído. As alterações DNS estão ativas.");
   ("zones.zone_deleted", "Zona e seus registros excluídos.");
   ("zones.zone_created", "Zona criada. Adicione registros para começar a usá-la.");
   ("zones.delete_failed", "Não foi possível excluir");
   ("zones.footnote", "Respostas locais têm prioridade sobre o encaminhamento. Dispositivos podem reter respostas anteriores até que seu TTL expire.");
   ("zones.record_form_edit_aria", "Editar registro DNS");
   ("zones.record_form_add_aria", "Adicionar registro DNS");
   ("zones.edit_record", "Editar registro");
   ("zones.add_record_form", "Adicionar registro");
   ("zones.changes_apply", "As alterações se aplicam a");
   ("zones.record_name", "Nome do registro");
   ("zones.router_or_at", "router ou @");
   ("zones.relative_name_hint", "Nome relativo, @ para a zona, ou um nome absoluto terminando em ponto.");
   ("zones.record_type", "Tipo de registro");
   ("zones.ttl_seconds", "TTL (segundos)");
   ("zones.priority", "Prioridade");
   ("zones.ipv4_address", "Endereço IPv4");
   ("zones.ipv6_address", "Endereço IPv6");
   ("zones.text_value", "Valor de texto");
   ("zones.target_hostname", "Hostname de destino");
   ("zones.invalid_ttl", "Digite valores válidos de TTL e prioridade.");
   ("zones.record_conflict", "Esta zona foi alterada em outro lugar. Seu rascunho está inalterado. Feche este formulário e recarregue as zonas antes de tentar novamente.");
   ("zones.save_failed", "Não foi possível salvar o registro");
   ("zones.saving", "Salvando…");
   ("zones.save_record", "Salvar registro");
   ("zones.cancel", "Cancelar");
   ("zones.no_records_title", "Nenhum registro personalizado ainda");
   ("zones.no_records_text", "Adicione seu primeiro registro. SOA e o NS de fallback são gerenciados automaticamente.");
   ("zones.records_aria", "Registros DNS para");
   ("zones.col_name", "Nome");
   ("zones.col_type", "Tipo");
   ("zones.col_value", "Valor");
   ("zones.col_ttl", "TTL");
   ("zones.col_actions", "Ações");
   ("zones.edit_aria", "Editar");
   ("zones.delete_aria", "Excluir");
   ("zones.record_word", "registro");
   ("zones.create_title", "Criar uma zona local");
   ("zones.create_text", "O Velora responderá para esta zona e manterá nomes desconhecidos dentro da sua rede.");
   ("zones.zone_name", "Nome da zona");
   ("zones.authority_settings", "Configurações de autoridade");
   ("zones.primary_nameserver", "Servidor de nomes primário");
   ("zones.contact_mailbox", "Contato (caixa de e-mail DNS)");
   ("zones.creating", "Criando…");
   ("zones.create_zone", "Criar zona");
   ("zones.create_zone_aria", "Criar zona DNS");
   ("zones.create_failed", "Não foi possível criar a zona");
   ("zones.load_failed", "Não foi possível carregar as zonas");
   ("updates.loading", "Carregando status da atualização...");
   ("updates.viewer_readonly", "Você está conectado como visualizador. Solicitações de atualização são somente leitura.");
   ("updates.in_progress", "Atualização em andamento...");
   ("updates.history", "Histórico de atualizações");
   ("updates.no_history", "Nenhuma atualização registrada ainda.");
   ("updates.col_from", "De");
   ("updates.col_to", "Para");
   ("updates.col_state", "Estado");
   ("updates.col_started", "Iniciada");
   ("updates.state_idle", "Inativa");
   ("updates.state_downloading", "Baixando");
   ("updates.state_verifying", "Verificando");
   ("updates.state_installing", "Instalando");
   ("updates.state_readiness", "Aguardando prontidão");
   ("updates.state_completed", "Concluída");
   ("updates.state_rolled_back", "Revertida");
   ("updates.state_failed", "Falhou");
   ("updates.load_failed", "Falha ao carregar o status da atualização");
   ("updates.request_failed", "Falha ao solicitar atualização");
   ("updates.check", "Check for updates");
   ("updates.available", "Update available");
   ("updates.up_to_date", "The system is up to date.");
   ("updates.progress", "Update progress");
   ("updates.rollback_used", "The previous version was restored.");
   ("updates.rollback_recovered", "The previous version was restored and is healthy.");
   ("backup.sqlite_only", "A exportação criptografada atualmente suporta apenas instalações SQLite.");
   ("backup.create_title", "Backup criptografado");
   ("backup.create_hint", "Baixe um backup versionado da configuração e dos dados persistentes. Guarde a senha.");
   ("backup.passphrase", "Senha");
   ("backup.creating", "Criando…");
   ("backup.create", "Criar e baixar");
   ("backup.create_failed", "Não foi possível criar o backup");
   ("backup.restore_hint", "Restaure o arquivo criptografado com o serviço parado. O comando mantém uma cópia de segurança da instalação atual.");
   ("backup.loading", "Carregando status do backup...");
   ("backup.status_title", "Status do backup");
   ("backup.database", "Banco de dados:");
   ("backup.last_backup", "Último backup:");
   ("backup.no_backup", "Nenhum backup registrado ainda");
   ("backup.verification_state", "Estado da verificação:");
   ("backup.state_unknown", "Desconhecido");
   ("backup.state_unverified", "Não verificado");
   ("backup.state_verified", "Verificado");
   ("backup.verify_title", "Verificar backup");
   ("backup.verify_text", "Coloque uma cópia do backup ao lado do banco de dados do servidor para verificar sua integridade.");
   ("backup.file_name", "Nome do arquivo de backup");
   ("backup.file_hint", "Coloque o backup ao lado do banco de dados no servidor Velora. Somente o nome do arquivo é usado; arquivos do navegador e outros diretórios não podem ser verificados aqui.");
   ("backup.viewer_readonly", "Você está conectado como visualizador. A verificação de backups é somente leitura.");
   ("backup.verifying", "Verificando...");
   ("backup.verify", "Verificar");
   ("backup.valid", "O backup é válido")].

Definition pt_BR_4 : list (string * string) :=
  [("backup.invalid", "O backup é inválido");
   ("backup.schema_version", "Versão do esquema:");
   ("backup.records", "Registros:");
   ("backup.instructions", "Restaurar pela linha de comando");
   ("backup.native", "Instalação nativa");
   ("backup.docker", "Docker Compose");
   ("backup.online", "Backup online (SQLite)");
   ("backup.load_failed", "Falha ao carregar o status do backup");
   ("backup.verify_failed", "A verificação falhou");
   ("backup.step_stop_service", "Parar o serviço");
   ("backup.step_create_backup", "Criar um backup consistente");
   ("backup.step_restart_service", "Reiniciar o serviço");
   ("backup.step_stop_container", "Parar o contêiner");
   ("backup.step_backup_volume", "Fazer backup do volume");
   ("backup.step_restart_container", "Reiniciar o contêiner");
   ("backup.step_online_backup", "Usar a API do SQLite para um backup online consistente");
   ("onboarding.welcome", "Bem-vindo ao Velora DNS");
   ("onboarding.complete_steps", "Complete estas etapas para proteger sua instalação");
   ("onboarding.dismiss", "Dispensar");
   ("onboarding.change_credentials", "Alterar credenciais iniciais");
   ("onboarding.change_credentials_text", "A senha de administrador padrão deve ser alterada após o primeiro login.");
   ("onboarding.review_dns", "Revisar configuração DNS");
   ("onboarding.review_dns_text", "Verifique se os servidores upstream e os clientes permitidos estão configurados corretamente para sua rede.");
   ("onboarding.restrict_clients", "Restringir acesso de clientes");
   ("onboarding.restrict_clients_text", "Configure os CIDRs de allowed_clients para limitar quais redes podem usar seu resolvedor.");
   ("onboarding.verify_db", "Verificar armazenamento do banco de dados");
   ("onboarding.verify_db_text", "Verifique se o caminho do banco de dados está em um armazenamento confiável com espaço suficiente.");
   ("onboarding.update_policy", "Configurar política de atualizações");
   ("onboarding.update_policy_text", "Revise o centro de atualizações para entender como manter sua instalação atualizada.");
   ("app.nav.dhcp", "DHCP");
   ("app.title.dhcp", "Servidor DHCP");
   ("dhcp.loading", "Carregando dados do DHCP…");
   ("dhcp.load_failed", "Unable to load DHCP data");
   ("dhcp.create_pool_failed", "Unable to create pool");
   ("dhcp.delete_pool_failed", "Unable to delete pool");
   ("dhcp.create_reservation_failed", "Unable to create reservation");
   ("dhcp.delete_reservation_failed", "Unable to delete reservation");
   ("dhcp.delete_lease_failed", "Unable to delete lease");
   ("dhcp.pools", "Pools de DHCP");
   ("dhcp.add_pool", "Adicionar pool");
   ("dhcp.pool_name", "Nome do pool");
   ("dhcp.interface", "Interface");
   ("dhcp.subnet_cidr", "Sub-rede (CIDR)");
   ("dhcp.subnet", "Sub-rede");
   ("dhcp.gateway", "Gateway");
   ("dhcp.dns_servers", "Servidores DNS");
   ("dhcp.lease_seconds", "Tempo de concessão (segundos)");
   ("dhcp.leases_label", "Concessões");
   ("dhcp.create", "Criar");
   ("dhcp.no_pools", "Nenhum pool de DHCP configurado. Crie um para começar a oferecer concessões.");
   ("dhcp.reservations", "Reservas estáticas");
   ("dhcp.mac_address", "Endereço MAC");
   ("dhcp.ip_address", "Endereço IP");
   ("dhcp.hostname", "Hostname");
   ("dhcp.add", "Adicionar");
   ("dhcp.active_leases", "Concessões ativas");
   ("dhcp.expires", "Expira em");
   ("dhcp.no_leases", "Nenhuma concessão ativa.");
   ("dhcp.expired", "Expirada");
   ("dhcp.confirm_delete_pool", "Excluir este pool e todas as suas reservas?");
   ("dhcp.name", "Nome");
   ("app.nav.cluster", "Cluster");
   ("app.title.cluster", "Visão geral do cluster");
   ("cluster.loading", "Carregando dados do cluster…");
   ("cluster.load_failed", "Unable to load cluster data");
   ("cluster.name", "Nome");
   ("cluster.status", "Status");
   ("cluster.version", "Versão");
   ("cluster.last_seen", "Última vista");
   ("cluster.config_history", "Histórico de configuração");
   ("cluster.no_versions", "Nenhuma versão de configuração registrada.");
   ("cluster.hash", "Hash");
   ("cluster.applied_by", "Aplicado por");
   ("cluster.applied_at", "Aplicado em");
   ("app.nav.group_dns", "DNS");
   ("app.nav.group_network", "Rede");
   ("app.nav.group_system", "Sistema");
   ("app.menu_open", "Abrir navegação");
   ("app.menu_close", "Fechar navegação");
   ("app.theme_to_dark", "Mudar para o tema escuro");
   ("app.theme_to_light", "Mudar para o tema claro");
   ("app.signed_in_as", "Conectado como");
   ("app.subtitle.zones", "Nomes autoritativos para dispositivos e serviços da sua rede.");
   ("app.subtitle.queries", "Consultas recentes respondidas por este resolvedor.");
   ("app.subtitle.blocklists", "Listas de domínios respondidas como bloqueadas.");
   ("app.subtitle.cache", "Respostas mantidas em memória para acelerar consultas repetidas.");
   ("app.subtitle.settings", "Resolvedor, interface web e preferências pessoais.");
   ("app.subtitle.updates", "Versão instalada, versões disponíveis e histórico de atualizações.");
   ("app.subtitle.backup", "Crie backups criptografados e verifique os existentes.");
   ("app.subtitle.dhcp", "Pools de endereços, reservas e concessões ativas.");
   ("app.subtitle.cluster", "Mantenha as zonas locais idênticas em vários servidores Velora DNS.");
   ("app.subtitle.diagnostics", "Saúde dos componentes e um relatório de suporte compartilhável.");
   ("app.subtitle.events", "Itens que precisam da sua atenção.");
   ("app.subtitle.audit", "Quem alterou o quê, e quando.");
   ("settings.preferences", "Preferências");
   ("dashboard.general_statistics", "Estatísticas gerais");
   ("dashboard.blocked", "Bloqueadas por filtros");
   ("dashboard.of_all_queries", "de todas as consultas");
   ("dashboard.query_logging", "Registro de consultas");
   ("dashboard.enabled", "Ativado");
   ("dashboard.disabled", "Desativado");
   ("dashboard.requests", "Solicitações");
   ("dashboard.domain", "Domínio");
   ("dashboard.client", "Cliente");
   ("dashboard.upstream_servers", "Servidores upstream");
   ("dashboard.collecting_samples", "Coletando amostras…");
   ("cache.search_label", "Pesquisar por nome");
   ("cache.search_placeholder", "example.org");
   ("cache.all_types", "Todos os tipos");
   ("cache.remove_entry", "Remover do cache");
   ("cache.invalidate_title", "Invalidar um domínio");
   ("cache.invalidate_text", "Remove as respostas em cache de um nome sem limpar todo o cache.");
   ("cache.domain", "Domínio");
   ("cache.include_subdomains", "Incluir subdomínios");
   ("cache.invalidate", "Invalidar");
   ("cache.removed_entries", "Entradas removidas do cache");
   ("cache.invalidate_failed", "Falha na invalidação");
   ("cache.flush_confirm", "Limpar todas as respostas em cache? Os contadores de acertos e falhas são mantidos.");
   ("cache.no_matches", "Nenhuma entrada corresponde a este filtro.");
   ("blocklists.schedule", "Agendamento de atualização");
   ("blocklists.schedule_for", "Agendamento de atualização de");
   ("blocklists.manual", "Manual");
   ("blocklists.every_1h", "A cada hora");
   ("blocklists.every_6h", "A cada 6 horas");
   ("blocklists.every_12h", "A cada 12 horas");
   ("blocklists.every_24h", "Diariamente");
   ("blocklists.every_7d", "Semanalmente");
   ("blocklists.col_next_update", "Próxima atualização");
   ("blocklists.due_now", "Pendente agora");
   ("blocklists.never_updated", "Nunca atualizada");
   ("blocklists.retry_count", "tentativas com falha");
   ("blocklists.schedule_failed", "Não foi possível alterar o agendamento");
   ("app.nav.forwarding", "Encaminhamento condicional");
   ("app.title.forwarding", "Encaminhamento condicional");
   ("app.subtitle.forwarding", "Envie consultas de domínios selecionados para resolvedores dedicados.");
   ("forwarding.count", "regras de encaminhamento");
   ("forwarding.add", "Adicionar regra");
   ("forwarding.add_title", "Nova regra de encaminhamento");
   ("forwarding.edit_title", "Editar regra de encaminhamento");
   ("forwarding.form_hint", "A regra também cobre todos os nomes abaixo do domínio. Vence a regra ativa mais específica.");
   ("forwarding.domain", "Domínio");
   ("forwarding.upstreams", "Resolvedores");
   ("forwarding.upstreams_hint", "De 1 a 4 endereços como IP ou IP:porta, separados por vírgulas. A porta 53 é usada se omitida.");
   ("forwarding.description", "Descrição");
   ("forwarding.enabled", "Ativada");
   ("forwarding.save", "Salvar regra");
   ("forwarding.cancel", "Cancelar")].

Definition pt_BR_5 : list (string * string) :=
  [("forwarding.empty_title", "Nenhuma regra de encaminhamento");
   ("forwarding.empty_text", "Todas as consultas usam os resolvedores globais. Adicione uma regra para resolver um domínio como corp.example por um servidor DNS interno.");
   ("forwarding.col_status", "Status");
   ("forwarding.test", "Testar");
   ("forwarding.test_title", "Testar regra");
   ("forwarding.test_hint", "Envia uma consulta apenas pelos resolvedores desta regra, sem cache.");
   ("forwarding.test_name", "Nome");
   ("forwarding.test_type", "Tipo");
   ("forwarding.run_test", "Executar teste");
   ("forwarding.test_via", "via");
   ("forwarding.no_answers", "Sem registros de resposta");
   ("forwarding.edit", "Editar");
   ("forwarding.delete", "Excluir");
   ("forwarding.delete_confirm", "Excluir a regra de encaminhamento de");
   ("forwarding.toggle", "Ativar ou desativar a regra de");
   ("forwarding.load_failed", "Não foi possível carregar as regras");
   ("forwarding.save_failed", "Não foi possível salvar a regra");
   ("forwarding.saved", "Regra salva. As respostas em cache do domínio foram removidas.");
   ("forwarding.disabled", "Desativada");
   ("app.nav.rewrites", "Reescritas de DNS");
   ("app.title.rewrites", "Reescritas de DNS");
   ("app.subtitle.rewrites", "Responda nomes escolhidos com endereços ou aliases fixos.");
   ("rewrites.count", "reescritas");
   ("rewrites.add", "Adicionar reescrita");
   ("rewrites.add_title", "Nova reescrita");
   ("rewrites.edit_title", "Editar reescrita");
   ("rewrites.form_hint", "Use *.pai para todos os nomes abaixo de um domínio. Nomes exatos vencem curingas.");
   ("rewrites.name", "Nome");
   ("rewrites.type", "Tipo");
   ("rewrites.value", "Resposta");
   ("rewrites.value_hint_A", "Endereço IPv4");
   ("rewrites.value_hint_AAAA", "Endereço IPv6");
   ("rewrites.value_hint_CNAME", "Nome de host de destino, resolvido normalmente");
   ("rewrites.description", "Descrição");
   ("rewrites.enabled", "Ativada");
   ("rewrites.save", "Salvar reescrita");
   ("rewrites.empty_title", "Nenhuma reescrita de DNS");
   ("rewrites.empty_text", "Associe um nome como nas.home a um endereço sem criar uma zona.");
   ("rewrites.col_notes", "Observações");
   ("rewrites.blocked_hint", "Bloqueado primeiro por uma lista de bloqueio");
   ("rewrites.overrides_hint", "Substitui a zona local");
   ("rewrites.edit", "Editar");
   ("rewrites.delete", "Excluir");
   ("rewrites.delete_confirm", "Excluir esta reescrita?");
   ("rewrites.toggle", "Ativar ou desativar a reescrita de");
   ("rewrites.search", "Filtrar reescritas");
   ("rewrites.load_failed", "Não foi possível carregar as reescritas");
   ("rewrites.save_failed", "Não foi possível salvar a reescrita");
   ("rewrites.saved", "Reescrita salva e aplicada.");
   ("app.nav.clients", "Clientes");
   ("app.title.clients", "Clientes e dispositivos");
   ("app.subtitle.clients", "Dê nomes a endereços e redes usados em todo o Velora.");
   ("clients.count", "clientes");
   ("clients.add", "Adicionar cliente");
   ("clients.add_title", "Novo cliente");
   ("clients.edit_title", "Editar cliente");
   ("clients.form_hint", "Se as redes se sobrepõem, vence a mais específica. Dê um endereço fixo a dispositivos DHCP antes de nomeá-los.");
   ("clients.name", "Nome");
   ("clients.addresses", "Endereços");
   ("clients.addresses_hint", "Endereços IP ou redes CIDR, separados por vírgulas.");
   ("clients.group", "Grupo");
   ("clients.description", "Descrição");
   ("clients.enabled", "Ativado");
   ("clients.save", "Salvar cliente");
   ("clients.activity", "Últimas 24 horas");
   ("clients.queries", "consultas");
   ("clients.last_seen", "Visto pela última vez");
   ("clients.no_activity", "Sem consultas");
   ("clients.view_queries", "Ver consultas");
   ("clients.empty_title", "Nenhum cliente nomeado");
   ("clients.empty_text", "Nomeie dispositivos como uma TV ou Home Assistant para reconhecê-los no registro de consultas.");
   ("clients.unnamed_title", "Vistos recentemente sem nome");
   ("clients.unnamed_text", "Endereços mais ativos nas últimas 24 horas sem cliente.");
   ("clients.name_it", "Nomear dispositivo");
   ("clients.edit", "Editar");
   ("clients.delete", "Excluir");
   ("clients.delete_confirm", "Excluir o cliente");
   ("clients.toggle", "Ativar ou desativar o cliente");
   ("clients.load_failed", "Não foi possível carregar os clientes");
   ("clients.save_failed", "Não foi possível salvar o cliente");
   ("clients.saved", "Cliente salvo.");
   ("clients.logging_off", "Ative o registro de consultas para ver a atividade.");
   ("app.nav.policies", "Políticas por cliente");
   ("app.title.policies", "Políticas de filtragem por cliente");
   ("app.subtitle.policies", "Escolha como o bloqueio se aplica a cada cliente.");
   ("policies.load_failed", "Não foi possível carregar as políticas.");
   ("policies.save_failed", "Não foi possível salvar a política.");
   ("policies.saved", "Política salva.");
   ("policies.lookup", "Verificar endereço");
   ("policies.add", "Adicionar política");
   ("policies.add_title", "Nova política");
   ("policies.edit_title", "Editar política");
   ("policies.form_hint", "A rede de cliente mais específica decide qual política um endereço usa.");
   ("policies.client", "Cliente");
   ("policies.mode", "Filtragem");
   ("policies.mode_default", "Global");
   ("policies.mode_disabled", "Sem filtragem");
   ("policies.mode_custom", "Personalizada");
   ("policies.mode_default_hint", "As mesmas listas de bloqueio e permissão que os demais.");
   ("policies.mode_disabled_hint", "Nada é bloqueado para este cliente.");
   ("policies.mode_custom_hint", "Apenas as listas escolhidas e seus próprios domínios.");
   ("policies.blocklists", "Listas de bloqueio");
   ("policies.no_sources", "Ainda não há listas de bloqueio.");
   ("policies.globally_off", "desativada globalmente");
   ("policies.block", "Bloquear também");
   ("policies.allow", "Sempre permitir");
   ("policies.domains_hint", "Um domínio por linha; subdomínios incluídos.");
   ("policies.allow_hint", "Tem prioridade sobre todas as listas para este cliente.");
   ("policies.enabled", "Política ativa");
   ("policies.save", "Salvar política");
   ("policies.empty_title", "Nenhuma política por cliente");
   ("policies.empty_text", "Todos os clientes usam as listas globais. Adicione uma política para filtrar um dispositivo de forma mais rígida, mais branda ou não filtrar.");
   ("policies.need_clients", "As políticas se aplicam a clientes nomeados. Nomeie um dispositivo primeiro:");
   ("policies.details", "Detalhes");
   ("policies.summary_disabled", "Todas as consultas são respondidas sem filtro");
   ("policies.summary_default", "Usa as listas globais");
   ("policies.no_lists", "Sem listas");
   ("policies.blocked_short", "bloqueados");
   ("policies.allowed_short", "permitidos");
   ("policies.paused", "Pausada");
   ("policies.toggle", "Política ativa");
   ("policies.edit", "Editar política");
   ("policies.delete", "Excluir política");
   ("policies.delete_confirm", "Remover a política de");
   ("policies.no_policy", "(sem política, filtragem global)");
   ("policies.unknown_address", "não corresponde a nenhum cliente e usa a filtragem global.");
   ("app.nav.webhooks", "Webhooks");
   ("app.title.webhooks", "Notificações por webhook");
   ("app.subtitle.webhooks", "Envie eventos importantes para outros sistemas.");
   ("webhooks.load_failed", "Não foi possível carregar os webhooks.");
   ("webhooks.save_failed", "Não foi possível salvar o webhook.");
   ("webhooks.saved", "Webhook salvo.");
   ("webhooks.count", "webhooks");
   ("webhooks.add", "Adicionar webhook");
   ("webhooks.add_title", "Novo webhook");
   ("webhooks.edit_title", "Editar webhook");
   ("webhooks.form_hint", "O Velora envia uma requisição POST JSON para cada evento correspondente. A entrega ocorre em segundo plano e nunca atrasa respostas DNS.");
   ("webhooks.name", "Nome");
   ("webhooks.url", "URL");
   ("webhooks.min_severity", "Gravidade mínima");
   ("webhooks.severity_info", "Informação");
   ("webhooks.severity_warning", "Aviso");
   ("webhooks.severity_critical", "Crítico");
   ("webhooks.token", "Token bearer");
   ("webhooks.token_hint", "Opcional. Enviado no cabeçalho Authorization e nunca mais exibido.");
   ("webhooks.token_stored", "Token armazenado");
   ("webhooks.token_change", "Alterar");
   ("webhooks.token_remove_hint", "Deixe vazio para remover o token")].

Definition pt_BR_6 : list (string * string) :=
  [("webhooks.events", "Eventos");
   ("webhooks.events_hint", "Não selecione nenhum para receber todos os tipos.");
   ("webhooks.all_events", "Todos os eventos");
   ("webhooks.allow_private", "Permitir destino em rede privada (por exemplo Home Assistant na sua LAN)");
   ("webhooks.enabled", "Webhook ativo");
   ("webhooks.save", "Salvar webhook");
   ("webhooks.empty_title", "Nenhum webhook");
   ("webhooks.empty_text", "Adicione um webhook para saber quando um upstream falha, uma lista não atualiza ou um backup falha.");
   ("webhooks.last_delivery", "Última entrega");
   ("webhooks.never", "Nada enviado ainda");
   ("webhooks.failing", "Falhando");
   ("webhooks.toggle", "Webhook ativo");
   ("webhooks.test", "Enviar teste");
   ("webhooks.test_ok", "Teste entregue a");
   ("webhooks.test_failed", "O teste falhou para");
   ("webhooks.edit", "Editar webhook");
   ("webhooks.delete", "Excluir webhook");
   ("webhooks.delete_confirm", "Excluir o webhook");
   ("app.nav.analytics", "Análises");
   ("app.title.analytics", "Análises");
   ("app.subtitle.analytics", "Atividade DNS e desempenho do resolvedor a partir do histórico retido.");
   ("analytics.load_failed", "Não foi possível carregar as análises.");
   ("analytics.logging_off_title", "O registro de consultas está desativado");
   ("analytics.logging_off_text", "As análises usam o histórico de consultas. Ative o registro de consultas:");
   ("analytics.range", "Período");
   ("analytics.range_1h", "1 hora");
   ("analytics.range_24h", "24 horas");
   ("analytics.range_7d", "7 dias");
   ("analytics.range_30d", "30 dias");
   ("analytics.history_limited", "O histórico só vai até");
   ("analytics.queries", "Consultas");
   ("analytics.blocked", "Bloqueadas");
   ("analytics.allowed", "Permitidas");
   ("analytics.cached", "Respostas do cache");
   ("analytics.answers", "respostas");
   ("analytics.avg_upstream", "Tempo médio upstream");
   ("analytics.empty_title", "Nenhuma consulta neste período");
   ("analytics.empty_text", "Escolha um período maior ou volte quando houver consultas.");
   ("analytics.over_time", "Consultas ao longo do tempo");
   ("analytics.over_time_hint", "Passe o mouse ou use as setas para ver um intervalo.");
   ("analytics.chart_aria", "Consultas por intervalo, permitidas e bloqueadas");
   ("analytics.show_table", "Ver como tabela");
   ("analytics.time", "Hora");
   ("analytics.avg_time", "Tempo médio");
   ("analytics.latency", "Tempo de resposta upstream");
   ("analytics.latency_hint", "Média das consultas encaminhadas respondidas; lacunas indicam sem tráfego upstream.");
   ("analytics.latency_aria", "Tempo médio de resposta upstream por intervalo");
   ("analytics.query_types", "Tipos de consulta");
   ("analytics.sources", "Respondidas por");
   ("analytics.source_upstream", "Upstream");
   ("analytics.source_cache", "Cache");
   ("analytics.source_blocked", "Bloqueadas");
   ("analytics.source_local", "Zonas locais e reescritas");
   ("analytics.source_refused", "Recusadas");
   ("analytics.response_codes", "Códigos de resposta");
   ("analytics.top_blocked", "Domínios mais bloqueados");
   ("analytics.nothing_blocked", "Nada bloqueado neste período");
   ("analytics.upstreams", "Uso de upstreams");
   ("analytics.upstreams_hint", "Consultas encaminhadas por resolvedor, respostas SERVFAIL e tempo médio.");
   ("analytics.no_upstream", "Sem tráfego upstream neste período");
   ("analytics.failures", "Falhas");
   ("updates.check_prompt", "Verifique se há uma versão mais recente.");
   ("updates.checking", "Procurando atualizações…");
   ("updates.starting", "Iniciando a atualização…");
   ("updates.updating_to", "Atualizando para");
   ("updates.completed_to", "Atualizado para");
   ("updates.failed_title", "A atualização não foi concluída");
   ("updates.failed_text", "A atualização falhou. O Velora continua na versão anterior.");
   ("updates.not_started", "O atualizador não iniciou a atualização. Verifique se velora-updater.service está em execução.");
   ("updates.check_again", "Verificar novamente");
   ("updates.update_now", "Atualizar");
   ("updates.reload", "Recarregar página");
   ("updates.reconnecting", "O Velora está reiniciando. Aguardando…");
   ("updates.keep_open", "Você pode manter esta página aberta; ela se atualiza sozinha. O DNS continua respondendo pela versão atual até a troca.");
   ("updates.completed_text", "A atualização terminou e passou nas verificações. Recarregue a página para carregar a nova interface.");
   ("updates.release_date", "Lançada");
   ("settings.entry", "Entrada");
   ("settings.fix_fields", "Nada foi alterado. Corrija os campos destacados e tente novamente.");
   ("settings.restart_required", "Nada foi alterado. Os campos destacados exigem reinício: edite o arquivo de configuração e reinicie o Velora DNS.");
   ("settings.restart_field", "Requer reinício");
   ("settings.check", "Verificar");
   ("settings.check_ok", "As configurações são válidas e podem ser aplicadas sem reinício.");
   ("restore.title", "Restaurar um backup");
   ("restore.hint", "Envie um backup criptografado para verificá-lo. Nada muda até você confirmar; o Velora reinicia, mantém uma cópia de segurança e reverte automaticamente se não iniciar.");
   ("restore.file", "Arquivo de backup (.vdns)");
   ("restore.inspect", "Verificar backup");
   ("restore.inspecting", "Verificando…");
   ("restore.inspect_failed", "Não foi possível verificar o backup.");
   ("restore.review_title", "O backup é válido");
   ("restore.created", "Criado");
   ("restore.version", "Versão do Velora");
   ("restore.schema", "Esquema do banco");
   ("restore.contents", "Conteúdo");
   ("restore.zones", "zonas");
   ("restore.records", "registros");
   ("restore.blocklists", "listas");
   ("restore.rewrites", "reescritas");
   ("restore.forward_rules", "regras de encaminhamento");
   ("restore.clients", "clientes");
   ("restore.users", "usuários");
   ("restore.listeners", "Escuta");
   ("restore.web", "web");
   ("restore.confirm", "Substituir a configuração e os dados atuais por este backup. Uma cópia de segurança do estado atual é mantida.");
   ("restore.restore", "Restaurar e reiniciar");
   ("restore.schedule_failed", "Não foi possível iniciar a restauração.");
   ("restore.manual_restart", "A restauração está agendada. Reinicie o Velora DNS para aplicá-la.");
   ("restore.restarting", "O Velora está reiniciando para aplicar o backup. Esta página será atualizada ao voltar.");
   ("restore.signed_out", "O Velora voltou com os dados restaurados. Entre com uma conta do backup.");
   ("restore.again", "Restaurar outro backup");
   ("restore.backup_from", "Backup de");
   ("restore.safety_copy", "Estado anterior mantido em");
   ("restore.state_completed", "Restauração concluída.");
   ("restore.state_rolled_back", "Restauração revertida.");
   ("restore.state_failed", "A restauração falhou.");
   ("restore.state_applied", "Restauração aplicada; aguardando prontidão.");
   ("restore.state_pending", "Restauração agendada.");
   ("restore.passphrase", "Frase-senha do backup");
   ("app.scrollable_table", "rola na horizontal");
   ("palette.title", "Paleta de comandos");
   ("palette.placeholder", "Buscar páginas, zonas, registros, clientes…");
   ("palette.results", "Resultados");
   ("palette.pages", "Páginas");
   ("palette.actions", "Ações");
   ("palette.kind_zone", "Zonas");
   ("palette.kind_record", "Registros");
   ("palette.kind_client", "Clientes");
   ("palette.kind_rewrite", "Reescritas DNS");
   ("palette.kind_forwarding", "Encaminhamento condicional");
   ("palette.kind_blocklist", "Listas de bloqueio");
   ("palette.no_results", "Nenhum resultado.");
   ("palette.navigate", "navegar");
   ("palette.open", "abrir");
   ("palette.toggle", "abrir ou fechar");
   ("palette.open_button", "Buscar");
   ("palette.add_client", "Adicionar cliente");
   ("palette.create_backup", "Criar backup");
   ("cluster.action_failed", "A ação do cluster falhou.");
   ("cluster.never", "nunca");
   ("cluster.role", "Função");
   ("cluster.role_standalone", "Independente");
   ("cluster.role_primary", "Primário do cluster");
   ("cluster.role_replica", "Réplica do cluster");
   ("cluster.replicas", "Réplicas");
   ("cluster.in_sync_count", "sincronizadas");
   ("cluster.revision", "Revisão das zonas");
   ("cluster.zones_replicated", "zonas replicadas");
   ("cluster.last_sync", "Última sincronização");
   ("cluster.sync_failed", "A última sincronização falhou")].

Definition pt_BR_7 : list (string * string) :=
  [("cluster.sync_ok", "Atualizado com o primário");
   ("cluster.members", "Réplicas");
   ("cluster.members_hint", "Nós que copiam as zonas deste primário. Eles se reportam a cada 30 segundos.");
   ("cluster.add_node", "Adicionar nó");
   ("cluster.token_title", "Token de entrada criado");
   ("cluster.token_steps", "No novo nó, abra Cluster → Entrar em um cluster e informe:");
   ("cluster.token_expires", "O token expira às");
   ("cluster.token_once", "Funciona uma vez e não será exibido novamente.");
   ("cluster.copy_token", "Copiar token");
   ("cluster.copied", "Copiado");
   ("cluster.token_done", "Concluído");
   ("cluster.no_members", "Ainda não há réplicas");
   ("cluster.no_members_text", "Adicione um nó para criar um token de entrada para um segundo servidor Velora DNS.");
   ("cluster.status_in_sync", "Sincronizado");
   ("cluster.status_behind", "Atualizando");
   ("cluster.status_stale", "Sem resposta");
   ("cluster.status_error", "Erro de sincronização");
   ("cluster.status_never_synced", "Aguardando a primeira sincronização");
   ("cluster.remove", "Remover nó");
   ("cluster.remove_confirm", "Remover esta réplica? Ela deixará de receber atualizações de zonas:");
   ("cluster.removed", "Réplica removida.");
   ("cluster.dissolve", "Dissolver cluster");
   ("cluster.dissolve_hint", "Revoga todas as réplicas e torna este nó independente novamente. As réplicas mantêm a última cópia das zonas.");
   ("cluster.dissolve_confirm", "Dissolver o cluster e revogar todas as réplicas?");
   ("cluster.dissolved", "O cluster foi dissolvido.");
   ("cluster.replica_title", "Replicando do primário");
   ("cluster.replica_hint", "As zonas deste nó são copiadas do primário e aqui são somente leitura. As demais configurações continuam locais.");
   ("cluster.replica_ok", "A replicação está funcionando.");
   ("cluster.sync_now", "Sincronizar agora");
   ("cluster.leave", "Sair do cluster");
   ("cluster.leave_confirm", "Sair do cluster? Este nó mantém suas zonas e volta a ser editável.");
   ("cluster.left", "Este nó saiu do cluster.");
   ("cluster.primary_url", "URL do primário");
   ("cluster.cluster_id", "ID do cluster");
   ("cluster.node_id", "ID do nó");
   ("cluster.join_token", "Token de entrada");
   ("cluster.standalone_title", "Este nó é independente");
   ("cluster.standalone_viewer", "Um administrador pode criar um cluster ou incluir este nó em um.");
   ("cluster.scope_note", "Um cluster mantém as zonas locais idênticas em vários servidores Velora DNS: um primário aceita alterações e as réplicas as copiam a cada 30 segundos. Não há failover automático e as demais configurações são por nó.");
   ("cluster.create_title", "Criar um cluster");
   ("cluster.create_hint", "Este nó se torna o primário. Suas zonas são copiadas para todas as réplicas.");
   ("cluster.node_name", "Nome do nó");
   ("cluster.advertised_url", "Endereço usado pelos outros nós");
   ("cluster.advertised_hint", "A URL da interface web deste nó vista pelas réplicas.");
   ("cluster.allow_http", "Permitir HTTP sem criptografia (apenas rede confiável)");
   ("cluster.skip_check", "Pular a verificação de acesso");
   ("cluster.create", "Criar cluster");
   ("cluster.created", "O cluster foi criado. Adicione um nó para convidar uma réplica.");
   ("cluster.join_title", "Entrar em um cluster");
   ("cluster.join_hint", "Torne este nó uma réplica de um primário. Crie o token de entrada no primário antes.");
   ("cluster.join_warning", "Ao entrar, as zonas locais deste nó são substituídas pelas do primário. As demais configurações não mudam.");
   ("cluster.join_confirm", "Entrar no cluster e substituir as zonas deste nó pelas do primário?");
   ("cluster.join", "Entrar no cluster");
   ("cluster.joined", "Este nó entrou no cluster e está copiando as zonas do primário.");
   ("cluster.zones_read_only", "Este nó é uma réplica do cluster. As zonas são copiadas do primário e só podem ser alteradas lá.")].

Definition pt_BR : list (string * string) :=
  (pt_BR_1 ++ pt_BR_2 ++ pt_BR_3 ++ pt_BR_4 ++ pt_BR_5 ++ pt_BR_6 ++ pt_BR_7)%list.
