(* ===== verification/I18nNl.v ===== *)
(** * The Dutch catalog: web/src/i18n/nl.ts

    Its entries in order, in parts of up to 148 lines of the file. *)
From S2P Require Import Prelude.
Local Open Scope string_scope.

Definition nl_1 : list (string * string) :=
  [("app.skip_to_content", "Ga naar inhoud");
   ("app.workspace_label", "WERKRUIMTE");
   ("app.nav.events", "Gebeurtenissen");
   ("app.title.events", "Gebeurtenissen");
   ("events.unread", "ongelezen");
   ("events.empty", "Nog geen systeemgebeurtenissen.");
   ("events.load_failed", "Systeemgebeurtenissen konden niet worden geladen");
   ("events.mark_read", "Markeer als gelezen");
   ("events.repeated", "Herhaald");
   ("events.open", "Openen");
   ("events.info", "Info");
   ("events.warning", "Waarschuwing");
   ("events.critical", "Kritiek");
   ("app.nav.main", "Hoofdnavigatie");
   ("app.nav.overview", "Overzicht");
   ("app.nav.zones", "Lokale zones");
   ("app.nav.queries", "Query-logboek");
   ("app.nav.blocklists", "Blokkeringslijsten");
   ("app.nav.cache", "DNS-cache");
   ("app.nav.settings", "Instellingen");
   ("app.nav.updates", "Updates");
   ("app.nav.backup", "Back-up");
   ("app.sign_out", "Afmelden");
   ("app.nav.audit", "Auditlogboek");
   ("app.title.audit", "Auditlogboek");
   ("app.nav.diagnostics", "Diagnostiek");
   ("app.title.diagnostics", "Diagnostiek");
   ("app.local_resolver", "Lokale resolver");
   ("app.self_hosted_foundation", "Zelf gehost · Foundation");
   ("app.private_by_default", "Standaard privé");
   ("app.privacy.query_retention", "Query-geschiedenis heeft een beperkte bewaartermijn.");
   ("app.privacy.no_query_history", "Query-geschiedenis wordt niet verzameld.");
   ("app.github_repo", "GitHub-repository");
   ("app.connecting", "Verbinden…");
   ("app.workspace", "Werkruimte");
   ("app.connection_lost", "Verbinding verloren");
   ("app.resolver_online", "Resolver online");
   ("app.title.overview", "Netwerkoverzicht");
   ("app.title.zones", "Lokale zones");
   ("app.title.queries", "Query-logboek");
   ("app.title.blocklists", "Blokkeringslijsten");
   ("app.title.cache", "DNS-cache");
   ("app.title.settings", "Instellingen");
   ("app.title.updates", "Updates");
   ("app.title.backup", "Back-up & Herstellen");
   ("app.eyebrow", "UW NETWERK, IN EEN OOGOPSLAG");
   ("app.subtitle.overview", "Een duidelijk beeld van uw DNS, van verzoek tot antwoord.");
   ("app.subtitle.default", "Bekijk en beheer uw resolver foundation.");
   ("app.refresh", "Vernieuwen");
   ("app.error.showing_last", "Laatst succesvolle momentopname weergegeven van");
   ("app.error.check_server", "Controleer of de Velora-server draait.");
   ("app.error.reach_server", "Kan de server niet bereiken");
   ("app.viewer_readonly", "U bent aangemeld als kijker. Beheeracties zijn alleen-lezen.");
   ("app.connecting_panel", "Verbinden met uw resolver…");
   ("app.not_found", "Pagina niet gevonden.");
   ("app.footer.independent", "Velora DNS · Onafhankelijk. Zelf gehost.");
   ("app.footer.last_updated", "Laatst bijgewerkt");
   ("app.footer.waiting", "Wachten op server");
   ("diagnostics.title", "Systeemstatus");
   ("diagnostics.report_hint", "De download bevat componentstatus en buildinformatie, zonder geheimen of querylogboeken.");
   ("diagnostics.download", "Rapport downloaden");
   ("diagnostics.loading", "Diagnostiek laden…");
   ("diagnostics.load_failed", "Diagnostiek kon niet worden geladen");
   ("diagnostics.upstreams", "Upstreams");
   ("diagnostics.component", "Onderdeel");
   ("diagnostics.state", "Status");
   ("diagnostics.detail", "Details");
   ("diagnostics.state.healthy", "Gezond");
   ("diagnostics.state.degraded", "Verminderd");
   ("diagnostics.state.failed", "Mislukt");
   ("explain.title", "Waarom kwam dit antwoord tot stand?");
   ("explain.hint", "Proefrun van de resolver voor één naam. Er wordt niets bij de upstream opgevraagd, gelogd, gecachet of geteld.");
   ("explain.name", "Naam");
   ("explain.type", "Recordtype");
   ("explain.client", "Clientadres (optioneel)");
   ("explain.client_hint", "Past het filterbeleid van die client toe.");
   ("explain.submit", "Uitleggen");
   ("explain.running", "Bezig met uitleggen…");
   ("explain.failed", "Deze query kon niet worden uitgelegd");
   ("explain.result", "Uitleg");
   ("explain.winner", "Beslissende stap");
   ("explain.answers", "Antwoord");
   ("explain.no_answers", "Geen antwoordrecords: het antwoord zou van een upstream-resolver komen, die niet wordt aangesproken.");
   ("explain.steps", "Bekeken stappen");
   ("explain.step", "Stap");
   ("explain.outcome", "Uitkomst");
   ("explain.detail", "Details");
   ("explain.cname_target", "CNAME-doel");
   ("explain.ttl", "Resterende TTL");
   ("explain.matches", "Overeenkomst");
   ("explain.allowed_by", "Toegestaan door");
   ("explain.not_contacted", "Er is geen upstream aangesproken.");
   ("explain.scope.global", "Globale filtering");
   ("explain.scope.client_policy", "Clientbeleid");
   ("explain.stage.filter", "Blokkeerlijst of clientbeleid");
   ("explain.stage.rewrite", "DNS-rewrite");
   ("explain.stage.zone", "Lokale zone");
   ("explain.stage.cache", "Cache");
   ("explain.stage.forwarding", "Regel voor voorwaardelijk doorsturen");
   ("explain.stage.upstream", "Globale upstream-resolvers");
   ("explain.stage.refused", "Geweigerd");
   ("explain.result.passed", "Doorgelaten");
   ("explain.result.allowed", "Toegestaan");
   ("explain.result.blocked", "Geblokkeerd");
   ("explain.result.no_match", "Geen overeenkomst");
   ("explain.result.answered", "Beantwoord");
   ("explain.result.miss", "Gemist");
   ("explain.result.hit", "Treffer");
   ("explain.result.refused", "Geweigerd");
   ("explain.result.would_forward", "Zou worden doorgestuurd");
   ("explain.result.error", "Fout");
   ("explain.source.local", "Lokaal antwoord");
   ("explain.source.cache", "Cache");
   ("explain.source.blocked", "Geblokkeerd");
   ("explain.source.upstream", "Upstream");
   ("explain.source.refused", "Geweigerd");
   ("audit.title", "Beheerauditlogboek");
   ("audit.hint", "Beheeracties worden 90 dagen bewaard. Geheimen en aanvraaginhoud worden uitgesloten.");
   ("audit.actor", "Gebruiker");
   ("audit.action", "Actie");
   ("audit.result", "Resultaat");
   ("audit.all", "Alle");
   ("audit.success", "Geslaagd");
   ("audit.failure", "Mislukt");
   ("audit.filter", "Filteren");
   ("audit.time", "Tijd");
   ("audit.target", "Doel");
   ("audit.empty", "Geen auditgebeurtenissen gevonden.");
   ("audit.more", "Meer laden");
   ("audit.load_failed", "Auditgebeurtenissen konden niet worden geladen");
   ("auth.checking", "Sessie controleren…");
   ("auth.sign_in_title", "Aanmelden bij Velora DNS");
   ("auth.username", "Gebruikersnaam");
   ("auth.password", "Wachtwoord");
   ("auth.sign_in", "Aanmelden");
   ("auth.sign_in_failed", "Aanmelding mislukt");
   ("settings.server_configuration", "Serverconfiguratie");
   ("settings.language", "Taal");
   ("settings.theme", "Thema");
   ("settings.theme_light", "Licht");
   ("settings.theme_dark", "Donker");
   ("settings.theme_auto", "Automatisch");
   ("settings.theme_hint", "Automatisch volgt het lichte of donkere kleurenschema van uw besturingssysteem.");
   ("settings.log_level", "Logboekniveau");
   ("settings.rate_limiting", "Snelheidsbeperking");
   ("settings.rate_limit_hint", "Snelheidsbeperking is standaard uitgeschakeld. Schakel het in om de resolver te beschermen tegen bronoverstroming en hoge query-snelheden.");
   ("settings.rate_limit_enabled", "Snelheidsbeperking inschakelen");
   ("settings.rate_limit_global_qps", "Globaal queries per seconde")].

Definition nl_2 : list (string * string) :=
  [("settings.rate_limit_client_qps", "Queries per seconde per client");
   ("settings.rate_limit_burst", "Piektolerantie");
   ("settings.rate_limit_rejected_total", "Geweigerde query’s");
   ("settings.rate_limit_last_rejected", "Laatste weigering");
   ("settings.save", "Opslaan");
   ("settings.rate_limit_load_failed", "Kan snelheidsbeperkingsinstellingen niet laden");
   ("settings.rate_limit_save_failed", "Kan snelheidsbeperkingsinstellingen niet opslaan");
   ("settings.rate_limit_saved", "Snelheidsbeperkingsinstellingen opgeslagen.");
   ("settings.rate_limit_loading", "Snelheidsbeperkingsinstellingen laden…");
   ("settings.edit_hint", "Deze instellingen komen overeen met de opties van de snelle installatie. Sommige wijzigingen vereisen een herstart; cache-TTT-wijzigingen worden direct toegepast.");
   ("settings.dns_section", "DNS-instellingen");
   ("settings.cache_section", "DNS-cache");
   ("settings.cache_ttl_label", "Upstream-antwoord cache TTT (seconden)");
   ("settings.cache_ttl_hint", "86400 seconden = 24 uur. Bereik: 0–604800 seconden; 0 gebruikt de originele TTT van elke upstream. Upstream-wijzigingen kunnen zo lang duren voordat ze zichtbaar worden. Het wijzigen hiervan wist bestaande cache-antwoorden. Nul-TTT en ondertekende DNSSEC-antwoorden behouden hun originele TTT.");
   ("settings.cache_ttl_invalid", "Voer een geheel getal in van 0 tot 604800 seconden.");
   ("settings.dns_listen_label", "DNS-luisteradressen (door komma's gescheiden)");
   ("settings.dns_listen_warning", "Waarschuwing: 0.0.0.0 maakt DNS toegankelijk voor uw netwerk. Zorg ervoor dat de firewall alleen vertrouwde clients toelaat.");
   ("settings.upstreams_label", "Upstream DNS-servers (door komma's gescheiden)");
   ("settings.upstreams_hint", "Formaat: IP:PORT (bijv. 1.1.1.1:53). DoH-upstreams gebruiken https://host/dns-query");
   ("settings.allowed_clients_label", "Toegestane clientnetwerken (door komma's gescheiden CIDR's)");
   ("settings.allowed_clients_hint", "Alleen deze netwerken kunnen de resolver bevragen. Voorbeeld: 192.168.1.0/24, 10.0.0.0/8");
   ("settings.web_section", "Web-UI-instellingen");
   ("settings.web_listen_label", "Web-UI-luisteradres (IP:poort)");
   ("settings.web_listen_warning", "Waarschuwing: 0.0.0.0 maakt de Web-UI toegankelijk voor uw netwerk. Gebruik een firewall of authenticatie.");
   ("settings.allowed_hosts_label", "Toegestane hosts (door komma's gescheiden)");
   ("settings.allowed_hosts_hint", "Host-headers die toegang hebben tot de beheer-API. Gebruik * om alles toe te staan (niet aanbevolen op een LAN).");
   ("settings.logging_section", "Logboek & overig");
   ("settings.enable_query_log", "Query-logboek inschakelen");
   ("settings.save_configuration", "Configuratie opslaan");
   ("settings.saving", "Opslaan…");
   ("settings.save_success", "Configuratie opgeslagen en toegepast.");
   ("settings.save_failed", "Configuratie opslaan mislukt");
   ("dashboard.total_queries", "Totaal queries");
   ("dashboard.since_start", "Sinds de laatste reset van statistieken");
   ("dashboard.reset_statistics", "Statistieken resetten");
   ("dashboard.reset_confirm", "Alle tellers voor aanvragen, cache en snelheidslimiet resetten? Dit kan niet ongedaan worden gemaakt.");
   ("dashboard.reset_failed", "Statistieken konden niet worden gereset");
   ("dashboard.qps", "Queries / seconde");
   ("dashboard.rolling_avg", "Rollend 60-seconden gemiddelde");
   ("dashboard.cache_hit_rate", "Cache-hitpercentage");
   ("dashboard.answers_from_memory", "antwoorden vanuit geheugen");
   ("dashboard.uptime", "Uptijd");
   ("dashboard.process_lifetime", "Huidige proceslevensduur");
   ("dashboard.top_domains", "Topdomeinen");
   ("dashboard.top_clients", "Topclients");
   ("dashboard.query_activity", "Query-activiteit");
   ("dashboard.live_samples", "Live-monsters van uw resolver");
   ("dashboard.refresh_5s", "5s vernieuwen");
   ("dashboard.queries_per_sec", "queries / sec");
   ("dashboard.chart_aria", "Query-snelheid bemonsterd tijdens deze browsersessie");
   ("dashboard.session_samples", "Sessiemonsters");
   ("dashboard.now", "Nu");
   ("dashboard.upstream_resolvers", "Upstream-resolvers");
   ("dashboard.ordered_failover", "Geordende failover met TCP-back-up");
   ("dashboard.endpoint", "Endpoint");
   ("dashboard.health", "Status");
   ("dashboard.upstream_unknown", "Onbekend");
   ("dashboard.upstream_healthy", "Gezond");
   ("dashboard.upstream_degraded", "Verminderd");
   ("dashboard.upstream_unavailable", "Niet beschikbaar");
   ("dashboard.priority", "Prioriteit");
   ("dashboard.attempt_timeout", "Poging time-out");
   ("dashboard.primary", "Primair");
   ("dashboard.fallback", "Back-up");
   ("dashboard.config_shown", "Configuratie weergegeven. Bereikbaarheid wordt per query beoordeeld.");
   ("dashboard.retained_last_24h", "Bewaarde queries in de afgelopen 24 uur");
   ("dashboard.unavailable_no_logging", "Niet beschikbaar terwijl query-logboek is uitgeschakeld.");
   ("dashboard.loading_stats", "Query-statistieken laden…");
   ("dashboard.stats_load_failed", "Kan query-statistieken niet laden");
   ("dashboard.no_retained", "Geen bewaarde queries in dit venster.");
   ("cache.live_entries", "Actieve items");
   ("cache.capacity", "Capaciteit");
   ("cache.hits", "Cache-hits");
   ("cache.since_startup", "Sinds processtart");
   ("cache.misses", "Cache-missen");
   ("cache.includes_uncacheable", "Inclusief niet-cacheerbare verzoeken");
   ("cache.memory_cache", "Geheugencache");
   ("cache.description", "Positieve upstream-antwoorden gebruiken de geconfigureerde cache-TTT. Nul-TTT, ondertekende DNSSEC en negatieve antwoorden behouden hun originele regels. Minst recent gebruikte items worden verwijderd bij capaciteit. Cache-inhoud wordt nooit opgeslagen in SQLite.");
   ("cache.clear_description", "Het wissen van de cache verwijdert alle huidige antwoorden. Levensduur hit- en mistellers worden behouden.");
   ("cache.clearing", "Wissen…");
   ("cache.clear", "Cache wissen");
   ("cache.cleared", "Cache gewist. Lokale zones blijven actief; andere queries zullen upstream-resolvers gebruiken.");
   ("cache.flush_failed", "Cache legen mislukt");
   ("cache.entries_title", "Gecachte DNS-items");
   ("cache.entries_description", "Huidige antwoorden, meest recent gebruikt eerst.");
   ("cache.entries_loading", "Cache-items laden…");
   ("cache.entries_load_failed", "Kan cache-items niet laden");
   ("cache.entries_empty", "De cache is leeg.");
   ("cache.entries_scroll_hint", "Scroll zijwaarts om alle kolommen te zien.");
   ("cache.entry_name", "Naam");
   ("cache.entry_type", "Type");
   ("cache.entry_answer", "Antwoord");
   ("cache.entry_status", "Status");
   ("cache.entry_ttl", "Resterende TTT");
   ("cache.seconds", "s");
   ("cache.previous", "Vorige");
   ("cache.next", "Volgende");
   ("querylog.unavailable_title", "Query-geschiedenis niet beschikbaar");
   ("querylog.unavailable_text", "Schakel query-logboek in om toekomstige DNS-activiteit te verzamelen en te inspecteren.");
   ("querylog.up_to_100", "Maximaal 100 bewaarde antwoorden per pagina");
   ("querylog.refresh", "Queries vernieuwen");
   ("querylog.filters_aria", "Query-filters");
   ("querylog.domain", "Domein");
   ("querylog.contains_example", "Bevat example.com");
   ("querylog.client_ip", "Client-IP");
   ("querylog.exact_ip", "Exact IP-adres");
   ("querylog.query_type", "Querytype");
   ("querylog.all_types", "Alle types");
   ("querylog.source", "Bron");
   ("querylog.all_sources", "Alle bronnen");
   ("querylog.apply_filters", "Filters toepassen");
   ("querylog.show_blocked", "Geblokkeerde queries tonen");
   ("querylog.error_stale", "Eerdere resultaten kunnen verouderd zijn.");
   ("querylog.loading", "Query-logboek laden…");
   ("querylog.no_matches", "Geen overeenkomende queries");
   ("querylog.no_matches_text", "Probeer andere filters of genereer DNS-verkeer met logboekregistratie ingeschakeld.");
   ("querylog.caption", "DNS-query-logboek");
   ("querylog.col_timestamp", "Tijdstempel");
   ("querylog.col_client", "Client");
   ("querylog.col_domain", "Domein");
   ("querylog.col_type", "Type");
   ("querylog.col_source", "Bron");
   ("querylog.col_response", "Antwoord");
   ("querylog.col_latency", "Vertraging");
   ("querylog.older", "Oudere queries");
   ("querylog.load_failed", "Kan query-logboek niet laden");
   ("blocklists.count", "externe bronnen");
   ("blocklists.count_one", "externe bron");
   ("blocklists.sources_label", "DNS-beleidsbronnen");
   ("blocklists.reload", "Herladen");
   ("blocklists.add_source", "Bron toevoegen");
   ("blocklists.add_aria", "Blokkeringsbron toevoegen");
   ("blocklists.add_title", "Externe blokkeringslijst toevoegen");
   ("blocklists.add_text", "Alleen openbare HTTP(S)-bronnen worden geaccepteerd. Mislukte verversingen behouden de vorige DNS-regels.");
   ("blocklists.name", "Naam");
   ("blocklists.source_url", "Bron-URL");
   ("blocklists.community_hosts", "Community-hosts");
   ("blocklists.adding", "Toevoegen…");
   ("blocklists.cancel", "Annuleren");
   ("blocklists.loading", "Blokkeringsbronnen laden…");
   ("blocklists.empty_title", "Geen externe blokkeringslijsten");
   ("blocklists.empty_text", "Voeg een vertrouwde openbare host- of domeinlijst toe om DNS-blokkering toe te passen.");
   ("blocklists.caption", "Externe blokkeringsbronnen");
   ("blocklists.col_source", "Bron");
   ("blocklists.col_status", "Status");
   ("blocklists.col_last_update", "Laatste update");
   ("blocklists.update_failed", "Update mislukt");
   ("blocklists.active", "ACTIEF")].

Definition nl_3 : list (string * string) :=
  [("blocklists.disabled", "UITGESCHAKELD");
   ("blocklists.never", "Nooit");
   ("blocklists.updating", "Bijwerken…");
   ("blocklists.update", "Bijwerken");
   ("blocklists.load_failed", "Kan blokkeringslijsten niet laden");
   ("blocklists.add_failed", "Kan bron niet toevoegen");
   ("blocklists.update_failed_msg", "Kan bron niet bijwerken");
   ("blocklists.col_domains", "Domeinen");
   ("blocklists.local", "Lokaal");
   ("blocklists.enable", "Inschakelen");
   ("blocklists.disable", "Uitschakelen");
   ("blocklists.toggle_failed", "Kan bron niet omschakelen");
   ("blocklists.edit_content", "Inhoud bewerken");
   ("blocklists.edit_content_aria", "Blokkeringsinhoud bewerken");
   ("blocklists.edit_content_title", "Blokkeringsdomeinen bewerken");
   ("blocklists.edit_content_text", "Voer één domein per regel in. Regels die beginnen met 0.0.0.0 of een opmerking worden als host-items behandeld.");
   ("blocklists.domains_label", "Domeinen");
   ("blocklists.saving", "Opslaan…");
   ("blocklists.save", "Opslaan");
   ("blocklists.content_save_failed", "Kan inhoud niet opslaan");
   ("blocklists.delete", "Verwijderen");
   ("blocklists.confirm_delete", "Bevestigen");
   ("blocklists.delete_failed", "Kan bron niet verwijderen");
   ("zones.count", "lokale zones");
   ("zones.count_one", "lokale zone");
   ("zones.local_authority", "Lokale autoriteit");
   ("zones.reload", "Zones herladen");
   ("zones.add_zone", "Zone toevoegen");
   ("zones.error_stale", "Laatst geladen zones weergegeven. Herlaad vóór wijzigingen.");
   ("zones.error_retry", "Herlaad om het opnieuw te proberen.");
   ("zones.reload_before_retry", "Herlaad zones vóór het opnieuw proberen.");
   ("zones.loading", "Lokale zones laden…");
   ("zones.empty_title", "Geef uw netwerk vertrouwde namen");
   ("zones.empty_text", "Maak een zone aan zoals home.arpa en voeg records toe voor uw router, services en apparaten.");
   ("zones.create_first", "Maak uw eerste zone aan");
   ("zones.filter_aria", "Zones filteren");
   ("zones.filter_placeholder", "Zoek een zone…");
   ("zones.nav_aria", "Lokale zones");
   ("zones.records_custom", "aangepaste records");
   ("zones.no_matching", "Geen overeenkomende zones.");
   ("zones.authoritative_eyebrow", "AUTORITATIEVE ZONE");
   ("zones.revision", "Revisie");
   ("zones.add_record", "Record toevoegen");
   ("zones.delete_zone_aria", "Zone verwijderen");
   ("zones.primary_ns", "Primair NS");
   ("zones.contact", "Contact");
   ("zones.delete_record_confirm", "Record verwijderen");
   ("zones.delete_zone_confirm", "en alle");
   ("zones.delete_zone_confirm2", "records? Dit kan niet ongedaan worden gemaakt.");
   ("zones.deleting", "Verwijderen…");
   ("zones.delete_record_perm", "Record permanent verwijderen");
   ("zones.delete_zone_perm", "Zone permanent verwijderen");
   ("zones.cancel_deletion", "Verwijdering annuleren");
   ("zones.record_saved", "Record opgeslagen. DNS-wijzigingen zijn actief.");
   ("zones.record_deleted", "Record verwijderd. DNS-wijzigingen zijn actief.");
   ("zones.zone_deleted", "Zone en bijbehorende records verwijderd.");
   ("zones.zone_created", "Zone aangemaakt. Voeg records toe om deze te gebruiken.");
   ("zones.delete_failed", "Kan niet verwijderen");
   ("zones.footnote", "Lokale antwoorden hebben prioriteit boven doorsturen. Apparaten kunnen eerdere antwoorden behouden totdat hun TTT verloopt.");
   ("zones.record_form_edit_aria", "DNS-record bewerken");
   ("zones.record_form_add_aria", "DNS-record toevoegen");
   ("zones.edit_record", "Record bewerken");
   ("zones.add_record_form", "Record toevoegen");
   ("zones.changes_apply", "Wijzigingen worden toegepast op");
   ("zones.record_name", "Recordnaam");
   ("zones.router_or_at", "router of @");
   ("zones.relative_name_hint", "Relatieve naam, @ voor de zone, of een absolute naam eindigend op een punt.");
   ("zones.record_type", "Recordtype");
   ("zones.ttl_seconds", "TTT (seconden)");
   ("zones.priority", "Prioriteit");
   ("zones.ipv4_address", "IPv4-adres");
   ("zones.ipv6_address", "IPv6-adres");
   ("zones.text_value", "Tekstwaarde");
   ("zones.target_hostname", "Doel-hostnaam");
   ("zones.invalid_ttl", "Voer geldige TTT- en prioriteitswaarden in.");
   ("zones.record_conflict", "Deze zone is elders gewijzigd. Uw concept is ongewijzigd. Sluit dit formulier en herlaad zones vóór het opnieuw proberen.");
   ("zones.save_failed", "Kan record niet opslaan");
   ("zones.saving", "Opslaan…");
   ("zones.save_record", "Record opslaan");
   ("zones.cancel", "Annuleren");
   ("zones.no_records_title", "Nog geen aangepaste records");
   ("zones.no_records_text", "Voeg uw eerste record toe. SOA en terugval apex-NS worden automatisch beheerd.");
   ("zones.records_aria", "DNS-records voor");
   ("zones.col_name", "Naam");
   ("zones.col_type", "Type");
   ("zones.col_value", "Waarde");
   ("zones.col_ttl", "TTT");
   ("zones.col_actions", "Acties");
   ("zones.edit_aria", "Bewerken");
   ("zones.delete_aria", "Verwijderen");
   ("zones.record_word", "record");
   ("zones.create_title", "Lokale zone aanmaken");
   ("zones.create_text", "Velora zal voor deze zone antwoorden en onbekende namen binnen uw netwerk bewaren.");
   ("zones.zone_name", "Zonenaam");
   ("zones.authority_settings", "Autoriteitsinstellingen");
   ("zones.primary_nameserver", "Primair nameserver");
   ("zones.contact_mailbox", "Contact (DNS-mailbox)");
   ("zones.creating", "Aanmaken…");
   ("zones.create_zone", "Zone aanmaken");
   ("zones.create_zone_aria", "DNS-zone aanmaken");
   ("zones.create_failed", "Kan zone niet aanmaken");
   ("zones.load_failed", "Kan zones niet laden");
   ("updates.loading", "Update-status laden...");
   ("updates.viewer_readonly", "U bent aangemeld als kijker. Update-verzoeken zijn alleen-lezen.");
   ("updates.in_progress", "Update bezig...");
   ("updates.history", "Update-geschiedenis");
   ("updates.no_history", "Nog geen updates geregistreerd.");
   ("updates.col_from", "Van");
   ("updates.col_to", "Naar");
   ("updates.col_state", "Status");
   ("updates.col_started", "Gestart");
   ("updates.state_idle", "Inactief");
   ("updates.state_downloading", "Downloaden");
   ("updates.state_verifying", "Controleren");
   ("updates.state_installing", "Installeren");
   ("updates.state_readiness", "Wachten op gereedheid");
   ("updates.state_completed", "Voltooid");
   ("updates.state_rolled_back", "Teruggedraaid");
   ("updates.state_failed", "Mislukt");
   ("updates.load_failed", "Kan update-status niet laden");
   ("updates.request_failed", "Kan update niet aanvragen");
   ("updates.check", "Check for updates");
   ("updates.available", "Update available");
   ("updates.up_to_date", "The system is up to date.");
   ("updates.progress", "Update progress");
   ("updates.rollback_used", "The previous version was restored.");
   ("updates.rollback_recovered", "The previous version was restored and is healthy.");
   ("backup.sqlite_only", "Versleutelde export ondersteunt momenteel alleen SQLite-installaties.");
   ("backup.create_title", "Versleutelde back-up");
   ("backup.create_hint", "Download een versieback-up van configuratie en blijvende gegevens. Bewaar het wachtwoord veilig.");
   ("backup.passphrase", "Wachtwoord");
   ("backup.creating", "Bezig met maken…");
   ("backup.create", "Maken en downloaden");
   ("backup.create_failed", "Back-up kon niet worden gemaakt");
   ("backup.restore_hint", "Herstel een versleutelde back-up terwijl de dienst is gestopt. De opdracht bewaart een veiligheidskopie.");
   ("backup.loading", "Back-up-status laden...");
   ("backup.status_title", "Back-up-status");
   ("backup.database", "Database:");
   ("backup.last_backup", "Laatste back-up:");
   ("backup.no_backup", "Nog geen back-up geregistreerd");
   ("backup.verification_state", "Verificatiestatus:");
   ("backup.state_unknown", "Onbekend");
   ("backup.state_unverified", "Niet geverifieerd");
   ("backup.state_verified", "Geverifieerd");
   ("backup.verify_title", "Back-up verifiëren");
   ("backup.verify_text", "Plaats een kopie van de back-up naast de serverdatabase om de integriteit te verifiëren.");
   ("backup.file_name", "Back-up bestandsnaam");
   ("backup.file_hint", "Plaats de back-up naast de database op de Velora-server. Alleen de bestandsnaam wordt gebruikt; browserbestanden en andere mappen kunnen hier niet worden gecontroleerd.");
   ("backup.viewer_readonly", "U bent aangemeld als kijker. Back-upverificatie is alleen-lezen.");
   ("backup.verifying", "Verifiëren...");
   ("backup.verify", "Verifiëren");
   ("backup.valid", "Back-up is geldig")].

Definition nl_4 : list (string * string) :=
  [("backup.invalid", "Back-up is ongeldig");
   ("backup.schema_version", "Schema-versie:");
   ("backup.records", "Records:");
   ("backup.instructions", "Terugzetten via de opdrachtregel");
   ("backup.native", "Natuurlijke installatie");
   ("backup.docker", "Docker Compose");
   ("backup.online", "Online back-up (SQLite)");
   ("backup.load_failed", "Kan back-up-status niet laden");
   ("backup.verify_failed", "Verificatie mislukt");
   ("backup.step_stop_service", "Stop de service");
   ("backup.step_create_backup", "Maak een consistente back-up");
   ("backup.step_restart_service", "Herstart de service");
   ("backup.step_stop_container", "Stop de container");
   ("backup.step_backup_volume", "Maak een back-up van het volume");
   ("backup.step_restart_container", "Herstart de container");
   ("backup.step_online_backup", "Gebruik de SQLite back-up API voor een consistente online back-up");
   ("onboarding.welcome", "Welkom bij Velora DNS");
   ("onboarding.complete_steps", "Voltooi deze stappen om uw installatie te beveiligen");
   ("onboarding.dismiss", "Negeren");
   ("onboarding.change_credentials", "Aanmeldgegevens wijzigen");
   ("onboarding.change_credentials_text", "Het standaard beheerderswachtwoord moet worden gewijzigd na de eerste aanmelding.");
   ("onboarding.review_dns", "DNS-configuratie bekijken");
   ("onboarding.review_dns_text", "Zorg ervoor dat upstream-servers en toegestane clients correct zijn geconfigureerd voor uw netwerk.");
   ("onboarding.restrict_clients", "Clienttoegang beperken");
   ("onboarding.restrict_clients_text", "Configureer allowed_clients CIDR's om te beperken welke netwerken uw resolver kunnen gebruiken.");
   ("onboarding.verify_db", "Databaseopslag verifiëren");
   ("onboarding.verify_db_text", "Zorg ervoor dat het databasepad zich op betrouwbare opslag met voldoende ruimte bevindt.");
   ("onboarding.update_policy", "Update-beleid configureren");
   ("onboarding.update_policy_text", "Bekijk het updatecentrum om te begrijpen hoe u uw installatie actueel kunt houden.");
   ("app.nav.dhcp", "DHCP");
   ("app.title.dhcp", "DHCP-server");
   ("dhcp.loading", "DHCP-gegevens laden…");
   ("dhcp.load_failed", "Unable to load DHCP data");
   ("dhcp.create_pool_failed", "Unable to create pool");
   ("dhcp.delete_pool_failed", "Unable to delete pool");
   ("dhcp.create_reservation_failed", "Unable to create reservation");
   ("dhcp.delete_reservation_failed", "Unable to delete reservation");
   ("dhcp.delete_lease_failed", "Unable to delete lease");
   ("dhcp.pools", "DHCP-pools");
   ("dhcp.add_pool", "Pool toevoegen");
   ("dhcp.pool_name", "Poolsnaam");
   ("dhcp.interface", "Interface");
   ("dhcp.subnet_cidr", "Subnet (CIDR)");
   ("dhcp.subnet", "Subnet");
   ("dhcp.gateway", "Gateway");
   ("dhcp.dns_servers", "DNS-servers");
   ("dhcp.lease_seconds", "Leasetijd (seconden)");
   ("dhcp.leases_label", "Leases");
   ("dhcp.create", "Aanmaken");
   ("dhcp.no_pools", "Geen DHCP-pools geconfigureerd. Maak er een aan om leases te gaan uitgeven.");
   ("dhcp.reservations", "Vaste reserveringen");
   ("dhcp.mac_address", "MAC-adres");
   ("dhcp.ip_address", "IP-adres");
   ("dhcp.hostname", "Hostnaam");
   ("dhcp.add", "Toevoegen");
   ("dhcp.active_leases", "Actieve leases");
   ("dhcp.expires", "Verloopt");
   ("dhcp.no_leases", "Geen actieve leases.");
   ("dhcp.expired", "Verlopen");
   ("dhcp.confirm_delete_pool", "Deze pool en al zijn reserveringen verwijderen?");
   ("dhcp.name", "Naam");
   ("app.nav.cluster", "Cluster");
   ("app.title.cluster", "Clusteroverzicht");
   ("cluster.loading", "Clustergegevens laden…");
   ("cluster.load_failed", "Unable to load cluster data");
   ("cluster.name", "Naam");
   ("cluster.status", "Status");
   ("cluster.version", "Versie");
   ("cluster.last_seen", "Laatst gezien");
   ("cluster.config_history", "Configuratiegeschiedenis");
   ("cluster.no_versions", "Geen configuratieversies geregistreerd.");
   ("cluster.hash", "Hash");
   ("cluster.applied_by", "Toegepast door");
   ("cluster.applied_at", "Toegepast op");
   ("app.nav.group_dns", "DNS");
   ("app.nav.group_network", "Netwerk");
   ("app.nav.group_system", "Systeem");
   ("app.menu_open", "Navigatie openen");
   ("app.menu_close", "Navigatie sluiten");
   ("app.theme_to_dark", "Overschakelen naar donker thema");
   ("app.theme_to_light", "Overschakelen naar licht thema");
   ("app.signed_in_as", "Aangemeld als");
   ("app.subtitle.zones", "Gezaghebbende namen voor apparaten en diensten in je netwerk.");
   ("app.subtitle.queries", "Recente zoekopdrachten beantwoord door deze resolver.");
   ("app.subtitle.blocklists", "Domeinlijsten die als geblokkeerd worden beantwoord.");
   ("app.subtitle.cache", "Antwoorden in het geheugen om herhaalde zoekopdrachten te versnellen.");
   ("app.subtitle.settings", "Resolver, webinterface en persoonlijke voorkeuren.");
   ("app.subtitle.updates", "Geïnstalleerde versie, beschikbare releases en updategeschiedenis.");
   ("app.subtitle.backup", "Maak versleutelde back-ups en controleer bestaande.");
   ("app.subtitle.dhcp", "Adrespools, reserveringen en actieve leases.");
   ("app.subtitle.cluster", "Houd lokale zones gelijk op meerdere Velora DNS-servers.");
   ("app.subtitle.diagnostics", "Status van componenten en een deelbaar supportrapport.");
   ("app.subtitle.events", "Zaken die je aandacht nodig hebben.");
   ("app.subtitle.audit", "Wie wat heeft gewijzigd, en wanneer.");
   ("settings.preferences", "Voorkeuren");
   ("dashboard.general_statistics", "Algemene statistieken");
   ("dashboard.blocked", "Geblokkeerd door filters");
   ("dashboard.of_all_queries", "van alle zoekopdrachten");
   ("dashboard.query_logging", "Querylogboek");
   ("dashboard.enabled", "Ingeschakeld");
   ("dashboard.disabled", "Uitgeschakeld");
   ("dashboard.requests", "Verzoeken");
   ("dashboard.domain", "Domein");
   ("dashboard.client", "Client");
   ("dashboard.upstream_servers", "Upstream-servers");
   ("dashboard.collecting_samples", "Metingen verzamelen…");
   ("cache.search_label", "Zoeken op naam");
   ("cache.search_placeholder", "example.org");
   ("cache.all_types", "Alle typen");
   ("cache.remove_entry", "Uit cache verwijderen");
   ("cache.invalidate_title", "Domein ongeldig maken");
   ("cache.invalidate_text", "Verwijder gecachte antwoorden voor één naam zonder de hele cache te legen.");
   ("cache.domain", "Domein");
   ("cache.include_subdomains", "Subdomeinen meenemen");
   ("cache.invalidate", "Ongeldig maken");
   ("cache.removed_entries", "Verwijderde cache-items");
   ("cache.invalidate_failed", "Ongeldig maken mislukt");
   ("cache.flush_confirm", "Alle gecachte antwoorden wissen? Teller voor treffers en missers blijft behouden.");
   ("cache.no_matches", "Geen cache-items komen overeen met dit filter.");
   ("blocklists.schedule", "Updateschema");
   ("blocklists.schedule_for", "Updateschema voor");
   ("blocklists.manual", "Handmatig");
   ("blocklists.every_1h", "Elk uur");
   ("blocklists.every_6h", "Elke 6 uur");
   ("blocklists.every_12h", "Elke 12 uur");
   ("blocklists.every_24h", "Dagelijks");
   ("blocklists.every_7d", "Wekelijks");
   ("blocklists.col_next_update", "Volgende update");
   ("blocklists.due_now", "Nu gepland");
   ("blocklists.never_updated", "Nooit bijgewerkt");
   ("blocklists.retry_count", "mislukte pogingen");
   ("blocklists.schedule_failed", "Schema kon niet worden gewijzigd");
   ("app.nav.forwarding", "Voorwaardelijk doorsturen");
   ("app.title.forwarding", "Voorwaardelijk doorsturen");
   ("app.subtitle.forwarding", "Stuur zoekopdrachten voor gekozen domeinen naar eigen resolvers.");
   ("forwarding.count", "doorstuurregels");
   ("forwarding.add", "Regel toevoegen");
   ("forwarding.add_title", "Nieuwe doorstuurregel");
   ("forwarding.edit_title", "Doorstuurregel bewerken");
   ("forwarding.form_hint", "De regel geldt ook voor alle namen onder het domein. De meest specifieke actieve regel wint.");
   ("forwarding.domain", "Domein");
   ("forwarding.upstreams", "Resolvers");
   ("forwarding.upstreams_hint", "1–4 adressen als IP of IP:poort, gescheiden door komma's. Zonder poort wordt 53 gebruikt.");
   ("forwarding.description", "Omschrijving");
   ("forwarding.enabled", "Ingeschakeld");
   ("forwarding.save", "Regel opslaan");
   ("forwarding.cancel", "Annuleren")].

Definition nl_5 : list (string * string) :=
  [("forwarding.empty_title", "Geen doorstuurregels");
   ("forwarding.empty_text", "Alle zoekopdrachten gebruiken de globale resolvers. Voeg een regel toe om een domein zoals corp.example via een interne DNS-server op te lossen.");
   ("forwarding.col_status", "Status");
   ("forwarding.test", "Testen");
   ("forwarding.test_title", "Regel testen");
   ("forwarding.test_hint", "Stuurt één zoekopdracht alleen via de resolvers van deze regel, zonder cache.");
   ("forwarding.test_name", "Naam");
   ("forwarding.test_type", "Type");
   ("forwarding.run_test", "Test uitvoeren");
   ("forwarding.test_via", "via");
   ("forwarding.no_answers", "Geen antwoordrecords");
   ("forwarding.edit", "Bewerken");
   ("forwarding.delete", "Verwijderen");
   ("forwarding.delete_confirm", "Doorstuurregel verwijderen voor");
   ("forwarding.toggle", "Regel in- of uitschakelen voor");
   ("forwarding.load_failed", "Doorstuurregels konden niet worden geladen");
   ("forwarding.save_failed", "Regel kon niet worden opgeslagen");
   ("forwarding.saved", "Doorstuurregel opgeslagen. Gecachte antwoorden voor het domein zijn gewist.");
   ("forwarding.disabled", "Uitgeschakeld");
   ("app.nav.rewrites", "DNS-herschrijvingen");
   ("app.title.rewrites", "DNS-herschrijvingen");
   ("app.subtitle.rewrites", "Beantwoord gekozen namen met vaste adressen of aliassen.");
   ("rewrites.count", "herschrijvingen");
   ("rewrites.add", "Herschrijving toevoegen");
   ("rewrites.add_title", "Nieuwe herschrijving");
   ("rewrites.edit_title", "Herschrijving bewerken");
   ("rewrites.form_hint", "Gebruik *.ouder voor alle namen onder een domein. Exacte namen winnen van jokers.");
   ("rewrites.name", "Naam");
   ("rewrites.type", "Type");
   ("rewrites.value", "Antwoord");
   ("rewrites.value_hint_A", "IPv4-adres");
   ("rewrites.value_hint_AAAA", "IPv6-adres");
   ("rewrites.value_hint_CNAME", "Doelhostnaam, normaal opgelost");
   ("rewrites.description", "Omschrijving");
   ("rewrites.enabled", "Ingeschakeld");
   ("rewrites.save", "Herschrijving opslaan");
   ("rewrites.empty_title", "Geen DNS-herschrijvingen");
   ("rewrites.empty_text", "Koppel een naam zoals nas.home aan een adres zonder een zone te maken.");
   ("rewrites.col_notes", "Opmerkingen");
   ("rewrites.blocked_hint", "Eerst geblokkeerd door een blokkeerlijst");
   ("rewrites.overrides_hint", "Overschrijft lokale zone");
   ("rewrites.edit", "Bewerken");
   ("rewrites.delete", "Verwijderen");
   ("rewrites.delete_confirm", "Deze herschrijving verwijderen?");
   ("rewrites.toggle", "Herschrijving in- of uitschakelen voor");
   ("rewrites.search", "Herschrijvingen filteren");
   ("rewrites.load_failed", "Herschrijvingen konden niet worden geladen");
   ("rewrites.save_failed", "Herschrijving kon niet worden opgeslagen");
   ("rewrites.saved", "Herschrijving opgeslagen en toegepast.");
   ("app.nav.clients", "Clients");
   ("app.title.clients", "Clients en apparaten");
   ("app.subtitle.clients", "Geef adressen en netwerken namen die overal in Velora verschijnen.");
   ("clients.count", "clients");
   ("clients.add", "Client toevoegen");
   ("clients.add_title", "Nieuwe client");
   ("clients.edit_title", "Client bewerken");
   ("clients.form_hint", "Bij overlappende netwerken wint het meest specifieke. Geef DHCP-apparaten eerst een vast adres.");
   ("clients.name", "Naam");
   ("clients.addresses", "Adressen");
   ("clients.addresses_hint", "IP-adressen of CIDR-netwerken, gescheiden door komma's.");
   ("clients.group", "Groep");
   ("clients.description", "Omschrijving");
   ("clients.enabled", "Ingeschakeld");
   ("clients.save", "Client opslaan");
   ("clients.activity", "Laatste 24 uur");
   ("clients.queries", "zoekopdrachten");
   ("clients.last_seen", "Laatst gezien");
   ("clients.no_activity", "Geen zoekopdrachten");
   ("clients.view_queries", "Zoekopdrachten bekijken");
   ("clients.empty_title", "Geen benoemde clients");
   ("clients.empty_text", "Geef apparaten zoals een tv of Home Assistant een naam, zodat ze in het querylogboek herkenbaar zijn.");
   ("clients.unnamed_title", "Recent gezien zonder naam");
   ("clients.unnamed_text", "Drukste adressen van de laatste 24 uur zonder client.");
   ("clients.name_it", "Apparaat benoemen");
   ("clients.edit", "Bewerken");
   ("clients.delete", "Verwijderen");
   ("clients.delete_confirm", "Client verwijderen");
   ("clients.toggle", "Client in- of uitschakelen");
   ("clients.load_failed", "Clients konden niet worden geladen");
   ("clients.save_failed", "Client kon niet worden opgeslagen");
   ("clients.saved", "Client opgeslagen.");
   ("clients.logging_off", "Schakel het querylogboek in om activiteit te zien.");
   ("app.nav.policies", "Clientbeleid");
   ("app.title.policies", "Filterbeleid per client");
   ("app.subtitle.policies", "Bepaal hoe blokkeren per client werkt.");
   ("policies.load_failed", "Beleid kon niet worden geladen.");
   ("policies.save_failed", "Het beleid kon niet worden opgeslagen.");
   ("policies.saved", "Beleid opgeslagen.");
   ("policies.lookup", "Adres controleren");
   ("policies.add", "Beleid toevoegen");
   ("policies.add_title", "Nieuw beleid");
   ("policies.edit_title", "Beleid bewerken");
   ("policies.form_hint", "Het meest specifieke clientnetwerk bepaalt welk beleid een adres gebruikt.");
   ("policies.client", "Client");
   ("policies.mode", "Filteren");
   ("policies.mode_default", "Globaal");
   ("policies.mode_disabled", "Geen filtering");
   ("policies.mode_custom", "Aangepast");
   ("policies.mode_default_hint", "Dezelfde blok- en toestaanlijsten als iedereen.");
   ("policies.mode_disabled_hint", "Voor deze client wordt niets geblokkeerd.");
   ("policies.mode_custom_hint", "Alleen de gekozen blocklijsten plus eigen domeinen.");
   ("policies.blocklists", "Blocklijsten");
   ("policies.no_sources", "Nog geen blocklijsten.");
   ("policies.globally_off", "globaal uit");
   ("policies.block", "Ook blokkeren");
   ("policies.allow", "Altijd toestaan");
   ("policies.domains_hint", "Eén domein per regel; subdomeinen tellen mee.");
   ("policies.allow_hint", "Gaat voor elke blocklijst voor deze client.");
   ("policies.enabled", "Beleid actief");
   ("policies.save", "Beleid opslaan");
   ("policies.empty_title", "Geen clientbeleid");
   ("policies.empty_text", "Alle clients gebruiken de globale blocklijsten. Voeg beleid toe om een apparaat strenger, soepeler of niet te filteren.");
   ("policies.need_clients", "Beleid geldt voor benoemde clients. Geef eerst een apparaat een naam:");
   ("policies.details", "Details");
   ("policies.summary_disabled", "Alle queries worden ongefilterd beantwoord");
   ("policies.summary_default", "Gebruikt de globale blocklijsten");
   ("policies.no_lists", "Geen blocklijsten");
   ("policies.blocked_short", "geblokkeerd");
   ("policies.allowed_short", "toegestaan");
   ("policies.paused", "Gepauzeerd");
   ("policies.toggle", "Beleid actief");
   ("policies.edit", "Beleid bewerken");
   ("policies.delete", "Beleid verwijderen");
   ("policies.delete_confirm", "Beleid verwijderen voor");
   ("policies.no_policy", "(geen beleid, globale filtering)");
   ("policies.unknown_address", "hoort bij geen client en gebruikt globale filtering.");
   ("app.nav.webhooks", "Webhooks");
   ("app.title.webhooks", "Webhookmeldingen");
   ("app.subtitle.webhooks", "Stuur belangrijke gebeurtenissen naar andere systemen.");
   ("webhooks.load_failed", "Webhooks konden niet worden geladen.");
   ("webhooks.save_failed", "De webhook kon niet worden opgeslagen.");
   ("webhooks.saved", "Webhook opgeslagen.");
   ("webhooks.count", "webhooks");
   ("webhooks.add", "Webhook toevoegen");
   ("webhooks.add_title", "Nieuwe webhook");
   ("webhooks.edit_title", "Webhook bewerken");
   ("webhooks.form_hint", "Velora stuurt voor elke passende gebeurtenis een JSON-POST-verzoek. Aflevering gebeurt op de achtergrond en vertraagt DNS-antwoorden nooit.");
   ("webhooks.name", "Naam");
   ("webhooks.url", "URL");
   ("webhooks.min_severity", "Minimale ernst");
   ("webhooks.severity_info", "Info");
   ("webhooks.severity_warning", "Waarschuwing");
   ("webhooks.severity_critical", "Kritiek");
   ("webhooks.token", "Bearer-token");
   ("webhooks.token_hint", "Optioneel. Wordt als Authorization-header verzonden en nooit meer getoond.");
   ("webhooks.token_stored", "Token opgeslagen");
   ("webhooks.token_change", "Wijzigen");
   ("webhooks.token_remove_hint", "Leeg laten om het token te verwijderen")].

Definition nl_6 : list (string * string) :=
  [("webhooks.events", "Gebeurtenissen");
   ("webhooks.events_hint", "Selecteer niets om alle typen te ontvangen.");
   ("webhooks.all_events", "Alle gebeurtenissen");
   ("webhooks.allow_private", "Bestemming in privénetwerk toestaan (bijv. Home Assistant in je LAN)");
   ("webhooks.enabled", "Webhook actief");
   ("webhooks.save", "Webhook opslaan");
   ("webhooks.empty_title", "Geen webhooks");
   ("webhooks.empty_text", "Voeg een webhook toe om te horen wanneer een upstream uitvalt, een blocklijst niet ververst of een back-up mislukt.");
   ("webhooks.last_delivery", "Laatste aflevering");
   ("webhooks.never", "Nog niets verzonden");
   ("webhooks.failing", "Mislukt");
   ("webhooks.toggle", "Webhook actief");
   ("webhooks.test", "Test versturen");
   ("webhooks.test_ok", "Test afgeleverd bij");
   ("webhooks.test_failed", "Test mislukt voor");
   ("webhooks.edit", "Webhook bewerken");
   ("webhooks.delete", "Webhook verwijderen");
   ("webhooks.delete_confirm", "Webhook verwijderen:");
   ("app.nav.analytics", "Analyse");
   ("app.title.analytics", "Analyse");
   ("app.subtitle.analytics", "DNS-activiteit en resolverprestaties uit de bewaarde querygeschiedenis.");
   ("analytics.load_failed", "Analyse kon niet worden geladen.");
   ("analytics.logging_off_title", "Querylogboek staat uit");
   ("analytics.logging_off_text", "Analyse gebruikt de bewaarde querygeschiedenis. Zet het querylogboek aan:");
   ("analytics.range", "Periode");
   ("analytics.range_1h", "1 uur");
   ("analytics.range_24h", "24 uur");
   ("analytics.range_7d", "7 dagen");
   ("analytics.range_30d", "30 dagen");
   ("analytics.history_limited", "De querygeschiedenis gaat maar terug tot");
   ("analytics.queries", "Queries");
   ("analytics.blocked", "Geblokkeerd");
   ("analytics.allowed", "Toegestaan");
   ("analytics.cached", "Cache-antwoorden");
   ("analytics.answers", "antwoorden");
   ("analytics.avg_upstream", "Gem. upstreamtijd");
   ("analytics.empty_title", "Geen queries in deze periode");
   ("analytics.empty_text", "Kies een langere periode of kom later terug.");
   ("analytics.over_time", "Queries in de tijd");
   ("analytics.over_time_hint", "Beweeg de muis of gebruik de pijltjestoetsen.");
   ("analytics.chart_aria", "Queries per tijdvak, toegestaan en geblokkeerd");
   ("analytics.show_table", "Als tabel tonen");
   ("analytics.time", "Tijd");
   ("analytics.avg_time", "Gem. tijd");
   ("analytics.latency", "Upstream-reactietijd");
   ("analytics.latency_hint", "Gemiddelde van beantwoorde doorgestuurde queries; gaten betekenen geen upstreamverkeer.");
   ("analytics.latency_aria", "Gemiddelde upstream-reactietijd per tijdvak");
   ("analytics.query_types", "Querytypen");
   ("analytics.sources", "Beantwoord door");
   ("analytics.source_upstream", "Upstream");
   ("analytics.source_cache", "Cache");
   ("analytics.source_blocked", "Geblokkeerd");
   ("analytics.source_local", "Lokale zones en herschrijvingen");
   ("analytics.source_refused", "Geweigerd");
   ("analytics.response_codes", "Antwoordcodes");
   ("analytics.top_blocked", "Meest geblokkeerde domeinen");
   ("analytics.nothing_blocked", "Niets geblokkeerd in deze periode");
   ("analytics.upstreams", "Upstreamgebruik");
   ("analytics.upstreams_hint", "Doorgestuurde queries per resolver, SERVFAIL-antwoorden en gemiddelde tijd.");
   ("analytics.no_upstream", "Geen upstreamverkeer in deze periode");
   ("analytics.failures", "Fouten");
   ("updates.check_prompt", "Controleer of er een nieuwere versie is.");
   ("updates.checking", "Controleren op updates…");
   ("updates.starting", "Update wordt gestart…");
   ("updates.updating_to", "Bijwerken naar");
   ("updates.completed_to", "Bijgewerkt naar");
   ("updates.failed_title", "De update is niet voltooid");
   ("updates.failed_text", "De update is mislukt. Velora draait door op de vorige versie.");
   ("updates.not_started", "De updater is niet gestart. Controleer of velora-updater.service draait.");
   ("updates.check_again", "Opnieuw controleren");
   ("updates.update_now", "Bijwerken");
   ("updates.reload", "Pagina herladen");
   ("updates.reconnecting", "Velora herstart. Wachten tot het terug is…");
   ("updates.keep_open", "Laat deze pagina open; hij werkt zichzelf bij. DNS blijft antwoorden met de huidige versie tot de overstap.");
   ("updates.completed_text", "De update is klaar en heeft de controles doorstaan. Herlaad de pagina voor de nieuwe interface.");
   ("updates.release_date", "Uitgebracht");
   ("settings.entry", "Item");
   ("settings.fix_fields", "Er is niets gewijzigd. Corrigeer de gemarkeerde velden en probeer opnieuw.");
   ("settings.restart_required", "Er is niets gewijzigd. De gemarkeerde velden vereisen een herstart: pas het configuratiebestand aan en herstart Velora DNS.");
   ("settings.restart_field", "Vereist een herstart");
   ("settings.check", "Controleren");
   ("settings.check_ok", "Deze instellingen zijn geldig en kunnen zonder herstart worden toegepast.");
   ("restore.title", "Back-up terugzetten");
   ("restore.hint", "Upload een versleutelde back-up om die eerst te controleren. Pas na bevestiging herstart Velora, bewaart een veiligheidskopie en draait automatisch terug als starten mislukt.");
   ("restore.file", "Back-upbestand (.vdns)");
   ("restore.inspect", "Back-up controleren");
   ("restore.inspecting", "Controleren…");
   ("restore.inspect_failed", "De back-up kon niet worden gecontroleerd.");
   ("restore.review_title", "Back-up is geldig");
   ("restore.created", "Gemaakt");
   ("restore.version", "Velora-versie");
   ("restore.schema", "Databaseschema");
   ("restore.contents", "Inhoud");
   ("restore.zones", "zones");
   ("restore.records", "records");
   ("restore.blocklists", "blocklijsten");
   ("restore.rewrites", "herschrijvingen");
   ("restore.forward_rules", "doorstuurregels");
   ("restore.clients", "clients");
   ("restore.users", "gebruikers");
   ("restore.listeners", "Listeners");
   ("restore.web", "web");
   ("restore.confirm", "Huidige configuratie en gegevens vervangen door deze back-up. Er blijft een veiligheidskopie bewaard.");
   ("restore.restore", "Terugzetten en herstarten");
   ("restore.schedule_failed", "Het terugzetten kon niet starten.");
   ("restore.manual_restart", "Het terugzetten is gepland. Herstart Velora DNS om het toe te passen.");
   ("restore.restarting", "Velora herstart om de back-up toe te passen. Deze pagina werkt zich daarna bij.");
   ("restore.signed_out", "Velora draait weer met de teruggezette gegevens. Meld u aan met een account uit de back-up.");
   ("restore.again", "Andere back-up terugzetten");
   ("restore.backup_from", "Back-up van");
   ("restore.safety_copy", "Vorige staat bewaard in");
   ("restore.state_completed", "Terugzetten voltooid.");
   ("restore.state_rolled_back", "Terugzetten teruggedraaid.");
   ("restore.state_failed", "Terugzetten mislukt.");
   ("restore.state_applied", "Terugzetten toegepast; wachten op gereedheid.");
   ("restore.state_pending", "Terugzetten gepland.");
   ("restore.passphrase", "Wachtwoordzin van de back-up");
   ("app.scrollable_table", "horizontaal scrollbaar");
   ("palette.title", "Opdrachtenpalet");
   ("palette.placeholder", "Zoek pagina's, zones, records, clients…");
   ("palette.results", "Resultaten");
   ("palette.pages", "Pagina's");
   ("palette.actions", "Acties");
   ("palette.kind_zone", "Zones");
   ("palette.kind_record", "Records");
   ("palette.kind_client", "Clients");
   ("palette.kind_rewrite", "DNS-herschrijvingen");
   ("palette.kind_forwarding", "Voorwaardelijk doorsturen");
   ("palette.kind_blocklist", "Blocklijsten");
   ("palette.no_results", "Geen resultaten.");
   ("palette.navigate", "navigeren");
   ("palette.open", "openen");
   ("palette.toggle", "openen of sluiten");
   ("palette.open_button", "Zoeken");
   ("palette.add_client", "Client toevoegen");
   ("palette.create_backup", "Back-up maken");
   ("cluster.action_failed", "De clusteractie is mislukt.");
   ("cluster.never", "nooit");
   ("cluster.role", "Rol");
   ("cluster.role_standalone", "Zelfstandig");
   ("cluster.role_primary", "Clusterprimair");
   ("cluster.role_replica", "Clusterreplica");
   ("cluster.replicas", "Replica's");
   ("cluster.in_sync_count", "synchroon");
   ("cluster.revision", "Zonerevisie");
   ("cluster.zones_replicated", "zones gerepliceerd");
   ("cluster.last_sync", "Laatste synchronisatie");
   ("cluster.sync_failed", "Laatste synchronisatie mislukt")].

Definition nl_7 : list (string * string) :=
  [("cluster.sync_ok", "Bij met de primair");
   ("cluster.members", "Replica's");
   ("cluster.members_hint", "Nodes die de zones van deze primair kopiëren. Ze melden zich elke 30 seconden.");
   ("cluster.add_node", "Node toevoegen");
   ("cluster.token_title", "Deelnametoken aangemaakt");
   ("cluster.token_steps", "Open op de nieuwe node Cluster → Cluster toevoegen en vul in:");
   ("cluster.token_expires", "Het token verloopt om");
   ("cluster.token_once", "Het werkt één keer en wordt niet opnieuw getoond.");
   ("cluster.copy_token", "Token kopiëren");
   ("cluster.copied", "Gekopieerd");
   ("cluster.token_done", "Klaar");
   ("cluster.no_members", "Nog geen replica's");
   ("cluster.no_members_text", "Voeg een node toe om een deelnametoken te maken voor een tweede Velora DNS-server.");
   ("cluster.status_in_sync", "Synchroon");
   ("cluster.status_behind", "Loopt bij");
   ("cluster.status_stale", "Reageert niet");
   ("cluster.status_error", "Synchronisatiefout");
   ("cluster.status_never_synced", "Wacht op eerste synchronisatie");
   ("cluster.remove", "Node verwijderen");
   ("cluster.remove_confirm", "Deze replica verwijderen? Hij ontvangt dan geen zone-updates meer:");
   ("cluster.removed", "Replica verwijderd.");
   ("cluster.dissolve", "Cluster opheffen");
   ("cluster.dissolve_hint", "Trekt alle replica's in en maakt deze node weer zelfstandig. Replica's houden hun laatste kopie van de zones.");
   ("cluster.dissolve_confirm", "Cluster opheffen en alle replica's intrekken?");
   ("cluster.dissolved", "Het cluster is opgeheven.");
   ("cluster.replica_title", "Repliceert van de primair");
   ("cluster.replica_hint", "Zones op deze node worden van de primair gekopieerd en zijn hier alleen-lezen. Andere instellingen blijven lokaal.");
   ("cluster.replica_ok", "Replicatie werkt.");
   ("cluster.sync_now", "Nu synchroniseren");
   ("cluster.leave", "Cluster verlaten");
   ("cluster.leave_confirm", "Cluster verlaten? Deze node behoudt zijn zones en is weer bewerkbaar.");
   ("cluster.left", "Deze node heeft het cluster verlaten.");
   ("cluster.primary_url", "URL van de primair");
   ("cluster.cluster_id", "Cluster-ID");
   ("cluster.node_id", "Node-ID");
   ("cluster.join_token", "Deelnametoken");
   ("cluster.standalone_title", "Deze node is zelfstandig");
   ("cluster.standalone_viewer", "Een beheerder kan een cluster maken of deze node aan een cluster toevoegen.");
   ("cluster.scope_note", "Een cluster houdt lokale zones gelijk op meerdere Velora DNS-servers: één primair accepteert wijzigingen en replica's kopiëren ze elke 30 seconden. Er is geen automatische failover; andere instellingen blijven per node.");
   ("cluster.create_title", "Cluster maken");
   ("cluster.create_hint", "Deze node wordt de primair. Zijn zones worden naar alle replica's gekopieerd.");
   ("cluster.node_name", "Nodenaam");
   ("cluster.advertised_url", "Adres voor andere nodes");
   ("cluster.advertised_hint", "De URL van de webinterface van deze node zoals de replica's die zien.");
   ("cluster.allow_http", "Onversleuteld HTTP toestaan (alleen vertrouwd netwerk)");
   ("cluster.skip_check", "Bereikbaarheidscontrole overslaan");
   ("cluster.create", "Cluster maken");
   ("cluster.created", "Het cluster is gemaakt. Voeg een node toe om een replica uit te nodigen.");
   ("cluster.join_title", "Cluster toetreden");
   ("cluster.join_hint", "Maak deze node een replica van een primair. Maak eerst het deelnametoken op de primair.");
   ("cluster.join_warning", "Bij toetreden worden de lokale zones van deze node vervangen door die van de primair. Andere instellingen blijven.");
   ("cluster.join_confirm", "Cluster toetreden en de zones van deze node vervangen door die van de primair?");
   ("cluster.join", "Cluster toetreden");
   ("cluster.joined", "Deze node is toegetreden en kopieert de zones van de primair.");
   ("cluster.zones_read_only", "Deze node is een clusterreplica. Zones worden van de primair gekopieerd en kunnen alleen daar worden gewijzigd.")].

Definition nl : list (string * string) :=
  (nl_1 ++ nl_2 ++ nl_3 ++ nl_4 ++ nl_5 ++ nl_6 ++ nl_7)%list.
