(* ===== verification/I18nPl.v ===== *)
(** * The Polish catalog: web/src/i18n/pl.ts

    Its entries in order, in parts of up to 148 lines of the file. *)
From S2P Require Import Prelude.
Local Open Scope string_scope.

Definition pl_1 : list (string * string) :=
  [("app.skip_to_content", "Przejdź do treści");
   ("app.workspace_label", "PRZESTRZEŃ ROBOCZA");
   ("app.nav.events", "Zdarzenia");
   ("app.title.events", "Zdarzenia");
   ("events.unread", "nieprzeczytane");
   ("events.empty", "Brak zdarzeń systemowych.");
   ("events.load_failed", "Nie udało się wczytać zdarzeń");
   ("events.mark_read", "Oznacz jako przeczytane");
   ("events.repeated", "Powtórzone");
   ("events.open", "Otwórz");
   ("events.info", "Informacja");
   ("events.warning", "Ostrzeżenie");
   ("events.critical", "Krytyczne");
   ("app.nav.main", "Nawigacja główna");
   ("app.nav.overview", "Przegląd");
   ("app.nav.zones", "Strefy lokalne");
   ("app.nav.queries", "Dziennik zapytań");
   ("app.nav.blocklists", "Listy blokowania");
   ("app.nav.cache", "Cache DNS");
   ("app.nav.settings", "Ustawienia");
   ("app.nav.updates", "Aktualizacje");
   ("app.nav.backup", "Kopia zapasowa");
   ("app.sign_out", "Wyloguj się");
   ("app.nav.audit", "Dziennik audytu");
   ("app.title.audit", "Dziennik audytu");
   ("app.nav.diagnostics", "Diagnostyka");
   ("app.title.diagnostics", "Diagnostyka");
   ("app.local_resolver", "Lokalny resolver");
   ("app.self_hosted_foundation", "Self-hosted · Foundation");
   ("app.private_by_default", "Domyślnie prywatny");
   ("app.privacy.query_retention", "Historia zapytań ma ograniczony okres przechowywania.");
   ("app.privacy.no_query_history", "Historia zapytań nie jest zbierana.");
   ("app.github_repo", "Repozytorium GitHub");
   ("app.connecting", "Łączenie…");
   ("app.workspace", "Przestrzeń robocza");
   ("app.connection_lost", "Utracono połączenie");
   ("app.resolver_online", "Resolver online");
   ("app.title.overview", "Przegląd sieci");
   ("app.title.zones", "Strefy lokalne");
   ("app.title.queries", "Dziennik zapytań");
   ("app.title.blocklists", "Listy blokowania");
   ("app.title.cache", "Cache DNS");
   ("app.title.settings", "Ustawienia");
   ("app.title.updates", "Aktualizacje");
   ("app.title.backup", "Kopia zapasowa i przywracanie");
   ("app.eyebrow", "TWOJA SIEĆ W SKRÓCIE");
   ("app.subtitle.overview", "Przejrzysty obraz Twojego DNS, od żądania po odpowiedź.");
   ("app.subtitle.default", "Przeglądaj i zarządzaj swoim resolver foundation.");
   ("app.refresh", "Odśwież");
   ("app.error.showing_last", "Wyświetlanie ostatniego udanego migawki z");
   ("app.error.check_server", "Sprawdź, czy serwer Velora jest uruchomiony.");
   ("app.error.reach_server", "Nie można połączyć się z serwerem");
   ("app.viewer_readonly", "Zalogowano jako widz. Czynności zarządzania są tylko do odczytu.");
   ("app.connecting_panel", "Łączenie z resolverem…");
   ("app.not_found", "Nie znaleziono strony.");
   ("app.footer.independent", "Velora DNS · Niezależny. Self-hosted.");
   ("app.footer.last_updated", "Ostatnia aktualizacja");
   ("app.footer.waiting", "Oczekiwanie na serwer");
   ("diagnostics.title", "Stan systemu");
   ("diagnostics.report_hint", "Pobierany raport zawiera stan komponentów i informacje o kompilacji, bez sekretów i dzienników zapytań.");
   ("diagnostics.download", "Pobierz raport");
   ("diagnostics.loading", "Ładowanie diagnostyki…");
   ("diagnostics.load_failed", "Nie można załadować diagnostyki");
   ("diagnostics.upstreams", "Serwery nadrzędne");
   ("diagnostics.component", "Komponent");
   ("diagnostics.state", "Stan");
   ("diagnostics.detail", "Szczegóły");
   ("diagnostics.state.healthy", "Zdrowy");
   ("diagnostics.state.degraded", "Pogorszony");
   ("diagnostics.state.failed", "Awaria");
   ("explain.title", "Dlaczego padła taka odpowiedź?");
   ("explain.hint", "Próba działania resolvera dla jednej nazwy. Nic nie jest odpytywane u upstreamu, zapisywane w logu, buforowane ani liczone.");
   ("explain.name", "Nazwa");
   ("explain.type", "Typ rekordu");
   ("explain.client", "Adres klienta (opcjonalnie)");
   ("explain.client_hint", "Stosuje politykę filtrowania tego klienta.");
   ("explain.submit", "Wyjaśnij");
   ("explain.running", "Wyjaśnianie…");
   ("explain.failed", "Nie udało się wyjaśnić tego zapytania");
   ("explain.result", "Wyjaśnienie");
   ("explain.winner", "Etap rozstrzygający");
   ("explain.answers", "Odpowiedź");
   ("explain.no_answers", "Brak rekordów odpowiedzi: odpowiedź pochodziłaby z resolvera upstream, który nie jest odpytywany.");
   ("explain.steps", "Rozważane etapy");
   ("explain.step", "Etap");
   ("explain.outcome", "Wynik");
   ("explain.detail", "Szczegóły");
   ("explain.cname_target", "Cel CNAME");
   ("explain.ttl", "Pozostały TTL");
   ("explain.matches", "Dopasowano");
   ("explain.allowed_by", "Dozwolone przez");
   ("explain.not_contacted", "Nie odpytano żadnego upstreamu.");
   ("explain.scope.global", "Filtrowanie globalne");
   ("explain.scope.client_policy", "Polityka klienta");
   ("explain.stage.filter", "Lista blokad lub polityka klienta");
   ("explain.stage.rewrite", "Przepisanie DNS");
   ("explain.stage.zone", "Strefa lokalna");
   ("explain.stage.cache", "Pamięć podręczna");
   ("explain.stage.forwarding", "Reguła przekazywania warunkowego");
   ("explain.stage.upstream", "Globalne resolvery upstream");
   ("explain.stage.refused", "Odrzucono");
   ("explain.result.passed", "Przepuszczono");
   ("explain.result.allowed", "Dozwolone");
   ("explain.result.blocked", "Zablokowano");
   ("explain.result.no_match", "Brak dopasowania");
   ("explain.result.answered", "Odpowiedziano");
   ("explain.result.miss", "Brak w pamięci");
   ("explain.result.hit", "Trafienie");
   ("explain.result.refused", "Odrzucono");
   ("explain.result.would_forward", "Zostałoby przekazane");
   ("explain.result.error", "Błąd");
   ("explain.source.local", "Odpowiedź lokalna");
   ("explain.source.cache", "Pamięć podręczna");
   ("explain.source.blocked", "Zablokowano");
   ("explain.source.upstream", "Upstream");
   ("explain.source.refused", "Odrzucono");
   ("audit.title", "Dziennik audytu zarządzania");
   ("audit.hint", "Działania administracyjne są przechowywane przez 90 dni. Sekrety i treść żądań są wykluczone.");
   ("audit.actor", "Użytkownik");
   ("audit.action", "Działanie");
   ("audit.result", "Wynik");
   ("audit.all", "Wszystkie");
   ("audit.success", "Sukces");
   ("audit.failure", "Błąd");
   ("audit.filter", "Filtruj");
   ("audit.time", "Czas");
   ("audit.target", "Cel");
   ("audit.empty", "Nie znaleziono zdarzeń audytu.");
   ("audit.more", "Załaduj więcej");
   ("audit.load_failed", "Nie można załadować zdarzeń audytu");
   ("auth.checking", "Sprawdzanie sesji…");
   ("auth.sign_in_title", "Zaloguj się do Velora DNS");
   ("auth.username", "Nazwa użytkownika");
   ("auth.password", "Hasło");
   ("auth.sign_in", "Zaloguj się");
   ("auth.sign_in_failed", "Logowanie nie powiodło się");
   ("settings.server_configuration", "Konfiguracja serwera");
   ("settings.language", "Język");
   ("settings.theme", "Motyw");
   ("settings.theme_light", "Jasny");
   ("settings.theme_dark", "Ciemny");
   ("settings.theme_auto", "Automatyczny");
   ("settings.theme_hint", "Automatyczny przełącza między jasnym i ciemnym schematem kolorów systemu operacyjnego.");
   ("settings.log_level", "Poziom logowania");
   ("settings.rate_limiting", "Ograniczanie szybkości");
   ("settings.rate_limit_hint", "Ograniczanie szybkości jest domyślnie wyłączone. Włącz je, aby chronić resolver przed powodzią żądań i wysokimi częstotliwościami zapytań.");
   ("settings.rate_limit_enabled", "Włącz ograniczanie szybkości");
   ("settings.rate_limit_global_qps", "Globalne zapytania na sekundę")].

Definition pl_2 : list (string * string) :=
  [("settings.rate_limit_client_qps", "Zapytania na sekundę na klienta");
   ("settings.rate_limit_burst", "Tolerancja szczytów");
   ("settings.rate_limit_rejected_total", "Odrzucone zapytania");
   ("settings.rate_limit_last_rejected", "Ostatnie odrzucenie");
   ("settings.save", "Zapisz");
   ("settings.rate_limit_load_failed", "Nie można załadować ustawień ograniczania szybkości");
   ("settings.rate_limit_save_failed", "Nie można zapisać ustawień ograniczania szybkości");
   ("settings.rate_limit_saved", "Ustawienia ograniczania szybkości zapisane.");
   ("settings.rate_limit_loading", "Ładowanie ustawień ograniczania szybkości…");
   ("settings.edit_hint", "Te ustawienia odpowiadają opcjom szybkiej instalacji. Niektóre zmiany wymagają ponownego uruchomienia; zmiany TTL cache są stosowane natychmiast.");
   ("settings.dns_section", "Ustawienia DNS");
   ("settings.cache_section", "Cache DNS");
   ("settings.cache_ttl_label", "TTL cache odpowiedzi upstream (sekundy)");
   ("settings.cache_ttl_hint", "86400 sekund = 24 godziny. Zakres: 0–604800 sekund; 0 używa oryginalnego TTL każdego upstreama. Zmiany upstreamów mogą zająć tyle czasu, zanim staną się widoczne. Zmiana tego usuwa istniejące zcacheowane odpowiedzi. Odpowiedzi z TTL zero i podpisane DNSSEC zachowują swój oryginalny TTL.");
   ("settings.cache_ttl_invalid", "Wprowadź liczbę całkowitą od 0 do 604800 sekund.");
   ("settings.dns_listen_label", "Adresy nasłuchiwania DNS (oddzielone przecinkami)");
   ("settings.dns_listen_warning", "Ostrzeżenie: 0.0.0.0 udostępnia DNS w sieci. Upewnij się, że zezwala firewall tylko zaufanym klientom.");
   ("settings.upstreams_label", "Serwery DNS upstream (oddzielone przecinkami)");
   ("settings.upstreams_hint", "Format: IP:PORT (np. 1.1.1.1:53). Upstreamy DoH używają https://host/dns-query");
   ("settings.allowed_clients_label", "Dozwolone sieci klientów (oddzielone przecinkami CIDR)");
   ("settings.allowed_clients_hint", "Tylko te siecie mogą pytać resolver. Przykład: 192.168.1.0/24, 10.0.0.0/8");
   ("settings.web_section", "Ustawienia interfejsu webowego");
   ("settings.web_listen_label", "Adres nasłuchiwania interfejsu webowego (IP:port)");
   ("settings.web_listen_warning", "Ostrzeżenie: 0.0.0.0 udostępnia interfejs webowy w sieci. Użyj zapory ogniowej lub uwierzytelniania.");
   ("settings.allowed_hosts_label", "Dozwolone hosty (oddzielone przecinkami)");
   ("settings.allowed_hosts_hint", "Nagłówki hostów z dostępem do API zarządzania. Użyj *, aby zezwolić wszystkim (niezalecane w sieci LAN).");
   ("settings.logging_section", "Logowanie i inne");
   ("settings.enable_query_log", "Włącz logowanie zapytań");
   ("settings.save_configuration", "Zapisz konfigurację");
   ("settings.saving", "Zapisywanie…");
   ("settings.save_success", "Konfiguracja zapisana i zastosowana.");
   ("settings.save_failed", "Nie udało się zapisać konfiguracji");
   ("dashboard.total_queries", "Łączna liczba zapytań");
   ("dashboard.since_start", "Od ostatniego wyzerowania statystyk");
   ("dashboard.reset_statistics", "Wyzeruj statystyki");
   ("dashboard.reset_confirm", "Wyzerować liczniki zapytań, pamięci podręcznej i limitów? Tej czynności nie można cofnąć.");
   ("dashboard.reset_failed", "Nie udało się wyzerować statystyk");
   ("dashboard.qps", "Zapytania / sekundę");
   ("dashboard.rolling_avg", "Średnia krocząca z 60 sekund");
   ("dashboard.cache_hit_rate", "Wskaźnik trafień cache");
   ("dashboard.answers_from_memory", "odpowiedzi obsłużonych z pamięci");
   ("dashboard.uptime", "Czas pracy");
   ("dashboard.process_lifetime", "Aktualny czas życia procesu");
   ("dashboard.top_domains", "Topowe domeny");
   ("dashboard.top_clients", "Topowi klienci");
   ("dashboard.query_activity", "Aktywność zapytań");
   ("dashboard.live_samples", "Próbki na żywo z Twojego resolvera");
   ("dashboard.refresh_5s", "Odświeżanie co 5s");
   ("dashboard.queries_per_sec", "zapytań / sek");
   ("dashboard.chart_aria", "Częstotliwość zapytań próbkowana podczas tej sesji przeglądarki");
   ("dashboard.session_samples", "Próbki sesji");
   ("dashboard.now", "Teraz");
   ("dashboard.upstream_resolvers", "Resolvery upstream");
   ("dashboard.ordered_failover", "Uporządkowany failover z fallback TCP");
   ("dashboard.endpoint", "Endpoint");
   ("dashboard.health", "Stan");
   ("dashboard.upstream_unknown", "Nieznany");
   ("dashboard.upstream_healthy", "Zdrowy");
   ("dashboard.upstream_degraded", "Pogorszony");
   ("dashboard.upstream_unavailable", "Niedostępny");
   ("dashboard.priority", "Priorytet");
   ("dashboard.attempt_timeout", "Limit czasu próby");
   ("dashboard.primary", "Główny");
   ("dashboard.fallback", "Zapasowy");
   ("dashboard.config_shown", "Konfiguracja wyświetlona. Dostępność jest oceniana przy każdym zapytaniu.");
   ("dashboard.retained_last_24h", "Zachowane zapytania w ciągu ostatnich 24 godzin");
   ("dashboard.unavailable_no_logging", "Niedostępne, gdy logowanie zapytań jest wyłączone.");
   ("dashboard.loading_stats", "Ładowanie statystyk zapytań…");
   ("dashboard.stats_load_failed", "Nie można załadować statystyk zapytań");
   ("dashboard.no_retained", "Brak zachowanych zapytań w tym oknie.");
   ("cache.live_entries", "Aktywne wpisy");
   ("cache.capacity", "Pojemność");
   ("cache.hits", "Trafienia cache");
   ("cache.since_startup", "Od uruchomienia procesu");
   ("cache.misses", "Pudła cache");
   ("cache.includes_uncacheable", "Zawiera żądania niepodlegające cache'owaniu");
   ("cache.memory_cache", "Cache pamięci");
   ("cache.description", "Pozytywne odpowiedzi upstream używają skonfigurowanego TTL cache. Odpowiedzi z TTL zero, podpisane DNSSEC i negatywne odpowiedzi zachowują swoje oryginalne zasady. Najrzadziej używane wpisy są usuwane po osiągnięciu pojemności. Zawartość cache nigdy nie jest przechowywana w SQLite.");
   ("cache.clear_description", "Wyczyszczenie cache usuwa wszystkie bieżące odpowiedzi. Liczniki trafień i pudłów w cyklu życia są zachowane.");
   ("cache.clearing", "Czyszczenie…");
   ("cache.clear", "Wyczyść cache");
   ("cache.cleared", "Cache wyczyszczone. Strefy lokalne pozostają aktywne; inne zapytania będą korzystać z resolverów upstream.");
   ("cache.flush_failed", "Nie udało się wyczyścić cache");
   ("cache.entries_title", "Zcacheowane wpisy DNS");
   ("cache.entries_description", "Bieżące odpowiedzi, najpierw najczęściej używane.");
   ("cache.entries_loading", "Ładowanie wpisów cache…");
   ("cache.entries_load_failed", "Nie można załadować wpisów cache");
   ("cache.entries_empty", "Cache jest puste.");
   ("cache.entries_scroll_hint", "Przewiń w bok, aby zobaczyć wszystkie kolumny.");
   ("cache.entry_name", "Nazwa");
   ("cache.entry_type", "Typ");
   ("cache.entry_answer", "Odpowiedź");
   ("cache.entry_status", "Status");
   ("cache.entry_ttl", "Pozostały TTL");
   ("cache.seconds", "s");
   ("cache.previous", "Poprzednia");
   ("cache.next", "Następna");
   ("querylog.unavailable_title", "Historia zapytań niedostępna");
   ("querylog.unavailable_text", "Włącz logowanie zapytań, aby zbierać i przeglądać przyszłą aktywność DNS.");
   ("querylog.up_to_100", "Do 100 zachowanych odpowiedzi na stronę");
   ("querylog.refresh", "Odśwież zapytania");
   ("querylog.filters_aria", "Filtry zapytań");
   ("querylog.domain", "Domena");
   ("querylog.contains_example", "Zawiera example.com");
   ("querylog.client_ip", "IP klienta");
   ("querylog.exact_ip", "Dokładny adres IP");
   ("querylog.query_type", "Typ zapytania");
   ("querylog.all_types", "Wszystkie typy");
   ("querylog.source", "Źródło");
   ("querylog.all_sources", "Wszystkie źródła");
   ("querylog.apply_filters", "Zastosuj filtry");
   ("querylog.show_blocked", "Pokaż zablokowane zapytania");
   ("querylog.error_stale", "Poprzednie wyniki mogą być nieaktualne.");
   ("querylog.loading", "Ładowanie dziennika zapytań…");
   ("querylog.no_matches", "Brak pasujących zapytań");
   ("querylog.no_matches_text", "Spróbuj innych filtrów lub wygeneruj ruch DNS z włączonym logowaniem.");
   ("querylog.caption", "Dziennik zapytań DNS");
   ("querylog.col_timestamp", "Znacznik czasu");
   ("querylog.col_client", "Klient");
   ("querylog.col_domain", "Domena");
   ("querylog.col_type", "Typ");
   ("querylog.col_source", "Źródło");
   ("querylog.col_response", "Odpowiedź");
   ("querylog.col_latency", "Opóźnienie");
   ("querylog.older", "Starsze zapytania");
   ("querylog.load_failed", "Nie można załadować dziennika zapytań");
   ("blocklists.count", "zewnętrznych źródeł");
   ("blocklists.count_one", "zewnętrzne źródło");
   ("blocklists.sources_label", "Źródła polityk DNS");
   ("blocklists.reload", "Przeładuj");
   ("blocklists.add_source", "Dodaj źródło");
   ("blocklists.add_aria", "Dodaj źródło blokowania");
   ("blocklists.add_title", "Dodaj zewnętrzną listę blokowania");
   ("blocklists.add_text", "Akceptowane są tylko publiczne źródła HTTP(S). Nieudane odświeżenia zachowują poprzednie reguły DNS.");
   ("blocklists.name", "Nazwa");
   ("blocklists.source_url", "URL źródła");
   ("blocklists.community_hosts", "Hosty społeczności");
   ("blocklists.adding", "Dodawanie…");
   ("blocklists.cancel", "Anuluj");
   ("blocklists.loading", "Ładowanie źródeł blokowania…");
   ("blocklists.empty_title", "Brak zewnętrznych list blokowania");
   ("blocklists.empty_text", "Dodaj zaufaną publiczną listę hostów lub domen, aby zastosować blokowanie DNS.");
   ("blocklists.caption", "Zewnętrzne źródła blokowania");
   ("blocklists.col_source", "Źródło");
   ("blocklists.col_status", "Status");
   ("blocklists.col_last_update", "Ostatnia aktualizacja");
   ("blocklists.update_failed", "Aktualizacja nie powiodła się");
   ("blocklists.active", "AKTYWNE")].

Definition pl_3 : list (string * string) :=
  [("blocklists.disabled", "WYŁĄCZONE");
   ("blocklists.never", "Nigdy");
   ("blocklists.updating", "Aktualizowanie…");
   ("blocklists.update", "Aktualizuj");
   ("blocklists.load_failed", "Nie można załadować list blokowania");
   ("blocklists.add_failed", "Nie można dodać źródła");
   ("blocklists.update_failed_msg", "Nie można zaktualizować źródła");
   ("blocklists.col_domains", "Domeny");
   ("blocklists.local", "Lokalne");
   ("blocklists.enable", "Włącz");
   ("blocklists.disable", "Wyłącz");
   ("blocklists.toggle_failed", "Nie można przełączyć źródła");
   ("blocklists.edit_content", "Edytuj zawartość");
   ("blocklists.edit_content_aria", "Edytuj zawartość listy blokowania");
   ("blocklists.edit_content_title", "Edytuj domeny listy blokowania");
   ("blocklists.edit_content_text", "Wprowadź jedną domenę w wierszu. Wiersze rozpoczynające się od 0.0.0.0 lub komentarza są traktowane jako wpisy hostów.");
   ("blocklists.domains_label", "Domeny");
   ("blocklists.saving", "Zapisywanie…");
   ("blocklists.save", "Zapisz");
   ("blocklists.content_save_failed", "Nie można zapisać zawartości");
   ("blocklists.delete", "Usuń");
   ("blocklists.confirm_delete", "Potwierdź");
   ("blocklists.delete_failed", "Nie można usunąć źródła");
   ("zones.count", "lokalnych stref");
   ("zones.count_one", "lokalna strefa");
   ("zones.local_authority", "Lokalna autorytacja");
   ("zones.reload", "Przeładuj strefy");
   ("zones.add_zone", "Dodaj strefę");
   ("zones.error_stale", "Wyświetlanie ostatnio załadowanych stref. Przeładuj przed wprowadzaniem zmian.");
   ("zones.error_retry", "Przeładuj, aby spróbować ponownie.");
   ("zones.reload_before_retry", "Przeładuj strefy przed ponowną próbą.");
   ("zones.loading", "Ładowanie lokalnych stref…");
   ("zones.empty_title", "Nadaj swojej sieci znane nazwy");
   ("zones.empty_text", "Utwórz strefę, na przykład home.arpa, a następnie dodaj rekordy dla routera, usług i urządzeń.");
   ("zones.create_first", "Utwórz swoją pierwszą strefę");
   ("zones.filter_aria", "Filtruj strefy");
   ("zones.filter_placeholder", "Znajdź strefę…");
   ("zones.nav_aria", "Strefy lokalne");
   ("zones.records_custom", "niestandardowe rekordy");
   ("zones.no_matching", "Brak pasujących stref.");
   ("zones.authoritative_eyebrow", "STREFA AUTORYTATYWNA");
   ("zones.revision", "Rewizja");
   ("zones.add_record", "Dodaj rekord");
   ("zones.delete_zone_aria", "Usuń strefę");
   ("zones.primary_ns", "Główny NS");
   ("zones.contact", "Kontakt");
   ("zones.delete_record_confirm", "Usuń rekord");
   ("zones.delete_zone_confirm", "i wszystkie");
   ("zones.delete_zone_confirm2", "rekordy? Tej operacji nie można cofnąć.");
   ("zones.deleting", "Usuwanie…");
   ("zones.delete_record_perm", "Usuń rekord trwale");
   ("zones.delete_zone_perm", "Usuń strefę trwale");
   ("zones.cancel_deletion", "Anuluj usuwanie");
   ("zones.record_saved", "Rekord zapisany. Zmiany DNS są aktywne.");
   ("zones.record_deleted", "Rekord usunięty. Zmiany DNS są aktywne.");
   ("zones.zone_deleted", "Strefa i jej rekordy usunięte.");
   ("zones.zone_created", "Strefa utworzona. Dodaj rekordy, aby zacząć z niej korzystać.");
   ("zones.delete_failed", "Nie można usunąć");
   ("zones.footnote", "Odpowiedzi lokalne mają priorytet nad przekazywaniem. Urządzenia mogą zachowywać poprzednie odpowiedzi do wygaśnięcia ich TTL.");
   ("zones.record_form_edit_aria", "Edytuj rekord DNS");
   ("zones.record_form_add_aria", "Dodaj rekord DNS");
   ("zones.edit_record", "Edytuj rekord");
   ("zones.add_record_form", "Dodaj rekord");
   ("zones.changes_apply", "Zmiany dotyczą");
   ("zones.record_name", "Nazwa rekordu");
   ("zones.router_or_at", "router lub @");
   ("zones.relative_name_hint", "Nazwa względna, @ dla strefy lub nazwa bezwzględna kończąca się kropką.");
   ("zones.record_type", "Typ rekordu");
   ("zones.ttl_seconds", "TTL (sekundy)");
   ("zones.priority", "Priorytet");
   ("zones.ipv4_address", "Adres IPv4");
   ("zones.ipv6_address", "Adres IPv6");
   ("zones.text_value", "Wartość tekstowa");
   ("zones.target_hostname", "Nazwa hosta docelowego");
   ("zones.invalid_ttl", "Wprowadź prawidłowe wartości TTL i priorytetu.");
   ("zones.record_conflict", "Ta strefa została zmodyfikowana w innym miejscu. Twój szkic jest niezmieniony. Zamknij ten formularz i przeładuj strefy przed ponowną próbą.");
   ("zones.save_failed", "Nie można zapisać rekordu");
   ("zones.saving", "Zapisywanie…");
   ("zones.save_record", "Zapisz rekord");
   ("zones.cancel", "Anuluj");
   ("zones.no_records_title", "Brak niestandardowych rekordów");
   ("zones.no_records_text", "Dodaj swój pierwszy rekord. SOA i zapasowy NS apex są zarządzane automatycznie.");
   ("zones.records_aria", "Rekordy DNS dla");
   ("zones.col_name", "Nazwa");
   ("zones.col_type", "Typ");
   ("zones.col_value", "Wartość");
   ("zones.col_ttl", "TTL");
   ("zones.col_actions", "Akcje");
   ("zones.edit_aria", "Edytuj");
   ("zones.delete_aria", "Usuń");
   ("zones.record_word", "rekord");
   ("zones.create_title", "Utwórz lokalną strefę");
   ("zones.create_text", "Velora będzie odpowiadać na zapytania dla tej strefy i zachowywać nieznane nazwy w Twojej sieci.");
   ("zones.zone_name", "Nazwa strefy");
   ("zones.authority_settings", "Ustawienia autorytacji");
   ("zones.primary_nameserver", "Główny nameserver");
   ("zones.contact_mailbox", "Kontakt (skrzynka DNS)");
   ("zones.creating", "Tworzenie…");
   ("zones.create_zone", "Utwórz strefę");
   ("zones.create_zone_aria", "Utwórz strefę DNS");
   ("zones.create_failed", "Nie można utworzyć strefy");
   ("zones.load_failed", "Nie można załadować stref");
   ("updates.loading", "Ładowanie statusu aktualizacji...");
   ("updates.viewer_readonly", "Zalogowano jako widz. Żądania aktualizacji są tylko do odczytu.");
   ("updates.in_progress", "Aktualizacja w toku...");
   ("updates.history", "Historia aktualizacji");
   ("updates.no_history", "Brak zarejestrowanych aktualizacji.");
   ("updates.col_from", "Z");
   ("updates.col_to", "Do");
   ("updates.col_state", "Stan");
   ("updates.col_started", "Rozpoczęto");
   ("updates.state_idle", "Bezczynny");
   ("updates.state_downloading", "Pobieranie");
   ("updates.state_verifying", "Weryfikacja");
   ("updates.state_installing", "Instalowanie");
   ("updates.state_readiness", "Oczekiwanie na gotowość");
   ("updates.state_completed", "Ukończono");
   ("updates.state_rolled_back", "Cofnięto");
   ("updates.state_failed", "Nie powiodło się");
   ("updates.load_failed", "Nie udało się załadować statusu aktualizacji");
   ("updates.request_failed", "Nie udało się zażądać aktualizacji");
   ("updates.check", "Check for updates");
   ("updates.available", "Update available");
   ("updates.up_to_date", "The system is up to date.");
   ("updates.progress", "Update progress");
   ("updates.rollback_used", "The previous version was restored.");
   ("updates.rollback_recovered", "The previous version was restored and is healthy.");
   ("backup.sqlite_only", "Zaszyfrowany eksport obsługuje obecnie tylko instalacje SQLite.");
   ("backup.create_title", "Zaszyfrowana kopia");
   ("backup.create_hint", "Pobierz wersjonowaną kopię konfiguracji i danych trwałych. Zachowaj hasło.");
   ("backup.passphrase", "Hasło");
   ("backup.creating", "Tworzenie…");
   ("backup.create", "Utwórz i pobierz");
   ("backup.create_failed", "Nie udało się utworzyć kopii");
   ("backup.restore_hint", "Przywróć zaszyfrowaną kopię przy zatrzymanej usłudze. Polecenie zachowuje kopię bezpieczeństwa.");
   ("backup.loading", "Ładowanie statusu kopii zapasowej...");
   ("backup.status_title", "Status kopii zapasowej");
   ("backup.database", "Baza danych:");
   ("backup.last_backup", "Ostatnia kopia:");
   ("backup.no_backup", "Brak zarejestrowanej kopii zapasowej");
   ("backup.verification_state", "Status weryfikacji:");
   ("backup.state_unknown", "Nieznany");
   ("backup.state_unverified", "Niezweryfikowany");
   ("backup.state_verified", "Zweryfikowany");
   ("backup.verify_title", "Weryfikuj kopię zapasową");
   ("backup.verify_text", "Umieść kopię zapasową obok bazy danych serwera, aby zweryfikować jej integralność.");
   ("backup.file_name", "Nazwa pliku kopii zapasowej");
   ("backup.file_hint", "Umieść kopię zapasową obok bazy danych na serwerze Velora. Używana jest tylko nazwa pliku; pliki przeglądarki i inne katalogi nie mogą być tutaj sprawdzone.");
   ("backup.viewer_readonly", "Zalogowano jako widz. Weryfikacja kopii zapasowej jest tylko do odczytu.");
   ("backup.verifying", "Weryfikowanie...");
   ("backup.verify", "Weryfikuj");
   ("backup.valid", "Kopia zapasowa jest prawidłowa")].

Definition pl_4 : list (string * string) :=
  [("backup.invalid", "Kopia zapasowa jest nieprawidłowa");
   ("backup.schema_version", "Wersja schematu:");
   ("backup.records", "Rekordy:");
   ("backup.instructions", "Przywracanie z wiersza poleceń");
   ("backup.native", "Instalacja natywna");
   ("backup.docker", "Docker Compose");
   ("backup.online", "Kopia zapasowa online (SQLite)");
   ("backup.load_failed", "Nie udało się załadować statusu kopii zapasowej");
   ("backup.verify_failed", "Weryfikacja nie powiodła się");
   ("backup.step_stop_service", "Zatrzymaj usługę");
   ("backup.step_create_backup", "Utwórz spójną kopię zapasową");
   ("backup.step_restart_service", "Uruchom ponownie usługę");
   ("backup.step_stop_container", "Zatrzymaj kontener");
   ("backup.step_backup_volume", "Utwórz kopię zapasową wolumenu");
   ("backup.step_restart_container", "Uruchom ponownie kontener");
   ("backup.step_online_backup", "Użyj API kopii zapasowej SQLite do spójnej kopii online");
   ("onboarding.welcome", "Witaj w Velora DNS");
   ("onboarding.complete_steps", "Ukończ te kroki, aby zabezpieczyć swoją instalację");
   ("onboarding.dismiss", "Odrzuć");
   ("onboarding.change_credentials", "Zmień dane uwierzytelniające");
   ("onboarding.change_credentials_text", "Domyślne hasło administratora powinno zostać zmienione po pierwszym logowaniu.");
   ("onboarding.review_dns", "Przejrzyj konfigurację DNS");
   ("onboarding.review_dns_text", "Upewnij się, że serwery upstream i dozwoleni klienci są poprawnie skonfigurowani dla Twojej sieci.");
   ("onboarding.restrict_clients", "Ogranicz dostęp klientów");
   ("onboarding.restrict_clients_text", "Skonfiguruj allowed_clients CIDR, aby ograniczyć, które siecie mogą korzystać z Twojego resolvera.");
   ("onboarding.verify_db", "Zweryfikuj magazyn bazy danych");
   ("onboarding.verify_db_text", "Upewnij się, że ścieżka bazy danych znajduje się na niezawodnym magazynie z odpowiednią ilością miejsca.");
   ("onboarding.update_policy", "Skonfiguruj politykę aktualizacji");
   ("onboarding.update_policy_text", "Przejrzyj centrum aktualizacji, aby dowiedzieć się, jak utrzymywać aktualność instalacji.");
   ("app.nav.dhcp", "DHCP");
   ("app.title.dhcp", "Serwer DHCP");
   ("dhcp.loading", "Ładowanie danych DHCP…");
   ("dhcp.load_failed", "Unable to load DHCP data");
   ("dhcp.create_pool_failed", "Unable to create pool");
   ("dhcp.delete_pool_failed", "Unable to delete pool");
   ("dhcp.create_reservation_failed", "Unable to create reservation");
   ("dhcp.delete_reservation_failed", "Unable to delete reservation");
   ("dhcp.delete_lease_failed", "Unable to delete lease");
   ("dhcp.pools", "Pule DHCP");
   ("dhcp.add_pool", "Dodaj pulę");
   ("dhcp.pool_name", "Nazwa puli");
   ("dhcp.interface", "Interfejs");
   ("dhcp.subnet_cidr", "Podsieć (CIDR)");
   ("dhcp.subnet", "Podsieć");
   ("dhcp.gateway", "Brama");
   ("dhcp.dns_servers", "Serwery DNS");
   ("dhcp.lease_seconds", "Czas dzierżawy (sekundy)");
   ("dhcp.leases_label", "Dzierżawy");
   ("dhcp.create", "Utwórz");
   ("dhcp.no_pools", "Brak skonfigurowanych pul DHCP. Utwórz jedną, aby zacząć przydzielać dzierżawy.");
   ("dhcp.reservations", "Rezerwacje statyczne");
   ("dhcp.mac_address", "Adres MAC");
   ("dhcp.ip_address", "Adres IP");
   ("dhcp.hostname", "Nazwa hosta");
   ("dhcp.add", "Dodaj");
   ("dhcp.active_leases", "Aktywne dzierżawy");
   ("dhcp.expires", "Wygasa");
   ("dhcp.no_leases", "Brak aktywnych dzierżaw.");
   ("dhcp.expired", "Wygasłe");
   ("dhcp.confirm_delete_pool", "Usunąć tę pulę i wszystkie jej rezerwacje?");
   ("dhcp.name", "Nazwa");
   ("app.nav.cluster", "Klaster");
   ("app.title.cluster", "Przegląd klastra");
   ("cluster.loading", "Ładowanie danych klastra…");
   ("cluster.load_failed", "Unable to load cluster data");
   ("cluster.name", "Nazwa");
   ("cluster.status", "Status");
   ("cluster.version", "Wersja");
   ("cluster.last_seen", "Ostatnio widziany");
   ("cluster.config_history", "Historia konfiguracji");
   ("cluster.no_versions", "Brak zarejestrowanych wersji konfiguracji.");
   ("cluster.hash", "Hash");
   ("cluster.applied_by", "Zastosowane przez");
   ("cluster.applied_at", "Zastosowano o");
   ("app.nav.group_dns", "DNS");
   ("app.nav.group_network", "Sieć");
   ("app.nav.group_system", "System");
   ("app.menu_open", "Otwórz nawigację");
   ("app.menu_close", "Zamknij nawigację");
   ("app.theme_to_dark", "Przełącz na ciemny motyw");
   ("app.theme_to_light", "Przełącz na jasny motyw");
   ("app.signed_in_as", "Zalogowano jako");
   ("app.subtitle.zones", "Autorytatywne nazwy dla urządzeń i usług w Twojej sieci.");
   ("app.subtitle.queries", "Ostatnie zapytania obsłużone przez ten resolver.");
   ("app.subtitle.blocklists", "Listy domen odpowiadane jako zablokowane.");
   ("app.subtitle.cache", "Odpowiedzi w pamięci przyspieszające powtarzane zapytania.");
   ("app.subtitle.settings", "Resolver, interfejs WWW i preferencje osobiste.");
   ("app.subtitle.updates", "Zainstalowana wersja, dostępne wydania i historia aktualizacji.");
   ("app.subtitle.backup", "Twórz zaszyfrowane kopie zapasowe i weryfikuj istniejące.");
   ("app.subtitle.dhcp", "Pule adresów, rezerwacje i aktywne dzierżawy.");
   ("app.subtitle.cluster", "Utrzymuj identyczne strefy lokalne na kilku serwerach Velora DNS.");
   ("app.subtitle.diagnostics", "Stan komponentów i raport wsparcia do udostępnienia.");
   ("app.subtitle.events", "Sprawy wymagające Twojej uwagi.");
   ("app.subtitle.audit", "Kto, co i kiedy zmienił.");
   ("settings.preferences", "Preferencje");
   ("dashboard.general_statistics", "Statystyki ogólne");
   ("dashboard.blocked", "Zablokowane przez filtry");
   ("dashboard.of_all_queries", "wszystkich zapytań");
   ("dashboard.query_logging", "Dziennik zapytań");
   ("dashboard.enabled", "Włączony");
   ("dashboard.disabled", "Wyłączony");
   ("dashboard.requests", "Żądania");
   ("dashboard.domain", "Domena");
   ("dashboard.client", "Klient");
   ("dashboard.upstream_servers", "Serwery nadrzędne");
   ("dashboard.collecting_samples", "Zbieranie próbek…");
   ("cache.search_label", "Szukaj według nazwy");
   ("cache.search_placeholder", "example.org");
   ("cache.all_types", "Wszystkie typy");
   ("cache.remove_entry", "Usuń z pamięci podręcznej");
   ("cache.invalidate_title", "Unieważnij domenę");
   ("cache.invalidate_text", "Usuń odpowiedzi dla jednej nazwy bez czyszczenia całej pamięci podręcznej.");
   ("cache.domain", "Domena");
   ("cache.include_subdomains", "Uwzględnij subdomeny");
   ("cache.invalidate", "Unieważnij");
   ("cache.removed_entries", "Usunięte wpisy");
   ("cache.invalidate_failed", "Unieważnienie nie powiodło się");
   ("cache.flush_confirm", "Wyczyścić wszystkie odpowiedzi? Liczniki trafień i chybień zostaną zachowane.");
   ("cache.no_matches", "Brak wpisów pasujących do filtra.");
   ("blocklists.schedule", "Harmonogram aktualizacji");
   ("blocklists.schedule_for", "Harmonogram aktualizacji dla");
   ("blocklists.manual", "Ręcznie");
   ("blocklists.every_1h", "Co godzinę");
   ("blocklists.every_6h", "Co 6 godzin");
   ("blocklists.every_12h", "Co 12 godzin");
   ("blocklists.every_24h", "Codziennie");
   ("blocklists.every_7d", "Co tydzień");
   ("blocklists.col_next_update", "Następna aktualizacja");
   ("blocklists.due_now", "Teraz");
   ("blocklists.never_updated", "Nigdy nie aktualizowano");
   ("blocklists.retry_count", "nieudane próby");
   ("blocklists.schedule_failed", "Nie można zmienić harmonogramu");
   ("app.nav.forwarding", "Przekazywanie warunkowe");
   ("app.title.forwarding", "Przekazywanie warunkowe");
   ("app.subtitle.forwarding", "Wysyłaj zapytania dla wybranych domen do dedykowanych resolverów.");
   ("forwarding.count", "reguły przekazywania");
   ("forwarding.add", "Dodaj regułę");
   ("forwarding.add_title", "Nowa reguła przekazywania");
   ("forwarding.edit_title", "Edytuj regułę przekazywania");
   ("forwarding.form_hint", "Reguła obejmuje też wszystkie nazwy poniżej domeny. Wygrywa najbardziej szczegółowa aktywna reguła.");
   ("forwarding.domain", "Domena");
   ("forwarding.upstreams", "Resolvery");
   ("forwarding.upstreams_hint", "1–4 adresy jako IP lub IP:port, oddzielone przecinkami. Domyślnie port 53.");
   ("forwarding.description", "Opis");
   ("forwarding.enabled", "Włączona");
   ("forwarding.save", "Zapisz regułę");
   ("forwarding.cancel", "Anuluj")].

Definition pl_5 : list (string * string) :=
  [("forwarding.empty_title", "Brak reguł przekazywania");
   ("forwarding.empty_text", "Wszystkie zapytania używają globalnych resolverów. Dodaj regułę, aby rozwiązywać domenę np. corp.example przez wewnętrzny serwer DNS.");
   ("forwarding.col_status", "Stan");
   ("forwarding.test", "Testuj");
   ("forwarding.test_title", "Testuj regułę");
   ("forwarding.test_hint", "Wysyła jedno zapytanie tylko przez resolvery tej reguły, z pominięciem pamięci podręcznej.");
   ("forwarding.test_name", "Nazwa");
   ("forwarding.test_type", "Typ");
   ("forwarding.run_test", "Uruchom test");
   ("forwarding.test_via", "przez");
   ("forwarding.no_answers", "Brak rekordów odpowiedzi");
   ("forwarding.edit", "Edytuj");
   ("forwarding.delete", "Usuń");
   ("forwarding.delete_confirm", "Usunąć regułę przekazywania dla");
   ("forwarding.toggle", "Włącz lub wyłącz regułę dla");
   ("forwarding.load_failed", "Nie można wczytać reguł");
   ("forwarding.save_failed", "Nie można zapisać reguły");
   ("forwarding.saved", "Reguła zapisana. Wyczyszczono odpowiedzi dla domeny z pamięci podręcznej.");
   ("forwarding.disabled", "Wyłączona");
   ("app.nav.rewrites", "Przepisania DNS");
   ("app.title.rewrites", "Przepisania DNS");
   ("app.subtitle.rewrites", "Odpowiadaj na wybrane nazwy stałymi adresami lub aliasami.");
   ("rewrites.count", "przepisania");
   ("rewrites.add", "Dodaj przepisanie");
   ("rewrites.add_title", "Nowe przepisanie");
   ("rewrites.edit_title", "Edytuj przepisanie");
   ("rewrites.form_hint", "Użyj *.rodzic, aby objąć wszystkie nazwy poniżej domeny. Dokładne nazwy mają pierwszeństwo przed symbolami wieloznacznymi.");
   ("rewrites.name", "Nazwa");
   ("rewrites.type", "Typ");
   ("rewrites.value", "Odpowiedź");
   ("rewrites.value_hint_A", "Adres IPv4");
   ("rewrites.value_hint_AAAA", "Adres IPv6");
   ("rewrites.value_hint_CNAME", "Docelowa nazwa hosta, rozwiązywana normalnie");
   ("rewrites.description", "Opis");
   ("rewrites.enabled", "Włączone");
   ("rewrites.save", "Zapisz przepisanie");
   ("rewrites.empty_title", "Brak przepisań DNS");
   ("rewrites.empty_text", "Przypisz nazwę, np. nas.home, do adresu bez tworzenia strefy.");
   ("rewrites.col_notes", "Uwagi");
   ("rewrites.blocked_hint", "Najpierw blokowane przez listę blokad");
   ("rewrites.overrides_hint", "Zastępuje strefę lokalną");
   ("rewrites.edit", "Edytuj");
   ("rewrites.delete", "Usuń");
   ("rewrites.delete_confirm", "Usunąć to przepisanie?");
   ("rewrites.toggle", "Włącz lub wyłącz przepisanie dla");
   ("rewrites.search", "Filtruj przepisania");
   ("rewrites.load_failed", "Nie można wczytać przepisań");
   ("rewrites.save_failed", "Nie można zapisać przepisania");
   ("rewrites.saved", "Przepisanie zapisane i zastosowane.");
   ("app.nav.clients", "Klienci");
   ("app.title.clients", "Klienci i urządzenia");
   ("app.subtitle.clients", "Nadaj adresom i sieciom nazwy używane w całym Velora.");
   ("clients.count", "klientów");
   ("clients.add", "Dodaj klienta");
   ("clients.add_title", "Nowy klient");
   ("clients.edit_title", "Edytuj klienta");
   ("clients.form_hint", "Gdy sieci się nakładają, wygrywa najbardziej szczegółowa. Nadaj urządzeniom DHCP stały adres przed nazwaniem.");
   ("clients.name", "Nazwa");
   ("clients.addresses", "Adresy");
   ("clients.addresses_hint", "Adresy IP lub sieci CIDR, oddzielone przecinkami.");
   ("clients.group", "Grupa");
   ("clients.description", "Opis");
   ("clients.enabled", "Włączony");
   ("clients.save", "Zapisz klienta");
   ("clients.activity", "Ostatnie 24 godziny");
   ("clients.queries", "zapytań");
   ("clients.last_seen", "Ostatnio widziany");
   ("clients.no_activity", "Brak zapytań");
   ("clients.view_queries", "Pokaż zapytania");
   ("clients.empty_title", "Brak nazwanych klientów");
   ("clients.empty_text", "Nazwij urządzenia, np. telewizor lub Home Assistant, aby łatwo je rozpoznać w dzienniku zapytań.");
   ("clients.unnamed_title", "Ostatnio widziane bez nazwy");
   ("clients.unnamed_text", "Najaktywniejsze adresy z ostatnich 24 godzin bez klienta.");
   ("clients.name_it", "Nazwij urządzenie");
   ("clients.edit", "Edytuj");
   ("clients.delete", "Usuń");
   ("clients.delete_confirm", "Usunąć klienta");
   ("clients.toggle", "Włącz lub wyłącz klienta");
   ("clients.load_failed", "Nie można wczytać klientów");
   ("clients.save_failed", "Nie można zapisać klienta");
   ("clients.saved", "Klient zapisany.");
   ("clients.logging_off", "Włącz dziennik zapytań, aby zobaczyć aktywność klientów.");
   ("app.nav.policies", "Zasady klientów");
   ("app.title.policies", "Zasady filtrowania klientów");
   ("app.subtitle.policies", "Określ, jak blokowanie działa dla poszczególnych klientów.");
   ("policies.load_failed", "Nie udało się wczytać zasad.");
   ("policies.save_failed", "Nie udało się zapisać zasady.");
   ("policies.saved", "Zasada zapisana.");
   ("policies.lookup", "Sprawdź adres");
   ("policies.add", "Dodaj zasadę");
   ("policies.add_title", "Nowa zasada");
   ("policies.edit_title", "Edytuj zasadę");
   ("policies.form_hint", "O zasadzie dla adresu decyduje najbardziej szczegółowa sieć klienta.");
   ("policies.client", "Klient");
   ("policies.mode", "Filtrowanie");
   ("policies.mode_default", "Globalne");
   ("policies.mode_disabled", "Bez filtrowania");
   ("policies.mode_custom", "Własne");
   ("policies.mode_default_hint", "Te same listy blokowanych i dozwolonych co reszta.");
   ("policies.mode_disabled_hint", "Nic nie jest blokowane dla tego klienta.");
   ("policies.mode_custom_hint", "Tylko wybrane listy i własne domeny.");
   ("policies.blocklists", "Listy blokowanych");
   ("policies.no_sources", "Brak list blokowanych.");
   ("policies.globally_off", "wyłączona globalnie");
   ("policies.block", "Blokuj również");
   ("policies.allow", "Zawsze zezwalaj");
   ("policies.domains_hint", "Jedna domena w wierszu; obejmuje subdomeny.");
   ("policies.allow_hint", "Ma pierwszeństwo przed wszystkimi listami dla tego klienta.");
   ("policies.enabled", "Zasada aktywna");
   ("policies.save", "Zapisz zasadę");
   ("policies.empty_title", "Brak zasad klientów");
   ("policies.empty_text", "Wszyscy klienci używają globalnych list. Dodaj zasadę, aby filtrować urządzenie ostrzej, łagodniej lub wcale.");
   ("policies.need_clients", "Zasady dotyczą nazwanych klientów. Najpierw nazwij urządzenie:");
   ("policies.details", "Szczegóły");
   ("policies.summary_disabled", "Wszystkie zapytania bez filtrowania");
   ("policies.summary_default", "Używa globalnych list");
   ("policies.no_lists", "Bez list");
   ("policies.blocked_short", "blokowane");
   ("policies.allowed_short", "dozwolone");
   ("policies.paused", "Wstrzymana");
   ("policies.toggle", "Zasada aktywna");
   ("policies.edit", "Edytuj zasadę");
   ("policies.delete", "Usuń zasadę");
   ("policies.delete_confirm", "Usunąć zasadę dla");
   ("policies.no_policy", "(brak zasady, filtrowanie globalne)");
   ("policies.unknown_address", "nie pasuje do żadnego klienta i używa filtrowania globalnego.");
   ("app.nav.webhooks", "Webhooki");
   ("app.title.webhooks", "Powiadomienia webhook");
   ("app.subtitle.webhooks", "Wysyłaj ważne zdarzenia do innych systemów.");
   ("webhooks.load_failed", "Nie udało się wczytać webhooków.");
   ("webhooks.save_failed", "Nie udało się zapisać webhooka.");
   ("webhooks.saved", "Webhook zapisany.");
   ("webhooks.count", "webhooków");
   ("webhooks.add", "Dodaj webhook");
   ("webhooks.add_title", "Nowy webhook");
   ("webhooks.edit_title", "Edytuj webhook");
   ("webhooks.form_hint", "Velora wysyła żądanie POST JSON dla każdego pasującego zdarzenia. Dostarczanie działa w tle i nie opóźnia odpowiedzi DNS.");
   ("webhooks.name", "Nazwa");
   ("webhooks.url", "URL");
   ("webhooks.min_severity", "Minimalna ważność");
   ("webhooks.severity_info", "Informacja");
   ("webhooks.severity_warning", "Ostrzeżenie");
   ("webhooks.severity_critical", "Krytyczne");
   ("webhooks.token", "Token bearer");
   ("webhooks.token_hint", "Opcjonalny. Wysyłany w nagłówku Authorization; nie jest ponownie wyświetlany.");
   ("webhooks.token_stored", "Token zapisany");
   ("webhooks.token_change", "Zmień");
   ("webhooks.token_remove_hint", "Pozostaw puste, aby usunąć token")].

Definition pl_6 : list (string * string) :=
  [("webhooks.events", "Zdarzenia");
   ("webhooks.events_hint", "Nie zaznaczaj nic, aby otrzymywać wszystkie typy.");
   ("webhooks.all_events", "Wszystkie zdarzenia");
   ("webhooks.allow_private", "Zezwól na cel w sieci prywatnej (np. Home Assistant w LAN)");
   ("webhooks.enabled", "Webhook aktywny");
   ("webhooks.save", "Zapisz webhook");
   ("webhooks.empty_title", "Brak webhooków");
   ("webhooks.empty_text", "Dodaj webhook, aby wiedzieć, gdy upstream zawiedzie, lista nie odświeży się lub kopia zapasowa się nie uda.");
   ("webhooks.last_delivery", "Ostatnie dostarczenie");
   ("webhooks.never", "Nic jeszcze nie wysłano");
   ("webhooks.failing", "Błędy");
   ("webhooks.toggle", "Webhook aktywny");
   ("webhooks.test", "Wyślij test");
   ("webhooks.test_ok", "Test dostarczono do");
   ("webhooks.test_failed", "Test nieudany dla");
   ("webhooks.edit", "Edytuj webhook");
   ("webhooks.delete", "Usuń webhook");
   ("webhooks.delete_confirm", "Usunąć webhook");
   ("app.nav.analytics", "Analityka");
   ("app.title.analytics", "Analityka");
   ("app.subtitle.analytics", "Aktywność DNS i wydajność resolvera na podstawie zachowanej historii.");
   ("analytics.load_failed", "Nie udało się wczytać analityki.");
   ("analytics.logging_off_title", "Rejestrowanie zapytań jest wyłączone");
   ("analytics.logging_off_text", "Analityka korzysta z historii zapytań. Włącz rejestrowanie zapytań:");
   ("analytics.range", "Zakres czasu");
   ("analytics.range_1h", "1 godzina");
   ("analytics.range_24h", "24 godziny");
   ("analytics.range_7d", "7 dni");
   ("analytics.range_30d", "30 dni");
   ("analytics.history_limited", "Historia zapytań sięga tylko do");
   ("analytics.queries", "Zapytania");
   ("analytics.blocked", "Zablokowane");
   ("analytics.allowed", "Dozwolone");
   ("analytics.cached", "Odpowiedzi z cache");
   ("analytics.answers", "odpowiedzi");
   ("analytics.avg_upstream", "Śr. czas upstream");
   ("analytics.empty_title", "Brak zapytań w tym zakresie");
   ("analytics.empty_text", "Wybierz dłuższy zakres lub wróć później.");
   ("analytics.over_time", "Zapytania w czasie");
   ("analytics.over_time_hint", "Najedź kursorem lub użyj strzałek.");
   ("analytics.chart_aria", "Zapytania na przedział, dozwolone i zablokowane");
   ("analytics.show_table", "Pokaż jako tabelę");
   ("analytics.time", "Czas");
   ("analytics.avg_time", "Śr. czas");
   ("analytics.latency", "Czas odpowiedzi upstream");
   ("analytics.latency_hint", "Średnia odpowiedzianych przekazanych zapytań; przerwy oznaczają brak ruchu.");
   ("analytics.latency_aria", "Średni czas odpowiedzi upstream na przedział");
   ("analytics.query_types", "Typy zapytań");
   ("analytics.sources", "Odpowiedziane przez");
   ("analytics.source_upstream", "Upstream");
   ("analytics.source_cache", "Cache");
   ("analytics.source_blocked", "Zablokowane");
   ("analytics.source_local", "Strefy lokalne i przepisania");
   ("analytics.source_refused", "Odrzucone");
   ("analytics.response_codes", "Kody odpowiedzi");
   ("analytics.top_blocked", "Najczęściej blokowane domeny");
   ("analytics.nothing_blocked", "Nic nie zablokowano w tym zakresie");
   ("analytics.upstreams", "Użycie upstreamów");
   ("analytics.upstreams_hint", "Przekazane zapytania na resolver, odpowiedzi SERVFAIL i średni czas.");
   ("analytics.no_upstream", "Brak ruchu upstream w tym zakresie");
   ("analytics.failures", "Błędy");
   ("updates.check_prompt", "Sprawdź, czy dostępna jest nowsza wersja.");
   ("updates.checking", "Sprawdzanie aktualizacji…");
   ("updates.starting", "Uruchamianie aktualizacji…");
   ("updates.updating_to", "Aktualizacja do");
   ("updates.completed_to", "Zaktualizowano do");
   ("updates.failed_title", "Aktualizacja nie została ukończona");
   ("updates.failed_text", "Aktualizacja nie powiodła się. Velora działa na poprzedniej wersji.");
   ("updates.not_started", "Aktualizator nie rozpoczął aktualizacji. Sprawdź, czy działa velora-updater.service.");
   ("updates.check_again", "Sprawdź ponownie");
   ("updates.update_now", "Aktualizuj");
   ("updates.reload", "Przeładuj stronę");
   ("updates.reconnecting", "Velora uruchamia się ponownie. Oczekiwanie…");
   ("updates.keep_open", "Możesz zostawić tę stronę otwartą; odświeża się sama. DNS odpowiada z bieżącej wersji do momentu przełączenia.");
   ("updates.completed_text", "Aktualizacja zakończona i sprawdzona. Przeładuj stronę, aby wczytać nowy interfejs.");
   ("updates.release_date", "Wydano");
   ("settings.entry", "Pozycja");
   ("settings.fix_fields", "Nic nie zmieniono. Popraw zaznaczone pola i spróbuj ponownie.");
   ("settings.restart_required", "Nic nie zmieniono. Zaznaczone pola wymagają restartu: edytuj plik konfiguracji i uruchom ponownie Velora DNS.");
   ("settings.restart_field", "Wymaga restartu");
   ("settings.check", "Sprawdź");
   ("settings.check_ok", "Ustawienia są poprawne i można je zastosować bez restartu.");
   ("restore.title", "Przywróć kopię");
   ("restore.hint", "Prześlij zaszyfrowaną kopię, aby ją najpierw sprawdzić. Nic się nie zmieni przed potwierdzeniem; Velora uruchomi się ponownie, zachowa kopię bezpieczeństwa i wycofa zmiany, jeśli nie wystartuje.");
   ("restore.file", "Plik kopii (.vdns)");
   ("restore.inspect", "Sprawdź kopię");
   ("restore.inspecting", "Sprawdzanie…");
   ("restore.inspect_failed", "Nie udało się sprawdzić kopii.");
   ("restore.review_title", "Kopia jest poprawna");
   ("restore.created", "Utworzono");
   ("restore.version", "Wersja Velora");
   ("restore.schema", "Schemat bazy");
   ("restore.contents", "Zawartość");
   ("restore.zones", "strefy");
   ("restore.records", "rekordy");
   ("restore.blocklists", "listy");
   ("restore.rewrites", "przepisania");
   ("restore.forward_rules", "reguły przekazywania");
   ("restore.clients", "klienci");
   ("restore.users", "użytkownicy");
   ("restore.listeners", "Nasłuch");
   ("restore.web", "WWW");
   ("restore.confirm", "Zastąp bieżącą konfigurację i dane tą kopią. Kopia bezpieczeństwa bieżącego stanu zostanie zachowana.");
   ("restore.restore", "Przywróć i uruchom ponownie");
   ("restore.schedule_failed", "Nie udało się rozpocząć przywracania.");
   ("restore.manual_restart", "Przywracanie zaplanowane. Uruchom ponownie Velora DNS, aby je zastosować.");
   ("restore.restarting", "Velora uruchamia się ponownie, aby zastosować kopię. Strona odświeży się po powrocie.");
   ("restore.signed_out", "Velora działa z przywróconymi danymi. Zaloguj się kontem z kopii.");
   ("restore.again", "Przywróć inną kopię");
   ("restore.backup_from", "Kopia z");
   ("restore.safety_copy", "Poprzedni stan zachowano w");
   ("restore.state_completed", "Przywracanie zakończone.");
   ("restore.state_rolled_back", "Przywracanie wycofane.");
   ("restore.state_failed", "Przywracanie nie powiodło się.");
   ("restore.state_applied", "Przywracanie zastosowane; oczekiwanie na gotowość.");
   ("restore.state_pending", "Przywracanie zaplanowane.");
   ("restore.passphrase", "Hasło kopii");
   ("app.scrollable_table", "przewijana w poziomie");
   ("palette.title", "Paleta poleceń");
   ("palette.placeholder", "Szukaj stron, stref, rekordów, klientów…");
   ("palette.results", "Wyniki");
   ("palette.pages", "Strony");
   ("palette.actions", "Akcje");
   ("palette.kind_zone", "Strefy");
   ("palette.kind_record", "Rekordy");
   ("palette.kind_client", "Klienci");
   ("palette.kind_rewrite", "Przepisania DNS");
   ("palette.kind_forwarding", "Przekazywanie warunkowe");
   ("palette.kind_blocklist", "Listy blokowanych");
   ("palette.no_results", "Brak wyników.");
   ("palette.navigate", "nawiguj");
   ("palette.open", "otwórz");
   ("palette.toggle", "otwórz lub zamknij");
   ("palette.open_button", "Szukaj");
   ("palette.add_client", "Dodaj klienta");
   ("palette.create_backup", "Utwórz kopię");
   ("cluster.action_failed", "Operacja klastra nie powiodła się.");
   ("cluster.never", "nigdy");
   ("cluster.role", "Rola");
   ("cluster.role_standalone", "Samodzielny");
   ("cluster.role_primary", "Węzeł główny klastra");
   ("cluster.role_replica", "Replika klastra");
   ("cluster.replicas", "Repliki");
   ("cluster.in_sync_count", "zsynchronizowane");
   ("cluster.revision", "Rewizja stref");
   ("cluster.zones_replicated", "stref replikowanych");
   ("cluster.last_sync", "Ostatnia synchronizacja");
   ("cluster.sync_failed", "Ostatnia synchronizacja nieudana")].

Definition pl_7 : list (string * string) :=
  [("cluster.sync_ok", "Aktualne z węzłem głównym");
   ("cluster.members", "Repliki");
   ("cluster.members_hint", "Węzły kopiujące strefy tego węzła głównego. Zgłaszają się co 30 sekund.");
   ("cluster.add_node", "Dodaj węzeł");
   ("cluster.token_title", "Utworzono token dołączenia");
   ("cluster.token_steps", "Na nowym węźle otwórz Klaster → Dołącz do klastra i wpisz:");
   ("cluster.token_expires", "Token wygasa o");
   ("cluster.token_once", "Działa jednorazowo i nie zostanie ponownie pokazany.");
   ("cluster.copy_token", "Kopiuj token");
   ("cluster.copied", "Skopiowano");
   ("cluster.token_done", "Gotowe");
   ("cluster.no_members", "Brak replik");
   ("cluster.no_members_text", "Dodaj węzeł, aby utworzyć token dołączenia dla drugiego serwera Velora DNS.");
   ("cluster.status_in_sync", "Zsynchronizowany");
   ("cluster.status_behind", "Nadrabia");
   ("cluster.status_stale", "Nie odpowiada");
   ("cluster.status_error", "Błąd synchronizacji");
   ("cluster.status_never_synced", "Oczekuje na pierwszą synchronizację");
   ("cluster.remove", "Usuń węzeł");
   ("cluster.remove_confirm", "Usunąć tę replikę? Przestanie otrzymywać aktualizacje stref:");
   ("cluster.removed", "Replika usunięta.");
   ("cluster.dissolve", "Rozwiąż klaster");
   ("cluster.dissolve_hint", "Unieważnia wszystkie repliki i przywraca ten węzeł jako samodzielny. Repliki zachowują ostatnią kopię stref.");
   ("cluster.dissolve_confirm", "Rozwiązać klaster i unieważnić wszystkie repliki?");
   ("cluster.dissolved", "Klaster został rozwiązany.");
   ("cluster.replica_title", "Replikacja z węzła głównego");
   ("cluster.replica_hint", "Strefy na tym węźle są kopiowane z węzła głównego i są tu tylko do odczytu. Pozostałe ustawienia są lokalne.");
   ("cluster.replica_ok", "Replikacja działa.");
   ("cluster.sync_now", "Synchronizuj teraz");
   ("cluster.leave", "Opuść klaster");
   ("cluster.leave_confirm", "Opuścić klaster? Węzeł zachowa strefy i znów będzie edytowalny.");
   ("cluster.left", "Węzeł opuścił klaster.");
   ("cluster.primary_url", "URL węzła głównego");
   ("cluster.cluster_id", "ID klastra");
   ("cluster.node_id", "ID węzła");
   ("cluster.join_token", "Token dołączenia");
   ("cluster.standalone_title", "Ten węzeł jest samodzielny");
   ("cluster.standalone_viewer", "Administrator może utworzyć klaster lub dołączyć do niego ten węzeł.");
   ("cluster.scope_note", "Klaster utrzymuje identyczne strefy lokalne na kilku serwerach Velora DNS: węzeł główny przyjmuje zmiany, a repliki kopiują je co 30 sekund. Brak automatycznego przełączania; pozostałe ustawienia są per węzeł.");
   ("cluster.create_title", "Utwórz klaster");
   ("cluster.create_hint", "Ten węzeł stanie się główny. Jego strefy zostaną skopiowane do replik.");
   ("cluster.node_name", "Nazwa węzła");
   ("cluster.advertised_url", "Adres używany przez inne węzły");
   ("cluster.advertised_hint", "Adres URL interfejsu tego węzła widziany przez repliki.");
   ("cluster.allow_http", "Zezwól na HTTP bez szyfrowania (tylko zaufana sieć)");
   ("cluster.skip_check", "Pomiń sprawdzanie dostępności");
   ("cluster.create", "Utwórz klaster");
   ("cluster.created", "Klaster utworzony. Dodaj węzeł, aby zaprosić replikę.");
   ("cluster.join_title", "Dołącz do klastra");
   ("cluster.join_hint", "Uczyń ten węzeł repliką węzła głównego. Najpierw utwórz token na węźle głównym.");
   ("cluster.join_warning", "Dołączenie zastąpi strefy lokalne tego węzła strefami węzła głównego. Inne ustawienia się nie zmienią.");
   ("cluster.join_confirm", "Dołączyć do klastra i zastąpić strefy tego węzła strefami węzła głównego?");
   ("cluster.join", "Dołącz do klastra");
   ("cluster.joined", "Węzeł dołączył do klastra i kopiuje strefy węzła głównego.");
   ("cluster.zones_read_only", "Ten węzeł jest repliką klastra. Strefy są kopiowane z węzła głównego i można je zmieniać tylko tam.")].

Definition pl : list (string * string) :=
  (pl_1 ++ pl_2 ++ pl_3 ++ pl_4 ++ pl_5 ++ pl_6 ++ pl_7)%list.
