(* ===== verification/I18nCs.v ===== *)
(** * The Czech catalog: web/src/i18n/cs.ts

    Its entries in order, in parts of up to 148 lines of the file. *)
From S2P Require Import Prelude.
Local Open Scope string_scope.

Definition cs_1 : list (string * string) :=
  [("app.skip_to_content", "Přeskočit na obsah");
   ("app.workspace_label", "PRACOVNÍ PROSTOR");
   ("app.nav.events", "Události");
   ("app.title.events", "Události");
   ("events.unread", "nepřečtené");
   ("events.empty", "Zatím žádné systémové události.");
   ("events.load_failed", "Nepodařilo se načíst události");
   ("events.mark_read", "Označit jako přečtené");
   ("events.repeated", "Opakováno");
   ("events.open", "Otevřít");
   ("events.info", "Info");
   ("events.warning", "Varování");
   ("events.critical", "Kritické");
   ("app.nav.main", "Hlavní navigace");
   ("app.nav.overview", "Přehled");
   ("app.nav.zones", "Místní zóny");
   ("app.nav.queries", "Protokol dotazů");
   ("app.nav.blocklists", "Blokovací seznamy");
   ("app.nav.cache", "DNS cache");
   ("app.nav.settings", "Nastavení");
   ("app.nav.updates", "Aktualizace");
   ("app.nav.backup", "Záloha");
   ("app.sign_out", "Odhlásit se");
   ("app.nav.audit", "Protokol auditu");
   ("app.title.audit", "Protokol auditu");
   ("app.nav.diagnostics", "Diagnostika");
   ("app.title.diagnostics", "Diagnostika");
   ("app.local_resolver", "Místní resolver");
   ("app.self_hosted_foundation", "Vlastní hosting · Základ");
   ("app.private_by_default", "Výchozí soukromí");
   ("app.privacy.query_retention", "Historie dotazů má omezenou dobu uchovávání.");
   ("app.privacy.no_query_history", "Historie dotazů se neshromažďuje.");
   ("app.github_repo", "GitHub repozitář");
   ("app.connecting", "Připojování…");
   ("app.workspace", "Pracovní prostor");
   ("app.connection_lost", "Spojení ztraceno");
   ("app.resolver_online", "Resolver online");
   ("app.title.overview", "Přehled sítě");
   ("app.title.zones", "Místní zóny");
   ("app.title.queries", "Protokol dotazů");
   ("app.title.blocklists", "Blokovací seznamy");
   ("app.title.cache", "DNS cache");
   ("app.title.settings", "Nastavení");
   ("app.title.updates", "Aktualizace");
   ("app.title.backup", "Záloha a obnovení");
   ("app.eyebrow", "VAŠE SÍŤ NA PRVNÍ POHLED");
   ("app.subtitle.overview", "Přehledný pohled na vaše DNS, od požadavku po odpověď.");
   ("app.subtitle.default", "Prozkoumejte a spravujte svůj resolver.");
   ("app.refresh", "Obnovit");
   ("app.error.showing_last", "Zobrazuji poslední úspěšný snímek z");
   ("app.error.check_server", "Zkontrolujte, zda běží server Velora.");
   ("app.error.reach_server", "Nelze se připojit k serveru");
   ("app.viewer_readonly", "Jste přihlášeni jako prohlížeč. Akce správy jsou pouze pro čtení.");
   ("app.connecting_panel", "Připojování k resolveru…");
   ("app.not_found", "Stránka nenalezena.");
   ("app.footer.independent", "Velora DNS · Nezávislý. Vlastní hosting.");
   ("app.footer.last_updated", "Poslední aktualizace");
   ("app.footer.waiting", "Čekání na server");
   ("diagnostics.title", "Stav systému");
   ("diagnostics.report_hint", "Stažený přehled obsahuje stav komponent a informace o sestavení, bez tajných údajů a protokolů dotazů.");
   ("diagnostics.download", "Stáhnout přehled");
   ("diagnostics.loading", "Načítání diagnostiky…");
   ("diagnostics.load_failed", "Diagnostiku nelze načíst");
   ("diagnostics.upstreams", "Nadřazené servery");
   ("diagnostics.component", "Komponenta");
   ("diagnostics.state", "Stav");
   ("diagnostics.detail", "Podrobnosti");
   ("diagnostics.state.healthy", "V pořádku");
   ("diagnostics.state.degraded", "Omezený");
   ("diagnostics.state.failed", "Selhal");
   ("explain.title", "Proč přišla tato odpověď?");
   ("explain.hint", "Zkušební průchod resolveru pro jeden název. Nic se nedotazuje na upstream, neloguje, neukládá do mezipaměti ani nepočítá.");
   ("explain.name", "Název");
   ("explain.type", "Typ záznamu");
   ("explain.client", "Adresa klienta (volitelné)");
   ("explain.client_hint", "Použije filtrační politiku tohoto klienta.");
   ("explain.submit", "Vysvětlit");
   ("explain.running", "Vysvětluji…");
   ("explain.failed", "Tento dotaz se nepodařilo vysvětlit");
   ("explain.result", "Vysvětlení");
   ("explain.winner", "Rozhodující fáze");
   ("explain.answers", "Odpověď");
   ("explain.no_answers", "Žádné záznamy odpovědi: odpověď by přišla z upstream resolveru, na který se nedotazuje.");
   ("explain.steps", "Zvažované fáze");
   ("explain.step", "Fáze");
   ("explain.outcome", "Výsledek");
   ("explain.detail", "Podrobnosti");
   ("explain.cname_target", "Cíl CNAME");
   ("explain.ttl", "Zbývající TTL");
   ("explain.matches", "Shoda");
   ("explain.allowed_by", "Povoleno pravidlem");
   ("explain.not_contacted", "Žádný upstream nebyl dotázán.");
   ("explain.scope.global", "Globální filtrování");
   ("explain.scope.client_policy", "Politika klienta");
   ("explain.stage.filter", "Blocklist nebo politika klienta");
   ("explain.stage.rewrite", "Přepis DNS");
   ("explain.stage.zone", "Lokální zóna");
   ("explain.stage.cache", "Mezipaměť");
   ("explain.stage.forwarding", "Pravidlo podmíněného předávání");
   ("explain.stage.upstream", "Globální upstream resolvery");
   ("explain.stage.refused", "Odmítnuto");
   ("explain.result.passed", "Propuštěno");
   ("explain.result.allowed", "Povoleno");
   ("explain.result.blocked", "Blokováno");
   ("explain.result.no_match", "Bez shody");
   ("explain.result.answered", "Zodpovězeno");
   ("explain.result.miss", "Minutí");
   ("explain.result.hit", "Zásah");
   ("explain.result.refused", "Odmítnuto");
   ("explain.result.would_forward", "Bylo by předáno");
   ("explain.result.error", "Chyba");
   ("explain.source.local", "Lokální odpověď");
   ("explain.source.cache", "Mezipaměť");
   ("explain.source.blocked", "Blokováno");
   ("explain.source.upstream", "Upstream");
   ("explain.source.refused", "Odmítnuto");
   ("audit.title", "Protokol správy");
   ("audit.hint", "Správcovské akce se uchovávají 90 dní. Tajné údaje a obsah požadavků jsou vyloučeny.");
   ("audit.actor", "Uživatel");
   ("audit.action", "Akce");
   ("audit.result", "Výsledek");
   ("audit.all", "Vše");
   ("audit.success", "Úspěch");
   ("audit.failure", "Selhání");
   ("audit.filter", "Filtrovat");
   ("audit.time", "Čas");
   ("audit.target", "Cíl");
   ("audit.empty", "Nebyly nalezeny žádné události auditu.");
   ("audit.more", "Načíst další");
   ("audit.load_failed", "Události auditu nelze načíst");
   ("auth.checking", "Kontrola relace…");
   ("auth.sign_in_title", "Přihlaste se k Velora DNS");
   ("auth.username", "Uživatelské jméno");
   ("auth.password", "Heslo");
   ("auth.sign_in", "Přihlásit se");
   ("auth.sign_in_failed", "Přihlášení se nezdařilo");
   ("settings.server_configuration", "Konfigurace serveru");
   ("settings.language", "Jazyk");
   ("settings.theme", "Motiv");
   ("settings.theme_light", "Světlý");
   ("settings.theme_dark", "Tmavý");
   ("settings.theme_auto", "Auto");
   ("settings.theme_hint", "Automaticky sleduje světlý nebo tmavý režim vašeho operačního systému.");
   ("settings.log_level", "Úroveň logování");
   ("settings.rate_limiting", "Omezení rychlosti");
   ("settings.rate_limit_hint", "Omezení rychlosti je ve výchozím nastavení vypnuté. Zapněte ho pro ochranu resolveru před záplavou požadavků a vysokými frekvencemi dotazů.");
   ("settings.rate_limit_enabled", "Zapnout omezení rychlosti");
   ("settings.rate_limit_global_qps", "Globální dotazy za sekundu")].

Definition cs_2 : list (string * string) :=
  [("settings.rate_limit_client_qps", "Dotazy za sekundu na klienta");
   ("settings.rate_limit_burst", "Povolený nárůst");
   ("settings.rate_limit_rejected_total", "Odmítnuté dotazy");
   ("settings.rate_limit_last_rejected", "Poslední odmítnutí");
   ("settings.save", "Uložit");
   ("settings.rate_limit_load_failed", "Nelze načíst nastavení omezení rychlosti");
   ("settings.rate_limit_save_failed", "Nelze uložit nastavení omezení rychlosti");
   ("settings.rate_limit_saved", "Nastavení omezení rychlosti uloženo.");
   ("settings.rate_limit_loading", "Načítání nastavení omezení rychlosti…");
   ("settings.edit_hint", "Tato nastavení odpovídají možnostem rychlé instalace. Některé změny vyžadují restart; změny TTL cache se projeví okamžitě.");
   ("settings.dns_section", "Nastavení DNS");
   ("settings.cache_section", "DNS cache");
   ("settings.cache_ttl_label", "TTL cache nadřazených odpovědí (sekundy)");
   ("settings.cache_ttl_hint", "86400 sekund = 24 hodiny. Rozsah: 0–604800 sekund; 0 použije původní TTL nadřazeného serveru. Změny nadřazených serverů se mohou projevit až po uplynutí této doby. Změna vymaže existující odpovědi v cache. Odpovědi s nulovým TTL a podepsané DNSSEC si zachovají původní TTL.");
   ("settings.cache_ttl_invalid", "Zadejte celé číslo od 0 do 604800 sekund.");
   ("settings.dns_listen_label", "DNS adresy naslouchání (oddělené čárkou)");
   ("settings.dns_listen_warning", "Upozornění: 0.0.0.0 vystavuje DNS vaší síti. Ujistěte se, že firewall povoluje pouze důvěryhodné klienty.");
   ("settings.upstreams_label", "Nadřazené DNS servery (oddělené čárkou)");
   ("settings.upstreams_hint", "Formát: IP:PORT (např. 1.1.1.1:53). DoH upstreamy používají https://host/dns-query");
   ("settings.allowed_clients_label", "Povolené klientské sítě (CIDR oddělené čárkou)");
   ("settings.allowed_clients_hint", "Pouze tyto sítě mohou resolveru posílat dotazy. Příklad: 192.168.1.0/24, 10.0.0.0/8");
   ("settings.web_section", "Nastavení webového rozhraní");
   ("settings.web_listen_label", "Adresa webového rozhraní (IP:port)");
   ("settings.web_listen_warning", "Upozornění: 0.0.0.0 vystavuje webové rozhraní vaší síti. Použijte firewall nebo ověření.");
   ("settings.allowed_hosts_label", "Povolení hostitelé (oddělení čárkou)");
   ("settings.allowed_hosts_hint", "Povolené host hlavičky pro přístup ke správě API. Použijte * pro povolení všech (nedoporučuje se v LAN).");
   ("settings.logging_section", "Logování a další");
   ("settings.enable_query_log", "Zapnout logování dotazů");
   ("settings.save_configuration", "Uložit konfiguraci");
   ("settings.saving", "Ukládání…");
   ("settings.save_success", "Konfigurace uložena a použita.");
   ("settings.save_failed", "Nepodařilo se uložit konfiguraci");
   ("dashboard.total_queries", "Celkový počet dotazů");
   ("dashboard.since_start", "Od posledního vynulování statistik");
   ("dashboard.reset_statistics", "Vynulovat statistiky");
   ("dashboard.reset_confirm", "Vynulovat počítadla dotazů, mezipaměti a omezení rychlosti? Tuto akci nelze vrátit zpět.");
   ("dashboard.reset_failed", "Statistiky se nepodařilo vynulovat");
   ("dashboard.qps", "Dotazy / sekundu");
   ("dashboard.rolling_avg", "Klouzavý průměr za 60 sekund");
   ("dashboard.cache_hit_rate", "Míra zásahů cache");
   ("dashboard.answers_from_memory", "odpovědí z paměti");
   ("dashboard.uptime", "Doba provozu");
   ("dashboard.process_lifetime", "Aktuální doba běhu procesu");
   ("dashboard.top_domains", "Nejčastější domény");
   ("dashboard.top_clients", "Nejčastější klienti");
   ("dashboard.query_activity", "Aktivita dotazů");
   ("dashboard.live_samples", "Živé vzorky z vašeho resolveru");
   ("dashboard.refresh_5s", "Obnovení každých 5 s");
   ("dashboard.queries_per_sec", "dotazů / sek");
   ("dashboard.chart_aria", "Míra dotazů během této relace prohlížeče");
   ("dashboard.session_samples", "Vzorky relace");
   ("dashboard.now", "Nyní");
   ("dashboard.upstream_resolvers", "Nadřazené resolvery");
   ("dashboard.ordered_failover", "Řazený failover s TCP zálohou");
   ("dashboard.endpoint", "Koncový bod");
   ("dashboard.health", "Stav");
   ("dashboard.upstream_unknown", "Neznámý");
   ("dashboard.upstream_healthy", "V pořádku");
   ("dashboard.upstream_degraded", "Omezený");
   ("dashboard.upstream_unavailable", "Nedostupný");
   ("dashboard.priority", "Priorita");
   ("dashboard.attempt_timeout", "Časový limit pokusu");
   ("dashboard.primary", "Primární");
   ("dashboard.fallback", "Záložní");
   ("dashboard.config_shown", "Konfigurace zobrazena. Dosažitelnost se kontroluje při každém dotazu.");
   ("dashboard.retained_last_24h", "Uchované dotazy za posledních 24 hodin");
   ("dashboard.unavailable_no_logging", "Nedostupné, když je logování dotazů vypnuté.");
   ("dashboard.loading_stats", "Načítání statistik dotazů…");
   ("dashboard.stats_load_failed", "Nelze načíst statistiky dotazů");
   ("dashboard.no_retained", "Žádné uchované dotazy v tomto období.");
   ("cache.live_entries", "Aktuální záznamy");
   ("cache.capacity", "Kapacita");
   ("cache.hits", "Zásahy cache");
   ("cache.since_startup", "Od spuštění procesu");
   ("cache.misses", "Minuty cache");
   ("cache.includes_uncacheable", "Zahrnuje necacheovatelné požadavky");
   ("cache.memory_cache", "Cache v paměti");
   ("cache.description", "Pozitivní odpovědi nadřazených serverů používají nakonfigurovaný TTL cache. Odpovědi s nulovým TTL, podepsané DNSSEC a negativní odpovědi si zachovávají původní pravidla. Nejstarší nepoužívané záznamy se při dosažení kapacity odstraňují. Obsah cache se nikdy neukládá do SQLite.");
   ("cache.clear_description", "Vymazání cache odstraní všechny aktuální odpovědi. Počítadla zásahů a minut se zachovají.");
   ("cache.clearing", "Mazání…");
   ("cache.clear", "Vymazat cache");
   ("cache.cleared", "Cache vymazána. Místní zóny zůstávají aktivní; ostatní dotazy budou forwardovány na nadřazené servery.");
   ("cache.flush_failed", "Vymazání cache se nezdařilo");
   ("cache.entries_title", "Záznamy DNS cache");
   ("cache.entries_description", "Aktuální odpovědi, nejnovější jako první.");
   ("cache.entries_loading", "Načítání záznamů cache…");
   ("cache.entries_load_failed", "Nelze načíst záznamy cache");
   ("cache.entries_empty", "Cache je prázdná.");
   ("cache.entries_scroll_hint", "Přejděte stranou, abyste viděli všechny sloupce.");
   ("cache.entry_name", "Název");
   ("cache.entry_type", "Typ");
   ("cache.entry_answer", "Odpověď");
   ("cache.entry_status", "Stav");
   ("cache.entry_ttl", "Zbývající TTL");
   ("cache.seconds", "s");
   ("cache.previous", "Předchozí");
   ("cache.next", "Další");
   ("querylog.unavailable_title", "Historie dotazů nedostupná");
   ("querylog.unavailable_text", "Zapněte logování dotazů pro shromažďování a kontrolu budoucí DNS aktivity.");
   ("querylog.up_to_100", "Až 100 uchovaných odpovědí na stránku");
   ("querylog.refresh", "Obnovit dotazy");
   ("querylog.filters_aria", "Filtry dotazů");
   ("querylog.domain", "Doména");
   ("querylog.contains_example", "Obsahuje example.com");
   ("querylog.client_ip", "IP klienta");
   ("querylog.exact_ip", "Přesná IP adresa");
   ("querylog.query_type", "Typ dotazu");
   ("querylog.all_types", "Všechny typy");
   ("querylog.source", "Zdroj");
   ("querylog.all_sources", "Všechny zdroje");
   ("querylog.apply_filters", "Použít filtry");
   ("querylog.show_blocked", "Zobrazit blokované dotazy");
   ("querylog.error_stale", "Předchozí výsledky mohou být zastaralé.");
   ("querylog.loading", "Načítání protokolu dotazů…");
   ("querylog.no_matches", "Žádné odpovídající dotazy");
   ("querylog.no_matches_text", "Vyzkoušejte jiné filtry nebo generujte DNS provoz s zapnutým logováním.");
   ("querylog.caption", "Protokol DNS dotazů");
   ("querylog.col_timestamp", "Časové razítko");
   ("querylog.col_client", "Klient");
   ("querylog.col_domain", "Doména");
   ("querylog.col_type", "Typ");
   ("querylog.col_source", "Zdroj");
   ("querylog.col_response", "Odpověď");
   ("querylog.col_latency", "Latence");
   ("querylog.older", "Starší dotazy");
   ("querylog.load_failed", "Nelze načíst protokol dotazů");
   ("blocklists.count", "externích zdrojů");
   ("blocklists.count_one", "externí zdroj");
   ("blocklists.sources_label", "Zdroje DNS politik");
   ("blocklists.reload", "Znovu načíst");
   ("blocklists.add_source", "Přidat zdroj");
   ("blocklists.add_aria", "Přidat zdroj blokovacího seznamu");
   ("blocklists.add_title", "Přidat externí blokovací seznam");
   ("blocklists.add_text", "Přijímány jsou pouze veřejné HTTP(S) zdroje. Neúspěšné obnovení ponechává předchozí DNS pravidla aktivní.");
   ("blocklists.name", "Název");
   ("blocklists.source_url", "URL zdroje");
   ("blocklists.community_hosts", "Komunitní hostitelé");
   ("blocklists.adding", "Přidávání…");
   ("blocklists.cancel", "Zrušit");
   ("blocklists.loading", "Načítání zdrojů blokovacích seznamů…");
   ("blocklists.empty_title", "Žádné externí blokovací seznamy");
   ("blocklists.empty_text", "Přidejte důvěryhodný veřejný seznam hostitelů nebo domén pro aplikaci DNS blokování.");
   ("blocklists.caption", "Zdroje externích blokovacích seznamů");
   ("blocklists.col_source", "Zdroj");
   ("blocklists.col_status", "Stav");
   ("blocklists.col_last_update", "Poslední aktualizace");
   ("blocklists.update_failed", "Aktualizace se nezdařila");
   ("blocklists.active", "AKTIVNÍ")].

Definition cs_3 : list (string * string) :=
  [("blocklists.disabled", "ZAKÁZÁNO");
   ("blocklists.never", "Nikdy");
   ("blocklists.updating", "Aktualizace…");
   ("blocklists.update", "Aktualizovat");
   ("blocklists.load_failed", "Nelze načíst blokovací seznamy");
   ("blocklists.add_failed", "Nelze přidat zdroj");
   ("blocklists.update_failed_msg", "Nelze aktualizovat zdroj");
   ("blocklists.col_domains", "Domény");
   ("blocklists.local", "Místní");
   ("blocklists.enable", "Zapnout");
   ("blocklists.disable", "Vypnout");
   ("blocklists.toggle_failed", "Nelze přepnout stav zdroje");
   ("blocklists.edit_content", "Upravit obsah");
   ("blocklists.edit_content_aria", "Upravit obsah blokovacího seznamu");
   ("blocklists.edit_content_title", "Upravit domény blokovacího seznamu");
   ("blocklists.edit_content_text", "Zadejte jednu doménu na řádek. Řádky začínající 0.0.0.0 nebo komentářem jsou považovány za záznamy hostitelů.");
   ("blocklists.domains_label", "Domény");
   ("blocklists.saving", "Ukládání…");
   ("blocklists.save", "Uložit");
   ("blocklists.content_save_failed", "Nelze uložit obsah");
   ("blocklists.delete", "Smazat");
   ("blocklists.confirm_delete", "Potvrdit");
   ("blocklists.delete_failed", "Nelze smazat zdroj");
   ("zones.count", "místních zón");
   ("zones.count_one", "místní zóna");
   ("zones.local_authority", "Místní autorita");
   ("zones.reload", "Znovu načíst zóny");
   ("zones.add_zone", "Přidat zónu");
   ("zones.error_stale", "Zobrazuji poslední načtené zóny. Znovu načtěte před prováděním změn.");
   ("zones.error_retry", "Znovu načtěte a zkuste znovu.");
   ("zones.reload_before_retry", "Znovu načtěte zóny před opakováním.");
   ("zones.loading", "Načítání místních zón…");
   ("zones.empty_title", "Dejte své síti známá jména");
   ("zones.empty_text", "Vytvořte zónu jako home.arpa, pak přidejte záznamy pro svůj router, služby a zařízení.");
   ("zones.create_first", "Vytvořte svou první zónu");
   ("zones.filter_aria", "Filtrovat zóny");
   ("zones.filter_placeholder", "Najít zónu…");
   ("zones.nav_aria", "Místní zóny");
   ("zones.records_custom", "vlastní záznamy");
   ("zones.no_matching", "Žádné odpovídající zóny.");
   ("zones.authoritative_eyebrow", "AUTORITATIVNÍ ZÓNA");
   ("zones.revision", "Revize");
   ("zones.add_record", "Přidat záznam");
   ("zones.delete_zone_aria", "Smazat zónu");
   ("zones.primary_ns", "Primární NS");
   ("zones.contact", "Kontakt");
   ("zones.delete_record_confirm", "Smazat záznam");
   ("zones.delete_zone_confirm", "a všechny");
   ("zones.delete_zone_confirm2", "záznamy? Tuto akci nelze vrátit zpět.");
   ("zones.deleting", "Mazání…");
   ("zones.delete_record_perm", "Trvale smazat záznam");
   ("zones.delete_zone_perm", "Trvale smazat zónu");
   ("zones.cancel_deletion", "Zrušit smazání");
   ("zones.record_saved", "Záznam uložen. Změny DNS jsou aktivní.");
   ("zones.record_deleted", "Záznam smazán. Změny DNS jsou aktivní.");
   ("zones.zone_deleted", "Zóna a její záznamy smazány.");
   ("zones.zone_created", "Zóna vytvořena. Přidejte záznamy pro její používání.");
   ("zones.delete_failed", "Nelze smazat");
   ("zones.footnote", "Místní odpovědi mají přednost před forwardováním. Zařízení si mohou ponechat předchozí odpovědi, dokud nevyprší jejich TTL.");
   ("zones.record_form_edit_aria", "Upravit DNS záznam");
   ("zones.record_form_add_aria", "Přidat DNS záznam");
   ("zones.edit_record", "Upravit záznam");
   ("zones.add_record_form", "Přidat záznam");
   ("zones.changes_apply", "Změny se aplikují na");
   ("zones.record_name", "Název záznamu");
   ("zones.router_or_at", "router nebo @");
   ("zones.relative_name_hint", "Relativní název, @ pro zónu, nebo absolutní název končící tečkou.");
   ("zones.record_type", "Typ záznamu");
   ("zones.ttl_seconds", "TTL (sekundy)");
   ("zones.priority", "Priorita");
   ("zones.ipv4_address", "IPv4 adresa");
   ("zones.ipv6_address", "IPv6 adresa");
   ("zones.text_value", "Textová hodnota");
   ("zones.target_hostname", "Cílový název hostitele");
   ("zones.invalid_ttl", "Zadejte platné hodnoty TTL a priority.");
   ("zones.record_conflict", "Tato zóna byla změněna jinde. Váš návrh zůstal beze změn. Zavřete tento formulář a znovu načtěte zóny před opakováním.");
   ("zones.save_failed", "Nelze uložit záznam");
   ("zones.saving", "Ukládání…");
   ("zones.save_record", "Uložit záznam");
   ("zones.cancel", "Zrušit");
   ("zones.no_records_title", "Zatím žádné vlastní záznamy");
   ("zones.no_records_text", "Přidejte svůj první záznam. SOA a záložní apex NS jsou spravovány automaticky.");
   ("zones.records_aria", "DNS záznamy pro");
   ("zones.col_name", "Název");
   ("zones.col_type", "Typ");
   ("zones.col_value", "Hodnota");
   ("zones.col_ttl", "TTL");
   ("zones.col_actions", "Akce");
   ("zones.edit_aria", "Upravit");
   ("zones.delete_aria", "Smazat");
   ("zones.record_word", "záznam");
   ("zones.create_title", "Vytvořit místní zónu");
   ("zones.create_text", "Velora bude odpovídat pro tuto zónu a ponechá neznámé názvy ve vaší síti.");
   ("zones.zone_name", "Název zóny");
   ("zones.authority_settings", "Nastavení autority");
   ("zones.primary_nameserver", "Primární nameserver");
   ("zones.contact_mailbox", "Kontakt (DNS schránka)");
   ("zones.creating", "Vytváření…");
   ("zones.create_zone", "Vytvořit zónu");
   ("zones.create_zone_aria", "Vytvořit DNS zónu");
   ("zones.create_failed", "Nelze vytvořit zónu");
   ("zones.load_failed", "Nelze načíst zóny");
   ("updates.loading", "Načítání stavu aktualizací…");
   ("updates.viewer_readonly", "Jste přihlášeni jako prohlížeč. Žádosti o aktualizaci jsou pouze pro čtení.");
   ("updates.in_progress", "Probíhá aktualizace…");
   ("updates.history", "Historie aktualizací");
   ("updates.no_history", "Zatím nebyly zaznamenány žádné aktualizace.");
   ("updates.col_from", "Z");
   ("updates.col_to", "Do");
   ("updates.col_state", "Stav");
   ("updates.col_started", "Zahájeno");
   ("updates.state_idle", "Nečinný");
   ("updates.state_downloading", "Stahování");
   ("updates.state_verifying", "Ověřování");
   ("updates.state_installing", "Instalace");
   ("updates.state_readiness", "Čekání na připravenost");
   ("updates.state_completed", "Dokončeno");
   ("updates.state_rolled_back", "Vráceno zpět");
   ("updates.state_failed", "Nezdařilo se");
   ("updates.load_failed", "Nepodařilo se načíst stav aktualizací");
   ("updates.request_failed", "Nepodařilo se požádat o aktualizaci");
   ("updates.check", "Check for updates");
   ("updates.available", "Update available");
   ("updates.up_to_date", "The system is up to date.");
   ("updates.progress", "Update progress");
   ("updates.rollback_used", "The previous version was restored.");
   ("updates.rollback_recovered", "The previous version was restored and is healthy.");
   ("backup.sqlite_only", "Šifrovaný export nyní podporuje pouze instalace SQLite.");
   ("backup.create_title", "Šifrovaná záloha");
   ("backup.create_hint", "Stáhněte verzovanou zálohu konfigurace a trvalých dat. Heslo bezpečně uložte.");
   ("backup.passphrase", "Heslo");
   ("backup.creating", "Vytváření…");
   ("backup.create", "Vytvořit a stáhnout");
   ("backup.create_failed", "Zálohu se nepodařilo vytvořit");
   ("backup.restore_hint", "Obnovte šifrovanou zálohu při zastavené službě. Příkaz zachová bezpečnostní kopii.");
   ("backup.loading", "Načítání stavu zálohy…");
   ("backup.status_title", "Stav zálohy");
   ("backup.database", "Databáze:");
   ("backup.last_backup", "Poslední záloha:");
   ("backup.no_backup", "Zatím nebyla zaznamenána žádná záloha");
   ("backup.verification_state", "Stav ověření:");
   ("backup.state_unknown", "Neznámý");
   ("backup.state_unverified", "Neověřeno");
   ("backup.state_verified", "Ověřeno");
   ("backup.verify_title", "Ověřit zálohu");
   ("backup.verify_text", "Umístěte kopii zálohy vedle databáze serveru pro ověření její integrity.");
   ("backup.file_name", "Název souboru zálohy");
   ("backup.file_hint", "Umístěte zálohu vedle databáze na serveru Velora. Používá se pouze název souboru; soubory z prohlížeče a jiné adresáře zde nelze kontrolovat.");
   ("backup.viewer_readonly", "Jste přihlášeni jako prohlížeč. Ověřování zálohy je pouze pro čtení.");
   ("backup.verifying", "Ověřování…");
   ("backup.verify", "Ověřit");
   ("backup.valid", "Záloha je platná")].

Definition cs_4 : list (string * string) :=
  [("backup.invalid", "Záloha je neplatná");
   ("backup.schema_version", "Verze schématu:");
   ("backup.records", "Záznamy:");
   ("backup.instructions", "Obnova z příkazové řádky");
   ("backup.native", "Nativní instalace");
   ("backup.docker", "Docker Compose");
   ("backup.online", "Online záloha (SQLite)");
   ("backup.load_failed", "Nepodařilo se načíst stav zálohy");
   ("backup.verify_failed", "Ověření se nezdařilo");
   ("backup.step_stop_service", "Zastavte službu");
   ("backup.step_create_backup", "Vytvořte konzistentní zálohu");
   ("backup.step_restart_service", "Restartujte službu");
   ("backup.step_stop_container", "Zastavte kontejner");
   ("backup.step_backup_volume", "Zálohujte svazek");
   ("backup.step_restart_container", "Restartujte kontejner");
   ("backup.step_online_backup", "Použijte API zálohy SQLite pro konzistentní online zálohu");
   ("onboarding.welcome", "Vítejte v Velora DNS");
   ("onboarding.complete_steps", "Dokončete tyto kroky pro zabezpečení instalace");
   ("onboarding.dismiss", "Zavřít");
   ("onboarding.change_credentials", "Změnit přihlašovací údaje");
   ("onboarding.change_credentials_text", "Výchozí heslo správce by mělo být změněno po prvním přihlášení.");
   ("onboarding.review_dns", "Zkontrolovat konfiguraci DNS");
   ("onboarding.review_dns_text", "Ujistěte se, že nadřazené servery a povolení klienti jsou správně nakonfigurováni pro vaši síť.");
   ("onboarding.restrict_clients", "Omezit přístup klientů");
   ("onboarding.restrict_clients_text", "Nakonfigurujte allowed_clients CIDR pro omezení sítí, které mohou používat váš resolver.");
   ("onboarding.verify_db", "Ověřit úložiště databáze");
   ("onboarding.verify_db_text", "Ujistěte se, že cesta k databázi je na spolehlivém úložišti s dostatečným prostorem.");
   ("onboarding.update_policy", "Nakonfigurovat politiku aktualizací");
   ("onboarding.update_policy_text", "Prohlédněte si centrum aktualizací a zjistěte, jak udržovat instalaci aktuální.");
   ("app.nav.dhcp", "DHCP");
   ("app.title.dhcp", "DHCP server");
   ("dhcp.loading", "Načítání DHCP dat…");
   ("dhcp.load_failed", "Unable to load DHCP data");
   ("dhcp.create_pool_failed", "Unable to create pool");
   ("dhcp.delete_pool_failed", "Unable to delete pool");
   ("dhcp.create_reservation_failed", "Unable to create reservation");
   ("dhcp.delete_reservation_failed", "Unable to delete reservation");
   ("dhcp.delete_lease_failed", "Unable to delete lease");
   ("dhcp.pools", "DHCP pooly");
   ("dhcp.add_pool", "Přidat pool");
   ("dhcp.pool_name", "Název poolu");
   ("dhcp.interface", "Rozhraní");
   ("dhcp.subnet_cidr", "Podsíť (CIDR)");
   ("dhcp.subnet", "Podsíť");
   ("dhcp.gateway", "Brána");
   ("dhcp.dns_servers", "DNS servery");
   ("dhcp.lease_seconds", "Doba pronájmu (sekundy)");
   ("dhcp.leases_label", "Pronájmy");
   ("dhcp.create", "Vytvořit");
   ("dhcp.no_pools", "Nejsou nakonfigurovány žádné DHCP pooly. Vytvořte jeden pro přidělování pronájmů.");
   ("dhcp.reservations", "Statické rezervace");
   ("dhcp.mac_address", "MAC adresa");
   ("dhcp.ip_address", "IP adresa");
   ("dhcp.hostname", "Název hostitele");
   ("dhcp.add", "Přidat");
   ("dhcp.active_leases", "Aktivní pronájmy");
   ("dhcp.expires", "Vyprší");
   ("dhcp.no_leases", "Žádné aktivní pronájmy.");
   ("dhcp.expired", "Vypršelo");
   ("dhcp.confirm_delete_pool", "Smazat tento pool a všechny jeho rezervace?");
   ("dhcp.name", "Název");
   ("app.nav.cluster", "Klast");
   ("app.title.cluster", "Přehled klastu");
   ("cluster.loading", "Načítání dat klastu…");
   ("cluster.load_failed", "Unable to load cluster data");
   ("cluster.name", "Název");
   ("cluster.status", "Stav");
   ("cluster.version", "Verze");
   ("cluster.last_seen", "Naposledy viděn");
   ("cluster.config_history", "Historie konfigurace");
   ("cluster.no_versions", "Nejsou zaznamenány žádné verze konfigurace.");
   ("cluster.hash", "Otisk");
   ("cluster.applied_by", "Aplikoval");
   ("cluster.applied_at", "Aplikováno v");
   ("app.nav.group_dns", "DNS");
   ("app.nav.group_network", "Síť");
   ("app.nav.group_system", "Systém");
   ("app.menu_open", "Otevřít navigaci");
   ("app.menu_close", "Zavřít navigaci");
   ("app.theme_to_dark", "Přepnout na tmavý motiv");
   ("app.theme_to_light", "Přepnout na světlý motiv");
   ("app.signed_in_as", "Přihlášen jako");
   ("app.subtitle.zones", "Autoritativní názvy pro zařízení a služby ve vaší síti.");
   ("app.subtitle.queries", "Nedávné dotazy zodpovězené tímto resolverem.");
   ("app.subtitle.blocklists", "Seznamy domén, které jsou zodpovězeny jako blokované.");
   ("app.subtitle.cache", "Odpovědi v paměti pro rychlejší opakované dotazy.");
   ("app.subtitle.settings", "Resolver, webové rozhraní a osobní předvolby.");
   ("app.subtitle.updates", "Nainstalovaná verze, dostupná vydání a historie aktualizací.");
   ("app.subtitle.backup", "Vytvářejte šifrované zálohy a ověřujte existující.");
   ("app.subtitle.dhcp", "Rozsahy adres, rezervace a aktivní zápůjčky.");
   ("app.subtitle.cluster", "Udržujte místní zóny shodné na více serverech Velora DNS.");
   ("app.subtitle.diagnostics", "Stav komponent a sdílitelná zpráva pro podporu.");
   ("app.subtitle.events", "Věci, které vyžadují vaši pozornost.");
   ("app.subtitle.audit", "Kdo co změnil a kdy.");
   ("settings.preferences", "Předvolby");
   ("dashboard.general_statistics", "Obecné statistiky");
   ("dashboard.blocked", "Blokováno filtry");
   ("dashboard.of_all_queries", "ze všech dotazů");
   ("dashboard.query_logging", "Protokol dotazů");
   ("dashboard.enabled", "Zapnuto");
   ("dashboard.disabled", "Vypnuto");
   ("dashboard.requests", "Požadavky");
   ("dashboard.domain", "Doména");
   ("dashboard.client", "Klient");
   ("dashboard.upstream_servers", "Nadřazené servery");
   ("dashboard.collecting_samples", "Sbírání vzorků…");
   ("cache.search_label", "Hledat podle názvu");
   ("cache.search_placeholder", "example.org");
   ("cache.all_types", "Všechny typy");
   ("cache.remove_entry", "Odebrat z mezipaměti");
   ("cache.invalidate_title", "Zneplatnit doménu");
   ("cache.invalidate_text", "Odebere odpovědi pro jeden název bez vymazání celé mezipaměti.");
   ("cache.domain", "Doména");
   ("cache.include_subdomains", "Včetně subdomén");
   ("cache.invalidate", "Zneplatnit");
   ("cache.removed_entries", "Odebrané položky");
   ("cache.invalidate_failed", "Zneplatnění selhalo");
   ("cache.flush_confirm", "Vymazat všechny odpovědi v mezipaměti? Počítadla zásahů a chyb zůstanou zachována.");
   ("cache.no_matches", "Filtru neodpovídají žádné položky.");
   ("blocklists.schedule", "Plán aktualizací");
   ("blocklists.schedule_for", "Plán aktualizací pro");
   ("blocklists.manual", "Ručně");
   ("blocklists.every_1h", "Každou hodinu");
   ("blocklists.every_6h", "Každých 6 hodin");
   ("blocklists.every_12h", "Každých 12 hodin");
   ("blocklists.every_24h", "Denně");
   ("blocklists.every_7d", "Týdně");
   ("blocklists.col_next_update", "Další aktualizace");
   ("blocklists.due_now", "Nyní");
   ("blocklists.never_updated", "Nikdy neaktualizováno");
   ("blocklists.retry_count", "neúspěšné pokusy");
   ("blocklists.schedule_failed", "Plán nelze změnit");
   ("app.nav.forwarding", "Podmíněné přeposílání");
   ("app.title.forwarding", "Podmíněné přeposílání");
   ("app.subtitle.forwarding", "Posílejte dotazy pro vybrané domény na vyhrazené resolvery.");
   ("forwarding.count", "pravidla přeposílání");
   ("forwarding.add", "Přidat pravidlo");
   ("forwarding.add_title", "Nové pravidlo přeposílání");
   ("forwarding.edit_title", "Upravit pravidlo přeposílání");
   ("forwarding.form_hint", "Pravidlo platí i pro všechny názvy pod doménou. Vyhrává nejkonkrétnější aktivní pravidlo.");
   ("forwarding.domain", "Doména");
   ("forwarding.upstreams", "Resolvery");
   ("forwarding.upstreams_hint", "1–4 adresy jako IP nebo IP:port oddělené čárkami. Bez portu se použije 53.");
   ("forwarding.description", "Popis");
   ("forwarding.enabled", "Zapnuto");
   ("forwarding.save", "Uložit pravidlo");
   ("forwarding.cancel", "Zrušit")].

Definition cs_5 : list (string * string) :=
  [("forwarding.empty_title", "Žádná pravidla přeposílání");
   ("forwarding.empty_text", "Všechny dotazy používají globální resolvery. Přidejte pravidlo pro překlad domény jako corp.example přes interní DNS server.");
   ("forwarding.col_status", "Stav");
   ("forwarding.test", "Otestovat");
   ("forwarding.test_title", "Otestovat pravidlo");
   ("forwarding.test_hint", "Odešle jeden dotaz jen přes resolvery tohoto pravidla, bez mezipaměti.");
   ("forwarding.test_name", "Název");
   ("forwarding.test_type", "Typ");
   ("forwarding.run_test", "Spustit test");
   ("forwarding.test_via", "přes");
   ("forwarding.no_answers", "Žádné záznamy odpovědi");
   ("forwarding.edit", "Upravit");
   ("forwarding.delete", "Smazat");
   ("forwarding.delete_confirm", "Smazat pravidlo přeposílání pro");
   ("forwarding.toggle", "Zapnout nebo vypnout pravidlo pro");
   ("forwarding.load_failed", "Pravidla nelze načíst");
   ("forwarding.save_failed", "Pravidlo nelze uložit");
   ("forwarding.saved", "Pravidlo uloženo. Odpovědi domény v mezipaměti byly vymazány.");
   ("forwarding.disabled", "Vypnuto");
   ("app.nav.rewrites", "Přepisy DNS");
   ("app.title.rewrites", "Přepisy DNS");
   ("app.subtitle.rewrites", "Odpovídejte na vybrané názvy pevnými adresami nebo aliasy.");
   ("rewrites.count", "přepisů");
   ("rewrites.add", "Přidat přepis");
   ("rewrites.add_title", "Nový přepis");
   ("rewrites.edit_title", "Upravit přepis");
   ("rewrites.form_hint", "Použijte *.rodič pro všechny názvy pod doménou. Přesné názvy mají přednost před zástupnými.");
   ("rewrites.name", "Název");
   ("rewrites.type", "Typ");
   ("rewrites.value", "Odpověď");
   ("rewrites.value_hint_A", "Adresa IPv4");
   ("rewrites.value_hint_AAAA", "Adresa IPv6");
   ("rewrites.value_hint_CNAME", "Cílový název hostitele, přeložen běžně");
   ("rewrites.description", "Popis");
   ("rewrites.enabled", "Zapnuto");
   ("rewrites.save", "Uložit přepis");
   ("rewrites.empty_title", "Žádné přepisy DNS");
   ("rewrites.empty_text", "Přiřaďte název jako nas.home k adrese bez vytvoření zóny.");
   ("rewrites.col_notes", "Poznámky");
   ("rewrites.blocked_hint", "Nejprve blokováno seznamem blokování");
   ("rewrites.overrides_hint", "Přepisuje místní zónu");
   ("rewrites.edit", "Upravit");
   ("rewrites.delete", "Smazat");
   ("rewrites.delete_confirm", "Smazat tento přepis?");
   ("rewrites.toggle", "Zapnout nebo vypnout přepis pro");
   ("rewrites.search", "Filtrovat přepisy");
   ("rewrites.load_failed", "Přepisy nelze načíst");
   ("rewrites.save_failed", "Přepis nelze uložit");
   ("rewrites.saved", "Přepis uložen a použit.");
   ("app.nav.clients", "Klienti");
   ("app.title.clients", "Klienti a zařízení");
   ("app.subtitle.clients", "Pojmenujte adresy a sítě; názvy se použijí v celé Veloře.");
   ("clients.count", "klientů");
   ("clients.add", "Přidat klienta");
   ("clients.add_title", "Nový klient");
   ("clients.edit_title", "Upravit klienta");
   ("clients.form_hint", "Při překryvu sítí vyhrává nejkonkrétnější. Zařízením s DHCP nejprve přidělte pevnou adresu.");
   ("clients.name", "Název");
   ("clients.addresses", "Adresy");
   ("clients.addresses_hint", "IP adresy nebo sítě CIDR oddělené čárkami.");
   ("clients.group", "Skupina");
   ("clients.description", "Popis");
   ("clients.enabled", "Zapnuto");
   ("clients.save", "Uložit klienta");
   ("clients.activity", "Posledních 24 hodin");
   ("clients.queries", "dotazů");
   ("clients.last_seen", "Naposledy viděn");
   ("clients.no_activity", "Žádné dotazy");
   ("clients.view_queries", "Zobrazit dotazy");
   ("clients.empty_title", "Žádní pojmenovaní klienti");
   ("clients.empty_text", "Pojmenujte zařízení jako televizi nebo Home Assistant, aby byla v protokolu dotazů snadno rozpoznatelná.");
   ("clients.unnamed_title", "Nedávno viděné bez názvu");
   ("clients.unnamed_text", "Nejaktivnější adresy za posledních 24 hodin bez klienta.");
   ("clients.name_it", "Pojmenovat zařízení");
   ("clients.edit", "Upravit");
   ("clients.delete", "Smazat");
   ("clients.delete_confirm", "Smazat klienta");
   ("clients.toggle", "Zapnout nebo vypnout klienta");
   ("clients.load_failed", "Klienty nelze načíst");
   ("clients.save_failed", "Klienta nelze uložit");
   ("clients.saved", "Klient uložen.");
   ("clients.logging_off", "Pro zobrazení aktivity zapněte protokol dotazů.");
   ("app.nav.policies", "Zásady klientů");
   ("app.title.policies", "Zásady filtrování klientů");
   ("app.subtitle.policies", "Určete, jak se blokování uplatní na jednotlivé klienty.");
   ("policies.load_failed", "Zásady se nepodařilo načíst.");
   ("policies.save_failed", "Zásadu se nepodařilo uložit.");
   ("policies.saved", "Zásada uložena.");
   ("policies.lookup", "Ověřit adresu");
   ("policies.add", "Přidat zásadu");
   ("policies.add_title", "Nová zásada");
   ("policies.edit_title", "Upravit zásadu");
   ("policies.form_hint", "O zásadě pro adresu rozhoduje nejkonkrétnější síť klienta.");
   ("policies.client", "Klient");
   ("policies.mode", "Filtrování");
   ("policies.mode_default", "Globální");
   ("policies.mode_disabled", "Bez filtrování");
   ("policies.mode_custom", "Vlastní");
   ("policies.mode_default_hint", "Stejné seznamy blokovaných a povolených jako ostatní.");
   ("policies.mode_disabled_hint", "Pro tohoto klienta se nic neblokuje.");
   ("policies.mode_custom_hint", "Pouze vybrané seznamy a vlastní domény.");
   ("policies.blocklists", "Seznamy blokování");
   ("policies.no_sources", "Zatím žádné seznamy blokování.");
   ("policies.globally_off", "globálně vypnuto");
   ("policies.block", "Také blokovat");
   ("policies.allow", "Vždy povolit");
   ("policies.domains_hint", "Jedna doména na řádek; včetně subdomén.");
   ("policies.allow_hint", "Má přednost před všemi seznamy pro tohoto klienta.");
   ("policies.enabled", "Zásada aktivní");
   ("policies.save", "Uložit zásadu");
   ("policies.empty_title", "Žádné zásady klientů");
   ("policies.empty_text", "Všichni klienti používají globální seznamy. Přidejte zásadu pro přísnější, mírnější nebo žádné filtrování zařízení.");
   ("policies.need_clients", "Zásady platí pro pojmenované klienty. Nejprve pojmenujte zařízení:");
   ("policies.details", "Podrobnosti");
   ("policies.summary_disabled", "Všechny dotazy bez filtrování");
   ("policies.summary_default", "Používá globální seznamy");
   ("policies.no_lists", "Bez seznamů");
   ("policies.blocked_short", "blokováno");
   ("policies.allowed_short", "povoleno");
   ("policies.paused", "Pozastaveno");
   ("policies.toggle", "Zásada aktivní");
   ("policies.edit", "Upravit zásadu");
   ("policies.delete", "Smazat zásadu");
   ("policies.delete_confirm", "Odebrat zásadu pro");
   ("policies.no_policy", "(bez zásady, globální filtrování)");
   ("policies.unknown_address", "neodpovídá žádnému klientovi a používá globální filtrování.");
   ("app.nav.webhooks", "Webhooky");
   ("app.title.webhooks", "Oznámení přes webhook");
   ("app.subtitle.webhooks", "Posílejte důležité události do jiných systémů.");
   ("webhooks.load_failed", "Webhooky se nepodařilo načíst.");
   ("webhooks.save_failed", "Webhook se nepodařilo uložit.");
   ("webhooks.saved", "Webhook uložen.");
   ("webhooks.count", "webhooků");
   ("webhooks.add", "Přidat webhook");
   ("webhooks.add_title", "Nový webhook");
   ("webhooks.edit_title", "Upravit webhook");
   ("webhooks.form_hint", "Velora pro každou odpovídající událost odešle požadavek JSON POST. Doručení běží na pozadí a nikdy nezdržuje odpovědi DNS.");
   ("webhooks.name", "Název");
   ("webhooks.url", "URL");
   ("webhooks.min_severity", "Minimální závažnost");
   ("webhooks.severity_info", "Informace");
   ("webhooks.severity_warning", "Varování");
   ("webhooks.severity_critical", "Kritické");
   ("webhooks.token", "Bearer token");
   ("webhooks.token_hint", "Volitelné. Odesílá se v hlavičce Authorization a už se nezobrazí.");
   ("webhooks.token_stored", "Token uložen");
   ("webhooks.token_change", "Změnit");
   ("webhooks.token_remove_hint", "Ponechte prázdné pro odebrání tokenu")].

Definition cs_6 : list (string * string) :=
  [("webhooks.events", "Události");
   ("webhooks.events_hint", "Nevyberte nic, chcete-li přijímat všechny typy.");
   ("webhooks.all_events", "Všechny události");
   ("webhooks.allow_private", "Povolit cíl v privátní síti (např. Home Assistant v LAN)");
   ("webhooks.enabled", "Webhook aktivní");
   ("webhooks.save", "Uložit webhook");
   ("webhooks.empty_title", "Žádné webhooky");
   ("webhooks.empty_text", "Přidejte webhook a dozvíte se, když selže upstream, seznam se neobnoví nebo selže záloha.");
   ("webhooks.last_delivery", "Poslední doručení");
   ("webhooks.never", "Zatím nic neodesláno");
   ("webhooks.failing", "Selhává");
   ("webhooks.toggle", "Webhook aktivní");
   ("webhooks.test", "Odeslat test");
   ("webhooks.test_ok", "Test doručen do");
   ("webhooks.test_failed", "Test selhal pro");
   ("webhooks.edit", "Upravit webhook");
   ("webhooks.delete", "Smazat webhook");
   ("webhooks.delete_confirm", "Smazat webhook");
   ("app.nav.analytics", "Analýzy");
   ("app.title.analytics", "Analýzy");
   ("app.subtitle.analytics", "Aktivita DNS a výkon resolveru z uchované historie dotazů.");
   ("analytics.load_failed", "Analýzy se nepodařilo načíst.");
   ("analytics.logging_off_title", "Protokol dotazů je vypnutý");
   ("analytics.logging_off_text", "Analýzy vycházejí z historie dotazů. Zapněte protokol dotazů:");
   ("analytics.range", "Časové období");
   ("analytics.range_1h", "1 hodina");
   ("analytics.range_24h", "24 hodin");
   ("analytics.range_7d", "7 dní");
   ("analytics.range_30d", "30 dní");
   ("analytics.history_limited", "Historie dotazů sahá jen do");
   ("analytics.queries", "Dotazy");
   ("analytics.blocked", "Blokováno");
   ("analytics.allowed", "Povoleno");
   ("analytics.cached", "Odpovědi z cache");
   ("analytics.answers", "odpovědí");
   ("analytics.avg_upstream", "Prům. čas upstreamu");
   ("analytics.empty_title", "Žádné dotazy v tomto období");
   ("analytics.empty_text", "Zvolte delší období nebo se vraťte později.");
   ("analytics.over_time", "Dotazy v čase");
   ("analytics.over_time_hint", "Najeďte myší nebo použijte šipky.");
   ("analytics.chart_aria", "Dotazy za interval, povolené a blokované");
   ("analytics.show_table", "Zobrazit jako tabulku");
   ("analytics.time", "Čas");
   ("analytics.avg_time", "Prům. čas");
   ("analytics.latency", "Doba odezvy upstreamu");
   ("analytics.latency_hint", "Průměr zodpovězených přeposlaných dotazů; mezery znamenají žádný provoz.");
   ("analytics.latency_aria", "Průměrná doba odezvy upstreamu za interval");
   ("analytics.query_types", "Typy dotazů");
   ("analytics.sources", "Zodpovězeno z");
   ("analytics.source_upstream", "Upstream");
   ("analytics.source_cache", "Cache");
   ("analytics.source_blocked", "Blokováno");
   ("analytics.source_local", "Místní zóny a přepisy");
   ("analytics.source_refused", "Odmítnuto");
   ("analytics.response_codes", "Kódy odpovědí");
   ("analytics.top_blocked", "Nejčastěji blokované domény");
   ("analytics.nothing_blocked", "V tomto období nic blokováno");
   ("analytics.upstreams", "Využití upstreamů");
   ("analytics.upstreams_hint", "Přeposlané dotazy na resolver, odpovědi SERVFAIL a průměrný čas.");
   ("analytics.no_upstream", "V tomto období žádný provoz");
   ("analytics.failures", "Chyby");
   ("updates.check_prompt", "Zkontrolujte, zda je k dispozici novější verze.");
   ("updates.checking", "Hledání aktualizací…");
   ("updates.starting", "Spouštění aktualizace…");
   ("updates.updating_to", "Aktualizace na");
   ("updates.completed_to", "Aktualizováno na");
   ("updates.failed_title", "Aktualizace nebyla dokončena");
   ("updates.failed_text", "Aktualizace selhala. Velora běží na předchozí verzi.");
   ("updates.not_started", "Aktualizátor nespustil aktualizaci. Ověřte, že běží velora-updater.service.");
   ("updates.check_again", "Zkontrolovat znovu");
   ("updates.update_now", "Aktualizovat");
   ("updates.reload", "Znovu načíst stránku");
   ("updates.reconnecting", "Velora se restartuje. Čekání…");
   ("updates.keep_open", "Stránku můžete nechat otevřenou; aktualizuje se sama. DNS odpovídá z běžící verze až do přepnutí.");
   ("updates.completed_text", "Aktualizace skončila a prošla kontrolami. Znovu načtěte stránku pro nové rozhraní.");
   ("updates.release_date", "Vydáno");
   ("settings.entry", "Položka");
   ("settings.fix_fields", "Nic se nezměnilo. Opravte zvýrazněná pole a zkuste to znovu.");
   ("settings.restart_required", "Nic se nezměnilo. Zvýrazněná pole vyžadují restart: upravte konfigurační soubor a restartujte Velora DNS.");
   ("settings.restart_field", "Vyžaduje restart");
   ("settings.check", "Ověřit");
   ("settings.check_ok", "Nastavení je platné a lze ho použít bez restartu.");
   ("restore.title", "Obnovit zálohu");
   ("restore.hint", "Nahrajte šifrovanou zálohu a nejprve ji zkontrolujte. Nic se nezmění, dokud nepotvrdíte; Velora se restartuje, ponechá bezpečnostní kopii a při neúspěšném startu vše vrátí.");
   ("restore.file", "Soubor zálohy (.vdns)");
   ("restore.inspect", "Zkontrolovat zálohu");
   ("restore.inspecting", "Kontrola…");
   ("restore.inspect_failed", "Zálohu se nepodařilo zkontrolovat.");
   ("restore.review_title", "Záloha je platná");
   ("restore.created", "Vytvořeno");
   ("restore.version", "Verze Velora");
   ("restore.schema", "Schéma databáze");
   ("restore.contents", "Obsah");
   ("restore.zones", "zóny");
   ("restore.records", "záznamy");
   ("restore.blocklists", "seznamy");
   ("restore.rewrites", "přepisy");
   ("restore.forward_rules", "pravidla přeposílání");
   ("restore.clients", "klienti");
   ("restore.users", "uživatelé");
   ("restore.listeners", "Naslouchání");
   ("restore.web", "web");
   ("restore.confirm", "Nahradit aktuální konfiguraci a data touto zálohou. Bezpečnostní kopie současného stavu zůstane zachována.");
   ("restore.restore", "Obnovit a restartovat");
   ("restore.schedule_failed", "Obnovu se nepodařilo spustit.");
   ("restore.manual_restart", "Obnova je naplánována. Restartujte Velora DNS.");
   ("restore.restarting", "Velora se restartuje kvůli obnově. Stránka se poté aktualizuje.");
   ("restore.signed_out", "Velora běží s obnovenými daty. Přihlaste se účtem ze zálohy.");
   ("restore.again", "Obnovit jinou zálohu");
   ("restore.backup_from", "Záloha z");
   ("restore.safety_copy", "Předchozí stav uložen v");
   ("restore.state_completed", "Obnova dokončena.");
   ("restore.state_rolled_back", "Obnova vrácena.");
   ("restore.state_failed", "Obnova selhala.");
   ("restore.state_applied", "Obnova použita; čeká se na připravenost.");
   ("restore.state_pending", "Obnova naplánována.");
   ("restore.passphrase", "Heslo zálohy");
   ("app.scrollable_table", "posouvá se do stran");
   ("palette.title", "Paleta příkazů");
   ("palette.placeholder", "Hledat stránky, zóny, záznamy, klienty…");
   ("palette.results", "Výsledky");
   ("palette.pages", "Stránky");
   ("palette.actions", "Akce");
   ("palette.kind_zone", "Zóny");
   ("palette.kind_record", "Záznamy");
   ("palette.kind_client", "Klienti");
   ("palette.kind_rewrite", "Přepisy DNS");
   ("palette.kind_forwarding", "Podmíněné přeposílání");
   ("palette.kind_blocklist", "Seznamy blokování");
   ("palette.no_results", "Žádné výsledky.");
   ("palette.navigate", "procházet");
   ("palette.open", "otevřít");
   ("palette.toggle", "otevřít nebo zavřít");
   ("palette.open_button", "Hledat");
   ("palette.add_client", "Přidat klienta");
   ("palette.create_backup", "Vytvořit zálohu");
   ("cluster.action_failed", "Akce clusteru selhala.");
   ("cluster.never", "nikdy");
   ("cluster.role", "Role");
   ("cluster.role_standalone", "Samostatný");
   ("cluster.role_primary", "Primární uzel clusteru");
   ("cluster.role_replica", "Replika clusteru");
   ("cluster.replicas", "Repliky");
   ("cluster.in_sync_count", "synchronizováno");
   ("cluster.revision", "Revize zón");
   ("cluster.zones_replicated", "replikovaných zón");
   ("cluster.last_sync", "Poslední synchronizace");
   ("cluster.sync_failed", "Poslední synchronizace selhala")].

Definition cs_7 : list (string * string) :=
  [("cluster.sync_ok", "Aktuální s primárním uzlem");
   ("cluster.members", "Repliky");
   ("cluster.members_hint", "Uzly kopírující zóny tohoto primárního uzlu. Hlásí se každých 30 sekund.");
   ("cluster.add_node", "Přidat uzel");
   ("cluster.token_title", "Token pro připojení vytvořen");
   ("cluster.token_steps", "Na novém uzlu otevřete Cluster → Připojit ke clusteru a zadejte:");
   ("cluster.token_expires", "Token vyprší v");
   ("cluster.token_once", "Funguje jednou a znovu se nezobrazí.");
   ("cluster.copy_token", "Kopírovat token");
   ("cluster.copied", "Zkopírováno");
   ("cluster.token_done", "Hotovo");
   ("cluster.no_members", "Zatím žádné repliky");
   ("cluster.no_members_text", "Přidejte uzel a vytvořte token pro druhý server Velora DNS.");
   ("cluster.status_in_sync", "Synchronizováno");
   ("cluster.status_behind", "Dohání");
   ("cluster.status_stale", "Neodpovídá");
   ("cluster.status_error", "Chyba synchronizace");
   ("cluster.status_never_synced", "Čeká na první synchronizaci");
   ("cluster.remove", "Odebrat uzel");
   ("cluster.remove_confirm", "Odebrat tuto repliku? Přestane dostávat aktualizace zón:");
   ("cluster.removed", "Replika odebrána.");
   ("cluster.dissolve", "Zrušit cluster");
   ("cluster.dissolve_hint", "Zruší všechny repliky a vrátí tento uzel do samostatného režimu. Repliky si ponechají poslední kopii zón.");
   ("cluster.dissolve_confirm", "Zrušit cluster a všechny repliky?");
   ("cluster.dissolved", "Cluster byl zrušen.");
   ("cluster.replica_title", "Replikace z primárního uzlu");
   ("cluster.replica_hint", "Zóny na tomto uzlu se kopírují z primárního uzlu a jsou zde jen pro čtení. Ostatní nastavení zůstávají místní.");
   ("cluster.replica_ok", "Replikace funguje.");
   ("cluster.sync_now", "Synchronizovat nyní");
   ("cluster.leave", "Opustit cluster");
   ("cluster.leave_confirm", "Opustit cluster? Uzel si ponechá zóny a bude opět upravitelný.");
   ("cluster.left", "Uzel opustil cluster.");
   ("cluster.primary_url", "URL primárního uzlu");
   ("cluster.cluster_id", "ID clusteru");
   ("cluster.node_id", "ID uzlu");
   ("cluster.join_token", "Token pro připojení");
   ("cluster.standalone_title", "Tento uzel je samostatný");
   ("cluster.standalone_viewer", "Správce může vytvořit cluster nebo k němu tento uzel připojit.");
   ("cluster.scope_note", "Cluster udržuje místní zóny shodné na více serverech Velora DNS: primární uzel přijímá změny a repliky je kopírují každých 30 sekund. Automatické převzetí chybí a ostatní nastavení jsou pro každý uzel.");
   ("cluster.create_title", "Vytvořit cluster");
   ("cluster.create_hint", "Tento uzel se stane primárním. Jeho zóny se kopírují do všech replik.");
   ("cluster.node_name", "Název uzlu");
   ("cluster.advertised_url", "Adresa pro ostatní uzly");
   ("cluster.advertised_hint", "URL webového rozhraní tohoto uzlu z pohledu replik.");
   ("cluster.allow_http", "Povolit nešifrované HTTP (jen důvěryhodná síť)");
   ("cluster.skip_check", "Přeskočit kontrolu dostupnosti");
   ("cluster.create", "Vytvořit cluster");
   ("cluster.created", "Cluster byl vytvořen. Přidejte uzel a pozvěte repliku.");
   ("cluster.join_title", "Připojit ke clusteru");
   ("cluster.join_hint", "Udělejte z uzlu repliku primárního uzlu. Nejprve vytvořte token na primárním uzlu.");
   ("cluster.join_warning", "Připojení nahradí místní zóny tohoto uzlu zónami primárního uzlu. Ostatní nastavení se nemění.");
   ("cluster.join_confirm", "Připojit ke clusteru a nahradit zóny tohoto uzlu zónami primárního uzlu?");
   ("cluster.join", "Připojit ke clusteru");
   ("cluster.joined", "Uzel se připojil ke clusteru a kopíruje zóny primárního uzlu.");
   ("cluster.zones_read_only", "Tento uzel je replikou clusteru. Zóny se kopírují z primárního uzlu a lze je měnit jen tam.")].

Definition cs : list (string * string) :=
  (cs_1 ++ cs_2 ++ cs_3 ++ cs_4 ++ cs_5 ++ cs_6 ++ cs_7)%list.
