(* ===== verification/I18nSv.v ===== *)
(** * The Swedish catalog: web/src/i18n/sv.ts

    Its entries in order, in parts of up to 148 lines of the file. *)
From S2P Require Import Prelude.
Local Open Scope string_scope.

Definition sv_1 : list (string * string) :=
  [("app.skip_to_content", "Hoppa till innehåll");
   ("app.workspace_label", "ARBETSYTA");
   ("app.nav.events", "Händelser");
   ("app.title.events", "Händelser");
   ("events.unread", "olästa");
   ("events.empty", "Inga systemhändelser ännu.");
   ("events.load_failed", "Det gick inte att läsa in händelser");
   ("events.mark_read", "Markera som läst");
   ("events.repeated", "Upprepat");
   ("events.open", "Öppna");
   ("events.info", "Info");
   ("events.warning", "Varning");
   ("events.critical", "Kritisk");
   ("app.nav.main", "Huvudnavigering");
   ("app.nav.overview", "Översikt");
   ("app.nav.zones", "Lokala zoner");
   ("app.nav.queries", "Frågelogg");
   ("app.nav.blocklists", "Blockeringslistor");
   ("app.nav.cache", "DNS-cache");
   ("app.nav.settings", "Inställningar");
   ("app.nav.updates", "Uppdateringar");
   ("app.nav.backup", "Säkerhetskopiering");
   ("app.sign_out", "Logga ut");
   ("app.nav.audit", "Granskningslogg");
   ("app.title.audit", "Granskningslogg");
   ("app.nav.diagnostics", "Diagnostik");
   ("app.title.diagnostics", "Diagnostik");
   ("app.local_resolver", "Lokal resolver");
   ("app.self_hosted_foundation", "Självhostad · Grund");
   ("app.private_by_default", "Privat som standard");
   ("app.privacy.query_retention", "Frågehistoriken har begränsad lagringstid.");
   ("app.privacy.no_query_history", "Frågehistorik samlas inte in.");
   ("app.github_repo", "GitHub-förråd");
   ("app.connecting", "Ansluter…");
   ("app.workspace", "Arbetsyta");
   ("app.connection_lost", "Anslutning bruten");
   ("app.resolver_online", "Resolver online");
   ("app.title.overview", "Nätverksöversikt");
   ("app.title.zones", "Lokala zoner");
   ("app.title.queries", "Frågelogg");
   ("app.title.blocklists", "Blockeringslistor");
   ("app.title.cache", "DNS-cache");
   ("app.title.settings", "Inställningar");
   ("app.title.updates", "Uppdateringar");
   ("app.title.backup", "Säkerhetskopiering och återställning");
   ("app.eyebrow", "DITT NÄTVERK I ÖVERSIKT");
   ("app.subtitle.overview", "En tydlig vy av ditt DNS, från begäran till svar.");
   ("app.subtitle.default", "Inspektera och hantera din resolver.");
   ("app.refresh", "Uppdatera");
   ("app.error.showing_last", "Visar den senaste lyckade ögonblicksbilden från");
   ("app.error.check_server", "Kontrollera att Velora-servern körs.");
   ("app.error.reach_server", "Kan inte nå servern");
   ("app.viewer_readonly", "Du är inloggad som visare. Hanteringsåtgärder är skrivskyddade.");
   ("app.connecting_panel", "Ansluter till din resolver…");
   ("app.not_found", "Sidan hittades inte.");
   ("app.footer.independent", "Velora DNS · Oberoende. Självhostad.");
   ("app.footer.last_updated", "Senast uppdaterad");
   ("app.footer.waiting", "Väntar på server");
   ("diagnostics.title", "Systemhälsa");
   ("diagnostics.report_hint", "Nedladdningen innehåller komponentstatus och bygginformation, utan hemligheter eller frågeloggar.");
   ("diagnostics.download", "Ladda ner rapport");
   ("diagnostics.loading", "Läser in diagnostik…");
   ("diagnostics.load_failed", "Det gick inte att läsa in diagnostik");
   ("diagnostics.upstreams", "Uppströmsservrar");
   ("diagnostics.component", "Komponent");
   ("diagnostics.state", "Status");
   ("diagnostics.detail", "Detaljer");
   ("diagnostics.state.healthy", "Frisk");
   ("diagnostics.state.degraded", "Nedsatt");
   ("diagnostics.state.failed", "Misslyckad");
   ("explain.title", "Varför blev det detta svar?");
   ("explain.hint", "Provkörning av resolvern för ett namn. Inget frågas hos upstream, loggas, cachas eller räknas.");
   ("explain.name", "Namn");
   ("explain.type", "Posttyp");
   ("explain.client", "Klientadress (valfritt)");
   ("explain.client_hint", "Tillämpar den klientens filterpolicy.");
   ("explain.submit", "Förklara");
   ("explain.running", "Förklarar…");
   ("explain.failed", "Det gick inte att förklara frågan");
   ("explain.result", "Förklaring");
   ("explain.winner", "Avgörande steg");
   ("explain.answers", "Svar");
   ("explain.no_answers", "Inga svarsposter: svaret skulle komma från en upstream-resolver, som inte tillfrågas.");
   ("explain.steps", "Övervägda steg");
   ("explain.step", "Steg");
   ("explain.outcome", "Utfall");
   ("explain.detail", "Detaljer");
   ("explain.cname_target", "CNAME-mål");
   ("explain.ttl", "Återstående TTL");
   ("explain.matches", "Träff");
   ("explain.allowed_by", "Tillåten av");
   ("explain.not_contacted", "Ingen upstream tillfrågades.");
   ("explain.scope.global", "Global filtrering");
   ("explain.scope.client_policy", "Klientpolicy");
   ("explain.stage.filter", "Blocklista eller klientpolicy");
   ("explain.stage.rewrite", "DNS-omskrivning");
   ("explain.stage.zone", "Lokal zon");
   ("explain.stage.cache", "Cache");
   ("explain.stage.forwarding", "Regel för villkorad vidarebefordran");
   ("explain.stage.upstream", "Globala upstream-resolvers");
   ("explain.stage.refused", "Nekad");
   ("explain.result.passed", "Släpptes igenom");
   ("explain.result.allowed", "Tillåten");
   ("explain.result.blocked", "Blockerad");
   ("explain.result.no_match", "Ingen träff");
   ("explain.result.answered", "Besvarad");
   ("explain.result.miss", "Miss");
   ("explain.result.hit", "Träff");
   ("explain.result.refused", "Nekad");
   ("explain.result.would_forward", "Skulle vidarebefordras");
   ("explain.result.error", "Fel");
   ("explain.source.local", "Lokalt svar");
   ("explain.source.cache", "Cache");
   ("explain.source.blocked", "Blockerad");
   ("explain.source.upstream", "Upstream");
   ("explain.source.refused", "Nekad");
   ("audit.title", "Administrativ granskningslogg");
   ("audit.hint", "Administrativa åtgärder sparas i 90 dagar. Hemligheter och förfrågningsinnehåll utesluts.");
   ("audit.actor", "Användare");
   ("audit.action", "Åtgärd");
   ("audit.result", "Resultat");
   ("audit.all", "Alla");
   ("audit.success", "Lyckad");
   ("audit.failure", "Misslyckad");
   ("audit.filter", "Filtrera");
   ("audit.time", "Tid");
   ("audit.target", "Mål");
   ("audit.empty", "Inga granskningshändelser hittades.");
   ("audit.more", "Läs in fler");
   ("audit.load_failed", "Kunde inte läsa in granskningshändelser");
   ("auth.checking", "Kontrollerar session…");
   ("auth.sign_in_title", "Logga in på Velora DNS");
   ("auth.username", "Användarnamn");
   ("auth.password", "Lösenord");
   ("auth.sign_in", "Logga in");
   ("auth.sign_in_failed", "Inloggningen misslyckades");
   ("settings.server_configuration", "Serverkonfiguration");
   ("settings.language", "Språk");
   ("settings.theme", "Tema");
   ("settings.theme_light", "Ljust");
   ("settings.theme_dark", "Mörkt");
   ("settings.theme_auto", "Auto");
   ("settings.theme_hint", "Auto följer ditt operativsystems ljusa eller mörka färgschema.");
   ("settings.log_level", "Loggnivå");
   ("settings.rate_limiting", "Hastighetsbegränsning");
   ("settings.rate_limit_hint", "Hastighetsbegränsning är inaktiverad som standard. Aktivera den för att skydda resolvern från källöversvämning och höga frågefrekvenser.");
   ("settings.rate_limit_enabled", "Aktivera hastighetsbegränsning");
   ("settings.rate_limit_global_qps", "Globala frågor per sekund")].

Definition sv_2 : list (string * string) :=
  [("settings.rate_limit_client_qps", "Frågor per sekund per klient");
   ("settings.rate_limit_burst", "Tillåten överskridning");
   ("settings.rate_limit_rejected_total", "Avvisade frågor");
   ("settings.rate_limit_last_rejected", "Senaste avvisningen");
   ("settings.save", "Spara");
   ("settings.rate_limit_load_failed", "Kan inte ladda inställningar för hastighetsbegränsning");
   ("settings.rate_limit_save_failed", "Kan inte spara inställningar för hastighetsbegränsning");
   ("settings.rate_limit_saved", "Inställningar för hastighetsbegränsning sparade.");
   ("settings.rate_limit_loading", "Laddar inställningar för hastighetsbegränsning…");
   ("settings.edit_hint", "Dessa inställningar motsvarar snabbstartalternativen. Vissa ändringar kräver omstart; cache-TTL-ändringar tillämpas omedelbart.");
   ("settings.dns_section", "DNS-inställningar");
   ("settings.cache_section", "DNS-cache");
   ("settings.cache_ttl_label", "Uppströmssvars cache-TTL (sekunder)");
   ("settings.cache_ttl_hint", "86400 sekunder = 24 timmar. Intervall: 0–604800 sekunder; 0 använder varje uppströmsservers ursprungliga TTL. Ändringar i uppströmsservrar kan ta lång tid att synas. Ändringar rensar befintliga cache-svar. Svar med noll-TTL och signerade DNSSEC behåller sin ursprungliga TTL.");
   ("settings.cache_ttl_invalid", "Ange ett heltal från 0 till 604800 sekunder.");
   ("settings.dns_listen_label", "DNS-lyssnande adresser (kommaseparerade)");
   ("settings.dns_listen_warning", "Varning: 0.0.0.0 exponerar DNS för ditt nätverk. Säkerställ att brandväggen bara tillåter pålitliga klienter.");
   ("settings.upstreams_label", "Uppströmsservrar (kommaseparerade)");
   ("settings.upstreams_hint", "Format: IP:PORT (t.ex. 1.1.1.1:53). DoH-uppströmmar använder https://host/dns-query");
   ("settings.allowed_clients_label", "Tillåtna klientnätverk (kommaseparerade CIDR:er)");
   ("settings.allowed_clients_hint", "Bara dessa nätverk kan skicka frågor till resolvern. Exempel: 192.168.1.0/24, 10.0.0.0/8");
   ("settings.web_section", "Webbgränssnittsinställningar");
   ("settings.web_listen_label", "Webbgränssnittets lyssnande adress (IP:port)");
   ("settings.web_listen_warning", "Varning: 0.0.0.0 exponerar webbgränssnittet för ditt nätverk. Använd en brandvägg eller autentisering.");
   ("settings.allowed_hosts_label", "Tillåtna värdar (kommaseparerade)");
   ("settings.allowed_hosts_hint", "Värdhuvuden som får åtkomst till hanterings-APIet. Använd * för att tillåta alla (rekommenderas inte i LAN).");
   ("settings.logging_section", "Loggning och övrigt");
   ("settings.enable_query_log", "Aktivera frågeloggning");
   ("settings.save_configuration", "Spara konfiguration");
   ("settings.saving", "Sparar…");
   ("settings.save_success", "Konfiguration sparad och tillämpad.");
   ("settings.save_failed", "Det gick inte att spara konfigurationen");
   ("dashboard.total_queries", "Totalt antal frågor");
   ("dashboard.since_start", "Sedan statistiken senast nollställdes");
   ("dashboard.reset_statistics", "Nollställ statistik");
   ("dashboard.reset_confirm", "Nollställa alla räknare för frågor, cache och hastighetsbegränsning? Detta kan inte ångras.");
   ("dashboard.reset_failed", "Det gick inte att nollställa statistiken");
   ("dashboard.qps", "Frågor / sekund");
   ("dashboard.rolling_avg", "Rullande 60-sekundersgenomsnitt");
   ("dashboard.cache_hit_rate", "Cacheträffar");
   ("dashboard.answers_from_memory", "svar från minnet");
   ("dashboard.uptime", "Drifttid");
   ("dashboard.process_lifetime", "Aktuell processlivstid");
   ("dashboard.top_domains", "Toppdomäner");
   ("dashboard.top_clients", "Toppklienter");
   ("dashboard.query_activity", "Frågeaktivitet");
   ("dashboard.live_samples", "Liveprov från din resolver");
   ("dashboard.refresh_5s", "Uppdatering var 5:e sekund");
   ("dashboard.queries_per_sec", "frågor / sek");
   ("dashboard.chart_aria", "Frågefrekvens under denna webbläsarsession");
   ("dashboard.session_samples", "Sessionsprov");
   ("dashboard.now", "Nu");
   ("dashboard.upstream_resolvers", "Uppströmsresolvrar");
   ("dashboard.ordered_failover", "Ordnad failover med TCP-säkerhetskopia");
   ("dashboard.endpoint", "Slutpunkt");
   ("dashboard.health", "Hälsa");
   ("dashboard.upstream_unknown", "Okänd");
   ("dashboard.upstream_healthy", "Frisk");
   ("dashboard.upstream_degraded", "Nedsatt");
   ("dashboard.upstream_unavailable", "Otillgänglig");
   ("dashboard.priority", "Prioritet");
   ("dashboard.attempt_timeout", "Timeout för försök");
   ("dashboard.primary", "Primär");
   ("dashboard.fallback", "Reserv");
   ("dashboard.config_shown", "Konfiguration visad. Nåbarhet bedöms vid varje fråga.");
   ("dashboard.retained_last_24h", "Behållna frågor under de senaste 24 timmarna");
   ("dashboard.unavailable_no_logging", "Ej tillgängligt när frågeloggning är inaktiverad.");
   ("dashboard.loading_stats", "Laddar frågestatistik…");
   ("dashboard.stats_load_failed", "Kan inte ladda frågestatistik");
   ("dashboard.no_retained", "Inga behållna frågor i detta fönster.");
   ("cache.live_entries", "Aktuella poster");
   ("cache.capacity", "Kapacitet");
   ("cache.hits", "Cache träffar");
   ("cache.since_startup", "Sedan processstart");
   ("cache.misses", "Cache missar");
   ("cache.includes_uncacheable", "Inkluderar icke-cachebara begäran");
   ("cache.memory_cache", "Minnescache");
   ("cache.description", "Positiva svar från uppströmsservrar använder den konfigurerade cache-TTL:n. Svar med noll-TTL, signerade DNSSEC och negativa svar behåller sina ursprungliga regler. Minst nyligen använda poster tas bort vid kapacitet. Cacheinnehåll lagras aldrig i SQLite.");
   ("cache.clear_description", "Rensning av cache tar bort alla aktuella svar. Livstidsträff- och missräkningar bevaras.");
   ("cache.clearing", "Rensar…");
   ("cache.clear", "Rensa cache");
   ("cache.cleared", "Cache rensad. Lokala zoner förblir aktiva; andra frågor kommer att vidarebefordras till uppströmsservrar.");
   ("cache.flush_failed", "Cache-flushning misslyckades");
   ("cache.entries_title", "Cachade DNS-poster");
   ("cache.entries_description", "Aktuella svar, senast använda först.");
   ("cache.entries_loading", "Laddar cacheposter…");
   ("cache.entries_load_failed", "Kan inte ladda cacheposter");
   ("cache.entries_empty", "Cachen är tom.");
   ("cache.entries_scroll_hint", "Scrolla åt sidor för att se alla kolumner.");
   ("cache.entry_name", "Namn");
   ("cache.entry_type", "Typ");
   ("cache.entry_answer", "Svar");
   ("cache.entry_status", "Status");
   ("cache.entry_ttl", "TTL återstår");
   ("cache.seconds", "s");
   ("cache.previous", "Föregående");
   ("cache.next", "Nästa");
   ("querylog.unavailable_title", "Frågehistorik otillgänglig");
   ("querylog.unavailable_text", "Aktivera frågeloggning för att samla in och inspektera framtida DNS-aktivitet.");
   ("querylog.up_to_100", "Upp till 100 behållna svar per sida");
   ("querylog.refresh", "Uppdatera frågor");
   ("querylog.filters_aria", "Frågefilter");
   ("querylog.domain", "Domän");
   ("querylog.contains_example", "Innehåller example.com");
   ("querylog.client_ip", "Klient-IP");
   ("querylog.exact_ip", "Exakt IP-adress");
   ("querylog.query_type", "Frågetyp");
   ("querylog.all_types", "Alla typer");
   ("querylog.source", "Källa");
   ("querylog.all_sources", "Alla källor");
   ("querylog.apply_filters", "Tillämpa filter");
   ("querylog.show_blocked", "Visa blockerade frågor");
   ("querylog.error_stale", "Tidigare resultat kan vara föråldrade.");
   ("querylog.loading", "Laddar frågelogg…");
   ("querylog.no_matches", "Inga matchande frågor");
   ("querylog.no_matches_text", "Prova andra filter eller generera DNS-trafik med loggning aktiverad.");
   ("querylog.caption", "DNS-frågelogg");
   ("querylog.col_timestamp", "Tidsstämpel");
   ("querylog.col_client", "Klient");
   ("querylog.col_domain", "Domän");
   ("querylog.col_type", "Typ");
   ("querylog.col_source", "Källa");
   ("querylog.col_response", "Svar");
   ("querylog.col_latency", "Latens");
   ("querylog.older", "Äldre frågor");
   ("querylog.load_failed", "Kan inte ladda frågelogg");
   ("blocklists.count", "externa källor");
   ("blocklists.count_one", "extern källa");
   ("blocklists.sources_label", "DNS-policykällor");
   ("blocklists.reload", "Ladda om");
   ("blocklists.add_source", "Lägg till källa");
   ("blocklists.add_aria", "Lägg till blockeringslistkälla");
   ("blocklists.add_title", "Lägg till extern blockeringslista");
   ("blocklists.add_text", "Endast offentliga HTTP(S)-källor accepteras. Misslyckade uppdateringar behåller tidigare DNS-regler aktiva.");
   ("blocklists.name", "Namn");
   ("blocklists.source_url", "Käll-URL");
   ("blocklists.community_hosts", "Gemenskapens värdar");
   ("blocklists.adding", "Lägger till…");
   ("blocklists.cancel", "Avbryt");
   ("blocklists.loading", "Laddar blockeringslistkällor…");
   ("blocklists.empty_title", "Inga externa blockeringslistor");
   ("blocklists.empty_text", "Lägg till en pålitlig offentlig värd- eller domänlista för att tillämpa DNS-blockering.");
   ("blocklists.caption", "Externa blockeringslistkällor");
   ("blocklists.col_source", "Källa");
   ("blocklists.col_status", "Status");
   ("blocklists.col_last_update", "Senast uppdaterad");
   ("blocklists.update_failed", "Uppdatering misslyckades");
   ("blocklists.active", "AKTIV")].

Definition sv_3 : list (string * string) :=
  [("blocklists.disabled", "INAKTIVERAD");
   ("blocklists.never", "Aldrig");
   ("blocklists.updating", "Uppdaterar…");
   ("blocklists.update", "Uppdatera");
   ("blocklists.load_failed", "Kan inte ladda blockeringslistor");
   ("blocklists.add_failed", "Kan inte lägga till källa");
   ("blocklists.update_failed_msg", "Kan inte uppdatera källa");
   ("blocklists.col_domains", "Domäner");
   ("blocklists.local", "Lokal");
   ("blocklists.enable", "Aktivera");
   ("blocklists.disable", "Inaktivera");
   ("blocklists.toggle_failed", "Kan inte växla källans status");
   ("blocklists.edit_content", "Redigera innehåll");
   ("blocklists.edit_content_aria", "Redigera blockeringslistans innehåll");
   ("blocklists.edit_content_title", "Redigera blockeringslistans domäner");
   ("blocklists.edit_content_text", "Ange en domän per rad. Rader som börjar med 0.0.0.0 eller en kommentar behandlas som värdposter.");
   ("blocklists.domains_label", "Domäner");
   ("blocklists.saving", "Sparar…");
   ("blocklists.save", "Spara");
   ("blocklists.content_save_failed", "Kan inte spara innehåll");
   ("blocklists.delete", "Ta bort");
   ("blocklists.confirm_delete", "Bekräfta");
   ("blocklists.delete_failed", "Kan inte ta bort källa");
   ("zones.count", "lokala zoner");
   ("zones.count_one", "lokal zon");
   ("zones.local_authority", "Lokal auktoritet");
   ("zones.reload", "Ladda om zoner");
   ("zones.add_zone", "Lägg till zon");
   ("zones.error_stale", "Visar de senast laddade zonerna. Ladda om innan du gör ändringar.");
   ("zones.error_retry", "Ladda om och försök igen.");
   ("zones.reload_before_retry", "Ladda om zoner innan du försöker igen.");
   ("zones.loading", "Laddar lokala zoner…");
   ("zones.empty_title", "Ge ditt nätverk bekanta namn");
   ("zones.empty_text", "Skapa en zon som home.arpa, lägg sedan till poster för din router, tjänster och enheter.");
   ("zones.create_first", "Skapa din första zon");
   ("zones.filter_aria", "Filtrera zoner");
   ("zones.filter_placeholder", "Hitta en zon…");
   ("zones.nav_aria", "Lokala zoner");
   ("zones.records_custom", "anpassade poster");
   ("zones.no_matching", "Inga matchande zoner.");
   ("zones.authoritative_eyebrow", "AUKTORITATIV ZON");
   ("zones.revision", "Revision");
   ("zones.add_record", "Lägg till post");
   ("zones.delete_zone_aria", "Ta bort zon");
   ("zones.primary_ns", "Primär NS");
   ("zones.contact", "Kontakt");
   ("zones.delete_record_confirm", "Ta bort post");
   ("zones.delete_zone_confirm", "och alla");
   ("zones.delete_zone_confirm2", "poster? Denna åtgärd kan inte ångras.");
   ("zones.deleting", "Tar bort…");
   ("zones.delete_record_perm", "Ta bort post permanent");
   ("zones.delete_zone_perm", "Ta bort zon permanent");
   ("zones.cancel_deletion", "Avbryt borttagning");
   ("zones.record_saved", "Post sparad. DNS-ändringar är aktiva.");
   ("zones.record_deleted", "Post borttagen. DNS-ändringar är aktiva.");
   ("zones.zone_deleted", "Zon och dess poster borttagna.");
   ("zones.zone_created", "Zon skapad. Lägg till poster för att börja använda den.");
   ("zones.delete_failed", "Kan inte ta bort");
   ("zones.footnote", "Lokala svar har företräde framför vidarebefordran. Enheter kan behålla tidigare svar tills deras TTL löper ut.");
   ("zones.record_form_edit_aria", "Redigera DNS-post");
   ("zones.record_form_add_aria", "Lägg till DNS-post");
   ("zones.edit_record", "Redigera post");
   ("zones.add_record_form", "Lägg till post");
   ("zones.changes_apply", "Ändringar tillämpas på");
   ("zones.record_name", "Postnamn");
   ("zones.router_or_at", "router eller @");
   ("zones.relative_name_hint", "Relativt namn, @ för zonen, eller ett absolut namn som slutar med en punkt.");
   ("zones.record_type", "Posttyp");
   ("zones.ttl_seconds", "TTL (sekunder)");
   ("zones.priority", "Prioritet");
   ("zones.ipv4_address", "IPv4-adress");
   ("zones.ipv6_address", "IPv6-adress");
   ("zones.text_value", "Textvärde");
   ("zones.target_hostname", "Målvärdnamn");
   ("zones.invalid_ttl", "Ange giltiga TTL- och prioritetsvärden.");
   ("zones.record_conflict", "Denna zon ändrades annorstädes. Ditt utkast är oförändrat. Stäng detta formulär och ladda om zoner innan du försöker igen.");
   ("zones.save_failed", "Kan inte spara post");
   ("zones.saving", "Sparar…");
   ("zones.save_record", "Spara post");
   ("zones.cancel", "Avbryt");
   ("zones.no_records_title", "Inga anpassade poster ännu");
   ("zones.no_records_text", "Lägg till din första post. SOA och reservapex NS hanteras automatiskt.");
   ("zones.records_aria", "DNS-poster för");
   ("zones.col_name", "Namn");
   ("zones.col_type", "Typ");
   ("zones.col_value", "Värde");
   ("zones.col_ttl", "TTL");
   ("zones.col_actions", "Åtgärder");
   ("zones.edit_aria", "Redigera");
   ("zones.delete_aria", "Ta bort");
   ("zones.record_word", "post");
   ("zones.create_title", "Skapa en lokal zon");
   ("zones.create_text", "Velora kommer att svara för denna zon och behålla okända namn i ditt nätverk.");
   ("zones.zone_name", "Zonnamn");
   ("zones.authority_settings", "Auktoritetsinställningar");
   ("zones.primary_nameserver", "Primär namnservare");
   ("zones.contact_mailbox", "Kontakt (DNS-brevlåda)");
   ("zones.creating", "Skapar…");
   ("zones.create_zone", "Skapa zon");
   ("zones.create_zone_aria", "Skapa DNS-zon");
   ("zones.create_failed", "Kan inte skapa zon");
   ("zones.load_failed", "Kan inte ladda zoner");
   ("updates.loading", "Laddar uppdateringsstatus…");
   ("updates.viewer_readonly", "Du är inloggad som visare. Uppdateringsförfrågningar är skrivskyddade.");
   ("updates.in_progress", "Uppdatering pågår…");
   ("updates.history", "Uppdateringshistorik");
   ("updates.no_history", "Inga uppdateringar registrerade ännu.");
   ("updates.col_from", "Från");
   ("updates.col_to", "Till");
   ("updates.col_state", "Tillstånd");
   ("updates.col_started", "Startad");
   ("updates.state_idle", "Inaktiv");
   ("updates.state_downloading", "Hämtar");
   ("updates.state_verifying", "Verifierar");
   ("updates.state_installing", "Installerar");
   ("updates.state_readiness", "Väntar på beredskap");
   ("updates.state_completed", "Slutförd");
   ("updates.state_rolled_back", "Återställd");
   ("updates.state_failed", "Misslyckades");
   ("updates.load_failed", "Det gick inte att ladda uppdateringsstatus");
   ("updates.request_failed", "Det gick inte att begära uppdatering");
   ("updates.check", "Check for updates");
   ("updates.available", "Update available");
   ("updates.up_to_date", "The system is up to date.");
   ("updates.progress", "Update progress");
   ("updates.rollback_used", "The previous version was restored.");
   ("updates.rollback_recovered", "The previous version was restored and is healthy.");
   ("backup.sqlite_only", "Krypterad export stöder för närvarande endast SQLite-installationer.");
   ("backup.create_title", "Krypterad säkerhetskopia");
   ("backup.create_hint", "Ladda ned en versionshanterad kopia av konfiguration och beständiga data. Förvara lösenordet säkert.");
   ("backup.passphrase", "Lösenord");
   ("backup.creating", "Skapar…");
   ("backup.create", "Skapa och ladda ned");
   ("backup.create_failed", "Det gick inte att skapa säkerhetskopian");
   ("backup.restore_hint", "Återställ den krypterade kopian när tjänsten är stoppad. Kommandot sparar en säkerhetskopia av den nuvarande installationen.");
   ("backup.loading", "Laddar säkerhetskopia-status…");
   ("backup.status_title", "Säkerhetskopia-status");
   ("backup.database", "Databas:");
   ("backup.last_backup", "Senaste säkerhetskopian:");
   ("backup.no_backup", "Ingen säkerhetskopia registrerad ännu");
   ("backup.verification_state", "Verifieringsstatus:");
   ("backup.state_unknown", "Okänd");
   ("backup.state_unverified", "Ej verifierad");
   ("backup.state_verified", "Verifierad");
   ("backup.verify_title", "Verifiera säkerhetskopia");
   ("backup.verify_text", "Placera en kopia av säkerhetskopian intill serverdatabasen för att verifiera dess integritet.");
   ("backup.file_name", "Filnamn för säkerhetskopia");
   ("backup.file_hint", "Placera säkerhetskopian intill databasen på Velora-servern. Endast filnamnet används; webbläsfiler och andra kataloger kan inte kontrolleras här.");
   ("backup.viewer_readonly", "Du är inloggad som visare. Säkerhetskopiaverifiering är skrivskyddad.");
   ("backup.verifying", "Verifierar…");
   ("backup.verify", "Verifiera");
   ("backup.valid", "Säkerhetskopian är giltig")].

Definition sv_4 : list (string * string) :=
  [("backup.invalid", "Säkerhetskopian är ogiltig");
   ("backup.schema_version", "Schemaversion:");
   ("backup.records", "Poster:");
   ("backup.instructions", "Återställ från kommandoraden");
   ("backup.native", "Nativ installation");
   ("backup.docker", "Docker Compose");
   ("backup.online", "Online-säkerhetskopia (SQLite)");
   ("backup.load_failed", "Det gick inte att ladda säkerhetskopia-status");
   ("backup.verify_failed", "Verifiering misslyckades");
   ("backup.step_stop_service", "Stoppa tjänsten");
   ("backup.step_create_backup", "Skapa en konsekvent säkerhetskopia");
   ("backup.step_restart_service", "Starta om tjänsten");
   ("backup.step_stop_container", "Stoppa behållaren");
   ("backup.step_backup_volume", "Säkerhetskopiera volymen");
   ("backup.step_restart_container", "Starta om behållaren");
   ("backup.step_online_backup", "Använd SQLite-säkerhetskopia-APIet för en konsekvent online-säkerhetskopia");
   ("onboarding.welcome", "Välkommen till Velora DNS");
   ("onboarding.complete_steps", "Slutför dessa steg för att säkra din installation");
   ("onboarding.dismiss", "Stäng");
   ("onboarding.change_credentials", "Ändra inloggningsuppgifter");
   ("onboarding.change_credentials_text", "Standardadministratörsordet bör ändras efter första inloggningen.");
   ("onboarding.review_dns", "Granska DNS-konfiguration");
   ("onboarding.review_dns_text", "Säkerställ att uppströmsservrar och tillåtna klienter är korrekt konfigurerade för ditt nätverk.");
   ("onboarding.restrict_clients", "Begräns klientåtkomst");
   ("onboarding.restrict_clients_text", "Konfigurera allowed_clients CIDR:er för att begränsa vilka nätverk som kan använda din resolver.");
   ("onboarding.verify_db", "Verifiera databaslagring");
   ("onboarding.verify_db_text", "Säkerställ att databasvägen är på pålitlig lagring med tillräckligt utrymme.");
   ("onboarding.update_policy", "Konfigurera uppdateringspolicy");
   ("onboarding.update_policy_text", "Granska uppdateringscenter för att förstå hur du håller din installation aktuell.");
   ("app.nav.dhcp", "DHCP");
   ("app.title.dhcp", "DHCP-server");
   ("dhcp.loading", "Laddar DHCP-data…");
   ("dhcp.load_failed", "Unable to load DHCP data");
   ("dhcp.create_pool_failed", "Unable to create pool");
   ("dhcp.delete_pool_failed", "Unable to delete pool");
   ("dhcp.create_reservation_failed", "Unable to create reservation");
   ("dhcp.delete_reservation_failed", "Unable to delete reservation");
   ("dhcp.delete_lease_failed", "Unable to delete lease");
   ("dhcp.pools", "DHCP-pooler");
   ("dhcp.add_pool", "Lägg till pool");
   ("dhcp.pool_name", "Poolnamn");
   ("dhcp.interface", "Gränssnitt");
   ("dhcp.subnet_cidr", "Subnät (CIDR)");
   ("dhcp.subnet", "Subnät");
   ("dhcp.gateway", "Gateway");
   ("dhcp.dns_servers", "DNS-servrar");
   ("dhcp.lease_seconds", "Leasetid (sekunder)");
   ("dhcp.leases_label", "Leaser");
   ("dhcp.create", "Skapa");
   ("dhcp.no_pools", "Inga DHCP-pooler konfigurerade. Skapa en för att börja utfärda leaser.");
   ("dhcp.reservations", "Statiska reservationer");
   ("dhcp.mac_address", "MAC-adress");
   ("dhcp.ip_address", "IP-adress");
   ("dhcp.hostname", "Värdnamn");
   ("dhcp.add", "Lägg till");
   ("dhcp.active_leases", "Aktiva leaser");
   ("dhcp.expires", "Löper ut");
   ("dhcp.no_leases", "Inga aktiva leaser.");
   ("dhcp.expired", "Löpt ut");
   ("dhcp.confirm_delete_pool", "Ta bort denna pool och alla dess reservationer?");
   ("dhcp.name", "Namn");
   ("app.nav.cluster", "Kluster");
   ("app.title.cluster", "Klusteröversikt");
   ("cluster.loading", "Laddar klusterdata…");
   ("cluster.load_failed", "Unable to load cluster data");
   ("cluster.name", "Namn");
   ("cluster.status", "Status");
   ("cluster.version", "Version");
   ("cluster.last_seen", "Senast sedd");
   ("cluster.config_history", "Konfigurationshistorik");
   ("cluster.no_versions", "Inga konfigurationsversioner registrerade.");
   ("cluster.hash", "Hash");
   ("cluster.applied_by", "Tillämpad av");
   ("cluster.applied_at", "Tillämpad vid");
   ("app.nav.group_dns", "DNS");
   ("app.nav.group_network", "Nätverk");
   ("app.nav.group_system", "System");
   ("app.menu_open", "Öppna navigering");
   ("app.menu_close", "Stäng navigering");
   ("app.theme_to_dark", "Byt till mörkt tema");
   ("app.theme_to_light", "Byt till ljust tema");
   ("app.signed_in_as", "Inloggad som");
   ("app.subtitle.zones", "Auktoritativa namn för enheter och tjänster i ditt nätverk.");
   ("app.subtitle.queries", "Senaste uppslag som besvarats av denna resolver.");
   ("app.subtitle.blocklists", "Domänlistor som besvaras som blockerade.");
   ("app.subtitle.cache", "Svar i minnet för snabbare upprepade uppslag.");
   ("app.subtitle.settings", "Resolver, webbgränssnitt och personliga inställningar.");
   ("app.subtitle.updates", "Installerad version, tillgängliga versioner och uppdateringshistorik.");
   ("app.subtitle.backup", "Skapa krypterade säkerhetskopior och verifiera befintliga.");
   ("app.subtitle.dhcp", "Adresspooler, reservationer och aktiva lån.");
   ("app.subtitle.cluster", "Håll lokala zoner identiska på flera Velora DNS-servrar.");
   ("app.subtitle.diagnostics", "Komponenternas hälsa och en delbar supportrapport.");
   ("app.subtitle.events", "Saker som behöver din uppmärksamhet.");
   ("app.subtitle.audit", "Vem ändrade vad, och när.");
   ("settings.preferences", "Inställningar");
   ("dashboard.general_statistics", "Allmän statistik");
   ("dashboard.blocked", "Blockerade av filter");
   ("dashboard.of_all_queries", "av alla förfrågningar");
   ("dashboard.query_logging", "Frågelogg");
   ("dashboard.enabled", "Aktiverad");
   ("dashboard.disabled", "Inaktiverad");
   ("dashboard.requests", "Förfrågningar");
   ("dashboard.domain", "Domän");
   ("dashboard.client", "Klient");
   ("dashboard.upstream_servers", "Uppströmsservrar");
   ("dashboard.collecting_samples", "Samlar in mätvärden…");
   ("cache.search_label", "Sök på namn");
   ("cache.search_placeholder", "example.org");
   ("cache.all_types", "Alla typer");
   ("cache.remove_entry", "Ta bort från cache");
   ("cache.invalidate_title", "Ogiltigförklara en domän");
   ("cache.invalidate_text", "Ta bort cachade svar för ett namn utan att tömma hela cachen.");
   ("cache.domain", "Domän");
   ("cache.include_subdomains", "Inkludera underdomäner");
   ("cache.invalidate", "Ogiltigförklara");
   ("cache.removed_entries", "Borttagna cacheposter");
   ("cache.invalidate_failed", "Ogiltigförklaring misslyckades");
   ("cache.flush_confirm", "Rensa alla cachade svar? Räknare för träffar och missar behålls.");
   ("cache.no_matches", "Inga cacheposter matchar filtret.");
   ("blocklists.schedule", "Uppdateringsschema");
   ("blocklists.schedule_for", "Uppdateringsschema för");
   ("blocklists.manual", "Manuellt");
   ("blocklists.every_1h", "Varje timme");
   ("blocklists.every_6h", "Var 6:e timme");
   ("blocklists.every_12h", "Var 12:e timme");
   ("blocklists.every_24h", "Dagligen");
   ("blocklists.every_7d", "Varje vecka");
   ("blocklists.col_next_update", "Nästa uppdatering");
   ("blocklists.due_now", "Nu");
   ("blocklists.never_updated", "Aldrig uppdaterad");
   ("blocklists.retry_count", "misslyckade försök");
   ("blocklists.schedule_failed", "Det gick inte att ändra schemat");
   ("app.nav.forwarding", "Villkorlig vidarebefordran");
   ("app.title.forwarding", "Villkorlig vidarebefordran");
   ("app.subtitle.forwarding", "Skicka förfrågningar för valda domäner till egna resolvrar.");
   ("forwarding.count", "vidarebefordringsregler");
   ("forwarding.add", "Lägg till regel");
   ("forwarding.add_title", "Ny vidarebefordringsregel");
   ("forwarding.edit_title", "Redigera vidarebefordringsregel");
   ("forwarding.form_hint", "Regeln gäller även alla namn under domänen. Den mest specifika aktiva regeln vinner.");
   ("forwarding.domain", "Domän");
   ("forwarding.upstreams", "Resolvrar");
   ("forwarding.upstreams_hint", "1–4 adresser som IP eller IP:port, separerade med kommatecken. Port 53 används om den utelämnas.");
   ("forwarding.description", "Beskrivning");
   ("forwarding.enabled", "Aktiverad");
   ("forwarding.save", "Spara regel");
   ("forwarding.cancel", "Avbryt")].

Definition sv_5 : list (string * string) :=
  [("forwarding.empty_title", "Inga vidarebefordringsregler");
   ("forwarding.empty_text", "Alla förfrågningar använder de globala resolvrarna. Lägg till en regel för att slå upp en domän som corp.example via en intern DNS-server.");
   ("forwarding.col_status", "Status");
   ("forwarding.test", "Testa");
   ("forwarding.test_title", "Testa regel");
   ("forwarding.test_hint", "Skickar en förfrågan endast via regelns resolvrar, utan cache.");
   ("forwarding.test_name", "Namn");
   ("forwarding.test_type", "Typ");
   ("forwarding.run_test", "Kör test");
   ("forwarding.test_via", "via");
   ("forwarding.no_answers", "Inga svarsposter");
   ("forwarding.edit", "Redigera");
   ("forwarding.delete", "Ta bort");
   ("forwarding.delete_confirm", "Ta bort vidarebefordringsregeln för");
   ("forwarding.toggle", "Aktivera eller inaktivera regeln för");
   ("forwarding.load_failed", "Det gick inte att läsa in reglerna");
   ("forwarding.save_failed", "Det gick inte att spara regeln");
   ("forwarding.saved", "Regeln sparades. Cachade svar för domänen rensades.");
   ("forwarding.disabled", "Inaktiverad");
   ("app.nav.rewrites", "DNS-omskrivningar");
   ("app.title.rewrites", "DNS-omskrivningar");
   ("app.subtitle.rewrites", "Besvara valda namn med fasta adresser eller alias.");
   ("rewrites.count", "omskrivningar");
   ("rewrites.add", "Lägg till omskrivning");
   ("rewrites.add_title", "Ny omskrivning");
   ("rewrites.edit_title", "Redigera omskrivning");
   ("rewrites.form_hint", "Använd *.förälder för alla namn under en domän. Exakta namn vinner över jokertecken.");
   ("rewrites.name", "Namn");
   ("rewrites.type", "Typ");
   ("rewrites.value", "Svar");
   ("rewrites.value_hint_A", "IPv4-adress");
   ("rewrites.value_hint_AAAA", "IPv6-adress");
   ("rewrites.value_hint_CNAME", "Målvärdnamn, slås upp normalt");
   ("rewrites.description", "Beskrivning");
   ("rewrites.enabled", "Aktiverad");
   ("rewrites.save", "Spara omskrivning");
   ("rewrites.empty_title", "Inga DNS-omskrivningar");
   ("rewrites.empty_text", "Koppla ett namn som nas.home till en adress utan att skapa en zon.");
   ("rewrites.col_notes", "Anteckningar");
   ("rewrites.blocked_hint", "Blockeras först av en blocklista");
   ("rewrites.overrides_hint", "Åsidosätter lokal zon");
   ("rewrites.edit", "Redigera");
   ("rewrites.delete", "Ta bort");
   ("rewrites.delete_confirm", "Ta bort omskrivningen?");
   ("rewrites.toggle", "Aktivera eller inaktivera omskrivning för");
   ("rewrites.search", "Filtrera omskrivningar");
   ("rewrites.load_failed", "Det gick inte att läsa in omskrivningar");
   ("rewrites.save_failed", "Det gick inte att spara omskrivningen");
   ("rewrites.saved", "Omskrivningen sparades och tillämpades.");
   ("app.nav.clients", "Klienter");
   ("app.title.clients", "Klienter och enheter");
   ("app.subtitle.clients", "Ge adresser och nätverk namn som används i hela Velora.");
   ("clients.count", "klienter");
   ("clients.add", "Lägg till klient");
   ("clients.add_title", "Ny klient");
   ("clients.edit_title", "Redigera klient");
   ("clients.form_hint", "Vid överlappande nätverk vinner det mest specifika. Ge DHCP-enheter en fast adress innan du namnger dem.");
   ("clients.name", "Namn");
   ("clients.addresses", "Adresser");
   ("clients.addresses_hint", "IP-adresser eller CIDR-nätverk, separerade med kommatecken.");
   ("clients.group", "Grupp");
   ("clients.description", "Beskrivning");
   ("clients.enabled", "Aktiverad");
   ("clients.save", "Spara klient");
   ("clients.activity", "Senaste 24 timmarna");
   ("clients.queries", "förfrågningar");
   ("clients.last_seen", "Senast sedd");
   ("clients.no_activity", "Inga förfrågningar");
   ("clients.view_queries", "Visa förfrågningar");
   ("clients.empty_title", "Inga namngivna klienter");
   ("clients.empty_text", "Namnge enheter som en tv eller Home Assistant så att de är lätta att känna igen i frågeloggen.");
   ("clients.unnamed_title", "Nyligen sedda utan namn");
   ("clients.unnamed_text", "Mest aktiva adresser senaste 24 timmarna utan klient.");
   ("clients.name_it", "Namnge enhet");
   ("clients.edit", "Redigera");
   ("clients.delete", "Ta bort");
   ("clients.delete_confirm", "Ta bort klienten");
   ("clients.toggle", "Aktivera eller inaktivera klient");
   ("clients.load_failed", "Det gick inte att läsa in klienter");
   ("clients.save_failed", "Det gick inte att spara klienten");
   ("clients.saved", "Klienten sparades.");
   ("clients.logging_off", "Aktivera frågeloggen för att se klientaktivitet.");
   ("app.nav.policies", "Klientpolicyer");
   ("app.title.policies", "Filterpolicyer per klient");
   ("app.subtitle.policies", "Välj hur blockering gäller för enskilda klienter.");
   ("policies.load_failed", "Policyerna kunde inte läsas in.");
   ("policies.save_failed", "Policyn kunde inte sparas.");
   ("policies.saved", "Policyn sparades.");
   ("policies.lookup", "Kontrollera adress");
   ("policies.add", "Lägg till policy");
   ("policies.add_title", "Ny policy");
   ("policies.edit_title", "Redigera policy");
   ("policies.form_hint", "Det mest specifika klientnätet avgör vilken policy en adress använder.");
   ("policies.client", "Klient");
   ("policies.mode", "Filtrering");
   ("policies.mode_default", "Global");
   ("policies.mode_disabled", "Ingen filtrering");
   ("policies.mode_custom", "Anpassad");
   ("policies.mode_default_hint", "Samma block- och tillåtelselistor som alla andra.");
   ("policies.mode_disabled_hint", "Inget blockeras för den här klienten.");
   ("policies.mode_custom_hint", "Bara valda blocklistor plus egna domäner.");
   ("policies.blocklists", "Blocklistor");
   ("policies.no_sources", "Inga blocklistor ännu.");
   ("policies.globally_off", "av globalt");
   ("policies.block", "Blockera även");
   ("policies.allow", "Tillåt alltid");
   ("policies.domains_hint", "En domän per rad; underdomäner ingår.");
   ("policies.allow_hint", "Går före alla blocklistor för den här klienten.");
   ("policies.enabled", "Policyn är aktiv");
   ("policies.save", "Spara policy");
   ("policies.empty_title", "Inga klientpolicyer");
   ("policies.empty_text", "Alla klienter använder de globala blocklistorna. Lägg till en policy för att filtrera en enhet striktare, mildare eller inte alls.");
   ("policies.need_clients", "Policyer gäller namngivna klienter. Namnge en enhet först:");
   ("policies.details", "Detaljer");
   ("policies.summary_disabled", "Alla frågor besvaras ofiltrerade");
   ("policies.summary_default", "Använder de globala blocklistorna");
   ("policies.no_lists", "Inga blocklistor");
   ("policies.blocked_short", "blockerade");
   ("policies.allowed_short", "tillåtna");
   ("policies.paused", "Pausad");
   ("policies.toggle", "Policy aktiv");
   ("policies.edit", "Redigera policy");
   ("policies.delete", "Ta bort policy");
   ("policies.delete_confirm", "Ta bort policyn för");
   ("policies.no_policy", "(ingen policy, global filtrering)");
   ("policies.unknown_address", "matchar ingen klient och använder global filtrering.");
   ("app.nav.webhooks", "Webhooks");
   ("app.title.webhooks", "Webhook-aviseringar");
   ("app.subtitle.webhooks", "Skicka viktiga händelser till andra system.");
   ("webhooks.load_failed", "Webhooks kunde inte läsas in.");
   ("webhooks.save_failed", "Webhooken kunde inte sparas.");
   ("webhooks.saved", "Webhooken sparades.");
   ("webhooks.count", "webhooks");
   ("webhooks.add", "Lägg till webhook");
   ("webhooks.add_title", "Ny webhook");
   ("webhooks.edit_title", "Redigera webhook");
   ("webhooks.form_hint", "Velora skickar en JSON POST-begäran för varje matchande händelse. Leveransen sker i bakgrunden och fördröjer aldrig DNS-svar.");
   ("webhooks.name", "Namn");
   ("webhooks.url", "URL");
   ("webhooks.min_severity", "Lägsta allvarlighetsgrad");
   ("webhooks.severity_info", "Info");
   ("webhooks.severity_warning", "Varning");
   ("webhooks.severity_critical", "Kritisk");
   ("webhooks.token", "Bearer-token");
   ("webhooks.token_hint", "Valfri. Skickas som Authorization-huvud och visas aldrig igen.");
   ("webhooks.token_stored", "Token sparad");
   ("webhooks.token_change", "Ändra");
   ("webhooks.token_remove_hint", "Lämna tomt för att ta bort token")].

Definition sv_6 : list (string * string) :=
  [("webhooks.events", "Händelser");
   ("webhooks.events_hint", "Välj inget för att ta emot alla händelsetyper.");
   ("webhooks.all_events", "Alla händelser");
   ("webhooks.allow_private", "Tillåt mål i privat nätverk (t.ex. Home Assistant i ditt LAN)");
   ("webhooks.enabled", "Webhook aktiv");
   ("webhooks.save", "Spara webhook");
   ("webhooks.empty_title", "Inga webhooks");
   ("webhooks.empty_text", "Lägg till en webhook för att få veta när en upstream slutar svara, en blocklista inte uppdateras eller en säkerhetskopia misslyckas.");
   ("webhooks.last_delivery", "Senaste leverans");
   ("webhooks.never", "Inget skickat ännu");
   ("webhooks.failing", "Misslyckas");
   ("webhooks.toggle", "Webhook aktiv");
   ("webhooks.test", "Skicka test");
   ("webhooks.test_ok", "Test levererat till");
   ("webhooks.test_failed", "Testet misslyckades för");
   ("webhooks.edit", "Redigera webhook");
   ("webhooks.delete", "Ta bort webhook");
   ("webhooks.delete_confirm", "Ta bort webhooken");
   ("app.nav.analytics", "Analys");
   ("app.title.analytics", "Analys");
   ("app.subtitle.analytics", "DNS-aktivitet och resolverprestanda från sparad frågehistorik.");
   ("analytics.load_failed", "Analysen kunde inte läsas in.");
   ("analytics.logging_off_title", "Frågeloggning är av");
   ("analytics.logging_off_text", "Analysen bygger på sparad frågehistorik. Aktivera frågeloggning:");
   ("analytics.range", "Tidsintervall");
   ("analytics.range_1h", "1 timme");
   ("analytics.range_24h", "24 timmar");
   ("analytics.range_7d", "7 dagar");
   ("analytics.range_30d", "30 dagar");
   ("analytics.history_limited", "Frågehistoriken går bara tillbaka till");
   ("analytics.queries", "Frågor");
   ("analytics.blocked", "Blockerade");
   ("analytics.allowed", "Tillåtna");
   ("analytics.cached", "Cachesvar");
   ("analytics.answers", "svar");
   ("analytics.avg_upstream", "Snittid upstream");
   ("analytics.empty_title", "Inga frågor i intervallet");
   ("analytics.empty_text", "Välj ett längre intervall eller kom tillbaka senare.");
   ("analytics.over_time", "Frågor över tid");
   ("analytics.over_time_hint", "Hovra eller använd piltangenterna.");
   ("analytics.chart_aria", "Frågor per tidsintervall, tillåtna och blockerade");
   ("analytics.show_table", "Visa som tabell");
   ("analytics.time", "Tid");
   ("analytics.avg_time", "Snittid");
   ("analytics.latency", "Svarstid upstream");
   ("analytics.latency_hint", "Snitt för besvarade vidarebefordrade frågor; luckor betyder ingen trafik.");
   ("analytics.latency_aria", "Genomsnittlig svarstid per tidsintervall");
   ("analytics.query_types", "Frågetyper");
   ("analytics.sources", "Besvarade av");
   ("analytics.source_upstream", "Upstream");
   ("analytics.source_cache", "Cache");
   ("analytics.source_blocked", "Blockerade");
   ("analytics.source_local", "Lokala zoner och omskrivningar");
   ("analytics.source_refused", "Nekade");
   ("analytics.response_codes", "Svarskoder");
   ("analytics.top_blocked", "Mest blockerade domäner");
   ("analytics.nothing_blocked", "Inget blockerat i intervallet");
   ("analytics.upstreams", "Upstream-användning");
   ("analytics.upstreams_hint", "Vidarebefordrade frågor per resolver, SERVFAIL-svar och snittid.");
   ("analytics.no_upstream", "Ingen upstream-trafik i intervallet");
   ("analytics.failures", "Fel");
   ("updates.check_prompt", "Kontrollera om en nyare version finns.");
   ("updates.checking", "Söker efter uppdateringar…");
   ("updates.starting", "Startar uppdateringen…");
   ("updates.updating_to", "Uppdaterar till");
   ("updates.completed_to", "Uppdaterad till");
   ("updates.failed_title", "Uppdateringen slutfördes inte");
   ("updates.failed_text", "Uppdateringen misslyckades. Velora kör vidare på tidigare version.");
   ("updates.not_started", "Uppdateraren startade inte. Kontrollera att velora-updater.service körs.");
   ("updates.check_again", "Kontrollera igen");
   ("updates.update_now", "Uppdatera");
   ("updates.reload", "Ladda om sidan");
   ("updates.reconnecting", "Velora startar om. Väntar…");
   ("updates.keep_open", "Du kan låta sidan vara öppen; den uppdateras automatiskt. DNS svarar från nuvarande version fram till bytet.");
   ("updates.completed_text", "Uppdateringen är klar och godkänd. Ladda om sidan för att hämta det nya gränssnittet.");
   ("updates.release_date", "Släppt");
   ("settings.entry", "Post");
   ("settings.fix_fields", "Inget ändrades. Rätta de markerade fälten och försök igen.");
   ("settings.restart_required", "Inget ändrades. De markerade fälten kräver omstart: redigera konfigurationsfilen och starta om Velora DNS.");
   ("settings.restart_field", "Kräver omstart");
   ("settings.check", "Kontrollera");
   ("settings.check_ok", "Inställningarna är giltiga och kan tillämpas utan omstart.");
   ("restore.title", "Återställ en säkerhetskopia");
   ("restore.hint", "Ladda upp en krypterad säkerhetskopia för att först kontrollera den. Inget ändras förrän du bekräftar; Velora startar om, sparar en säkerhetskopia och återställer automatiskt om den inte kan starta.");
   ("restore.file", "Säkerhetskopia (.vdns)");
   ("restore.inspect", "Kontrollera säkerhetskopia");
   ("restore.inspecting", "Kontrollerar…");
   ("restore.inspect_failed", "Säkerhetskopian kunde inte kontrolleras.");
   ("restore.review_title", "Säkerhetskopian är giltig");
   ("restore.created", "Skapad");
   ("restore.version", "Velora-version");
   ("restore.schema", "Databasschema");
   ("restore.contents", "Innehåll");
   ("restore.zones", "zoner");
   ("restore.records", "poster");
   ("restore.blocklists", "blocklistor");
   ("restore.rewrites", "omskrivningar");
   ("restore.forward_rules", "vidarebefordringsregler");
   ("restore.clients", "klienter");
   ("restore.users", "användare");
   ("restore.listeners", "Lyssnare");
   ("restore.web", "webb");
   ("restore.confirm", "Ersätt nuvarande konfiguration och data med denna säkerhetskopia. En säkerhetskopia av nuvarande läge sparas.");
   ("restore.restore", "Återställ och starta om");
   ("restore.schedule_failed", "Återställningen kunde inte startas.");
   ("restore.manual_restart", "Återställningen är schemalagd. Starta om Velora DNS för att tillämpa den.");
   ("restore.restarting", "Velora startar om för att tillämpa säkerhetskopian. Sidan uppdateras när den är tillbaka.");
   ("restore.signed_out", "Velora är tillbaka med återställda data. Logga in med ett konto från säkerhetskopian.");
   ("restore.again", "Återställ en annan säkerhetskopia");
   ("restore.backup_from", "Säkerhetskopia från");
   ("restore.safety_copy", "Tidigare läge sparat i");
   ("restore.state_completed", "Återställningen är klar.");
   ("restore.state_rolled_back", "Återställningen återkallades.");
   ("restore.state_failed", "Återställningen misslyckades.");
   ("restore.state_applied", "Återställning tillämpad; väntar på beredskap.");
   ("restore.state_pending", "Återställning schemalagd.");
   ("restore.passphrase", "Lösenfras för säkerhetskopian");
   ("app.scrollable_table", "rullar i sidled");
   ("palette.title", "Kommandopalett");
   ("palette.placeholder", "Sök sidor, zoner, poster, klienter…");
   ("palette.results", "Resultat");
   ("palette.pages", "Sidor");
   ("palette.actions", "Åtgärder");
   ("palette.kind_zone", "Zoner");
   ("palette.kind_record", "Poster");
   ("palette.kind_client", "Klienter");
   ("palette.kind_rewrite", "DNS-omskrivningar");
   ("palette.kind_forwarding", "Villkorlig vidarebefordran");
   ("palette.kind_blocklist", "Blocklistor");
   ("palette.no_results", "Inga träffar.");
   ("palette.navigate", "navigera");
   ("palette.open", "öppna");
   ("palette.toggle", "öppna eller stäng");
   ("palette.open_button", "Sök");
   ("palette.add_client", "Lägg till klient");
   ("palette.create_backup", "Skapa säkerhetskopia");
   ("cluster.action_failed", "Klusteråtgärden misslyckades.");
   ("cluster.never", "aldrig");
   ("cluster.role", "Roll");
   ("cluster.role_standalone", "Fristående");
   ("cluster.role_primary", "Klusterprimär");
   ("cluster.role_replica", "Klusterreplik");
   ("cluster.replicas", "Repliker");
   ("cluster.in_sync_count", "synkade");
   ("cluster.revision", "Zonrevision");
   ("cluster.zones_replicated", "zoner replikerade");
   ("cluster.last_sync", "Senaste synk");
   ("cluster.sync_failed", "Senaste synk misslyckades")].

Definition sv_7 : list (string * string) :=
  [("cluster.sync_ok", "I fas med primären");
   ("cluster.members", "Repliker");
   ("cluster.members_hint", "Noder som kopierar primärens zoner. De hör av sig var 30:e sekund.");
   ("cluster.add_node", "Lägg till nod");
   ("cluster.token_title", "Anslutningstoken skapad");
   ("cluster.token_steps", "Öppna Kluster → Gå med i ett kluster på den nya noden och ange:");
   ("cluster.token_expires", "Token går ut");
   ("cluster.token_once", "Den fungerar en gång och visas inte igen.");
   ("cluster.copy_token", "Kopiera token");
   ("cluster.copied", "Kopierad");
   ("cluster.token_done", "Klar");
   ("cluster.no_members", "Inga repliker ännu");
   ("cluster.no_members_text", "Lägg till en nod för att skapa en anslutningstoken för en andra Velora DNS-server.");
   ("cluster.status_in_sync", "Synkad");
   ("cluster.status_behind", "Hämtar ikapp");
   ("cluster.status_stale", "Svarar inte");
   ("cluster.status_error", "Synkfel");
   ("cluster.status_never_synced", "Väntar på första synk");
   ("cluster.remove", "Ta bort nod");
   ("cluster.remove_confirm", "Ta bort repliken? Den slutar ta emot zonuppdateringar:");
   ("cluster.removed", "Repliken togs bort.");
   ("cluster.dissolve", "Upplös klustret");
   ("cluster.dissolve_hint", "Återkallar alla repliker och gör noden fristående igen. Replikerna behåller sin senaste kopia av zonerna.");
   ("cluster.dissolve_confirm", "Upplösa klustret och återkalla alla repliker?");
   ("cluster.dissolved", "Klustret upplöstes.");
   ("cluster.replica_title", "Replikerar från primären");
   ("cluster.replica_hint", "Zoner på noden kopieras från primären och är skrivskyddade här. Övriga inställningar är lokala.");
   ("cluster.replica_ok", "Replikeringen fungerar.");
   ("cluster.sync_now", "Synka nu");
   ("cluster.leave", "Lämna klustret");
   ("cluster.leave_confirm", "Lämna klustret? Noden behåller sina zoner och blir redigerbar igen.");
   ("cluster.left", "Noden lämnade klustret.");
   ("cluster.primary_url", "Primärens URL");
   ("cluster.cluster_id", "Kluster-ID");
   ("cluster.node_id", "Nod-ID");
   ("cluster.join_token", "Anslutningstoken");
   ("cluster.standalone_title", "Noden är fristående");
   ("cluster.standalone_viewer", "En administratör kan skapa ett kluster eller ansluta noden till ett.");
   ("cluster.scope_note", "Ett kluster håller lokala zoner identiska på flera Velora DNS-servrar: en primär tar emot ändringar och repliker kopierar dem var 30:e sekund. Ingen automatisk failover; övriga inställningar är per nod.");
   ("cluster.create_title", "Skapa ett kluster");
   ("cluster.create_hint", "Noden blir primär. Dess zoner kopieras till alla repliker.");
   ("cluster.node_name", "Nodnamn");
   ("cluster.advertised_url", "Adress som andra noder använder");
   ("cluster.advertised_hint", "Nodens webbgränssnitt-URL sett från replikerna.");
   ("cluster.allow_http", "Tillåt okrypterad HTTP (endast betrott nätverk)");
   ("cluster.skip_check", "Hoppa över nåbarhetskontrollen");
   ("cluster.create", "Skapa kluster");
   ("cluster.created", "Klustret skapades. Lägg till en nod för att bjuda in en replik.");
   ("cluster.join_title", "Gå med i ett kluster");
   ("cluster.join_hint", "Gör noden till replik av en primär. Skapa först anslutningstoken på primären.");
   ("cluster.join_warning", "Vid anslutning ersätts nodens lokala zoner med primärens. Övriga inställningar ändras inte.");
   ("cluster.join_confirm", "Gå med i klustret och ersätt nodens zoner med primärens?");
   ("cluster.join", "Gå med i klustret");
   ("cluster.joined", "Noden gick med i klustret och kopierar primärens zoner.");
   ("cluster.zones_read_only", "Noden är en klusterreplik. Zonerna kopieras från primären och kan bara ändras där.")].

Definition sv : list (string * string) :=
  (sv_1 ++ sv_2 ++ sv_3 ++ sv_4 ++ sv_5 ++ sv_6 ++ sv_7)%list.
