(* ===== verification/I18nJa.v ===== *)
(** * The Japanese catalog: web/src/i18n/ja.ts

    Its entries in order, in parts of up to 148 lines of the file. *)
From S2P Require Import Prelude.
Local Open Scope string_scope.

Definition ja_1 : list (string * string) :=
  [("app.skip_to_content", "コンテンツへスキップ");
   ("app.workspace_label", "ワークスペース");
   ("app.nav.events", "イベント");
   ("app.title.events", "イベント");
   ("events.unread", "未読");
   ("events.empty", "システムイベントはまだありません。");
   ("events.load_failed", "イベントを読み込めませんでした");
   ("events.mark_read", "既読にする");
   ("events.repeated", "繰り返し");
   ("events.open", "開く");
   ("events.info", "情報");
   ("events.warning", "警告");
   ("events.critical", "重大");
   ("app.nav.main", "メインナビゲーション");
   ("app.nav.overview", "概要");
   ("app.nav.zones", "ローカルゾーン");
   ("app.nav.queries", "クエリログ");
   ("app.nav.blocklists", "ブロックリスト");
   ("app.nav.cache", "DNSキャッシュ");
   ("app.nav.settings", "設定");
   ("app.nav.updates", "アップデート");
   ("app.nav.backup", "バックアップ");
   ("app.sign_out", "サインアウト");
   ("app.nav.audit", "監査ログ");
   ("app.title.audit", "監査ログ");
   ("app.nav.diagnostics", "診断");
   ("app.title.diagnostics", "診断");
   ("app.local_resolver", "ローカルリゾルバー");
   ("app.self_hosted_foundation", "セルフホスト · ファウンデーション");
   ("app.private_by_default", "デフォルトでプライベート");
   ("app.privacy.query_retention", "クエリ履歴は制限付きで保持されます。");
   ("app.privacy.no_query_history", "クエリ履歴は収集されません。");
   ("app.github_repo", "GitHubリポジトリ");
   ("app.connecting", "接続中…");
   ("app.workspace", "ワークスペース");
   ("app.connection_lost", "接続が失われました");
   ("app.resolver_online", "リゾルバーオンライン");
   ("app.title.overview", "ネットワーク概要");
   ("app.title.zones", "ローカルゾーン");
   ("app.title.queries", "クエリログ");
   ("app.title.blocklists", "ブロックリスト");
   ("app.title.cache", "DNSキャッシュ");
   ("app.title.settings", "設定");
   ("app.title.updates", "アップデート");
   ("app.title.backup", "バックアップと復元");
   ("app.eyebrow", "ネットワークの全体像");
   ("app.subtitle.overview", "DNSの要求から応答まで、明確に把握できます。");
   ("app.subtitle.default", "リゾルバーファウンデーションを確認・管理します。");
   ("app.refresh", "更新");
   ("app.error.showing_last", "最後に成功したスナップショットを表示中");
   ("app.error.check_server", "Veloraサーバーが実行中であることを確認してください。");
   ("app.error.reach_server", "サーバーに接続できません");
   ("app.viewer_readonly", "ビューアーとしてサインインしています。管理操作は読み取り専用です。");
   ("app.connecting_panel", "リゾルバーに接続中…");
   ("app.not_found", "ページが見つかりません。");
   ("app.footer.independent", "Velora DNS · 独立 · セルフホスト");
   ("app.footer.last_updated", "最終更新");
   ("app.footer.waiting", "サーバーを待機中");
   ("diagnostics.title", "システムの状態");
   ("diagnostics.report_hint", "ダウンロードにはコンポーネントの状態とビルド情報が含まれます。秘密情報やクエリログは含まれません。");
   ("diagnostics.download", "レポートをダウンロード");
   ("diagnostics.loading", "診断を読み込み中…");
   ("diagnostics.load_failed", "診断を読み込めません");
   ("diagnostics.upstreams", "上流サーバー");
   ("diagnostics.component", "コンポーネント");
   ("diagnostics.state", "状態");
   ("diagnostics.detail", "詳細");
   ("diagnostics.state.healthy", "正常");
   ("diagnostics.state.degraded", "低下");
   ("diagnostics.state.failed", "失敗");
   ("explain.title", "なぜこの応答になったのか");
   ("explain.hint", "1つの名前についてリゾルバーを試行します。上流への問い合わせ、ログ記録、キャッシュ、カウントは行われません。");
   ("explain.name", "名前");
   ("explain.type", "レコードタイプ");
   ("explain.client", "クライアントアドレス（任意）");
   ("explain.client_hint", "そのクライアントのフィルタリングポリシーを適用します。");
   ("explain.submit", "説明する");
   ("explain.running", "説明中…");
   ("explain.failed", "このクエリを説明できませんでした");
   ("explain.result", "説明");
   ("explain.winner", "決定したステージ");
   ("explain.answers", "応答");
   ("explain.no_answers", "応答レコードなし: 応答は上流リゾルバーから返されますが、問い合わせは行われません。");
   ("explain.steps", "検討されたステージ");
   ("explain.step", "ステージ");
   ("explain.outcome", "結果");
   ("explain.detail", "詳細");
   ("explain.cname_target", "CNAME の宛先");
   ("explain.ttl", "残り TTL");
   ("explain.matches", "一致");
   ("explain.allowed_by", "許可したルール");
   ("explain.not_contacted", "上流には問い合わせていません。");
   ("explain.scope.global", "グローバルフィルタリング");
   ("explain.scope.client_policy", "クライアントポリシー");
   ("explain.stage.filter", "ブロックリストまたはクライアントポリシー");
   ("explain.stage.rewrite", "DNS リライト");
   ("explain.stage.zone", "ローカルゾーン");
   ("explain.stage.cache", "キャッシュ");
   ("explain.stage.forwarding", "条件付き転送ルール");
   ("explain.stage.upstream", "グローバル上流リゾルバー");
   ("explain.stage.refused", "拒否");
   ("explain.result.passed", "通過");
   ("explain.result.allowed", "許可");
   ("explain.result.blocked", "ブロック");
   ("explain.result.no_match", "一致なし");
   ("explain.result.answered", "応答済み");
   ("explain.result.miss", "ミス");
   ("explain.result.hit", "ヒット");
   ("explain.result.refused", "拒否");
   ("explain.result.would_forward", "転送される");
   ("explain.result.error", "エラー");
   ("explain.source.local", "ローカル応答");
   ("explain.source.cache", "キャッシュ");
   ("explain.source.blocked", "ブロック");
   ("explain.source.upstream", "上流");
   ("explain.source.refused", "拒否");
   ("audit.title", "管理監査ログ");
   ("audit.hint", "管理操作は90日間保持されます。秘密情報とリクエスト本文は含まれません。");
   ("audit.actor", "実行者");
   ("audit.action", "操作");
   ("audit.result", "結果");
   ("audit.all", "すべて");
   ("audit.success", "成功");
   ("audit.failure", "失敗");
   ("audit.filter", "絞り込み");
   ("audit.time", "時刻");
   ("audit.target", "対象");
   ("audit.empty", "監査イベントがありません。");
   ("audit.more", "さらに読み込む");
   ("audit.load_failed", "監査イベントを読み込めません");
   ("auth.checking", "セッションを確認中…");
   ("auth.sign_in_title", "Velora DNSにサインイン");
   ("auth.username", "ユーザー名");
   ("auth.password", "パスワード");
   ("auth.sign_in", "サインイン");
   ("auth.sign_in_failed", "サインインに失敗しました");
   ("settings.server_configuration", "サーバー設定");
   ("settings.language", "言語");
   ("settings.theme", "テーマ");
   ("settings.theme_light", "ライト");
   ("settings.theme_dark", "ダーク");
   ("settings.theme_auto", "自動");
   ("settings.theme_hint", "自動はOSのライト/ダークカラースキームに従います。");
   ("settings.log_level", "ログレベル");
   ("settings.rate_limiting", "レート制限");
   ("settings.rate_limit_hint", "レート制限はデフォルトで無効です。リゾルバーをソースフラッドや高クエリレートから保護するために有効にしてください。");
   ("settings.rate_limit_enabled", "レート制限を有効にする");
   ("settings.rate_limit_global_qps", "グローバルクエリ/秒")].

Definition ja_2 : list (string * string) :=
  [("settings.rate_limit_client_qps", "クライアント別クエリ/秒");
   ("settings.rate_limit_burst", "バースト許容量");
   ("settings.rate_limit_rejected_total", "拒否されたクエリ");
   ("settings.rate_limit_last_rejected", "最後の拒否");
   ("settings.save", "保存");
   ("settings.rate_limit_load_failed", "レート制限設定の読み込みに失敗しました");
   ("settings.rate_limit_save_failed", "レート制限設定の保存に失敗しました");
   ("settings.rate_limit_saved", "レート制限設定を保存しました。");
   ("settings.rate_limit_loading", "レート制限設定を読み込み中…");
   ("settings.edit_hint", "これらの設定はクイックスタートインストーラーオプションに対応しています。一部の変更には再起動が必要です。キャッシュTTLの変更は即座に適用されます。");
   ("settings.dns_section", "DNS設定");
   ("settings.cache_section", "DNSキャッシュ");
   ("settings.cache_ttl_label", "アップストリーム回答キャッシュTTL（秒）");
   ("settings.cache_ttl_hint", "86400秒 = 24時間。範囲: 0〜604800秒。0は各アップストリームの元のTTLを使用します。アップストリームの変更が反映されるまでに時間がかかる場合があります。これを変更すると、既存のキャッシュ回答がクリアされます。TTLゼロおよび署名済みDNSSEC回答は元のTTLを保持します。");
   ("settings.cache_ttl_invalid", "0〜604800秒の整数を入力してください。");
   ("settings.dns_listen_label", "DNSリッスンアドレス（カンマ区切り）");
   ("settings.dns_listen_warning", "警告: 0.0.0.0はDNSをネットワークに公開します。信頼できるクライアントのみがアクセスできるようファイアウォールを設定してください。");
   ("settings.upstreams_label", "アップストリームDNSサーバー（カンマ区切り）");
   ("settings.upstreams_hint", "形式: IP:PORT（例: 1.1.1.1:53）。DoHアップストリームはhttps://host/dns-queryを使用");
   ("settings.allowed_clients_label", "許可されたクライアントネットワーク（カンマ区切りCIDR）");
   ("settings.allowed_clients_hint", "これらのネットワークのみがリゾルバーをクエリできます。例: 192.168.1.0/24, 10.0.0.0/8");
   ("settings.web_section", "Web UI設定");
   ("settings.web_listen_label", "Web UIリッスンアドレス (IP:port)");
   ("settings.web_listen_warning", "警告: 0.0.0.0はWeb UIをネットワークに公開します。ファイアウォールまたは認証を使用してください。");
   ("settings.allowed_hosts_label", "許可されたホスト（カンマ区切り）");
   ("settings.allowed_hosts_hint", "管理APIへのアクセスを許可するホストヘッダー。すべて許可するには*を使用します（LANでは非推奨）。");
   ("settings.logging_section", "ログその他");
   ("settings.enable_query_log", "クエリログを有効にする");
   ("settings.save_configuration", "設定を保存");
   ("settings.saving", "保存中…");
   ("settings.save_success", "設定を保存して適用しました。");
   ("settings.save_failed", "設定の保存に失敗しました");
   ("dashboard.total_queries", "総クエリ数");
   ("dashboard.since_start", "統計の最終リセット以降");
   ("dashboard.reset_statistics", "統計をリセット");
   ("dashboard.reset_confirm", "クエリ、キャッシュ、レート制限のカウンターをすべてリセットしますか？この操作は元に戻せません。");
   ("dashboard.reset_failed", "統計をリセットできませんでした");
   ("dashboard.qps", "クエリ/秒");
   ("dashboard.rolling_avg", "60秒ローリング平均");
   ("dashboard.cache_hit_rate", "キャッシュヒット率");
   ("dashboard.answers_from_memory", "メモリから提供された回答");
   ("dashboard.uptime", "稼働時間");
   ("dashboard.process_lifetime", "現在のプロセス稼働時間");
   ("dashboard.top_domains", "上位ドメイン");
   ("dashboard.top_clients", "上位クライアント");
   ("dashboard.query_activity", "クエリアクティビティ");
   ("dashboard.live_samples", "リゾルバーからのライブサンプル");
   ("dashboard.refresh_5s", "5秒ごとに更新");
   ("dashboard.queries_per_sec", "クエリ/秒");
   ("dashboard.chart_aria", "このブラウザセッション中のクエリレート");
   ("dashboard.session_samples", "セッションサンプル");
   ("dashboard.now", "現在");
   ("dashboard.upstream_resolvers", "アップストリームリゾルバー");
   ("dashboard.ordered_failover", "TCPフォールバック付き順次フェイルオーバー");
   ("dashboard.endpoint", "エンドポイント");
   ("dashboard.health", "状態");
   ("dashboard.upstream_unknown", "不明");
   ("dashboard.upstream_healthy", "正常");
   ("dashboard.upstream_degraded", "低下");
   ("dashboard.upstream_unavailable", "利用不可");
   ("dashboard.priority", "優先度");
   ("dashboard.attempt_timeout", "試行タイムアウト");
   ("dashboard.primary", "プライマリ");
   ("dashboard.fallback", "フォールバック");
   ("dashboard.config_shown", "設定を表示中。到達可能性は各クエリで評価されます。");
   ("dashboard.retained_last_24h", "過去24時間に保持されたクエリ");
   ("dashboard.unavailable_no_logging", "クエリログが無効な場合は利用できません。");
   ("dashboard.loading_stats", "クエリ統計を読み込み中…");
   ("dashboard.stats_load_failed", "クエリ統計の読み込みに失敗しました");
   ("dashboard.no_retained", "この期間に保持されたクエリはありません。");
   ("cache.live_entries", "ライブエントリ");
   ("cache.capacity", "容量");
   ("cache.hits", "キャッシュヒット");
   ("cache.since_startup", "プロセス開始以降");
   ("cache.misses", "キャッシュミス");
   ("cache.includes_uncacheable", "キャッシュ不可リクエストを含む");
   ("cache.memory_cache", "メモリキャッシュ");
   ("cache.description", "正のアップストリーム回答は設定されたキャッシュTTLを使用します。TTLゼロ、署名済みDNSSEC、および負の回答は元のルールを保持します。容量に達するとLeast Recently Usedエントリが削除されます。キャッシュ内容はSQLiteに保存されません。");
   ("cache.clear_description", "キャッシュをクリアすると、現在のすべての回答が削除されます。ヒット/ミスカウンターは保持されます。");
   ("cache.clearing", "クリア中…");
   ("cache.clear", "キャッシュをクリア");
   ("cache.cleared", "キャッシュをクリアしました。ローカルゾーンは引き続き有効です。他のクエリはアップストリームリゾルバーを使用します。");
   ("cache.flush_failed", "キャッシュクリアに失敗しました");
   ("cache.entries_title", "キャッシュDNSエントリ");
   ("cache.entries_description", "現在の回答（最近使用順）。");
   ("cache.entries_loading", "キャッシュエントリを読み込み中…");
   ("cache.entries_load_failed", "キャッシュエントリの読み込みに失敗しました");
   ("cache.entries_empty", "キャッシュは空です。");
   ("cache.entries_scroll_hint", "横にスクロールして全列表示。");
   ("cache.entry_name", "名前");
   ("cache.entry_type", "タイプ");
   ("cache.entry_answer", "回答");
   ("cache.entry_status", "ステータス");
   ("cache.entry_ttl", "残りTTL");
   ("cache.seconds", "秒");
   ("cache.previous", "前へ");
   ("cache.next", "次へ");
   ("querylog.unavailable_title", "クエリ履歴が利用できません");
   ("querylog.unavailable_text", "DNSアクティビティを収集・確認するにはクエリログを有効にしてください。");
   ("querylog.up_to_100", "1ページあたり最大100件の保持されたレスポンス");
   ("querylog.refresh", "クエリを更新");
   ("querylog.filters_aria", "クエリフィルター");
   ("querylog.domain", "ドメイン");
   ("querylog.contains_example", "example.comを含む");
   ("querylog.client_ip", "クライアントIP");
   ("querylog.exact_ip", "正確なIPアドレス");
   ("querylog.query_type", "クエリタイプ");
   ("querylog.all_types", "すべてのタイプ");
   ("querylog.source", "ソース");
   ("querylog.all_sources", "すべてのソース");
   ("querylog.apply_filters", "フィルターを適用");
   ("querylog.show_blocked", "ブロックされたクエリを表示");
   ("querylog.error_stale", "以前の結果が古くなっている可能性があります。");
   ("querylog.loading", "クエリログを読み込み中…");
   ("querylog.no_matches", "一致するクエリがありません");
   ("querylog.no_matches_text", "異なるフィルターを試すか、ログを有効にしてDNSトラフィックを生成してください。");
   ("querylog.caption", "DNSクエリログ");
   ("querylog.col_timestamp", "タイムスタンプ");
   ("querylog.col_client", "クライアント");
   ("querylog.col_domain", "ドメイン");
   ("querylog.col_type", "タイプ");
   ("querylog.col_source", "ソース");
   ("querylog.col_response", "レスポンス");
   ("querylog.col_latency", "レイテンシ");
   ("querylog.older", "古いクエリ");
   ("querylog.load_failed", "クエリログの読み込みに失敗しました");
   ("blocklists.count", "外部ソース");
   ("blocklists.count_one", "外部ソース");
   ("blocklists.sources_label", "DNSポリシーソース");
   ("blocklists.reload", "再読み込み");
   ("blocklists.add_source", "ソースを追加");
   ("blocklists.add_aria", "ブロックリストソースを追加");
   ("blocklists.add_title", "外部ブロックリストを追加");
   ("blocklists.add_text", "パブリックHTTP(S)ソースのみ受け付けます。更新に失敗した場合、以前のDNSルールが引き続き有効です。");
   ("blocklists.name", "名前");
   ("blocklists.source_url", "ソースURL");
   ("blocklists.community_hosts", "コミュニティホスト");
   ("blocklists.adding", "追加中…");
   ("blocklists.cancel", "キャンセル");
   ("blocklists.loading", "ブロックリストソースを読み込み中…");
   ("blocklists.empty_title", "外部ブロックリストがありません");
   ("blocklists.empty_text", "信頼できるパブリックホストまたはドメインリストを追加してDNSブロックを適用します。");
   ("blocklists.caption", "外部ブロックリストソース");
   ("blocklists.col_source", "ソース");
   ("blocklists.col_status", "ステータス");
   ("blocklists.col_last_update", "最終更新");
   ("blocklists.update_failed", "更新に失敗");
   ("blocklists.active", "有効")].

Definition ja_3 : list (string * string) :=
  [("blocklists.disabled", "無効");
   ("blocklists.never", "なし");
   ("blocklists.updating", "更新中…");
   ("blocklists.update", "更新");
   ("blocklists.load_failed", "ブロックリストの読み込みに失敗しました");
   ("blocklists.add_failed", "ソースの追加に失敗しました");
   ("blocklists.update_failed_msg", "ソースの更新に失敗しました");
   ("blocklists.col_domains", "ドメイン");
   ("blocklists.local", "ローカル");
   ("blocklists.enable", "有効にする");
   ("blocklists.disable", "無効にする");
   ("blocklists.toggle_failed", "ソースの切り替えに失敗しました");
   ("blocklists.edit_content", "コンテンツを編集");
   ("blocklists.edit_content_aria", "ブロックリストコンテンツを編集");
   ("blocklists.edit_content_title", "ブロックリストドメインを編集");
   ("blocklists.edit_content_text", "1行に1ドメインを入力してください。0.0.0.0で始まる行またはコメント行はホストエントリとして扱われます。");
   ("blocklists.domains_label", "ドメイン");
   ("blocklists.saving", "保存中…");
   ("blocklists.save", "保存");
   ("blocklists.content_save_failed", "コンテンツの保存に失敗しました");
   ("blocklists.delete", "削除");
   ("blocklists.confirm_delete", "確認");
   ("blocklists.delete_failed", "ソースの削除に失敗しました");
   ("zones.count", "ローカルゾーン");
   ("zones.count_one", "ローカルゾーン");
   ("zones.local_authority", "ローカル権威");
   ("zones.reload", "ゾーンを再読み込み");
   ("zones.add_zone", "ゾーンを追加");
   ("zones.error_stale", "最後に読み込まれたゾーンを表示中。変更前に再読み込みしてください。");
   ("zones.error_retry", "再読み込みして再試行してください。");
   ("zones.reload_before_retry", "再試行前にゾーンを再読み込みしてください。");
   ("zones.loading", "ローカルゾーンを読み込み中…");
   ("zones.empty_title", "ネットワークに馴染みのある名前をつけましょう");
   ("zones.empty_text", "home.arpaなどのゾーンを作成し、ルーター、サービス、デバイスのレコードを追加します。");
   ("zones.create_first", "最初のゾーンを作成");
   ("zones.filter_aria", "ゾーンをフィルター");
   ("zones.filter_placeholder", "ゾーンを検索…");
   ("zones.nav_aria", "ローカルゾーン");
   ("zones.records_custom", "カスタムレコード");
   ("zones.no_matching", "一致するゾーンがありません。");
   ("zones.authoritative_eyebrow", "権威ゾーン");
   ("zones.revision", "リビジョン");
   ("zones.add_record", "レコードを追加");
   ("zones.delete_zone_aria", "ゾーンを削除");
   ("zones.primary_ns", "プライマリNS");
   ("zones.contact", "連絡先");
   ("zones.delete_record_confirm", "レコードを削除");
   ("zones.delete_zone_confirm", "およびすべての");
   ("zones.delete_zone_confirm2", "レコード？この操作は取り消せません。");
   ("zones.deleting", "削除中…");
   ("zones.delete_record_perm", "レコードを完全に削除");
   ("zones.delete_zone_perm", "ゾーンを完全に削除");
   ("zones.cancel_deletion", "削除をキャンセル");
   ("zones.record_saved", "レコードを保存しました。DNS変更が有効です。");
   ("zones.record_deleted", "レコードを削除しました。DNS変更が有効です。");
   ("zones.zone_deleted", "ゾーンとそのレコードが削除されました。");
   ("zones.zone_created", "ゾーンを作成しました。レコードを追加して使い始めましょう。");
   ("zones.delete_failed", "削除に失敗しました");
   ("zones.footnote", "ローカル回答は転送より優先されます。デバイスはTTLが期限切れになるまで以前の回答を保持する場合があります。");
   ("zones.record_form_edit_aria", "DNSレコードを編集");
   ("zones.record_form_add_aria", "DNSレコードを追加");
   ("zones.edit_record", "レコードを編集");
   ("zones.add_record_form", "レコードを追加");
   ("zones.changes_apply", "変更の適用先");
   ("zones.record_name", "レコード名");
   ("zones.router_or_at", "router または @");
   ("zones.relative_name_hint", "相対名、ゾーンの場合は@、またはドットで終わる絶対名。");
   ("zones.record_type", "レコードタイプ");
   ("zones.ttl_seconds", "TTL（秒）");
   ("zones.priority", "優先度");
   ("zones.ipv4_address", "IPv4アドレス");
   ("zones.ipv6_address", "IPv6アドレス");
   ("zones.text_value", "テキスト値");
   ("zones.target_hostname", "ターゲットホスト名");
   ("zones.invalid_ttl", "有効なTTLと優先度の値を入力してください。");
   ("zones.record_conflict", "このゾーンは別の場所で変更されました。ドラフトは変更されていません。フォームを閉じてゾーンを再読み込みしてから再試行してください。");
   ("zones.save_failed", "レコードの保存に失敗しました");
   ("zones.saving", "保存中…");
   ("zones.save_record", "レコードを保存");
   ("zones.cancel", "キャンセル");
   ("zones.no_records_title", "カスタムレコードはまだありません");
   ("zones.no_records_text", "最初のレコードを追加してください。SOAとフォールバックの頂点NSは自動で管理されます。");
   ("zones.records_aria", "のDNSレコード");
   ("zones.col_name", "名前");
   ("zones.col_type", "タイプ");
   ("zones.col_value", "値");
   ("zones.col_ttl", "TTL");
   ("zones.col_actions", "操作");
   ("zones.edit_aria", "編集");
   ("zones.delete_aria", "削除");
   ("zones.record_word", "レコード");
   ("zones.create_title", "ローカルゾーンを作成");
   ("zones.create_text", "Veloraがこのゾーンに応答し、不明な名前をネットワーク内に保持します。");
   ("zones.zone_name", "ゾーン名");
   ("zones.authority_settings", "権威設定");
   ("zones.primary_nameserver", "プライマリネームサーバー");
   ("zones.contact_mailbox", "連絡先（DNSメールボックス）");
   ("zones.creating", "作成中…");
   ("zones.create_zone", "ゾーンを作成");
   ("zones.create_zone_aria", "DNSゾーンを作成");
   ("zones.create_failed", "ゾーンの作成に失敗しました");
   ("zones.load_failed", "ゾーンの読み込みに失敗しました");
   ("updates.loading", "アップデート状況を読み込み中...");
   ("updates.viewer_readonly", "ビューアーとしてサインインしています。アップデートリクエストは読み取り専用です。");
   ("updates.in_progress", "アップデート進行中...");
   ("updates.history", "アップデート履歴");
   ("updates.no_history", "まだアップデートの記録がありません。");
   ("updates.col_from", "From");
   ("updates.col_to", "To");
   ("updates.col_state", "ステート");
   ("updates.col_started", "開始");
   ("updates.state_idle", "アイドル");
   ("updates.state_downloading", "ダウンロード中");
   ("updates.state_verifying", "検証中");
   ("updates.state_installing", "インストール中");
   ("updates.state_readiness", "準備完了を待機中");
   ("updates.state_completed", "完了");
   ("updates.state_rolled_back", "ロールバック済み");
   ("updates.state_failed", "失敗");
   ("updates.load_failed", "アップデート状況の読み込みに失敗しました");
   ("updates.request_failed", "アップデートリクエストに失敗しました");
   ("updates.check", "Check for updates");
   ("updates.available", "Update available");
   ("updates.up_to_date", "The system is up to date.");
   ("updates.progress", "Update progress");
   ("updates.rollback_used", "The previous version was restored.");
   ("updates.rollback_recovered", "The previous version was restored and is healthy.");
   ("backup.sqlite_only", "暗号化エクスポートは現在 SQLite 環境のみ対応しています。");
   ("backup.create_title", "暗号化バックアップ");
   ("backup.create_hint", "設定と永続データのバージョン付きバックアップをダウンロードします。パスワードを安全に保管してください。");
   ("backup.passphrase", "パスワード");
   ("backup.creating", "作成中…");
   ("backup.create", "作成してダウンロード");
   ("backup.create_failed", "バックアップを作成できませんでした");
   ("backup.restore_hint", "サービスを停止してから暗号化バックアップを復元してください。コマンドは現在の環境の安全コピーを残します。");
   ("backup.loading", "バックアップ状況を読み込み中...");
   ("backup.status_title", "バックアップステータス");
   ("backup.database", "データベース:");
   ("backup.last_backup", "最終バックアップ:");
   ("backup.no_backup", "まだバックアップの記録がありません");
   ("backup.verification_state", "検証ステート:");
   ("backup.state_unknown", "不明");
   ("backup.state_unverified", "未検証");
   ("backup.state_verified", "検証済み");
   ("backup.verify_title", "バックアップを検証");
   ("backup.verify_text", "バックアップのコピーをサーバーデータベースの横に配置して整合性を検証します。");
   ("backup.file_name", "バックアップファイル名");
   ("backup.file_hint", "バックアップをVeloraサーバーのデータベースの横に配置してください。ファイル名のみが使用されます。ブラウザファイルや他のディレクトリはここでは確認できません。");
   ("backup.viewer_readonly", "ビューアーとしてサインインしています。バックアップ検証は読み取り専用です。");
   ("backup.verifying", "検証中...");
   ("backup.verify", "検証");
   ("backup.valid", "バックアップは有効です")].

Definition ja_4 : list (string * string) :=
  [("backup.invalid", "バックアップは無効です");
   ("backup.schema_version", "スキーマバージョン:");
   ("backup.records", "レコード数:");
   ("backup.instructions", "コマンドラインから復元");
   ("backup.native", "ネイティブインストール");
   ("backup.docker", "Docker Compose");
   ("backup.online", "オンラインバックアップ (SQLite)");
   ("backup.load_failed", "バックアップ状況の読み込みに失敗しました");
   ("backup.verify_failed", "検証に失敗しました");
   ("backup.step_stop_service", "サービスを停止");
   ("backup.step_create_backup", "整合性のあるバックアップを作成");
   ("backup.step_restart_service", "サービスを再起動");
   ("backup.step_stop_container", "コンテナを停止");
   ("backup.step_backup_volume", "ボリュームをバックアップ");
   ("backup.step_restart_container", "コンテナを再起動");
   ("backup.step_online_backup", "SQLiteバックアップAPIを使用して整合性のあるオンラインバックアップを作成");
   ("onboarding.welcome", "Velora DNSへようこそ");
   ("onboarding.complete_steps", "インストールを保護するために以下のステップを完了してください");
   ("onboarding.dismiss", "閉じる");
   ("onboarding.change_credentials", "ブートストラップ認証情報を変更");
   ("onboarding.change_credentials_text", "デフォルトの管理者パスワードは初回ログイン後に変更してください。");
   ("onboarding.review_dns", "DNS設定を確認");
   ("onboarding.review_dns_text", "ネットワークに対してアップストリームサーバーと許可されたクライアントが正しく設定されていることを確認してください。");
   ("onboarding.restrict_clients", "クライアントアクセスを制限");
   ("onboarding.restrict_clients_text", "allowed_clients CIDRを設定して、リゾルバーを使用できるネットワークを制限します。");
   ("onboarding.verify_db", "データベースストレージを検証");
   ("onboarding.verify_db_text", "データベースパスが十分な容量を持つ信頼できるストレージにあることを確認してください。");
   ("onboarding.update_policy", "アップデートポリシーを設定");
   ("onboarding.update_policy_text", "アップデートセンターを確認して、インストールを最新の状態に保つ方法を理解してください。");
   ("app.nav.dhcp", "DHCP");
   ("app.title.dhcp", "DHCPサーバー");
   ("dhcp.loading", "DHCPデータを読み込み中…");
   ("dhcp.load_failed", "Unable to load DHCP data");
   ("dhcp.create_pool_failed", "Unable to create pool");
   ("dhcp.delete_pool_failed", "Unable to delete pool");
   ("dhcp.create_reservation_failed", "Unable to create reservation");
   ("dhcp.delete_reservation_failed", "Unable to delete reservation");
   ("dhcp.delete_lease_failed", "Unable to delete lease");
   ("dhcp.pools", "DHCPプール");
   ("dhcp.add_pool", "プールを追加");
   ("dhcp.pool_name", "プール名");
   ("dhcp.interface", "インターフェース");
   ("dhcp.subnet_cidr", "サブネット (CIDR)");
   ("dhcp.subnet", "サブネット");
   ("dhcp.gateway", "ゲートウェイ");
   ("dhcp.dns_servers", "DNSサーバー");
   ("dhcp.lease_seconds", "リース時間（秒）");
   ("dhcp.leases_label", "リース");
   ("dhcp.create", "作成");
   ("dhcp.no_pools", "DHCPプールが設定されていません。リースを提供するにはプールを作成してください。");
   ("dhcp.reservations", "スタティック予約");
   ("dhcp.mac_address", "MACアドレス");
   ("dhcp.ip_address", "IPアドレス");
   ("dhcp.hostname", "ホスト名");
   ("dhcp.add", "追加");
   ("dhcp.active_leases", "アクティブリース");
   ("dhcp.expires", "有効期限");
   ("dhcp.no_leases", "アクティブなリースはありません。");
   ("dhcp.expired", "期限切れ");
   ("dhcp.confirm_delete_pool", "このプールとすべての予約を削除しますか？");
   ("dhcp.name", "名前");
   ("app.nav.cluster", "クラスター");
   ("app.title.cluster", "クラスター概要");
   ("cluster.loading", "クラスターデータを読み込み中…");
   ("cluster.load_failed", "Unable to load cluster data");
   ("cluster.name", "名前");
   ("cluster.status", "ステータス");
   ("cluster.version", "バージョン");
   ("cluster.last_seen", "最終確認");
   ("cluster.config_history", "設定履歴");
   ("cluster.no_versions", "設定バージョンの記録がありません。");
   ("cluster.hash", "ハッシュ");
   ("cluster.applied_by", "適用者");
   ("cluster.applied_at", "適用日時");
   ("app.nav.group_dns", "DNS");
   ("app.nav.group_network", "ネットワーク");
   ("app.nav.group_system", "システム");
   ("app.menu_open", "ナビゲーションを開く");
   ("app.menu_close", "ナビゲーションを閉じる");
   ("app.theme_to_dark", "ダークテーマに切り替え");
   ("app.theme_to_light", "ライトテーマに切り替え");
   ("app.signed_in_as", "サインイン中:");
   ("app.subtitle.zones", "ネットワーク上のデバイスやサービスの権威名。");
   ("app.subtitle.queries", "このリゾルバーが応答した最近のクエリ。");
   ("app.subtitle.blocklists", "ブロックとして応答するドメインリスト。");
   ("app.subtitle.cache", "繰り返しの問い合わせを高速化するメモリ上の応答。");
   ("app.subtitle.settings", "リゾルバー、Web インターフェース、個人設定。");
   ("app.subtitle.updates", "インストール済みバージョン、利用可能なリリース、更新履歴。");
   ("app.subtitle.backup", "暗号化バックアップの作成と既存バックアップの検証。");
   ("app.subtitle.dhcp", "アドレスプール、予約、アクティブなリース。");
   ("app.subtitle.cluster", "複数の Velora DNS サーバーでローカルゾーンを同一に保ちます。");
   ("app.subtitle.diagnostics", "コンポーネントの状態と共有可能なサポートレポート。");
   ("app.subtitle.events", "対応が必要な項目。");
   ("app.subtitle.audit", "誰が、何を、いつ変更したか。");
   ("settings.preferences", "個人設定");
   ("dashboard.general_statistics", "全般統計");
   ("dashboard.blocked", "フィルターでブロック");
   ("dashboard.of_all_queries", "全クエリ中");
   ("dashboard.query_logging", "クエリログ");
   ("dashboard.enabled", "有効");
   ("dashboard.disabled", "無効");
   ("dashboard.requests", "リクエスト");
   ("dashboard.domain", "ドメイン");
   ("dashboard.client", "クライアント");
   ("dashboard.upstream_servers", "上流サーバー");
   ("dashboard.collecting_samples", "サンプルを収集中…");
   ("cache.search_label", "名前で検索");
   ("cache.search_placeholder", "example.org");
   ("cache.all_types", "すべてのタイプ");
   ("cache.remove_entry", "キャッシュから削除");
   ("cache.invalidate_title", "ドメインを無効化");
   ("cache.invalidate_text", "キャッシュ全体を消去せずに、1つの名前のキャッシュ済み応答を削除します。");
   ("cache.domain", "ドメイン");
   ("cache.include_subdomains", "サブドメインを含める");
   ("cache.invalidate", "無効化");
   ("cache.removed_entries", "削除されたキャッシュエントリ");
   ("cache.invalidate_failed", "無効化に失敗しました");
   ("cache.flush_confirm", "すべてのキャッシュ済み応答を消去しますか？ヒット数とミス数は保持されます。");
   ("cache.no_matches", "このフィルターに一致するエントリはありません。");
   ("blocklists.schedule", "更新スケジュール");
   ("blocklists.schedule_for", "更新スケジュール:");
   ("blocklists.manual", "手動");
   ("blocklists.every_1h", "1時間ごと");
   ("blocklists.every_6h", "6時間ごと");
   ("blocklists.every_12h", "12時間ごと");
   ("blocklists.every_24h", "毎日");
   ("blocklists.every_7d", "毎週");
   ("blocklists.col_next_update", "次回更新");
   ("blocklists.due_now", "まもなく");
   ("blocklists.never_updated", "未更新");
   ("blocklists.retry_count", "失敗した試行");
   ("blocklists.schedule_failed", "スケジュールを変更できません");
   ("app.nav.forwarding", "条件付き転送");
   ("app.title.forwarding", "条件付き転送");
   ("app.subtitle.forwarding", "選択したドメインのクエリを専用リゾルバーに送信します。");
   ("forwarding.count", "件の転送ルール");
   ("forwarding.add", "ルールを追加");
   ("forwarding.add_title", "新しい転送ルール");
   ("forwarding.edit_title", "転送ルールを編集");
   ("forwarding.form_hint", "ルールはドメイン配下のすべての名前にも適用されます。最も具体的な有効ルールが優先されます。");
   ("forwarding.domain", "ドメイン");
   ("forwarding.upstreams", "リゾルバー");
   ("forwarding.upstreams_hint", "IP または IP:ポート形式で1〜4件、カンマ区切り。ポート省略時は53。");
   ("forwarding.description", "説明");
   ("forwarding.enabled", "有効");
   ("forwarding.save", "ルールを保存");
   ("forwarding.cancel", "キャンセル")].

Definition ja_5 : list (string * string) :=
  [("forwarding.empty_title", "転送ルールはありません");
   ("forwarding.empty_text", "すべてのクエリはグローバル上流リゾルバーを使用します。corp.example などのドメインを内部 DNS サーバーで解決するにはルールを追加します。");
   ("forwarding.col_status", "状態");
   ("forwarding.test", "テスト");
   ("forwarding.test_title", "ルールをテスト");
   ("forwarding.test_hint", "キャッシュを使わず、このルールのリゾルバーだけにクエリを1回送信します。");
   ("forwarding.test_name", "名前");
   ("forwarding.test_type", "タイプ");
   ("forwarding.run_test", "テストを実行");
   ("forwarding.test_via", "経由");
   ("forwarding.no_answers", "応答レコードなし");
   ("forwarding.edit", "編集");
   ("forwarding.delete", "削除");
   ("forwarding.delete_confirm", "次の転送ルールを削除しますか:");
   ("forwarding.toggle", "ルールの有効/無効:");
   ("forwarding.load_failed", "転送ルールを読み込めません");
   ("forwarding.save_failed", "ルールを保存できません");
   ("forwarding.saved", "転送ルールを保存しました。ドメインのキャッシュ済み応答は消去されました。");
   ("forwarding.disabled", "無効");
   ("app.nav.rewrites", "DNS 書き換え");
   ("app.title.rewrites", "DNS 書き換え");
   ("app.subtitle.rewrites", "選択した名前に固定アドレスまたはエイリアスで応答します。");
   ("rewrites.count", "件の書き換え");
   ("rewrites.add", "書き換えを追加");
   ("rewrites.add_title", "新しい書き換え");
   ("rewrites.edit_title", "書き換えを編集");
   ("rewrites.form_hint", "*.parent でドメイン配下のすべての名前に一致します。完全一致がワイルドカードより優先されます。");
   ("rewrites.name", "名前");
   ("rewrites.type", "タイプ");
   ("rewrites.value", "応答");
   ("rewrites.value_hint_A", "IPv4 アドレス");
   ("rewrites.value_hint_AAAA", "IPv6 アドレス");
   ("rewrites.value_hint_CNAME", "通常どおり解決されるターゲットホスト名");
   ("rewrites.description", "説明");
   ("rewrites.enabled", "有効");
   ("rewrites.save", "書き換えを保存");
   ("rewrites.empty_title", "DNS 書き換えはありません");
   ("rewrites.empty_text", "ゾーンを作成せずに nas.home などの名前をアドレスに割り当てます。");
   ("rewrites.col_notes", "メモ");
   ("rewrites.blocked_hint", "先にブロックリストでブロックされます");
   ("rewrites.overrides_hint", "ローカルゾーンを上書き");
   ("rewrites.edit", "編集");
   ("rewrites.delete", "削除");
   ("rewrites.delete_confirm", "この書き換えを削除しますか？");
   ("rewrites.toggle", "書き換えの有効/無効:");
   ("rewrites.search", "書き換えを絞り込み");
   ("rewrites.load_failed", "書き換えを読み込めません");
   ("rewrites.save_failed", "書き換えを保存できません");
   ("rewrites.saved", "書き換えを保存して適用しました。");
   ("app.nav.clients", "クライアント");
   ("app.title.clients", "クライアントとデバイス");
   ("app.subtitle.clients", "アドレスとネットワークに Velora 全体で使う名前を付けます。");
   ("clients.count", "件のクライアント");
   ("clients.add", "クライアントを追加");
   ("clients.add_title", "新しいクライアント");
   ("clients.edit_title", "クライアントを編集");
   ("clients.form_hint", "ネットワークが重なる場合は最も具体的なものが優先されます。DHCP デバイスは名前を付ける前に固定アドレスを割り当ててください。");
   ("clients.name", "名前");
   ("clients.addresses", "アドレス");
   ("clients.addresses_hint", "IP アドレスまたは CIDR ネットワークをカンマ区切りで。");
   ("clients.group", "グループ");
   ("clients.description", "説明");
   ("clients.enabled", "有効");
   ("clients.save", "クライアントを保存");
   ("clients.activity", "過去24時間");
   ("clients.queries", "クエリ");
   ("clients.last_seen", "最終確認");
   ("clients.no_activity", "クエリなし");
   ("clients.view_queries", "クエリを表示");
   ("clients.empty_title", "名前付きクライアントはありません");
   ("clients.empty_text", "テレビや Home Assistant などのデバイスに名前を付けると、クエリログで見分けやすくなります。");
   ("clients.unnamed_title", "最近見つかった名前のないアドレス");
   ("clients.unnamed_text", "過去24時間でどのクライアントにも一致しない最も活発なアドレス。");
   ("clients.name_it", "このデバイスに名前を付ける");
   ("clients.edit", "編集");
   ("clients.delete", "削除");
   ("clients.delete_confirm", "クライアントを削除しますか:");
   ("clients.toggle", "クライアントの有効/無効");
   ("clients.load_failed", "クライアントを読み込めません");
   ("clients.save_failed", "クライアントを保存できません");
   ("clients.saved", "クライアントを保存しました。");
   ("clients.logging_off", "クライアントのアクティビティを見るにはクエリログを有効にしてください。");
   ("app.nav.policies", "クライアントポリシー");
   ("app.title.policies", "クライアント別フィルタリングポリシー");
   ("app.subtitle.policies", "クライアントごとのブロック方法を選択します。");
   ("policies.load_failed", "ポリシーを読み込めませんでした。");
   ("policies.save_failed", "ポリシーを保存できませんでした。");
   ("policies.saved", "ポリシーを保存しました。");
   ("policies.lookup", "アドレスを確認");
   ("policies.add", "ポリシーを追加");
   ("policies.add_title", "新しいポリシー");
   ("policies.edit_title", "ポリシーを編集");
   ("policies.form_hint", "アドレスに適用されるポリシーは、最も具体的なクライアントネットワークで決まります。");
   ("policies.client", "クライアント");
   ("policies.mode", "フィルタリング");
   ("policies.mode_default", "グローバル");
   ("policies.mode_disabled", "フィルタリングなし");
   ("policies.mode_custom", "カスタム");
   ("policies.mode_default_hint", "他のクライアントと同じブロックリストと許可リストを使います。");
   ("policies.mode_disabled_hint", "このクライアントでは何もブロックしません。");
   ("policies.mode_custom_hint", "選択したブロックリストと独自のドメインのみ。");
   ("policies.blocklists", "ブロックリスト");
   ("policies.no_sources", "ブロックリストはまだありません。");
   ("policies.globally_off", "全体では無効");
   ("policies.block", "追加でブロック");
   ("policies.allow", "常に許可");
   ("policies.domains_hint", "1 行に 1 ドメイン。サブドメインも含みます。");
   ("policies.allow_hint", "このクライアントではすべてのブロックリストより優先されます。");
   ("policies.enabled", "ポリシーを有効にする");
   ("policies.save", "ポリシーを保存");
   ("policies.empty_title", "クライアントポリシーはありません");
   ("policies.empty_text", "すべてのクライアントがグローバルのブロックリストを使用しています。ポリシーを追加すると、デバイスごとにより厳しく、より緩く、またはフィルタリングなしにできます。");
   ("policies.need_clients", "ポリシーは名前付きクライアントに適用されます。まずデバイスに名前を付けてください:");
   ("policies.details", "詳細");
   ("policies.summary_disabled", "すべてのクエリをフィルタリングせずに応答します");
   ("policies.summary_default", "グローバルのブロックリストを使用");
   ("policies.no_lists", "ブロックリストなし");
   ("policies.blocked_short", "件ブロック");
   ("policies.allowed_short", "件許可");
   ("policies.paused", "一時停止");
   ("policies.toggle", "ポリシー有効");
   ("policies.edit", "ポリシーを編集");
   ("policies.delete", "ポリシーを削除");
   ("policies.delete_confirm", "次のポリシーを削除しますか:");
   ("policies.no_policy", "(ポリシーなし、グローバルフィルタリング)");
   ("policies.unknown_address", "はどのクライアントにも一致せず、グローバルフィルタリングを使用します。");
   ("app.nav.webhooks", "Webhook");
   ("app.title.webhooks", "Webhook 通知");
   ("app.subtitle.webhooks", "重要なイベントを他のシステムへ送信します。");
   ("webhooks.load_failed", "Webhook を読み込めませんでした。");
   ("webhooks.save_failed", "Webhook を保存できませんでした。");
   ("webhooks.saved", "Webhook を保存しました。");
   ("webhooks.count", "件の Webhook");
   ("webhooks.add", "Webhook を追加");
   ("webhooks.add_title", "新しい Webhook");
   ("webhooks.edit_title", "Webhook を編集");
   ("webhooks.form_hint", "一致するイベントごとに JSON の POST リクエストを送信します。配信はバックグラウンドで行われ、DNS 応答を遅らせません。");
   ("webhooks.name", "名前");
   ("webhooks.url", "URL");
   ("webhooks.min_severity", "最小重大度");
   ("webhooks.severity_info", "情報");
   ("webhooks.severity_warning", "警告");
   ("webhooks.severity_critical", "重大");
   ("webhooks.token", "Bearer トークン");
   ("webhooks.token_hint", "任意。Authorization ヘッダーで送信され、再表示されません。");
   ("webhooks.token_stored", "トークン保存済み");
   ("webhooks.token_change", "変更");
   ("webhooks.token_remove_hint", "空にするとトークンを削除します")].

Definition ja_6 : list (string * string) :=
  [("webhooks.events", "イベント");
   ("webhooks.events_hint", "何も選択しないとすべての種類を受信します。");
   ("webhooks.all_events", "すべてのイベント");
   ("webhooks.allow_private", "プライベートネットワーク宛てを許可 (LAN 上の Home Assistant など)");
   ("webhooks.enabled", "Webhook を有効にする");
   ("webhooks.save", "Webhook を保存");
   ("webhooks.empty_title", "Webhook はありません");
   ("webhooks.empty_text", "Webhook を追加すると、アップストリームの障害、ブロックリスト更新やバックアップの失敗を通知できます。");
   ("webhooks.last_delivery", "最終配信");
   ("webhooks.never", "未送信");
   ("webhooks.failing", "失敗中");
   ("webhooks.toggle", "Webhook 有効");
   ("webhooks.test", "テスト送信");
   ("webhooks.test_ok", "テストを配信しました:");
   ("webhooks.test_failed", "テスト失敗:");
   ("webhooks.edit", "Webhook を編集");
   ("webhooks.delete", "Webhook を削除");
   ("webhooks.delete_confirm", "次の Webhook を削除しますか:");
   ("app.nav.analytics", "分析");
   ("app.title.analytics", "分析");
   ("app.subtitle.analytics", "保持されたクエリ履歴から見る DNS アクティビティとリゾルバー性能。");
   ("analytics.load_failed", "分析を読み込めませんでした。");
   ("analytics.logging_off_title", "クエリログは無効です");
   ("analytics.logging_off_text", "分析は保持されたクエリ履歴から作成されます。クエリログを有効にしてください:");
   ("analytics.range", "期間");
   ("analytics.range_1h", "1 時間");
   ("analytics.range_24h", "24 時間");
   ("analytics.range_7d", "7 日");
   ("analytics.range_30d", "30 日");
   ("analytics.history_limited", "クエリ履歴はこの時点までしかありません:");
   ("analytics.queries", "クエリ");
   ("analytics.blocked", "ブロック");
   ("analytics.allowed", "許可");
   ("analytics.cached", "キャッシュ応答");
   ("analytics.answers", "件の応答");
   ("analytics.avg_upstream", "平均アップストリーム時間");
   ("analytics.empty_title", "この期間のクエリはありません");
   ("analytics.empty_text", "より長い期間を選ぶか、後でもう一度確認してください。");
   ("analytics.over_time", "クエリの推移");
   ("analytics.over_time_hint", "マウスまたは矢印キーで区間を確認できます。");
   ("analytics.chart_aria", "時間区間ごとのクエリ (許可とブロック)");
   ("analytics.show_table", "表で表示");
   ("analytics.time", "時刻");
   ("analytics.avg_time", "平均時間");
   ("analytics.latency", "アップストリーム応答時間");
   ("analytics.latency_hint", "転送され応答されたクエリの平均。途切れはアップストリーム通信なし。");
   ("analytics.latency_aria", "時間区間ごとの平均アップストリーム応答時間");
   ("analytics.query_types", "クエリタイプ");
   ("analytics.sources", "応答元");
   ("analytics.source_upstream", "アップストリーム");
   ("analytics.source_cache", "キャッシュ");
   ("analytics.source_blocked", "ブロック");
   ("analytics.source_local", "ローカルゾーンと書き換え");
   ("analytics.source_refused", "拒否");
   ("analytics.response_codes", "応答コード");
   ("analytics.top_blocked", "ブロック上位ドメイン");
   ("analytics.nothing_blocked", "この期間のブロックはありません");
   ("analytics.upstreams", "アップストリーム利用状況");
   ("analytics.upstreams_hint", "リゾルバーごとの転送クエリ、SERVFAIL 応答、平均応答時間。");
   ("analytics.no_upstream", "この期間のアップストリーム通信はありません");
   ("analytics.failures", "失敗");
   ("updates.check_prompt", "新しいバージョンがあるか確認します。");
   ("updates.checking", "更新を確認しています…");
   ("updates.starting", "更新を開始しています…");
   ("updates.updating_to", "更新先:");
   ("updates.completed_to", "更新完了:");
   ("updates.failed_title", "更新が完了しませんでした");
   ("updates.failed_text", "更新に失敗しました。以前のバージョンで動作を続けます。");
   ("updates.not_started", "更新が開始されませんでした。velora-updater.service が動作しているか確認してください。");
   ("updates.check_again", "再確認");
   ("updates.update_now", "更新");
   ("updates.reload", "ページを再読み込み");
   ("updates.reconnecting", "Velora を再起動しています。復帰を待っています…");
   ("updates.keep_open", "このページは開いたままで構いません。自動で更新されます。切り替えまで DNS は現在のバージョンで応答します。");
   ("updates.completed_text", "更新が完了し、ヘルスチェックに合格しました。新しい画面を読み込むにはページを再読み込みしてください。");
   ("updates.release_date", "リリース日");
   ("settings.entry", "項目");
   ("settings.fix_fields", "何も変更されていません。強調表示された項目を修正して再試行してください。");
   ("settings.restart_required", "何も変更されていません。強調表示された項目は再起動後に反映されます。設定ファイルを編集して Velora DNS を再起動してください。");
   ("settings.restart_field", "再起動が必要");
   ("settings.check", "確認");
   ("settings.check_ok", "この設定は有効で、再起動なしで適用できます。");
   ("restore.title", "バックアップを復元");
   ("restore.hint", "暗号化されたバックアップをアップロードして確認します。確定するまで何も変わりません。確定後 Velora は再起動し、安全用コピーを保持し、起動できなければ自動で元に戻します。");
   ("restore.file", "バックアップファイル (.vdns)");
   ("restore.inspect", "バックアップを確認");
   ("restore.inspecting", "確認中…");
   ("restore.inspect_failed", "バックアップを確認できませんでした。");
   ("restore.review_title", "バックアップは有効です");
   ("restore.created", "作成日時");
   ("restore.version", "Velora バージョン");
   ("restore.schema", "データベーススキーマ");
   ("restore.contents", "内容");
   ("restore.zones", "ゾーン");
   ("restore.records", "レコード");
   ("restore.blocklists", "ブロックリスト");
   ("restore.rewrites", "書き換え");
   ("restore.forward_rules", "転送ルール");
   ("restore.clients", "クライアント");
   ("restore.users", "ユーザー");
   ("restore.listeners", "待ち受け");
   ("restore.web", "Web");
   ("restore.confirm", "現在の設定とデータをこのバックアップで置き換えます。現在の状態の安全用コピーは保持されます。");
   ("restore.restore", "復元して再起動");
   ("restore.schedule_failed", "復元を開始できませんでした。");
   ("restore.manual_restart", "復元を予約しました。適用するには Velora DNS を再起動してください。");
   ("restore.restarting", "バックアップを適用するため再起動しています。復帰するとこのページが更新されます。");
   ("restore.signed_out", "復元したデータで Velora が起動しました。バックアップ内のアカウントで再度サインインしてください。");
   ("restore.again", "別のバックアップを復元");
   ("restore.backup_from", "バックアップ:");
   ("restore.safety_copy", "以前の状態の保存先:");
   ("restore.state_completed", "復元が完了しました。");
   ("restore.state_rolled_back", "復元は元に戻されました。");
   ("restore.state_failed", "復元に失敗しました。");
   ("restore.state_applied", "復元を適用しました。準備完了を待っています。");
   ("restore.state_pending", "復元を予約しました。");
   ("restore.passphrase", "バックアップのパスフレーズ");
   ("app.scrollable_table", "横スクロール可能");
   ("palette.title", "コマンドパレット");
   ("palette.placeholder", "ページ、ゾーン、レコード、クライアントを検索…");
   ("palette.results", "結果");
   ("palette.pages", "ページ");
   ("palette.actions", "アクション");
   ("palette.kind_zone", "ゾーン");
   ("palette.kind_record", "レコード");
   ("palette.kind_client", "クライアント");
   ("palette.kind_rewrite", "DNS 書き換え");
   ("palette.kind_forwarding", "条件付き転送");
   ("palette.kind_blocklist", "ブロックリスト");
   ("palette.no_results", "一致する項目はありません。");
   ("palette.navigate", "移動");
   ("palette.open", "開く");
   ("palette.toggle", "開閉");
   ("palette.open_button", "検索");
   ("palette.add_client", "クライアントを追加");
   ("palette.create_backup", "バックアップを作成");
   ("cluster.action_failed", "クラスター操作に失敗しました。");
   ("cluster.never", "なし");
   ("cluster.role", "ロール");
   ("cluster.role_standalone", "スタンドアロン");
   ("cluster.role_primary", "クラスタープライマリ");
   ("cluster.role_replica", "クラスターレプリカ");
   ("cluster.replicas", "レプリカ");
   ("cluster.in_sync_count", "同期済み");
   ("cluster.revision", "ゾーンリビジョン");
   ("cluster.zones_replicated", "件のゾーンを複製");
   ("cluster.last_sync", "最終同期");
   ("cluster.sync_failed", "前回の同期に失敗")].

Definition ja_7 : list (string * string) :=
  [("cluster.sync_ok", "プライマリと同期済み");
   ("cluster.members", "レプリカ");
   ("cluster.members_hint", "このプライマリのゾーンを複製するノード。30 秒ごとに確認します。");
   ("cluster.add_node", "ノードを追加");
   ("cluster.token_title", "参加トークンを作成しました");
   ("cluster.token_steps", "新しいノードで「クラスター → クラスターに参加」を開き、次を入力します:");
   ("cluster.token_expires", "トークンの有効期限:");
   ("cluster.token_once", "一度だけ使用でき、再表示されません。");
   ("cluster.copy_token", "トークンをコピー");
   ("cluster.copied", "コピーしました");
   ("cluster.token_done", "完了");
   ("cluster.no_members", "レプリカはまだありません");
   ("cluster.no_members_text", "ノードを追加して、2 台目の Velora DNS サーバー用の参加トークンを作成します。");
   ("cluster.status_in_sync", "同期済み");
   ("cluster.status_behind", "追従中");
   ("cluster.status_stale", "応答なし");
   ("cluster.status_error", "同期エラー");
   ("cluster.status_never_synced", "初回同期待ち");
   ("cluster.remove", "ノードを削除");
   ("cluster.remove_confirm", "このレプリカを削除しますか? ゾーン更新を受け取らなくなります:");
   ("cluster.removed", "レプリカを削除しました。");
   ("cluster.dissolve", "クラスターを解散");
   ("cluster.dissolve_hint", "すべてのレプリカを無効化し、このノードをスタンドアロンに戻します。レプリカは最後のゾーンコピーを保持します。");
   ("cluster.dissolve_confirm", "クラスターを解散し、すべてのレプリカを無効化しますか?");
   ("cluster.dissolved", "クラスターを解散しました。");
   ("cluster.replica_title", "プライマリから複製中");
   ("cluster.replica_hint", "このノードのゾーンはプライマリから複製され、ここでは読み取り専用です。その他の設定はローカルのままです。");
   ("cluster.replica_ok", "複製は正常です。");
   ("cluster.sync_now", "今すぐ同期");
   ("cluster.leave", "クラスターから離脱");
   ("cluster.leave_confirm", "クラスターから離脱しますか? このノードは現在のゾーンを保持し、再び編集可能になります。");
   ("cluster.left", "このノードはクラスターから離脱しました。");
   ("cluster.primary_url", "プライマリの URL");
   ("cluster.cluster_id", "クラスター ID");
   ("cluster.node_id", "ノード ID");
   ("cluster.join_token", "参加トークン");
   ("cluster.standalone_title", "このノードはスタンドアロンです");
   ("cluster.standalone_viewer", "管理者はクラスターを作成するか、このノードをクラスターに参加させられます。");
   ("cluster.scope_note", "クラスターは複数の Velora DNS サーバー間でローカルゾーンを同一に保ちます。プライマリが変更を受け付け、レプリカが 30 秒ごとに複製します。自動フェイルオーバーはなく、その他の設定はノードごとです。");
   ("cluster.create_title", "クラスターを作成");
   ("cluster.create_hint", "このノードがプライマリになり、そのゾーンがすべてのレプリカに複製されます。");
   ("cluster.node_name", "ノード名");
   ("cluster.advertised_url", "他のノードが使うアドレス");
   ("cluster.advertised_hint", "レプリカから見たこのノードの Web 画面の URL。");
   ("cluster.allow_http", "暗号化なしの HTTP を許可 (信頼できるネットワークのみ)");
   ("cluster.skip_check", "到達性チェックを省略");
   ("cluster.create", "クラスターを作成");
   ("cluster.created", "クラスターを作成しました。ノードを追加してレプリカを招待してください。");
   ("cluster.join_title", "クラスターに参加");
   ("cluster.join_hint", "このノードを既存プライマリのレプリカにします。先にプライマリで参加トークンを作成してください。");
   ("cluster.join_warning", "参加すると、このノードのローカルゾーンはプライマリのもので置き換えられます。その他の設定は変わりません。");
   ("cluster.join_confirm", "クラスターに参加し、このノードのゾーンをプライマリのもので置き換えますか?");
   ("cluster.join", "クラスターに参加");
   ("cluster.joined", "このノードはクラスターに参加し、プライマリのゾーンを複製しています。");
   ("cluster.zones_read_only", "このノードはクラスターレプリカです。ゾーンはプライマリから複製され、プライマリでのみ変更できます。")].

Definition ja : list (string * string) :=
  (ja_1 ++ ja_2 ++ ja_3 ++ ja_4 ++ ja_5 ++ ja_6 ++ ja_7)%list.
