(* ===== verification/I18nKo.v ===== *)
(** * The Korean catalog: web/src/i18n/ko.ts

    Its entries in order, in parts of up to 148 lines of the file. *)
From S2P Require Import Prelude.
Local Open Scope string_scope.

Definition ko_1 : list (string * string) :=
  [("app.skip_to_content", "콘텐츠로 건너뛰기");
   ("app.workspace_label", "작업 공간");
   ("app.nav.events", "이벤트");
   ("app.title.events", "이벤트");
   ("events.unread", "읽지 않음");
   ("events.empty", "아직 시스템 이벤트가 없습니다.");
   ("events.load_failed", "이벤트를 불러올 수 없습니다");
   ("events.mark_read", "읽음으로 표시");
   ("events.repeated", "반복");
   ("events.open", "열기");
   ("events.info", "정보");
   ("events.warning", "경고");
   ("events.critical", "심각");
   ("app.nav.main", "메인 내비게이션");
   ("app.nav.overview", "개요");
   ("app.nav.zones", "로컬 존");
   ("app.nav.queries", "쿼리 로그");
   ("app.nav.blocklists", "차단 목록");
   ("app.nav.cache", "DNS 캐시");
   ("app.nav.settings", "설정");
   ("app.nav.updates", "업데이트");
   ("app.nav.backup", "백업");
   ("app.sign_out", "로그아웃");
   ("app.nav.audit", "감사 로그");
   ("app.title.audit", "감사 로그");
   ("app.nav.diagnostics", "진단");
   ("app.title.diagnostics", "진단");
   ("app.local_resolver", "로컬 리졸버");
   ("app.self_hosted_foundation", "셀프 호스트 · 파운데이션");
   ("app.private_by_default", "기본적으로 프라이빗");
   ("app.privacy.query_retention", "쿼리 기록은 제한된 기간 동안 보존됩니다.");
   ("app.privacy.no_query_history", "쿼리 기록은 수집되지 않습니다.");
   ("app.github_repo", "GitHub 리포지토리");
   ("app.connecting", "연결 중…");
   ("app.workspace", "작업 공간");
   ("app.connection_lost", "연결이 끊어졌습니다");
   ("app.resolver_online", "리졸버 온라인");
   ("app.title.overview", "네트워크 개요");
   ("app.title.zones", "로컬 존");
   ("app.title.queries", "쿼리 로그");
   ("app.title.blocklists", "차단 목록");
   ("app.title.cache", "DNS 캐시");
   ("app.title.settings", "설정");
   ("app.title.updates", "업데이트");
   ("app.title.backup", "백업 및 복원");
   ("app.eyebrow", "내 네트워크 한눈에 보기");
   ("app.subtitle.overview", "DNS 요청에서 응답까지 명확하게 파악할 수 있습니다.");
   ("app.subtitle.default", "리졸버 파운데이션을 확인하고 관리합니다.");
   ("app.refresh", "새로고침");
   ("app.error.showing_last", "마지막 성공 스냅샷을 표시하는 중");
   ("app.error.check_server", "Velora 서버가 실행 중인지 확인하세요.");
   ("app.error.reach_server", "서버에 연결할 수 없습니다");
   ("app.viewer_readonly", "뷰어로 로그인했습니다. 관리 작업은 읽기 전용입니다.");
   ("app.connecting_panel", "리졸버에 연결 중…");
   ("app.not_found", "페이지를 찾을 수 없습니다.");
   ("app.footer.independent", "Velora DNS · 독립 · 셀프 호스트");
   ("app.footer.last_updated", "마지막 업데이트");
   ("app.footer.waiting", "서버 대기 중");
   ("diagnostics.title", "시스템 상태");
   ("diagnostics.report_hint", "다운로드에는 구성 요소 상태와 빌드 정보가 포함되며 비밀 정보나 쿼리 로그는 포함되지 않습니다.");
   ("diagnostics.download", "보고서 다운로드");
   ("diagnostics.loading", "진단 불러오는 중…");
   ("diagnostics.load_failed", "진단을 불러올 수 없습니다");
   ("diagnostics.upstreams", "업스트림 서버");
   ("diagnostics.component", "구성 요소");
   ("diagnostics.state", "상태");
   ("diagnostics.detail", "세부 정보");
   ("diagnostics.state.healthy", "정상");
   ("diagnostics.state.degraded", "저하");
   ("diagnostics.state.failed", "실패");
   ("explain.title", "이 응답이 나온 이유");
   ("explain.hint", "이름 하나에 대해 리졸버를 시험 실행합니다. 업스트림 조회, 로그 기록, 캐시, 집계는 일어나지 않습니다.");
   ("explain.name", "이름");
   ("explain.type", "레코드 유형");
   ("explain.client", "클라이언트 주소(선택)");
   ("explain.client_hint", "해당 클라이언트의 필터링 정책을 적용합니다.");
   ("explain.submit", "설명");
   ("explain.running", "설명 중…");
   ("explain.failed", "이 쿼리를 설명하지 못했습니다");
   ("explain.result", "설명");
   ("explain.winner", "결정 단계");
   ("explain.answers", "응답");
   ("explain.no_answers", "응답 레코드 없음: 응답은 업스트림 리졸버에서 오지만 조회하지 않습니다.");
   ("explain.steps", "검토한 단계");
   ("explain.step", "단계");
   ("explain.outcome", "결과");
   ("explain.detail", "상세");
   ("explain.cname_target", "CNAME 대상");
   ("explain.ttl", "남은 TTL");
   ("explain.matches", "일치");
   ("explain.allowed_by", "허용한 규칙");
   ("explain.not_contacted", "업스트림에 조회하지 않았습니다.");
   ("explain.scope.global", "전역 필터링");
   ("explain.scope.client_policy", "클라이언트 정책");
   ("explain.stage.filter", "차단 목록 또는 클라이언트 정책");
   ("explain.stage.rewrite", "DNS 재작성");
   ("explain.stage.zone", "로컬 영역");
   ("explain.stage.cache", "캐시");
   ("explain.stage.forwarding", "조건부 전달 규칙");
   ("explain.stage.upstream", "전역 업스트림 리졸버");
   ("explain.stage.refused", "거부됨");
   ("explain.result.passed", "통과");
   ("explain.result.allowed", "허용");
   ("explain.result.blocked", "차단");
   ("explain.result.no_match", "일치 없음");
   ("explain.result.answered", "응답함");
   ("explain.result.miss", "미스");
   ("explain.result.hit", "히트");
   ("explain.result.refused", "거부됨");
   ("explain.result.would_forward", "전달될 예정");
   ("explain.result.error", "오류");
   ("explain.source.local", "로컬 응답");
   ("explain.source.cache", "캐시");
   ("explain.source.blocked", "차단");
   ("explain.source.upstream", "업스트림");
   ("explain.source.refused", "거부됨");
   ("audit.title", "관리 감사 로그");
   ("audit.hint", "관리 작업은 90일 동안 보관됩니다. 비밀 정보와 요청 본문은 제외됩니다.");
   ("audit.actor", "사용자");
   ("audit.action", "작업");
   ("audit.result", "결과");
   ("audit.all", "전체");
   ("audit.success", "성공");
   ("audit.failure", "실패");
   ("audit.filter", "필터");
   ("audit.time", "시간");
   ("audit.target", "대상");
   ("audit.empty", "감사 이벤트가 없습니다.");
   ("audit.more", "더 보기");
   ("audit.load_failed", "감사 이벤트를 불러올 수 없습니다");
   ("auth.checking", "세션 확인 중…");
   ("auth.sign_in_title", "Velora DNS 로그인");
   ("auth.username", "사용자 이름");
   ("auth.password", "비밀번호");
   ("auth.sign_in", "로그인");
   ("auth.sign_in_failed", "로그인에 실패했습니다");
   ("settings.server_configuration", "서버 설정");
   ("settings.language", "언어");
   ("settings.theme", "테마");
   ("settings.theme_light", "라이트");
   ("settings.theme_dark", "다크");
   ("settings.theme_auto", "자동");
   ("settings.theme_hint", "자동은 OS의 라이트/다크 색 구성표를 따릅니다.");
   ("settings.log_level", "로그 레벨");
   ("settings.rate_limiting", "레이트 리밋");
   ("settings.rate_limit_hint", "레이트 리밋은 기본적으로 비활성화되어 있습니다. 리졸버를 소스 플러드와 높은 쿼리 속도로부터 보호하려면 활성화하세요.");
   ("settings.rate_limit_enabled", "레이트 리밋 활성화");
   ("settings.rate_limit_global_qps", "글로벌 쿼리/초")].

Definition ko_2 : list (string * string) :=
  [("settings.rate_limit_client_qps", "클라이언트별 쿼리/초");
   ("settings.rate_limit_burst", "버스트 허용량");
   ("settings.rate_limit_rejected_total", "거부된 쿼리");
   ("settings.rate_limit_last_rejected", "최근 거부");
   ("settings.save", "저장");
   ("settings.rate_limit_load_failed", "레이트 리밋 설정을 불러오지 못했습니다");
   ("settings.rate_limit_save_failed", "레이트 리밋 설정을 저장하지 못했습니다");
   ("settings.rate_limit_saved", "레이트 리밋 설정이 저장되었습니다.");
   ("settings.rate_limit_loading", "레이트 리밋 설정 불러오는 중…");
   ("settings.edit_hint", "이 설정은 빠른 시작 설치 프로그램 옵션에 해당합니다. 일부 변경에는 다시 시작이 필요합니다. 캐시 TTL 변경은 즉시 적용됩니다.");
   ("settings.dns_section", "DNS 설정");
   ("settings.cache_section", "DNS 캐시");
   ("settings.cache_ttl_label", "업스트림 응답 캐시 TTL (초)");
   ("settings.cache_ttl_hint", "86400초 = 24시간. 범위: 0–604800초. 0은 각 업스트림의 원래 TTL을 사용합니다. 업스트림 변경이 반영되는 데 시간이 걸릴 수 있습니다. 이를 변경하면 기존 캐시 응답이 삭제됩니다. TTL 0 및 서명된 DNSSEC 응답은 원래 TTL을 유지합니다.");
   ("settings.cache_ttl_invalid", "0에서 604800초 사이의 정수를 입력하세요.");
   ("settings.dns_listen_label", "DNS 수신 주소 (쉼표로 구분)");
   ("settings.dns_listen_warning", "경고: 0.0.0.0은 DNS를 네트워크에 노출합니다. 신뢰할 수 있는 클라이언트만 접근할 수 있도록 방화벽을 설정하세요.");
   ("settings.upstreams_label", "업스트림 DNS 서버 (쉼표로 구분)");
   ("settings.upstreams_hint", "형식: IP:PORT (예: 1.1.1.1:53). DoH 업스트림은 https://host/dns-query 사용");
   ("settings.allowed_clients_label", "허용된 클라이언트 네트워크 (쉼표로 구분 CIDR)");
   ("settings.allowed_clients_hint", "이러한 네트워크만 리졸버에 쿼리할 수 있습니다. 예: 192.168.1.0/24, 10.0.0.0/8");
   ("settings.web_section", "Web UI 설정");
   ("settings.web_listen_label", "Web UI 수신 주소 (IP:port)");
   ("settings.web_listen_warning", "경고: 0.0.0.0은 Web UI를 네트워크에 노출합니다. 방화벽 또는 인증을 사용하세요.");
   ("settings.allowed_hosts_label", "허용된 호스트 (쉼표로 구분)");
   ("settings.allowed_hosts_hint", "관리 API에 접근할 수 있는 호스트 헤더. 모든 것을 허용하려면 *를 사용하세요 (LAN에서는 권장하지 않음).");
   ("settings.logging_section", "로깅 및 기타");
   ("settings.enable_query_log", "쿼리 로깅 활성화");
   ("settings.save_configuration", "설정 저장");
   ("settings.saving", "저장 중…");
   ("settings.save_success", "설정이 저장되고 적용되었습니다.");
   ("settings.save_failed", "설정 저장에 실패했습니다");
   ("dashboard.total_queries", "총 쿼리 수");
   ("dashboard.since_start", "통계 마지막 초기화 이후");
   ("dashboard.reset_statistics", "통계 초기화");
   ("dashboard.reset_confirm", "쿼리, 캐시, 속도 제한 카운터를 모두 초기화하시겠습니까? 이 작업은 되돌릴 수 없습니다.");
   ("dashboard.reset_failed", "통계를 초기화할 수 없습니다");
   ("dashboard.qps", "쿼리/초");
   ("dashboard.rolling_avg", "60초 이동 평균");
   ("dashboard.cache_hit_rate", "캐시 히트율");
   ("dashboard.answers_from_memory", "메모리에서 제공된 응답");
   ("dashboard.uptime", "가동 시간");
   ("dashboard.process_lifetime", "현재 프로세스 수명");
   ("dashboard.top_domains", "상위 도메인");
   ("dashboard.top_clients", "상위 클라이언트");
   ("dashboard.query_activity", "쿼리 활동");
   ("dashboard.live_samples", "리졸버에서 가져온 실시간 샘플");
   ("dashboard.refresh_5s", "5초마다 새로고침");
   ("dashboard.queries_per_sec", "쿼리/초");
   ("dashboard.chart_aria", "이 브라우저 세션 동안 샘플링된 쿼리 속도");
   ("dashboard.session_samples", "세션 샘플");
   ("dashboard.now", "현재");
   ("dashboard.upstream_resolvers", "업스트림 리졸버");
   ("dashboard.ordered_failover", "TCP 폴백이 있는 순차 페일오버");
   ("dashboard.endpoint", "엔드포인트");
   ("dashboard.health", "상태");
   ("dashboard.upstream_unknown", "알 수 없음");
   ("dashboard.upstream_healthy", "정상");
   ("dashboard.upstream_degraded", "저하");
   ("dashboard.upstream_unavailable", "사용 불가");
   ("dashboard.priority", "우선순위");
   ("dashboard.attempt_timeout", "시도 타임아웃");
   ("dashboard.primary", "프라이머리");
   ("dashboard.fallback", "폴백");
   ("dashboard.config_shown", "설정이 표시됩니다. 도달 가능성은 각 쿼리마다 평가됩니다.");
   ("dashboard.retained_last_24h", "지난 24시간 동안 보존된 쿼리");
   ("dashboard.unavailable_no_logging", "쿼리 로깅이 비활성화된 경우 사용할 수 없습니다.");
   ("dashboard.loading_stats", "쿼리 통계 불러오는 중…");
   ("dashboard.stats_load_failed", "쿼리 통계를 불러오지 못했습니다");
   ("dashboard.no_retained", "이 기간에 보존된 쿼리가 없습니다.");
   ("cache.live_entries", "실시간 항목");
   ("cache.capacity", "용량");
   ("cache.hits", "캐시 히트");
   ("cache.since_startup", "프로세스 시작 이후");
   ("cache.misses", "캐시 미스");
   ("cache.includes_uncacheable", "캐시 불가능한 요청 포함");
   ("cache.memory_cache", "메모리 캐시");
   ("cache.description", "양의 업스트림 응답은 설정된 캐시 TTL을 사용합니다. TTL 0, 서명된 DNSSEC 및 음의 응답은 원래 규칙을 유지합니다. 용량에 도달하면 가장 오래 사용되지 않은 항목이 삭제됩니다. 캐시 내용은 SQLite에 저장되지 않습니다.");
   ("cache.clear_description", "캐시를 지우면 현재 모든 응답이 삭제됩니다. 히트/미스 카운터는 유지됩니다.");
   ("cache.clearing", "지우는 중…");
   ("cache.clear", "캐시 지우기");
   ("cache.cleared", "캐시가 지워졌습니다. 로컬 존은 계속 활성 상태입니다. 다른 쿼리는 업스트림 리졸버를 사용합니다.");
   ("cache.flush_failed", "캐시 지우기에 실패했습니다");
   ("cache.entries_title", "캐시된 DNS 항목");
   ("cache.entries_description", "현재 응답 (최근 사용 순).");
   ("cache.entries_loading", "캐시 항목 불러오는 중…");
   ("cache.entries_load_failed", "캐시 항목을 불러오지 못했습니다");
   ("cache.entries_empty", "캐시가 비어 있습니다.");
   ("cache.entries_scroll_hint", "가로로 스크롤하여 모든 열을 표시합니다.");
   ("cache.entry_name", "이름");
   ("cache.entry_type", "유형");
   ("cache.entry_answer", "응답");
   ("cache.entry_status", "상태");
   ("cache.entry_ttl", "남은 TTL");
   ("cache.seconds", "초");
   ("cache.previous", "이전");
   ("cache.next", "다음");
   ("querylog.unavailable_title", "쿼리 기록을 사용할 수 없습니다");
   ("querylog.unavailable_text", "DNS 활동을 수집하고 확인하려면 쿼리 로깅을 활성화하세요.");
   ("querylog.up_to_100", "페이지당 최대 100개의 보존된 응답");
   ("querylog.refresh", "쿼리 새로고침");
   ("querylog.filters_aria", "쿼리 필터");
   ("querylog.domain", "도메인");
   ("querylog.contains_example", "example.com 포함");
   ("querylog.client_ip", "클라이언트 IP");
   ("querylog.exact_ip", "정확한 IP 주소");
   ("querylog.query_type", "쿼리 유형");
   ("querylog.all_types", "모든 유형");
   ("querylog.source", "소스");
   ("querylog.all_sources", "모든 소스");
   ("querylog.apply_filters", "필터 적용");
   ("querylog.show_blocked", "차단된 쿼리 표시");
   ("querylog.error_stale", "이전 결과가 오래되었을 수 있습니다.");
   ("querylog.loading", "쿼리 로그 불러오는 중…");
   ("querylog.no_matches", "일치하는 쿼리가 없습니다");
   ("querylog.no_matches_text", "다른 필터를 시도하거나 로깅을 활성화하여 DNS 트래픽을 생성하세요.");
   ("querylog.caption", "DNS 쿼리 로그");
   ("querylog.col_timestamp", "타임스탬프");
   ("querylog.col_client", "클라이언트");
   ("querylog.col_domain", "도메인");
   ("querylog.col_type", "유형");
   ("querylog.col_source", "소스");
   ("querylog.col_response", "응답");
   ("querylog.col_latency", "레이턴시");
   ("querylog.older", "이전 쿼리");
   ("querylog.load_failed", "쿼리 로그를 불러오지 못했습니다");
   ("blocklists.count", "외부 소스");
   ("blocklists.count_one", "외부 소스");
   ("blocklists.sources_label", "DNS 정책 소스");
   ("blocklists.reload", "새로고침");
   ("blocklists.add_source", "소스 추가");
   ("blocklists.add_aria", "차단 목록 소스 추가");
   ("blocklists.add_title", "외부 차단 목록 추가");
   ("blocklists.add_text", "공개 HTTP(S) 소스만 허용됩니다. 새로고침에 실패하면 이전 DNS 규칙이 계속 활성 상태입니다.");
   ("blocklists.name", "이름");
   ("blocklists.source_url", "소스 URL");
   ("blocklists.community_hosts", "커뮤니티 호스트");
   ("blocklists.adding", "추가 중…");
   ("blocklists.cancel", "취소");
   ("blocklists.loading", "차단 목록 소스 불러오는 중…");
   ("blocklists.empty_title", "외부 차단 목록이 없습니다");
   ("blocklists.empty_text", "신뢰할 수 있는 공개 호스트 또는 도메인 목록을 추가하여 DNS 차단을 적용합니다.");
   ("blocklists.caption", "외부 차단 목록 소스");
   ("blocklists.col_source", "소스");
   ("blocklists.col_status", "상태");
   ("blocklists.col_last_update", "마지막 업데이트");
   ("blocklists.update_failed", "업데이트 실패");
   ("blocklists.active", "활성")].

Definition ko_3 : list (string * string) :=
  [("blocklists.disabled", "비활성");
   ("blocklists.never", "없음");
   ("blocklists.updating", "업데이트 중…");
   ("blocklists.update", "업데이트");
   ("blocklists.load_failed", "차단 목록을 불러오지 못했습니다");
   ("blocklists.add_failed", "소스를 추가하지 못했습니다");
   ("blocklists.update_failed_msg", "소스를 업데이트하지 못했습니다");
   ("blocklists.col_domains", "도메인");
   ("blocklists.local", "로컬");
   ("blocklists.enable", "활성화");
   ("blocklists.disable", "비활성화");
   ("blocklists.toggle_failed", "소스를 전환하지 못했습니다");
   ("blocklists.edit_content", "콘텐츠 편집");
   ("blocklists.edit_content_aria", "차단 목록 콘텐츠 편집");
   ("blocklists.edit_content_title", "차단 목록 도메인 편집");
   ("blocklists.edit_content_text", "한 줄에 하나의 도메인을 입력하세요. 0.0.0.0으로 시작하는 줄 또는 주석은 호스트 항목으로 처리됩니다.");
   ("blocklists.domains_label", "도메인");
   ("blocklists.saving", "저장 중…");
   ("blocklists.save", "저장");
   ("blocklists.content_save_failed", "콘텐츠를 저장하지 못했습니다");
   ("blocklists.delete", "삭제");
   ("blocklists.confirm_delete", "확인");
   ("blocklists.delete_failed", "소스를 삭제하지 못했습니다");
   ("zones.count", "로컬 존");
   ("zones.count_one", "로컬 존");
   ("zones.local_authority", "로컬 권위");
   ("zones.reload", "존 새로고침");
   ("zones.add_zone", "존 추가");
   ("zones.error_stale", "마지막으로 로드된 존을 표시합니다. 변경 전에 새로고침하세요.");
   ("zones.error_retry", "새로고침하여 다시 시도하세요.");
   ("zones.reload_before_retry", "재시도 전에 존을 새로고침하세요.");
   ("zones.loading", "로컬 존 불러오는 중…");
   ("zones.empty_title", "네트워크에 익숙한 이름을 지정하세요");
   ("zones.empty_text", "home.arpa와 같은 존을 만들고 라우터, 서비스, 디바이스의 레코드를 추가합니다.");
   ("zones.create_first", "첫 번째 존 만들기");
   ("zones.filter_aria", "존 필터");
   ("zones.filter_placeholder", "존 검색…");
   ("zones.nav_aria", "로컬 존");
   ("zones.records_custom", "사용자 정의 레코드");
   ("zones.no_matching", "일치하는 존이 없습니다.");
   ("zones.authoritative_eyebrow", "권위 존");
   ("zones.revision", "리비전");
   ("zones.add_record", "레코드 추가");
   ("zones.delete_zone_aria", "존 삭제");
   ("zones.primary_ns", "프라이머리 NS");
   ("zones.contact", "연락처");
   ("zones.delete_record_confirm", "레코드 삭제");
   ("zones.delete_zone_confirm", "및 모든");
   ("zones.delete_zone_confirm2", "레코드? 이 작업은 되돌릴 수 없습니다.");
   ("zones.deleting", "삭제 중…");
   ("zones.delete_record_perm", "레코드 완전히 삭제");
   ("zones.delete_zone_perm", "존 완전히 삭제");
   ("zones.cancel_deletion", "삭제 취소");
   ("zones.record_saved", "레코드가 저장되었습니다. DNS 변경 사항이 적용됩니다.");
   ("zones.record_deleted", "레코드가 삭제되었습니다. DNS 변경 사항이 적용됩니다.");
   ("zones.zone_deleted", "존과 해당 레코드가 삭제되었습니다.");
   ("zones.zone_created", "존이 생성되었습니다. 레코드를 추가하여 사용을 시작하세요.");
   ("zones.delete_failed", "삭제에 실패했습니다");
   ("zones.footnote", "로컬 응답은 포워딩보다 우선합니다. 디바이스는 TTL이 만료될 때까지 이전 응답을 유지할 수 있습니다.");
   ("zones.record_form_edit_aria", "DNS 레코드 편집");
   ("zones.record_form_add_aria", "DNS 레코드 추가");
   ("zones.edit_record", "레코드 편집");
   ("zones.add_record_form", "레코드 추가");
   ("zones.changes_apply", "변경 사항 적용 대상");
   ("zones.record_name", "레코드 이름");
   ("zones.router_or_at", "router 또는 @");
   ("zones.relative_name_hint", "상대 이름, 존의 경우 @, 또는 마침표로 끝나는 절대 이름.");
   ("zones.record_type", "레코드 유형");
   ("zones.ttl_seconds", "TTL (초)");
   ("zones.priority", "우선순위");
   ("zones.ipv4_address", "IPv4 주소");
   ("zones.ipv6_address", "IPv6 주소");
   ("zones.text_value", "텍스트 값");
   ("zones.target_hostname", "대상 호스트 이름");
   ("zones.invalid_ttl", "유효한 TTL과 우선순위 값을 입력하세요.");
   ("zones.record_conflict", "이 존이 다른 곳에서 변경되었습니다. 초안은 변경되지 않았습니다. 이 양식을 닫고 존을 새로고침한 후 다시 시도하세요.");
   ("zones.save_failed", "레코드를 저장하지 못했습니다");
   ("zones.saving", "저장 중…");
   ("zones.save_record", "레코드 저장");
   ("zones.cancel", "취소");
   ("zones.no_records_title", "아직 사용자 정의 레코드가 없습니다");
   ("zones.no_records_text", "첫 번째 레코드를 추가하세요. SOA와 폴백 정점 NS는 자동으로 관리됩니다.");
   ("zones.records_aria", "DNS 레코드");
   ("zones.col_name", "이름");
   ("zones.col_type", "유형");
   ("zones.col_value", "값");
   ("zones.col_ttl", "TTL");
   ("zones.col_actions", "작업");
   ("zones.edit_aria", "편집");
   ("zones.delete_aria", "삭제");
   ("zones.record_word", "레코드");
   ("zones.create_title", "로컬 존 생성");
   ("zones.create_text", "Velora가 이 존에 응답하고 네트워크 내의 알 수 없는 이름을 유지합니다.");
   ("zones.zone_name", "존 이름");
   ("zones.authority_settings", "권위 설정");
   ("zones.primary_nameserver", "프라이머리 네임서버");
   ("zones.contact_mailbox", "연락처 (DNS 메일함)");
   ("zones.creating", "생성 중…");
   ("zones.create_zone", "존 생성");
   ("zones.create_zone_aria", "DNS 존 생성");
   ("zones.create_failed", "존을 생성하지 못했습니다");
   ("zones.load_failed", "존을 불러오지 못했습니다");
   ("updates.loading", "업데이트 상태 불러오는 중...");
   ("updates.viewer_readonly", "뷰어로 로그인했습니다. 업데이트 요청은 읽기 전용입니다.");
   ("updates.in_progress", "업데이트 진행 중...");
   ("updates.history", "업데이트 기록");
   ("updates.no_history", "아직 기록된 업데이트가 없습니다.");
   ("updates.col_from", "From");
   ("updates.col_to", "To");
   ("updates.col_state", "상태");
   ("updates.col_started", "시작");
   ("updates.state_idle", "대기");
   ("updates.state_downloading", "다운로드 중");
   ("updates.state_verifying", "검증 중");
   ("updates.state_installing", "설치 중");
   ("updates.state_readiness", "준비 대기 중");
   ("updates.state_completed", "완료");
   ("updates.state_rolled_back", "롤백됨");
   ("updates.state_failed", "실패");
   ("updates.load_failed", "업데이트 상태를 불러오지 못했습니다");
   ("updates.request_failed", "업데이트 요청에 실패했습니다");
   ("updates.check", "Check for updates");
   ("updates.available", "Update available");
   ("updates.up_to_date", "The system is up to date.");
   ("updates.progress", "Update progress");
   ("updates.rollback_used", "The previous version was restored.");
   ("updates.rollback_recovered", "The previous version was restored and is healthy.");
   ("backup.sqlite_only", "암호화 내보내기는 현재 SQLite 설치만 지원합니다.");
   ("backup.create_title", "암호화 백업");
   ("backup.create_hint", "설정과 영구 데이터의 버전 백업을 다운로드합니다. 암호를 안전하게 보관하세요.");
   ("backup.passphrase", "암호");
   ("backup.creating", "생성 중…");
   ("backup.create", "생성 및 다운로드");
   ("backup.create_failed", "백업을 생성할 수 없습니다");
   ("backup.restore_hint", "서비스를 중지한 상태에서 암호화 백업을 복원하세요. 명령은 현재 설치의 안전 복사본을 보관합니다.");
   ("backup.loading", "백업 상태 불러오는 중...");
   ("backup.status_title", "백업 상태");
   ("backup.database", "데이터베이스:");
   ("backup.last_backup", "마지막 백업:");
   ("backup.no_backup", "아직 기록된 백업이 없습니다");
   ("backup.verification_state", "검증 상태:");
   ("backup.state_unknown", "알 수 없음");
   ("backup.state_unverified", "미검증");
   ("backup.state_verified", "검증됨");
   ("backup.verify_title", "백업 검증");
   ("backup.verify_text", "백업 사본을 서버 데이터베이스 옆에 배치하여 무결성을 검증합니다.");
   ("backup.file_name", "백업 파일 이름");
   ("backup.file_hint", "백업을 Velora 서버의 데이터베이스 옆에 배치하세요. 파일 이름만 사용됩니다. 브라우저 파일이나 다른 디렉토리는 여기서 확인할 수 없습니다.");
   ("backup.viewer_readonly", "뷰어로 로그인했습니다. 백업 검증은 읽기 전용입니다.");
   ("backup.verifying", "검증 중...");
   ("backup.verify", "검증");
   ("backup.valid", "백업이 유효합니다")].

Definition ko_4 : list (string * string) :=
  [("backup.invalid", "백업이 유효하지 않습니다");
   ("backup.schema_version", "스키마 버전:");
   ("backup.records", "레코드 수:");
   ("backup.instructions", "명령줄로 복원");
   ("backup.native", "네이티브 설치");
   ("backup.docker", "Docker Compose");
   ("backup.online", "온라인 백업 (SQLite)");
   ("backup.load_failed", "백업 상태를 불러오지 못했습니다");
   ("backup.verify_failed", "검증에 실패했습니다");
   ("backup.step_stop_service", "서비스 중지");
   ("backup.step_create_backup", "일관된 백업 생성");
   ("backup.step_restart_service", "서비스 다시 시작");
   ("backup.step_stop_container", "컨테이너 중지");
   ("backup.step_backup_volume", "볼륨 백업");
   ("backup.step_restart_container", "컨테이너 다시 시작");
   ("backup.step_online_backup", "SQLite 백업 API를 사용하여 일관된 온라인 백업 생성");
   ("onboarding.welcome", "Velora DNS에 오신 것을 환영합니다");
   ("onboarding.complete_steps", "설치를 보호하기 위해 다음 단계를 완료하세요");
   ("onboarding.dismiss", "닫기");
   ("onboarding.change_credentials", "부트스트랩 인증 정보 변경");
   ("onboarding.change_credentials_text", "기본 관리자 비밀번호는 첫 로그인 후 변경해야 합니다.");
   ("onboarding.review_dns", "DNS 설정 확인");
   ("onboarding.review_dns_text", "네트워크에 대해 업스트림 서버와 허용된 클라이언트가 올바르게 구성되어 있는지 확인하세요.");
   ("onboarding.restrict_clients", "클라이언트 접근 제한");
   ("onboarding.restrict_clients_text", "allowed_clients CIDR을 구성하여 리졸버를 사용할 수 있는 네트워크를 제한합니다.");
   ("onboarding.verify_db", "데이터베이스 스토리지 검증");
   ("onboarding.verify_db_text", "데이터베이스 경로가 충분한 공간이 있는 신뢰할 수 있는 스토리지에 있는지 확인하세요.");
   ("onboarding.update_policy", "업데이트 정책 구성");
   ("onboarding.update_policy_text", "업데이트 센터를 확인하여 설치를 최신 상태로 유지하는 방법을 이해하세요.");
   ("app.nav.dhcp", "DHCP");
   ("app.title.dhcp", "DHCP 서버");
   ("dhcp.loading", "DHCP 데이터 불러오는 중…");
   ("dhcp.load_failed", "Unable to load DHCP data");
   ("dhcp.create_pool_failed", "Unable to create pool");
   ("dhcp.delete_pool_failed", "Unable to delete pool");
   ("dhcp.create_reservation_failed", "Unable to create reservation");
   ("dhcp.delete_reservation_failed", "Unable to delete reservation");
   ("dhcp.delete_lease_failed", "Unable to delete lease");
   ("dhcp.pools", "DHCP 풀");
   ("dhcp.add_pool", "풀 추가");
   ("dhcp.pool_name", "풀 이름");
   ("dhcp.interface", "인터페이스");
   ("dhcp.subnet_cidr", "서브넷 (CIDR)");
   ("dhcp.subnet", "서브넷");
   ("dhcp.gateway", "게이트웨이");
   ("dhcp.dns_servers", "DNS 서버");
   ("dhcp.lease_seconds", "임대 시간 (초)");
   ("dhcp.leases_label", "임대");
   ("dhcp.create", "생성");
   ("dhcp.no_pools", "DHCP 풀이 구성되지 않았습니다. 임대를 제공하려면 풀을 만드세요.");
   ("dhcp.reservations", "정적 예약");
   ("dhcp.mac_address", "MAC 주소");
   ("dhcp.ip_address", "IP 주소");
   ("dhcp.hostname", "호스트 이름");
   ("dhcp.add", "추가");
   ("dhcp.active_leases", "활성 임대");
   ("dhcp.expires", "만료");
   ("dhcp.no_leases", "활성 임대가 없습니다.");
   ("dhcp.expired", "만료됨");
   ("dhcp.confirm_delete_pool", "이 풀과 모든 예약을 삭제하시겠습니까?");
   ("dhcp.name", "이름");
   ("app.nav.cluster", "클러스터");
   ("app.title.cluster", "클러스터 개요");
   ("cluster.loading", "클러스터 데이터 불러오는 중…");
   ("cluster.load_failed", "Unable to load cluster data");
   ("cluster.name", "이름");
   ("cluster.status", "상태");
   ("cluster.version", "버전");
   ("cluster.last_seen", "마지막 확인");
   ("cluster.config_history", "구성 기록");
   ("cluster.no_versions", "기록된 구성 버전이 없습니다.");
   ("cluster.hash", "해시");
   ("cluster.applied_by", "적용자");
   ("cluster.applied_at", "적용 시점");
   ("app.nav.group_dns", "DNS");
   ("app.nav.group_network", "네트워크");
   ("app.nav.group_system", "시스템");
   ("app.menu_open", "탐색 열기");
   ("app.menu_close", "탐색 닫기");
   ("app.theme_to_dark", "다크 테마로 전환");
   ("app.theme_to_light", "라이트 테마로 전환");
   ("app.signed_in_as", "로그인 계정");
   ("app.subtitle.zones", "네트워크의 장치와 서비스를 위한 권한 있는 이름.");
   ("app.subtitle.queries", "이 리졸버가 응답한 최근 조회.");
   ("app.subtitle.blocklists", "차단으로 응답하는 도메인 목록.");
   ("app.subtitle.cache", "반복 조회를 빠르게 하는 메모리 내 응답.");
   ("app.subtitle.settings", "리졸버, 웹 인터페이스 및 개인 설정.");
   ("app.subtitle.updates", "설치된 버전, 사용 가능한 릴리스 및 업데이트 기록.");
   ("app.subtitle.backup", "암호화된 백업을 만들고 기존 백업을 확인합니다.");
   ("app.subtitle.dhcp", "주소 풀, 예약 및 활성 임대.");
   ("app.subtitle.cluster", "여러 Velora DNS 서버에서 로컬 영역을 동일하게 유지합니다.");
   ("app.subtitle.diagnostics", "구성 요소 상태와 공유 가능한 지원 보고서.");
   ("app.subtitle.events", "주의가 필요한 항목.");
   ("app.subtitle.audit", "누가 무엇을 언제 변경했는지.");
   ("settings.preferences", "환경설정");
   ("dashboard.general_statistics", "일반 통계");
   ("dashboard.blocked", "필터로 차단됨");
   ("dashboard.of_all_queries", "전체 쿼리 중");
   ("dashboard.query_logging", "쿼리 로그");
   ("dashboard.enabled", "사용");
   ("dashboard.disabled", "사용 안 함");
   ("dashboard.requests", "요청");
   ("dashboard.domain", "도메인");
   ("dashboard.client", "클라이언트");
   ("dashboard.upstream_servers", "업스트림 서버");
   ("dashboard.collecting_samples", "샘플 수집 중…");
   ("cache.search_label", "이름으로 검색");
   ("cache.search_placeholder", "example.org");
   ("cache.all_types", "모든 유형");
   ("cache.remove_entry", "캐시에서 제거");
   ("cache.invalidate_title", "도메인 무효화");
   ("cache.invalidate_text", "전체 캐시를 지우지 않고 한 이름의 캐시된 응답을 제거합니다.");
   ("cache.domain", "도메인");
   ("cache.include_subdomains", "하위 도메인 포함");
   ("cache.invalidate", "무효화");
   ("cache.removed_entries", "제거된 캐시 항목");
   ("cache.invalidate_failed", "무효화 실패");
   ("cache.flush_confirm", "캐시된 모든 응답을 지우시겠습니까? 적중 및 실패 카운터는 유지됩니다.");
   ("cache.no_matches", "이 필터와 일치하는 항목이 없습니다.");
   ("blocklists.schedule", "업데이트 일정");
   ("blocklists.schedule_for", "업데이트 일정:");
   ("blocklists.manual", "수동");
   ("blocklists.every_1h", "매시간");
   ("blocklists.every_6h", "6시간마다");
   ("blocklists.every_12h", "12시간마다");
   ("blocklists.every_24h", "매일");
   ("blocklists.every_7d", "매주");
   ("blocklists.col_next_update", "다음 업데이트");
   ("blocklists.due_now", "지금 예정");
   ("blocklists.never_updated", "업데이트 안 됨");
   ("blocklists.retry_count", "실패한 시도");
   ("blocklists.schedule_failed", "일정을 변경할 수 없습니다");
   ("app.nav.forwarding", "조건부 전달");
   ("app.title.forwarding", "조건부 전달");
   ("app.subtitle.forwarding", "선택한 도메인의 쿼리를 전용 리졸버로 보냅니다.");
   ("forwarding.count", "개의 전달 규칙");
   ("forwarding.add", "규칙 추가");
   ("forwarding.add_title", "새 전달 규칙");
   ("forwarding.edit_title", "전달 규칙 편집");
   ("forwarding.form_hint", "규칙은 도메인 아래의 모든 이름에도 적용됩니다. 가장 구체적인 활성 규칙이 우선합니다.");
   ("forwarding.domain", "도메인");
   ("forwarding.upstreams", "리졸버");
   ("forwarding.upstreams_hint", "IP 또는 IP:포트 형식으로 1~4개, 쉼표로 구분. 포트를 생략하면 53을 사용합니다.");
   ("forwarding.description", "설명");
   ("forwarding.enabled", "사용");
   ("forwarding.save", "규칙 저장");
   ("forwarding.cancel", "취소")].

Definition ko_5 : list (string * string) :=
  [("forwarding.empty_title", "전달 규칙 없음");
   ("forwarding.empty_text", "모든 쿼리는 전역 업스트림 리졸버를 사용합니다. corp.example 같은 도메인을 내부 DNS 서버로 확인하려면 규칙을 추가하세요.");
   ("forwarding.col_status", "상태");
   ("forwarding.test", "테스트");
   ("forwarding.test_title", "규칙 테스트");
   ("forwarding.test_hint", "캐시를 거치지 않고 이 규칙의 리졸버로만 쿼리를 한 번 보냅니다.");
   ("forwarding.test_name", "이름");
   ("forwarding.test_type", "유형");
   ("forwarding.run_test", "테스트 실행");
   ("forwarding.test_via", "경유");
   ("forwarding.no_answers", "응답 레코드 없음");
   ("forwarding.edit", "편집");
   ("forwarding.delete", "삭제");
   ("forwarding.delete_confirm", "다음 전달 규칙을 삭제하시겠습니까:");
   ("forwarding.toggle", "규칙 사용/사용 안 함:");
   ("forwarding.load_failed", "전달 규칙을 불러올 수 없습니다");
   ("forwarding.save_failed", "규칙을 저장할 수 없습니다");
   ("forwarding.saved", "전달 규칙을 저장했습니다. 도메인의 캐시된 응답이 삭제되었습니다.");
   ("forwarding.disabled", "사용 안 함");
   ("app.nav.rewrites", "DNS 재작성");
   ("app.title.rewrites", "DNS 재작성");
   ("app.subtitle.rewrites", "선택한 이름에 고정 주소나 별칭으로 응답합니다.");
   ("rewrites.count", "개의 재작성");
   ("rewrites.add", "재작성 추가");
   ("rewrites.add_title", "새 재작성");
   ("rewrites.edit_title", "재작성 편집");
   ("rewrites.form_hint", "*.parent를 사용하면 도메인 아래 모든 이름과 일치합니다. 정확한 이름이 와일드카드보다 우선합니다.");
   ("rewrites.name", "이름");
   ("rewrites.type", "유형");
   ("rewrites.value", "응답");
   ("rewrites.value_hint_A", "IPv4 주소");
   ("rewrites.value_hint_AAAA", "IPv6 주소");
   ("rewrites.value_hint_CNAME", "정상적으로 확인되는 대상 호스트 이름");
   ("rewrites.description", "설명");
   ("rewrites.enabled", "사용");
   ("rewrites.save", "재작성 저장");
   ("rewrites.empty_title", "DNS 재작성 없음");
   ("rewrites.empty_text", "영역을 만들지 않고 nas.home 같은 이름을 주소에 매핑합니다.");
   ("rewrites.col_notes", "참고");
   ("rewrites.blocked_hint", "차단 목록이 먼저 차단합니다");
   ("rewrites.overrides_hint", "로컬 영역을 덮어씀");
   ("rewrites.edit", "편집");
   ("rewrites.delete", "삭제");
   ("rewrites.delete_confirm", "이 재작성을 삭제하시겠습니까?");
   ("rewrites.toggle", "재작성 사용/사용 안 함:");
   ("rewrites.search", "재작성 필터");
   ("rewrites.load_failed", "재작성을 불러올 수 없습니다");
   ("rewrites.save_failed", "재작성을 저장할 수 없습니다");
   ("rewrites.saved", "재작성을 저장하고 적용했습니다.");
   ("app.nav.clients", "클라이언트");
   ("app.title.clients", "클라이언트 및 장치");
   ("app.subtitle.clients", "주소와 네트워크에 Velora 전체에서 쓰이는 이름을 지정합니다.");
   ("clients.count", "개의 클라이언트");
   ("clients.add", "클라이언트 추가");
   ("clients.add_title", "새 클라이언트");
   ("clients.edit_title", "클라이언트 편집");
   ("clients.form_hint", "네트워크가 겹치면 가장 구체적인 것이 우선합니다. DHCP 장치에는 이름을 지정하기 전에 고정 주소를 할당하세요.");
   ("clients.name", "이름");
   ("clients.addresses", "주소");
   ("clients.addresses_hint", "IP 주소 또는 CIDR 네트워크를 쉼표로 구분.");
   ("clients.group", "그룹");
   ("clients.description", "설명");
   ("clients.enabled", "사용");
   ("clients.save", "클라이언트 저장");
   ("clients.activity", "최근 24시간");
   ("clients.queries", "쿼리");
   ("clients.last_seen", "마지막 확인");
   ("clients.no_activity", "쿼리 없음");
   ("clients.view_queries", "쿼리 보기");
   ("clients.empty_title", "이름이 지정된 클라이언트 없음");
   ("clients.empty_text", "TV나 Home Assistant 같은 장치에 이름을 지정하면 쿼리 로그에서 쉽게 알아볼 수 있습니다.");
   ("clients.unnamed_title", "최근 확인된 이름 없는 주소");
   ("clients.unnamed_text", "최근 24시간 동안 어떤 클라이언트와도 일치하지 않는 가장 활발한 주소.");
   ("clients.name_it", "이 장치 이름 지정");
   ("clients.edit", "편집");
   ("clients.delete", "삭제");
   ("clients.delete_confirm", "클라이언트를 삭제하시겠습니까:");
   ("clients.toggle", "클라이언트 사용/사용 안 함");
   ("clients.load_failed", "클라이언트를 불러올 수 없습니다");
   ("clients.save_failed", "클라이언트를 저장할 수 없습니다");
   ("clients.saved", "클라이언트를 저장했습니다.");
   ("clients.logging_off", "클라이언트 활동을 보려면 쿼리 로그를 사용하세요.");
   ("app.nav.policies", "클라이언트 정책");
   ("app.title.policies", "클라이언트별 필터링 정책");
   ("app.subtitle.policies", "클라이언트별 차단 방식을 선택합니다.");
   ("policies.load_failed", "정책을 불러오지 못했습니다.");
   ("policies.save_failed", "정책을 저장하지 못했습니다.");
   ("policies.saved", "정책을 저장했습니다.");
   ("policies.lookup", "주소 확인");
   ("policies.add", "정책 추가");
   ("policies.add_title", "새 정책");
   ("policies.edit_title", "정책 편집");
   ("policies.form_hint", "주소에 적용되는 정책은 가장 구체적인 클라이언트 네트워크가 결정합니다.");
   ("policies.client", "클라이언트");
   ("policies.mode", "필터링");
   ("policies.mode_default", "전역");
   ("policies.mode_disabled", "필터링 안 함");
   ("policies.mode_custom", "사용자 지정");
   ("policies.mode_default_hint", "다른 클라이언트와 같은 차단·허용 목록을 사용합니다.");
   ("policies.mode_disabled_hint", "이 클라이언트에서는 아무것도 차단하지 않습니다.");
   ("policies.mode_custom_hint", "선택한 차단 목록과 직접 지정한 도메인만 사용합니다.");
   ("policies.blocklists", "차단 목록");
   ("policies.no_sources", "아직 차단 목록이 없습니다.");
   ("policies.globally_off", "전역 비활성");
   ("policies.block", "추가 차단");
   ("policies.allow", "항상 허용");
   ("policies.domains_hint", "한 줄에 도메인 하나, 하위 도메인 포함.");
   ("policies.allow_hint", "이 클라이언트에서는 모든 차단 목록보다 우선합니다.");
   ("policies.enabled", "정책 활성");
   ("policies.save", "정책 저장");
   ("policies.empty_title", "클라이언트 정책 없음");
   ("policies.empty_text", "모든 클라이언트가 전역 차단 목록을 사용합니다. 정책을 추가해 기기별로 더 엄격하게, 느슨하게, 또는 필터링 없이 설정하세요.");
   ("policies.need_clients", "정책은 이름이 지정된 클라이언트에 적용됩니다. 먼저 기기 이름을 지정하세요:");
   ("policies.details", "세부 정보");
   ("policies.summary_disabled", "모든 쿼리를 필터링 없이 응답합니다");
   ("policies.summary_default", "전역 차단 목록 사용");
   ("policies.no_lists", "차단 목록 없음");
   ("policies.blocked_short", "개 차단");
   ("policies.allowed_short", "개 허용");
   ("policies.paused", "일시 중지");
   ("policies.toggle", "정책 활성");
   ("policies.edit", "정책 편집");
   ("policies.delete", "정책 삭제");
   ("policies.delete_confirm", "다음의 정책을 삭제할까요:");
   ("policies.no_policy", "(정책 없음, 전역 필터링)");
   ("policies.unknown_address", "은(는) 어떤 클라이언트와도 일치하지 않아 전역 필터링을 사용합니다.");
   ("app.nav.webhooks", "웹훅");
   ("app.title.webhooks", "웹훅 알림");
   ("app.subtitle.webhooks", "중요한 이벤트를 다른 시스템으로 보냅니다.");
   ("webhooks.load_failed", "웹훅을 불러오지 못했습니다.");
   ("webhooks.save_failed", "웹훅을 저장하지 못했습니다.");
   ("webhooks.saved", "웹훅을 저장했습니다.");
   ("webhooks.count", "개 웹훅");
   ("webhooks.add", "웹훅 추가");
   ("webhooks.add_title", "새 웹훅");
   ("webhooks.edit_title", "웹훅 편집");
   ("webhooks.form_hint", "일치하는 이벤트마다 JSON POST 요청을 보냅니다. 전송은 백그라운드에서 이루어져 DNS 응답을 지연시키지 않습니다.");
   ("webhooks.name", "이름");
   ("webhooks.url", "URL");
   ("webhooks.min_severity", "최소 심각도");
   ("webhooks.severity_info", "정보");
   ("webhooks.severity_warning", "경고");
   ("webhooks.severity_critical", "심각");
   ("webhooks.token", "Bearer 토큰");
   ("webhooks.token_hint", "선택 사항. Authorization 헤더로 전송되며 다시 표시되지 않습니다.");
   ("webhooks.token_stored", "토큰 저장됨");
   ("webhooks.token_change", "변경");
   ("webhooks.token_remove_hint", "비워 두면 토큰을 삭제합니다")].

Definition ko_6 : list (string * string) :=
  [("webhooks.events", "이벤트");
   ("webhooks.events_hint", "아무것도 선택하지 않으면 모든 유형을 받습니다.");
   ("webhooks.all_events", "모든 이벤트");
   ("webhooks.allow_private", "사설 네트워크 대상 허용 (예: LAN의 Home Assistant)");
   ("webhooks.enabled", "웹훅 활성");
   ("webhooks.save", "웹훅 저장");
   ("webhooks.empty_title", "웹훅 없음");
   ("webhooks.empty_text", "웹훅을 추가하면 업스트림 장애, 차단 목록 갱신 실패, 백업 실패를 알림받을 수 있습니다.");
   ("webhooks.last_delivery", "마지막 전송");
   ("webhooks.never", "아직 전송 없음");
   ("webhooks.failing", "실패 중");
   ("webhooks.toggle", "웹훅 활성");
   ("webhooks.test", "테스트 전송");
   ("webhooks.test_ok", "테스트 전송 완료:");
   ("webhooks.test_failed", "테스트 실패:");
   ("webhooks.edit", "웹훅 편집");
   ("webhooks.delete", "웹훅 삭제");
   ("webhooks.delete_confirm", "다음 웹훅을 삭제할까요:");
   ("app.nav.analytics", "분석");
   ("app.title.analytics", "분석");
   ("app.subtitle.analytics", "보관된 쿼리 기록 기반의 DNS 활동과 리졸버 성능.");
   ("analytics.load_failed", "분석을 불러오지 못했습니다.");
   ("analytics.logging_off_title", "쿼리 기록이 꺼져 있습니다");
   ("analytics.logging_off_text", "분석은 보관된 쿼리 기록으로 만들어집니다. 쿼리 기록을 켜세요:");
   ("analytics.range", "기간");
   ("analytics.range_1h", "1시간");
   ("analytics.range_24h", "24시간");
   ("analytics.range_7d", "7일");
   ("analytics.range_30d", "30일");
   ("analytics.history_limited", "쿼리 기록은 다음 시점까지만 있습니다:");
   ("analytics.queries", "쿼리");
   ("analytics.blocked", "차단");
   ("analytics.allowed", "허용");
   ("analytics.cached", "캐시 응답");
   ("analytics.answers", "개 응답");
   ("analytics.avg_upstream", "평균 업스트림 시간");
   ("analytics.empty_title", "이 기간에 쿼리가 없습니다");
   ("analytics.empty_text", "더 긴 기간을 선택하거나 나중에 다시 확인하세요.");
   ("analytics.over_time", "시간별 쿼리");
   ("analytics.over_time_hint", "마우스나 화살표 키로 구간을 확인하세요.");
   ("analytics.chart_aria", "시간 구간별 쿼리 (허용 및 차단)");
   ("analytics.show_table", "표로 보기");
   ("analytics.time", "시간");
   ("analytics.avg_time", "평균 시간");
   ("analytics.latency", "업스트림 응답 시간");
   ("analytics.latency_hint", "전달되어 응답된 쿼리의 평균이며, 빈 구간은 업스트림 트래픽이 없음을 뜻합니다.");
   ("analytics.latency_aria", "시간 구간별 평균 업스트림 응답 시간");
   ("analytics.query_types", "쿼리 유형");
   ("analytics.sources", "응답 출처");
   ("analytics.source_upstream", "업스트림");
   ("analytics.source_cache", "캐시");
   ("analytics.source_blocked", "차단");
   ("analytics.source_local", "로컬 영역 및 재작성");
   ("analytics.source_refused", "거부");
   ("analytics.response_codes", "응답 코드");
   ("analytics.top_blocked", "가장 많이 차단된 도메인");
   ("analytics.nothing_blocked", "이 기간에 차단 없음");
   ("analytics.upstreams", "업스트림 사용량");
   ("analytics.upstreams_hint", "리졸버별 전달 쿼리, SERVFAIL 응답, 평균 응답 시간.");
   ("analytics.no_upstream", "이 기간에 업스트림 트래픽 없음");
   ("analytics.failures", "실패");
   ("updates.check_prompt", "새 버전이 있는지 확인합니다.");
   ("updates.checking", "업데이트 확인 중…");
   ("updates.starting", "업데이트를 시작하는 중…");
   ("updates.updating_to", "업데이트 대상:");
   ("updates.completed_to", "업데이트 완료:");
   ("updates.failed_title", "업데이트가 완료되지 않았습니다");
   ("updates.failed_text", "업데이트에 실패했습니다. 이전 버전으로 계속 실행됩니다.");
   ("updates.not_started", "업데이트가 시작되지 않았습니다. velora-updater.service가 실행 중인지 확인하세요.");
   ("updates.check_again", "다시 확인");
   ("updates.update_now", "업데이트");
   ("updates.reload", "페이지 새로고침");
   ("updates.reconnecting", "Velora를 다시 시작하는 중입니다. 기다리는 중…");
   ("updates.keep_open", "이 페이지를 열어 두면 자동으로 갱신됩니다. 전환 전까지 DNS는 현재 버전으로 응답합니다.");
   ("updates.completed_text", "업데이트가 완료되어 상태 점검을 통과했습니다. 새 화면을 불러오려면 페이지를 새로고침하세요.");
   ("updates.release_date", "출시일");
   ("settings.entry", "항목");
   ("settings.fix_fields", "아무것도 변경되지 않았습니다. 표시된 항목을 고친 뒤 다시 시도하세요.");
   ("settings.restart_required", "아무것도 변경되지 않았습니다. 표시된 항목은 재시작 후 적용됩니다. 설정 파일을 수정하고 Velora DNS를 다시 시작하세요.");
   ("settings.restart_field", "재시작 필요");
   ("settings.check", "확인");
   ("settings.check_ok", "이 설정은 유효하며 재시작 없이 적용할 수 있습니다.");
   ("restore.title", "백업 복원");
   ("restore.hint", "암호화된 백업을 업로드해 먼저 확인하세요. 확인하기 전에는 아무것도 바뀌지 않으며, 이후 Velora가 재시작하고 안전 사본을 보관하며 시작하지 못하면 자동으로 되돌립니다.");
   ("restore.file", "백업 파일 (.vdns)");
   ("restore.inspect", "백업 확인");
   ("restore.inspecting", "확인 중…");
   ("restore.inspect_failed", "백업을 확인하지 못했습니다.");
   ("restore.review_title", "백업이 유효합니다");
   ("restore.created", "생성");
   ("restore.version", "Velora 버전");
   ("restore.schema", "데이터베이스 스키마");
   ("restore.contents", "내용");
   ("restore.zones", "영역");
   ("restore.records", "레코드");
   ("restore.blocklists", "차단 목록");
   ("restore.rewrites", "재작성");
   ("restore.forward_rules", "전달 규칙");
   ("restore.clients", "클라이언트");
   ("restore.users", "사용자");
   ("restore.listeners", "수신 주소");
   ("restore.web", "웹");
   ("restore.confirm", "현재 설정과 데이터를 이 백업으로 바꿉니다. 현재 상태의 안전 사본은 보관됩니다.");
   ("restore.restore", "복원 후 재시작");
   ("restore.schedule_failed", "복원을 시작하지 못했습니다.");
   ("restore.manual_restart", "복원이 예약되었습니다. 적용하려면 Velora DNS를 다시 시작하세요.");
   ("restore.restarting", "백업을 적용하기 위해 다시 시작하는 중입니다. 돌아오면 이 페이지가 갱신됩니다.");
   ("restore.signed_out", "복원된 데이터로 Velora가 다시 시작되었습니다. 백업에 있는 계정으로 다시 로그인하세요.");
   ("restore.again", "다른 백업 복원");
   ("restore.backup_from", "백업:");
   ("restore.safety_copy", "이전 상태 보관 위치:");
   ("restore.state_completed", "복원이 완료되었습니다.");
   ("restore.state_rolled_back", "복원이 롤백되었습니다.");
   ("restore.state_failed", "복원에 실패했습니다.");
   ("restore.state_applied", "복원이 적용되었습니다. 준비를 기다리는 중.");
   ("restore.state_pending", "복원이 예약되었습니다.");
   ("restore.passphrase", "백업 암호 문구");
   ("app.scrollable_table", "가로로 스크롤됨");
   ("palette.title", "명령 팔레트");
   ("palette.placeholder", "페이지, 영역, 레코드, 클라이언트 검색…");
   ("palette.results", "결과");
   ("palette.pages", "페이지");
   ("palette.actions", "작업");
   ("palette.kind_zone", "영역");
   ("palette.kind_record", "레코드");
   ("palette.kind_client", "클라이언트");
   ("palette.kind_rewrite", "DNS 재작성");
   ("palette.kind_forwarding", "조건부 전달");
   ("palette.kind_blocklist", "차단 목록");
   ("palette.no_results", "일치 항목 없음.");
   ("palette.navigate", "이동");
   ("palette.open", "열기");
   ("palette.toggle", "열기/닫기");
   ("palette.open_button", "검색");
   ("palette.add_client", "클라이언트 추가");
   ("palette.create_backup", "백업 만들기");
   ("cluster.action_failed", "클러스터 작업에 실패했습니다.");
   ("cluster.never", "없음");
   ("cluster.role", "역할");
   ("cluster.role_standalone", "단독");
   ("cluster.role_primary", "클러스터 기본 노드");
   ("cluster.role_replica", "클러스터 복제본");
   ("cluster.replicas", "복제본");
   ("cluster.in_sync_count", "동기화됨");
   ("cluster.revision", "영역 리비전");
   ("cluster.zones_replicated", "개 영역 복제됨");
   ("cluster.last_sync", "마지막 동기화");
   ("cluster.sync_failed", "마지막 동기화 실패")].

Definition ko_7 : list (string * string) :=
  [("cluster.sync_ok", "기본 노드와 최신 상태");
   ("cluster.members", "복제본");
   ("cluster.members_hint", "이 기본 노드의 영역을 복제하는 노드입니다. 30초마다 확인합니다.");
   ("cluster.add_node", "노드 추가");
   ("cluster.token_title", "참가 토큰 생성됨");
   ("cluster.token_steps", "새 노드에서 클러스터 → 클러스터 참가를 열고 다음을 입력하세요:");
   ("cluster.token_expires", "토큰 만료:");
   ("cluster.token_once", "한 번만 사용할 수 있으며 다시 표시되지 않습니다.");
   ("cluster.copy_token", "토큰 복사");
   ("cluster.copied", "복사됨");
   ("cluster.token_done", "완료");
   ("cluster.no_members", "아직 복제본 없음");
   ("cluster.no_members_text", "노드를 추가해 두 번째 Velora DNS 서버용 참가 토큰을 만드세요.");
   ("cluster.status_in_sync", "동기화됨");
   ("cluster.status_behind", "따라잡는 중");
   ("cluster.status_stale", "응답 없음");
   ("cluster.status_error", "동기화 오류");
   ("cluster.status_never_synced", "첫 동기화 대기 중");
   ("cluster.remove", "노드 제거");
   ("cluster.remove_confirm", "이 복제본을 제거할까요? 영역 업데이트를 더 이상 받지 않습니다:");
   ("cluster.removed", "복제본을 제거했습니다.");
   ("cluster.dissolve", "클러스터 해체");
   ("cluster.dissolve_hint", "모든 복제본을 해제하고 이 노드를 다시 단독으로 만듭니다. 복제본은 마지막 영역 사본을 유지합니다.");
   ("cluster.dissolve_confirm", "클러스터를 해체하고 모든 복제본을 해제할까요?");
   ("cluster.dissolved", "클러스터를 해체했습니다.");
   ("cluster.replica_title", "기본 노드에서 복제 중");
   ("cluster.replica_hint", "이 노드의 영역은 기본 노드에서 복제되며 여기서는 읽기 전용입니다. 다른 설정은 로컬로 유지됩니다.");
   ("cluster.replica_ok", "복제가 정상 동작 중입니다.");
   ("cluster.sync_now", "지금 동기화");
   ("cluster.leave", "클러스터 탈퇴");
   ("cluster.leave_confirm", "클러스터를 탈퇴할까요? 이 노드는 현재 영역을 유지하며 다시 편집할 수 있습니다.");
   ("cluster.left", "이 노드가 클러스터를 탈퇴했습니다.");
   ("cluster.primary_url", "기본 노드 URL");
   ("cluster.cluster_id", "클러스터 ID");
   ("cluster.node_id", "노드 ID");
   ("cluster.join_token", "참가 토큰");
   ("cluster.standalone_title", "이 노드는 단독입니다");
   ("cluster.standalone_viewer", "관리자는 클러스터를 만들거나 이 노드를 클러스터에 참가시킬 수 있습니다.");
   ("cluster.scope_note", "클러스터는 여러 Velora DNS 서버의 로컬 영역을 동일하게 유지합니다. 기본 노드가 변경을 받고 복제본이 30초마다 복사합니다. 자동 장애 조치는 없으며 다른 설정은 노드별입니다.");
   ("cluster.create_title", "클러스터 만들기");
   ("cluster.create_hint", "이 노드가 기본 노드가 되며 영역이 모든 복제본에 복사됩니다.");
   ("cluster.node_name", "노드 이름");
   ("cluster.advertised_url", "다른 노드가 사용할 주소");
   ("cluster.advertised_hint", "복제본에서 보이는 이 노드의 웹 인터페이스 URL.");
   ("cluster.allow_http", "암호화되지 않은 HTTP 허용 (신뢰할 수 있는 네트워크만)");
   ("cluster.skip_check", "도달 가능성 확인 건너뛰기");
   ("cluster.create", "클러스터 만들기");
   ("cluster.created", "클러스터를 만들었습니다. 노드를 추가해 복제본을 초대하세요.");
   ("cluster.join_title", "클러스터 참가");
   ("cluster.join_hint", "이 노드를 기존 기본 노드의 복제본으로 만듭니다. 먼저 기본 노드에서 참가 토큰을 만드세요.");
   ("cluster.join_warning", "참가하면 이 노드의 로컬 영역이 기본 노드의 영역으로 대체됩니다. 다른 설정은 바뀌지 않습니다.");
   ("cluster.join_confirm", "클러스터에 참가하고 이 노드의 영역을 기본 노드 것으로 바꿀까요?");
   ("cluster.join", "클러스터 참가");
   ("cluster.joined", "이 노드가 클러스터에 참가해 기본 노드의 영역을 복사하고 있습니다.");
   ("cluster.zones_read_only", "이 노드는 클러스터 복제본입니다. 영역은 기본 노드에서 복사되며 그곳에서만 변경할 수 있습니다.")].

Definition ko : list (string * string) :=
  (ko_1 ++ ko_2 ++ ko_3 ++ ko_4 ++ ko_5 ++ ko_6 ++ ko_7)%list.
