(* ===== verification/Translations.v ===== *)
(** * The catalogs together: [dictionaries] of web/src/i18n/index.ts

    The ten catalogs behind [translate], and what they guarantee to the pages:
    every language has a text of its own for every key. *)
From Stdlib Require Import Mergesort Orders.
From S2P Require Import Prelude JsString Http Api Components Preferences.
From S2P Require Import I18nEn I18nDe I18nEs I18nPtBR I18nNl I18nPl I18nCs I18nSv I18nJa I18nKo.
Local Open Scope velora_scope.
Local Open Scope string_scope.

Definition dictionaries (l : Language) : dictionary :=
  match l with
  | l_en => en | l_de => de | l_es => es | l_pt_BR => pt_BR | l_nl => nl
  | l_pl => pl | l_cs => cs | l_sv => sv | l_ja => ja | l_ko => ko
  end.

(** * Checks

    Both are close to linear, so that the kernel can run them: sorting, and
    removing one list's keys from another in order. *)

Module KeyOrder <: TotalLeBool.
Definition t := string.
Definition leb (a b : string) : bool := match String.compare a b with Gt => false | _ => true end.
Lemma leb_total : forall a b, leb a b = true \/ leb b a = true.
Proof. intros a b. unfold leb. rewrite (String.compare_antisym b a). destruct (String.compare a b); auto. Qed.
End KeyOrder.
Module KeySort := Sort KeyOrder.

Fixpoint increasing (l : list string) : bool :=
  match l with
  | a :: (b :: _) as l' => match String.compare a b with Lt => increasing l' | _ => false end
  | _ => true
  end.

Definition distinct (l : list string) : bool := increasing (KeySort.sort l).

Fixpoint remove_key (k : string) (l : list string) : option (list string) :=
  match l with
  | [] => None
  | x :: l' => if String.eqb k x then Some l'
               else match remove_key k l' with Some r => Some (x :: r) | None => None end
  end.

Fixpoint same_keys (a b : list string) : bool :=
  match a with
  | [] => negb (nonempty b)
  | k :: a' => match remove_key k b with Some b' => same_keys a' b' | None => false end
  end.

Module TranslationsFacts.

Lemma remove_key_perm k l r : remove_key k l = Some r -> l ≡ₚ k :: r.
Proof.
  revert r. induction l as [|x l IH]; intros r; simpl; [done|].
  destruct (String.eqb_spec k x) as [->|]; [intros [= <-]; done|].
  destruct (remove_key k l) as [r'|]; [|done]. intros [= <-]. rewrite (IH r' eq_refl). apply Permutation_swap.
Qed.

Lemma same_keys_perm a b : same_keys a b = true -> a ≡ₚ b.
Proof.
  revert b. induction a as [|k a IH]; intros b; simpl; [by destruct b|].
  destruct (remove_key k b) as [b'|] eqn:E; [|done]. intros H.
  rewrite (remove_key_perm _ _ _ E). by rewrite (IH b' H).
Qed.

Lemma compare_lt_trans a b c :
  String.compare a b = Lt -> String.compare b c = Lt -> String.compare a c = Lt.
Proof.
  intros Hab Hbc. destruct (String.compare a c) eqn:E; [| done |].
  - apply String.compare_eq_iff in E as ->. rewrite String.compare_antisym, Hbc in Hab. done.
  - exfalso. apply (compare_trans a b c); congruence.
Qed.

Lemma increasing_NoDup l : increasing l = true -> List.NoDup l.
Proof.
  assert (forall a l, increasing (a :: l) = true -> Forall (fun b => String.compare a b = Lt) l) as Hall.
  { intros a l'. revert a. induction l' as [|b l' IH]; intros a H; [constructor|].
    simpl in H. destruct (String.compare a b) eqn:E; try done. constructor; [done|].
    eapply Forall_impl; [by apply (IH b)|]. intros c Hc. by eapply compare_lt_trans. }
  induction l as [|a l IH]; intros H; [constructor|]. constructor.
  - intros Hin. pose proof (Hall a l H) as Hf. rewrite List.Forall_forall in Hf. specialize (Hf a Hin).
    pose proof (String.compare_antisym a a) as Hself. by rewrite Hf in Hself.
  - apply IH. destruct l as [|b l]; [done|]. simpl in H. by destruct (String.compare a b).
Qed.

Lemma distinct_NoDup l : distinct l = true -> List.NoDup l.
Proof.
  intros H. eapply Permutation.Permutation_NoDup; [symmetry; apply KeySort.Permuted_sort|].
  by apply increasing_NoDup.
Qed.

Lemma assoc_keys {A} k (l : list (string * A)) : assoc k l = None <-> ~ In k (map fst l).
Proof.
  induction l as [|[k' v] l IH]; simpl; [tauto|].
  destruct (String.eqb_spec k k') as [->|]; [split; [done|tauto]|]. rewrite IH. intuition congruence.
Qed.

Definition texts_ok (d : dictionary) : bool := forallb (fun '(_, v) => negb (all_space v)) d.

Lemma assoc_In {A} k (l : list (string * A)) v : assoc k l = Some v -> In (k, v) l.
Proof.
  induction l as [|[k' v'] l IH]; simpl; [done|].
  destruct (String.eqb_spec k k') as [->|]; [intros [= ->]; by left|]. intros H. right. by apply IH.
Qed.

Lemma all_space_trim v : trim v = "" -> all_space v = true.
Proof.
  unfold trim. rewrite <- (all_space_trimEnd v). induction v as [|c v IH]; [done|]. intros H.
  simpl trimStart in H. destruct (is_space c) eqn:E.
  - rewrite all_space_trimEnd. simpl. rewrite E. simpl. rewrite <- (all_space_trimEnd v). by apply IH.
  - by rewrite H.
Qed.

Lemma catalog_keys l : same_keys (map fst (dictionaries l)) (map fst en) = true.
Proof. destruct l; vm_compute; reflexivity. Qed.

Lemma catalog_texts l : texts_ok (dictionaries l) = true.
Proof. destruct l; vm_compute; reflexivity. Qed.

Lemma english_distinct : distinct (map fst en) = true.
Proof. vm_compute. reflexivity. Qed.

Lemma catalog_distinct l : List.NoDup (map fst (dictionaries l)).
Proof.
  eapply Permutation.Permutation_NoDup; [symmetry; exact (same_keys_perm _ _ (catalog_keys l))|].
  apply distinct_NoDup, english_distinct.
Qed.

Lemma catalog_text l key :
  match assoc key en with
  | Some _ => exists v, assoc key (dictionaries l) = Some v /\ trim v <> "" /\
                        translate dictionaries l key = v
  | None => translate dictionaries l key = key
  end.
Proof.
  pose proof (same_keys_perm _ _ (catalog_keys l)) as Hp.
  assert (assoc key (dictionaries l) = None <-> assoc key en = None) as Hn.
  { rewrite !assoc_keys. by rewrite <- !list_elem_of_In, Hp. }
  unfold translate. destruct (assoc key en) as [w|] eqn:E.
  - destruct (assoc key (dictionaries l)) as [v|] eqn:Ev; [|discriminate (proj1 Hn eq_refl)].
    exists v. split_and!; [done| |done]. intros Hb. apply all_space_trim in Hb.
    pose proof (catalog_texts l) as Ht. unfold texts_ok in Ht. rewrite forallb_forall in Ht.
    specialize (Ht _ (assoc_In _ _ _ Ev)). cbn in Ht. by rewrite Hb in Ht.
  - rewrite (proj2 Hn eq_refl). change (dictionaries l_en) with en. by rewrite E.
Qed.

(** C26: the catalogs are complete: in every language the keys are those of
    English, each once, and no text is blank; so [translate] shows the
    language's own text for every known key, and the key itself only for one no
    catalog has. *)
Theorem catalogs_complete l key :
  List.NoDup (map fst (dictionaries l)) /\
  match assoc key en with
  | Some _ => exists v, assoc key (dictionaries l) = Some v /\ trim v <> "" /\
                        translate dictionaries l key = v
  | None => translate dictionaries l key = key
  end.
Proof. split; [apply catalog_distinct|apply catalog_text]. Qed.
End TranslationsFacts.
