(* ===== verification/PageTexts.v ===== *)
(** * The texts the pages ask for

    Every page takes its texts from [t]. Here the views are compared under two
    functions [t] that agree on the catalog: a view that comes out the same has
    asked for nothing else. *)
From S2P Require Import Prelude JsString JsNumber Http Api Resources React Runtime Components.
From S2P Require Import Rewrites Clients Forwarding ZoneForms Zones Policies Webhooks Blocklists CachePage QueryLog.
From S2P Require Import Dhcp UpdateCenter Backup Cluster Support Dashboard Analytics Preferences Settings Session.
From S2P Require Import CommandPalette App I18nEn Translations.
Local Open Scope velora_scope.
Local Open Scope string_scope.

(** A key of the catalogs, which all have the keys of the English one. *)
Definition known (k : string) : bool := opt_is_some (assoc k en).

(** The view depends on [t] only through the catalog's keys and the keys [open s],
    which are built from strings the server is free to choose. *)
Definition asks_only {P S E : Type} (view : (string -> string) -> P -> S -> list (node E))
    (open : S -> list string) : Prop :=
  forall t1 t2 p s, (forall k, known k = true -> t1 k = t2 k) -> (forall k, In k (open s) -> t1 k = t2 k) ->
    view t1 p s = view t2 p s.

(** The keys of update states, backup states, explained results and sources. *)
Definition update_keys (s : UpdateCenter.State) : list string :=
  map (fun x => "updates.state_" +:+ ue_state x) (UpdateCenter.history s ?? []).
Definition backup_keys (s : BackupAssistant.State) : list string :=
  match BackupAssistant.status s with
  | Some st => ["backup.state_" +:+ BackupAssistant.verification_state st]
  | None => []
  end.
Definition result_keys (s : AnswerExplainer.State) : list string :=
  match AnswerExplainer.result s with
  | Some r => map (fun step => "explain.result." +:+ es_result step) (ae_steps r)
  | None => []
  end.
Definition source_keys (s : AnalyticsPage.State) : list string :=
  match AnalyticsPage.data s with
  | Some d => map (fun i => "analytics.source_" +:+ qr_value i) (an_sources d)
  | None => []
  end.

Module PageTextsFacts.

(** ** Comparing views *)

Lemma each_ext {A E} (l : list A) (f g : A -> list (node E)) :
  (forall x, In x l -> f x = g x) -> each l f = each l g.
Proof. intros H. unfold each. rewrite !flat_map_concat_map. f_equal. by apply map_ext_in. Qed.
Lemma imap_ext_all {A B} (l : list A) (f g : nat -> A -> B) : (forall i x, f i x = g i x) -> imap f l = imap g l.
Proof. intros H. apply imap_ext. auto. Qed.
Lemma when_some_ext {A E} (o : option A) (f g : A -> list (node E)) :
  (forall x, o = Some x -> f x = g x) -> when_some o f = when_some o g.
Proof. intros H. destruct o; [by apply H|done]. Qed.

Ltac ext_head x := match x with ?f _ => ext_head f | _ => x end.
Ltac takes x t := match x with ?f t => idtac | ?f _ => takes f t end.

(** A key that is known: a literal, or a prefix with a value of an enumeration. *)
Ltac known_key :=
  match goal with
  | |- known (_ +:+ ?f ?x) = true => destruct x; vm_compute; reflexivity
  | |- known (_ +:+ ?f ?x +:+ _) = true => destruct x; vm_compute; reflexivity
  | |- known (match ?b with _ => _ end) = true => destruct b; vm_compute; reflexivity
  | |- known (String _ _) = true => vm_compute; reflexivity
  end.

(** Compare two views top down: [t] itself on known keys, the bodies of the
    definitions that take [t], both cases of a test, and otherwise part by part. *)
Ltac ext_step :=
  match goal with
  | |- ?x = ?y => constr_eq x y; reflexivity
  | H : forall k, known k = true -> ?t1 k = ?t2 k |- ?t1 ?k = ?t2 ?k => apply H; known_key
  | |- each _ _ = each _ _ => apply each_ext; intros ? ?
  | |- imap _ _ = imap _ _ => apply imap_ext_all; intros ? ?
  | |- map _ ?l = map _ ?l => apply map_ext_in; intros ? ?
  | |- when_some ?o _ = when_some ?o _ => apply when_some_ext; intros ? ?
  | |- (match ?x with _ => _ end) = (match ?x with _ => _ end) => destruct x eqn:?
  | H : forall k, known k = true -> ?t1 k = ?t2 k |- ?x = ?y => takes x t1; let f := ext_head x in unfold f
  | |- _ = _ => progress f_equal
  end.
Ltac ext_view := repeat ext_step.

Section Pages.
Context {L : Locale} (language : string) (theme : Theme).
Context (t1 t2 : string -> string) (Ht : forall k, known k = true -> t1 k = t2 k).

Lemma schedules_known x : In x Blocklists.SCHEDULES -> known (Blocklists.key x) = true.
Proof.
  assert (forallb (fun x => known (Blocklists.key x)) Blocklists.SCHEDULES = true) as H by (vm_compute; reflexivity).
  rewrite forallb_forall in H. apply H.
Qed.

Lemma blocklists_ext p s : Blocklists.view t1 language p s = Blocklists.view t2 language p s.
Proof. ext_view; by apply Ht, schedules_known. Qed.

Lemma steps_from_ext i cur : UpdateCenter.steps_from t1 i cur UpdateCenter.STEPS = UpdateCenter.steps_from t2 i cur UpdateCenter.STEPS.
Proof.
  cbn [UpdateCenter.steps_from UpdateCenter.STEPS]. unfold UpdateCenter.stateLabel.
  by rewrite !(fun k => Ht k) by (vm_compute; reflexivity).
Qed.

Lemma update_ext p s :
  (forall k, In k (update_keys s) -> t1 k = t2 k) -> UpdateCenter.view t1 language p s = UpdateCenter.view t2 language p s.
Proof.
  intros Ho. unfold update_keys in Ho. ext_view.
  - apply steps_from_ext.
  - rewrite Ho; [done|]. apply in_map_iff. exists x. split; [done|].
    done.
Qed.

Lemma backup_ext p s :
  (forall k, In k (backup_keys s) -> t1 k = t2 k) -> BackupAssistant.view t1 p s = BackupAssistant.view t2 p s.
Proof.
  intros Ho. unfold backup_keys in Ho. ext_view. rewrite Ho; [done|].
  match goal with H : BackupAssistant.status s = _ |- _ => rewrite H end. by left.
Qed.

Lemma audit_ext p s : AuditLog.view t1 p s = AuditLog.view t2 p s.
Proof.
  ext_view. apply Ht. match goal with H : one_of ?r _ = true |- _ => revert H; generalize r end. intros v. cbn.
  destruct (String.eqb_spec v "success") as [->|_]; [vm_compute; reflexivity|].
  destruct (String.eqb_spec v "failure") as [->|_]; [vm_compute; reflexivity|]. done.
Qed.

Lemma explain_ext p s :
  (forall k, In k (result_keys s) -> t1 k = t2 k) -> AnswerExplainer.view t1 p s = AnswerExplainer.view t2 p s.
Proof.
  intros Ho. unfold result_keys in Ho. ext_view. apply Ho.
  match goal with H : AnswerExplainer.result s = _ |- _ => rewrite H end. apply in_map_iff. by eexists.
Qed.

Lemma charts_ext s d :
  (forall i, In i (an_sources d) -> t1 ("analytics.source_" +:+ qr_value i) = t2 ("analytics.source_" +:+ qr_value i)) ->
  AnalyticsPage.charts t1 language s d = AnalyticsPage.charts t2 language s d.
Proof.
  intros Ho. unfold AnalyticsPage.charts.
  assert (forall r a, AnalyticsPage.QueryChart t1 language d r a = AnalyticsPage.QueryChart t2 language d r a) as ->
    by (intros; ext_view).
  assert (forall r a, AnalyticsPage.LatencyChart t1 language d r a = AnalyticsPage.LatencyChart t2 language d r a) as ->
    by (intros; ext_view).
  assert (map (AnalyticsPage.source_item t1) (an_sources d) = map (AnalyticsPage.source_item t2) (an_sources d)) as Hs.
  { apply map_ext_in. intros i Hi. unfold AnalyticsPage.source_item. by rewrite Ho. }
  assert (AnalyticsPage.breakdowns t1 language s d = AnalyticsPage.breakdowns t2 language s d) as ->.
  { unfold AnalyticsPage.breakdowns. rewrite Hs. ext_view. }
  ext_view.
Qed.

Lemma analytics_ext p s :
  (forall k, In k (source_keys s) -> t1 k = t2 k) ->
  AnalyticsPage.view t1 language p s = AnalyticsPage.view t2 language p s.
Proof.
  intros Ho. unfold AnalyticsPage.view. f_equal.
  unfold AnalyticsPage.render. destruct (negb _); [by ext_view|].
  assert (AnalyticsPage.toolbar t1 s = AnalyticsPage.toolbar t2 s) as -> by ext_view.
  unfold source_keys in Ho. destruct (AnalyticsPage.data s) as [d|]; [|by ext_view].
  assert (AnalyticsPage.history_notice t1 language d = AnalyticsPage.history_notice t2 language d) as -> by ext_view.
  f_equal. unfold AnalyticsPage.data_panels. rewrite charts_ext by (intros i Hi; apply Ho, in_map_iff; by eexists).
  destruct (AnalyticsPage.charted d); ext_view.
Qed.

(** The palette. *)
Lemma options_ext p s : CommandPalette.options t1 p s = CommandPalette.options t2 p s.
Proof. ext_view. Qed.

Lemma option_rows_ext p s g i l : CommandPalette.option_rows t1 p s g i l = CommandPalette.option_rows t2 p s g i l.
Proof.
  revert g i. induction l as [|o l IH]; intros g i; [done|]. cbn [CommandPalette.option_rows]. rewrite IH.
  unfold CommandPalette.option_body, CommandPalette.current, CommandPalette.size. by rewrite options_ext.
Qed.

Lemma palette_ext p s : CommandPalette.view t1 p s = CommandPalette.view t2 p s.
Proof.
  unfold CommandPalette.view, CommandPalette.input_row, CommandPalette.current, CommandPalette.size.
  rewrite !options_ext, option_rows_ext. ext_view.
Qed.

(** The shell: navigation, titles and the palette's entries. *)
Definition item_known (i : App.NavItem) : bool :=
  known ("app.nav." +:+ App.key i) && known ("app.title." +:+ App.key i).
Definition entry_known (x : App.NavEntry) : bool :=
  match x with App.Link i => item_known i | App.Group label_ items => known label_ && forallb item_known items end.

Lemma nav_known x : In x App.NAV -> entry_known x = true.
Proof.
  assert (forallb entry_known App.NAV = true) as H by (vm_compute; reflexivity).
  rewrite forallb_forall in H. apply H.
Qed.

Lemma nav_item_known t p i g : In (i, g) (App.nav_items t p) -> item_known i = true.
Proof.
  unfold App.nav_items. rewrite in_flat_map. intros (x & Hx & Hi). pose proof (nav_known x Hx) as Hk.
  destruct x as [j|label_ items]; cbn in *; [by destruct Hi as [[= <- _]|[]]|].
  apply in_map_iff in Hi as (j & [= <- _] & Hj). apply In_filterb in Hj as [Hj _].
  apply andb_prop in Hk as [_ Hk]. rewrite forallb_forall in Hk. by apply Hk.
Qed.

Lemma nav_items_ext p : App.nav_items t1 p = App.nav_items t2 p.
Proof.
  unfold App.nav_items. rewrite !flat_map_concat_map. f_equal. apply map_ext_in. intros x Hx.
  pose proof (nav_known x Hx) as Hk. destruct x as [i|label_ items]; [done|]. cbn in Hk.
  apply andb_prop in Hk as [Hk _]. rewrite (Ht _ Hk). reflexivity.
Qed.

Lemma pages_ext p : App.palettePages t1 p = App.palettePages t2 p.
Proof.
  unfold App.palettePages. rewrite nav_items_ext. apply map_ext_in. intros [i g] Hi.
  apply nav_item_known in Hi. apply andb_prop in Hi as [H1 H2]. unfold App.page_item. rewrite (Ht _ H1), (Ht _ H2). reflexivity.
Qed.

Lemma nav_entry_ext p s x : In x App.NAV -> App.nav_entry t1 p s x = App.nav_entry t2 p s x.
Proof.
  intros Hx. pose proof (nav_known x Hx) as Hk. destruct x as [i|label_ items]; cbn [entry_known App.nav_entry] in Hk |- *.
  - apply andb_prop in Hk as [Hk _]. rewrite (Ht _ Hk). reflexivity.
  - apply andb_prop in Hk as [Hl Hk]. rewrite (Ht label_ Hl).
    assert (map (App.group_item t1 s) (App.visible_items p items) = map (App.group_item t2 s) (App.visible_items p items))
      as ->; [|done].
    apply map_ext_in. intros i Hi. apply In_filterb in Hi as [Hi _]. rewrite forallb_forall in Hk.
    specialize (Hk i Hi). apply andb_prop in Hk as [Hk _]. unfold App.group_item. rewrite (Ht _ Hk). reflexivity.
Qed.

Lemma route_known p : known ("app.title." +:+ App.routeKey p) = true /\ known ("app.subtitle." +:+ App.routeKey p) = true.
Proof.
  assert (forallb (fun k => known ("app.title." +:+ k) && known ("app.subtitle." +:+ k))
            ("overview" :: map snd App.ROUTE_KEYS) = true) as H by (vm_compute; reflexivity).
  rewrite forallb_forall in H. apply andb_prop, H. unfold App.routeKey.
  destruct (assoc (App.pathname p) App.ROUTE_KEYS) as [k|] eqn:E; [|by left].
  right. apply TranslationsFacts.assoc_In in E. by apply (in_map snd) in E.
Qed.

Lemma app_ext p s : App.view t1 p s = App.view t2 p s.
Proof.
  destruct (route_known p) as [Hti Hsu].
  assert (App.nav_bar t1 p s = App.nav_bar t2 p s) as Hnav.
  { unfold App.nav_bar. rewrite (map_ext_in _ _ _ (nav_entry_ext p s)). ext_view. }
  assert (App.palette t1 p s = App.palette t2 p s) as Hpal.
  { unfold App.palette. rewrite pages_ext. ext_view. }
  assert (App.heading t1 p = App.heading t2 p) as Hhead.
  { unfold App.heading, App.title, App.subtitle. rewrite (Ht _ Hti), (Ht _ Hsu). ext_view. }
  unfold App.view. rewrite Hnav, Hpal, Hhead. ext_view.
Qed.
End Pages.

(** C27: the pages ask for no text that the catalogs do not have. Under any two
    functions [t] that agree on the keys of the catalogs, the shell with its
    navigation and titles, the sign-in form, the palette and every page show the
    same, whatever their props and state: each key a view composes, literal or
    from a route, a record type, a mode, a state or a schedule, is in the
    catalogs. Four pages also use keys made from strings the server is free to
    choose, and no others: the states of past updates, the state of the backup,
    the results of an explanation and the sources of the analytics. (The messages
    handlers put into the state are not covered.) *)
Theorem pages_texts (L : Locale) language theme :
  asks_only (fun t => App.view t) (fun _ => []) /\
  asks_only (fun t => AuthGate.view t) (fun _ => []) /\
  asks_only (fun t => CommandPalette.view t) (fun _ => []) /\
  asks_only (fun t => Dashboard.view t language) (fun _ => []) /\
  asks_only (fun t => Onboarding.view t) (fun _ => []) /\
  asks_only (fun t => Zones.view t) (fun _ => []) /\
  asks_only (fun t => Rewrites.view t) (fun _ => []) /\
  asks_only (fun t => Clients.view t language) (fun _ => []) /\
  asks_only (fun t => Forwarding.view t) (fun _ => []) /\
  asks_only (fun t => Policies.view t) (fun _ => []) /\
  asks_only (fun t => Blocklists.view t language) (fun _ => []) /\
  asks_only (fun t => CachePage.view t language) (fun _ => []) /\
  asks_only (fun t => QueryLog.view t) (fun _ => []) /\
  asks_only (fun t => DHCP.view t) (fun _ => []) /\
  asks_only (fun t => Cluster.view t language) (fun _ => []) /\
  asks_only (fun t => Webhooks.view t language) (fun _ => []) /\
  asks_only (fun t => Settings.view t language theme) (fun _ => []) /\
  asks_only (fun t => RestorePanel.view t language) (fun _ => []) /\
  asks_only (fun t => EventCenter.view t language) (fun _ => []) /\
  asks_only (fun t => AuditLog.view t) (fun _ => []) /\
  asks_only (fun t => Diagnostics.view t) (fun _ => []) /\
  asks_only (fun t => UpdateCenter.view t language) update_keys /\
  asks_only (fun t => BackupAssistant.view t) backup_keys /\
  asks_only (fun t => AnswerExplainer.view t) result_keys /\
  asks_only (fun t => AnalyticsPage.view t language) source_keys.
Proof.
  split_and!; intros t1 t2 p s Ht Ho; cbv beta;
    first [ by apply app_ext | by apply palette_ext | by apply blocklists_ext | by apply audit_ext
          | by apply update_ext | by apply backup_ext | by apply explain_ext | by apply analytics_ext
          | solve [ext_view] ].
Qed.

(** ** Which of the open keys have a text *)

Fixpoint strip (p s : string) : option string :=
  match p, s with
  | EmptyString, _ => Some s
  | String a p', String b s' => if Ascii.eqb a b then strip p' s' else None
  | String _ _, EmptyString => None
  end.

Lemma strip_Some p s r : strip p s = Some r <-> s = p +:+ r.
Proof.
  revert s. induction p as [|a p IH]; intros s; cbn; [split; congruence|].
  destruct s as [|b s]; [done|]. destruct (Ascii.eqb_spec a b) as [->|Hab].
  - rewrite IH. split; [by intros ->|by intros [= ->]].
  - split; [done|]. intros [= -> _]. done.
Qed.

(** What the catalogs have after a prefix. *)
Definition suffixes (p : string) : list string :=
  flat_map (fun '(k, _) => match strip p k with Some r => [r] | None => [] end) en.

Lemma known_suffix p v : known (p +:+ v) = one_of v (suffixes p).
Proof.
  unfold known, suffixes, one_of. induction en as [|[k w] l IH]; [done|]. cbn [assoc flat_map].
  rewrite existsb_app, <- IH. destruct (String.eqb_spec (p +:+ v) k) as [<-|Hk].
  - rewrite (proj2 (strip_Some p (p +:+ v) v)) by done. cbn. by rewrite String.eqb_refl.
  - destruct (strip p k) as [r|] eqn:Es; [|done]. cbn. destruct (String.eqb_spec v r) as [->|]; [|done].
    apply strip_Some in Es. congruence.
Qed.

(** *** Texts in a view *)

Lemma texts_kid {E} x (k : node E) kids tg attrs :
  In k kids -> In x (SettingsFacts.texts k) -> In x (SettingsFacts.texts (El tg attrs kids)).
Proof. intros Hk Hx. cbn. apply in_flat_map. by exists k. Qed.

Section Sources.
Context {L : Locale} (t : string -> string) (language : string).

Lemma source_row_text n i : In (qr_value i) (SettingsFacts.texts (AnalyticsPage.breakdown_row language n true i)).
Proof.
  unfold AnalyticsPage.breakdown_row. eapply texts_kid; [by left|]. unfold cond.
  destruct (truthy _); cbn; auto.
Qed.

Lemma breakdown_text title l total i :
  In i l -> In (qr_value i) (SettingsFacts.texts (AnalyticsPage.Breakdown t language title l total None true)).
Proof.
  intros Hi. unfold AnalyticsPage.Breakdown. destruct l as [|j l]; [done|].
  eapply texts_kid; [right; by left|].
  eapply texts_kid; [by left|]. eapply texts_kid; [by left|].
  apply (texts_kid _ (AnalyticsPage.breakdown_row language (Z.max 1 total) true i)); [|apply source_row_text].
  unfold each. apply in_flat_map. exists i. split; [done|by left].
Qed.

Lemma source_shown p s d i :
  AnalyticsPage.render t language p s <> None -> AnalyticsPage.queryLogging p = true ->
  AnalyticsPage.data s = Some d -> AnalyticsPage.charted d = true -> In i (an_sources d) ->
  In (t ("analytics.source_" +:+ qr_value i))
    (flat_map SettingsFacts.texts (AnalyticsPage.view t language p s)).
Proof.
  unfold AnalyticsPage.view, AnalyticsPage.render, AnalyticsPage.data_panels, AnalyticsPage.charts.
  intros Hr Hp Hd Hc Hi. rewrite Hp, Hd, Hc in Hr |- *. cbn [negb] in *.
  destruct (AnalyticsPage.QueryChart _ _ _ _ _); [|done]. destruct (AnalyticsPage.LatencyChart _ _ _ _ _); [|done].
  cbn [option_map default]. apply in_flat_map. eexists. split; [by left|].
  apply (texts_kid _ (AnalyticsPage.breakdowns t language s d)).
  - rewrite !in_app_iff. right; right. cbn. auto.
  - eapply texts_kid; [right; by left|]. apply (breakdown_text _ _ _ (AnalyticsPage.source_item t i)).
    by apply in_map.
Qed.
End Sources.

(** C37: the analytics page shows a source in words only when it is one of the
    five the catalogs know; for any other source, such as the ["rate_limit"] and
    ["overload"] the server records for queries it turned away, it shows the bare
    key, in every language. *)
Theorem analytics_source_texts (L : Locale) l language p s d i :
  let t := translate dictionaries l in
  AnalyticsPage.render t language p s <> None -> AnalyticsPage.queryLogging p = true ->
  AnalyticsPage.data s = Some d -> AnalyticsPage.charted d = true -> In i (an_sources d) ->
  exists text, In text (flat_map SettingsFacts.texts (AnalyticsPage.view t language p s)) /\
    if one_of (qr_value i) ["upstream"; "cache"; "blocked"; "local"; "refused"]
    then assoc ("analytics.source_" +:+ qr_value i) (dictionaries l) = Some text /\ trim text <> ""
    else text = "analytics.source_" +:+ qr_value i.
Proof.
  intros t Hr Hp Hd Hc Hi. eexists. split; [by eapply source_shown|].
  assert (known ("analytics.source_" +:+ qr_value i)
          = one_of (qr_value i) ["upstream"; "cache"; "blocked"; "local"; "refused"]) as Hk.
  { rewrite known_suffix. by replace (suffixes "analytics.source_")
      with ["upstream"; "cache"; "blocked"; "local"; "refused"] by (vm_compute; reflexivity). }
  rewrite <- Hk. unfold known. pose proof (TranslationsFacts.catalog_text l ("analytics.source_" +:+ qr_value i)) as Ht.
  destruct (assoc _ en); cbn [opt_is_some]; [|exact Ht]. destruct Ht as (v & Hv & Hb & Htr).
  subst t. by rewrite Htr.
Qed.

(** ** Concrete instances *)

(** Analytics with a query that the rate limiter turned away. *)
Definition limited_data : Analytics :=
  let b := mkAnalyticsBucket "" 1 0 0 0 (num 0) in
  mkAnalytics r_24h "" "" 60 None b [b] [] [] [mkQueryRanking "rate_limit" 1 None] [] [].
Definition limited_state : AnalyticsPage.State :=
  AnalyticsPage.mkState r_24h (Some limited_data) None "" false None None.

Lemma analytics_source_texts_witness :
  exists text, In text (flat_map SettingsFacts.texts
    (@AnalyticsPage.view plain_locale (translate dictionaries l_de) "de" (AnalyticsPage.mkProps true) limited_state)) /\
    text = "analytics.source_rate_limit".
Proof.
  apply (@analytics_source_texts plain_locale l_de "de" (AnalyticsPage.mkProps true) limited_state limited_data
    (mkQueryRanking "rate_limit" 1 None)); [|reflexivity|reflexivity|reflexivity|by left].
  vm_compute. discriminate.
Defined.
End PageTextsFacts.
